(* ===== verification/_CoqProject ===== *)
-Q . S2P
Prelude.v
CppString.v
Lines.v
CommonData.v
FixedHash.v
VectorRef.v
Fips202.v
PicoSha3.v
Sha3Sponge.v
Worker.v
Float.v
Difficulty.v
Types.v
Telemetry.v
Log.v
Miner.v
CpuMiner.v
CpuDevice.v
Platform.v
Farm.v
FarmFace.v
FarmLife.v
Digest.v
Regex.v
PoolURI.v
Json.v
PoolManager.v
ApiStat.v
ApiServer.v
ApiProps.v
ApiStream.v
ApiSessions.v
ApiMethods.v
Cli.v
CliProps.v
CliOptions.v
CliHelp.v
Process.v
Getwork.v
Simulate.v
Tls.v
Stratum.v
StratumStream.v
StratumProtocol.v
PoolClient.v
System.v
Shares.v
