(* ===== verification/Prelude.v ===== *)
(** * CoreMiner: a verification development

    CoreMiner is a CPU miner for the CryptOre proof of work.  The program is a set of long-lived
    objects in one process: the command line ([MinerCLI], src/coreminer/main.cpp) makes a [Farm] of
    miners, a [PoolManager] with the pools it may connect to, and an [ApiServer] for monitoring; the
    manager makes a client for the current pool (stratum, getwork or simulation), which reports jobs
    and verdicts back to it; jobs go from the manager to the farm, which gives each miner its own
    segment of nonces; a miner searches its segment and hands solutions to the farm, which passes them
    through the manager to the client.  Everything but the miners' threads runs as handlers on one asio
    service.

    ** How the source is modelled

    A component is a [Record] of its members and one definition per member function, named as in the
    source.  Code that mutates and may throw is in the monad [SE] (state and [res]); an exception keeps
    the changes made before it.  Exceptions are the values of [exn]: the standard ones, those of
    libraries, the pointer that [throw new] throws - and [UndefinedBehaviour], for a null dereference,
    an index outside an array, a pop of an empty queue, an oversized shift or a handler of a destroyed
    object, which no handler catches.  Machine integers are [Z] with each wrap-around written out; bytes are [Z] in [0, 256);
    texts are lists of characters; [std::map] is a list sorted by key; floating-point numbers are the
    executable IEEE 754 values of the standard library.  An asynchronous operation is an event in a
    list or a pending operation in the state; its completion is another definition, and what the
    network and the clock bring is an argument.  Threads are interleaved one atomic access at a time
    (Worker, the main loop in Cli).  Shared URI objects live in a store, referred to by index.

    ** The files

    - Prelude: errors, the monad, machine integers, tactics and hints.  CppString: [std::string],
      streams, [std::stoul] and the like.  Lines: trimming and splitting at line feeds.  Regex: a
      backtracking matcher with the ECMAScript priorities, for the patterns of the program.  Json: the
      JSON library as a class with laws, and a model of it.
    - CommonData, Float, Difficulty (src/libdevcore/CommonData.{h,cpp}): hexadecimal, big-endian,
      formatted sizes and rates, difficulty and target.  FixedHash (FixedHash.h).  VectorRef
      (vector_ref.h): views over a byte memory.  Log (Log.{h,cpp}, Terminal.h, Guards.h, Exceptions.h):
      the log's lines, thread names and colours, the guarded block, the exception texts.
    - Digest: what needs several of these: the text of a digest, random hashes, the fixed-width
      integers of Common.h, [EthashAux::eval].
    - Fips202: the standard, on bits, independently of the code: step mappings, the shift register that
      generates the round constants, padding, sponge, SHA-3 and SHAKE.  PicoSha3
      (src/libethash-cpu/picosha3.h): the permutation as the loops compute it, proved equal to the
      standard's, and the buffered generator.  Sha3Sponge: the generator is the standard's sponge, but for
      messages one byte short of a block.
    - Worker (src/libdevcore/Worker.{h,cpp}): the thread and its controller as a transition system, and
      when the controller's waits end.
    - Types (src/libethcore/EthashAux.h, Miner.h), Telemetry (the line of Miner.h), Miner
      (Miner.{h,cpp}), CpuMiner and CpuDevice (src/libethash-cpu/CPUMiner.{h,cpp}, endian.hpp): the
      search, the work loop, the dataset and the virtual machines.  Platform: the hosts of either byte
      order and the three operating systems.
    - Farm (src/libethcore/Farm.{h,cpp}): segments, accounting, verification, start and stop.  FarmFace:
      the interface of Miner.h as a class, the farm with its posted calls as an instance (a bag: asio
      promises no order for them, so any one may run next), the search submitting to it.  FarmLife: construction, restart and destruction with the virtual machines, the reboot script.
    - PoolURI (src/libpoolprotocols/PoolURI.{h,cpp}), PoolManager (PoolManager.{h,cpp},
      PoolClient.h): connections, rotation, timers, the handlers of client events.
    - Getwork, Simulate, Stratum (getwork/, testing/, stratum/): the clients.  StratumStream and
      StratumProtocol hold theorems about the stratum client, Tls how its connections are secured.
    - ApiStat, ApiServer (src/libapicore/ApiServer.{h,cpp}): the statistics and the server;
      ApiProps, ApiStream, ApiSessions, ApiMethods hold the theorems.
    - Cli (src/coreminer/main.cpp) and CliProps: arguments, start and stop of the process, the main
      loop, exit codes, and how the parts are put together.  CliOptions: the declared options, their
      checks and variables.  CliHelp: the help texts.  Process: the io thread, the display timer, the
      signal handler, the console of Windows, DBusInt.h.
    - PoolClient (PoolClient.h): the abstract client as a class with its promise, the three clients as
      instances, and the choice between them.
    - System: farm, manager and any instance of PoolClient composed, with the calls they make on one
      another, as a refinement of a ledger of shares and verdicts.  Shares, for the stratum client: the
      way of a share, from the line of a job to the counters of its miner.

    ** What the theorems show

    - The whole: with every client of the interface, every run of the composed system is a run of the
      ledger (for the clients whose uninitialised largest id is below the ids of submissions); a job
      reaches the miners in the step in which its line is read; a nonce of a job is found twice only
      when a miner has run past its segment, which the search does not check; no solution is lost on its
      way to the manager; a share is written once and its verdict counted once, for its miner.
    - Hashing and search: the SHA-3 code is the standard's (but for messages one byte short of a
      block, where the padding is wrong: [padding_one_byte_short]); the boundary test is the order of
      the big-endian numbers; an uninterrupted search submits exactly the solutions of its range; the
      dataset is made once and initialised exactly once.
    - Distribution: with an extranonce, and without, the miners' segments are disjoint and inside
      what the pool granted; the telemetry of every reachable farm is consistent; a paused miner never
      holds work; only solutions below the boundary are forwarded; virtual machines live as long as
      their miners and are gone before the dataset.
    - Connections: the active index is valid in every reachable manager; failover, retries and
      termination happen as configured; parsing a connection string gives back its parts.
    - Stratum and getwork: the invariant of the client over all its handlers; a transmission is its
      lines wherever they were cut; order of requests; one verdict per submission, for the miner that found it; jobs, extranonces and the
      detection of the protocol's flavour.
    - API: without the password nothing changes; a read-only server changes nothing; every line is
      answered, in order, and later writes repeat earlier answers; sessions are identified; what a method sets is what is reported.
    - Process: accepted options are within their ranges, the configured pools and devices are those
      used, the API listens where it is told to; the help names options and schemes that exist.
    - Where the code has a defect, a theorem states what it does: a handler that outlives its session,
      a short transmission that stalls a session, a lost signal, a null client, an early time-out, a
      second disconnection, an oversized block number.

    ** Parameters, fuel and bounds

    Libraries are classes with their documented behaviour as laws, each with an instance that shows
    the laws can hold together: [Json] (jsoncpp), [BoostUri] (Boost), [BigInteger] (cpp_int),
    [Ethash] and [EthashLib] (ethash), [Cli11] (the conversions of CLI11).  The
    file system and the process library are the class [System] of FarmLife.  RandomY is a function
    from seeds to hashes, and its calls are recorded in CpuDevice.  Fuel appears where the recursion is not structural, and is enough by construction: the
    digits of a number need at most its number of bits; a regular expression's repetition and the line
    loops at most the length of the text, because each turn consumes a character; the scaling
    loops are bounded by the code itself.  The receive loops of the clients and the API server are
    given one turn more than their buffer has characters; [read_loop_fuel], [loop_responses] and
    [receive_loop_lines] show that more fuel changes nothing.

    ** Not modelled

    Output: the banner, the texts of most log statements (those that carry state, such as the telemetry
    line, are modelled).  Libraries: how CLI11 takes a command line apart, sockets, the TLS protocol, name resolution
    and timers beyond when they fire, processor affinity, the file system, Boost's error information.
    Of the code for Windows the certificate store and the socket options.  Data races on plain
    variables, such as the flag of the main loop, are taken as interleavings of whole accesses.
    What the map leaves uncovered is otherwise text without behaviour: licences, includes, prototypes and
    access labels of the headers, type aliases, names of log channels. *)

From Stdlib Require Export ZArith Lia Ascii String.
From stdpp Require Export prelude strings list.

#[global] Open Scope Z_scope.

(** ** Exceptions and the error monad

    C++ exceptions are values.  [ThrownPointer] is what [throw new E()] throws: a
    pointer, which no [catch (const std::exception&)] matches.  [UndefinedBehaviour] marks a
    path on which the language gives the program no meaning (an index outside an array); it is
    not an exception, so no handler catches it either. *)

Inductive exn : Type :=
  | RuntimeError (what : string)
  | InvalidArgument (what : string)
  | OutOfRange (what : string)
  | BadHexCharacter
  | LibError (what : string)
  | ThrownPointer
  | UndefinedBehaviour (what : string).

#[export] Instance exn_eq_dec : EqDecision exn.
Proof. solve_decision. Defined.

Inductive res (A : Type) : Type :=
  | Ok (a : A)
  | Throw (e : exn).
Arguments Ok {A} a.
Arguments Throw {A} e.

#[export] Instance res_eq_dec `{EqDecision A} : EqDecision (res A).
Proof. solve_decision. Defined.

Definition res_bind {A B} (m : res A) (f : A -> res B) : res B :=
  match m with Ok a => f a | Throw e => Throw e end.

(** Whether a [catch (const std::exception&)] clause handles the exception. *)
Definition caught_by_std (e : exn) : bool :=
  match e with ThrownPointer | UndefinedBehaviour _ => false | _ => true end.

Declare Scope res_scope.
Delimit Scope res_scope with res.
Notation "'let!' x ':=' c 'in' k" := (res_bind c (fun x => k))
  (at level 10, x pattern, c at level 100, k at level 200,
   format "'[v' 'let!'  x  ':='  c  'in' '/' k ']'") : res_scope.
#[global] Open Scope res_scope.

(** [try ... catch (const std::exception&) { h }] for a result. *)
Definition catch_std {A} (m : res A) (h : exn -> res A) : res A :=
  match m with
  | Ok a => Ok a
  | Throw e => if caught_by_std e then h e else Throw e
  end.

Lemma res_bind_ok {A B} (m : res A) (f : A -> res B) b :
  res_bind m f = Ok b -> exists a, m = Ok a /\ f a = Ok b.
Proof. destruct m; simpl; [eauto | discriminate]. Qed.

(** A state that survives a throw: the writes made before the [throw] stay. *)
Definition SE (S A : Type) : Type := S -> res A * S.

Definition se_ret {S A} (a : A) : SE S A := fun s => (Ok a, s).
Definition se_throw {S A} (e : exn) : SE S A := fun s => (Throw e, s).
Definition se_bind {S A B} (m : SE S A) (f : A -> SE S B) : SE S B := fun s =>
  match m s with
  | (Ok a, s') => f a s'
  | (Throw e, s') => (Throw e, s')
  end.
Definition se_get {S} : SE S S := fun s => (Ok s, s).
Definition se_modify {S} (f : S -> S) : SE S unit := fun s => (Ok tt, f s).
Definition se_lift {S A} (m : res A) : SE S A := fun s => (m, s).

Declare Scope se_scope.
Delimit Scope se_scope with se.
Notation "'do' x <- c ; k" := (se_bind c (fun x => k))
  (at level 10, x pattern, c at level 100, k at level 200,
   format "'[v' 'do'  x  <-  c ; '/' k ']'") : se_scope.
Notation "'exec' c ; k" := (se_bind c (fun _ => k))
  (at level 10, c at level 100, k at level 200,
   format "'[v' 'exec'  c ; '/' k ']'") : se_scope.

(** ** Reasoning about stateful operations

    [se_ensures P m Q]: started where [P] holds, [m] ends where [Q] holds, whether it returns
    or throws; [se_preserves P m] is [se_ensures P m P].  [se_frame f m]: [m] neither reads nor
    writes what [f] changes. *)

Definition se_ensures {S A} (P : S -> Prop) (m : SE S A) (Q : S -> Prop) : Prop :=
  forall s, P s -> Q (snd (m s)).
Definition se_preserves {S A} (P : S -> Prop) (m : SE S A) : Prop := se_ensures P m P.
Definition se_frame {S A} (f : S -> S) (m : SE S A) : Prop :=
  forall s, m (f s) = (fst (m s), f (snd (m s))).

Section se_reasoning.
Context {St : Type} (P : St -> Prop) (f : St -> St).

Lemma preserves_ret {A} (a : A) : se_preserves P (se_ret a).
Proof. by intros s. Qed.
Lemma preserves_throw {A} e : se_preserves P (@se_throw St A e).
Proof. by intros s. Qed.
Lemma preserves_lift {A} (m : res A) : se_preserves P (se_lift m).
Proof. by intros s. Qed.
Lemma preserves_modify g : (forall s, P s -> P (g s)) -> se_preserves P (se_modify g).
Proof. intros Hg s. apply Hg. Qed.
Lemma ensures_bind {A B} (R Q : St -> Prop) (m : SE St A) (k : A -> SE St B) :
  se_ensures P m R -> (forall a, se_ensures R (k a) Q) -> (forall s, R s -> Q s) ->
  se_ensures P (se_bind m k) Q.
Proof.
  intros Hm Hk HRQ s Hs. unfold se_bind. specialize (Hm s Hs).
  destruct (m s) as [[a|e] s']; [by apply Hk | by apply HRQ].
Qed.
Lemma ensures_weaken {A} (Q : St -> Prop) (m : SE St A) :
  se_preserves P m -> (forall s, P s -> Q s) -> se_ensures P m Q.
Proof. intros Hm HQ s Hs. by apply HQ, Hm. Qed.
Lemma preserves_lift_bind {A B} (m : res A) (k : A -> SE St B) :
  (forall a, m = Ok a -> se_preserves P (k a)) -> se_preserves P (se_bind (se_lift m) k).
Proof. intros Hk s Hs. unfold se_bind, se_lift. destruct m; [by apply Hk | done]. Qed.
Lemma preserves_bind {A B} (m : SE St A) (k : A -> SE St B) :
  se_preserves P m -> (forall a, se_preserves P (k a)) -> se_preserves P (se_bind m k).
Proof. intros Hm Hk. by apply (ensures_bind P). Qed.

Lemma frame_ret {A} (a : A) : se_frame f (se_ret a).
Proof. by intros s. Qed.
Lemma frame_throw {A} e : se_frame f (@se_throw St A e).
Proof. by intros s. Qed.
Lemma frame_lift {A} (m : res A) : se_frame f (se_lift m).
Proof. by intros s. Qed.
Lemma frame_modify g : (forall s, g (f s) = f (g s)) -> se_frame f (se_modify g).
Proof. intros Hg s. unfold se_modify. by rewrite Hg. Qed.
Lemma frame_bind {A B} (m : SE St A) (k : A -> SE St B) :
  se_frame f m -> (forall a, se_frame f (k a)) -> se_frame f (se_bind m k).
Proof.
  intros Hm Hk s. unfold se_bind. rewrite Hm. destruct (m s) as [[a|e] s']; [apply Hk | done].
Qed.
End se_reasoning.

(** ** Machine integers: values are in [Z], every operation wraps explicitly *)

Definition wrap (w z : Z) : Z := z mod 2 ^ w.
Abbreviation u8 := (wrap 8).
Abbreviation u16 := (wrap 16).
Abbreviation u32 := (wrap 32).
Abbreviation u64 := (wrap 64).

(** Conversion to a signed 32-bit [int]. *)
Definition i32 (z : Z) : Z :=
  let m := z mod 2 ^ 32 in if m <? 2 ^ 31 then m else m - 2 ^ 32.

Definition in_range (w z : Z) : Prop := 0 <= z < 2 ^ w.

#[export] Instance in_range_dec w z : Decision (in_range w z).
Proof. unfold in_range. apply _. Defined.

Lemma wrap_range w z : 0 <= w -> in_range w (wrap w z).
Proof. intros Hw. unfold in_range, wrap. apply Z.mod_pos_bound. lia. Qed.

Lemma wrap_id w z : in_range w z -> wrap w z = z.
Proof. intros H. by apply Z.mod_small. Qed.

Lemma wrap_wrap w z : wrap w (wrap w z) = wrap w z.
Proof. unfold wrap. rewrite Zmod_mod. done. Qed.

Lemma wrap_add_l w a b : wrap w (wrap w a + b) = wrap w (a + b).
Proof. unfold wrap. apply Zplus_mod_idemp_l. Qed.

Lemma wrap_add_r w a b : wrap w (a + wrap w b) = wrap w (a + b).
Proof. unfold wrap. apply Zplus_mod_idemp_r. Qed.

Lemma i32_range z : - 2 ^ 31 <= i32 z < 2 ^ 31.
Proof.
  unfold i32. cbn zeta. pose proof (Z.mod_pos_bound z (2 ^ 32) ltac:(lia)).
  destruct (Z.ltb_spec (z mod 2 ^ 32) (2 ^ 31)); lia.
Qed.

Lemma in_range_mono v w z : v <= w -> in_range v z -> in_range w z.
Proof.
  unfold in_range. intros Hvw [H1 H2]. split; [done|].
  destruct (decide (v < 0)).
  - rewrite (Z.pow_neg_r 2 v) in H2 by lia. lia.
  - assert (2 ^ v <= 2 ^ w) by (apply Z.pow_le_mono_r; lia). lia.
Qed.

(** A decidable property of a small range, checked by evaluation. *)
Lemma z_range_check (P : Z -> Prop) `{forall z, Decision (P z)} (n : nat) :
  forallb (fun i => bool_decide (P (Z.of_nat i))) (List.seq 0 n) = true ->
  forall z, 0 <= z < Z.of_nat n -> P z.
Proof.
  intros Hb z Hz. rewrite forallb_forall in Hb.
  specialize (Hb (Z.to_nat z)). rewrite Z2Nat.id in Hb by lia.
  eapply bool_decide_eq_true_1, Hb, in_seq. lia.
Qed.

(** ** Automation shared by the components *)

Create HintDb miner discriminated.
Create Rewrite HintDb miner.
(** Running an operation one step at a time. *)
Create Rewrite HintDb se_run.
Section se_running.
Context {St A B C : Type}.
Lemma run_ret (a : A) (k : A -> SE St B) s : se_bind (se_ret a) k s = k a s.
Proof. done. Qed.
Lemma run_throw e (k : A -> SE St B) s : se_bind (se_throw e) k s = (Throw e, s).
Proof. done. Qed.
Lemma run_modify f (k : unit -> SE St B) s : se_bind (se_modify f) k s = k tt (f s).
Proof. done. Qed.
Lemma run_lift (m : res A) (k : A -> SE St B) s :
  se_bind (se_lift m) k s = match m with Ok a => k a s | Throw e => (Throw e, s) end.
Proof. by destruct m. Qed.
Lemma run_assoc (m : SE St A) (h : A -> SE St B) (k : B -> SE St C) s :
  se_bind (se_bind m h) k s = se_bind m (fun a => se_bind (h a) k) s.
Proof. unfold se_bind. by destruct (m s) as [[]]. Qed.
Lemma run_ok (m : SE St A) (k : A -> SE St B) s a s' : m s = (Ok a, s') -> se_bind m k s = k a s'.
Proof. unfold se_bind. by intros ->. Qed.
Lemma run_err (m : SE St A) (k : A -> SE St B) s e s' : m s = (Throw e, s') -> se_bind m k s = (Throw e, s').
Proof. unfold se_bind. by intros ->. Qed.
End se_running.
#[export] Hint Rewrite @run_ret @run_throw @run_modify @run_lift @run_assoc : se_run.

#[export] Hint Resolve preserves_ret preserves_throw preserves_lift preserves_modify preserves_bind
  frame_ret frame_throw frame_lift frame_modify frame_bind : miner.
#[export] Hint Resolve wrap_range : miner.
#[export] Hint Rewrite wrap_wrap wrap_add_l wrap_add_r : miner.

(** Case analysis on the scrutinee of a [match] or [if], in the goal or a hypothesis. *)
Ltac case_scrut :=
  match goal with
  | |- context [match ?x with _ => _ end] => destruct x eqn:?
  | H : context [match ?x with _ => _ end] |- _ => destruct x eqn:?
  end.

(** Turn boolean tests into propositions. *)
Ltac bool_to_prop :=
  repeat match goal with
  | H : _ && _ = true |- _ => apply andb_true_iff in H; destruct H
  | H : _ || _ = false |- _ => apply orb_false_iff in H; destruct H
  | H : negb _ = true |- _ => apply negb_true_iff in H
  | H : negb _ = false |- _ => apply negb_false_iff in H
  | H : (_ <? _) = true |- _ => apply Z.ltb_lt in H
  | H : (_ <? _) = false |- _ => apply Z.ltb_ge in H
  | H : (_ <=? _) = true |- _ => apply Z.leb_le in H
  | H : (_ <=? _) = false |- _ => apply Z.leb_gt in H
  | H : (_ =? _) = true |- _ => apply Z.eqb_eq in H
  | H : (_ =? _) = false |- _ => apply Z.eqb_neq in H
  | H : bool_decide _ = true |- _ => apply bool_decide_eq_true in H
  | H : bool_decide _ = false |- _ => apply bool_decide_eq_false in H
  | H : String.eqb _ _ = true |- _ => apply String.eqb_eq in H
  | H : String.eqb _ _ = false |- _ => apply String.eqb_neq in H
  end.

(** A closed decidable proposition, by evaluating its decision procedure. *)
Ltac by_evaluation := refine (bool_decide_eq_true_1 _ _); vm_compute; reflexivity.
