(* ===== verification/CppString.v ===== *)
(** * std::string and the numeric conversions of the standard library

    The part of [std::string], [std::stringstream] and [<string>] conversions the miner
    uses: indexing, [substr], [find], [resize], [std::setw]/[std::setfill] padding,
    hexadecimal and decimal output, [std::stoul]/[std::stoull]/[std::stoi].  *)

From S2P Require Import Prelude.

#[global] Open Scope string_scope.
#[global] Open Scope list_scope.
#[global] Open Scope Z_scope.

(** ** Characters *)

Definition code (c : ascii) : Z := Z.of_N (N_of_ascii c).
Definition chr (z : Z) : ascii := ascii_of_N (Z.to_N (u8 z)).
Definition NUL : ascii := Ascii.zero.

Definition is_digit (c : ascii) : bool := (48 <=? code c) && (code c <=? 57).
Definition is_upper (c : ascii) : bool := (65 <=? code c) && (code c <=? 90).
Definition is_lower (c : ascii) : bool := (97 <=? code c) && (code c <=? 122).
(** [std::isspace] of the "C" locale. *)
Definition is_space (c : ascii) : bool :=
  (code c =? 32) || ((9 <=? code c) && (code c <=? 13)).

Definition tolower (c : ascii) : ascii := if is_upper c then chr (code c + 32) else c.

Lemma code_range c : 0 <= code c < 256.
Proof. unfold code. pose proof (N_ascii_bounded c). lia. Qed.

Lemma chr_code c : chr (code c) = c.
Proof.
  unfold chr, code. rewrite wrap_id by apply (code_range c).
  rewrite N2Z.id. apply ascii_N_embedding.
Qed.

Lemma code_chr z : 0 <= z < 256 -> code (chr z) = z.
Proof.
  intros H. unfold chr, code. rewrite wrap_id by done.
  rewrite N_ascii_embedding; [|lia]. lia.
Qed.

Lemma code_inj a b : code a = code b -> a = b.
Proof. intros H. by rewrite <- (chr_code a), <- (chr_code b), H. Qed.

(** ** std::string operations *)

Definition size (s : string) : Z := Z.of_nat (String.length s).

(** [s[i]]: the terminating NUL at [i == size()]. *)
Fixpoint sget (s : string) (i : nat) : ascii :=
  match s, i with
  | EmptyString, _ => NUL
  | String c _, O => c
  | String _ s', S i' => sget s' i'
  end.

Fixpoint sdrop (n : nat) (s : string) : string :=
  match n, s with
  | O, _ => s
  | S _, EmptyString => EmptyString
  | S n', String _ s' => sdrop n' s'
  end.

Fixpoint stake (n : nat) (s : string) : string :=
  match n, s with
  | O, _ => EmptyString
  | S _, EmptyString => EmptyString
  | S n', String c s' => String c (stake n' s')
  end.

(** [s.substr(pos, len)] throws [std::out_of_range] when [pos > size()]. *)
Definition substr (s : string) (pos len : nat) : res string :=
  if (String.length s <? pos)%nat then Throw (OutOfRange "basic_string::substr")
  else Ok (stake len (sdrop pos s)).

(** [s.substr(0, n)] cannot throw. *)
Definition sprefix (n : nat) (s : string) : string := stake n s.

Fixpoint sfill (n : nat) (c : ascii) : string :=
  match n with O => EmptyString | S n' => String c (sfill n' c) end.

(** [s.resize(n, c)]. *)
Definition resize (s : string) (n : nat) (c : ascii) : string :=
  if (n <=? String.length s)%nat then stake n s
  else s +:+ sfill (n - String.length s) c.

(** [s.find(c)]: the first offset of a character. *)
Fixpoint find_char (c : ascii) (s : string) : option nat :=
  match s with
  | EmptyString => None
  | String d s' => if Ascii.eqb c d then Some O else S <$> find_char c s'
  end.

(** [s.find(pat)] for a non-empty pattern. *)
Fixpoint find_str (pat s : string) : option nat :=
  if String.prefix pat s then Some O
  else match s with
       | EmptyString => None
       | String _ s' => S <$> find_str pat s'
       end.

Fixpoint smap (f : ascii -> ascii) (s : string) : string :=
  match s with EmptyString => EmptyString | String c s' => String (f c) (smap f s') end.

Fixpoint sforall (p : ascii -> bool) (s : string) : bool :=
  match s with EmptyString => true | String c s' => p c && sforall p s' end.

Lemma string_app_cons c a b : String c a +:+ b = String c (a +:+ b).
Proof. done. Qed.

Lemma string_app_nil_r s : s +:+ "" = s.
Proof. induction s as [|c s IH]; [done|]. exact (f_equal (String c) IH). Qed.

Lemma string_app_assoc a b c : (a +:+ b) +:+ c = a +:+ (b +:+ c).
Proof. induction a as [|x a IH]; [done|]. exact (f_equal (String x) IH). Qed.

Lemma string_length_app a b :
  String.length (a +:+ b) = (String.length a + String.length b)%nat.
Proof. induction a as [|x a IH]; [done|]. exact (f_equal S IH). Qed.

Lemma sfill_length n c : String.length (sfill n c) = n.
Proof. induction n; simpl; congruence. Qed.

Lemma stake_length n s : (n <= String.length s)%nat -> String.length (stake n s) = n.
Proof. revert s. induction n; intros [|c s]; simpl; intros; try lia. rewrite IHn; lia. Qed.

Lemma stake_app s t : stake (String.length s) (s +:+ t) = s.
Proof.
  induction s; [by destruct t|].
  rewrite string_app_cons. simpl. by f_equal.
Qed.

Lemma sdrop_app s t : sdrop (String.length s) (s +:+ t) = t.
Proof. induction s; [done|]. rewrite string_app_cons. done. Qed.

Lemma stake_sdrop n s : stake n s +:+ sdrop n s = s.
Proof. revert s. induction n; intros [|c s]; try done. simpl. by rewrite string_app_cons, IHn. Qed.

Lemma stake_all s : stake (String.length s) s = s.
Proof. induction s; simpl; [done|]. by f_equal. Qed.

Lemma stake_ge n s : (String.length s <= n)%nat -> stake n s = s.
Proof.
  revert n. induction s as [|c s IH]; intros [|n] Hn; simpl in *; try done; [lia|]. by rewrite IH by lia.
Qed.

Lemma resize_length s n c : String.length (resize s n c) = n.
Proof.
  unfold resize. destruct (Nat.leb_spec n (String.length s)).
  - by apply stake_length.
  - rewrite string_length_app, sfill_length. lia.
Qed.

Lemma sforall_app p a b : sforall p (a +:+ b) = sforall p a && sforall p b.
Proof.
  induction a as [|x a IH]; [done|].
  rewrite string_app_cons. simpl. by rewrite IH, andb_assoc.
Qed.

#[export] Hint Rewrite string_app_nil_r string_app_cons string_app_assoc string_length_app sfill_length
  stake_app sdrop_app resize_length : miner.

(** A character found by [find] splits the string at its first occurrence. *)
Lemma prefix_length p s : String.prefix p s = true -> (String.length p <= String.length s)%nat.
Proof.
  revert s. induction p as [|c p IH]; intros [|d s]; simpl; [lia|lia|done|].
  destruct (ascii_dec c d); [|done]. intros H. apply IH in H. lia.
Qed.

(** An occurrence lies within the text. *)
Lemma find_str_length pat s i : find_str pat s = Some i -> (i + String.length pat <= String.length s)%nat.
Proof.
  revert i. induction s as [|d s IH]; intros i; cbn [find_str].
  - destruct (String.prefix pat "") eqn:E; [|done]. intros [= <-]. by apply prefix_length in E.
  - destruct (String.prefix pat (String d s)) eqn:E; [intros [= <-]; by apply prefix_length in E|].
    destruct (find_str pat s) as [j|]; [|done]. intros [= <-]. specialize (IH j eq_refl). simpl. lia.
Qed.

Lemma sdrop_length n s : String.length (sdrop n s) = (String.length s - n)%nat.
Proof. revert n. induction s as [|c s IH]; intros [|n]; simpl; auto. Qed.

Lemma stake_length_le n s : (String.length (stake n s) <= n)%nat.
Proof. revert n. induction s as [|c s IH]; intros [|n]; simpl; try lia. specialize (IH n). lia. Qed.

Lemma find_char_Some c s i : find_char c s = Some i ->
  s = stake i s +:+ String c (sdrop (S i) s) /\ find_char c (stake i s) = None /\
  (i < String.length s)%nat.
Proof.
  revert i. induction s as [|d s IH]; intros i; [done|]. simpl.
  destruct (Ascii.eqb_spec c d) as [->|Hne].
  - intros [= <-]. simpl. destruct s; split_and!; auto; lia.
  - destruct (find_char c s) as [j|] eqn:E; [|done]. intros [= <-].
    destruct (IH j eq_refl) as (H1 & H2 & H3). simpl in *. split_and!.
    + by rewrite string_app_cons, <- H1.
    + destruct (Ascii.eqb_spec c d); [done|]. by rewrite H2.
    + lia.
Qed.

(** ** Positional output: [std::hex], [std::dec], [std::to_string] *)

Definition digit_char (d : Z) : ascii := if d <? 10 then chr (48 + d) else chr (87 + d).

(** Value of a digit in any base up to 16, both letter cases. *)
Definition digit_val (c : ascii) : option Z :=
  if is_digit c then Some (code c - 48)
  else if (97 <=? code c) && (code c <=? 102) then Some (code c - 87)
  else if (65 <=? code c) && (code c <=? 70) then Some (code c - 55)
  else None.

Fixpoint digits_go (fuel : nat) (base z : Z) (acc : string) : string :=
  match fuel with
  | O => acc
  | S f =>
      let acc' := String (digit_char (z mod base)) acc in
      if z <? base then acc' else digits_go f base (z / base) acc'
  end.

(** [os << std::hex << z] and [os << z] for a non-negative [z]; the number of binary
    digits of [z] bounds its number of digits in any base. *)
Definition to_base (base z : Z) : string := digits_go (S (Z.to_nat (Z.log2 z))) base z "".

Definition hex_str (z : Z) : string := to_base 16 z.
Definition dec_str (z : Z) : string :=
  if z <? 0 then "-" +:+ to_base 10 (- z) else to_base 10 z.

(** [std::setfill(c) << std::setw(w)] applied to an output: pads on the left, never cuts. *)
Definition setw (w : nat) (c : ascii) (s : string) : string :=
  sfill (w - String.length s) c +:+ s.

(** ** Positional input: [strtoul], [strtoull], [strtol] *)

Fixpoint digits_value (base acc : Z) (s : string) : Z :=
  match s with
  | EmptyString => acc
  | String c s' =>
      match digit_val c with
      | Some d => if d <? base then digits_value base (acc * base + d) s' else acc
      | None => acc
      end
  end.

Definition starts_digit (base : Z) (s : string) : bool :=
  match s with
  | EmptyString => false
  | String c _ => match digit_val c with Some d => d <? base | None => false end
  end.

Fixpoint skip_space (s : string) : string :=
  match s with
  | String c s' => if is_space c then skip_space s' else s
  | EmptyString => EmptyString
  end.

(** Sign, then the text after it. *)
Definition take_sign (s : string) : bool * string :=
  match s with
  | String c s' =>
      if Ascii.eqb c "-" then (true, s') else if Ascii.eqb c "+" then (false, s') else (false, s)
  | EmptyString => (false, s)
  end.

(** Drops [0x]/[0X] when a hexadecimal digit follows, as [strtoul] does in base 16. *)
Definition drop_0x (base : Z) (s : string) : string :=
  match s with
  | String z (String x s') =>
      if (base =? 16) && Ascii.eqb z "0" && (Ascii.eqb x "x" || Ascii.eqb x "X")
         && starts_digit base s'
      then s' else s
  | _ => s
  end.

(** The sign and magnitude [strtoul] reads, [None] when there is nothing to convert. *)
Definition strto (base : Z) (s : string) : option (bool * Z) :=
  let '(neg, t) := take_sign (skip_space s) in
  let t := drop_0x base t in
  if starts_digit base t then Some (neg, digits_value base 0 t) else None.

(** [std::stoul]/[std::stoull] with 64-bit [unsigned long]. *)
Definition stoull (s : string) (base : Z) : res Z :=
  match strto base s with
  | None => Throw (InvalidArgument "stoul")
  | Some (neg, v) =>
      if v <? 2 ^ 64 then Ok (if neg then u64 (- v) else v)
      else Throw (OutOfRange "stoul")
  end.

(** [std::stoi]. *)
Definition stoi (s : string) (base : Z) : res Z :=
  match strto base s with
  | None => Throw (InvalidArgument "stoi")
  | Some (neg, v) =>
      let v := if neg then - v else v in
      if (- 2 ^ 31 <=? v) && (v <? 2 ^ 31) then Ok v else Throw (OutOfRange "stoi")
  end.

Lemma digits_value_nonneg base s : forall acc, 0 <= base -> 0 <= acc -> 0 <= digits_value base acc s.
Proof.
  induction s as [|c s IH]; intros acc Hb Ha; [done|]. cbn [digits_value].
  destruct (digit_val c) as [d|] eqn:E; [|done]. destruct (d <? base); [|done]. apply IH; [done|].
  assert (0 <= d); [|nia]. unfold digit_val in E. repeat case_match; simplify_eq; bool_to_prop;
    unfold is_digit, is_upper, is_lower in *; bool_to_prop; lia.
Qed.

Lemma stoull_range s base n : 0 <= base -> stoull s base = Ok n -> in_range 64 n.
Proof.
  unfold stoull, strto. intros Hb. destruct (take_sign (skip_space s)) as [neg t].
  destruct (starts_digit base (drop_0x base t)); [|done].
  pose proof (digits_value_nonneg base (drop_0x base t) 0 Hb ltac:(done)).
  destruct (Z.ltb_spec (digits_value base 0 (drop_0x base t)) (2 ^ 64)); [|done].
  intros E. injection E as <-. destruct neg; [by apply wrap_range|]. split; lia.
Qed.

Lemma digit_val_char d : 0 <= d < 16 -> digit_val (digit_char d) = Some d.
Proof. by apply (z_range_check (fun d => digit_val (digit_char d) = Some d) 16). Qed.

Lemma digits_value_app base acc a b :
  sforall (fun c => match digit_val c with Some d => d <? base | None => false end) a = true ->
  digits_value base acc (a +:+ b) = digits_value base (digits_value base acc a) b.
Proof.
  revert acc. induction a as [|c a IH]; intros acc H; [done|].
  rewrite string_app_cons. simpl in *.
  destruct (digit_val c); [|done]. destruct (_ <? _); [|done]. by apply IH.
Qed.

Lemma digits_go_spec fuel base z acc : 1 < base <= 16 -> 0 <= z < 2 ^ Z.of_nat fuel ->
  (0 < fuel)%nat ->
  exists s, digits_go fuel base z acc = s +:+ acc /\
    starts_digit base s = true /\
    sforall (fun c => match digit_val c with Some d => d <? base | None => false end) s = true /\
    digits_value base 0 s = z.
Proof.
  intros Hb. revert z acc. induction fuel as [|fuel IH]; intros z acc Hz Hf; [lia|].
  assert (0 <= z mod base < base) by (apply Z.mod_pos_bound; lia).
  assert (Hd : digit_val (digit_char (z mod base)) = Some (z mod base))
    by (apply digit_val_char; lia).
  assert (Hl : z mod base <? base = true) by (apply Z.ltb_lt; lia).
  simpl. destruct (Z.ltb_spec z base).
  - exists (String (digit_char (z mod base)) ""). rewrite string_app_cons. simpl.
    rewrite Hd, Hl. split_and!; auto. rewrite Z.mod_small; lia.
  - assert (z / base < 2 ^ Z.of_nat fuel).
    { rewrite Nat2Z.inj_succ, Z.pow_succ_r in Hz by lia.
      apply Z.div_lt_upper_bound; nia. }
    destruct (IH (z / base) (String (digit_char (z mod base)) acc)) as (s & -> & Hs1 & Hs2 & Hs3).
    { split; [apply Z.div_pos; lia | done]. }
    { destruct fuel; [|lia]. simpl in *. assert (0 < z / base) by (apply Z.div_str_pos; lia). lia. }
    exists (s +:+ String (digit_char (z mod base)) ""). split_and!.
    + by rewrite string_app_assoc.
    + destruct s; [done|]. done.
    + rewrite sforall_app, Hs2. simpl. by rewrite Hd, Hl.
    + rewrite digits_value_app, Hs3 by done. simpl. rewrite Hd, Hl.
      rewrite (Z.div_mod z base) at 3 by lia. lia.
Qed.

(** Output in a base reads back as the same number. *)
Lemma to_base_spec base z : 1 < base <= 16 -> 0 <= z ->
  starts_digit base (to_base base z) = true /\
  sforall (fun c => match digit_val c with Some d => d <? base | None => false end)
    (to_base base z) = true /\
  digits_value base 0 (to_base base z) = z.
Proof.
  intros Hb Hz.
  destruct (digits_go_spec (S (Z.to_nat (Z.log2 z))) base z "") as (s & E & H1 & H2 & H3);
    [done| |lia|].
  - rewrite Nat2Z.inj_succ, Z2Nat.id by apply Z.log2_nonneg.
    destruct (decide (z = 0)) as [->|]; [done|]. pose proof (Z.log2_spec z). lia.
  - unfold to_base. rewrite E, string_app_nil_r. auto.
Qed.

(** ** Fixed-width hexadecimal *)

Lemma digits_go_acc f base z acc : digits_go f base z acc = digits_go f base z "" +:+ acc.
Proof.
  revert z acc. induction f as [|f IH]; intros z acc; [done|]. cbn [digits_go].
  destruct (z <? base); [done|]. rewrite IH, (IH _ (String _ "")), string_app_assoc. done.
Qed.

Lemma digits_go_fuel f g base z acc : 1 < base -> 0 <= z ->
  z < 2 ^ Z.of_nat f -> z < 2 ^ Z.of_nat g -> (0 < f)%nat -> (0 < g)%nat ->
  digits_go f base z acc = digits_go g base z acc.
Proof.
  intros Hb. revert g z acc. induction f as [|f IH]; intros g z acc Hz Hf Hg ??; [lia|].
  destruct g as [|g]; [lia|]. cbn [digits_go]. destruct (Z.ltb_spec z base); [done|].
  rewrite !Nat2Z.inj_succ, !Z.pow_succ_r in * by lia.
  assert (0 < z / base) by (apply Z.div_str_pos; lia).
  assert (forall k, z < 2 * 2 ^ k -> z / base < 2 ^ k)
    by (intros; apply Z.div_lt_upper_bound; nia).
  apply IH; auto; try lia; destruct f, g; simpl in *; try lia;
    repeat match goal with H : forall _, _ |- _ => specialize (H 0) end; simpl in *; lia.
Qed.

Lemma log2_fuel z : 0 <= z -> z < 2 ^ Z.of_nat (S (Z.to_nat (Z.log2 z))).
Proof.
  intros Hz. rewrite Nat2Z.inj_succ, Z2Nat.id by apply Z.log2_nonneg.
  destruct (decide (z = 0)) as [->|]; [done|]. pose proof (Z.log2_spec z). lia.
Qed.

Lemma to_base_small base z : 0 <= z < base -> to_base base z = String (digit_char z) "".
Proof.
  intros H. unfold to_base. cbn [digits_go]. destruct (Z.ltb_spec z base); [|lia].
  by rewrite Z.mod_small.
Qed.

Lemma to_base_step base z : 1 < base -> base <= z ->
  to_base base z = to_base base (z / base) +:+ String (digit_char (z mod base)) "".
Proof.
  intros Hb Hz. unfold to_base at 1. cbn [digits_go]. destruct (Z.ltb_spec z base); [lia|].
  rewrite digits_go_acc. f_equal. assert (0 < z / base) by (apply Z.div_str_pos; lia).
  assert (Hlt : z / base < 2 ^ Z.of_nat (Z.to_nat (Z.log2 z))).
  { pose proof (log2_fuel z ltac:(lia)) as Hf. rewrite Nat2Z.inj_succ, Z.pow_succ_r in Hf by lia.
    apply Z.div_lt_upper_bound; nia. }
  apply digits_go_fuel; auto; try lia; [apply log2_fuel; lia|].
  destruct (Z.to_nat (Z.log2 z)); simpl in *; lia.
Qed.

(** The [w] low hexadecimal digits of a number, zero padded. *)
Fixpoint hex_fixed (w : nat) (n : Z) : string :=
  match w with
  | O => ""
  | S w' => hex_fixed w' (n / 16) +:+ String (digit_char (n mod 16)) ""
  end.

Lemma hex_fixed_length w n : String.length (hex_fixed w n) = w.
Proof.
  revert n. induction w as [|w IH]; intros n; [done|]. cbn [hex_fixed].
  rewrite string_length_app, IH. simpl. lia.
Qed.

Lemma hex_fixed_0 w : hex_fixed w 0 = sfill w "0".
Proof.
  induction w as [|w IH]; [done|]. cbn [hex_fixed]. change (0 / 16) with 0. rewrite IH.
  clear IH. induction w; [done|]. cbn [sfill]. by rewrite string_app_cons, IHw.
Qed.

Lemma setw_snoc w s c : setw (S w) "0" (s +:+ String c "") = setw w "0" s +:+ String c "".
Proof.
  unfold setw. rewrite string_length_app. cbn [String.length].
  replace (S w - (String.length s + 1))%nat with (w - String.length s)%nat by lia.
  by rewrite string_app_assoc.
Qed.

(** Zero-padded output of a number that fits the width is its fixed-width form. *)
Lemma setw_hex_fixed w n : (0 < w)%nat -> 0 <= n < 16 ^ Z.of_nat w ->
  setw w "0" (hex_str n) = hex_fixed w n.
Proof.
  unfold hex_str. revert n. induction w as [|w IH]; intros n Hw Hn; [lia|].
  cbn [hex_fixed]. destruct (decide (n < 16)).
  - rewrite to_base_small, Z.div_small, hex_fixed_0, Z.mod_small by lia.
    unfold setw. cbn [String.length]. by rewrite Nat.sub_succ, Nat.sub_0_r.
  - rewrite to_base_step, setw_snoc by lia. f_equal.
    rewrite Nat2Z.inj_succ, Z.pow_succ_r in Hn by lia.
    assert (0 < n / 16) by (apply Z.div_str_pos; lia).
    assert (n / 16 < 16 ^ Z.of_nat w) by (apply Z.div_lt_upper_bound; lia).
    apply IH; [|lia]. destruct w; simpl in *; lia.
Qed.

Lemma hex_fixed_app k m n : 0 <= n ->
  hex_fixed (k + m) n = hex_fixed k (n / 16 ^ Z.of_nat m) +:+ hex_fixed m (n mod 16 ^ Z.of_nat m).
Proof.
  intros Hn. revert n Hn. induction m as [|m IH]; intros n Hn.
  - rewrite Nat.add_0_r. simpl. by rewrite Z.div_1_r, string_app_nil_r.
  - rewrite Nat.add_succ_r. cbn [hex_fixed]. rewrite IH by (apply Z.div_pos; lia).
    rewrite string_app_assoc, Nat2Z.inj_succ, Z.pow_succ_r by lia.
    assert (0 < 16 ^ Z.of_nat m) by (apply Z.pow_pos_nonneg; lia).
    rewrite Z.div_div by lia. do 2 f_equal.
    + rewrite Z.rem_mul_r by lia. rewrite (Z.mul_comm 16 (_ mod _)), Z.div_add by lia.
      rewrite (Z.div_small (n mod 16)) by (apply Z.mod_pos_bound; lia). done.
    + f_equal. f_equal. rewrite Z.rem_mul_r by lia.
      rewrite (Z.mul_comm 16 (_ mod _)), Z.mod_add by lia. by rewrite Zmod_mod.
Qed.

Lemma hex_fixed_digits w n : 0 <= n ->
  sforall (fun c => match digit_val c with Some d => d <? 16 | None => false end)
    (hex_fixed w n) = true /\
  digits_value 16 0 (hex_fixed w n) = n mod 16 ^ Z.of_nat w.
Proof.
  revert n. induction w as [|w IH]; intros n Hn; [simpl; by rewrite Z.mod_1_r|].
  cbn [hex_fixed]. destruct (IH (n / 16)) as [H1 H2]; [apply Z.div_pos; lia|].
  assert (0 <= n mod 16 < 16) by (apply Z.mod_pos_bound; lia).
  assert (Hl : n mod 16 <? 16 = true) by (apply Z.ltb_lt; lia).
  rewrite sforall_app, H1, digits_value_app, H2 by done. cbn [sforall digits_value].
  rewrite digit_val_char, Hl by done. split; [done|].
  rewrite Nat2Z.inj_succ, Z.pow_succ_r by lia.
  assert (0 < 16 ^ Z.of_nat w) by (apply Z.pow_pos_nonneg; lia).
  rewrite Z.rem_mul_r by lia. lia.
Qed.

(** ** Reading back hexadecimal text *)

Definition is_hex (c : ascii) : bool :=
  match digit_val c with Some d => d <? 16 | None => false end.

Lemma ascii_check (P : ascii -> bool) :
  forallb (fun i => P (chr (Z.of_nat i))) (List.seq 0 256) = true -> forall c, P c = true.
Proof.
  intros H c. rewrite <- (chr_code c). revert H.
  intros H. apply (z_range_check (fun z => P (chr z) = true) 256); [|apply code_range].
  rewrite forallb_forall in *. intros i Hi. apply bool_decide_eq_true. auto.
Qed.

Lemma is_hex_plain c : is_hex c = true ->
  is_space c = false /\ Ascii.eqb c "-" = false /\ Ascii.eqb c "+" = false /\
  Ascii.eqb c "x" = false /\ Ascii.eqb c "X" = false.
Proof.
  intros H. pose proof (ascii_check (fun c => implb (is_hex c)
    (negb (is_space c) && negb (Ascii.eqb c "-") && negb (Ascii.eqb c "+") &&
     negb (Ascii.eqb c "x") && negb (Ascii.eqb c "X"))) eq_refl c) as Hc.
  cbv beta in Hc. rewrite H in Hc. simpl in Hc. bool_to_prop. auto.
Qed.

Lemma strto_hex s : sforall is_hex s = true -> s <> "" ->
  strto 16 s = Some (false, digits_value 16 0 s).
Proof.
  destruct s as [|c s]; [done|]. cbn [sforall]. intros H _. bool_to_prop.
  destruct (is_hex_plain c) as (Hs & Hm & Hp & Hx & HX); [done|].
  unfold strto. cbn [skip_space]. rewrite Hs. cbn [take_sign]. rewrite Hm, Hp.
  assert (drop_0x 16 (String c s) = String c s) as ->.
  { destruct s as [|d s]; [done|]. cbn [drop_0x sforall] in *. bool_to_prop.
    destruct (is_hex_plain d) as (_ & _ & _ & Hdx & HdX); [done|].
    rewrite Hdx, HdX. by destruct (Ascii.eqb c "0"). }
  assert (starts_digit 16 (String c s) = true) as -> by done. done.
Qed.

Lemma strto_0x s : sforall is_hex s = true -> s <> "" ->
  strto 16 ("0x" +:+ s) = Some (false, digits_value 16 0 s).
Proof.
  intros H Hne. unfold strto. rewrite !string_app_cons. cbn [skip_space].
  change (is_space "0") with false. cbn [take_sign]. cbn.
  change ("" +:+ s) with s. assert (starts_digit 16 s = true) as Hd.
  { destruct s; [done|]. simpl in H. bool_to_prop. done. }
  by rewrite Hd, Hd.
Qed.

(** ** [std::map<std::string, V>]: a list of pairs sorted by key *)

Fixpoint map_find {V} (k : string) (d : list (string * V)) : option V :=
  match d with
  | [] => None
  | (k', v) :: d' => if String.eqb k k' then Some v else map_find k d'
  end.

(** [m[k] = v] *)
Fixpoint map_set {V} (k : string) (v : V) (d : list (string * V)) : list (string * V) :=
  match d with
  | [] => [(k, v)]
  | (k', v') :: d' =>
      match String.compare k k' with
      | Lt => (k, v) :: (k', v') :: d'
      | Eq => (k, v) :: d'
      | Gt => (k', v') :: map_set k v d'
      end
  end.

Lemma map_find_set {V} k k' (v : V) d :
  map_find k (map_set k' v d) = if String.eqb k k' then Some v else map_find k d.
Proof.
  induction d as [|[k0 v0] d IH]; simpl; [done|].
  destruct (String.compare k' k0) eqn:E; simpl.
  - apply String.compare_eq_iff in E as ->. by destruct (String.eqb k k0).
  - done.
  - rewrite IH. destruct (String.eqb_spec k k0), (String.eqb_spec k k'); subst; try done.
    pose proof (String.compare_antisym k' k') as Ha. by rewrite E in Ha.
Qed.
