(* ===== verification/Lines.v ===== *)
(** * Lines of text

    What the stratum client and the API server do with the bytes they receive: [boost::trim], and
    the line loop - find a line feed, take the text before it, erase it from the buffer - as a
    function on texts. *)

From S2P Require Import Prelude CppString.

Definition LF : string := String (chr 10) "".

(** [boost::trim] *)
Fixpoint trim_right (s : string) : string :=
  match s with
  | EmptyString => EmptyString
  | String c s' => let t := trim_right s' in
                   if String.eqb t "" && is_space c then EmptyString else String c t
  end.
Definition trim (s : string) : string := trim_right (skip_space s).

(** The complete lines of a text, and what follows the last line feed. *)
Fixpoint split_lines (s : string) : list string * string :=
  match s with
  | EmptyString => ([], "")
  | String c s' =>
      let '(l, r) := split_lines s' in
      if Ascii.eqb (chr 10) c then ("" :: l, r)
      else match l with
           | [] => ([], String c r)
           | x :: l' => (String c x :: l', r)
           end
  end.

Example split_lines_example : split_lines ("ab" +:+ LF +:+ LF +:+ "c") = (["ab"; ""], "c").
Proof. reflexivity. Qed.

Lemma split_lines_app a b :
  split_lines (a +:+ b) =
    let '(l1, r1) := split_lines a in let '(l2, r2) := split_lines (r1 +:+ b) in (l1 ++ l2, r2).
Proof.
  induction a as [|c a IH]; [change ("" +:+ b) with b; cbn; change ("" +:+ b) with b; by destruct (split_lines b)|]. rewrite string_app_cons. cbn [split_lines].
  rewrite IH. destruct (split_lines a) as [l1 r1]. destruct (Ascii.eqb (chr 10) c) eqn:E.
  - by destruct (split_lines (r1 +:+ b)).
  - destruct l1 as [|x l1]; [|by destruct (split_lines (r1 +:+ b))].
    rewrite string_app_cons. cbn [split_lines app]. destruct (split_lines (r1 +:+ b)) as [l2 r2]. cbn. rewrite E. by destruct l2.
Qed.

(** The next line [find] and [erase] take from the buffer. *)
Lemma split_lines_find s :
  match find_char (chr 10) s with
  | Some i => split_lines s = (stake i s :: fst (split_lines (sdrop (i + 1) s)), snd (split_lines (sdrop (i + 1) s)))
  | None => split_lines s = ([], s)
  end.
Proof.
  induction s as [|c s IH]; [done|]. cbn [find_char split_lines]. destruct (Ascii.eqb (chr 10) c) eqn:E.
  - cbn [stake sdrop Nat.add]. by destruct (split_lines s).
  - destruct (find_char (chr 10) s) as [i|]; cbn [fmap option_fmap option_map]; rewrite IH; [|done].
    by cbn [stake sdrop Nat.add].
Qed.

Lemma find_char_length c s i : find_char c s = Some i -> (String.length (sdrop (i + 1) s) < String.length s)%nat.
Proof.
  revert i. induction s as [|d s IH]; intros i; [done|]. cbn [find_char]. destruct (Ascii.eqb c d).
  - intros [= <-]. cbn. lia.
  - destruct (find_char c s) as [k|]; [|done]. intros [= <-]. cbn [sdrop Nat.add String.length].
    specialize (IH k eq_refl). lia.
Qed.

