(* ===== verification/CommonData.v ===== *)
(** * libdevcore/CommonData: hexadecimal and big-endian conversions

    [fromHex], [toHex], [toBigEndian], [fromBigEndian], [padLeft], ... of
    src/libdevcore/CommonData.{h,cpp}.  A [byte] is a [Z] in [0, 256), [bytes] is a list of
    them.  The main results are the round trips hex -> bytes -> hex and
    number -> big-endian bytes -> number. *)

From S2P Require Import Prelude CppString.

Inductive WhenError := DontThrow | ThrowIt.
Inductive HexPrefix := DontAdd | Add.

#[export] Instance WhenError_eq_dec : EqDecision WhenError.
Proof. solve_decision. Defined.
#[export] Instance HexPrefix_eq_dec : EqDecision HexPrefix.
Proof. solve_decision. Defined.

Abbreviation bytes := (list Z).
Definition byte_ok (b : Z) : Prop := in_range 8 b.
Definition bytes_ok (l : bytes) : Prop := Forall byte_ok l.

#[export] Instance bytes_ok_dec l : Decision (bytes_ok l).
Proof. unfold bytes_ok, byte_ok. apply _. Defined.

(** ** Hexadecimal input *)

Definition fromHex_char (_i : ascii) (_throw : WhenError) : res Z :=
  if (48 <=? code _i) && (code _i <=? 57) then Ok (code _i - 48)
  else if (97 <=? code _i) && (code _i <=? 102) then Ok (code _i - 97 + 10)
  else if (65 <=? code _i) && (code _i <=? 70) then Ok (code _i - 65 + 10)
  else match _throw with ThrowIt => Throw BadHexCharacter | DontThrow => Ok (-1) end.

(** The value used by the string version, which always passes [DontThrow]. *)
Definition nibble (c : ascii) : Z :=
  match fromHex_char c DontThrow with Ok h => h | Throw _ => -1 end.

(** The loop of [fromHex] from offset [s] on; [_s[i + 1]] past the end is the NUL. *)
Fixpoint fromHex_loop (_s : string) (_throw : WhenError) (ret : bytes) : res bytes :=
  let bad := match _throw with ThrowIt => Throw BadHexCharacter | DontThrow => Ok [] end in
  match _s with
  | EmptyString => Ok ret
  | String a EmptyString =>
      let h := nibble a in let l := nibble NUL in
      if negb (h =? -1) && negb (l =? -1) then Ok (ret ++ [u8 (h * 16 + l)]) else bad
  | String a (String b _s') =>
      let h := nibble a in let l := nibble b in
      if negb (h =? -1) && negb (l =? -1)
      then fromHex_loop _s' _throw (ret ++ [u8 (h * 16 + l)]) else bad
  end.

Definition fromHex (_s : string) (_throw : WhenError) : res bytes :=
  let s := if Ascii.eqb (sget _s 0) "0" && Ascii.eqb (sget _s 1) "x" then 2%nat else 0%nat in
  if Nat.odd (String.length _s) then
    let h := nibble (sget _s s) in
    if negb (h =? -1) then fromHex_loop (sdrop (S s) _s) _throw [u8 h]
    else match _throw with ThrowIt => Throw BadHexCharacter | DontThrow => Ok [] end
  else fromHex_loop (sdrop s _s) _throw [].

(** ** Hexadecimal output *)

Definition with_prefix (_prefix : HexPrefix) (s : string) : string :=
  match _prefix with Add => "0x" +:+ s | DontAdd => s end.

(** [toHex(_data, _w, _prefix)]: the first element has width [_w], the others width 2. *)
Fixpoint toHex_rest (_data : bytes) : string :=
  match _data with [] => "" | i :: d => setw 2 "0" (hex_str i) +:+ toHex_rest d end.

Definition toHex (_data : bytes) (_w : nat) (_prefix : HexPrefix) : string :=
  with_prefix _prefix
    match _data with
    | [] => ""
    | i :: d => setw _w "0" (hex_str i) +:+ toHex_rest d
    end.

(** [toHex(uint64_t, prefix, width)], [toHex(uint32_t, prefix, width)] and the compact forms. *)
Definition toHex_uint64 (_n : Z) (_prefix : HexPrefix) (_bytes : nat) : string :=
  with_prefix _prefix (setw _bytes "0" (hex_str _n)).
Definition toHex_uint32 (_n : Z) (_prefix : HexPrefix) (_bytes : nat) : string :=
  with_prefix _prefix (setw _bytes "0" (hex_str _n)).
Definition toCompactHex_uint64 (_n : Z) (_prefix : HexPrefix) : string :=
  with_prefix _prefix (hex_str _n).
Definition toCompactHex_uint32 (_n : Z) (_prefix : HexPrefix) : string :=
  with_prefix _prefix (hex_str _n).

(** ** Big-endian conversions *)

(** [toBigEndian(_val, o_out)] for an output of [n] bytes, filled from the last one. *)
Fixpoint toBigEndian (n : nat) (_val : Z) : bytes :=
  match n with
  | O => []
  | S i => toBigEndian i (Z.shiftr _val 8) ++ [u8 (Z.land _val 255)]
  end.

(** [fromBigEndian<T>(_bytes)] for a [w]-bit [T]. *)
Definition fromBigEndian (w : Z) (_bytes : bytes) : Z :=
  fold_left (fun ret i => wrap w (Z.lor (Z.shiftl ret 8) i)) _bytes 0.

Definition toHex_u256 (val : Z) (prefix : HexPrefix) : string :=
  with_prefix prefix (toHex (toBigEndian 32 val) 2 DontAdd).

(** [bytesRequired(_i)]: the loop divides by 256 until zero. *)
Fixpoint bytesRequired_loop (fuel : nat) (_i : Z) (i : nat) : nat :=
  match fuel with
  | O => i
  | S f => if _i =? 0 then i else bytesRequired_loop f (Z.shiftr _i 8) (S i)
  end.

(** A loop turn removes eight bits, so the binary length is more than enough turns. *)
Definition bytesRequired (_i : Z) : nat :=
  bytesRequired_loop (S (Z.to_nat (Z.log2_up (_i + 1)))) _i 0.

Definition toCompactBigEndian (_val : Z) (_min : nat) : bytes :=
  toBigEndian (Nat.max _min (bytesRequired _val)) _val.

(** ** Text helpers *)

Definition padLeft (_value : string) (_length : nat) (_fillChar : ascii) : string :=
  if (String.length _value <? _length)%nat
  then sfill (_length - String.length _value) _fillChar +:+ _value else _value.

Definition padRight (_value : string) (_length : nat) (_fillChar : ascii) : string :=
  if (String.length _value <? _length)%nat then resize _value _length _fillChar else _value.

Fixpoint asString (_b : bytes) : string :=
  match _b with [] => "" | b :: l => String (chr b) (asString l) end.
Fixpoint asBytes (_b : string) : bytes :=
  match _b with EmptyString => [] | String c s => code c :: asBytes s end.

(** * Proofs *)

(** ** The mathematical value of a byte string, most significant byte first *)

Definition be_value (l : bytes) : Z := fold_left (fun r b => r * 256 + b) l 0.

Lemma be_value_fold l acc :
  fold_left (fun r b => r * 256 + b) l acc = acc * 256 ^ Z.of_nat (length l) + be_value l.
Proof.
  unfold be_value. revert acc. induction l as [|b l IH]; intros acc; cbn [fold_left length].
  - rewrite Z.pow_0_r. lia.
  - rewrite (IH (acc * 256 + b)), (IH (0 * 256 + b)). rewrite Nat2Z.inj_succ, Z.pow_succ_r by lia. lia.
Qed.

Lemma be_value_app a b : be_value (a ++ b) = be_value a * 256 ^ Z.of_nat (length b) + be_value b.
Proof. unfold be_value at 1. rewrite fold_left_app. apply be_value_fold. Qed.

Lemma be_value_cons b l : be_value (b :: l) = b * 256 ^ Z.of_nat (length l) + be_value l.
Proof. exact (be_value_app [b] l). Qed.

Lemma be_value_range l : bytes_ok l -> 0 <= be_value l < 256 ^ Z.of_nat (length l).
Proof.
  induction 1 as [|b l Hb _ IH]; [done|].
  rewrite be_value_cons. cbn [length]. rewrite Nat2Z.inj_succ, Z.pow_succ_r by lia.
  unfold byte_ok, in_range in Hb. nia.
Qed.

Lemma pow256 n : 256 ^ Z.of_nat n = 2 ^ (8 * Z.of_nat n).
Proof. rewrite Z.pow_mul_r by lia. done. Qed.

(** Appending eight bits below a number is multiplying and adding. *)
Lemma lor_shiftl8 r b : 0 <= b < 256 -> Z.lor (Z.shiftl r 8) b = r * 256 + b.
Proof.
  intros H. rewrite Z.shiftl_mul_pow2 by lia.
  assert (Hz : Z.land (r * 2 ^ 8) b = 0).
  { apply Z.bits_inj'. intros i Hi. rewrite Z.land_spec, Z.bits_0.
    destruct (Z.ltb_spec i 8).
    - by rewrite Z.mul_pow2_bits_low by lia.
    - rewrite (Z.bits_above_log2 b i), andb_false_r; [done|lia|].
      destruct (decide (b = 0)) as [->|]; [simpl; lia|].
      apply Z.lt_le_trans with 8; [|lia]. apply Z.log2_lt_pow2; lia. }
  pose proof (Z.add_lor_land (r * 2 ^ 8) b). lia.
Qed.

Lemma fromBigEndian_fold w l acc : 0 <= w -> bytes_ok l ->
  fold_left (fun ret i => wrap w (Z.lor (Z.shiftl ret 8) i)) l (wrap w acc) =
  wrap w (fold_left (fun r b => r * 256 + b) l acc).
Proof.
  intros Hw Hl. revert acc. induction Hl as [|b l Hb _ IH]; intros acc; simpl; [done|].
  rewrite <- IH. f_equal. rewrite lor_shiftl8 by exact Hb. unfold wrap.
  by rewrite <- Zplus_mod_idemp_l, Zmult_mod_idemp_l, Zplus_mod_idemp_l.
Qed.

Lemma fromBigEndian_value w l : 0 <= w -> bytes_ok l -> fromBigEndian w l = wrap w (be_value l).
Proof. intros Hw Hl. apply (fromBigEndian_fold w l 0 Hw Hl). Qed.

Lemma toBigEndian_length n v : length (toBigEndian n v) = n.
Proof. revert v. induction n; intros v; simpl; [done|]. rewrite length_app, IHn. simpl. lia. Qed.

Lemma u8_land_255 v : u8 (Z.land v 255) = v mod 256.
Proof.
  change 255 with (Z.ones 8). rewrite Z.land_ones by lia. unfold wrap.
  change (2 ^ 8) with 256. apply Zmod_mod.
Qed.

Lemma toBigEndian_ok n v : bytes_ok (toBigEndian n v).
Proof.
  revert v. induction n; intros v; simpl; [constructor|].
  apply Forall_app_2; [apply IHn|]. constructor; [|constructor]. by apply wrap_range.
Qed.

Lemma be_value_toBigEndian n v : be_value (toBigEndian n v) = wrap (8 * Z.of_nat n) v.
Proof.
  revert v. induction n as [|n IH]; intros v.
  - simpl. unfold wrap. by rewrite Z.mod_1_r.
  - cbn [toBigEndian]. rewrite be_value_app, IH, u8_land_255. cbn [length].
    change (256 ^ Z.of_nat 1) with 256. unfold be_value. cbn [fold_left]. unfold wrap.
    rewrite Z.shiftr_div_pow2 by lia. change (2 ^ 8) with 256.
    rewrite Nat2Z.inj_succ, Z.mul_succ_r, Z.pow_add_r by lia. change (2 ^ 8) with 256.
    rewrite (Z.mul_comm (2 ^ _) 256), Z.rem_mul_r by lia. lia.
Qed.

Lemma be_value_inj a b : bytes_ok a -> bytes_ok b -> length a = length b ->
  be_value a = be_value b -> a = b.
Proof.
  intros Ha. revert b. induction Ha as [|x a Hx Ha IH]; intros [|y b] Hb Hl Hv; try done.
  inversion Hb as [|?? Hy Hb']; subst. simplify_eq/=.
  rewrite !be_value_cons, Hl in Hv.
  pose proof (be_value_range a Ha). pose proof (be_value_range b Hb').
  rewrite Hl in *. unfold byte_ok, in_range in *.
  assert (x = y) as -> by nia. f_equal. apply IH; auto. lia.
Qed.

#[export] Hint Resolve toBigEndian_ok be_value_range : miner.
#[export] Hint Rewrite toBigEndian_length be_value_toBigEndian : miner.

(** Whatever [fromHex] accepts, its result is a list of bytes. *)
Lemma fromHex_loop_bytes n : forall s t ret b, (String.length s <= n)%nat -> bytes_ok ret ->
  fromHex_loop s t ret = Ok b -> bytes_ok b.
Proof.
  assert (Hu : forall z ret, bytes_ok ret -> bytes_ok (ret ++ [u8 z])).
  { intros z ret Hr. apply Forall_app_2; [done|]. constructor; [by apply wrap_range | constructor]. }
  induction n as [|n IH]; intros s t ret b Hn Hr Hf.
  - destruct s; [|simpl in Hn; lia]. by injection Hf as <-.
  - destruct s as [|x [|y s]]; cbn [fromHex_loop] in Hf; cbn zeta in Hf.
    + by injection Hf as <-.
    + destruct (_ && _); [injection Hf as <-; auto|]. by destruct t; [injection Hf as <-; constructor|].
    + destruct (_ && _); [|by destruct t; [injection Hf as <-; constructor|]].
      simpl in Hn. eapply IH; [| |exact Hf]; [lia | auto].
Qed.

Lemma fromHex_bytes s t b : fromHex s t = Ok b -> bytes_ok b.
Proof.
  unfold fromHex. cbn zeta. case_match; [|intros Hf; eapply fromHex_loop_bytes; [reflexivity|constructor|exact Hf]].
  case_match; intros Hf.
  - eapply fromHex_loop_bytes; [reflexivity | |exact Hf]. constructor; [by apply wrap_range | constructor].
  - by destruct t; [injection Hf as <-; constructor|].
Qed.

(** ** Hexadecimal round trip *)

Lemma hex_byte b : byte_ok b ->
  setw 2 "0" (hex_str b) = String (digit_char (b / 16)) (String (digit_char (b mod 16)) "").
Proof.
  intros H. by apply (z_range_check (fun b => setw 2 "0" (hex_str b) =
    String (digit_char (b / 16)) (String (digit_char (b mod 16)) "")) 256).
Qed.

Lemma nibble_digit_char d : 0 <= d < 16 -> nibble (digit_char d) = d.
Proof. by apply (z_range_check (fun d => nibble (digit_char d) = d) 16). Qed.

Lemma digit_char_not_x d : 0 <= d < 16 -> Ascii.eqb (digit_char d) "x" = false.
Proof. by apply (z_range_check (fun d => Ascii.eqb (digit_char d) "x" = false) 16). Qed.

Lemma nibbles_of_byte b : byte_ok b -> 0 <= b / 16 < 16 /\ 0 <= b mod 16 < 16.
Proof.
  unfold byte_ok, in_range. intros H. split; [|apply Z.mod_pos_bound; lia].
  split; [apply Z.div_pos; lia | apply Z.div_lt_upper_bound; lia].
Qed.

Lemma toHex_rest_length d : bytes_ok d -> String.length (toHex_rest d) = (2 * length d)%nat.
Proof.
  induction 1 as [|b d Hb _ IH]; [done|]. cbn [toHex_rest length].
  rewrite string_length_app, IH, hex_byte by done. simpl. lia.
Qed.

Lemma fromHex_loop_toHex d t ret : bytes_ok d ->
  fromHex_loop (toHex_rest d) t ret = Ok (ret ++ d).
Proof.
  intros Hd. revert ret. induction Hd as [|b d Hb _ IH]; intros ret.
  - by rewrite app_nil_r.
  - cbn [toHex_rest]. rewrite hex_byte by done. rewrite !string_app_cons. cbn [fromHex_loop].
    destruct (nibbles_of_byte b Hb) as [H1 H2].
    rewrite !nibble_digit_char by done.
    destruct (Z.eqb_spec (b / 16) (-1)); [lia|]. destruct (Z.eqb_spec (b mod 16) (-1)); [lia|].
    simpl. change ("" +:+ toHex_rest d) with (toHex_rest d). rewrite IH, <- app_assoc.
    do 2 f_equal. simpl. f_equal. rewrite (Z.mul_comm _ 16), <- Z.div_mod by lia.
    by apply wrap_id.
Qed.

Lemma toHex_2 d p : toHex d 2 p = with_prefix p (toHex_rest d).
Proof. destruct d; done. Qed.

Lemma fromHex_toHex_ok (d : bytes) (p : HexPrefix) (t : WhenError) :
  bytes_ok d -> fromHex (toHex d 2 p) t = Ok d.
Proof.
  intros Hd. rewrite toHex_2. unfold fromHex.
  assert (Hlen : Nat.odd (String.length (with_prefix p (toHex_rest d))) = false).
  { destruct p; cbn [with_prefix]; rewrite ?string_length_app, toHex_rest_length by done.
    - by rewrite Nat.odd_mul.
    - change (String.length "0x") with 2%nat. by rewrite Nat.odd_add, Nat.odd_mul. }
  rewrite Hlen. destruct p; cbn [with_prefix].
  - destruct Hd as [|b d Hb Hd]; [done|]. cbn [toHex_rest].
    destruct (nibbles_of_byte b Hb) as [_ H2].
    rewrite hex_byte, !string_app_cons by done. cbn [sget].
    rewrite digit_char_not_x, andb_false_r by done. cbn [sdrop].
    rewrite <- !string_app_cons, <- hex_byte by done.
    apply (fromHex_loop_toHex (b :: d) t []). by constructor.
  - cbn [sget andb]. by apply (fromHex_loop_toHex d t []).
Qed.

(** Round trip of the hexadecimal codec: [fromHex] applied to the output of [toHex]
    returns the original bytes, with or without the [0x] prefix and whatever the error
    mode. *)
Theorem fromHex_toHex (d : bytes) (p : HexPrefix) (t : WhenError) :
  bytes_ok d -> fromHex (toHex d 2 p) t = Ok d.
Proof. apply fromHex_toHex_ok. Qed.

Lemma fromHex_toHex_witness : bytes_ok [0; 171; 255] /\
  fromHex (toHex [0; 171; 255] 2 Add) ThrowIt = Ok [0; 171; 255].
Proof. split; [by_evaluation|]. apply fromHex_toHex. by_evaluation. Defined.

(** Big-endian round trip: reading back the [n] bytes [toBigEndian] writes gives the
    value reduced to [n] bytes, and writing the value read from [n] bytes gives those bytes
    back (so [FixedHash] and its arithmetic type are in bijection). *)
Theorem bigEndian_roundtrip (n : nat) (v : Z) (l : bytes) :
  bytes_ok l -> length l = n ->
  fromBigEndian (8 * Z.of_nat n) (toBigEndian n v) = wrap (8 * Z.of_nat n) v /\
  toBigEndian n (fromBigEndian (8 * Z.of_nat n) l) = l.
Proof.
  intros Hl Hn. split.
  - rewrite fromBigEndian_value, be_value_toBigEndian, wrap_wrap by auto with miner lia. done.
  - rewrite fromBigEndian_value by (auto; lia). apply be_value_inj; auto with miner.
    + by rewrite toBigEndian_length.
    + rewrite be_value_toBigEndian, wrap_wrap. apply wrap_id. unfold in_range.
      rewrite <- pow256, <- Hn. by apply be_value_range.
Qed.

Lemma bigEndian_roundtrip_witness :
  fromBigEndian (8 * Z.of_nat 2) (toBigEndian 2 66051) = wrap (8 * Z.of_nat 2) 66051 /\
  toBigEndian 2 (fromBigEndian (8 * Z.of_nat 2) [1; 255]) = [1; 255].
Proof. apply bigEndian_roundtrip; by_evaluation. Defined.

(** ** Nonces on the wire *)

Lemma toHex_uint64_fixed n : in_range 64 n -> toHex_uint64 n DontAdd 16 = hex_fixed 16 n.
Proof. intros H. cbn [toHex_uint64 with_prefix]. apply setw_hex_fixed; [lia|]. exact H. Qed.

(** A 64-bit value printed by [toHex] at its default width is sixteen digits long and
    [std::stoul] (base 16) reads the same value back, with or without the prefix. *)
Theorem stoul_toHex_uint64 (n : Z) (p : HexPrefix) :
  in_range 64 n ->
  stoull (toHex_uint64 n p 16) 16 = Ok n /\
  String.length (toHex_uint64 n DontAdd 16) = 16%nat.
Proof.
  intros H. pose proof (toHex_uint64_fixed n H) as E.
  destruct (hex_fixed_digits 16 n) as [H1 H2]; [apply H|].
  assert (Hne : hex_fixed 16 n <> "") by (intros Hc; by pose proof (hex_fixed_length 16 n);
    rewrite Hc in *).
  change (16 ^ Z.of_nat 16) with (2 ^ 64) in H2. rewrite Z.mod_small in H2 by exact H.
  split; [|by rewrite E, hex_fixed_length].
  unfold stoull. destruct p; cbn [toHex_uint64 with_prefix] in *; rewrite E.
  - rewrite strto_hex, H2 by done. destruct (Z.ltb_spec n (2 ^ 64)); [done|]. destruct H; lia.
  - rewrite strto_0x, H2 by done. destruct (Z.ltb_spec n (2 ^ 64)); [done|]. destruct H; lia.
Qed.

Lemma stoul_toHex_uint64_witness :
  stoull (toHex_uint64 48879 Add 16) 16 = Ok 48879 /\
  String.length (toHex_uint64 48879 DontAdd 16) = 16%nat.
Proof. apply stoul_toHex_uint64. by_evaluation. Defined.
