(* ===== verification/FixedHash.v ===== *)
(** * libdevcore/FixedHash and vector_ref: fixed-size big-endian hashes

    [FixedHash<N>] of src/libdevcore/FixedHash.h as a list of [N] bytes, its constructors,
    comparison and bit operators, increment and text output.  The order is proved to be the
    order of the big-endian numbers, which is what "hash below the boundary" means. *)

From S2P Require Import Prelude CppString CommonData.

Inductive ConstructFromHashType := AlignLeft | AlignRight | FailIfDifferent.

#[export] Instance ConstructFromHashType_eq_dec : EqDecision ConstructFromHashType.
Proof. solve_decision. Defined.

Abbreviation hash := (list Z).
Definition hash_ok (N : nat) (h : hash) : Prop := length h = N /\ bytes_ok h.

#[export] Instance hash_ok_dec N h : Decision (hash_ok N h).
Proof. unfold hash_ok. apply _. Defined.

(** ** Constructors *)

Definition h_zero (N : nat) : hash := replicate N 0.

(** The copy loop shared by the constructors: [c] bytes, from the left or from the right. *)
Definition copy_bytes (N M : nat) (_t : ConstructFromHashType) (src : bytes) (c : nat) : hash :=
  fold_left (fun m_data i =>
    let dst := match _t with AlignRight => (N - 1 - i)%nat | _ => i end in
    let from := match _t with AlignRight => (M - 1 - i)%nat | _ => i end in
    <[dst := default 0 (src !! from)]> m_data) (List.seq 0 c) (h_zero N).

Definition FixedHash_of_hash (N : nat) (_h : hash) (_t : ConstructFromHashType) : hash :=
  copy_bytes N (length _h) _t _h (Nat.min (length _h) N).

Definition FixedHash_of_bytes (N : nat) (_b : bytes) (_t : ConstructFromHashType) : hash :=
  if (length _b =? N)%nat then _b
  else match _t with
       | FailIfDifferent => h_zero N
       | _ => copy_bytes N (length _b) _t _b (Nat.min (length _b) N)
       end.

Definition FixedHash_of_arith (N : nat) (_arith : Z) : hash := toBigEndian N _arith.

Definition FixedHash_of_string (N : nat) (_s : string) : res hash :=
  let! b := fromHex _s ThrowIt in Ok (FixedHash_of_bytes N b FailIfDifferent).

Definition h256 (_s : string) : res hash := FixedHash_of_string 32 _s.

Definition to_arith (N : nat) (h : hash) : Z := fromBigEndian (8 * Z.of_nat N) h.

(** ** Operators *)

Definition hash_bool (h : hash) : bool := existsb (fun b => negb (b =? 0)) h.
Definition hash_eq (a b : hash) : bool := bool_decide (a = b).

Fixpoint hash_lt (m_data c : hash) : bool :=
  match m_data, c with
  | x :: m_data', y :: c' => if x <? y then true else if y <? x then false else hash_lt m_data' c'
  | _, _ => false
  end.
Definition hash_ge (a b : hash) : bool := negb (hash_lt a b).
Definition hash_le (a b : hash) : bool := hash_eq a b || hash_lt a b.
Definition hash_gt (a b : hash) : bool := negb (hash_le a b).

Definition hash_xor (a b : hash) : hash := zip_with Z.lxor a b.
Definition hash_or (a b : hash) : hash := zip_with Z.lor a b.
Definition hash_and (a b : hash) : hash := zip_with Z.land a b.
Definition hash_not (a : hash) : hash := (fun x => u8 (Z.lnot x)) <$> a.

(** [operator++]: from the last byte up, while the byte wraps to zero. *)
Fixpoint incr_rev (r : hash) : hash :=
  match r with
  | [] => []
  | b :: r' => let b' := u8 (b + 1) in if b' =? 0 then b' :: incr_rev r' else b' :: r'
  end.
Definition hash_incr (h : hash) : hash := rev (incr_rev (rev h)).

(** ** Views and text *)

(** [vector_ref::cropped(_begin, _count)] of a non-null reference. *)
Definition cropped (v : bytes) (_begin _count : nat) : bytes :=
  if (_begin <=? length v)%nat && (_count <=? length v)%nat && (_begin + _count <=? length v)%nat
  then take _count (drop _begin v) else [].

Definition k_ellipsis : string := asString [226; 128; 166].
Definition hash_hex (h : hash) (_prefix : HexPrefix) : string := toHex h 2 _prefix.
Definition hash_abridged (h : hash) : string := toHex (cropped h 0 4) 2 DontAdd +:+ k_ellipsis.

(** The stream operator prints every byte with width 2. *)
Definition hash_stream (h : hash) : string :=
  String.concat "" ((fun b => setw 2 "0" (hex_str b)) <$> h).

(** ** The specialised h256 equality: four 64-bit words of the little-endian host *)

Fixpoint le_value (l : bytes) : Z :=
  match l with [] => 0 | b :: l' => b + 256 * le_value l' end.

Definition word64 (h : hash) (i : nat) : Z := le_value (take 8 (drop (8 * i) h)).

Definition h256_eq (a b : hash) : bool :=
  (word64 a 0 =? word64 b 0) && (word64 a 1 =? word64 b 1) &&
  (word64 a 2 =? word64 b 2) && (word64 a 3 =? word64 b 3).

(** * Proofs *)

Lemma h_zero_ok N : hash_ok N (h_zero N).
Proof.
  split; [apply length_replicate|]. apply Forall_replicate. split; [lia | done].
Qed.

Lemma be_value_zero N : be_value (h_zero N) = 0.
Proof. unfold h_zero. induction N; [done|]. simpl replicate. rewrite be_value_cons, IHN. lia. Qed.

Lemma hash_ok_value N h : hash_ok N h -> 0 <= be_value h < 2 ^ (8 * Z.of_nat N).
Proof. intros [<- H]. rewrite <- pow256. by apply be_value_range. Qed.

Lemma to_arith_value N h : hash_ok N h -> to_arith N h = be_value h.
Proof.
  intros Hok. pose proof (hash_ok_value N h Hok) as Hv. destruct Hok as [Hl H].
  unfold to_arith. rewrite fromBigEndian_value by (done || lia). by apply wrap_id.
Qed.

#[export] Hint Resolve h_zero_ok hash_ok_value : miner.

Lemma hash_lt_value a b : length a = length b -> bytes_ok a -> bytes_ok b ->
  hash_lt a b = (be_value a <? be_value b).
Proof.
  revert b. induction a as [|x a IH]; intros [|y b] Hl Ha Hb; try done.
  inversion Ha as [|?? Hx Ha']; inversion Hb as [|?? Hy Hb']; subst. simplify_eq/=.
  rewrite !be_value_cons, Hl. unfold byte_ok, in_range in *.
  pose proof (be_value_range a Ha') as H1. pose proof (be_value_range b Hb') as H2.
  rewrite Hl in H1.
  destruct (Z.ltb_spec x y); [symmetry; apply Z.ltb_lt; nia|].
  destruct (Z.ltb_spec y x); [symmetry; apply Z.ltb_ge; nia|].
  assert (x = y) as -> by lia. rewrite IH by done.
  apply eq_true_iff_eq. rewrite !Z.ltb_lt. lia.
Qed.

Lemma hash_order_numeric (N : nat) (a b : hash) :
  hash_ok N a -> hash_ok N b ->
  hash_lt a b = (to_arith N a <? to_arith N b) /\
  hash_le a b = (to_arith N a <=? to_arith N b) /\
  hash_gt a b = (to_arith N b <? to_arith N a) /\
  hash_ge a b = (to_arith N b <=? to_arith N a) /\
  hash_eq a b = (to_arith N a =? to_arith N b).
Proof.
  intros Ha Hb. rewrite !to_arith_value by done. destruct Ha as [Hla Ha], Hb as [Hlb Hb].
  assert (Hlt : hash_lt a b = (be_value a <? be_value b)) by (apply hash_lt_value; congruence).
  assert (Heq : hash_eq a b = (be_value a =? be_value b)).
  { apply eq_true_iff_eq. unfold hash_eq. rewrite bool_decide_eq_true, Z.eqb_eq.
    split; [by intros -> | apply be_value_inj; congruence]. }
  assert (Hle : hash_le a b = (be_value a <=? be_value b)).
  { unfold hash_le. rewrite Heq, Hlt. apply eq_true_iff_eq.
    rewrite orb_true_iff, Z.eqb_eq, Z.ltb_lt, Z.leb_le. lia. }
  unfold hash_gt, hash_ge. rewrite Hle, Hlt, Heq. split_and!; auto;
    apply eq_true_iff_eq; rewrite negb_true_iff, ?Z.leb_gt, ?Z.ltb_ge, ?Z.ltb_lt, ?Z.leb_le; lia.
Qed.

(** The comparison operators of [FixedHash] are the comparison of the unsigned big-endian
    numbers the hashes stand for: [<], [<=], [>], [>=] and [==] agree with the arithmetic
    conversion. *)
Theorem hash_order_is_numeric (N : nat) (a b : hash) :
  hash_ok N a -> hash_ok N b ->
  hash_lt a b = (to_arith N a <? to_arith N b) /\
  hash_le a b = (to_arith N a <=? to_arith N b) /\
  hash_gt a b = (to_arith N b <? to_arith N a) /\
  hash_ge a b = (to_arith N b <=? to_arith N a) /\
  hash_eq a b = (to_arith N a =? to_arith N b).
Proof. apply hash_order_numeric. Qed.

Lemma hash_order_is_numeric_witness :
  hash_lt [1; 255] [2; 0] = (to_arith 2 [1; 255] <? to_arith 2 [2; 0]).
Proof. apply (hash_order_is_numeric 2); by_evaluation. Defined.

Lemma incr_rev_spec r : bytes_ok r ->
  length (incr_rev r) = length r /\ bytes_ok (incr_rev r) /\
  be_value (rev (incr_rev r)) = (be_value (rev r) + 1) mod 256 ^ Z.of_nat (length r).
Proof.
  induction 1 as [|b r Hb Hr (IHl & IHok & IHv)]; [by split_and!; [|constructor|]|]. cbn [incr_rev].
  assert (Hrr : bytes_ok (rev r)) by (by apply Forall_rev).
  pose proof (be_value_range _ Hrr) as Hrange. rewrite length_rev in Hrange.
  unfold byte_ok, in_range in Hb. change (2 ^ 8) with 256 in Hb.
  assert (Hu : u8 (b + 1) = (b + 1) mod 256) by done. rewrite Hu. clear Hu.
  cbn [length]. rewrite Nat2Z.inj_succ, Z.pow_succ_r by lia.
  assert (0 < 256 ^ Z.of_nat (length r)) by (apply Z.pow_pos_nonneg; lia).
  destruct (decide (b = 255)) as [->|Hne].
  - change ((255 + 1) mod 256) with 0. cbn [Z.eqb]. cbn [length rev]. split_and!; [lia| |].
    + constructor; [split; lia|exact IHok].
    + rewrite !be_value_app, IHv. change (be_value [0]) with 0. change (be_value [255]) with 255.
      change (256 ^ Z.of_nat (length [0])) with 256. change (256 ^ Z.of_nat (length [255])) with 256.
      rewrite (Z.mul_comm 256), Z.add_0_r, <- Zmult_mod_distr_r. f_equal; lia.
  - rewrite (Z.mod_small (b + 1)) by lia. destruct (Z.eqb_spec (b + 1) 0); [lia|].
    cbn [length rev]. split_and!; [done| |].
    + constructor; [split; lia|exact Hr].
    + rewrite !be_value_app. change (be_value [b + 1]) with (b + 1). change (be_value [b]) with b.
      cbn [length]. change (256 ^ Z.of_nat 1) with 256. rewrite Z.mod_small; nia.
Qed.

(** [operator++] adds one to the big-endian number, wrapping at 2^(8N), and keeps the
    hash well formed. *)
Theorem hash_incr_adds_one (N : nat) (h : hash) :
  hash_ok N h ->
  hash_ok N (hash_incr h) /\
  to_arith N (hash_incr h) = wrap (8 * Z.of_nat N) (to_arith N h + 1).
Proof.
  intros Hok. assert (Hr : bytes_ok (rev h)) by (apply Forall_rev, Hok).
  destruct (incr_rev_spec (rev h) Hr) as (Hl & Hb & Hv).
  assert (Hok' : hash_ok N (hash_incr h)).
  { split; unfold hash_incr.
    - rewrite length_rev, Hl, length_rev. apply Hok.
    - by apply Forall_rev. }
  split; [done|]. rewrite !to_arith_value by done. unfold hash_incr.
  rewrite Hv, rev_involutive, length_rev. destruct Hok as [-> _]. by rewrite pow256.
Qed.

Lemma hash_incr_adds_one_witness :
  hash_ok 2 (hash_incr [3; 255]) /\
  to_arith 2 (hash_incr [3; 255]) = wrap (8 * Z.of_nat 2) (to_arith 2 [3; 255] + 1).
Proof. apply hash_incr_adds_one. by_evaluation. Defined.

Lemma le_value_inj a b : bytes_ok a -> bytes_ok b -> length a = length b ->
  le_value a = le_value b -> a = b.
Proof.
  intros Ha. revert b. induction Ha as [|x a Hx Ha IH]; intros [|y b] Hb Hl Hv; try done.
  inversion Hb as [|?? Hy Hb']; subst. simplify_eq/=. unfold byte_ok, in_range in *.
  change (2 ^ 8) with 256 in *. assert (x = y) as -> by lia. f_equal. apply IH; auto. lia.
Qed.

Lemma take_drop_ok n k (h : hash) : bytes_ok h -> bytes_ok (take n (drop k h)).
Proof. intros H. by apply Forall_take, Forall_drop. Qed.

Lemma split_words (h : hash) : length h = 32%nat ->
  h = take 8 (drop 0 h) ++ take 8 (drop 8 h) ++ take 8 (drop 16 h) ++ take 8 (drop 24 h).
Proof. intros Hl. do 32 (destruct h as [|? h]; [done|]). by destruct h. Qed.

(** The specialised [h256] equality, which compares four 64-bit words instead of 32 bytes,
    is the generic byte-wise equality. *)
Theorem h256_fast_equality (a b : hash) :
  hash_ok 32 a -> hash_ok 32 b -> h256_eq a b = hash_eq a b.
Proof.
  intros [Hla Ha] [Hlb Hb]. apply eq_true_iff_eq. unfold hash_eq, h256_eq.
  rewrite bool_decide_eq_true, !andb_true_iff, !Z.eqb_eq. unfold word64. split; [|by intros ->].
  intros [[[H0 H1] H2] H3].
  assert (Hw : forall k, (k + 8 <= 32)%nat ->
    le_value (take 8 (drop k a)) = le_value (take 8 (drop k b)) ->
    take 8 (drop k a) = take 8 (drop k b)).
  { intros k Hk. apply le_value_inj; auto using take_drop_ok.
    rewrite !length_take, !length_drop. lia. }
  rewrite (split_words a Hla), (split_words b Hlb). repeat (f_equal; [apply Hw; done || lia|]).
  apply Hw; done || lia.
Qed.

Lemma h256_fast_equality_witness :
  h256_eq (h_zero 32) (replicate 32 7) = hash_eq (h_zero 32) (replicate 32 7).
Proof. apply h256_fast_equality; by_evaluation. Defined.

Lemma h256_ok s h : h256 s = Ok h -> hash_ok 32 h.
Proof.
  unfold h256, FixedHash_of_string. intros Hs. apply res_bind_ok in Hs as (b & Hb & E). injection E as <-.
  unfold FixedHash_of_bytes. destruct (Nat.eqb_spec (length b) 32); [|apply h_zero_ok].
  split; [done | by eapply fromHex_bytes].
Qed.
#[export] Hint Resolve h_zero_ok h256_ok : miner.

Lemma h256_hex (h : hash) (p : HexPrefix) : hash_ok 32 h -> h256 (hash_hex h p) = Ok h.
Proof.
  intros [Hl Hh]. unfold h256, FixedHash_of_string, FixedHash_of_bytes, hash_hex.
  rewrite fromHex_toHex_ok by done. simpl. by rewrite Hl.
Qed.

(** Constructing an [h256] from its own hexadecimal text gives it back, while text whose
    byte count is not 32 silently gives the zero hash (the "no work" header) and text with a
    character that is not hexadecimal throws. *)
Theorem h256_of_string (h b : hash) (p : HexPrefix) (s : string) :
  hash_ok 32 h -> fromHex s ThrowIt = Ok b -> length b <> 32%nat ->
  h256 (hash_hex h p) = Ok h /\ h256 s = Ok (h_zero 32) /\
  (forall t, fromHex t ThrowIt = Throw BadHexCharacter -> h256 t = Throw BadHexCharacter).
Proof.
  intros Hh Hs Hlen. split_and!; [by apply h256_hex| |];
    unfold h256, FixedHash_of_string, FixedHash_of_bytes.
  - rewrite Hs. simpl. by destruct (Nat.eqb_spec (length b) 32).
  - intros t ->. done.
Qed.

Lemma h256_of_string_witness :
  h256 (hash_hex (replicate 32 171) Add) = Ok (replicate 32 171) /\
  h256 "0x1234" = Ok (h_zero 32) /\
  (forall t, fromHex t ThrowIt = Throw BadHexCharacter -> h256 t = Throw BadHexCharacter).
Proof. apply (h256_of_string _ [18; 52]); by_evaluation. Defined.
