(* ===== verification/VectorRef.v ===== *)
(** * libdevcore/vector_ref.h: references to memory

    [vector_ref] of src/libdevcore/vector_ref.h: a pointer and a number of elements, over a byte
    memory.  A pointer is an address, null is 0; an element takes [sz] bytes.  [memcpy] between
    overlapping ranges is undefined behaviour; a failing [assert] ends the process. *)

From S2P Require Import Prelude CommonData.

(** ** Memory *)

Definition memory : Type := Z -> Z.

(** The [n] bytes from address [p] on. *)
Definition load (m : memory) (p : Z) (n : nat) : bytes := (fun i => m (p + Z.of_nat i)) <$> List.seq 0 n.

(** Writing the bytes [l] from address [p] on. *)
Definition store (p : Z) (l : bytes) (m : memory) : memory := fun a =>
  if (p <=? a) && (a <? p + Z.of_nat (length l)) then default 0 (l !! Z.to_nat (a - p)) else m a.

Definition ranges_overlap (p q n : Z) : bool := (0 <? n) && (p <? q + n) && (q <? p + n).

Definition memmove (dst src n : Z) (m : memory) : memory := store dst (load m src (Z.to_nat n)) m.
Definition memcpy (dst src n : Z) (m : memory) : res memory :=
  if ranges_overlap dst src n then Throw (UndefinedBehaviour "memcpy of overlapping objects")
  else Ok (memmove dst src n m).
Definition memset (dst c n : Z) (m : memory) : memory := store dst (replicate (Z.to_nat n) c) m.

(** ** The reference *)

Record vector_ref := { m_data : Z; m_count : Z }.

#[export] Instance vector_ref_eq_dec : EqDecision vector_ref.
Proof. solve_decision. Defined.

Definition null_ref : vector_ref := {| m_data := 0; m_count := 0 |}.

(** [~size_t(0)] *)
Definition npos : Z := 2 ^ 64 - 1.

Section vector_ref.
Context (sz : Z).   (* sizeof(_T) *)

(** The constructor from a string of [size] bytes at [data]. *)
Definition of_string_data (data size : Z) : vector_ref := {| m_data := data; m_count := size / sz |}.

Definition to_bool (r : vector_ref) : bool := negb (m_data r =? 0) && negb (m_count r =? 0).

Definition toBytes (m : memory) (r : vector_ref) : bytes := load m (m_data r) (Z.to_nat (m_count r * sz)).

(** The bytes of element [i]. *)
Definition element (m : memory) (r : vector_ref) (i : nat) : bytes :=
  load m (m_data r + Z.of_nat i * sz) (Z.to_nat sz).

(** [toVector], an element being its bytes. *)
Definition toVector (m : memory) (r : vector_ref) : list bytes := element m r <$> List.seq 0 (Z.to_nat (m_count r)).

(** [contentsEqual] with a vector whose elements have the bytes [c]. *)
Definition contentsEqual (m : memory) (r : vector_ref) (c : list bytes) : bool :=
  if (m_data r =? 0) || (m_count r =? 0) then bool_decide (c = [])
  else (Z.of_nat (length c) =? m_count r) && bool_decide (concat c = toBytes m r).

(** [operator vector_ref<_T2>()]: the assertion, and the reference to elements of [sz2] bytes. *)
Definition reinterpret (sz2 : Z) (r : vector_ref) : res vector_ref :=
  if m_count r * sz / sz2 * sz2 / sz =? m_count r
  then Ok {| m_data := m_data r; m_count := m_count r * sz / sz2 |}
  else Throw (UndefinedBehaviour "assertion failed").

Definition next (r : vector_ref) : vector_ref :=
  if m_data r =? 0 then r else {| m_data := m_data r + m_count r * sz; m_count := m_count r |}.

Definition cropped (_begin _count : Z) (r : vector_ref) : vector_ref :=
  if negb (m_data r =? 0) && (_begin <=? m_count r) && (_count <=? m_count r)
     && (wrap 64 (_begin + _count) <=? m_count r)
  then {| m_data := m_data r + _begin * sz;
          m_count := if _count =? npos then m_count r - _begin else _count |}
  else null_ref.
Definition cropped_from (_begin : Z) (r : vector_ref) : vector_ref :=
  if negb (m_data r =? 0) && (_begin <=? m_count r)
  then {| m_data := m_data r + _begin * sz; m_count := m_count r - _begin |} else null_ref.

Definition retarget (_d _s : Z) (r : vector_ref) : vector_ref := {| m_data := _d; m_count := _s |}.
Definition reset (r : vector_ref) : vector_ref := null_ref.

Definition begin_ (r : vector_ref) : Z := m_data r.
Definition end_ (r : vector_ref) : Z := m_data r + m_count r * sz.

(** [overlapsWith] of a reference to elements of the same type. *)
Definition overlapsWith (t r : vector_ref) : bool :=
  (begin_ r <? end_ t) && (begin_ t <? end_ r).

Definition copyTo (t r : vector_ref) (m : memory) : res memory :=
  let n := Z.min (m_count t) (m_count r) * sz in
  if overlapsWith t r then Ok (memmove (m_data t) (m_data r) n m) else memcpy (m_data t) (m_data r) n m.

(** [memset] gets the difference of element counts as a number of bytes. *)
Definition populate (t r : vector_ref) (m : memory) : res memory :=
  let! m := copyTo t r m in
  Ok (memset (m_data t + m_count r * sz) 0 (Z.max (m_count t) (m_count r) - m_count r) m).

(** [operator[]] *)
Definition at_ (_i : Z) (m : memory) (r : vector_ref) : res bytes :=
  if m_data r =? 0 then Throw (UndefinedBehaviour "assertion failed")
  else if _i <? m_count r then Ok (element m r (Z.to_nat _i))
  else Throw (UndefinedBehaviour "assertion failed").

Definition ref_eq (_cmp r : vector_ref) : bool := (m_data r =? m_data _cmp) && (m_count r =? m_count _cmp).
Definition ref_ne (_cmp r : vector_ref) : bool := negb (ref_eq _cmp r).

(** ** cleanse *)

(** [while (loop--) { *(p++) = (uint8_t)count; count += (17 + ((size_t)p & 0xf)); }] *)
Fixpoint cleanse_loop (loop : nat) (p count : Z) (m : memory) : Z * memory :=
  match loop with
  | O => (count, m)
  | S loop' =>
      let m := store p [Z.land count 255] m in
      let p := p + 1 in
      cleanse_loop loop' p (wrap 64 (count + (17 + Z.land p 15))) m
  end.

(** [memchr]: the address of the first byte equal to [c], or null. *)
Definition memchr (p c : Z) (n : nat) (m : memory) : Z :=
  match list_find (fun b => b = c) (load m p n) with Some (i, _) => p + Z.of_nat i | None => 0 end.

(** [s] is the static counter, a byte. *)
Definition cleanse (s : Z) (r : vector_ref) (m : memory) : Z * memory :=
  let len := end_ r - begin_ r in
  let '(count, m) := cleanse_loop (Z.to_nat len) (begin_ r) s m in
  let p := memchr (begin_ r) (Z.land count 255) (Z.to_nat len) m in
  let count := if p =? 0 then count else wrap 64 (count + (63 + p)) in
  (Z.land count 255, memset (begin_ r) 0 len m).

End vector_ref.

(** [ref(_t)] of an object at [address] and of a vector. *)
Definition ref_object (address : Z) : vector_ref := {| m_data := address; m_count := 1 |}.
Definition ref_vector (data size : Z) : vector_ref := {| m_data := data; m_count := size |}.

(** * Proofs *)

(** ** Memory *)

Lemma length_load m p n : length (load m p n) = n.
Proof. unfold load. by rewrite length_fmap, length_seq. Qed.

Lemma lookup_load m p n i : (i < n)%nat -> load m p n !! i = Some (m (p + Z.of_nat i)).
Proof. intros Hi. unfold load. by rewrite list_lookup_fmap, lookup_seq_lt by done. Qed.

Lemma load_app m p a b : load m p (a + b) = load m p a ++ load m (p + Z.of_nat a) b.
Proof.
  apply list_eq. intros i. destruct (decide (i < a)%nat).
  - by rewrite lookup_app_l, !lookup_load by (rewrite ?length_load; lia).
  - rewrite lookup_app_r by (rewrite length_load; lia). rewrite length_load. destruct (decide (i < a + b)%nat).
    + rewrite !lookup_load by lia. do 2 f_equal. lia.
    + rewrite !lookup_ge_None_2 by (rewrite length_load; lia). done.
Qed.

Lemma load_ext m m' p p' n : (forall i, 0 <= i < Z.of_nat n -> m (p + i) = m' (p' + i)) ->
  load m p n = load m' p' n.
Proof.
  intros H. unfold load. apply Forall_fmap_ext_1, Forall_forall. intros i Hi%elem_of_seq. apply H. lia.
Qed.

Lemma store_inside p l m a : p <= a < p + Z.of_nat (length l) -> store p l m a = default 0 (l !! Z.to_nat (a - p)).
Proof.
  intros H. unfold store. by assert ((p <=? a) && (a <? p + Z.of_nat (length l)) = true) as ->
    by (apply andb_true_iff; rewrite Z.leb_le, Z.ltb_lt; lia).
Qed.
Lemma store_outside p l m a : a < p \/ p + Z.of_nat (length l) <= a -> store p l m a = m a.
Proof.
  intros H. unfold store. by assert ((p <=? a) && (a <? p + Z.of_nat (length l)) = false) as ->
    by (apply andb_false_iff; rewrite Z.leb_gt, Z.ltb_ge; lia).
Qed.

(** What a byte is after [memmove] and after [memset]. *)
Lemma memmove_byte dst src n m a : 0 <= n ->
  memmove dst src n m a = if decide (dst <= a < dst + n) then m (src + (a - dst)) else m a.
Proof.
  intros Hn. unfold memmove. destruct (decide _) as [Ha|Ha].
  - rewrite store_inside by (rewrite length_load; lia). rewrite lookup_load by lia. cbn. f_equal. lia.
  - rewrite store_outside by (rewrite length_load; lia). done.
Qed.
Lemma memset_byte dst c n m a : 0 <= n -> memset dst c n m a = if decide (dst <= a < dst + n) then c else m a.
Proof.
  intros Hn. unfold memset. destruct (decide _) as [Ha|Ha].
  - rewrite store_inside by (rewrite length_replicate; lia). by rewrite lookup_replicate_2 by lia.
  - rewrite store_outside by (rewrite length_replicate; lia). done.
Qed.

Section vector_ref_theorems.
Context (sz : Z) (Hsz : 0 < sz).

(** ** Copies *)

(** What [copyTo] does to each byte: never undefined, whether or not the objects overlap. *)
Lemma copyTo_bytes t r m : 0 <= m_count t -> 0 <= m_count r -> exists m', copyTo sz t r m = Ok m' /\
  forall a, m' a = if decide (m_data t <= a < m_data t + Z.min (m_count t) (m_count r) * sz)
                   then m (m_data r + (a - m_data t)) else m a.
Proof.
  intros Ht Hr. unfold copyTo. set (n := Z.min (m_count t) (m_count r) * sz).
  assert (Hn : 0 <= n) by (apply Z.mul_nonneg_nonneg; lia).
  assert (H1 : n <= m_count t * sz) by (apply Z.mul_le_mono_nonneg_r; lia).
  assert (H2 : n <= m_count r * sz) by (apply Z.mul_le_mono_nonneg_r; lia).
  exists (memmove (m_data t) (m_data r) n m). split; [|intros a; by apply memmove_byte].
  destruct (overlapsWith sz t r) eqn:Ho; [done|]. unfold memcpy.
  assert (ranges_overlap (m_data t) (m_data r) n = false) as ->; [|done].
  unfold overlapsWith, begin_, end_ in Ho. apply not_true_is_false. intros Hov. unfold ranges_overlap in Hov.
  bool_to_prop. apply andb_false_iff in Ho as [Ho|Ho]; apply Z.ltb_ge in Ho; lia.
Qed.

(** Copies between references: [copyTo] never has undefined behaviour, even when the objects overlap
    (the test for overlap is complete), copies the elements both have room for and changes nothing else;
    for references to single bytes [populate] then holds the source followed by zeroes.  For larger
    elements [populate] clears too little: it passes the number of missing elements where [memset] takes
    bytes, so that all but the first of the trailing bytes of the missing elements keep their values. *)
Theorem copies (t r : vector_ref) (m : memory) :
  0 <= m_count r <= m_count t ->
  (exists m', copyTo sz t r m = Ok m' /\ load m' (m_data t) (Z.to_nat (m_count r * sz)) = toBytes sz m r /\
     forall a, a < m_data t \/ m_data t + m_count r * sz <= a -> m' a = m a) /\
  (sz = 1 -> exists m', populate sz t r m = Ok m' /\
     toBytes sz m' t = toBytes sz m r ++ replicate (Z.to_nat (m_count t - m_count r)) 0 /\
     forall a, a < m_data t \/ m_data t + m_count t <= a -> m' a = m a) /\
  (1 < sz -> exists m', populate sz t r m = Ok m' /\
     forall a, m_data t + m_count r * sz + (m_count t - m_count r) <= a -> m' a = m a).
Proof.
  intros [Hr Ht]. destruct (copyTo_bytes t r m) as (m' & Hc & Hm'); [lia..|].
  rewrite Z.min_r in Hm' by lia. assert (H0 : 0 <= m_count r * sz) by (apply Z.mul_nonneg_nonneg; lia).
  assert (Hl : load m' (m_data t) (Z.to_nat (m_count r * sz)) = toBytes sz m r).
  { apply load_ext. intros i Hi. rewrite Hm', decide_True by lia. f_equal. lia. }
  assert (Hpop : populate sz t r m = Ok (memset (m_data t + m_count r * sz) 0 (m_count t - m_count r) m')).
  { unfold populate. rewrite Hc. cbn [res_bind]. by rewrite Z.max_l by lia. }
  split_and!.
  - exists m'. split_and!; [done | done |]. intros a Ha. rewrite Hm'. by rewrite decide_False by lia.
  - intros ->. rewrite !Z.mul_1_r in *. eexists. split_and!; [exact Hpop | |].
    + unfold toBytes at 1. rewrite Z.mul_1_r.
      replace (Z.to_nat (m_count t)) with (Z.to_nat (m_count r) + Z.to_nat (m_count t - m_count r))%nat by lia.
      rewrite load_app. f_equal.
      * rewrite <- Hl. apply load_ext. intros i Hi. by rewrite memset_byte, decide_False by lia.
      * apply list_eq. intros i. destruct (decide (i < Z.to_nat (m_count t - m_count r))%nat).
        -- rewrite lookup_load, lookup_replicate_2 by done. by rewrite memset_byte, decide_True by lia.
        -- rewrite !lookup_ge_None_2; [done | rewrite length_replicate; lia | rewrite length_load; lia].
    + intros a Ha. rewrite memset_byte, decide_False by lia. by rewrite Hm', decide_False by lia.
  - intros Hs. eexists. split; [exact Hpop|]. intros a Ha. rewrite memset_byte, decide_False by lia.
    by rewrite Hm', decide_False by lia.
Qed.

(** ** Views *)

Lemma elements_bytes m r : 0 <= m_count r -> concat (toVector sz m r) = toBytes sz m r.
Proof.
  intros Hr. unfold toVector, toBytes. rewrite Z2Nat.inj_mul by lia. generalize (Z.to_nat (m_count r)). intros n.
  induction n as [|n IH]; [done|]. rewrite seq_S, fmap_app, concat_app, IH. cbn [fmap list_fmap concat Nat.add].
  rewrite app_nil_r. replace (S n * Z.to_nat sz)%nat with (n * Z.to_nat sz + Z.to_nat sz)%nat by lia.
  rewrite load_app. f_equal. unfold element. f_equal. rewrite Nat2Z.inj_mul, Z2Nat.id by lia. done.
Qed.

Lemma toVector_shift m r b c : 0 <= b -> 0 <= c -> b + c <= m_count r ->
  toVector sz m {| m_data := m_data r + b * sz; m_count := c |} =
    take (Z.to_nat c) (drop (Z.to_nat b) (toVector sz m r)).
Proof.
  intros Hb Hc Hr. unfold toVector. cbn [m_count]. apply list_eq. intros i.
  destruct (decide (i < Z.to_nat c)%nat).
  - rewrite lookup_take_lt by done. rewrite lookup_drop, !list_lookup_fmap, !lookup_seq_lt by lia. cbn.
    f_equal. unfold element. cbn [m_data]. f_equal. rewrite Nat2Z.inj_add, Z2Nat.id by lia. lia.
  - rewrite !lookup_ge_None_2; [done | rewrite length_take; lia | rewrite length_fmap, length_seq; lia].
Qed.

(** Cropping is taking a part of the elements, and nothing when the part is out of bounds; in particular
    nothing for the count [~size_t(0)], which is documented to extend the view to the end. *)
Theorem cropped_views (m : memory) (r : vector_ref) (b c : Z) :
  m_data r <> 0 -> 0 <= m_count r < 2 ^ 63 -> 0 <= b < 2 ^ 64 -> 0 <= c < 2 ^ 64 ->
  toVector sz m (cropped sz b c r) =
    (if decide (b + c <= m_count r) then take (Z.to_nat c) (drop (Z.to_nat b) (toVector sz m r)) else []) /\
  cropped sz b npos r = null_ref /\
  toVector sz m (cropped_from sz b r) = drop (Z.to_nat b) (toVector sz m r).
Proof.
  intros Hd Hr Hb Hc. assert (Hz : m_data r =? 0 = false) by by apply Z.eqb_neq.
  split_and!.
  - unfold cropped. rewrite Hz. cbn [negb andb]. destruct (decide (b + c <= m_count r)).
    + rewrite wrap_id by (split; lia).
      assert ((b <=? m_count r) && (c <=? m_count r) && (b + c <=? m_count r) = true) as ->
        by (rewrite !andb_true_iff, !Z.leb_le; lia).
      assert (c =? npos = false) as -> by (apply Z.eqb_neq; unfold npos; lia).
      apply toVector_shift; lia.
    + destruct ((b <=? m_count r) && (c <=? m_count r) && (wrap 64 (b + c) <=? m_count r)) eqn:E; [|done].
      bool_to_prop. exfalso. rewrite wrap_id in * by (split; lia). lia.
  - unfold cropped. assert (npos <=? m_count r = false) as -> by (apply Z.leb_gt; unfold npos; lia).
    by rewrite andb_false_r.
  - unfold cropped_from. rewrite Hz. cbn [negb andb]. destruct (Z.leb_spec b (m_count r)).
    + rewrite toVector_shift by lia. apply take_ge. rewrite length_drop. unfold toVector.
      rewrite length_fmap, length_seq. lia.
    + rewrite drop_ge; [done|]. unfold toVector. rewrite length_fmap, length_seq. lia.
Qed.

(** ** cleanse *)

Lemma cleanse_loop_outside n : forall p c m a, a < p \/ p + Z.of_nat n <= a ->
  snd (cleanse_loop n p c m) a = m a.
Proof.
  induction n as [|n IH]; intros p c m a Ha; cbn [cleanse_loop]; [done|].
  rewrite IH by lia. by rewrite store_outside by (cbn; lia).
Qed.

(** After [cleanse] all bytes of the object are zero and no other byte has changed. *)
Theorem cleanse_zeroes (s : Z) (r : vector_ref) (m : memory) : 0 <= m_count r ->
  forall a, snd (cleanse sz s r m) a =
    if decide (m_data r <= a < m_data r + m_count r * sz) then 0 else m a.
Proof.
  intros Hr a. unfold cleanse, begin_, end_. cbn zeta.
  replace (m_data r + m_count r * sz - m_data r) with (m_count r * sz) by lia.
  assert (0 <= m_count r * sz) by (apply Z.mul_nonneg_nonneg; lia).
  destruct (cleanse_loop _ _ _ _) as [c m'] eqn:E. cbn [snd]. rewrite memset_byte by lia.
  destruct (decide _); [done|]. change m' with (snd (c, m')). rewrite <- E. apply cleanse_loop_outside. lia.
Qed.

End vector_ref_theorems.

(** [contentsEqual] compares contents; a null or empty reference equals the empty vector only. *)
Theorem contentsEqual_iff (sz : Z) (m : memory) (r : vector_ref) (c : list bytes) :
  0 < sz -> 0 < m_count r -> m_data r <> 0 -> Forall (fun e => length e = Z.to_nat sz) c ->
  contentsEqual sz m r c = true <-> c = toVector sz m r.
Proof.
  intros Hs Hr Hd Hc. unfold contentsEqual.
  assert ((m_data r =? 0) || (m_count r =? 0) = false) as -> by (rewrite orb_false_iff, !Z.eqb_neq; lia).
  rewrite andb_true_iff, Z.eqb_eq, bool_decide_eq_true, <- elements_bytes by lia. split.
  - intros [Hl E]. assert (Hv : Forall (fun e => length e = Z.to_nat sz) (toVector sz m r)).
    { apply Forall_fmap, Forall_forall. intros i _. apply length_load. }
    assert (Hl' : length c = length (toVector sz m r)).
    { unfold toVector. rewrite length_fmap, length_seq. lia. }
    clear Hl. revert E Hv Hl'. generalize (toVector sz m r). clear Hr Hd.
    induction Hc as [|e c He _ IH]; intros [|e' l] E Hv Hl; try done. cbn in E.
    apply Forall_cons in Hv as [He' Hv]. apply app_inj_1 in E as [-> E]; [|congruence].
    f_equal. apply IH; [done | done | by injection Hl].
  - intros ->. split; [|done]. unfold toVector. rewrite length_fmap, length_seq. lia.
Qed.

(** A reference read as one to elements of another size and back is the same reference, when the
    assertion holds. *)
Theorem reinterpret_roundtrip (sz sz2 : Z) (r r' : vector_ref) : 0 < sz -> 0 < sz2 -> 0 <= m_count r ->
  reinterpret sz sz2 r = Ok r' -> reinterpret sz2 sz r' = Ok r.
Proof.
  intros H1 H2 Hr. unfold reinterpret. destruct (Z.eqb_spec (m_count r * sz / sz2 * sz2 / sz) (m_count r)) as [E|]; [|done].
  intros [= <-]. cbn [m_data m_count]. rewrite E.
  assert (m_count r * sz / sz2 * sz2 = m_count r * sz) as E2.
  { pose proof (Z.mul_div_le (m_count r * sz) sz2 H2).
    pose proof (Z.mul_div_le (m_count r * sz / sz2 * sz2) sz H1). rewrite E in *. nia. }
  assert (m_count r * sz / sz2 =? m_count r * sz / sz2 = true) as -> by apply Z.eqb_refl.
  by destruct r.
Qed.

(** ** Witnesses *)

Lemma copies_witness : exists m',
  populate 1 {| m_data := 100; m_count := 5 |} {| m_data := 102; m_count := 3 |} (fun a => a) = Ok m'.
Proof.
  destruct (copies 1 eq_refl {| m_data := 100; m_count := 5 |} {| m_data := 102; m_count := 3 |} (fun a => a))
    as (_ & H & _); [cbn; lia|]. destruct (H eq_refl) as (m' & E & _). by exists m'.
Defined.

(** Of two missing 4-byte elements only the first two bytes are cleared. *)
Example populate_short :
  (fun m' => load m' 100 12) <$> (match populate 4 {| m_data := 100; m_count := 3 |} {| m_data := 200; m_count := 1 |}
     (fun _ => 7) with Ok m' => Some m' | Throw _ => None end) =
  Some [7; 7; 7; 7; 0; 0; 7; 7; 7; 7; 7; 7].
Proof. vm_compute. reflexivity. Qed.
