(* ===== verification/Fips202.v ===== *)
(** * FIPS 202: the permutation and the sponge, as the standard writes them

    The specification src/libethash-cpu/picosha3.h is held against: the five step mappings and the
    round constants on a state of bits, the permutation Keccak-p[1600, 24], the padding rule, the
    sponge construction and the four fixed-length functions, all on strings of bits.  Nothing here is
    taken from the code: the round constants come from the shift register of Algorithm 5, the rotation
    offsets from Table 2 of the standard. *)

From S2P Require Import Prelude.

(** ** The state (3.1) *)

(** A bit for every [x < 5], [y < 5], [z < 64]. *)
Definition bits := nat -> nat -> Z -> bool.

(** Bit states that agree where the state has bits. *)
Definition bits_eq (b c : bits) : Prop :=
  forall x y z, (x < 5)%nat -> (y < 5)%nat -> 0 <= z < 64 -> b x y z = c x y z.

#[export] Instance bits_eq_equiv : Equivalence bits_eq.
Proof.
  split.
  - by intros b x y z.
  - intros b c H x y z ???. symmetry. by apply H.
  - intros b c d H1 H2 x y z ???. etrans; [by apply H1 | by apply H2].
Qed.

(** ** The step mappings (3.2) *)

Definition fips_parity (b : bits) (x : nat) (z : Z) : bool :=
  xorb (xorb (xorb (xorb (b x 0%nat z) (b x 1%nat z)) (b x 2%nat z)) (b x 3%nat z)) (b x 4%nat z).
Definition fips_theta (b : bits) : bits := fun x y z =>
  xorb (b x y z)
    (xorb (fips_parity b ((x + 4) mod 5) z) (fips_parity b ((x + 1) mod 5) ((z - 1) mod 64))).

(** The offsets of Table 2. *)
Definition rho_offset (x y : nat) : Z :=
  nth y (nth x [[0; 36; 3; 105; 210]; [1; 300; 10; 45; 66]; [190; 6; 171; 15; 253];
                [28; 55; 153; 21; 120]; [91; 276; 231; 136; 78]] []) 0.
Definition fips_rho (b : bits) : bits := fun x y z => b x y ((z - rho_offset x y) mod 64).
Definition fips_pi (b : bits) : bits := fun x y z => b ((x + 3 * y) mod 5)%nat x z.
Definition fips_chi (b : bits) : bits := fun x y z =>
  xorb (b x y z) (andb (negb (b ((x + 1) mod 5)%nat y z)) (b ((x + 2) mod 5)%nat y z)).

(** Algorithm 5: the register [R] of eight bits, and the bit [rc(t)]. *)
Definition rc_step (R : list bool) : list bool :=
  let R := false :: R in
  take 8 (imap (fun i b => if bool_decide (i ∈ [0; 4; 5; 6]%nat) then xorb b (nth 8 R false) else b) R).
Definition rc (t : nat) : bool :=
  nth 0 (Nat.iter (t mod 255) rc_step [true; false; false; false; false; false; false; false]) false.

(** Algorithm 6: the round constant has the bit [rc(j + 7 ir)] at [2^j - 1], for [j] up to 6. *)
Definition round_constant (ir : nat) (z : Z) : bool :=
  existsb (fun j => (z =? 2 ^ Z.of_nat j - 1) && rc (j + 7 * ir)) (List.seq 0 7).
Definition fips_iota (ir : nat) (b : bits) : bits := fun x y z =>
  if (x =? 0)%nat && (y =? 0)%nat then xorb (b x y z) (round_constant ir z) else b x y z.

Definition fips_round (b : bits) (ir : nat) : bits :=
  fips_iota ir (fips_chi (fips_pi (fips_rho (fips_theta b)))).

(** Keccak-p[1600, 24], which is Keccak-f[1600] (3.3, 3.4). *)
Definition keccak_f (b : bits) : bits := fold_left fips_round (List.seq 0 24) b.

(** ** Strings and states (3.1.2, 3.1.3) *)

(** Bit [64 (5 y + x) + z] of a string is bit [(x, y, z)] of the state; a shorter string is continued
    with zeroes. *)
Definition of_string_bits (S : list bool) : bits := fun x y z =>
  nth (64 * (5 * y + x) + Z.to_nat z) S false.
(** Bit [k] of the string of a state. *)
Definition state_bit (b : bits) (k : nat) : bool := b ((k / 64) mod 5)%nat (k / 320)%nat (Z.of_nat (k mod 64)).

(** The bits of a byte string, the least significant of each byte first (B.1). *)
Definition byte_bits (b : Z) : list bool := (fun i => Z.testbit b (Z.of_nat i)) <$> List.seq 0 8.
Definition bits_of (m : list Z) : list bool := m ≫= byte_bits.

(** ** Padding and the sponge (4, 5) *)

(** [pad10*1(x, m)] *)
Definition pad101 (x m : nat) : list bool :=
  true :: replicate (Z.to_nat ((- Z.of_nat m - 2) mod Z.of_nat x)) false ++ [true].

(** The string that is absorbed: the message, the suffix of the function and the padding. *)
Definition padded (r : nat) (suffix M : list bool) : list bool :=
  (M ++ suffix) ++ pad101 r (length (M ++ suffix)).

Definition xor_bits (b c : bits) : bits := fun x y z => xorb (b x y z) (c x y z).
Definition zero_bits : bits := fun _ _ _ => false.

(** The [r]-bit blocks of [P], each xor-ed into the state before the permutation. *)
Definition fips_absorb (r : nat) (P : list bool) : bits :=
  fold_left (fun b i => keccak_f (xor_bits b (of_string_bits (take r (drop (i * r) P)))))
    (List.seq 0 (length P / r)) zero_bits.

(** [r] bits of the state, then [r] bits of the permuted state, and so on: bit [n] of the output is
    bit [n mod r] of the state after [n / r] more permutations. *)
Definition fips_squeeze (r d : nat) (b : bits) : list bool :=
  (fun n => state_bit (Nat.iter (n / r) keccak_f b) (n mod r)) <$> List.seq 0 d.

(** [SPONGE] on an input that is padded already. *)
Definition fips_sponge (r d : nat) (P : list bool) : list bool := fips_squeeze r d (fips_absorb r P).

(** ** The functions (6.1, 6.2) *)

Definition sha3_suffix : list bool := [false; true].
Definition shake_suffix : list bool := [true; true; true; true].
Definition KECCAK (c d : nat) (suffix M : list bool) : list bool :=
  fips_sponge (1600 - c) d (padded (1600 - c) suffix M).
Definition SHA3 (d : nat) (M : list bool) : list bool := KECCAK (2 * d) d sha3_suffix M.
Definition SHAKE (strength d : nat) (M : list bool) : list bool := KECCAK (2 * strength) d shake_suffix M.

(** * Properties *)

Lemma mod5_lt n : (n mod 5 < 5)%nat.
Proof. apply Nat.mod_upper_bound. lia. Qed.
Lemma zmod64_range z : 0 <= z mod 64 < 64.
Proof. apply Z.mod_pos_bound. lia. Qed.
#[export] Hint Resolve mod5_lt zmod64_range : miner.

Lemma fips_parity_proper x : (x < 5)%nat ->
  forall b c z, bits_eq b c -> 0 <= z < 64 -> fips_parity b x z = fips_parity c x z.
Proof. intros Hx b c z H Hz. unfold fips_parity. rewrite !H by lia. done. Qed.

#[export] Instance fips_round_proper : Proper (bits_eq ==> eq ==> bits_eq) fips_round.
Proof.
  assert (Ht : Proper (bits_eq ==> bits_eq) fips_theta).
  { intros b c H x y z ???. unfold fips_theta.
    rewrite (H x y z), !(fips_parity_proper _ (mod5_lt _) b c) by auto with miner. done. }
  assert (Hr : Proper (bits_eq ==> bits_eq) fips_rho).
  { intros b c H x y z ???. apply H; auto with miner. }
  assert (Hp : Proper (bits_eq ==> bits_eq) fips_pi).
  { intros b c H x y z ???. apply H; auto with miner. }
  assert (Hc : Proper (bits_eq ==> bits_eq) fips_chi).
  { intros b c H x y z ???. unfold fips_chi. rewrite !H by auto with miner. done. }
  intros b c H ir ? <- x y z ???. unfold fips_round, fips_iota.
  rewrite (Hc _ _ (Hp _ _ (Hr _ _ (Ht _ _ H))) x y z) by done. done.
Qed.

#[export] Instance keccak_f_proper : Proper (bits_eq ==> bits_eq) keccak_f.
Proof.
  unfold keccak_f. generalize (List.seq 0 24). intros l. induction l as [|i l IH]; intros b c H; [done|].
  cbn [fold_left]. apply IH. by rewrite H.
Qed.

#[export] Instance xor_bits_proper : Proper (bits_eq ==> bits_eq ==> bits_eq) xor_bits.
Proof. intros b c H b' c' H' x y z ???. unfold xor_bits. by rewrite H, H'. Qed.

Lemma iter_proper n : Proper (bits_eq ==> bits_eq) (Nat.iter n keccak_f).
Proof. induction n as [|n IH]; intros b c H; [done|]. cbn. by rewrite (IH b c H). Qed.

(** ** Bits of strings *)

Lemma byte_bits_length b : length (byte_bits b) = 8%nat.
Proof. done. Qed.
Lemma bits_of_cons b m : bits_of (b :: m) = byte_bits b ++ bits_of m.
Proof. done. Qed.
Lemma bits_of_app a b : bits_of (a ++ b) = bits_of a ++ bits_of b.
Proof. apply bind_app. Qed.
Lemma bits_of_length m : length (bits_of m) = (8 * length m)%nat.
Proof. induction m as [|b m IH]; [done|]. rewrite bits_of_cons, length_app, IH. cbn [length]. rewrite byte_bits_length. lia. Qed.
Lemma bits_of_zeros n : bits_of (replicate n 0) = replicate (8 * n) false.
Proof.
  induction n as [|n IH]; [done|]. cbn [replicate]. rewrite bits_of_cons, IH.
  replace (8 * S n)%nat with (8 + 8 * n)%nat by lia. by rewrite replicate_add.
Qed.
Lemma bits_of_take n m : take (8 * n) (bits_of m) = bits_of (take n m).
Proof.
  revert m. induction n as [|n IH]; intros [|b m]; [done..|by rewrite take_nil|].
  cbn [take]. rewrite !bits_of_cons. replace (8 * S n)%nat with (length (byte_bits b) + 8 * n)%nat by (rewrite byte_bits_length; lia).
  by rewrite take_app_add, IH.
Qed.
Lemma bits_of_drop n m : drop (8 * n) (bits_of m) = bits_of (drop n m).
Proof.
  revert m. induction n as [|n IH]; intros [|b m]; [done..|by rewrite drop_nil|].
  cbn [drop]. rewrite bits_of_cons. replace (8 * S n)%nat with (length (byte_bits b) + 8 * n)%nat by (rewrite byte_bits_length; lia).
  by rewrite drop_app_add, IH.
Qed.

Lemma byte_bits_lookup b j : (j < 8)%nat -> byte_bits b !! j = Some (Z.testbit b (Z.of_nat j)).
Proof. intros. do 8 (destruct j as [|j]; [done|]). lia. Qed.

(** Bit [8 i + j] is bit [j] of byte [i]. *)
Lemma bits_of_lookup m i j : (j < 8)%nat ->
  bits_of m !! (8 * i + j)%nat = (fun b => Z.testbit b (Z.of_nat j)) <$> m !! i.
Proof.
  intros Hj. revert i. induction m as [|b m IH]; intros i; [by rewrite !lookup_nil|]. rewrite bits_of_cons.
  destruct i as [|i].
  - rewrite lookup_app_l by (rewrite byte_bits_length; lia). cbn [lookup list_lookup fmap option_fmap option_map].
    by apply byte_bits_lookup.
  - rewrite lookup_app_r by (rewrite byte_bits_length; lia). rewrite byte_bits_length.
    replace (8 * S i + j - 8)%nat with (8 * i + j)%nat by lia. apply IH.
Qed.

Lemma fips_squeeze_length r d b : length (fips_squeeze r d b) = d.
Proof. unfold fips_squeeze. by rewrite length_fmap, length_seq. Qed.
Lemma fips_squeeze_lookup r d b n : (n < d)%nat ->
  fips_squeeze r d b !! n = Some (state_bit (Nat.iter (n / r) keccak_f b) (n mod r)).
Proof. intros Hn. unfold fips_squeeze. rewrite list_lookup_fmap, lookup_seq_lt by done. done. Qed.
