(* ===== verification/PicoSha3.v ===== *)
(** * libethash-cpu/picosha3.h: the Keccak permutation and the SHA-3 generator

    The header's state array, the five step mappings as the loops that compute them, and
    [HashGenerator] with its buffer, state and output.  The permutation is proved equal to the
    FIPS 202 formulas (see Fips202); the generator is compared with the sponge in Sha3Sponge. *)

From S2P Require Import Prelude CppString CommonData Fips202.

(** ** State *)

Abbreviation state_t := (list (list Z)).

(** [A[x][y]] *)
Definition lane (A : state_t) (x y : nat) : Z := nth y (nth x A []) 0.

(** [A[x][y] = v] *)
Definition set_lane (A : state_t) (x y : nat) (v : Z) : state_t :=
  alter (fun row : list Z => <[y := v]> row) x A.

(** A pass over every lane ([for x] [for y]) that writes [A[x][y] = f x y]. *)
Definition mk_state (f : nat -> nat -> Z) : state_t :=
  (fun x => f x <$> List.seq 0 5) <$> List.seq 0 5.

Definition state0 : state_t := mk_state (fun _ _ => 0).

Definition RC : list Z := [
  0x0000000000000001; 0x0000000000008082; 0x800000000000808A;
  0x8000000080008000; 0x000000000000808B; 0x0000000080000001;
  0x8000000080008081; 0x8000000000008009; 0x000000000000008A;
  0x0000000000000088; 0x0000000080008009; 0x000000008000000A;
  0x000000008000808B; 0x800000000000008B; 0x8000000000008089;
  0x8000000000008003; 0x8000000000008002; 0x8000000000000080;
  0x000000000000800A; 0x800000008000000A; 0x8000000080008081;
  0x8000000000008080; 0x0000000080000001; 0x8000000080008008].

(** ** Step mappings *)

(** [v << o | v >> (64 - o)] on [uint64_t]. *)
Definition rot (v o : Z) : Z := Z.lor (u64 (Z.shiftl v o)) (Z.shiftr v (64 - o)).

Definition theta (A : state_t) : state_t :=
  let C x := Z.lxor (Z.lxor (Z.lxor (Z.lxor (lane A x 0) (lane A x 1)) (lane A x 2))
                            (lane A x 3)) (lane A x 4) in
  let D := [Z.lxor (C 4%nat) (rot (C 1%nat) 1); Z.lxor (C 0%nat) (rot (C 2%nat) 1);
            Z.lxor (C 1%nat) (rot (C 3%nat) 1); Z.lxor (C 2%nat) (rot (C 4%nat) 1);
            Z.lxor (C 3%nat) (rot (C 0%nat) 1)] in
  mk_state (fun x y => Z.lxor (lane A x y) (nth x D 0)).

(** The walk of [rho]: [offset] from [t], the lane is rotated in place, then [(x, y)] moves. *)
Fixpoint rho_loop (n t : nat) (x y : nat) (A : state_t) : state_t :=
  match n with
  | O => A
  | S n' =>
      let offset := Z.of_nat ((((t + 1) * (t + 2)) / 2) mod 64) in
      let A := set_lane A x y (rot (lane A x y) offset) in
      rho_loop n' (S t) y ((2 * x + 3 * y) mod 5) A
  end.
Definition rho (A : state_t) : state_t := rho_loop 24 0 1 0 A.

Definition pi (A : state_t) : state_t :=
  let tmp := A in mk_state (fun x y => lane tmp ((x + 3 * y) mod 5) x).

Definition chi (A : state_t) : state_t :=
  let tmp := A in
  mk_state (fun x y => Z.lxor (lane tmp x y)
    (Z.land (u64 (Z.lnot (lane tmp ((x + 1) mod 5) y))) (lane tmp ((x + 2) mod 5) y))).

Definition iota (A : state_t) (round_index : nat) : state_t :=
  set_lane A 0 0 (Z.lxor (lane A 0 0) (nth round_index RC 0)).

Definition keccak_p (A : state_t) : state_t :=
  fold_left (fun A round_index => iota (chi (pi (rho (theta A)))) round_index) (List.seq 0 24) A.

(** ** Absorbing and squeezing bytes *)

(** [next(x, y, i)] *)
Definition next (x y i : nat) : nat * nat * nat :=
  if negb (S i =? 8)%nat then (x, y, S i)
  else if negb (S x =? 5)%nat then (S x, y, 0%nat)
  else (0%nat, S y, 0%nat).

Fixpoint absorb_loop (src : bytes) (x y i : nat) (A : state_t) : state_t :=
  match src with
  | [] => A
  | b :: src' =>
      if (y <? 5)%nat then
        let A := set_lane A x y (Z.lxor (lane A x y) (u64 (Z.shiftl b (Z.of_nat i * 8)))) in
        let '(x, y, i) := next x y i in
        absorb_loop src' x y i A
      else A
  end.
Definition absorb (src : bytes) (A : state_t) : state_t := absorb_loop src 0 0 0 A.

(** Byte [i] of a 64-bit word in memory on the little-endian host. *)
Definition byte_of (v : Z) (i : nat) : Z := Z.land (Z.shiftr v (8 * Z.of_nat i)) 255.

(** The bytes [squeeze] writes into [room] remaining output bytes, at most [rate_bytes]. *)
Fixpoint squeeze_loop (A : state_t) (n : nat) (x y i : nat) : bytes :=
  match n with
  | O => []
  | S n' =>
      if (y <? 5)%nat then
        let b := byte_of (lane A x y) i in
        let '(x, y, i) := next x y i in
        b :: squeeze_loop A n' x y i
      else []
  end.
Definition squeeze (A : state_t) (room rate_bytes : nat) : bytes :=
  squeeze_loop A (Nat.min room rate_bytes) 0 0 0.

(** ** HashGenerator<rate_bytes, d_bytes, padding_type> *)

Inductive PaddingType := SHA | SHAKE.

Record HashGenerator := {
  buffer_ : bytes;
  buffer_pos_ : nat;
  A_ : state_t;
  hash_ : bytes;
  is_finished_ : bool }.

Section HashGenerator.
Context (rate_bytes d_bytes : nat) (padding_type : PaddingType).

Definition new_generator : HashGenerator := {|
  buffer_ := replicate rate_bytes 0; buffer_pos_ := 0; A_ := state0;
  hash_ := replicate d_bytes 0; is_finished_ := false |}.

Definition clear_buffer (g : HashGenerator) : HashGenerator := {|
  buffer_ := replicate rate_bytes 0; buffer_pos_ := 0; A_ := A_ g;
  hash_ := hash_ g; is_finished_ := is_finished_ g |}.

Definition clear (g : HashGenerator) : HashGenerator := {|
  buffer_ := replicate rate_bytes 0; buffer_pos_ := 0; A_ := state0;
  hash_ := hash_ g; is_finished_ := false |}.

(** One turn of [process]'s loop. *)
Definition process_byte (g : HashGenerator) (b : Z) : HashGenerator :=
  let g := {| buffer_ := <[buffer_pos_ g := b]> (buffer_ g); buffer_pos_ := S (buffer_pos_ g);
              A_ := A_ g; hash_ := hash_ g; is_finished_ := is_finished_ g |} in
  if (buffer_pos_ g =? rate_bytes)%nat then
    clear_buffer {| buffer_ := buffer_ g; buffer_pos_ := buffer_pos_ g;
                    A_ := keccak_p (absorb (buffer_ g) (A_ g));
                    hash_ := hash_ g; is_finished_ := is_finished_ g |}
  else g.

Definition process (src : bytes) (g : HashGenerator) : HashGenerator :=
  fold_left process_byte src g.

(** [q] is computed from [std::distance(buffer_pos_, buffer_.begin())], a negative number
    converted to [size_t]. *)
Definition add_padding (g : HashGenerator) : bytes :=
  let q := u64 (Z.of_nat rate_bytes - u64 (- Z.of_nat (buffer_pos_ g))) in
  let '(single, first) := match padding_type with SHA => (0x86, 0x06) | SHAKE => (0x9F, 0x1F) end in
  if q =? 1 then <[buffer_pos_ g := single]> (buffer_ g)
  else <[(rate_bytes - 1)%nat := 0x80]> (<[buffer_pos_ g := first]> (buffer_ g)).

(** [squeeze_]: squeeze, and permute again while output remains to be written. *)
Fixpoint squeeze_all (fuel : nat) (A : state_t) (room : nat) : bytes * state_t :=
  match fuel with
  | O => ([], A)
  | S f =>
      let out := squeeze A room rate_bytes in
      let room := (room - length out)%nat in
      if (room =? 0)%nat then (out, A)
      else let '(out', A') := squeeze_all f (keccak_p A) room in (out ++ out', A')
  end.

Definition finish (g : HashGenerator) : HashGenerator :=
  let buf := add_padding g in
  let A := keccak_p (absorb buf (A_ g)) in
  let '(h, A) := squeeze_all d_bytes A d_bytes in
  {| buffer_ := buf; buffer_pos_ := buffer_pos_ g; A_ := A; hash_ := h; is_finished_ := true |}.

Definition get_hash_bytes (g : HashGenerator) : res bytes :=
  if is_finished_ g then Ok (hash_ g) else Throw (RuntimeError "Not finished!").

(** [operator()(in_first, in_last, out_first, out_last)]: the output bytes and the generator. *)
Definition run (src : bytes) (g : HashGenerator) : bytes * HashGenerator :=
  let g := finish (process src g) in (hash_ g, clear g).

End HashGenerator.

Definition bits_to_bytes (bits : nat) : nat := (bits / 8)%nat.
Definition b_bytes : nat := bits_to_bytes 1600.

(** [get_sha3_generator<d_bits>()] applied to a message. *)
Definition sha3_rate (d_bits : nat) : nat := (b_bytes - bits_to_bytes d_bits * 2)%nat.
Definition sha3 (d_bits : nat) (src : bytes) : bytes :=
  fst (run (sha3_rate d_bits) (bits_to_bytes d_bits) SHA src
         (new_generator (sha3_rate d_bits) (bits_to_bytes d_bits))).

(** [get_shake_generator<strength_bits, d_bits>()] applied to a message. *)
Definition shake_rate (strength_bits : nat) : nat := (b_bytes - bits_to_bytes strength_bits * 2)%nat.
Definition shake (strength_bits d_bits : nat) (src : bytes) : bytes :=
  fst (run (shake_rate strength_bits) (bits_to_bytes d_bits) SHAKE src
         (new_generator (shake_rate strength_bits) (bits_to_bytes d_bits))).

(** Known answers of FIPS 202: SHA3-512 and SHA3-256 of the empty message, SHA3-256("abc"). *)
Example sha3_512_empty : toHex (sha3 512 []) 2 DontAdd =
  "a69f73cca23a9ac5c8b567dc185a756e97c982164fe25859e0d1dcc1475c80a615b2123af1f5f94c11e3e9402c3ac558f500199d95b6d3e301758586281dcd26".
Proof. vm_compute. reflexivity. Qed.

Example sha3_256_abc : toHex (sha3 256 (asBytes "abc")) 2 DontAdd =
  "3a985da74fe225b2045c172d6bd390bd855f086e3e9d525b46bfe24511431532".
Proof. vm_compute. reflexivity. Qed.

(** * Proofs *)

(** ** Well-formed states *)

Definition state_ok (A : state_t) : Prop :=
  length A = 5%nat /\ Forall (fun row => length row = 5%nat /\ Forall (in_range 64) row) A.

#[export] Instance state_ok_dec A : Decision (state_ok A).
Proof. unfold state_ok. apply _. Defined.

Lemma seq5_lookup {B} (f : nat -> B) d x : (x < 5)%nat -> nth x (f <$> List.seq 0 5) d = f x.
Proof. intros. do 5 (destruct x as [|x]; [done|]). lia. Qed.

Lemma lane_mk_state f x y : (x < 5)%nat -> (y < 5)%nat -> lane (mk_state f) x y = f x y.
Proof. intros. unfold lane, mk_state. by rewrite (seq5_lookup _ []), seq5_lookup. Qed.

Lemma mk_state_ok f : (forall x y, (x < 5)%nat -> (y < 5)%nat -> in_range 64 (f x y)) ->
  state_ok (mk_state f).
Proof.
  intros H. split; [done|]. unfold mk_state. simpl. repeat constructor; apply H; lia.
Qed.

Lemma mk_state_ext f g : (forall x y, (x < 5)%nat -> (y < 5)%nat -> f x y = g x y) ->
  mk_state f = mk_state g.
Proof. intros H. unfold mk_state. simpl. rewrite !H by lia. done. Qed.

Lemma list5_eta (l : list Z) : length l = 5%nat -> (fun y => nth y l 0) <$> List.seq 0 5 = l.
Proof. intros. do 5 (destruct l as [|? l]; [done|]). by destruct l. Qed.

Lemma state_eta A : state_ok A -> mk_state (lane A) = A.
Proof.
  intros [Hl HA]. do 5 (destruct A as [|? A]; [done|]). destruct A; [|done].
  repeat match goal with H : Forall _ (_ :: _) |- _ => inversion H; clear H; subst end.
  destruct_and!. unfold mk_state, lane.
  change (List.seq 0 5) with [0;1;2;3;4]%nat at 2. cbn [fmap list_fmap nth].
  by rewrite !list5_eta.
Qed.

Lemma lane_range A x y : state_ok A -> in_range 64 (lane A x y).
Proof.
  intros [Hl HA]. unfold lane.
  destruct (nth_in_or_default x A []) as [Hin| ->].
  - rewrite Forall_forall in HA. destruct (HA _ (proj2 (list_elem_of_In _ _) Hin)) as [_ Hrow].
    destruct (nth_in_or_default y (nth x A []) 0) as [Hin'| ->]; [|done].
    rewrite Forall_forall in Hrow. by apply Hrow, list_elem_of_In.
  - by destruct y.
Qed.

(** Bits of a value in range vanish at and above the width. *)
Lemma in_range_bits v : (forall i, 64 <= i -> Z.testbit v i = false) -> 0 <= v -> in_range 64 v.
Proof.
  intros H H0. split; [done|]. destruct (Z.ltb_spec v (2 ^ 64)); [done|].
  assert (64 <= Z.log2 v) by (apply Z.log2_le_pow2; lia).
  specialize (H (Z.log2 v) ltac:(done)). by rewrite Z.bit_log2 in H by lia.
Qed.

Lemma range_bits_high v i : in_range 64 v -> 64 <= i -> Z.testbit v i = false.
Proof.
  intros [H0 H1] Hi. destruct (decide (v = 0)) as [->|]; [apply Z.bits_0|].
  apply Z.bits_above_log2; [done|]. apply Z.lt_le_trans with 64; [|done].
  by apply Z.log2_lt_pow2; [lia|].
Qed.

Lemma bitwise_range f v w (op : bool -> bool -> bool) :
  (forall i, Z.testbit f i = op (Z.testbit v i) (Z.testbit w i)) -> op false false = false ->
  0 <= f -> in_range 64 v -> in_range 64 w -> in_range 64 f.
Proof.
  intros Hf Hop H0 Hv Hw. apply in_range_bits; [|done].
  intros i Hi. rewrite Hf, !range_bits_high by done. done.
Qed.

Lemma lxor_range v w : in_range 64 v -> in_range 64 w -> in_range 64 (Z.lxor v w).
Proof.
  intros Hv Hw. apply (bitwise_range _ v w xorb); auto using Z.lxor_spec.
  apply Z.lxor_nonneg. destruct Hv, Hw; lia.
Qed.
Lemma land_range v w : in_range 64 v -> in_range 64 w -> in_range 64 (Z.land v w).
Proof.
  intros Hv Hw. apply (bitwise_range _ v w andb); auto using Z.land_spec.
  apply Z.land_nonneg. destruct Hv; lia.
Qed.
Lemma lor_range v w : in_range 64 v -> in_range 64 w -> in_range 64 (Z.lor v w).
Proof.
  intros Hv Hw. apply (bitwise_range _ v w orb); auto using Z.lor_spec.
  apply Z.lor_nonneg. destruct Hv, Hw; lia.
Qed.

Lemma u64_range v : in_range 64 (u64 v).
Proof. by apply wrap_range. Qed.

Lemma shiftr_range v o : 0 <= o -> in_range 64 v -> in_range 64 (Z.shiftr v o).
Proof.
  intros Ho Hv. apply in_range_bits; [|apply Z.shiftr_nonneg, Hv].
  intros i Hi. rewrite Z.shiftr_spec by lia. apply range_bits_high; [done|lia].
Qed.

Lemma rot_range v o : 0 <= o <= 64 -> in_range 64 v -> in_range 64 (rot v o).
Proof. intros. apply lor_range; [apply u64_range | apply shiftr_range; [lia|done]]. Qed.

#[export] Hint Resolve lane_range lxor_range land_range lor_range u64_range rot_range : miner.

Lemma u64_testbit v i : 0 <= i < 64 -> Z.testbit (u64 v) i = Z.testbit v i.
Proof. intros Hi. unfold wrap. by rewrite Z.mod_pow2_bits_low by lia. Qed.

(** [rot] is the rotation of the 64 bit positions. *)
Lemma rot_testbit v o z : in_range 64 v -> 0 <= o < 64 -> 0 <= z < 64 ->
  Z.testbit (rot v o) z = Z.testbit v ((z - o) mod 64).
Proof.
  intros Hv Ho Hz. unfold rot. rewrite Z.lor_spec, u64_testbit, Z.shiftl_spec, Z.shiftr_spec by lia.
  destruct (Z.ltb_spec z o).
  - rewrite (Z.testbit_neg_r v (z - o)) by lia. simpl. f_equal.
    apply Z.mod_unique with (-1); lia.
  - rewrite (range_bits_high v (z + (64 - o))), orb_false_r by (done || lia).
    by rewrite Z.mod_small by lia.
Qed.

(** ** The permutation is Keccak-f[1600] of FIPS 202 *)

(** The state as bits. *)
Definition state_bits (A : state_t) : bits := fun x y z => Z.testbit (lane A x y) z.

Lemma theta_ok A : state_ok A -> state_ok (theta A).
Proof.
  intros HA. apply mk_state_ok. intros x y Hx Hy. apply lxor_range; [auto with miner|].
  do 5 (destruct x as [|x]; [simpl; auto 12 with miner lia|]). lia.
Qed.

Lemma theta_fips A : state_ok A -> bits_eq (state_bits (theta A)) (fips_theta (state_bits A)).
Proof.
  intros HA x y z Hx Hy Hz. unfold state_bits, theta. rewrite lane_mk_state by done.
  unfold fips_theta, fips_parity. rewrite Z.lxor_spec.
  do 5 (destruct x as [|x]; [simpl nth; simpl Nat.modulo;
    rewrite Z.lxor_spec, rot_testbit, !Z.lxor_spec by (auto 12 with miner lia); done|]). lia.
Qed.

Lemma rho_loops f : rho (mk_state f) =
  mk_state (fun x y => if (x =? 0)%nat && (y =? 0)%nat then f x y else rot (f x y) (rho_offset x y mod 64)).
Proof. cbv -[rot]. reflexivity. Qed.

Lemma rho_lanes A : state_ok A -> rho A =
  mk_state (fun x y => if (x =? 0)%nat && (y =? 0)%nat then lane A x y
                       else rot (lane A x y) (rho_offset x y mod 64)).
Proof. intros HA. rewrite <- rho_loops. apply (f_equal rho). symmetry. by apply state_eta. Qed.

Lemma rho_ok A : state_ok A -> state_ok (rho A).
Proof.
  intros HA. rewrite rho_lanes by done. apply mk_state_ok. intros x y Hx Hy.
  pose proof (zmod64_range (rho_offset x y)). case_match; auto with miner lia.
Qed.

Lemma rho_fips A : state_ok A -> bits_eq (state_bits (rho A)) (fips_rho (state_bits A)).
Proof.
  intros HA x y z Hx Hy Hz. unfold state_bits, fips_rho.
  rewrite rho_lanes, lane_mk_state by done. case_match eqn:E.
  - apply andb_true_iff in E as [->%Nat.eqb_eq ->%Nat.eqb_eq].
    change (rho_offset 0 0) with 0. by rewrite Z.sub_0_r, Z.mod_small.
  - rewrite rot_testbit by auto with miner. by rewrite Zminus_mod_idemp_r.
Qed.

Lemma pi_ok A : state_ok A -> state_ok (pi A).
Proof. intros HA. apply mk_state_ok. auto with miner. Qed.

Lemma pi_fips A : bits_eq (state_bits (pi A)) (fips_pi (state_bits A)).
Proof. intros x y z Hx Hy Hz. unfold state_bits, pi. by rewrite lane_mk_state. Qed.

Lemma chi_ok A : state_ok A -> state_ok (chi A).
Proof. intros HA. apply mk_state_ok. auto with miner. Qed.

Lemma chi_fips A : bits_eq (state_bits (chi A)) (fips_chi (state_bits A)).
Proof.
  intros x y z Hx Hy Hz. unfold state_bits, chi. rewrite lane_mk_state by done.
  unfold fips_chi. rewrite Z.lxor_spec, Z.land_spec, u64_testbit, Z.lnot_spec by lia. done.
Qed.

Lemma iota_lanes A i : state_ok A -> iota A i =
  mk_state (fun x y => if (x =? 0)%nat && (y =? 0)%nat then Z.lxor (lane A x y) (nth i RC 0)
                       else lane A x y).
Proof.
  intros [Hl HA]. do 5 (destruct A as [|? A]; [done|]). destruct A; [|done].
  repeat match goal with H : Forall _ (_ :: _) |- _ => inversion H; clear H; subst end.
  destruct_and!.
  repeat match goal with
  | H : length ?l = 5%nat |- _ => do 5 (destruct l as [|? l]; [discriminate H|]);
      destruct l; [clear H | discriminate H]
  end. reflexivity.
Qed.

Lemma RC_range i : in_range 64 (nth i RC 0).
Proof.
  destruct (nth_in_or_default i RC 0) as [Hin| ->]; [|done].
  assert (H : Forall (in_range 64) RC) by by_evaluation.
  rewrite Forall_forall in H. by apply H, list_elem_of_In.
Qed.
#[export] Hint Resolve RC_range theta_ok rho_ok pi_ok chi_ok : miner.

Lemma iota_ok A i : state_ok A -> state_ok (iota A i).
Proof.
  intros HA. rewrite iota_lanes by done. apply mk_state_ok. intros x y Hx Hy.
  case_match; auto with miner.
Qed.
#[export] Hint Resolve iota_ok : miner.

(** The table of the code holds the constants the shift register gives. *)
Lemma RC_bits i z : (i < 24)%nat -> 0 <= z < 64 -> Z.testbit (nth i RC 0) z = round_constant i z.
Proof.
  intros Hi Hz.
  assert (H : Forall (fun i => Forall (fun z => Z.testbit (nth i RC 0) (Z.of_nat z) = round_constant i (Z.of_nat z))
    (List.seq 0 64)) (List.seq 0 24)) by by_evaluation.
  rewrite Forall_forall in H. specialize (H i). rewrite Forall_forall in H.
  specialize (H ltac:(apply elem_of_seq; lia) (Z.to_nat z) ltac:(apply elem_of_seq; lia)).
  by rewrite Z2Nat.id in H by lia.
Qed.

Lemma iota_fips A i : state_ok A -> (i < 24)%nat -> bits_eq (state_bits (iota A i)) (fips_iota i (state_bits A)).
Proof.
  intros HA Hi x y z Hx Hy Hz. unfold state_bits, fips_iota.
  rewrite iota_lanes, lane_mk_state by done. case_match; [by rewrite Z.lxor_spec, RC_bits | done].
Qed.

Lemma round_fips A i : state_ok A -> (i < 24)%nat ->
  bits_eq (state_bits (iota (chi (pi (rho (theta A)))) i)) (fips_round (state_bits A) i).
Proof.
  intros HA Hi x y z Hx Hy Hz. unfold fips_round.
  rewrite iota_fips by auto 6 with miner. unfold fips_iota.
  assert (H : bits_eq (state_bits (chi (pi (rho (theta A)))))
                (fips_chi (fips_pi (fips_rho (fips_theta (state_bits A)))))).
  { intros x' y' z' Hx' Hy' Hz'. rewrite chi_fips by done. unfold fips_chi.
    rewrite !pi_fips by auto with miner. unfold fips_pi.
    rewrite !rho_fips by auto with miner. unfold fips_rho.
    rewrite !theta_fips by auto with miner. done. }
  by rewrite (H x y z).
Qed.

Lemma keccak_p_ok A : state_ok A -> state_ok (keccak_p A).
Proof.
  unfold keccak_p. generalize (List.seq 0 24). intros l. revert A.
  induction l as [|i l IH]; intros A HA; [done|]. simpl. apply IH. auto 6 with miner.
Qed.

Lemma keccak_p_bits A : state_ok A -> bits_eq (state_bits (keccak_p A)) (keccak_f (state_bits A)).
Proof.
  intros HA. unfold keccak_p, keccak_f.
  assert (Hgen : forall l, Forall (fun i => (i < 24)%nat) l -> forall A b, state_ok A -> bits_eq (state_bits A) b ->
    bits_eq (state_bits (fold_left (fun A i => iota (chi (pi (rho (theta A)))) i) l A))
            (fold_left fips_round l b)).
  2: { apply Hgen; [by_evaluation|done|done]. }
  clear A HA. induction 1 as [|i l Hi _ IH]; intros A b HA Hb; [done|]. cbn [fold_left].
  apply IH; [auto 6 with miner|]. etrans; [by apply round_fips|]. by rewrite Hb.
Qed.

(** C1: [keccak_p] is the permutation Keccak-p[1600, 24] of FIPS 202: for every well-formed state, each
    bit of the result is the one the standard's step mappings give after its 24 rounds - the rotation
    offsets those of its Table 2, the round constants those of its shift register -, and the result
    is well formed. *)
Theorem keccak_p_is_fips202 (A : state_t) :
  state_ok A -> state_ok (keccak_p A) /\ bits_eq (state_bits (keccak_p A)) (keccak_f (state_bits A)).
Proof. intros HA. split; [by apply keccak_p_ok | by apply keccak_p_bits]. Qed.

Lemma keccak_p_is_fips202_witness :
  state_ok (keccak_p state0) /\ bits_eq (state_bits (keccak_p state0)) (keccak_f (state_bits state0)).
Proof. apply keccak_p_is_fips202. by_evaluation. Defined.
