(* ===== verification/Sha3Sponge.v ===== *)
(** * The SHA-3 generator is the sponge of FIPS 202

    [HashGenerator] of src/libethash-cpu/picosha3.h against the standard's sponge (see Fips202), bit
    for bit: absorbing bytes is xor-ing their bits into the state, squeezing reads the state's
    string, and the buffer with its padding is the padded message - except for a message that ends
    one byte short of a block, for which the code pads otherwise. *)

From Stdlib Require Import ZifyNat.
From S2P Require Import Prelude CppString CommonData Fips202 PicoSha3.

#[local] Opaque keccak_p absorb keccak_f.

Ltac divs := zify; Z.to_euclidean_division_equations; lia.

(** ** Bytes and bits of the state *)

(** The place of byte [n] of the state's string. *)
Definition place (n : nat) : nat * nat * nat := ((n / 8) mod 5, n / 40, n mod 8)%nat.

Lemma next_place n : (let '(x, y, i) := place n in next x y i) = place (S n).
Proof.
  unfold place, next. destruct (Nat.eqb_spec (S (n mod 8)) 8) as [E|E]; cbn [negb].
  - destruct (Nat.eqb_spec (S ((n / 8) mod 5)) 5) as [E'|E']; cbn [negb]; (f_equal; [f_equal|]); divs.
  - (f_equal; [f_equal|]); divs.
Qed.

Lemma set_lane_ok A x y v : state_ok A -> in_range 64 v -> state_ok (set_lane A x y v).
Proof.
  intros [Hl HA] Hv. unfold set_lane. split; [by rewrite length_alter|].
  apply Forall_alter; [done|]. intros row _ [Hr Hf]. split; [by rewrite length_insert|]. by apply Forall_insert.
Qed.

Lemma lane_set_lane A x y v x' y' : state_ok A -> (x < 5)%nat -> (y < 5)%nat ->
  lane (set_lane A x y v) x' y' = if bool_decide (x' = x /\ y' = y) then v else lane A x' y'.
Proof.
  intros [Hl HA] Hx Hy. unfold lane, set_lane. rewrite !nth_lookup.
  destruct (decide (x' = x)) as [->|Hne].
  - rewrite list_lookup_alter_eq. destruct (lookup_lt_is_Some_2 A x ltac:(lia)) as [row Hrow]. rewrite Hrow. cbn.
    rewrite Forall_forall in HA. destruct (HA row) as [Hlr _]; [by apply list_elem_of_lookup_2 in Hrow|].
    destruct (decide (y' = y)) as [->|Hne].
    + rewrite list_lookup_insert_eq by lia. by rewrite bool_decide_eq_true_2.
    + rewrite list_lookup_insert_ne by done. by rewrite bool_decide_eq_false_2 by tauto.
  - rewrite list_lookup_alter_ne by done. by rewrite bool_decide_eq_false_2 by tauto.
Qed.

(** Bit [k] of the state's string, after absorbing [src] at byte [n], is xor-ed with bit [k - 8 n]. *)
Definition bit_from (n : nat) (src : bytes) (k : nat) : bool :=
  if (8 * n <=? k)%nat then nth (k - 8 * n) (bits_of src) false else false.
Definition at_bit (x y : nat) (z : Z) : nat := (64 * (5 * y + x) + Z.to_nat z)%nat.

Lemma bit_from_cons n b src k :
  bit_from n (b :: src) k =
    if bool_decide (8 * n <= k < 8 * n + 8)%nat then Z.testbit b (Z.of_nat k - 8 * Z.of_nat n)
    else bit_from (S n) src k.
Proof.
  unfold bit_from. rewrite bits_of_cons. case_bool_decide as E.
  - destruct (Nat.leb_spec (8 * n) k); [|lia]. rewrite nth_lookup. rewrite lookup_app_l by (rewrite byte_bits_length; lia).
    rewrite byte_bits_lookup by lia. cbn. f_equal. lia.
  - destruct (Nat.leb_spec (8 * n) k), (Nat.leb_spec (8 * S n) k); try lia.
    rewrite !nth_lookup. rewrite lookup_app_r by (rewrite byte_bits_length; lia). rewrite byte_bits_length.
    do 2 f_equal. lia.
Qed.

Lemma shifted_byte b i z : byte_ok b -> 0 <= i < 8 -> 0 <= z < 64 ->
  Z.testbit (u64 (Z.shiftl b (i * 8))) z = if bool_decide (8 * i <= z < 8 * i + 8) then Z.testbit b (z - 8 * i) else false.
Proof.
  intros Hb Hi Hz. rewrite u64_testbit, Z.shiftl_spec by lia. replace (z - i * 8) with (z - 8 * i) by lia.
  case_bool_decide as E; [done|]. destruct (Z.ltb_spec z (8 * i)); [by apply Z.testbit_neg_r; lia|].
  destruct (decide (b = 0)) as [->|]; [apply Z.bits_0|]. destruct Hb as [H0 H1].
  apply Z.bits_above_log2; [done|]. apply Z.lt_le_trans with 8; [apply Z.log2_lt_pow2; lia|lia].
Qed.

Lemma absorb_loop_bits src : forall n A, state_ok A -> bytes_ok src -> (n + length src <= 200)%nat ->
  let A' := (let '(x, y, i) := place n in absorb_loop src x y i A) in
  state_ok A' /\ forall x y z, (x < 5)%nat -> (y < 5)%nat -> 0 <= z < 64 ->
    Z.testbit (lane A' x y) z = xorb (Z.testbit (lane A x y) z) (bit_from n src (at_bit x y z)).
Proof.
  induction src as [|b src IH]; intros n A HA Hs Hn; cbv zeta.
  - cbn. split; [done|]. intros. unfold bit_from. cbn. destruct (_ <=? _)%nat; rewrite ?xorb_false_r; [|done].
    by destruct (_ - _)%nat; rewrite xorb_false_r.
  - apply Forall_cons in Hs as [Hb Hs]. cbn [length] in Hn.
    assert (Hx : ((n / 8) mod 5 < 5)%nat) by auto with miner. assert (Hy : (n / 40 < 5)%nat) by divs.
    unfold place. cbn [absorb_loop]. destruct (Nat.ltb_spec (n / 40) 5); [|lia].
    set (v := Z.lxor _ _). set (A1 := set_lane A ((n / 8) mod 5) (n / 40) v).
    assert (HA1 : state_ok A1) by (apply set_lane_ok; [done|]; apply lxor_range; auto with miner).
    pose proof (next_place n) as Hp. unfold place at 1 in Hp. cbv beta iota in Hp. rewrite Hp.
    destruct (IH (S n) A1 HA1 Hs ltac:(lia)) as [H1 H2]. split; [exact H1|].
    intros x y z Hx' Hy' Hz. rewrite H2 by done. unfold A1. rewrite lane_set_lane, bit_from_cons by done.
    set (i := (n mod 8)%nat). assert (Hi : (i < 8)%nat) by (apply Nat.mod_upper_bound; lia).
    assert (En : (n = 8 * (5 * (n / 40) + (n / 8) mod 5) + i)%nat) by (subst i; divs).
    case_bool_decide as E.
    + destruct E as [-> ->]. unfold v. rewrite Z.lxor_spec, shifted_byte by (done || lia). fold i.
      case_bool_decide as E1; case_bool_decide as E2; unfold at_bit in *; try lia.
      * unfold bit_from. destruct (Nat.leb_spec (8 * S n) (64 * (5 * (n / 40) + (n / 8) mod 5) + Z.to_nat z)); [lia|].
        rewrite xorb_false_r. do 2 f_equal. lia.
      * by rewrite xorb_false_r.
    + case_bool_decide as E2; [|done]. exfalso. apply E. unfold at_bit in E2. lia.
Qed.

(** Absorbing is xor-ing the bits of the string. *)
Lemma absorb_bits src A : state_ok A -> bytes_ok src -> (length src <= 200)%nat ->
  state_ok (absorb src A) /\
  bits_eq (state_bits (absorb src A)) (xor_bits (state_bits A) (of_string_bits (bits_of src))).
Proof.
  intros HA Hs Hl. destruct (absorb_loop_bits src 0 A HA Hs ltac:(lia)) as [H1 H2]. split; [exact H1|].
  intros x y z Hx Hy Hz. unfold state_bits, xor_bits, of_string_bits. etrans; [by apply H2|].
  unfold bit_from. cbn [Nat.mul Nat.leb]. by rewrite Nat.sub_0_r.
Qed.

(** ** Squeezing *)

Definition state_byte (A : state_t) (n : nat) : Z := byte_of (lane A ((n / 8) mod 5) (n / 40)) (n mod 8).

Lemma squeeze_loop_string A n : forall k, (k + n <= 200)%nat ->
  (let '(x, y, i) := place k in squeeze_loop A n x y i) = state_byte A <$> List.seq k n.
Proof.
  induction n as [|n IH]; intros k Hk; [done|]. unfold place. cbn [squeeze_loop List.seq fmap list_fmap].
  assert ((k / 40 < 5)%nat) by divs. destruct (Nat.ltb_spec (k / 40) 5); [|lia].
  pose proof (next_place k) as Hp. unfold place at 1 in Hp. cbv beta iota in Hp. rewrite Hp.
  unfold state_byte at 1. f_equal. apply (IH (S k)). lia.
Qed.

(** Byte [n] of the output is byte [n mod rate] of the state after [n / rate] more permutations. *)
Definition output_byte (rate : nat) (A : state_t) (n : nat) : Z :=
  state_byte (Nat.iter (n / rate) keccak_p A) (n mod rate).

Lemma squeeze_all_string rate fuel : (0 < rate <= 200)%nat -> forall A room, (room <= fuel)%nat ->
  fst (squeeze_all rate fuel A room) = output_byte rate A <$> List.seq 0 room.
Proof.
  intros Hr. induction fuel as [|fuel IH]; intros A room Hf; [by replace room with 0%nat by lia|].
  cbn [squeeze_all].
  assert (Hs : squeeze A room rate = state_byte A <$> List.seq 0 (Nat.min room rate)).
  { apply (squeeze_loop_string A (Nat.min room rate) 0). lia. }
  assert (Hfirst : forall n, (n <= rate)%nat -> state_byte A <$> List.seq 0 n = output_byte rate A <$> List.seq 0 n).
  { intros n Hn. apply list_fmap_ext. intros i x Hx. apply lookup_seq in Hx as [-> Hi]. unfold output_byte.
    rewrite Nat.div_small, Nat.mod_small by lia. done. }
  rewrite Hs, length_fmap, length_seq. destruct (Nat.eqb_spec (room - Nat.min room rate) 0) as [E|E].
  - replace (Nat.min room rate) with room by lia. apply Hfirst. lia.
  - specialize (IH (keccak_p A) (room - Nat.min room rate)%nat ltac:(lia)).
    destruct (squeeze_all rate fuel (keccak_p A) _) as [out A']. cbn [fst] in *. rewrite IH.
    replace (Nat.min room rate) with rate by lia. replace room with (rate + (room - rate))%nat at 2 by lia.
    rewrite seq_app, fmap_app, Hfirst by lia. f_equal.
    replace (0 + rate)%nat with (rate + 0)%nat by lia. rewrite <- fmap_add_seq, <- list_fmap_compose.
    apply list_fmap_ext. intros i x _. unfold output_byte, compose.
    replace (rate + x)%nat with (x + 1 * rate)%nat by lia. rewrite Nat.div_add, Nat.Div0.mod_add by lia.
    by rewrite Nat.add_1_r, Nat.iter_succ_r.
Qed.

Lemma byte_of_testbit v i j : (j < 8)%nat ->
  Z.testbit (byte_of v i) (Z.of_nat j) = Z.testbit v (8 * Z.of_nat i + Z.of_nat j).
Proof.
  intros Hj. unfold byte_of. change 255 with (Z.ones 8). rewrite Z.land_spec, Z.ones_spec_low, andb_true_r by lia.
  rewrite Z.shiftr_spec by lia. f_equal. lia.
Qed.

Lemma iter_bits n A b : state_ok A -> bits_eq (state_bits A) b ->
  state_ok (Nat.iter n keccak_p A) /\ bits_eq (state_bits (Nat.iter n keccak_p A)) (Nat.iter n keccak_f b).
Proof.
  intros HA Hb. induction n as [|n [IH1 IH2]]; [done|]. cbn. split; [by apply keccak_p_ok|].
  etrans; [by apply keccak_p_bits|]. by rewrite IH2.
Qed.

(** Squeezing is the squeezing of the standard. *)
Lemma squeeze_all_bits rate d fuel A b : (0 < rate <= 200)%nat -> (d <= fuel)%nat -> state_ok A ->
  bits_eq (state_bits A) b ->
  bits_of (fst (squeeze_all rate fuel A d)) = fips_squeeze (8 * rate) (8 * d) b.
Proof.
  intros Hr Hd HA Hb. rewrite squeeze_all_string by done. apply list_eq. intros n.
  destruct (decide (n < 8 * d)%nat) as [Hn|Hn].
  2: { rewrite !lookup_ge_None_2; [done|rewrite fips_squeeze_length; lia|].
       rewrite bits_of_length, length_fmap, length_seq. lia. }
  rewrite fips_squeeze_lookup by done. set (i := (n / 8)%nat). set (j := (n mod 8)%nat).
  assert (Hj : (j < 8)%nat) by (apply Nat.mod_upper_bound; lia).
  assert (En : n = (8 * i + j)%nat) by (subst i j; divs). rewrite En at 1. rewrite bits_of_lookup by done.
  rewrite list_lookup_fmap, lookup_seq_lt by (subst i; divs). cbn [fmap option_fmap option_map]. f_equal.
  rewrite Nat.add_0_l. unfold output_byte, state_byte. rewrite byte_of_testbit by done.
  assert (Eq : (n / (8 * rate) = i / rate)%nat) by (subst i; by rewrite Nat.Div0.div_div).
  assert (Ep : (n mod (8 * rate) = 8 * (i mod rate) + j)%nat).
  { rewrite Nat.Div0.mod_mul_r. subst i j. lia. }
  rewrite Eq, Ep. set (p := (i mod rate)%nat). assert (Hp : (p < rate)%nat) by (apply Nat.mod_upper_bound; lia).
  destruct (iter_bits (i / rate) A b HA Hb) as [_ Hq]. unfold state_bit.
  rewrite <- Hq by (first [apply mod5_lt | divs]). unfold state_bits.
  replace ((8 * p + j) / 64)%nat with (p / 8)%nat by divs.
  replace ((8 * p + j) / 320)%nat with (p / 40)%nat by divs.
  f_equal. divs.
Qed.

(** ** The generator *)

Section Sponge.
Context (rate d : nat) (pt : PaddingType).
Hypothesis rate_pos : (0 < rate)%nat.

(** The byte of the suffix with the first padding bit. *)
Definition first_pad : Z := match pt with SHA => 0x06 | SHAKE => 0x1F end.

Definition absorb_blocks (A : state_t) (bs : list bytes) : state_t :=
  fold_left (fun A b => keccak_p (absorb b A)) bs A.

(** Blocks of the same length are determined by their concatenation. *)
Lemma concat_blocks_inj (bs bs' : list bytes) : Forall (fun b : bytes => length b = rate) bs ->
  Forall (fun b : bytes => length b = rate) bs' -> concat bs = concat bs' -> bs = bs'.
Proof using rate_pos.
  intros Hbs. revert bs'. induction Hbs as [|b bs Hb _ IH]; intros bs' Hbs' E.
  - destruct Hbs' as [|b' bs' Hb' _]; [done|]. destruct b'; [cbn in Hb'; lia | done].
  - destruct Hbs' as [|b' bs' Hb' Hbs']; [destruct b; [cbn in Hb; lia | done]|]. cbn in E.
    apply app_inj_1 in E as [-> E]; [|congruence]. f_equal. by apply IH.
Qed.

(** What the generator holds after consuming [m]: the whole blocks are absorbed, the rest is
    in the buffer, and the rest of the buffer is zero. *)
Definition consumed (g : HashGenerator) (m : bytes) : Prop :=
  exists bs tail, m = concat bs ++ tail /\ Forall (fun b : bytes => length b = rate) bs /\
    (length tail < rate)%nat /\ A_ g = absorb_blocks state0 bs /\
    buffer_ g = tail ++ replicate (rate - length tail) 0 /\ buffer_pos_ g = length tail.

Lemma consumed_new : consumed (new_generator rate d) [].
Proof using rate_pos.
  exists [], []. split_and!; try done. simpl. by rewrite Nat.sub_0_r.
Qed.

Lemma insert_after_tail (tail : bytes) b k : (0 < k)%nat ->
  <[length tail := b]> (tail ++ replicate k 0) = (tail ++ [b]) ++ replicate (k - 1) 0.
Proof.
  intros Hk. destruct k as [|k]; [lia|]. rewrite Nat.sub_succ, Nat.sub_0_r.
  rewrite <- (Nat.add_0_r (length tail)), insert_app_r, <- app_assoc. done.
Qed.

Lemma consumed_step g m b : consumed g m -> consumed (process_byte rate g b) (m ++ [b]).
Proof using rate_pos.
  intros (bs & tail & -> & Hbs & Ht & HA & Hbuf & Hpos). unfold process_byte.
  rewrite Hbuf, Hpos, insert_after_tail by lia. cbn [buffer_pos_ buffer_ A_].
  destruct (Nat.eqb_spec (S (length tail)) rate) as [Heq|Hne].
  - exists (bs ++ [tail ++ [b]]), []. cbn. split_and!; try done.
    + rewrite concat_app. simpl. by rewrite !app_nil_r, app_assoc.
    + apply Forall_app_2; [done|]. constructor; [|constructor].
      rewrite length_app. simpl. lia.
    + unfold absorb_blocks. rewrite fold_left_app. simpl. rewrite HA.
      replace (rate - length tail - 1)%nat with 0%nat by lia. simpl. by rewrite app_nil_r.
    + by rewrite Nat.sub_0_r.
  - exists bs, (tail ++ [b]). rewrite length_app. cbn [length]. split_and!; try done.
    + by rewrite app_assoc.
    + lia.
    + cbn. do 2 f_equal. lia.
    + cbn. lia.
Qed.

Lemma consumed_process g m l : consumed g m -> consumed (process rate l g) (m ++ l).
Proof using rate_pos.
  revert g m. induction l as [|b l IH]; intros g m H; simpl; [by rewrite app_nil_r|].
  replace (m ++ b :: l) with ((m ++ [b]) ++ l) by (by rewrite <- app_assoc).
  by apply IH, consumed_step.
Qed.

(** The size [q] of [add_padding] is never one: it is the buffer size plus the position. *)
Lemma padding_q (pos : nat) : Z.of_nat rate < 2 ^ 32 -> (pos < rate)%nat ->
  u64 (Z.of_nat rate - u64 (- Z.of_nat pos)) = Z.of_nat rate + Z.of_nat pos.
Proof.
  intros Hr Hp. unfold wrap. rewrite Zminus_mod_idemp_r.
  replace (Z.of_nat rate - - Z.of_nat pos) with (Z.of_nat rate + Z.of_nat pos) by lia.
  apply Z.mod_small. lia.
Qed.

Hypothesis rate_small : 1 < Z.of_nat rate < 2 ^ 32.

Lemma insert_last (l : bytes) x y : <[length l := y]> (l ++ [x]) = l ++ [y].
Proof. rewrite <- (Nat.add_0_r (length l)), insert_app_r. done. Qed.

Lemma add_padding_block g m tail : 
  buffer_ g = tail ++ replicate (rate - length tail) 0 -> buffer_pos_ g = length tail ->
  (length tail < rate)%nat -> consumed g m ->
  add_padding rate pt g =
    if (length tail =? rate - 1)%nat then tail ++ [0x80]
    else tail ++ [first_pad] ++ replicate (rate - length tail - 2) 0 ++ [0x80].
Proof using rate_pos rate_small.
  intros Hbuf Hpos Ht _. unfold add_padding, first_pad.
  rewrite Hpos, padding_q, Hbuf by lia.
  assert ((Z.of_nat rate + Z.of_nat (length tail) =? 1) = false) as Hq by (apply Z.eqb_neq; lia).
  destruct (Nat.eqb_spec (length tail) (rate - 1)) as [He|Hne].
  - destruct pt; rewrite Hq, insert_after_tail by lia;
      replace (rate - length tail - 1)%nat with 0%nat by lia; simpl;
      rewrite app_nil_r, <- He; apply insert_last.
  - destruct pt; rewrite Hq, insert_after_tail by lia;
      replace (rate - length tail - 1)%nat with (S (rate - length tail - 2)) by lia;
      rewrite replicate_S_end, app_assoc;
      rewrite <- app_assoc; rewrite (app_assoc tail), (app_assoc (tail ++ _));
      match goal with |- <[_ := _]> (?l ++ [0]) = _ =>
        replace (rate - 1)%nat with (length l)
          by (rewrite !length_app, length_replicate; simpl; lia) end;
      by rewrite insert_last, <- !app_assoc.
Qed.

Lemma mod_blocks bs (tail : bytes) : Forall (fun b : bytes => length b = rate) bs ->
  (length tail < rate)%nat -> (length (concat bs ++ tail) mod rate = length tail)%nat.
Proof using rate_pos.
  intros Hbs Ht. rewrite length_app.
  assert (length (concat bs) = rate * length bs)%nat as ->.
  { induction Hbs as [|b bs Hb _ IH]; simpl; [lia|]. rewrite length_app, Hb, IH. lia. }
  rewrite Nat.add_comm, Nat.mul_comm, Nat.Div0.mod_add. by apply Nat.mod_small.
Qed.

Lemma run_new_generator m bs tail : m = concat bs ++ tail ->
  Forall (fun b : bytes => length b = rate) bs -> (length tail < rate)%nat ->
  fst (run rate d pt m (new_generator rate d)) =
  fst (squeeze_all rate d (absorb_blocks state0 (bs ++
    [if (length tail =? rate - 1)%nat then tail ++ [0x80]
     else tail ++ [first_pad] ++ replicate (rate - length tail - 2) 0 ++ [0x80]])) d).
Proof using rate_pos rate_small.
  intros Hm Hbs Ht.
  assert (Hc : consumed (process rate m (new_generator rate d)) m).
  { apply (consumed_process _ [] m), consumed_new. }
  pose proof Hc as (bs' & tail' & Hm' & Hbs' & Ht' & HA & Hbuf & Hpos).
  assert (length tail' = length tail) as Hlen.
  { rewrite <- (mod_blocks bs tail), <- (mod_blocks bs' tail') by done. congruence. }
  assert (bs' = bs /\ tail' = tail) as [-> ->].
  { rewrite Hm in Hm'. apply app_inj_2 in Hm' as [Hcc Htt]; [|done]. split; [|done].
    by apply concat_blocks_inj. }
  unfold run, finish. rewrite (add_padding_block _ m tail) by done.
  rewrite HA. unfold absorb_blocks. rewrite fold_left_app. simpl.
  by destruct (squeeze_all _ _ _).
Qed.
End Sponge.


Lemma split_blocks (rate : nat) (m : bytes) : (0 < rate)%nat ->
  exists bs tail, m = concat bs ++ tail /\ Forall (fun b : bytes => length b = rate) bs /\
    (length tail < rate)%nat.
Proof.
  intros Hr. pose proof (consumed_process rate Hr (new_generator rate 0) [] m) as H.
  destruct H as (bs & tail & H1 & H2 & H3 & _); [by apply consumed_new|]. by exists bs, tail.
Qed.


(** ** Absorbing blocks is the absorbing of the standard *)

Lemma blocks_of (rate : nat) (bs : list bytes) : Forall (fun b : bytes => length b = rate) bs ->
  (fun i => take (8 * rate) (drop (i * (8 * rate)) (bits_of (concat bs)))) <$> List.seq 0 (length bs) =
    bits_of <$> bs.
Proof.
  induction 1 as [|b bs Hb Hbs IH]; [done|]. cbn [length List.seq fmap list_fmap concat]. f_equal.
  - rewrite Nat.mul_0_l, drop_0, bits_of_take, take_app_length' by done. done.
  - rewrite <- IH, <- seq_shift, <- list_fmap_compose. apply list_fmap_ext. intros i x _. unfold compose.
    replace (S x * (8 * rate))%nat with (8 * (length b + x * rate))%nat by lia.
    rewrite bits_of_drop, drop_app_add, <- bits_of_drop. do 2 f_equal. lia.
Qed.

Lemma absorb_blocks_bits (rate : nat) (bs : list bytes) : (rate <= 200)%nat ->
  Forall (fun b : bytes => length b = rate /\ bytes_ok b) bs -> forall A b, state_ok A -> bits_eq (state_bits A) b ->
  state_ok (absorb_blocks A bs) /\
  bits_eq (state_bits (absorb_blocks A bs))
    (fold_left (fun b B => keccak_f (xor_bits b (of_string_bits B))) (bits_of <$> bs) b).
Proof.
  intros Hr. induction 1 as [|s bs [Hl Hs] _ IH]; intros A b HA Hb; [done|].
  destruct (absorb_bits s A HA Hs ltac:(lia)) as [H1 H2].
  cbn [fmap list_fmap fold_left]. apply (IH (keccak_p (absorb s A))); [by apply keccak_p_ok|].
  etrans; [by apply keccak_p_bits|]. by rewrite H2, Hb.
Qed.

Lemma state0_ok : state_ok state0.
Proof. by_evaluation. Qed.
Lemma state0_bits : bits_eq (state_bits state0) zero_bits.
Proof. intros x y z Hx Hy _. unfold state_bits, state0. by rewrite lane_mk_state, Z.bits_0. Qed.

Lemma concat_length (rate : nat) (bs : list bytes) : Forall (fun b : bytes => length b = rate) bs ->
  length (concat bs) = (rate * length bs)%nat.
Proof. induction 1 as [|b bs Hb _ IH]; cbn; [lia|]. rewrite length_app, Hb, IH. lia. Qed.

(** What the code computes from whole blocks is the sponge on their bits. *)
Lemma blocks_sponge (rate d : nat) (bs : list bytes) : (0 < rate <= 200)%nat ->
  Forall (fun b : bytes => length b = rate /\ bytes_ok b) bs ->
  bits_of (fst (squeeze_all rate d (absorb_blocks state0 bs) d)) =
    fips_sponge (8 * rate) (8 * d) (bits_of (concat bs)).
Proof.
  intros Hr Hbs. destruct (absorb_blocks_bits rate bs ltac:(lia) Hbs state0 zero_bits state0_ok state0_bits) as [H1 H2].
  assert (Hlen : Forall (fun b : bytes => length b = rate) bs) by (eapply Forall_impl; [exact Hbs|]; by intros ? []).
  rewrite (squeeze_all_bits rate d d _ _ Hr ltac:(lia) H1 H2). unfold fips_sponge. f_equal. unfold fips_absorb.
  rewrite bits_of_length, (concat_length rate) by done.
  replace (8 * (rate * length bs) / (8 * rate))%nat with (length bs).
  2: { apply Nat.div_unique_exact; lia. }
  rewrite <- (blocks_of rate bs) by done. generalize (List.seq 0 (length bs)). intros l.
  generalize zero_bits. induction l as [|i l IH]; intros z; [done|]. apply IH.
Qed.

(** ** Padding *)

Definition suffix (pt : PaddingType) : list bool := match pt with SHA => sha3_suffix | SHAKE => shake_suffix end.

(** What is missing of the last block decides the padding bytes. *)
Lemma padded_bytes (rate : nat) (pt : PaddingType) (m : bytes) : (1 < rate)%nat ->
  padded (8 * rate) (suffix pt) (bits_of m) =
    bits_of (m ++ if (length m mod rate =? rate - 1)%nat then [Z.lor (first_pad pt) 0x80]
                  else [first_pad pt] ++ replicate (rate - length m mod rate - 2) 0 ++ [0x80]).
Proof.
  intros Hr. unfold padded, pad101. rewrite !length_app, bits_of_length.
  set (q := (length m / rate)%nat). set (t := (length m mod rate)%nat).
  assert (Ht : (t < rate)%nat) by (apply Nat.mod_upper_bound; lia).
  assert (Hm : Z.of_nat (length m) = Z.of_nat rate * Z.of_nat q + Z.of_nat t).
  { rewrite (Nat.div_mod_eq (length m) rate) at 1. fold q t. lia. }
  assert (Hj : forall k, (k = 2 \/ k = 4)%nat ->
    Z.to_nat ((- Z.of_nat (8 * length m + k) - 2) mod Z.of_nat (8 * rate)) =
      (if decide (t = rate - 1)%nat then 6 - k else 8 * (rate - t) - k - 2)%nat).
  { intros k Hk. assert ((- Z.of_nat (8 * length m + k) - 2) mod Z.of_nat (8 * rate) = 8 * (Z.of_nat rate - Z.of_nat t) - Z.of_nat k - 2) as ->.
    { symmetry. apply Z.mod_unique with (- Z.of_nat q - 1); [|nia]. left. lia. }
    case_decide; lia. }
  rewrite bits_of_app. change (length sha3_suffix) with 2%nat. rewrite <- app_assoc. f_equal.
  destruct (Nat.eqb_spec t (rate - 1)) as [E|E].
  - destruct pt; cbn [suffix length sha3_suffix shake_suffix]; rewrite Hj by lia; rewrite decide_True by done; reflexivity.
  - rewrite !bits_of_app, bits_of_zeros.
    destruct pt; cbn [suffix length sha3_suffix shake_suffix]; rewrite Hj by lia; rewrite decide_False by done.
    + replace (8 * (rate - t) - 2 - 2)%nat with (5 + (8 * (rate - t - 2) + 7))%nat by lia.
      rewrite !replicate_add, <- !app_assoc. reflexivity.
    + replace (8 * (rate - t) - 4 - 2)%nat with (3 + (8 * (rate - t - 2) + 7))%nat by lia.
      rewrite !replicate_add, <- !app_assoc. reflexivity.
Qed.

(** The string the generator absorbs: the padded message of the standard, but for a message that ends
    one byte short of a block, whose last byte gets the final padding bit only. *)
Definition absorbed (rate : nat) (pt : PaddingType) (m : bytes) : list bool :=
  if (length m mod rate =? rate - 1)%nat then bits_of (m ++ [0x80])
  else padded (8 * rate) (suffix pt) (bits_of m).

Lemma run_bits (rate d : nat) (pt : PaddingType) (m : bytes) : (1 < rate <= 200)%nat -> bytes_ok m ->
  bits_of (fst (run rate d pt m (new_generator rate d))) = fips_sponge (8 * rate) (8 * d) (absorbed rate pt m).
Proof.
  intros Hr Hm. destruct (split_blocks rate m ltac:(lia)) as (bs & tail & -> & Hbs & Ht).
  apply Forall_app in Hm as [Hcb Htb].
  rewrite (run_new_generator rate d pt ltac:(lia) ltac:(lia) _ bs tail) by done.
  unfold absorbed. rewrite padded_bytes, mod_blocks by (done || lia).
  set (last := if (length tail =? rate - 1)%nat then tail ++ [0x80] else _).
  assert (Hlast : length last = rate /\ bytes_ok last).
  { subst last. destruct (Nat.eqb_spec (length tail) (rate - 1)) as [E|E].
    - rewrite length_app, E. cbn. split; [lia|]. apply Forall_app. split; [done|]. by_evaluation.
    - split; [rewrite !length_app, length_replicate; cbn; lia|]. apply Forall_app. split; [done|].
      apply Forall_app. split; [by destruct pt; by_evaluation|]. apply Forall_app. split; [|by_evaluation].
      by apply Forall_replicate. }
  rewrite (blocks_sponge rate d (bs ++ [last])); [|lia|].
  2: { apply Forall_app. split; [|by constructor]. apply Forall_concat in Hcb.
       apply Forall_and. by split. }
  apply (f_equal (fips_sponge _ _)). rewrite concat_app. cbn [concat]. rewrite app_nil_r. subst last.
  destruct (length tail =? rate - 1)%nat; by rewrite <- !app_assoc.
Qed.

Lemma run_bytes (rate d : nat) (pt : PaddingType) (m : bytes) : (0 < rate <= 200)%nat ->
  bytes_ok (fst (run rate d pt m (new_generator rate d))) /\
  length (fst (run rate d pt m (new_generator rate d))) = d.
Proof.
  intros Hr. unfold run, finish. cbn zeta.
  match goal with |- context [squeeze_all rate d ?A d] => pose proof (squeeze_all_string rate d Hr A d ltac:(lia)) as H end.
  destruct (squeeze_all _ _ _ _) as [h A']. cbn [fst hash_] in *. rewrite H. split.
  - apply Forall_fmap, Forall_forall. intros n _. unfold compose, byte_ok, in_range, output_byte, state_byte, byte_of.
    change 255 with (Z.ones 8). rewrite Z.land_ones by lia. apply Z.mod_pos_bound. lia.
  - by rewrite length_fmap, length_seq.
Qed.

(** C2: The SHA-3/SHAKE generator refines the sponge of FIPS 202: for any rate from 2 to 200 bytes and
    every message, the output has as many bytes as asked for and its bits are exactly those of the
    standard's sponge over the absorbed string - which is the standard's padded message unless the
    message ends one byte short of a block; then it is the message followed by 0x80, without the bits
    that separate the domains. *)
Theorem generator_refines_sponge (rate d : nat) (pt : PaddingType) (m : bytes) :
  (1 < rate <= 200)%nat -> bytes_ok m ->
  let digest := fst (run rate d pt m (new_generator rate d)) in
  length digest = d /\
  bits_of digest = fips_sponge (8 * rate) (8 * d)
    (if (length m mod rate =? rate - 1)%nat then bits_of (m ++ [0x80])
     else padded (8 * rate) (suffix pt) (bits_of m)).
Proof. intros Hr Hm. split; [apply run_bytes; lia | by apply run_bits]. Qed.

Lemma generator_refines_sponge_witness :
  bits_of (fst (run 72 64 SHA [1; 2; 3] (new_generator 72 64))) =
    fips_sponge 576 512 (padded 576 [false; true] (bits_of [1; 2; 3])).
Proof.
  destruct (generator_refines_sponge 72 64 SHA [1; 2; 3]) as [_ H]; [lia|by_evaluation|exact H].
Defined.

(** The functions of the standard: SHA3-224, -256, -384 and -512 are what the generators compute, for
    every message that does not end one byte short of a block. *)
Theorem sha3_is_SHA3 (d_bits : nat) (m : bytes) :
  d_bits ∈ [224; 256; 384; 512]%nat -> bytes_ok m -> (length m mod sha3_rate d_bits <> sha3_rate d_bits - 1)%nat ->
  bits_of (sha3 d_bits m) = SHA3 d_bits (bits_of m).
Proof.
  intros Hd Hm Hl. unfold sha3. apply Nat.eqb_neq in Hl.
  assert (H : (1 < sha3_rate d_bits <= 200 /\ 8 * sha3_rate d_bits = 1600 - 2 * d_bits /\ 8 * bits_to_bytes d_bits = d_bits)%nat).
  { repeat (apply elem_of_cons in Hd as [->|Hd]; [by_evaluation|]). by apply elem_of_nil in Hd. }
  destruct H as (Hr & E1 & E2). rewrite run_bits by done. unfold absorbed. rewrite Hl, E1, E2. done.
Qed.

(** Error case of the padding: when the message ends one byte short of a full block the generator
    absorbs a final byte 0x80 where FIPS 202 asks for the suffix combined with it; a 71-byte message
    then gets a SHA3-512 digest different from the standard's. *)
Theorem padding_one_byte_short (rate d : nat) (pt : PaddingType) (m : bytes) :
  (1 < rate <= 200)%nat -> bytes_ok m -> (length m mod rate = rate - 1)%nat ->
  bits_of (fst (run rate d pt m (new_generator rate d))) = fips_sponge (8 * rate) (8 * d) (bits_of (m ++ [0x80])) /\
  padded (8 * rate) (suffix pt) (bits_of m) = bits_of (m ++ [Z.lor (first_pad pt) 0x80]) /\
  bits_of (sha3 512 (replicate 71 0)) <> SHA3 512 (bits_of (replicate 71 0)).
Proof.
  intros Hr Hm Hl. split_and!.
  - rewrite run_bits by done. unfold absorbed. by rewrite Hl, Nat.eqb_refl.
  - rewrite padded_bytes by lia. by rewrite Hl, Nat.eqb_refl.
  - assert (E : SHA3 512 (bits_of (replicate 71 0)) =
      bits_of (fst (squeeze_all 72 64 (absorb_blocks state0 [replicate 71 0 ++ [0x86]]) 64))).
    { etrans; [apply (f_equal (fips_sponge 576 512)), (padded_bytes 72 SHA (replicate 71 0)); lia|].
      symmetry. apply (blocks_sponge 72 64 [replicate 71 0 ++ [0x86]]); [lia|by_evaluation]. }
    rewrite E. clear E. intros E. vm_compute in E. discriminate E.
Qed.

Lemma padding_one_byte_short_witness :
  padded 24 (suffix SHA) (bits_of [1; 2; 3; 4; 5]) = bits_of ([1; 2; 3; 4; 5] ++ [0x86]).
Proof. destruct (padding_one_byte_short 3 4 SHA [1; 2; 3; 4; 5]) as (_ & H & _); [lia|by_evaluation|done|exact H]. Defined.
