(* ===== verification/Worker.v ===== *)
(** * libdevcore/Worker: the worker thread's life cycle

    [Worker] of src/libdevcore/Worker.{h,cpp} as a transition system: the worker thread and the
    code that controls it interleave one atomic access at a time.  The mutex [x_work] is held
    for the whole body of [startWorking], [stopWorking], [triggerStopWorking] and the
    destructor, so at most one controlling call is in progress. *)

From S2P Require Import Prelude.

Inductive WorkerState := Starting | Started | Stopping | Stopped | Killing.
#[export] Instance WorkerState_eq_dec : EqDecision WorkerState.
Proof. solve_decision. Defined.

(** Where the worker thread is in the lambda of [startWorking]. *)
Inductive thread_pc :=
  | NoThread                    (* m_work is null *)
  | LoopTest                    (* while (m_state != Killing) *)
  | TryStarted                  (* compare_exchange_strong(Starting, Started) *)
  | InWorkLoop                  (* workLoop() *)
  | SetStopped                  (* ex = m_state.exchange(Stopped) *)
  | Restore (ex : WorkerState)  (* if (ex == Killing || ex == Starting) m_state.exchange(ex) *)
  | WaitStopped                 (* while (m_state == Stopped) sleep *)
  | Returned.                   (* the lambda is over: join() succeeds *)

(** The controlling call in progress, if any. *)
Inductive call_pc := Idle | InStart | InStop | InJoin | Destroyed.

Record worker := { m_state : WorkerState; thread : thread_pc; call : call_pc }.

#[export] Instance thread_pc_eq_dec : EqDecision thread_pc.
Proof. solve_decision. Defined.
#[export] Instance call_pc_eq_dec : EqDecision call_pc.
Proof. solve_decision. Defined.
#[export] Instance worker_eq_dec : EqDecision worker.
Proof. solve_decision. Defined.

Definition new_worker : worker := {| m_state := Starting; thread := NoThread; call := Idle |}.

Definition shouldStop (w : worker) : bool := negb (bool_decide (m_state w = Started)).

Definition compare_exchange (expected desired s : WorkerState) : WorkerState :=
  if bool_decide (s = expected) then desired else s.

(** ** The thread: one step, [None] when it has nothing to do *)

Definition thread_step (w : worker) : option worker :=
  let at_ s pc := Some {| m_state := s; thread := pc; call := call w |} in
  match thread w with
  | NoThread | Returned => None
  | LoopTest => at_ (m_state w) (if bool_decide (m_state w = Killing) then Returned else TryStarted)
  | TryStarted => at_ (compare_exchange Starting Started (m_state w)) InWorkLoop
  | InWorkLoop => at_ (m_state w) SetStopped
  | SetStopped => at_ Stopped (Restore (m_state w))
  | Restore ex =>
      at_ (if bool_decide (ex = Killing) || bool_decide (ex = Starting) then ex else m_state w)
          WaitStopped
  | WaitStopped => if bool_decide (m_state w = Stopped) then None else at_ (m_state w) LoopTest
  end.

(** ** The controlling calls *)

Definition has_thread (w : worker) : bool := negb (bool_decide (thread w = NoThread)).

(** [startWorking] up to its final wait. *)
Definition startWorking (w : worker) : worker :=
  if has_thread w
  then {| m_state := compare_exchange Stopped Starting (m_state w);
          thread := thread w; call := InStart |}
  else {| m_state := Starting; thread := LoopTest; call := InStart |}.

(** [while (m_state == Starting) sleep]: the wait ends when the state has left [Starting]. *)
Definition startWorking_returns (w : worker) : bool := negb (bool_decide (m_state w = Starting)).

Definition triggerStopWorking (w : worker) : worker :=
  if has_thread w
  then {| m_state := compare_exchange Started Stopping (m_state w);
          thread := thread w; call := call w |}
  else w.

(** [stopWorking] up to its wait; without a thread it returns at once. *)
Definition stopWorking (w : worker) : worker :=
  if has_thread w
  then {| m_state := compare_exchange Started Stopping (m_state w);
          thread := thread w; call := InStop |}
  else w.

Definition stopWorking_returns (w : worker) : bool := bool_decide (m_state w = Stopped).

(** The destructor up to [join]. *)
Definition destroy (w : worker) : worker :=
  if has_thread w
  then {| m_state := Killing; thread := thread w; call := InJoin |}
  else {| m_state := m_state w; thread := thread w; call := Destroyed |}.

Definition return_to (c : call_pc) (w : worker) : worker :=
  {| m_state := m_state w; thread := thread w; call := c |}.

(** ** Interleaving *)

Inductive step : worker -> worker -> Prop :=
  | StepThread w w' : thread_step w = Some w' -> step w w'
  | StepStart w : call w = Idle -> step w (startWorking w)
  | StepStartRet w : call w = InStart -> startWorking_returns w = true -> step w (return_to Idle w)
  | StepTrigger w : call w = Idle -> step w (triggerStopWorking w)
  | StepStop w : call w = Idle -> step w (stopWorking w)
  | StepStopRet w : call w = InStop -> stopWorking_returns w = true -> step w (return_to Idle w)
  | StepDestroy w : call w = Idle -> step w (destroy w)
  | StepJoined w : call w = InJoin -> thread w = Returned -> step w (return_to Destroyed w).

(** Reflexive-transitive closure, and what is reachable from a fresh worker. *)
Inductive star {A} (R : A -> A -> Prop) : A -> A -> Prop :=
  | star_refl a : star R a a
  | star_step a b c : R a b -> star R b c -> star R a c.

Definition reachable (w : worker) : Prop := star step new_worker w.

(** An invariant of the initial state and of every step holds in every reachable state. *)
Lemma star_invariant {A} (R : A -> A -> Prop) (I : A -> Prop) a b :
  (forall x y, R x y -> I x -> I y) -> star R a b -> I a -> I b.
Proof. intros H. induction 1; eauto. Qed.

(** * Proofs *)

(** What ties the shared state to the thread's and the caller's positions. *)
Definition Inv (w : worker) : bool :=
  match thread w, m_state w, call w with
  | NoThread, Starting, (Idle | Destroyed) => true
  | NoThread, _, _ => false
  | LoopTest, Starting, (InStart) => true
  | TryStarted, Starting, (InStart) => true
  | (LoopTest | TryStarted), Killing, InJoin => true
  | (LoopTest | TryStarted), _, _ => false
  | InWorkLoop, (Started | Stopping), (Idle | InStart | InStop) => true
  | InWorkLoop, Killing, InJoin => true
  | InWorkLoop, _, _ => false
  | SetStopped, (Started | Stopping), (Idle | InStart | InStop) => true
  | SetStopped, Killing, InJoin => true
  | SetStopped, _, _ => false
  | Restore (Started | Stopping), Stopped, (Idle | InStart | InStop) => true
  | Restore (Started | Stopping), Starting, InStart => true
  | Restore (Started | Stopping), Killing, InJoin => true
  | Restore Killing, Stopped, InJoin => true
  | Restore _, _, _ => false
  | WaitStopped, Stopped, (Idle | InStart | InStop) => true
  | WaitStopped, Starting, InStart => true
  | WaitStopped, Killing, InJoin => true
  | WaitStopped, _, _ => false
  | Returned, Killing, (InJoin | Destroyed) => true
  | Returned, _, _ => false
  end.

Lemma Inv_step w w' : step w w' -> Inv w = true -> Inv w' = true.
Proof.
  intros Hs Hi. destruct Hs as [w w' Ht| | | | | | |]; destruct w as [s [] []]; destruct s;
    try discriminate;
    repeat match goal with e : WorkerState |- _ => destruct e end;
    try discriminate; vm_compute in *; try discriminate; try reflexivity;
    injection Ht as <-; reflexivity.
Qed.

Lemma reachable_Inv w : reachable w -> Inv w = true.
Proof. intros H. by eapply (star_invariant step (fun w => Inv w = true)); eauto using Inv_step. Qed.

(** Decide a property of the reachable states by cases on their finitely many shapes. *)
Ltac worker_cases w Hr :=
  let Hi := fresh "Hi" in
  pose proof (reachable_Inv w Hr) as Hi; clear Hr;
  destruct w as [s [| | | | |e| |] c]; destruct s, c; try destruct e;
  vm_compute in Hi; try discriminate Hi; clear Hi.

Definition run_thread (n : nat) (w : worker) : worker :=
  Nat.iter n (fun x => default x (thread_step x)) w.

(** A turn of the thread in which it may also be kept inside [workLoop]: [returns] says whether the loop,
    when the thread is in it, returns at this turn.  Nothing forces a [workLoop] to return. *)
Definition turn (w : worker) (returns : bool) : worker :=
  if bool_decide (thread w = InWorkLoop) && negb returns then w else default w (thread_step w).
Definition run_turns (turns : list bool) (w : worker) : worker := fold_left turn turns w.
(** The number of turns that would let the loop return. *)
Definition returning (turns : list bool) : nat := length (filter (fun b => b = true) turns).

(** How far each wait is from its end. *)
Definition start_distance (w : worker) : nat :=
  if startWorking_returns w then 0%nat
  else match thread w with TryStarted => 1 | LoopTest => 2 | WaitStopped => 3 | _ => 4 end%nat.
Definition stop_distance (w : worker) : nat :=
  if stopWorking_returns w then 0%nat else match thread w with SetStopped => 1 | _ => 2 end%nat.
Definition join_distance (w : worker) : nat :=
  match thread w with
  | Returned => 0 | LoopTest => 1 | WaitStopped => 2 | Restore _ => 3 | SetStopped => 4 | InWorkLoop => 5 | _ => 6
  end%nat.

Lemma turn_Inv w b : Inv w = true -> Inv (turn w b) = true /\ call (turn w b) = call w.
Proof.
  intros Hi. unfold turn. destruct (_ && _); [done|]. destruct (thread_step w) as [w'|] eqn:E; [|done]. cbn [default].
  split; [by eapply Inv_step; [apply StepThread|]|]. revert E. unfold thread_step. repeat case_match; intros; by simplify_eq.
Qed.

Ltac each_worker w Hi :=
  destruct w as [s [| | | | |e| |] c]; destruct s, c; try destruct e; vm_compute in Hi; try discriminate Hi.

Lemma start_turn w b : Inv w = true -> call w = InStart -> (start_distance (turn w b) <= start_distance w - 1)%nat.
Proof. intros Hi Hc. each_worker w Hi; try discriminate Hc; destruct b; vm_compute; lia. Qed.
Lemma stop_turn w b : Inv w = true -> call w = InStop ->
  (stop_distance (turn w b) <= stop_distance w - if b then 1 else 0)%nat.
Proof. intros Hi Hc. each_worker w Hi; try discriminate Hc; destruct b; vm_compute; lia. Qed.
Lemma join_turn w b : Inv w = true -> call w = InJoin ->
  (join_distance (turn w b) <= join_distance w - if b then 1 else 0)%nat.
Proof. intros Hi Hc. each_worker w Hi; try discriminate Hc; destruct b; vm_compute; lia. Qed.

(** A distance that every turn (every turn that lets the loop return) shortens is run down. *)
Lemma run_down (c : call_pc) (distance : worker -> nat) (weight : bool -> nat) :
  (forall w b, Inv w = true -> call w = c -> (distance (turn w b) <= distance w - weight b)%nat) ->
  forall turns w, Inv w = true -> call w = c ->
    (distance (run_turns turns w) <= distance w - sum_list_with weight turns)%nat.
Proof.
  intros Hd. induction turns as [|b turns IH]; intros w Hi Hc; cbn [run_turns fold_left sum_list_with]; [lia|].
  destruct (turn_Inv w b Hi) as [Hi' Hc']. specialize (Hd w b Hi Hc).
  specialize (IH (turn w b) Hi' ltac:(congruence)). unfold run_turns in IH. lia.
Qed.

Lemma sum_returning turns : sum_list_with (fun b : bool => if b then 1 else 0)%nat turns = returning turns.
Proof. unfold returning. induction turns as [|[] turns IH]; [done|..]; cbn; rewrite IH; reflexivity. Qed.
Lemma sum_turns (turns : list bool) : sum_list_with (fun _ => 1%nat) turns = length turns.
Proof. induction turns as [|b turns IH]; [done|]. cbn. by rewrite IH. Qed.

Lemma never_returning turns w : thread w = InWorkLoop -> returning turns = 0%nat -> run_turns turns w = w.
Proof.
  intros Hw. induction turns as [|b turns IH]; [done|]. unfold returning. destruct b; cbn; [done|]. intros Ht.
  unfold turn at 2. rewrite bool_decide_eq_true_2 by done. cbn. by apply IH.
Qed.

(** The thread waits for the state to leave [Stopped], or is one harmless access before. *)
Definition parked (w : worker) : Prop :=
  m_state w = Stopped /\
  (thread w = WaitStopped \/ thread w = Restore Started \/ thread w = Restore Stopping).

Lemma parked_stays w n : parked w -> parked (run_thread n w).
Proof.
  intros Hw. induction n as [|n IH]; [done|].
  change (run_thread (S n) w) with (default (run_thread n w) (thread_step (run_thread n w))).
  destruct (run_thread n w) as [s t c], IH as [IH1 IH2]. simpl in IH1, IH2. subst s.
  destruct IH2 as [->|[->| ->]]; (split; [reflexivity | left; reflexivity]).
Qed.

(** C36: Safety of [stopWorking]: in every interleaving, when it returns the worker thread is
    outside [workLoop] and, whatever steps it takes before a later [startWorking], stays out
    of it with the state [Stopped]. *)
Theorem stopWorking_leaves_workLoop (w : worker) (n : nat) :
  reachable w -> call w = InStop -> stopWorking_returns w = true ->
  thread w <> InWorkLoop /\
  m_state (run_thread n w) = Stopped /\ thread (run_thread n w) <> InWorkLoop.
Proof.
  intros Hr Hc Hs.
  assert (Hp : parked w).
  { worker_cases w Hr; try discriminate; split; auto. }
  pose proof (parked_stays w n Hp) as [H1 H2]. destruct Hp as [_ Hp].
  split_and!; [| done |].
  - destruct Hp as [->|[->| ->]]; done.
  - destruct H2 as [->|[->| ->]]; done.
Qed.

(** C40: When the waits of the controlling calls end: [startWorking] returns after four turns of the
    thread at most, whatever [workLoop] does. [stopWorking] returns after two turns in which
    [workLoop], if the thread is inside it, returns, and the destructor joins after six such turns (no [Killing]
    request is lost by the exchange that stores [Stopped]), whatever turns without progress come between
    them; and they need it: while [workLoop] does not return, neither wait ends (as for a miner waiting for its turn in
    a sequential epoch load, which does not look at [shouldStop]). *)
Theorem worker_waits_terminate (w : worker) (turns : list bool) :
  reachable w ->
  (call w = InStart -> (4 <= length turns)%nat -> startWorking_returns (run_turns turns w) = true) /\
  (call w = InStop -> (2 <= returning turns)%nat -> stopWorking_returns (run_turns turns w) = true) /\
  (call w = InJoin -> (6 <= returning turns)%nat -> thread (run_turns turns w) = Returned) /\
  (thread w = InWorkLoop -> returning turns = 0%nat ->
     stopWorking_returns (run_turns turns w) = false /\ thread (run_turns turns w) <> Returned).
Proof.
  intros Hr. apply reachable_Inv in Hr as Hi. split_and!.
  - intros Hc Hl. pose proof (run_down InStart start_distance _ start_turn turns w Hi Hc) as Hd.
    rewrite sum_turns in Hd. assert (start_distance w <= 4)%nat by (unfold start_distance; repeat case_match; lia).
    revert Hd. unfold start_distance at 1. destruct (startWorking_returns (run_turns turns w)); [done|]. case_match; lia.
  - intros Hc Hl. pose proof (run_down InStop stop_distance _ stop_turn turns w Hi Hc) as Hd.
    rewrite sum_returning in Hd. assert (stop_distance w <= 2)%nat by (unfold stop_distance; repeat case_match; lia).
    revert Hd. unfold stop_distance at 1. destruct (stopWorking_returns (run_turns turns w)); [done|]. case_match; lia.
  - intros Hc Hl. pose proof (run_down InJoin join_distance _ join_turn turns w Hi Hc) as Hd.
    rewrite sum_returning in Hd. assert (join_distance w <= 6)%nat by (unfold join_distance; repeat case_match; lia).
    revert Hd. unfold join_distance at 1. destruct (thread (run_turns turns w)); lia || done.
  - intros Hw Ht. rewrite never_returning by done. split; [|by rewrite Hw].
    clear Hr. each_worker w Hi; by try discriminate Hw.
Qed.

(** A worker that was started, entered its loop and is now being stopped or destroyed. *)
Lemma running_reachable : reachable {| m_state := Started; thread := InWorkLoop; call := Idle |}.
Proof.
  eapply star_step; [apply StepStart; reflexivity|].
  eapply star_step; [apply StepThread; reflexivity|].
  eapply star_step; [apply StepThread; reflexivity|].
  eapply star_step; [apply StepStartRet; reflexivity|]. apply star_refl.
Qed.

Lemma star_snoc {A} (R : A -> A -> Prop) a b c : star R a b -> R b c -> star R a c.
Proof. intros H1 H2. induction H1; eauto using star. Qed.

Lemma worker_waits_terminate_witness :
  let running := {| m_state := Started; thread := InWorkLoop; call := Idle |} in
  startWorking_returns (run_turns [true; false; true; false] (startWorking new_worker)) = true /\
  stopWorking_returns (run_turns [false; true; false; true] (stopWorking running)) = true /\
  thread (run_turns [false; true; true; true; false; true; true; true] (destroy running)) = Returned /\
  stopWorking_returns (run_turns (replicate 1000 false) (stopWorking running)) = false.
Proof.
  cbv zeta. split_and!.
  - apply worker_waits_terminate; [|done|cbn; lia]. eapply star_step; [by apply StepStart|apply star_refl].
  - apply worker_waits_terminate; [|done|vm_compute; lia].
    eapply star_snoc; [exact running_reachable|]. by apply StepStop.
  - apply worker_waits_terminate; [|done|vm_compute; lia].
    eapply star_snoc; [exact running_reachable|]. by apply StepDestroy.
  - apply worker_waits_terminate; [|done|by vm_compute].
    eapply star_snoc; [exact running_reachable|]. by apply StepStop.
Defined.

Lemma stopped_reachable : reachable {| m_state := Stopped; thread := WaitStopped; call := InStop |}.
Proof.
  eapply (star_snoc _ _ {| m_state := Stopped; thread := Restore Stopping; call := InStop |});
    [|apply StepThread; reflexivity].
  eapply (star_snoc _ _ {| m_state := Stopping; thread := SetStopped; call := InStop |});
    [|apply StepThread; reflexivity].
  eapply (star_snoc _ _ {| m_state := Stopping; thread := InWorkLoop; call := InStop |});
    [|apply StepThread; reflexivity].
  eapply star_snoc; [exact running_reachable|].
  exact (StepStop {| m_state := Started; thread := InWorkLoop; call := Idle |} eq_refl).
Qed.

Lemma stopWorking_leaves_workLoop_witness :
  WaitStopped <> InWorkLoop /\
  m_state (run_thread 5 {| m_state := Stopped; thread := WaitStopped; call := InStop |}) = Stopped /\
  thread (run_thread 5 {| m_state := Stopped; thread := WaitStopped; call := InStop |}) <> InWorkLoop.
Proof. exact (stopWorking_leaves_workLoop _ 5 stopped_reachable eq_refl eq_refl). Defined.
