(* ===== verification/Float.v ===== *)
(** * IEEE 754 values and the size and hash-rate formatting of CommonData.cpp

    [float] and [double] are the values of the standard library's [SpecFloat] (an executable
    specification of IEEE 754 arithmetic, round to nearest even).  The file models
    [getScaledSize], [getFormattedHashes], [getFormattedMemory] and [getHashesToTarget] of
    src/libdevcore/CommonData.cpp, and shows when the suffix table is read past its end. *)

From Stdlib Require Export SpecFloat.
From S2P Require Import Prelude CppString CommonData.

(** ** Formats *)

Definition f32_of_Z (z : Z) : spec_float := binary_normalize 24 128 z 0 false.
Definition f32_add : spec_float -> spec_float -> spec_float := SFadd 24 128.
Definition f32_mul : spec_float -> spec_float -> spec_float := SFmul 24 128.
Definition f32_div : spec_float -> spec_float -> spec_float := SFdiv 24 128.
Definition f64_of_Z (z : Z) : spec_float := binary_normalize 53 1024 z 0 false.
Definition f64_add : spec_float -> spec_float -> spec_float := SFadd 53 1024.
Definition f64_div : spec_float -> spec_float -> spec_float := SFdiv 53 1024.
Definition f_zero : spec_float := S754_zero false.

(** [a > b]; false when either is not a number. *)
Definition f_gt (a b : spec_float) : bool := SFltb b a.

(** ** Output: [std::fixed << std::setprecision(p) << v] *)

Definition round_div_even (n d : Z) : Z :=
  let q := n / d in let r := n mod d in
  if 2 * r <? d then q else if d <? 2 * r then q + 1 else if Z.even q then q else q + 1.

(** The decimal value with [p] places of [m * 2 ^ e], as an integer number of 10^-p. *)
Definition scaled_decimal (p : nat) (m : positive) (e : Z) : Z :=
  let n := Zpos m * 10 ^ Z.of_nat p in
  if 0 <=? e then n * 2 ^ e else round_div_even n (2 ^ (- e)).

Definition fixed_str (p : nat) (v : spec_float) : string :=
  let body (k : Z) :=
    let unit_ := 10 ^ Z.of_nat p in
    match p with
    | O => dec_str k
    | _ => dec_str (k / unit_) +:+ "." +:+ setw p "0" (dec_str (k mod unit_))
    end in
  match v with
  | S754_zero s => (if s then "-" else "") +:+ body 0
  | S754_infinity s => (if s then "-inf" else "inf")
  | S754_nan => "nan"
  | S754_finite s m e => (if s then "-" else "") +:+ body (scaled_decimal p m e)
  end.

(** ** getScaledSize *)

Inductive ScaleSuffix := NoSuffix | WithSuffix.

(** The loop: while the value exceeds the divisor and [i <= _numsizes - 1]. *)
Fixpoint scale_loop (n : nat) (_newvalue _divisor : spec_float) (i : nat) : spec_float * nat :=
  match n with
  | O => (_newvalue, i)
  | S n' => if f_gt _newvalue _divisor
            then scale_loop n' (f64_div _newvalue _divisor) _divisor (S i)
            else (_newvalue, i)
  end.

(** Reading [_sizes[i]] past the end of the array has no defined meaning. *)
Definition getScaledSize (_value _divisor : spec_float) (_precision : nat) (_sizes : list string)
    (_suffix : ScaleSuffix) : res string :=
  let '(_newvalue, i) := scale_loop (length _sizes) _value _divisor 0 in
  let _ret := fixed_str _precision _newvalue in
  match _suffix with
  | NoSuffix => Ok _ret
  | WithSuffix =>
      match _sizes !! i with
      | Some s => Ok (_ret +:+ " " +:+ s)
      | None => Throw (UndefinedBehaviour "_sizes[i]")
      end
  end.

Definition getFormattedHashes (_hr : spec_float) (_suffix : ScaleSuffix) (_precision : nat) : res string :=
  getScaledSize _hr (f64_of_Z 1000) _precision ["h"; "Kh"; "Mh"; "Gh"] _suffix.

Definition getFormattedMemory (_mem : spec_float) (_suffix : ScaleSuffix) (_precision : nat) : res string :=
  getScaledSize _mem (f64_of_Z 1024) _precision ["B"; "KB"; "MB"; "GB"] _suffix.

Example memory_1536 : getFormattedMemory (f64_of_Z 1536) WithSuffix 2 = Ok "1.50 KB".
Proof. vm_compute. reflexivity. Qed.
Example hashes_rounding : getFormattedHashes (f64_of_Z 1234567) WithSuffix 2 = Ok "1.23 Mh".
Proof. vm_compute. reflexivity. Qed.

(** ** getHashesToTarget

    [boost::multiprecision::cpp_int] is library code: its string constructor, its quotient and
    its conversion to [double] are parameters. *)

Class BigInteger := {
  bi_of_string : string -> res Z;          (* cpp_int(std::string) *)
  bi_div : Z -> Z -> res Z;                (* operator/ *)
  bi_to_double : Z -> spec_float;          (* double(cpp_int) *)
  bi_hex_law : forall s, sforall is_hex s = true -> s <> "" ->
    bi_of_string ("0x" +:+ s) = Ok (digits_value 16 0 s);
  bi_div_law : forall a b, b <> 0 -> bi_div a b = Ok (Z.quot a b);
  bi_div_zero_law : forall a, bi_div a 0 = Throw (LibError "Division by zero.") }.

Definition hashes_dividend : Z := 0xffff000000000000000000000000000000000000000000000000000000000000.

Definition getHashesToTarget `{BigInteger} (_target : string) : res spec_float :=
  let! divisor := bi_of_string _target in
  let! q := bi_div hashes_dividend divisor in
  Ok (bi_to_double q).

(** A model of the parameters that satisfies the laws. *)
Module BigIntegerModel.
Definition of_string (s : string) : res Z :=
  match strto 16 s with Some (_, v) => Ok v | None => Throw (LibError "cpp_int") end.
Definition div (a b : Z) : res Z :=
  if b =? 0 then Throw (LibError "Division by zero.") else Ok (Z.quot a b).

Lemma of_string_hex s : sforall is_hex s = true -> s <> "" ->
  of_string ("0x" +:+ s) = Ok (digits_value 16 0 s).
Proof. intros H1 H2. unfold of_string. by rewrite strto_0x. Qed.
Lemma div_nonzero a b : b <> 0 -> div a b = Ok (Z.quot a b).
Proof. intros Hb. unfold div. by apply Z.eqb_neq in Hb as ->. Qed.
Lemma div_zero a : div a 0 = Throw (LibError "Division by zero.").
Proof. done. Qed.

#[export] Instance instance : BigInteger := {|
  bi_of_string := of_string; bi_div := div; bi_to_double := f64_of_Z;
  bi_hex_law := of_string_hex; bi_div_law := div_nonzero; bi_div_zero_law := div_zero |}.
End BigIntegerModel.

(** * Proofs *)

Fixpoint divide_times (n : nat) (v d : spec_float) : spec_float :=
  match n with O => v | S n' => divide_times n' (f64_div v d) d end.

Lemma scale_loop_index n v d i : 
  (i <= snd (scale_loop n v d i) <= i + n)%nat /\
  fst (scale_loop n v d i) = divide_times (snd (scale_loop n v d i) - i) v d /\
  ((snd (scale_loop n v d i) < i + n)%nat -> f_gt (fst (scale_loop n v d i)) d = false).
Proof.
  revert v i. induction n as [|n IH]; intros v i; cbn [scale_loop].
  - simpl. rewrite Nat.sub_diag. split_and!; [lia|lia|done|lia].
  - destruct (f_gt v d) eqn:E; simpl.
    + destruct (IH (f64_div v d) (S i)) as (H1 & H2 & H3). split_and!; [lia|lia| |].
      * rewrite H2 at 1.
        replace (snd (scale_loop n (f64_div v d) d (S i)) - i)%nat
          with (S (snd (scale_loop n (f64_div v d) d (S i)) - S i)) by lia. done.
      * intros. apply H3. lia.
    + rewrite Nat.sub_diag. split_and!; [lia|lia|done|done].
Qed.

(** [getScaledSize] divides the value by the divisor a number of times no larger than the
    number of suffixes and prints the quotient; the suffix read is in the table unless the
    loop ran once per suffix, and that happens: a memory size of 2 TiB (2^41 bytes) makes
    [getFormattedMemory] read one element past the four suffixes. *)
Theorem getScaledSize_index (v d : spec_float) (p : nat) (sizes : list string) :
  let '(q, i) := scale_loop (length sizes) v d 0 in
  (i <= length sizes)%nat /\ q = divide_times i v d /\
  ((i < length sizes)%nat -> f_gt q d = false /\
     exists s, sizes !! i = Some s /\
       getScaledSize v d p sizes WithSuffix = Ok (fixed_str p q +:+ " " +:+ s)) /\
  (i = length sizes -> exists w, getScaledSize v d p sizes WithSuffix = Throw (UndefinedBehaviour w)) /\
  getFormattedMemory (f64_of_Z (2 ^ 41)) WithSuffix 2 = Throw (UndefinedBehaviour "_sizes[i]").
Proof.
  pose proof (scale_loop_index (length sizes) v d 0) as (H1 & H2 & H3).
  unfold getScaledSize. destruct (scale_loop (length sizes) v d 0) as [q i] eqn:E.
  simpl in *. rewrite Nat.sub_0_r in H2. split_and!; [lia|done| | |vm_compute; reflexivity].
  - intros Hi. split; [auto|]. destruct (lookup_lt_is_Some_2 sizes i Hi) as [s Hs].
    exists s. by rewrite Hs.
  - intros ->. rewrite lookup_ge_None_2 by lia. eauto.
Qed.

Lemma hash_digits l : bytes_ok l ->
  sforall is_hex (toHex_rest l) = true /\ digits_value 16 0 (toHex_rest l) = be_value l.
Proof.
  intros Hl. assert (H : forall acc,
    sforall is_hex (toHex_rest l) = true /\
    digits_value 16 acc (toHex_rest l) = acc * 256 ^ Z.of_nat (length l) + be_value l).
  { induction Hl as [|b l Hb Hl IH]; intros acc; [simpl; split; [done|]; rewrite Z.pow_0_r; unfold be_value; simpl; lia|].
    cbn [toHex_rest]. rewrite hex_byte, !string_app_cons by done.
    destruct (nibbles_of_byte b Hb) as [Hh Hn]. unfold byte_ok, in_range in Hb.
    cbn [sforall digits_value]. unfold is_hex at 1 2. rewrite !digit_val_char by done.
    assert (Hlt : b / 16 <? 16 = true) by (apply Z.ltb_lt; lia).
    assert (Hlt' : b mod 16 <? 16 = true) by (apply Z.ltb_lt; lia). rewrite Hlt, Hlt'.
    destruct (IH ((acc * 16 + b / 16) * 16 + b mod 16)) as [IH1 IH2].
    change ("" +:+ toHex_rest l) with (toHex_rest l). split; [done|].
    rewrite IH2, be_value_cons. cbn [length]. rewrite Nat2Z.inj_succ, Z.pow_succ_r by lia.
    pose proof (Z.div_mod b 16). nia. }
  destruct (H 0) as [H1 H2]. split; [done|]. rewrite H2. lia.
Qed.
