(* ===== verification/Difficulty.v ===== *)
(** * Difficulty to target: getTargetFromDiff of CommonData.cpp

    [getTargetFromDiff] of src/libdevcore/CommonData.cpp.  The big-integer operations and the
    text of a double are library code: [BigInteger] (see Float) and [DoubleText]. *)

From S2P Require Import Prelude CppString CommonData FixedHash Float.

(** [cpp_int(double)] and [boost::lexical_cast<std::string>(double)]: what is documented of them
    for the value one. *)
Class DoubleText := {
  bi_of_double : spec_float -> Z;
  double_text : spec_float -> string;
  bi_of_double_law : bi_of_double (f64_of_Z 1) = 1;
  double_text_law : double_text (f64_of_Z 1) = "1" }.

Section difficulty.
Context `{BigInteger, DoubleText}.

Definition diff1_target : Z := 0x00000000ffff0000000000000000000000000000000000000000000000000000.

(** [s.erase(0, s.find_first_not_of('0'))]: everything when there is nothing else. *)
Fixpoint strip_zeroes (s : string) : string :=
  match s with
  | String c s' => if Ascii.eqb c "0" then strip_zeroes s' else s
  | EmptyString => EmptyString
  end.

(** The product of the base and the reciprocal, whole part and decimals apart. *)
Definition target_product (diff : spec_float) : res Z :=
  let idiff := bi_of_double diff in
  let sdiff := double_text diff in
  match find_char "." sdiff with
  | None => Ok (diff1_target * idiff)
  | Some offset =>
      let precision := (String.length sdiff - 1 - offset)%nat in
      let decimals := strip_zeroes (sdrop (offset + 1) sdiff) in
      let! multiplier := bi_of_string decimals in
      let! divisor := bi_of_string (resize "1" (precision + 1) "0") in
      let! q := bi_div (diff1_target * multiplier) divisor in
      Ok (diff1_target * idiff + q)
  end.

Definition f64_is_zero (d : spec_float) : bool := match d with S754_zero _ => true | _ => false end.

Definition getTargetFromDiff (diff : spec_float) (_prefix : HexPrefix) : res string :=
  let! product := if f64_is_zero diff then Ok (2 ^ 256 - 1)
                  else target_product (f64_div (f64_of_Z 1) diff) in
  Ok (smap tolower (with_prefix _prefix (setw 64 "0" (hex_str product)))).

Lemma target_one : exists h,
  getTargetFromDiff (f64_of_Z 1) Add =
    Ok "0x00000000ffff0000000000000000000000000000000000000000000000000000" /\
  h256 "0x00000000ffff0000000000000000000000000000000000000000000000000000" = Ok h /\
  to_arith 32 h = 0xffff * 2 ^ 208.
Proof.
  unfold getTargetFromDiff. change (f64_is_zero (f64_of_Z 1)) with false.
  assert (f64_div (f64_of_Z 1) (f64_of_Z 1) = f64_of_Z 1) as -> by (vm_compute; reflexivity).
  unfold target_product. rewrite bi_of_double_law, double_text_law.
  change (find_char "." "1") with (@None nat). cbn [res_bind].
  eexists. split_and!; [vm_compute; reflexivity | vm_compute; reflexivity | vm_compute; reflexivity].
Qed.

(** The target of difficulty 1 is the standard one, 0xffff shifted left by 208 bits, as 64
    lower-case hexadecimal digits, and it reads back as that 256-bit hash; difficulty 0 gives the
    largest target. *)
Theorem target_of_difficulty_one :
  (exists t h, getTargetFromDiff (f64_of_Z 1) Add = Ok t /\
    t = "0x00000000ffff0000000000000000000000000000000000000000000000000000" /\
    h256 t = Ok h /\ to_arith 32 h = 0xffff * 2 ^ 208) /\
  getTargetFromDiff (f64_of_Z 0) Add =
    Ok "0xffffffffffffffffffffffffffffffffffffffffffffffffffffffffffffffff".
Proof.
  split; [|vm_compute; reflexivity]. destruct target_one as (h & H1 & H2 & H3). by do 2 eexists.
Qed.

End difficulty.

(** A model of the parameters: truncation, and six decimals where the value is not an integer. *)
Module DoubleTextModel.
Definition trunc (d : spec_float) : Z :=
  match d with
  | S754_finite s m e =>
      let v := if 0 <=? e then Zpos m * 2 ^ e else Z.quot (Zpos m) (2 ^ (- e)) in if s then - v else v
  | _ => 0
  end.
Definition text (d : spec_float) : string :=
  if SFeqb (f64_of_Z (trunc d)) d then dec_str (trunc d) else fixed_str 6 d.
#[export] Instance instance : DoubleText.
Proof. refine {| bi_of_double := trunc; double_text := text |}; vm_compute; reflexivity. Defined.
End DoubleTextModel.

Lemma target_of_difficulty_one_witness :
  @getTargetFromDiff BigIntegerModel.instance DoubleTextModel.instance (f64_of_Z 1) Add =
    Ok "0x00000000ffff0000000000000000000000000000000000000000000000000000".
Proof.
  destruct (@target_of_difficulty_one BigIntegerModel.instance DoubleTextModel.instance)
    as [(t & h & H & E & _) _]. rewrite E in H. exact H.
Defined.
