(* ===== verification/Types.v ===== *)
(** * libethcore data: work packages, solutions, telemetry accounts

    The structures of src/libethcore/EthashAux.h and the accounting structures of
    src/libethcore/Miner.h.  Time points are integer nanoseconds of the steady clock. *)

From S2P Require Import Prelude CppString CommonData FixedHash Float.

Record WorkPackage := {
  job : string;
  boundary : hash;
  header : hash;
  seed : hash;
  epoch : Z;
  block : Z;
  startNonce : Z;
  exSizeBytes : Z;
  algo : string }.

(** [WorkPackage()]. *)
Definition WorkPackage_default : WorkPackage := {|
  job := ""; boundary := h_zero 32; header := h_zero 32; seed := h_zero 32;
  epoch := -1; block := -1; startNonce := 0; exSizeBytes := 0; algo := "ethash" |}.

(** [explicit operator bool]: a zero header means "pause until new work". *)
Definition wp_bool (wp : WorkPackage) : bool := negb (hash_eq (header wp) (h_zero 32)).

(** Field assignments. *)
Definition set_job (j : string) (w : WorkPackage) : WorkPackage := {| job := j; boundary := boundary w; header := header w; seed := seed w; epoch := epoch w; block := block w; startNonce := startNonce w; exSizeBytes := exSizeBytes w; algo := algo w |}.
Definition set_boundary (b : hash) (w : WorkPackage) : WorkPackage := {| job := job w; boundary := b; header := header w; seed := seed w; epoch := epoch w; block := block w; startNonce := startNonce w; exSizeBytes := exSizeBytes w; algo := algo w |}.
Definition set_header (h : hash) (w : WorkPackage) : WorkPackage := {| job := job w; boundary := boundary w; header := h; seed := seed w; epoch := epoch w; block := block w; startNonce := startNonce w; exSizeBytes := exSizeBytes w; algo := algo w |}.
Definition set_seed (s : hash) (w : WorkPackage) : WorkPackage := {| job := job w; boundary := boundary w; header := header w; seed := s; epoch := epoch w; block := block w; startNonce := startNonce w; exSizeBytes := exSizeBytes w; algo := algo w |}.
Definition set_epoch (e : Z) (w : WorkPackage) : WorkPackage := {| job := job w; boundary := boundary w; header := header w; seed := seed w; epoch := e; block := block w; startNonce := startNonce w; exSizeBytes := exSizeBytes w; algo := algo w |}.
Definition set_block (b : Z) (w : WorkPackage) : WorkPackage := {| job := job w; boundary := boundary w; header := header w; seed := seed w; epoch := epoch w; block := b; startNonce := startNonce w; exSizeBytes := exSizeBytes w; algo := algo w |}.
Definition set_startNonce (n : Z) (w : WorkPackage) : WorkPackage := {| job := job w; boundary := boundary w; header := header w; seed := seed w; epoch := epoch w; block := block w; startNonce := n; exSizeBytes := exSizeBytes w; algo := algo w |}.
Definition set_exSizeBytes (n : Z) (w : WorkPackage) : WorkPackage := {| job := job w; boundary := boundary w; header := header w; seed := seed w; epoch := epoch w; block := block w; startNonce := startNonce w; exSizeBytes := n; algo := algo w |}.
Definition set_algo (a : string) (w : WorkPackage) : WorkPackage := {| job := job w; boundary := boundary w; header := header w; seed := seed w; epoch := epoch w; block := block w; startNonce := startNonce w; exSizeBytes := exSizeBytes w; algo := a |}.

(** The values its types allow. *)
Definition work_ok (wp : WorkPackage) : Prop :=
  hash_ok 32 (header wp) /\ hash_ok 32 (boundary wp) /\ hash_ok 32 (seed wp) /\
  - 2 ^ 31 <= epoch wp < 2 ^ 31 /\ - 2 ^ 31 <= block wp < 2 ^ 31 /\
  in_range 64 (startNonce wp) /\ in_range 16 (exSizeBytes wp).

Lemma work_ok_default : work_ok WorkPackage_default.
Proof. unfold work_ok. cbn. split_and!; (apply h_zero_ok || lia || by_evaluation). Qed.

Record Solution := {
  nonce : Z;
  mixHash : hash;
  work : WorkPackage;
  tstamp : Z;
  midx : Z }.

Record EpochContext := {
  epochNumber : Z;
  lightNumItems : Z;
  lightSize : Z;
  lightCache : list Z;
  dagNumItems : Z;
  dagSize : Z }.

(** [Result] of [EthashAux::eval]. *)
Record Result := { value : hash; r_mixHash : hash }.

Inductive SolutionAccountingEnum := Accepted | Rejected | Wasted | Failed.
#[export] Instance SolutionAccountingEnum_eq_dec : EqDecision SolutionAccountingEnum.
Proof. solve_decision. Defined.


Record SolutionAccountType := {
  accepted : Z; rejected : Z; wasted : Z; failed : Z; sa_tstamp : Z }.

Definition SolutionAccount_new (now : Z) : SolutionAccountType :=
  {| accepted := 0; rejected := 0; wasted := 0; failed := 0; sa_tstamp := now |}.

(** [SolutionAccountType::str]: the zero counters other than [accepted] are left out. *)
Definition SolutionAccount_str (s : SolutionAccountType) : string :=
  "A" +:+ dec_str (accepted s)
  +:+ (if wasted s =? 0 then "" else ":W" +:+ dec_str (wasted s))
  +:+ (if rejected s =? 0 then "" else ":R" +:+ dec_str (rejected s))
  +:+ (if failed s =? 0 then "" else ":F" +:+ dec_str (failed s)).

Record HwSensorsType := { tempC : Z; fanP : Z; powerW : spec_float }.
Definition HwSensors_new : HwSensorsType := {| tempC := 0; fanP := 0; powerW := f_zero |}.

Record TelemetryAccountType := {
  prefix : string;
  hashrate : spec_float;
  paused_ : bool;
  sensors : HwSensorsType;
  solutions : SolutionAccountType }.

Definition TelemetryAccount_new (now : Z) : TelemetryAccountType := {|
  prefix := ""; hashrate := f_zero; paused_ := false; sensors := HwSensors_new;
  solutions := SolutionAccount_new now |}.

Record TelemetryType := {
  t_start : Z;
  farm : TelemetryAccountType;
  miners_ : list TelemetryAccountType }.

Inductive DeviceTypeEnum := DT_Unknown | DT_Cpu.
Inductive DeviceSubscriptionTypeEnum := DS_None | DS_Cpu.
#[export] Instance DeviceTypeEnum_eq_dec : EqDecision DeviceTypeEnum.
Proof. solve_decision. Defined.
#[export] Instance DeviceSubscriptionTypeEnum_eq_dec : EqDecision DeviceSubscriptionTypeEnum.
Proof. solve_decision. Defined.

Record DeviceDescriptor := {
  dd_type : DeviceTypeEnum;
  subscriptionType : DeviceSubscriptionTypeEnum;
  uniqueId : string;
  totalMemory : Z;
  dd_name : string;
  cpCpuNumer : Z }.

Example account_str : SolutionAccount_str
  {| accepted := 12; rejected := 1; wasted := 0; failed := 3; sa_tstamp := 0 |} = "A12:R1:F3".
Proof. reflexivity. Qed.
