(* ===== verification/Telemetry.v ===== *)
(** * libethcore/Miner.h: the telemetry line

    [HwSensorsType::str] and [TelemetryType::str] of src/libethcore/Miner.h: the line that is
    displayed and logged, with the colours of src/libdevcore/Terminal.h.  The farm's hash rate
    fixes the unit in which the rate of every miner is printed. *)

From S2P Require Import Prelude CppString CommonData FixedHash Float Types.

(** ** Terminal.h *)

Definition colour (code : string) : string := String (chr 27) ("[" +:+ code +:+ "m").
Definition EthReset : string := colour "0".
Definition EthRed : string := colour "91".
Definition EthGreen : string := colour "32".
Definition EthTeal : string := colour "36".
Definition EthWhiteBold : string := colour "1;97".
Definition EthTealBold : string := colour "1;36".

(** ** Sensors *)

Definition f_is_zero (v : spec_float) : bool := match v with S754_zero _ => true | _ => false end.

Definition HwSensors_str (s : HwSensorsType) : string :=
  dec_str (tempC s) +:+ "C " +:+ dec_str (fanP s) +:+ "%"
  +:+ (if f_is_zero (powerW s) then "" else " " +:+ fixed_str 2 (powerW s) +:+ "W").

(** ** The line *)

Definition nanoseconds_per_hour : Z := 3600000000000.
Definition nanoseconds_per_minute : Z := 60000000000.

(** [h:mm] of a duration in nanoseconds; the fill character is set after the hours. *)
Definition duration_text (duration : Z) : string :=
  let hours := Z.quot duration nanoseconds_per_hour in
  let hoursSize := if 9 <? hours then if 99 <? hours then 3%nat else 2%nat else 1%nat in
  let duration := duration - hours * nanoseconds_per_hour in
  let minutes := Z.quot duration nanoseconds_per_minute in
  setw hoursSize " " (dec_str hours) +:+ ":" +:+ setw 2 "0" (dec_str minutes).

Definition suffixes : list string := ["h"; "Kh"; "Mh"; "Gh"].
Definition f32_1000 : spec_float := f32_of_Z 1000.

(** [while (hr > 1000.0f && magnitude <= 3)]; at most [n] more turns. *)
Fixpoint magnitude_loop (n : nat) (hr : spec_float) (magnitude : nat) : spec_float * nat :=
  match n with
  | O => (hr, magnitude)
  | S n' => if f_gt hr f32_1000 && (magnitude <=? 3)%nat
            then magnitude_loop n' (f32_div hr f32_1000) (S magnitude)
            else (hr, magnitude)
  end.

(** A [float] as a [double], exactly, and a [double] rounded to a [float]. *)
Definition f64_of_f32 (v : spec_float) : spec_float :=
  match v with S754_finite s m e => binary_normalize 53 1024 (if s then Zneg m else Zpos m) e s | _ => v end.
Definition f32_of_f64 (v : spec_float) : spec_float :=
  match v with S754_finite s m e => binary_normalize 24 128 (if s then Zneg m else Zpos m) e s | _ => v end.

(** A miner's rate in the farm's unit: [if (hr > 0.0f) hr /= pow(1000.0f, magnitude)], the power and
    the quotient in [double]. *)
Definition miner_rate (magnitude : nat) (hr : spec_float) : spec_float :=
  if f_gt hr f_zero
  then f32_of_f64 (f64_div (f64_of_f32 hr) (f64_of_Z (1000 ^ Z.of_nat magnitude)))
  else hr.

Definition miner_text (magnitude : nat) (i m : Z) (miner : TelemetryAccountType) : string :=
  (if paused_ miner then EthRed else "") +:+ prefix miner +:+ dec_str i +:+ " " +:+ EthTeal
  +:+ fixed_str 2 (miner_rate magnitude (hashrate miner)) +:+ EthReset
  +:+ (if i <? m then ", " else "").

Fixpoint miners_text (magnitude : nat) (i m : Z) (l : list TelemetryAccountType) : string :=
  match l with
  | [] => ""
  | miner :: l' => miner_text magnitude i m miner +:+ miners_text magnitude (i + 1) m l'
  end.

(** What the line starts with: the time, the solutions. *)
Definition line_head (now : Z) (t : TelemetryType) : string :=
  EthGreen +:+ duration_text (now - t_start t) +:+ EthReset
  +:+ EthWhiteBold +:+ " " +:+ SolutionAccount_str (solutions (farm t)) +:+ EthReset +:+ " ".

(** Reading [suffixes[magnitude]] past the end of the array has no defined meaning. *)
Definition TelemetryType_str (now : Z) (t : TelemetryType) : res string :=
  let '(hr, magnitude) := magnitude_loop 4 (hashrate (farm t)) 0 in
  match suffixes !! magnitude with
  | None => Throw (UndefinedBehaviour "suffixes[magnitude]")
  | Some suffix =>
      Ok (line_head now t +:+ EthTealBold +:+ fixed_str 2 hr +:+ " " +:+ suffix +:+ EthReset +:+ " - "
          +:+ miners_text magnitude 0 (Z.of_nat (length (miners_ t)) - 1) (miners_ t))
  end.

Example sensors_text : HwSensors_str {| tempC := 61; fanP := 40; powerW := f64_div (f64_of_Z 251) (f64_of_Z 2) |} =
  "61C 40% 125.50W".
Proof. vm_compute. reflexivity. Qed.
Example rate_in_kh : fixed_str 2 (miner_rate 1 (f32_of_Z 1234)) = "1.23".
Proof. vm_compute. reflexivity. Qed.
Example one_hour : duration_text 3725000000000 = "1:02".
Proof. vm_compute. reflexivity. Qed.

(** * Proofs *)

(** The farm's rate after [n] divisions. *)
Fixpoint scaled_rate (n : nat) (hr : spec_float) : spec_float :=
  match n with O => hr | S n' => scaled_rate n' (f32_div hr f32_1000) end.

Lemma magnitude_loop_spec n hr m : (m + n <= 4)%nat ->
  let '(q, k) := magnitude_loop n hr m in
  (m <= k <= m + n)%nat /\ q = scaled_rate (k - m) hr /\
  ((k < m + n)%nat -> f_gt q f32_1000 = false) /\
  (forall j, (j < k - m)%nat -> f_gt (scaled_rate j hr) f32_1000 = true).
Proof.
  revert hr m. induction n as [|n IH]; intros hr m Hm; cbn [magnitude_loop].
  - rewrite Nat.sub_diag. split_and!; [lia|lia|done|lia|lia].
  - assert ((m <=? 3)%nat = true) as -> by (apply Nat.leb_le; lia). rewrite andb_true_r.
    destruct (f_gt hr f32_1000) eqn:E.
    + specialize (IH (f32_div hr f32_1000) (S m) ltac:(lia)).
      destruct (magnitude_loop n (f32_div hr f32_1000) (S m)) as [q k].
      destruct IH as (H1 & -> & H3 & H4). replace (k - m)%nat with (S (k - S m)) by lia.
      split_and!; [lia|lia|done|intros; apply H3; lia|]. intros [|j] Hj; [done|]. apply H4. lia.
    + rewrite Nat.sub_diag. split_and!; [lia|lia|done|done|lia].
Qed.

(** The display line has a meaning exactly as long as the farm's hash rate, divided by 1000 up
    to three times, gets down to at most 1000: the rate is then printed in the first unit in which
    it does, and the rate of each miner in the same unit; a larger rate makes the line read past
    the table of units. *)
Theorem telemetry_unit (now : Z) (t : TelemetryType) :
  let hr := hashrate (farm t) in
  (forall m, (m < 4)%nat -> f_gt (scaled_rate m hr) f32_1000 = false ->
     (forall j, (j < m)%nat -> f_gt (scaled_rate j hr) f32_1000 = true) ->
     exists unit_, suffixes !! m = Some unit_ /\
       TelemetryType_str now t = Ok (line_head now t +:+ EthTealBold +:+ fixed_str 2 (scaled_rate m hr) +:+ " " +:+ unit_ +:+ EthReset
         +:+ " - " +:+ miners_text m 0 (Z.of_nat (length (miners_ t)) - 1) (miners_ t))) /\
  ((forall m, (m < 4)%nat -> f_gt (scaled_rate m hr) f32_1000 = true) <->
   TelemetryType_str now t = Throw (UndefinedBehaviour "suffixes[magnitude]")) /\
  f_gt (scaled_rate 3 (f32_of_Z (10 ^ 13))) f32_1000 = true.
Proof.
  intros hr. unfold TelemetryType_str. fold hr. pose proof (magnitude_loop_spec 4 hr 0 ltac:(done)) as H.
  destruct (magnitude_loop 4 hr 0) as [q k]. destruct H as (Hk & -> & Hlast & Hbefore). rewrite !Nat.sub_0_r in *.
  split_and!; [| |vm_compute; reflexivity].
  - intros m Hm Hle Hgt. assert (k = m) as ->.
    { destruct (Nat.lt_trichotomy k m) as [Hlt|[E|Hlt]]; [|done|].
      - specialize (Hgt k Hlt). rewrite Hlast in Hgt by lia. done.
      - specialize (Hbefore m Hlt). congruence. }
    destruct (lookup_lt_is_Some_2 suffixes m Hm) as [unit_ ->]. by exists unit_.
  - destruct (decide (k < 4)%nat) as [Hlt|Hge].
    + destruct (lookup_lt_is_Some_2 suffixes k Hlt) as [unit_ ->]. split; [|done].
      intros Hall. specialize (Hall k Hlt). rewrite Hlast in Hall by lia. done.
    + assert (k = 4%nat) as -> by lia. split; [done|]. intros _ m Hm. by apply Hbefore.
Qed.
