(* ===== verification/Log.v ===== *)
(** * libdevcore/Log, Terminal.h and Guards.h: what is printed, and under which lock

    The terminal colours of src/libdevcore/Terminal.h, the logging of src/libdevcore/Log.{h,cpp}
    (channels, the prefix of a line, thread names, [simpleDebugOut]), the guard loop of
    src/libdevcore/Guards.h and the messages of src/libdevcore/Exceptions.h.  The text of the time
    ([strftime] in the user's locale) is an argument; the Linux branch of the conditional code is
    modelled, on which [pthread_getname_np] is a function and so not [defined]. *)

From S2P Require Import Prelude CppString CommonData FixedHash Float Types Telemetry.

(** ** Terminal.h *)

Inductive hue :=
  | Black | Coal | Gray | White | Maroon | Red | Green | Lime | Orange | Yellow | Navy | Blue
  | Violet | Purple | Teal | Cyan.
#[export] Instance hue_eq_dec : EqDecision hue.
Proof. solve_decision. Defined.

Definition hue_code (h : hue) : Z :=
  match h with
  | Black => 30 | Coal => 90 | Gray => 37 | White => 97 | Maroon => 31 | Red => 91 | Green => 32
  | Lime => 92 | Orange => 33 | Yellow => 93 | Navy => 34 | Blue => 94 | Violet => 35 | Purple => 95
  | Teal => 36 | Cyan => 96
  end.

Definition regular (h : hue) : string := colour (dec_str (hue_code h)).
Definition bold (h : hue) : string := colour ("1;" +:+ dec_str (hue_code h)).
Definition background (h : hue) : string := colour (dec_str (hue_code h + 10)).
Definition underline (h : hue) : string := colour ("4;" +:+ dec_str (hue_code h)).

Example terminal_codes :
  regular Red = EthRed /\ regular Green = EthGreen /\ regular Teal = EthTeal /\
  bold White = EthWhiteBold /\ bold Teal = EthTealBold /\ background Cyan = colour "106".
Proof. by split_and!. Qed.

(** ** Channels *)

Inductive channel := LogChannel | WarnChannel | NoteChannel | MiningChannel | CPUChannel.

Definition name (c : channel) : string :=
  match c with
  | LogChannel => regular Gray +:+ ".."
  | WarnChannel => regular Red +:+ " X"
  | NoteChannel => regular Blue +:+ " i"
  | MiningChannel => regular Green +:+ " m"
  | CPUChannel => regular Orange +:+ "cp"
  end.

(** ** Thread names *)

(** The names the kernel knows and the thread-local [ThreadLocalLogName::name]. *)
Record thread_names := { kernel_name : nat -> string; log_name : nat -> option string }.

(** At the start the constructor of [g_logThreadName] has run in the main thread, thread 0. *)
Definition initial_names (comm : string) : thread_names :=
  {| kernel_name := fun _ => comm; log_name := fun t => if Nat.eqb t 0 then Some "main" else None |}.

(** [pthread_setname_np]: names of more than 15 characters are refused. *)
Definition setThreadName (_n : string) (t : nat) (s : thread_names) : thread_names :=
  if (String.length _n <=? 15)%nat
  then {| kernel_name := fun u => if Nat.eqb u t then _n else kernel_name s u; log_name := log_name s |}
  else s.

Definition getThreadName (t : nat) (s : thread_names) : string := default "<unknown>" (log_name s t).

(** ** Lines *)

Record log_settings := { g_logNoColor : bool; g_logSyslog : bool; g_logStdout : bool }.

(** [std::left << std::setw(8)] *)
Definition left8 (s : string) : string := s +:+ sfill (8 - String.length s) " ".

(** What the constructor [LogOutputStreamBase] writes. *)
Definition line_prefix (st : log_settings) (_id time thread : string) : string :=
  if g_logSyslog st then left8 thread +:+ " " +:+ EthReset
  else _id +:+ " " +:+ regular Violet +:+ time +:+ " " +:+ regular Blue +:+ left8 thread +:+ " " +:+ EthReset.

(** The loop of [simpleDebugOut] over the characters. *)
Fixpoint strip_loop (skip : bool) (_s : string) : string :=
  match _s with
  | EmptyString => EmptyString
  | String it s' =>
      if negb skip && Ascii.eqb it (chr 27) then strip_loop true s'
      else if skip && Ascii.eqb it "m" then strip_loop false s'
      else if negb skip then String it (strip_loop skip s')
      else strip_loop skip s'
  end.
Definition strip (s : string) : string := strip_loop false s.

Inductive ostream := Cout | Clog.

(** [simpleDebugOut]: the stream and what is written to it. *)
Definition simpleDebugOut (st : log_settings) (_s : string) : ostream * string :=
  (if g_logStdout st then Cout else Clog,
   (if g_logNoColor st then strip _s else _s) +:+ String (chr 10) "").

(** A log statement: [clog(channel) << items...], written when the stream object is destroyed. *)
Definition log_line (st : log_settings) (c : channel) (time : string) (t : nat) (names : thread_names)
    (items : list string) : ostream * string :=
  simpleDebugOut st (line_prefix st (name c) time (getThreadName t names) +:+ foldr String.append "" items).

(** ** Guards.h *)

(** [for (GenericGuardBool l(MUTEX); l.b; l.b = false) body]: the guard holds the mutex until the loop is
    left, by its condition or by a [return] or exception of the body. *)
Inductive guard_event := Lock | Unlock | Body.
Fixpoint guard_loop (fuel : nat) (b : bool) (leaves : bool) : option (list guard_event) :=
  match fuel with
  | O => None
  | S fuel' =>
      if b then if leaves then Some [Body; Unlock]
                else (fun l => Body :: l) <$> guard_loop fuel' false leaves
      else Some [Unlock]
  end.
Definition DEV_GUARDED (fuel : nat) (leaves : bool) : option (list guard_event) :=
  (fun l => Lock :: l) <$> guard_loop fuel true leaves.

(** ** Exceptions.h *)

(** [Exception::what]; [base] is the text of [std::exception::what]. *)
Definition Exception_what (base m_message : string) : string :=
  if String.eqb m_message "" then base else m_message.
Definition ExternalFunctionFailure (_f : string) : string := "Function " +:+ _f +:+ "() failed.".

(** * Proofs *)

(** Without an escape character, and without the end of an escape sequence. *)
Definition plain (s : string) : bool := sforall (fun c => negb (Ascii.eqb c (chr 27))) s.
Definition no_m (s : string) : bool := sforall (fun c => negb (Ascii.eqb c "m")) s.

Lemma strip_loop_plain b s : plain (strip_loop b s) = true.
Proof.
  unfold plain. revert b. induction s as [|c s IH]; intros b; [done|]. cbn [strip_loop].
  destruct b; cbn [negb andb]; [by destruct (Ascii.eqb c "m")|].
  destruct (Ascii.eqb c (chr 27)) eqn:E; [done|]. cbn [sforall]. by rewrite E, IH.
Qed.

Lemma strip_plain s t : plain s = true -> strip (s +:+ t) = s +:+ strip t.
Proof.
  unfold plain, strip. induction s as [|c s IH]; intros Hs; [done|]. cbn [sforall] in Hs. bool_to_prop.
  rewrite !string_app_cons. cbn [strip_loop negb andb]. rewrite H. f_equal. by apply IH.
Qed.

Lemma strip_skip s t : no_m s = true -> strip_loop true (s +:+ String "m" t) = strip t.
Proof.
  unfold no_m. induction s as [|c s IH]; intros Hs; [done|]. cbn [sforall] in Hs. bool_to_prop.
  rewrite string_app_cons. cbn [strip_loop negb andb]. rewrite H. by apply IH.
Qed.

Lemma strip_colour code t : no_m code = true -> strip (colour code +:+ t) = strip t.
Proof.
  intros Hc. unfold colour, strip. rewrite string_app_cons. cbn [strip_loop negb andb].
  change (Ascii.eqb (chr 27) (chr 27)) with true. cbn [andb]. rewrite !string_app_assoc.
  change ("[" +:+ (code +:+ ("m" +:+ t))) with (String "[" (code +:+ String "m" t)).
  cbn [strip_loop negb andb]. change (Ascii.eqb "[" "m") with false. cbn [andb negb]. by apply strip_skip.
Qed.

Lemma strip_regular h t : strip (regular h +:+ t) = strip t.
Proof. apply strip_colour. by destruct h. Qed.

Lemma strip_end s : plain s = true -> strip s = s.
Proof.
  intros Hs. pose proof (strip_plain s "" Hs) as H. change (strip "") with "" in H.
  by rewrite !string_app_nil_r in H.
Qed.

Lemma plain_app a b : plain (a +:+ b) = plain a && plain b.
Proof.
  unfold plain. induction a as [|c a IH]; [done|]. rewrite string_app_cons. cbn [sforall]. by rewrite IH, andb_assoc.
Qed.

(** Whatever is logged, without colours no escape character is printed; printing is idempotent, and a text
    in any of the colours is printed as it is. *)
Theorem strip_removes_colours (s t : string) (h : hue) :
  plain (strip s) = true /\ strip (strip s) = strip s /\
  (plain s = true -> strip (regular h +:+ s +:+ EthReset +:+ t) = s +:+ strip t /\
     strip (bold h +:+ s +:+ EthReset +:+ t) = s +:+ strip t /\
     strip (background h +:+ s +:+ EthReset +:+ t) = s +:+ strip t /\
     strip (underline h +:+ s +:+ EthReset +:+ t) = s +:+ strip t).
Proof.
  split_and!; [apply strip_loop_plain | apply strip_end, strip_loop_plain |].
  intros Hs. assert (Hr : strip (s +:+ EthReset +:+ t) = s +:+ strip t).
  { rewrite strip_plain by done. by rewrite (strip_colour "0"). }
  split_and!; (etrans; [apply strip_colour; by destruct h | exact Hr]).
Qed.

(** The mark of a channel. *)
Definition mark (c : channel) : string :=
  match c with
  | LogChannel => ".." | WarnChannel => " X" | NoteChannel => " i" | MiningChannel => " m" | CPUChannel => "cp"
  end.

(** A line of the log without colours is the mark of its channel, the time, the name of the thread and
    the message, and with SYSLOG the name and the message only; it ends with its only line feed when the
    parts have none.  Names given to threads do not show: after any calls of [setThreadName] the main
    thread is logged as main and every other thread as unknown, because the names are set in the kernel
    and read from a thread-local variable. *)
Theorem plain_log_line (st : log_settings) (c : channel) (time comm : string) (t : nat)
    (calls : list (string * nat)) (items : list string) :
  g_logNoColor st = true -> plain time = true -> plain (foldr String.append "" items) = true ->
  let names := foldl (fun s call => setThreadName (fst call) (snd call) s) (initial_names comm) calls in
  let thread := if Nat.eqb t 0 then "main" else "<unknown>" in
  getThreadName t names = thread /\
  log_line st c time t names items =
    (if g_logStdout st then Cout else Clog,
     ((if g_logSyslog st then "" else mark c +:+ " " +:+ time +:+ " ")
      +:+ left8 thread +:+ " " +:+ foldr String.append "" items) +:+ String (chr 10) "").
Proof.
  intros Hc Ht Hi names thread. set (msg := foldr String.append "" items) in *.
  assert (Hn : getThreadName t names = thread).
  { unfold names. assert (H : forall s, log_name s t = log_name (initial_names comm) t ->
      getThreadName t (foldl (fun s call => setThreadName (fst call) (snd call) s) s calls) = thread).
    { induction calls as [|[n u] l IH]; intros s Hs; cbn [foldl].
      - unfold getThreadName. rewrite Hs. unfold thread. cbn. by destruct (Nat.eqb t 0).
      - apply IH. unfold setThreadName. by destruct (_ <=? _)%nat. }
    by apply H. }
  split; [done|]. unfold log_line, simpleDebugOut. rewrite Hn, Hc. do 2 f_equal.
  assert (Hp : plain (left8 thread) = true) by (unfold thread; by destruct (Nat.eqb t 0)).
  fold msg. unfold line_prefix. destruct (g_logSyslog st).
  - rewrite !string_app_assoc. rewrite strip_plain by done. rewrite strip_plain by done.
    unfold EthReset. rewrite strip_colour by done. by rewrite strip_end.
  - rewrite !string_app_assoc.
    assert (Hm : forall r, strip (name c +:+ r) = mark c +:+ strip r).
    { intros r. destruct c; cbn [name mark]; rewrite string_app_assoc, strip_regular; by apply strip_plain. }
    rewrite Hm, strip_plain, strip_regular, strip_plain by done.
    rewrite strip_plain, strip_regular, strip_plain by done. rewrite strip_plain by done.
    unfold EthReset. rewrite strip_colour by done. by rewrite strip_end.
Qed.

(** The guarded statement runs once, under the lock, and the lock is released however it is left. *)
Theorem guarded_once (fuel : nat) (leaves : bool) : (2 <= fuel)%nat ->
  DEV_GUARDED fuel leaves = Some [Lock; Body; Unlock].
Proof. destruct fuel as [|[|fuel]]; [lia..|]. intros _. by destruct leaves. Qed.

(** An escape sequence that is not ended swallows the rest of the message, but not the line feed. *)
Example unterminated : simpleDebugOut {| g_logNoColor := true; g_logSyslog := false; g_logStdout := true |}
  ("a" +:+ String (chr 27) "[1;9 lost") = (Cout, "a" +:+ String (chr 10) "").
Proof. reflexivity. Qed.

Lemma plain_log_line_witness :
  log_line {| g_logNoColor := true; g_logSyslog := false; g_logStdout := false |} NoteChannel "12:00:00" 1
    (setThreadName "cp-0" 1 (initial_names "coreminer")) ["Job: "; "abc"] =
  (Clog, " i 12:00:00 <unknown> Job: abc" +:+ String (chr 10) "").
Proof.
  exact (proj2 (plain_log_line {| g_logNoColor := true; g_logSyslog := false; g_logStdout := false |} NoteChannel
    "12:00:00" "coreminer" 1 [("cp-0", 1%nat)] ["Job: "; "abc"] eq_refl eq_refl eq_refl)).
Defined.
