(* ===== verification/Miner.v ===== *)
(** * libethcore/Miner: one miner's work, pause flags, epoch turn and hash rate

    [Miner] of src/libethcore/Miner.{h,cpp}.  The pause reasons are a bit set; a paused miner
    must never hold work.  [kick_miner] is pure virtual in [Miner]; its only implementation,
    [CPUMiner::kick_miner], raises [m_new_work], which is a field here. *)

From S2P Require Import Prelude CppString CommonData FixedHash Float Types.

Inductive MinerPauseEnum :=
  | PauseDueToOverHeating | PauseDueToAPIRequest | PauseDueToFarmPaused
  | PauseDueToInsufficientMemory | PauseDueToInitEpochError.

Definition pause_index (p : MinerPauseEnum) : Z :=
  match p with
  | PauseDueToOverHeating => 0 | PauseDueToAPIRequest => 1 | PauseDueToFarmPaused => 2
  | PauseDueToInsufficientMemory => 3 | PauseDueToInitEpochError => 4
  end.
Definition Pause_MAX : Z := 5.

#[export] Instance MinerPauseEnum_eq_dec : EqDecision MinerPauseEnum.
Proof. solve_decision. Defined.

Record Miner := {
  m_index : Z;
  m_deviceDescriptor : DeviceDescriptor;
  m_epochContext : option EpochContext;
  m_pauseFlags : Z;
  m_work : WorkPackage;
  m_hashTime : Z;
  m_hashRate : spec_float;
  m_groupCount : Z;
  m_hashRateUpdate : bool;
  m_new_work : bool }.

Definition Miner_new (_index : Z) (_device : DeviceDescriptor) (now : Z) : Miner := {|
  m_index := _index; m_deviceDescriptor := _device; m_epochContext := None; m_pauseFlags := 0;
  m_work := WorkPackage_default; m_hashTime := now; m_hashRate := f_zero; m_groupCount := 0;
  m_hashRateUpdate := false; m_new_work := false |}.

Definition set_flags (f : Z) (m : Miner) : Miner := {| m_index := m_index m; m_deviceDescriptor := m_deviceDescriptor m; m_epochContext := m_epochContext m; m_pauseFlags := f; m_work := m_work m; m_hashTime := m_hashTime m; m_hashRate := m_hashRate m; m_groupCount := m_groupCount m; m_hashRateUpdate := m_hashRateUpdate m; m_new_work := m_new_work m |}.
Definition set_work_ (w : WorkPackage) (m : Miner) : Miner := {| m_index := m_index m; m_deviceDescriptor := m_deviceDescriptor m; m_epochContext := m_epochContext m; m_pauseFlags := m_pauseFlags m; m_work := w; m_hashTime := m_hashTime m; m_hashRate := m_hashRate m; m_groupCount := m_groupCount m; m_hashRateUpdate := m_hashRateUpdate m; m_new_work := m_new_work m |}.
Definition set_new_work (b : bool) (m : Miner) : Miner := {| m_index := m_index m; m_deviceDescriptor := m_deviceDescriptor m; m_epochContext := m_epochContext m; m_pauseFlags := m_pauseFlags m; m_work := m_work m; m_hashTime := m_hashTime m; m_hashRate := m_hashRate m; m_groupCount := m_groupCount m; m_hashRateUpdate := m_hashRateUpdate m; m_new_work := b |}.
Definition set_rate (t : Z) (r : spec_float) (g : Z) (u : bool) (m : Miner) : Miner := {| m_index := m_index m; m_deviceDescriptor := m_deviceDescriptor m; m_epochContext := m_epochContext m; m_pauseFlags := m_pauseFlags m; m_work := m_work m; m_hashTime := t; m_hashRate := r; m_groupCount := g; m_hashRateUpdate := u; m_new_work := m_new_work m |}.

(** ** Work and pause flags *)

Definition setEpoch (_ec : EpochContext) (m : Miner) : Miner := {| m_index := m_index m; m_deviceDescriptor := m_deviceDescriptor m; m_epochContext := Some _ec; m_pauseFlags := m_pauseFlags m; m_work := m_work m; m_hashTime := m_hashTime m; m_hashRate := m_hashRate m; m_groupCount := m_groupCount m; m_hashRateUpdate := m_hashRateUpdate m; m_new_work := m_new_work m |}.

Definition getDescriptor (m : Miner) : DeviceDescriptor := m_deviceDescriptor m.

(** [CPUMiner::kick_miner] *)
Definition kick_miner (m : Miner) : Miner := set_new_work true m.

Definition paused (m : Miner) : bool := negb (m_pauseFlags m =? 0).
Definition pauseTest (what : MinerPauseEnum) (m : Miner) : bool :=
  Z.testbit (m_pauseFlags m) (pause_index what).

Definition setWork (_work : WorkPackage) (m : Miner) : Miner :=
  kick_miner
    (if paused m then set_work_ (set_header (h_zero 32) (m_work m)) m else set_work_ _work m).

Definition pause (what : MinerPauseEnum) (m : Miner) : Miner :=
  let m := set_flags (Z.setbit (m_pauseFlags m) (pause_index what)) m in
  kick_miner (set_work_ (set_header (h_zero 32) (m_work m)) m).

Definition resume (fromwhat : MinerPauseEnum) (m : Miner) : Miner :=
  set_flags (Z.clearbit (m_pauseFlags m) (pause_index fromwhat)) m.

Definition pause_text (i : Z) : string :=
  if i =? pause_index PauseDueToOverHeating then "Overheating"
  else if i =? pause_index PauseDueToAPIRequest then "Api request"
  else if i =? pause_index PauseDueToFarmPaused then "Farm suspended"
  else if i =? pause_index PauseDueToInsufficientMemory then "Insufficient GPU memory"
  else if i =? pause_index PauseDueToInitEpochError then "Epoch initialization error"
  else "".

Definition pausedString (m : Miner) : string :=
  if paused m then
    fold_left (fun retVar i =>
      if Z.testbit (m_pauseFlags m) i
      then (if String.eqb retVar "" then "" else retVar +:+ "; ") +:+ pause_text i
      else retVar) [0; 1; 2; 3; 4] ""
  else "".

(** ** Sequential epoch initialisation

    [s_dagLoadMode], [s_dagLoadIndex], [s_minersCount] are shared by all the miners. *)

Record DagLoad := { s_dagLoadMode : Z; s_dagLoadIndex : Z; s_minersCount : Z }.
Definition DAG_LOAD_MODE_SEQUENTIAL : Z := 1.

Definition setDagLoadInfo (_mode _devicecount : Z) : DagLoad :=
  {| s_dagLoadMode := _mode; s_dagLoadIndex := 0; s_minersCount := _devicecount |}.

(** [initEpoch] of the miner with index [m_index]: [None] while it waits for its turn,
    otherwise its result and the shared turn.  [internal] is the virtual
    [initEpoch_internal()]. *)
Definition initEpoch (m_index : Z) (shouldStop internal : bool) (d : DagLoad) :
    option (bool * DagLoad) :=
  let seq := s_dagLoadMode d =? DAG_LOAD_MODE_SEQUENTIAL in
  if seq && (s_dagLoadIndex d <? m_index) then None
  else if seq && shouldStop then Some (false, d)
  else
    let result := internal in
    if seq then
      let next := u32 (m_index + 1) in
      Some (result, {| s_dagLoadMode := s_dagLoadMode d;
                       s_dagLoadIndex := if s_minersCount d =? next then 0 else next;
                       s_minersCount := s_minersCount d |})
    else Some (result, d).

(** ** Hash rate *)

Definition RetrieveHashRate (m : Miner) : spec_float := m_hashRate m.

Definition TriggerHashRateUpdate (m : Miner) : Miner :=
  if negb (m_hashRateUpdate m)
  then set_rate (m_hashTime m) (m_hashRate m) (m_groupCount m) true m
  else set_rate (m_hashTime m) f_zero (m_groupCount m) (m_hashRateUpdate m) m.

(** [updateHashRate(_groupSize, _increment)] at time [now] (nanoseconds). *)
Definition updateHashRate (_groupSize _increment now : Z) (m : Miner) : Miner :=
  let group := u64 (m_groupCount m + _increment) in
  if negb (m_hashRateUpdate m) then set_rate (m_hashTime m) (m_hashRate m) group false m
  else
    let us := Z.quot (now - m_hashTime m) 1000 in
    let rate := if us =? 0 then f_zero
                else f32_div (f32_mul (f32_of_Z (u64 (group * _groupSize))) (f32_of_Z 1000000))
                             (f32_of_Z us) in
    set_rate now rate 0 false m.

(** * Proofs *)

(** Every mutation of a miner, from any thread. *)
Inductive miner_op :=
  | OpSetWork (w : WorkPackage)
  | OpPause (what : MinerPauseEnum)
  | OpResume (what : MinerPauseEnum)
  | OpSetEpoch (ec : EpochContext)
  | OpTrigger
  | OpUpdate (groupSize increment now : Z)
  | OpKick
  | OpConsumeNewWork.

Definition apply_op (m : Miner) (o : miner_op) : Miner :=
  match o with
  | OpSetWork w => setWork w m
  | OpPause p => pause p m
  | OpResume p => resume p m
  | OpSetEpoch ec => setEpoch ec m
  | OpTrigger => TriggerHashRateUpdate m
  | OpUpdate g i n => updateHashRate g i n m
  | OpKick => kick_miner m
  | OpConsumeNewWork => set_new_work false m
  end.

(** A paused miner holds no work, and the flags are the five defined ones. *)
Definition miner_inv (m : Miner) : Prop :=
  (paused m = true -> wp_bool (m_work m) = false) /\ 0 <= m_pauseFlags m < 32.

Lemma wp_bool_zero w : wp_bool (set_header (h_zero 32) w) = false.
Proof. done. Qed.
#[export] Hint Rewrite wp_bool_zero : miner.

Lemma pause_index_range p : 0 <= pause_index p < 5.
Proof. destruct p; simpl; lia. Qed.

Lemma pause_index_inj p q : pause_index p = pause_index q -> p = q.
Proof. destruct p, q; simpl; congruence || lia. Qed.

Lemma flags_range f : (forall i, 5 <= i -> Z.testbit f i = false) -> 0 <= f -> 0 <= f < 32.
Proof.
  intros H H0. split; [done|]. destruct (Z.ltb_spec f 32); [done|].
  assert (5 <= Z.log2 f) by (apply Z.log2_le_pow2; lia).
  specialize (H (Z.log2 f) ltac:(done)). by rewrite Z.bit_log2 in H by lia.
Qed.

Lemma flags_high f i : 0 <= f < 32 -> 5 <= i -> Z.testbit f i = false.
Proof.
  intros Hf Hi. destruct (decide (f = 0)) as [->|]; [apply Z.bits_0|].
  apply Z.bits_above_log2; [lia|]. apply Z.lt_le_trans with 5; [|lia].
  apply Z.log2_lt_pow2; lia.
Qed.

Lemma setbit_flags f p : 0 <= f < 32 -> 0 <= Z.setbit f (pause_index p) < 32.
Proof.
  intros Hf. pose proof (pause_index_range p). apply flags_range.
  - intros i Hi. rewrite Z.setbit_neq by lia. by apply flags_high.
  - rewrite Z.setbit_spec'. apply Z.lor_nonneg. split; [lia|]. apply Z.pow_nonneg. lia.
Qed.

Lemma clearbit_flags f p : 0 <= f < 32 -> 0 <= Z.clearbit f (pause_index p) < 32.
Proof.
  intros Hf. pose proof (pause_index_range p). apply flags_range.
  - intros i Hi. rewrite Z.clearbit_neq by lia. by apply flags_high.
  - rewrite Z.clearbit_spec'. apply Z.ldiff_nonneg. lia.
Qed.

Lemma apply_op_inv m o : miner_inv m -> miner_inv (apply_op m o).
Proof.
  intros [H1 H2]. destruct o; simpl; try (split; [exact H1 | exact H2]).
  - unfold setWork. destruct (paused m) eqn:E; (split; [|exact H2]).
    + done.
    + intros Hp. change (paused m = true) in Hp. congruence.
  - split; [done|]. by apply setbit_flags.
  - split; [|by apply clearbit_flags]. intros Hp. apply H1.
    unfold paused, resume in *. cbn in Hp. apply negb_true_iff, Z.eqb_neq.
    apply negb_true_iff, Z.eqb_neq in Hp. intros E. apply Hp. rewrite E.
    rewrite Z.clearbit_spec'. apply Z.ldiff_0_l.
  - unfold TriggerHashRateUpdate. destruct (negb _); split; done.
  - unfold updateHashRate. destruct (negb _); split; done.
Qed.

(** In every state a miner reaches through any sequence of the calls that mutate it
    (new work, pauses and resumes for any reason, epoch, hash-rate updates), a paused miner
    holds no work package (its header is zero), so it cannot search. *)
Theorem paused_miner_has_no_work (index now : Z) (d : DeviceDescriptor) (ops : list miner_op) :
  let m := fold_left apply_op ops (Miner_new index d now) in
  miner_inv m /\ (paused m = true -> wp_bool (m_work m) = false).
Proof.
  assert (H : miner_inv (fold_left apply_op ops (Miner_new index d now))); [|split; [done|apply H]].
  assert (Hi : miner_inv (Miner_new index d now)) by (split; [done|simpl; lia]).
  revert Hi. generalize (Miner_new index d now). induction ops as [|o ops IH]; intros m Hm; [done|].
  simpl. by apply IH, apply_op_inv.
Qed.

Lemma pauseTest_setbit m p q :
  pauseTest q (pause p m) = (bool_decide (p = q) || pauseTest q m).
Proof.
  unfold pauseTest, pause, kick_miner. cbn. pose proof (pause_index_range p).
  pose proof (pause_index_range q). case_bool_decide as E; subst.
  - by rewrite Z.setbit_eq by lia.
  - rewrite Z.setbit_neq; [done|lia|]. intros Hx. by apply E, pause_index_inj.
Qed.

Lemma pauseTest_clearbit m p q :
  pauseTest q (resume p m) = (negb (bool_decide (p = q)) && pauseTest q m).
Proof.
  unfold pauseTest, resume. cbn. pose proof (pause_index_range p). case_bool_decide as E; subst.
  - by rewrite Z.clearbit_eq.
  - rewrite Z.clearbit_neq; [done|]. intros Hx. by apply E, pause_index_inj.
Qed.

(** Pause reasons are independent: pausing sets exactly the given reason, resuming clears
    exactly that one, a miner is paused exactly when some reason is set, and the work handed
    to a miner is kept only when none is. *)
Theorem pause_reasons_independent (m : Miner) (p q : MinerPauseEnum) (w : WorkPackage) :
  miner_inv m ->
  pauseTest q (pause p m) = (bool_decide (p = q) || pauseTest q m) /\
  pauseTest q (resume p m) = (negb (bool_decide (p = q)) && pauseTest q m) /\
  (paused m = true <-> exists r, pauseTest r m = true) /\
  m_work (setWork w m) = (if paused m then set_header (h_zero 32) (m_work m) else w) /\
  m_new_work (setWork w m) = true.
Proof.
  intros [_ Hf]. split_and!; [apply pauseTest_setbit | apply pauseTest_clearbit | | |].
  - unfold paused, pauseTest. split.
    + intros H. apply negb_true_iff, Z.eqb_neq in H.
      assert (Hc : forall f, 0 <= f < 32 -> f <> 0 ->
        existsb (fun r => Z.testbit f (pause_index r)) [PauseDueToOverHeating; PauseDueToAPIRequest;
          PauseDueToFarmPaused; PauseDueToInsufficientMemory; PauseDueToInitEpochError] = true).
      { by apply (z_range_check (fun f => f <> 0 -> existsb _ _ = true) 32). }
      apply Hc, existsb_exists in H as (r & _ & Hr); eauto.
    + intros [r Hr]. apply negb_true_iff, Z.eqb_neq. intros E. rewrite E in Hr.
      by rewrite Z.bits_0 in Hr.
  - unfold setWork. by destruct (paused m).
  - unfold setWork. by destruct (paused m).
Qed.

(** A miner paused through the API, for the examples. *)
Definition example_device : DeviceDescriptor := {| dd_type := DT_Cpu; subscriptionType := DS_Cpu;
  uniqueId := "cpu-0"; totalMemory := 0; dd_name := ""; cpCpuNumer := 0 |}.
Definition example_miner : Miner := pause PauseDueToAPIRequest (Miner_new 0 example_device 0).

Lemma pause_reasons_independent_witness :
  (paused example_miner = true <-> exists r, pauseTest r example_miner = true) /\
  pauseTest PauseDueToAPIRequest (resume PauseDueToFarmPaused example_miner) = true.
Proof.
  assert (Hm : miner_inv example_miner) by (split; [done | by_evaluation]).
  destruct (pause_reasons_independent example_miner PauseDueToFarmPaused PauseDueToAPIRequest
              WorkPackage_default Hm) as (_ & -> & H & _). split; [exact H | reflexivity].
Defined.

Example pausedString_two : pausedString (pause PauseDueToFarmPaused example_miner) =
  "Api request; Farm suspended".
Proof. reflexivity. Qed.

(** ** Turn taking of the sequential epoch load *)

(** Miners [k .. k + n - 1] load one after the other; [None] if one of them had to wait. *)
Fixpoint load_in_order (n : nat) (k : Z) (d : DagLoad) : option DagLoad :=
  match n with
  | O => Some d
  | S n' => match initEpoch k false true d with
            | Some (_, d') => load_in_order n' (k + 1) d'
            | None => None
            end
  end.

Definition dag_at (mode k n : Z) : DagLoad :=
  {| s_dagLoadMode := mode; s_dagLoadIndex := k; s_minersCount := n |}.

Lemma initEpoch_turn k n : 0 <= k < n -> n < 2 ^ 32 ->
  initEpoch k false true (dag_at DAG_LOAD_MODE_SEQUENTIAL k n) =
    Some (true, dag_at DAG_LOAD_MODE_SEQUENTIAL (if n =? k + 1 then 0 else k + 1) n).
Proof.
  intros Hk Hn. unfold initEpoch, dag_at. simpl. rewrite Z.ltb_irrefl. simpl.
  assert (u32 (k + 1) = k + 1) as -> by (apply wrap_id; unfold in_range; lia). done.
Qed.

Lemma load_in_order_spec n c : Z.of_nat n = c -> forall k, 0 <= k -> k + c < 2 ^ 32 -> 0 < c ->
  load_in_order n k (dag_at DAG_LOAD_MODE_SEQUENTIAL k (k + c)) =
    Some (dag_at DAG_LOAD_MODE_SEQUENTIAL 0 (k + c)).
Proof.
  revert c. induction n as [|n IH]; intros c Hc k Hk Hb Hp; [lia|]. cbn [load_in_order].
  rewrite initEpoch_turn by lia. destruct (Z.eqb_spec (k + c) (k + 1)).
  - assert (n = 0%nat) as -> by lia. done.
  - specialize (IH (c - 1) ltac:(lia) (k + 1) ltac:(lia)).
    replace (k + 1 + (c - 1)) with (k + c) in IH by lia. by apply IH; lia.
Qed.

(** Sequential epoch loading takes turns: starting from [setDagLoadInfo], miners
    0, 1, ..., n-1 load in that order without waiting and the turn is back at 0 at the end;
    when it is miner [k]'s turn every miner with a larger index waits, and being asked to stop
    does not end that wait. *)
Theorem sequential_epoch_turns (n : nat) (k j : Z) (stop internal : bool) :
  0 < Z.of_nat n < 2 ^ 32 -> 0 <= k < j ->
  load_in_order n 0 (setDagLoadInfo DAG_LOAD_MODE_SEQUENTIAL (Z.of_nat n)) =
    Some (setDagLoadInfo DAG_LOAD_MODE_SEQUENTIAL (Z.of_nat n)) /\
  initEpoch j stop internal (dag_at DAG_LOAD_MODE_SEQUENTIAL k (Z.of_nat n)) = None.
Proof.
  intros Hn Hkj. split.
  - pose proof (load_in_order_spec n (Z.of_nat n) eq_refl 0) as H.
    rewrite Z.add_0_l in H. apply H; lia.
  - unfold initEpoch, dag_at. simpl. by rewrite (proj2 (Z.ltb_lt k j)) by lia.
Qed.

Lemma sequential_epoch_turns_witness :
  load_in_order 4 0 (setDagLoadInfo DAG_LOAD_MODE_SEQUENTIAL (Z.of_nat 4)) =
    Some (setDagLoadInfo DAG_LOAD_MODE_SEQUENTIAL (Z.of_nat 4)) /\
  initEpoch 3 true true (dag_at DAG_LOAD_MODE_SEQUENTIAL 1 (Z.of_nat 4)) = None.
Proof. apply sequential_epoch_turns; lia. Defined.
