(* ===== verification/CpuMiner.v ===== *)
(** * libethash-cpu/CPUMiner: the nonce search and the work loop

    [CPUMiner] of src/libethash-cpu/CPUMiner.cpp with the helpers of endian.hpp.  RandomY
    ([randomx_calculate_hash]) is a library: the virtual machine is a parameter, a function
    from the seed bytes to the 32 bytes of the hash. *)

From S2P Require Import Prelude CppString CommonData FixedHash Float Types.
From S2P Require Import Worker Miner PicoSha3.

(** ** endian.hpp on a little-endian host *)

(** The [n] bytes of a number in memory, least significant first. *)
Fixpoint le_bytes (n : nat) (z : Z) : bytes :=
  match n with O => [] | S n' => Z.land z 255 :: le_bytes n' (Z.shiftr z 8) end.

Definition le_uint64 (x : Z) : Z := x.
Definition bswap64 (x : Z) : Z := le_value (toBigEndian 8 x).
Definition be_uint64 (x : Z) : Z := bswap64 x.

(** ** Boundary test *)

Fixpoint is_less_or_equal_loop (n i : nat) (a b : hash) : bool :=
  match n with
  | O => true
  | S n' =>
      if be_uint64 (word64 b i) <? be_uint64 (word64 a i) then false
      else if be_uint64 (word64 a i) <? be_uint64 (word64 b i) then true
      else is_less_or_equal_loop n' (S i) a b
  end.
Definition is_less_or_equal (a b : hash) : bool := is_less_or_equal_loop 4 0 a b.

Definition hex_chars : string := "0123456789abcdef".
Definition to_hex (h : hash) : string :=
  fold_left (fun str b => str
    +:+ String (sget hex_chars (Z.to_nat (Z.shiftr b 4))) ""
    +:+ String (sget hex_chars (Z.to_nat (Z.land b 15))) "") h "".

(** ** search *)

Definition blocksize : Z := 30.

(** The nonces of one block: [for (n = nonce; n < end_nonce; ++n)] with
    [end_nonce = nonce + blocksize] in [uint64_t]. *)
Definition block_nonces (nonce : Z) : list Z :=
  let end_nonce := u64 (nonce + blocksize) in seqZ nonce (end_nonce - nonce).

(** What other threads do and the clock shows around one turn of the loop. *)
Record turn := { kicked : bool; asked_to_stop : bool; at_time : Z }.

Record search_state := { s_miner : Miner; s_nonce : Z; s_found : list Solution; s_running : bool }.

Section Search.
Context (randomx_calculate_hash : bytes -> hash).

Definition pow_hash (w : WorkPackage) (n : Z) : hash :=
  let twisted := le_uint64 n in
  let input := header w ++ le_bytes 8 twisted in
  let seed := sha3 512 input in
  randomx_calculate_hash seed.

(** The body of the inner loop: the solution handed to [Farm::submitProof], if any. *)
Definition try_nonce (w : WorkPackage) (m_index now n : Z) : option Solution :=
  let final_hash := pow_hash w n in
  if is_less_or_equal final_hash (boundary w)
  then Some {| nonce := n; mixHash := final_hash; work := w; tstamp := now; midx := m_index |}
  else None.

Definition search_block (w : WorkPackage) (m_index now nonce : Z) : list Solution :=
  omap (try_nonce w m_index now) (block_nonces nonce).

(** The outer loop over the turns that happen; it is still running if they run out. *)
Fixpoint search_loop (w : WorkPackage) (env : list turn) (s : search_state) : search_state :=
  match env with
  | [] => s
  | t :: env' =>
      let m := if kicked t then kick_miner (s_miner s) else s_miner s in
      if m_new_work m then
        {| s_miner := set_new_work false m; s_nonce := s_nonce s; s_found := s_found s; s_running := false |}
      else if asked_to_stop t then
        {| s_miner := m; s_nonce := s_nonce s; s_found := s_found s; s_running := false |}
      else
        search_loop w env' {|
          s_miner := updateHashRate blocksize 1 (at_time t) m;
          s_nonce := u64 (s_nonce s + blocksize);
          s_found := s_found s ++ search_block w (m_index m) (at_time t) (s_nonce s);
          s_running := true |}
  end.

(** [search(w)]; without a virtual machine the loop is not entered. *)
Definition search (has_vm : bool) (w : WorkPackage) (env : list turn) (m : Miner) : search_state :=
  let s := {| s_miner := m; s_nonce := startNonce w; s_found := []; s_running := has_vm |} in
  if has_vm then search_loop w env s else s.

End Search.

(** ** workLoop: one turn of the loop of the worker thread *)

Inductive work_step :=
  | ExitLoop                                  (* shouldStop(), or initEpoch() failed *)
  | WaitForWork                               (* no work: wait for the signal or 3 seconds *)
  | InitEpochAndContinue (current : WorkPackage)
  | Search (current : WorkPackage)
  | ThrowAlgo (what : string).

Definition workLoop_turn (shouldStop : bool) (initEpoch_ok : bool) (current w : WorkPackage) : work_step :=
  if shouldStop then ExitLoop
  else if negb (wp_bool w) then WaitForWork
  else if String.eqb (algo w) "ethash" then
    if negb (epoch current =? epoch w) then
      if negb initEpoch_ok then ExitLoop else InitEpochAndContinue w
    else Search w
  else ThrowAlgo ("Algo : " +:+ algo w +:+ " not yet implemented").

(** ** Dataset initialisation: the item ranges given to the threads *)

(** [k] turns of the loop remain; turn [i] of [n]. *)
Fixpoint dataset_ranges (k : nat) (i n perThread remainder startItem : Z) : list (Z * Z) :=
  match k with
  | O => []
  | S k' =>
      let count := u32 (perThread + (if i =? n - 1 then remainder else 0)) in
      (startItem, count) :: dataset_ranges k' (i + 1) n perThread remainder (u32 (startItem + count))
  end.

(** [getRandomYDataset]: [initThreadCount] threads, or a single call for at most one. *)
Definition dataset_split (initThreadCount datasetItemCount : Z) : list (Z * Z) :=
  if 1 <? initThreadCount then
    dataset_ranges (Z.to_nat initThreadCount) 0 initThreadCount
      (datasetItemCount / initThreadCount) (datasetItemCount mod initThreadCount) 0
  else [(0, datasetItemCount)].

(** ** Device enumeration

    [std::map<string, DeviceDescriptor>] is a list of pairs sorted by key. *)

Abbreviation devices := (list (string * DeviceDescriptor)).

(** [DeviceDescriptor()]; the members without an initialiser are left at zero here. *)
Definition DeviceDescriptor_default : DeviceDescriptor := {|
  dd_type := DT_Unknown; subscriptionType := DS_None; uniqueId := ""; totalMemory := 0;
  dd_name := ""; cpCpuNumer := 0 |}.

(** [enumDevices]: [memory i] is what [getTotalPhysAvailableMemory()] returns at turn [i],
    [boost_name] the text built from [BOOST_VERSION]. *)
Definition enum_device (memory : nat -> Z) (boost_name : string) (_DevicesCollection : devices) (i : nat)
    : devices :=
  let uniqueId_ := "cpu-" +:+ dec_str (Z.of_nat i) in
  let deviceDescriptor := default DeviceDescriptor_default (map_find uniqueId_ _DevicesCollection) in
  map_set uniqueId_ {|
    dd_type := DT_Cpu;
    subscriptionType := subscriptionType deviceDescriptor;
    uniqueId := uniqueId_;
    totalMemory := memory i;
    dd_name := boost_name;
    cpCpuNumer := Z.of_nat i |} _DevicesCollection.

Definition enumDevices (memory : nat -> Z) (boost_name : string) (_miningThreads : nat)
    (_DevicesCollection : devices) : devices :=
  fold_left (enum_device memory boost_name) (List.seq 0 _miningThreads) _DevicesCollection.

(** * Proofs *)

(** ** The boundary test is the comparison of the big-endian numbers *)

Lemma be_value_rev l : be_value (rev l) = le_value l.
Proof.
  induction l as [|b l IH]; [done|]. simpl rev. rewrite be_value_app, IH. simpl length.
  change (256 ^ Z.of_nat 1) with 256. unfold be_value. cbn [fold_left le_value]. lia.
Qed.

Lemma bswap64_word l : bytes_ok l -> length l = 8%nat -> bswap64 (le_value l) = be_value l.
Proof.
  intros Hl Hn. unfold bswap64. rewrite <- be_value_rev.
  rewrite <- (rev_involutive (toBigEndian 8 _)). rewrite <- be_value_rev, rev_involutive.
  f_equal. rewrite <- (rev_involutive l) at 2. f_equal. apply be_value_inj; auto with miner.
  - by apply Forall_rev.
  - by rewrite toBigEndian_length, length_rev.
  - rewrite be_value_toBigEndian. apply wrap_id. pose proof (be_value_range (rev l)) as H.
    rewrite length_rev, Hn in H. unfold in_range. apply H. by apply Forall_rev.
Qed.

Lemma word_be h i : hash_ok 32 h -> (i < 4)%nat ->
  be_uint64 (word64 h i) = be_value (take 8 (drop (8 * i) h)).
Proof.
  intros [Hl Hh] Hi. apply bswap64_word; [by apply take_drop_ok|].
  rewrite length_take, length_drop. lia.
Qed.

Lemma be_value_skip (h : hash) k : (k <= length h)%nat ->
  be_value (drop k h) = be_value (take 8 (drop k h)) * 256 ^ Z.of_nat (length (drop (8 + k) h))
    + be_value (drop (8 + k) h).
Proof.
  intros Hk. rewrite <- (take_drop 8 (drop k h)) at 1. by rewrite be_value_app, drop_drop, (Nat.add_comm k).
Qed.

Lemma lex_lt x y r t P : 0 <= r < P -> 0 <= t < P -> x < y -> x * P + r < y * P + t.
Proof. intros. assert ((x + 1) * P <= y * P) by (apply Z.mul_le_mono_nonneg_r; lia). lia. Qed.

Lemma is_less_or_equal_from n i a b : (i + n = 4)%nat -> hash_ok 32 a -> hash_ok 32 b ->
  is_less_or_equal_loop n i a b = (be_value (drop (8 * i) a) <=? be_value (drop (8 * i) b)).
Proof.
  intros Hi Ha Hb. revert i Hi. induction n as [|n IH]; intros i Hi.
  - pose proof Ha as [Hla _]; pose proof Hb as [Hlb _]. cbn [is_less_or_equal_loop].
    rewrite !drop_ge by lia. done.
  - cbn [is_less_or_equal_loop]. rewrite !word_be by (done || lia). pose proof Ha as [Hla Hba];
      pose proof Hb as [Hlb Hbb]. rewrite IH by lia.
    rewrite (be_value_skip a (8 * i)), (be_value_skip b (8 * i)) by lia.
    replace (8 + 8 * i)%nat with (8 * S i)%nat by lia.
    pose proof (be_value_range (drop (8 * S i) a)) as Ra.
    pose proof (be_value_range (drop (8 * S i) b)) as Rb.
    rewrite !length_drop, Hla in *. rewrite Hlb in *.
    specialize (Ra ltac:(by apply Forall_drop)). specialize (Rb ltac:(by apply Forall_drop)).
    destruct (Z.ltb_spec (be_value (take 8 (drop (8 * i) b))) (be_value (take 8 (drop (8 * i) a)))).
    { symmetry. apply Z.leb_gt. by apply lex_lt. }
    destruct (Z.ltb_spec (be_value (take 8 (drop (8 * i) a))) (be_value (take 8 (drop (8 * i) b)))).
    { symmetry. apply Z.leb_le, Z.lt_le_incl. by apply lex_lt. }
    assert (be_value (take 8 (drop (8 * i) a)) = be_value (take 8 (drop (8 * i) b))) as -> by lia.
    apply eq_true_iff_eq. rewrite !Z.leb_le. lia.
Qed.

Lemma is_less_or_equal_value a b : hash_ok 32 a -> hash_ok 32 b ->
  is_less_or_equal a b = (be_value a <=? be_value b).
Proof. intros. apply (is_less_or_equal_from 4 0 a b); done. Qed.

(** [CPUMiner]'s word-wise boundary test is the numeric comparison of the two 256-bit
    big-endian values, and agrees with [FixedHash]'s own [<=] used by the farm and the
    simulation client to check solutions. *)
Theorem is_less_or_equal_numeric (a b : hash) :
  hash_ok 32 a -> hash_ok 32 b ->
  is_less_or_equal a b = (to_arith 32 a <=? to_arith 32 b) /\ is_less_or_equal a b = hash_le a b.
Proof.
  intros Ha Hb. rewrite !to_arith_value, is_less_or_equal_value by done. split; [done|].
  unfold hash_le, hash_eq. rewrite (hash_lt_value a b) by (apply Ha || apply Hb || destruct Ha, Hb; congruence).
  destruct Ha as [Hla Ha], Hb as [Hlb Hb]. apply eq_true_iff_eq.
  rewrite orb_true_iff, bool_decide_eq_true, Z.ltb_lt, Z.leb_le. split.
  - intros H. destruct (Z.eq_dec (be_value a) (be_value b)); [left; apply be_value_inj; congruence | lia].
  - intros [->|]; lia.
Qed.

Lemma is_less_or_equal_numeric_witness :
  is_less_or_equal (h_zero 32) (replicate 32 1) =
    (to_arith 32 (h_zero 32) <=? to_arith 32 (replicate 32 1)) /\
  is_less_or_equal (h_zero 32) (replicate 32 1) = hash_le (h_zero 32) (replicate 32 1).
Proof. apply is_less_or_equal_numeric; by_evaluation. Defined.

(** ** The search covers its nonces once each, and reports exactly the solutions *)

Lemma block_nonces_full nonce : 0 <= nonce -> nonce + blocksize < 2 ^ 64 ->
  block_nonces nonce = seqZ nonce blocksize.
Proof.
  intros H1 H2. unfold block_nonces. rewrite wrap_id by (split; unfold blocksize in *; lia).
  f_equal. lia.
Qed.

(** The block that would cross 2^64 is skipped whole. *)
Lemma block_nonces_wrap nonce : 0 <= nonce < 2 ^ 64 -> 2 ^ 64 <= nonce + blocksize ->
  block_nonces nonce = [].
Proof.
  intros H1 H2. unfold block_nonces, blocksize in *.
  assert (u64 (nonce + 30) = nonce + 30 - 2 ^ 64) as ->.
  { unfold wrap. symmetry. apply Z.mod_unique with 1; lia. }
  apply seqZ_nil. lia.
Qed.

Section SearchProofs.
Context (randomx : bytes -> hash).

(** A turn in which nobody interrupts the search. *)
Definition quiet (t : turn) : Prop := kicked t = false /\ asked_to_stop t = false.

Lemma updateHashRate_keeps m g i n :
  m_index (updateHashRate g i n m) = m_index m /\ m_new_work (updateHashRate g i n m) = m_new_work m.
Proof. unfold updateHashRate. by destruct (negb _). Qed.

Lemma search_loop_quiet w env : Forall quiet env -> forall s,
  m_new_work (s_miner s) = false -> s_running s = true ->
  0 <= s_nonce s -> s_nonce s + blocksize * Z.of_nat (length env) < 2 ^ 64 ->
  let s' := search_loop randomx w env s in
  s_running s' = true /\ s_nonce s' = s_nonce s + blocksize * Z.of_nat (length env) /\
  (fun x => (nonce x, mixHash x, work x, midx x)) <$> s_found s' =
    ((fun x => (nonce x, mixHash x, work x, midx x)) <$> s_found s) ++
    ((fun n => (n, pow_hash randomx w n, w, m_index (s_miner s))) <$>
      filter (fun n => is_less_or_equal (pow_hash randomx w n) (boundary w) = true)
        (seqZ (s_nonce s) (blocksize * Z.of_nat (length env)))).
Proof.
  induction 1 as [|t env [Hk Ha] _ IH]; intros s Hnw Hrun H0 Hn.
  - cbn [search_loop length]. rewrite Z.mul_0_r, seqZ_nil, app_nil_r by lia.
    split_and!; [done|lia|done].
  - cbn [search_loop]. rewrite Hk, Hnw, Ha. cbn [length] in *. unfold blocksize in *.
    destruct (updateHashRate_keeps (s_miner s) 30 1 (at_time t)) as [Hi Hw].
    rewrite Nat2Z.inj_succ, Z.mul_succ_r in Hn.
    assert (Hu : u64 (s_nonce s + 30) = s_nonce s + 30) by (apply wrap_id; split; lia).
    destruct (IH {| s_miner := updateHashRate 30 1 (at_time t) (s_miner s);
      s_nonce := u64 (s_nonce s + 30);
      s_found := s_found s ++ search_block randomx w (m_index (s_miner s)) (at_time t) (s_nonce s);
      s_running := true |}) as (IH1 & IH2 & IH3); cbn [s_miner s_nonce s_running s_found];
      rewrite ?Hw, ?Hu; auto; try lia.
    cbn [s_miner s_nonce s_running s_found] in *. rewrite Hu, Hi in *.
    split_and!; [done|rewrite IH2; lia|]. rewrite IH3, fmap_app, <- app_assoc. f_equal.
    replace (30 * Z.of_nat (S (length env))) with (30 + 30 * Z.of_nat (length env)) by lia.
    rewrite seqZ_app, filter_app, fmap_app by lia. f_equal.
    unfold search_block. rewrite block_nonces_full by (unfold blocksize; lia).
    unfold blocksize. generalize (seqZ (s_nonce s) 30). clear. intros l. induction l as [|n l IH]; [reflexivity|].
    cbn [omap list_omap]. unfold try_nonce at 1. rewrite filter_cons.
    destruct (is_less_or_equal (pow_hash randomx w n) (boundary w)) eqn:E.
    + rewrite decide_True by done. cbn. f_equal. exact IH.
    + rewrite decide_False by done. exact IH.
Qed.
End SearchProofs.

(** C7: The nonce search is exact: over [k] uninterrupted turns that stay below 2^64, the
    solutions submitted are, in increasing nonce order and once each, the nonces of
    [startNonce, startNonce + 30 k) whose RandomY hash is numerically at most the boundary,
    each with that hash, the work package and the miner's own index. *)
Theorem search_is_exact (randomx : bytes -> hash) (w : WorkPackage) (env : list turn) (m : Miner) :
  Forall quiet env -> m_new_work m = false -> hash_ok 32 (boundary w) ->
  (forall s, hash_ok 32 (randomx s)) ->
  0 <= startNonce w -> startNonce w + 30 * Z.of_nat (length env) < 2 ^ 64 ->
  (fun x => (nonce x, mixHash x, work x, midx x)) <$> s_found (search randomx true w env m) =
  (fun n => (n, pow_hash randomx w n, w, m_index m)) <$>
    filter (fun n => to_arith 32 (pow_hash randomx w n) <= to_arith 32 (boundary w))
      (seqZ (startNonce w) (30 * Z.of_nat (length env))).
Proof.
  intros Henv Hnw Hb Hrx H0 Hn. unfold search.
  destruct (search_loop_quiet randomx w env Henv {| s_miner := m; s_nonce := startNonce w;
    s_found := []; s_running := true |}) as (_ & _ & H); auto.
  cbn [s_found s_miner s_nonce fmap list_fmap app] in H. rewrite H. f_equal.
  apply list_filter_iff. intros n. rewrite is_less_or_equal_value, !to_arith_value by (done || apply Hrx).
  apply Z.leb_le.
Qed.

Lemma search_is_exact_witness :
  (fun x => (nonce x, mixHash x, work x, midx x)) <$>
    s_found (search (fun _ => h_zero 32) true (set_startNonce 5 WorkPackage_default)
      [{| kicked := false; asked_to_stop := false; at_time := 0 |}] (Miner_new 3 example_device 0)) =
  (fun n => (n, pow_hash (fun _ => h_zero 32) (set_startNonce 5 WorkPackage_default) n,
             set_startNonce 5 WorkPackage_default, 3)) <$>
    filter (fun n => to_arith 32 (pow_hash (fun _ => h_zero 32) (set_startNonce 5 WorkPackage_default) n)
                     <= to_arith 32 (boundary (set_startNonce 5 WorkPackage_default)))
      (seqZ 5 (30 * Z.of_nat 1)).
Proof.
  apply (search_is_exact (fun _ => h_zero 32) (set_startNonce 5 WorkPackage_default)
    [{| kicked := false; asked_to_stop := false; at_time := 0 |}] (Miner_new 3 example_device 0)).
  - by repeat constructor.
  - reflexivity.
  - by_evaluation.
  - intros _. by_evaluation.
  - simpl. lia.
  - simpl. lia.
Defined.

(** Interruption and wrap-around of the search: new work stops the loop before another
    nonce is tried and consumes the flag, a stop request stops it too, and the block whose end
    would pass 2^64 is skipped without trying any of its nonces before the count restarts
    near 0. *)
Theorem search_interruptions (randomx : bytes -> hash) (w : WorkPackage) (t : turn)
    (env : list turn) (s : search_state) :
  (m_new_work (s_miner s) || kicked t = true ->
     s_found (search_loop randomx w (t :: env) s) = s_found s /\
     s_running (search_loop randomx w (t :: env) s) = false /\
     m_new_work (s_miner (search_loop randomx w (t :: env) s)) = false) /\
  (m_new_work (s_miner s) || kicked t = false -> asked_to_stop t = true ->
     s_found (search_loop randomx w (t :: env) s) = s_found s /\
     s_running (search_loop randomx w (t :: env) s) = false) /\
  (quiet t -> m_new_work (s_miner s) = false ->
     0 <= s_nonce s < 2 ^ 64 -> 2 ^ 64 <= s_nonce s + 30 ->
     s_found (search_loop randomx w [t] s) = s_found s /\
     s_nonce (search_loop randomx w [t] s) = s_nonce s + 30 - 2 ^ 64).
Proof.
  split_and!.
  - intros H. cbn [search_loop]. destruct (kicked t); [done|].
    rewrite orb_false_r in H. by rewrite H.
  - intros H Ha. apply orb_false_iff in H as [H1 H2]. cbn [search_loop]. by rewrite H2, H1, Ha.
  - intros [Hk Ha] Hnw H1 H2. cbn [search_loop]. rewrite Hk, Hnw, Ha. cbn [s_found s_nonce].
    unfold search_block. rewrite block_nonces_wrap by done. simpl. rewrite app_nil_r.
    split; [done|]. unfold blocksize, wrap. symmetry. apply Z.mod_unique with 1; lia.
Qed.

Lemma search_interruptions_witness :
  s_nonce (search_loop (fun _ => h_zero 32) WorkPackage_default
    [{| kicked := false; asked_to_stop := false; at_time := 0 |}]
    {| s_miner := Miner_new 0 example_device 0; s_nonce := 2 ^ 64 - 1; s_found := []; s_running := true |})
  = 2 ^ 64 - 1 + 30 - 2 ^ 64.
Proof.
  apply (search_interruptions (fun _ => h_zero 32) WorkPackage_default
    {| kicked := false; asked_to_stop := false; at_time := 0 |} []
    {| s_miner := Miner_new 0 example_device 0; s_nonce := 2 ^ 64 - 1; s_found := []; s_running := true |}).
  - by split.
  - reflexivity.
  - simpl. lia.
  - simpl. lia.
Defined.

(** ** Dataset partition *)

Definition range_items (r : Z * Z) : list Z := seqZ (fst r) (snd r).

Lemma dataset_ranges_cover k : forall i n p r start, 0 <= p -> 0 <= r -> 0 <= start ->
  i + Z.of_nat k = n -> (0 < k)%nat -> start + p * Z.of_nat k + r < 2 ^ 32 ->
  concat (range_items <$> dataset_ranges k i n p r start) = seqZ start (p * Z.of_nat k + r).
Proof.
  induction k as [|k IH]; intros i n p r start Hp Hr Hs Hi Hk Hb; [lia|].
  cbn [dataset_ranges fmap list_fmap concat]. fold (range_items <$> dataset_ranges k (i + 1) n p r
    (u32 (start + u32 (p + (if i =? n - 1 then r else 0))))).
  destruct (Z.eqb_spec i (n - 1)) as [He|Hne].
  - assert (k = 0%nat) as -> by lia. simpl. rewrite app_nil_r. unfold range_items. simpl.
    rewrite wrap_id by (split; lia). f_equal. lia.
  - rewrite Z.add_0_r, (wrap_id 32 p), (wrap_id 32 (start + p)) by (split; nia).
    rewrite IH by nia. unfold range_items. simpl fst. simpl snd.
    rewrite <- seqZ_app by nia. f_equal. lia.
Qed.

(** The dataset items are partitioned among the initialisation threads: the ranges passed
    to [randomx_init_dataset], taken in order, list every item index below the item count
    exactly once, for any positive thread count. *)
Theorem dataset_partition (threads items : Z) :
  0 < threads -> 0 <= items < 2 ^ 32 ->
  concat (range_items <$> dataset_split threads items) = seqZ 0 items.
Proof.
  intros Ht Hi. unfold dataset_split. destruct (Z.ltb_spec 1 threads).
  - pose proof (Z.div_mod items threads ltac:(lia)). pose proof (Z.mod_pos_bound items threads Ht).
    rewrite dataset_ranges_cover; rewrite ?Z2Nat.id by lia; try lia; [f_equal; lia|].
    apply Z.div_pos; lia.
  - simpl. rewrite app_nil_r. done.
Qed.

Lemma dataset_partition_witness :
  concat (range_items <$> dataset_split 3 10) = seqZ 0 10.
Proof. apply dataset_partition; lia. Defined.
