(* ===== verification/CpuDevice.v ===== *)
(** * libethash-cpu/CPUMiner: the dataset, the virtual machines, the processor

    [getRandomYDataset], [releaseRandomYDataset], the constructor and the destructor of [CPUMiner]
    and the functions that ask the system of src/libethash-cpu/CPUMiner.cpp, for Linux.  RandomY is a
    library: its calls are recorded in order, its answers (a handle, or none when an allocation
    fails) are arguments.  The dataset is a static variable shared by all miners. *)

From S2P Require Import Prelude CppString CommonData FixedHash Float Types Worker Miner CpuMiner.

(** ** The system *)

(** [getTotalPhysAvailableMemory]; [sysconf] answers -1 on failure. *)
Definition getTotalPhysAvailableMemory (pages page_size : Z) : Z :=
  if pages =? -1 then 0 else if page_size =? -1 then 0 else u64 (u64 pages * u64 page_size).

Definition getNumDevices (cpus_available : Z) : Z := if cpus_available =? -1 then 0 else u32 cpus_available.

(** [initDevice]: it goes on even when the thread could not be bound to its processor; the result
    is the text it logs. *)
Definition initDevice (bound : bool) (_index : Z) (d : DeviceDescriptor) : res (string * bool) :=
  let! memory := getFormattedMemory (f64_of_Z (totalMemory d)) WithSuffix 2 in
  Ok ("Using CPU: " +:+ dec_str (cpCpuNumer d) +:+ " Memory : " +:+ memory
      +:+ (if bound then "" else "cp-" +:+ dec_str _index +:+ "could not bind thread to cpu" +:+ dec_str (cpCpuNumer d)),
      true).

(** ** RandomY *)

Inductive call :=
  | AllocCache (flags : Z) (cache : option Z)
  | InitCache (cache : Z) (key : bytes)
  | AllocDataset (flags : Z) (dataset : option Z)
  | InitDataset (dataset cache startItem itemCount : Z)
  | ReleaseCache (cache : Z)
  | ReleaseDataset (dataset : Z)
  | CreateVm (flags dataset : Z) (vm : option Z)
  | DestroyVm (vm : Z)
  | LogFlag (text : string).

(** What the library and the system answer. *)
Record answers := {
  new_cache : option Z;
  new_dataset : option Z;
  new_vm : option Z;
  item_count : Z;
  hardware_concurrency : Z }.

(** The static variable, and the calls so far. *)
Record RandomY := { dataset : option Z; calls : list call }.
Definition RandomY_init : RandomY := {| dataset := None; calls := [] |}.
Definition add_calls (l : list call) (s : RandomY) : RandomY := {| dataset := dataset s; calls := calls s ++ l |}.

Section flags.
Context (RANDOMX_FLAG_LARGE_PAGES RANDOMX_FLAG_HARD_AES RANDOMX_FLAG_FULL_MEM RANDOMX_FLAG_JIT : Z).

Definition showRandomYFlags (flags : Z) : list call :=
  let show (flag : Z) (text : string) := if Z.land flags flag =? 0 then [] else [LogFlag text] in
  show RANDOMX_FLAG_LARGE_PAGES "RandomY large pages mode is enabled"
  ++ show RANDOMX_FLAG_HARD_AES "RandomY hard aes mode is enabled"
  ++ show RANDOMX_FLAG_FULL_MEM "RandomY full mem mode is enabled"
  ++ show RANDOMX_FLAG_JIT "RandomY JIT mode is enabled".

Definition coreKey : bytes := [53; 54; 55; 56; 57].

Definition getRandomYDataset (flags : Z) (w : answers) (s : RandomY) : option Z * RandomY :=
  match dataset s with
  | Some d => (Some d, s)
  | None =>
      let s := add_calls (showRandomYFlags flags) s in
      let s := add_calls [AllocCache flags (new_cache w)] s in
      match new_cache w with
      | None => (None, s)
      | Some cache =>
          let s := add_calls [InitCache cache coreKey; AllocDataset flags (new_dataset w)] s in
          match new_dataset w with
          | None => (None, s)
          | Some d =>
              let s := add_calls ((fun r => InitDataset d cache (fst r) (snd r)) <$>
                                  dataset_split (hardware_concurrency w) (item_count w)) s in
              let s := add_calls [ReleaseCache cache] s in
              (Some d, {| dataset := Some d; calls := calls s |})
          end
      end
  end.

(** The static variable keeps the released handle. *)
Definition releaseRandomYDataset (flags : Z) (w : answers) (s : RandomY) : RandomY :=
  match getRandomYDataset flags w s with
  | (Some d, s) => add_calls [ReleaseDataset d] s
  | (None, s) => s
  end.

(** ** The miner *)

Record CPUMiner := { base : Miner; m_vm : option Z }.

Definition CPUMiner_new (_index : Z) (flags : Z) (_device : DeviceDescriptor) (now : Z) (w : answers) (s : RandomY)
    : CPUMiner * RandomY :=
  let '(d, s) := getRandomYDataset flags w s in
  match d with
  | Some d => ({| base := Miner_new _index _device now; m_vm := new_vm w |}, add_calls [CreateVm flags d (new_vm w)] s)
  | None => ({| base := Miner_new _index _device now; m_vm := None |}, s)
  end.

(** The destructor, after its [stopWorking]. *)
Definition CPUMiner_delete (m : CPUMiner) (s : RandomY) : CPUMiner * RandomY :=
  let m := {| base := kick_miner (base m); m_vm := m_vm m |} in
  match m_vm m with
  | Some vm => (m, add_calls [DestroyVm vm] s)
  | None => (m, s)
  end.

(** [search(w)] of this miner. *)
Definition CPUMiner_search (randomx_calculate_hash : bytes -> hash) (w : WorkPackage) (env : list turn) (m : CPUMiner)
    : search_state :=
  search randomx_calculate_hash (bool_decide (m_vm m <> None)) w env (base m).

(** ** What the farm does with them *)

Inductive use :=
  | UGet (w : answers)                                  (* the farm's constructor *)
  | UMiner (_index : Z) (d : DeviceDescriptor) (w : answers)  (* a miner is made *)
  | UDelete (m : CPUMiner).                             (* a miner is destroyed *)

Definition use_step (flags now : Z) (u : use) (s : RandomY) : RandomY :=
  match u with
  | UGet w => snd (getRandomYDataset flags w s)
  | UMiner i d w => snd (CPUMiner_new i flags d now w s)
  | UDelete m => snd (CPUMiner_delete m s)
  end.
Definition use_all (flags now : Z) (l : list use) (s : RandomY) : RandomY :=
  fold_left (fun s u => use_step flags now u s) l s.

(** * Proofs *)

Definition initialised (d : Z) (l : list call) : list (Z * Z) :=
  omap (fun c => match c with InitDataset d' _ first n => if d' =? d then Some (first, n) else None | _ => None end) l.
Definition datasets (l : list call) : list Z :=
  omap (fun c => match c with AllocDataset _ d => d | _ => None end) l.
Definition is_release (c : call) : bool := match c with ReleaseDataset _ => true | _ => false end.

(** The machines made so far all work on the dataset [d]. *)
Definition machines_on (d : Z) (l : list call) : Prop :=
  Forall (fun c => match c with CreateVm _ d' _ => d' = d | _ => True end) l.
Definition no_machine (l : list call) : Prop :=
  Forall (fun c => match c with CreateVm _ _ _ | InitDataset _ _ _ _ | ReleaseDataset _ => False | _ => True end) l.

(** The number of items is the library's; a processor has at least one thread or an unknown number. *)
Definition answers_ok (n : Z) (w : answers) : Prop := item_count w = n /\ 0 <= hardware_concurrency w.

Definition ready (n : Z) (s : RandomY) : Prop :=
  match dataset s with
  | None => no_machine (calls s) /\ datasets (calls s) = []
  | Some d =>
      concat (range_items <$> initialised d (calls s)) = seqZ 0 n /\ datasets (calls s) = [d] /\
      machines_on d (calls s) /\ Forall (fun c => is_release c = false) (calls s)
  end.

Lemma initialised_app d a b : initialised d (a ++ b) = initialised d a ++ initialised d b.
Proof. apply omap_app. Qed.
Lemma datasets_app a b : datasets (a ++ b) = datasets a ++ datasets b.
Proof. apply omap_app. Qed.

Lemma show_quiet flags : no_machine (showRandomYFlags flags) /\ datasets (showRandomYFlags flags) = [].
Proof.
  unfold showRandomYFlags. repeat (destruct (_ =? 0)); split; cbn; by repeat constructor.
Qed.
Lemma no_machine_app a b : no_machine a -> no_machine b -> no_machine (a ++ b).
Proof. intros Ha Hb. by apply Forall_app. Qed.
Lemma no_machine_initialised d l : no_machine l -> initialised d l = [].
Proof. induction 1 as [|c l Hc Hl IH]; [done|]. cbn. by destruct c. Qed.
Lemma no_machine_quiet d l : no_machine l -> machines_on d l /\ Forall (fun c => is_release c = false) l.
Proof. intros Hl. split; (eapply Forall_impl; [exact Hl|]); intros []; done. Qed.

(** The split covers the items however many threads there are. *)
Lemma split_covers threads n : 0 <= n < 2 ^ 32 -> 0 <= threads ->
  concat (range_items <$> dataset_split threads n) = seqZ 0 n.
Proof.
  intros Hn Ht. destruct (decide (threads = 0)) as [->|].
  - cbn. by rewrite app_nil_r.
  - unfold dataset_split. destruct (Z.ltb_spec 1 threads); [|cbn; by rewrite app_nil_r].
    pose proof (Z.div_mod n threads ltac:(lia)). pose proof (Z.mod_pos_bound n threads ltac:(lia)).
    rewrite dataset_ranges_cover; rewrite ?Z2Nat.id by lia; try lia; [f_equal; lia|].
    apply Z.div_pos; lia.
Qed.

Lemma initialised_fmap d cache l :
  initialised d ((fun r : Z * Z => InitDataset d cache (fst r) (snd r)) <$> l) = l.
Proof. induction l as [|[x y] l IH]; [done|]. cbn. rewrite Z.eqb_refl. cbn. f_equal. apply IH. Qed.
Lemma datasets_fmap d cache l :
  datasets ((fun r : Z * Z => InitDataset d cache (fst r) (snd r)) <$> l) = [].
Proof. by induction l. Qed.
Lemma quiet_fmap d d' cache l :
  machines_on d ((fun r : Z * Z => InitDataset d' cache (fst r) (snd r)) <$> l) /\
  Forall (fun c => is_release c = false) ((fun r : Z * Z => InitDataset d' cache (fst r) (snd r)) <$> l).
Proof. split; apply Forall_fmap; by apply Forall_true. Qed.

Lemma get_ready n flags w s : 0 <= n < 2 ^ 32 -> answers_ok n w -> ready n s ->
  ready n (snd (getRandomYDataset flags w s)) /\
  fst (getRandomYDataset flags w s) = dataset (snd (getRandomYDataset flags w s)).
Proof.
  intros Hn [<- Ht] Hs. unfold getRandomYDataset. destruct (dataset s) as [d|] eqn:Ed; [cbn; by rewrite Ed|].
  unfold ready in Hs. rewrite Ed in Hs. destruct Hs as [Hs Hd]. destruct (show_quiet flags) as [Hq Hqd].
  assert (H1 : no_machine (calls s ++ showRandomYFlags flags)) by by apply no_machine_app.
  assert (H2 : no_machine ((calls s ++ showRandomYFlags flags) ++ [AllocCache flags (new_cache w)]))
    by (apply no_machine_app; [done|by repeat constructor]).
  destruct (new_cache w) as [cache|] eqn:Ec.
  2: { cbn [fst snd]. split; [|done]. unfold ready. cbn [dataset calls add_calls]. rewrite Ed. split; [done|]. by rewrite !datasets_app, Hd, Hqd. }
  assert (H3 : no_machine (((calls s ++ showRandomYFlags flags) ++ [AllocCache flags (Some cache)]) ++
    [InitCache cache coreKey; AllocDataset flags (new_dataset w)])) by (apply no_machine_app; [done|by repeat constructor]).
  destruct (new_dataset w) as [d|] eqn:En.
  2: { cbn [fst snd]. split; [|done]. unfold ready. cbn [dataset calls add_calls]. rewrite Ed. split; [done|]. by rewrite !datasets_app, Hd, Hqd. }
  cbn [snd fst]. split; [|done]. unfold ready. cbn [dataset calls add_calls].
  destruct (no_machine_quiet d _ H3) as [Hm Hr], (quiet_fmap d d cache (dataset_split (hardware_concurrency w) (item_count w))) as [Hm' Hr'].
  rewrite initialised_app, initialised_app, (no_machine_initialised d _ H3), initialised_fmap.
  rewrite datasets_app, datasets_app, datasets_fmap. split_and!.
  - cbn. rewrite app_nil_r. by apply split_covers.
  - rewrite !datasets_app, Hd, Hqd. done.
  - apply Forall_app. split; [by apply Forall_app|]. by repeat constructor.
  - apply Forall_app. split; [by apply Forall_app|]. by repeat constructor.
Qed.

Lemma use_ready n flags now u s : 0 <= n < 2 ^ 32 ->
  match u with UGet w | UMiner _ _ w => answers_ok n w | UDelete _ => True end ->
  ready n s -> ready n (use_step flags now u s).
Proof.
  intros Hn Hu Hs. destruct u as [w|i d w|m]; cbn [use_step].
  - by apply get_ready.
  - unfold CPUMiner_new. destruct (get_ready n flags w s Hn Hu Hs) as [H1 H2].
    destruct (getRandomYDataset flags w s) as [[x|] s1]; cbn [fst snd] in *; [|done].
    unfold ready in *. cbn [dataset calls add_calls]. rewrite <- H2 in *. destruct H1 as (H3 & H4 & H5 & H6).
    rewrite initialised_app, datasets_app. cbn. rewrite !app_nil_r.
    split_and!; [done|done|..]; apply Forall_app; (split; [done|by repeat constructor]).
  - unfold CPUMiner_delete. cbn [m_vm]. destruct (m_vm m) as [vm|]; [|done]. unfold ready in *. cbn [snd dataset calls add_calls].
    destruct (dataset s) as [x|].
    + destruct Hs as (H3 & H4 & H5 & H6). rewrite initialised_app, datasets_app. cbn. rewrite !app_nil_r.
      split_and!; [done|done|..]; apply Forall_app; (split; [done|by repeat constructor]).
    + destruct Hs as [H3 H4]. rewrite datasets_app, H4. split; [|done]. by apply no_machine_app; [|repeat constructor].
Qed.

(** C33: The dataset is made once and used by every miner: whatever allocations fail, and however
    often the farm asks for the dataset, makes miners and destroys them, at most one dataset is
    allocated; its items are initialised exactly once, by disjoint ranges; and every virtual machine
    works on it.  Releasing it leaves the handle in place: a miner made afterwards works on a
    dataset that has been released. *)
Theorem dataset_made_once (n flags now : Z) (l : list use) :
  0 <= n < 2 ^ 32 ->
  Forall (fun u => match u with UGet w | UMiner _ _ w => answers_ok n w | UDelete _ => True end) l ->
  let s := use_all flags now l RandomY_init in
  match dataset s with
  | None => no_machine (calls s) /\ datasets (calls s) = []
  | Some d =>
      datasets (calls s) = [d] /\ concat (range_items <$> initialised d (calls s)) = seqZ 0 n /\
      machines_on d (calls s) /\ Forall (fun c => is_release c = false) (calls s) /\
      forall w i dev, exists m before,
        CPUMiner_new i flags dev now w (releaseRandomYDataset flags w s) =
          (m, {| dataset := Some d; calls := before ++ [ReleaseDataset d; CreateVm flags d (new_vm w)] |})
  end.
Proof.
  intros Hn Hl s. assert (Hs : ready n s).
  { subst s. unfold use_all. assert (H0 : ready n RandomY_init) by (split; [constructor|done]).
    revert H0. generalize RandomY_init. induction Hl as [|u l Hu Hl IH]; intros s0 H0; [done|]. cbn [fold_left].
    apply IH. by apply use_ready. }
  clearbody s. unfold ready in Hs. destruct (dataset s) as [d|] eqn:Ed; [|done].
  destruct Hs as (H1 & H2 & H3 & H4). split_and!; [done..|]. intros w i dev.
  eexists _, (calls s). unfold releaseRandomYDataset, getRandomYDataset. rewrite Ed.
  unfold CPUMiner_new, getRandomYDataset. cbn. rewrite Ed. unfold add_calls. cbn. by rewrite Ed, <- app_assoc.
Qed.

(** Without a virtual machine - its allocation failed - the search returns at once, and the work
    loop, which finds work, starts it again: the miner spins. *)
Theorem miner_without_vm (randomx : bytes -> hash) (w : WorkPackage) (env : list turn) (m : CPUMiner) :
  m_vm m = None -> wp_bool w = true -> algo w = "ethash" ->
  let s := CPUMiner_search randomx w env m in
  s_found s = [] /\ s_miner s = base m /\ workLoop_turn false true w w = Search w.
Proof.
  intros Hm Hw Ha s. subst s. unfold CPUMiner_search. rewrite Hm, bool_decide_eq_false_2 by auto.
  split_and!; [done|done|]. unfold workLoop_turn. by rewrite Hw, Ha, Z.eqb_refl.
Qed.
End flags.

(** ** Witnesses *)

Definition example_answers : answers := {|
  new_cache := Some 1; new_dataset := Some 2; new_vm := Some 3; item_count := 10; hardware_concurrency := 3 |}.
Definition failing_answers : answers := {|
  new_cache := Some 1; new_dataset := None; new_vm := None; item_count := 10; hardware_concurrency := 3 |}.

Example dataset_calls :
  calls (snd (getRandomYDataset 1 2 4 8 12 example_answers RandomY_init)) =
  [LogFlag "RandomY full mem mode is enabled"; LogFlag "RandomY JIT mode is enabled";
   AllocCache 12 (Some 1); InitCache 1 coreKey; AllocDataset 12 (Some 2);
   InitDataset 2 1 0 3; InitDataset 2 1 3 3; InitDataset 2 1 6 4; ReleaseCache 1].
Proof. vm_compute. reflexivity. Qed.

Lemma dataset_made_once_witness :
  let s := use_all 1 2 4 8 12 0 [UGet failing_answers; UGet example_answers; UMiner 0 DeviceDescriptor_default example_answers]
             RandomY_init in
  dataset s = Some 2 /\ concat (range_items <$> initialised 2 (calls s)) = seqZ 0 10.
Proof.
  pose proof (dataset_made_once 1 2 4 8 10 12 0
    [UGet failing_answers; UGet example_answers; UMiner 0 DeviceDescriptor_default example_answers]) as H.
  assert (E : dataset (use_all 1 2 4 8 12 0 [UGet failing_answers; UGet example_answers;
    UMiner 0 DeviceDescriptor_default example_answers] RandomY_init) = Some 2) by (vm_compute; reflexivity).
  cbn zeta in H |- *. rewrite E in H. split; [exact E|].
  destruct H as (_ & H & _); [done|repeat constructor; done|exact H].
Defined.
