(* ===== verification/Platform.v ===== *)
(** * libethash-cpu: the other hosts

    CpuMiner and CpuDevice model a little-endian Linux host.  Here are the alternatives the
    preprocessor selects: the byte orders of src/libethash-cpu/endian.hpp, and the functions of
    src/libethash-cpu/CPUMiner.cpp that ask the operating system, for Linux, macOS and Windows.  The
    search is shown to be the same on a host of either byte order. *)

From S2P Require Import Prelude CppString CommonData FixedHash Float Types.
From S2P Require Import Worker Miner PicoSha3 CpuMiner CpuDevice.

(** ** endian.hpp *)

Inductive byte_order := LittleEndian | BigEndian.

Definition bswap32 (x : Z) : Z := le_value (toBigEndian 4 x).

Section endian.
Context (o : byte_order).         (* __BYTE_ORDER *)

(** How the host reads a number from memory, and writes one of [n] bytes. *)
Definition native_value (l : bytes) : Z :=
  match o with LittleEndian => le_value l | BigEndian => be_value l end.
Definition native_bytes (n : nat) (x : Z) : bytes :=
  match o with LittleEndian => le_bytes n x | BigEndian => toBigEndian n x end.

(** [le::uint32], [le::uint64], [be::uint64]. *)
Definition host_le_uint32 (x : Z) : Z := match o with LittleEndian => x | BigEndian => bswap32 x end.
Definition host_le_uint64 (x : Z) : Z := match o with LittleEndian => x | BigEndian => bswap64 x end.
Definition host_be_uint64 (x : Z) : Z := match o with LittleEndian => bswap64 x | BigEndian => x end.

(** [le::uint32s], on the words of a hash of any size. *)
Definition host_le_uint32s (h : list Z) : list Z :=
  match o with LittleEndian => h | BigEndian => host_le_uint32 <$> h end.

(** [hash256::word64s\[i\]] *)
Definition host_word64 (h : hash) (i : nat) : Z := native_value (take 8 (drop (8 * i) h)).

(** The search of CpuMiner, with the words of this host. *)
Fixpoint host_is_less_or_equal_loop (n i : nat) (a b : hash) : bool :=
  match n with
  | O => true
  | S n' =>
      if host_be_uint64 (host_word64 b i) <? host_be_uint64 (host_word64 a i) then false
      else if host_be_uint64 (host_word64 a i) <? host_be_uint64 (host_word64 b i) then true
      else host_is_less_or_equal_loop n' (S i) a b
  end.
Definition host_is_less_or_equal (a b : hash) : bool := host_is_less_or_equal_loop 4 0 a b.

Section search.
Context (randomx_calculate_hash : bytes -> hash).

Definition host_pow_hash (w : WorkPackage) (n : Z) : hash :=
  let twisted := host_le_uint64 n in
  let input := header w ++ native_bytes 8 twisted in
  let seed := sha3 512 input in
  randomx_calculate_hash seed.

Definition host_try_nonce (w : WorkPackage) (m_index now n : Z) : option Solution :=
  let final_hash := host_pow_hash w n in
  if host_is_less_or_equal final_hash (boundary w)
  then Some {| nonce := n; mixHash := final_hash; work := w; tstamp := now; midx := m_index |}
  else None.
End search.
End endian.

(** ** The operating systems *)

Inductive os := Linux | MacOS | Windows.

(** What the system answers: [sysconf] -1 on failure, the calls of Mach and of Windows nothing. *)
Record system := {
  sc_avphys_pages : Z; sc_pagesize : Z; sc_nprocessors_onln : Z;
  host_page_size : option Z; host_free_count : option Z; std_hardware_concurrency : Z;
  ullAvailPhys : option Z; dwNumberOfProcessors : Z;
  affinity_set : bool }.

Definition host_memory (k : os) (s : system) : Z :=
  match k with
  | MacOS =>
      match host_page_size s with
      | None => 0
      | Some page_size =>
          match host_free_count s with
          | None => 0
          | Some free_count => u64 (free_count * page_size)
          end
      end
  | Linux => getTotalPhysAvailableMemory (sc_avphys_pages s) (sc_pagesize s)
  | Windows => match ullAvailPhys s with None => 0 | Some n => n end
  end.

Definition host_devices (k : os) (s : system) : Z :=
  match k with
  | MacOS => if std_hardware_concurrency s <=? 0 then 0 else std_hardware_concurrency s
  | Linux => getNumDevices (sc_nprocessors_onln s)
  | Windows => dwNumberOfProcessors s
  end.

(** The mask given to [SetThreadAffinityMask]: [1i64 << cpu], defined below the sign bit. *)
Definition affinity_mask (cpu : Z) : res Z :=
  if (0 <=? cpu) && (cpu <? 63) then Ok (Z.shiftl 1 cpu) else Throw (UndefinedBehaviour "shift of 1i64").

(** [initDevice]: threads are not bound on macOS. *)
Definition host_initDevice (k : os) (s : system) (_index : Z) (d : DeviceDescriptor) : res (string * bool) :=
  match k with
  | MacOS => initDevice true _index d
  | Linux => initDevice (affinity_set s) _index d
  | Windows => let! _ := affinity_mask (cpCpuNumer d) in initDevice (affinity_set s) _index d
  end.

(** * Proofs *)

(** ** Byte orders *)

Lemma le_bytes_rev n z : le_bytes n z = rev (toBigEndian n z).
Proof.
  revert z. induction n as [|n IH]; intros z; [done|]. cbn [le_bytes toBigEndian].
  rewrite rev_app_distr, u8_land_255, IH. cbn [rev app]. f_equal. by apply (Z.land_ones z 8).
Qed.

(** Swapping a number is writing its bytes in the other order. *)
Lemma swapped_bytes n x : in_range (8 * Z.of_nat n) (le_value (toBigEndian n x)) ->
  toBigEndian n (le_value (toBigEndian n x)) = le_bytes n x.
Proof.
  intros Hr. rewrite le_bytes_rev. apply be_value_inj.
  - apply toBigEndian_ok.
  - apply Forall_rev, toBigEndian_ok.
  - by rewrite length_rev, !toBigEndian_length.
  - by rewrite be_value_toBigEndian, wrap_id, be_value_rev by done.
Qed.

Lemma le_value_range l : bytes_ok l -> 0 <= le_value l < 256 ^ Z.of_nat (length l).
Proof.
  intros Hl. rewrite <- be_value_rev, <- length_rev. by apply be_value_range, Forall_rev.
Qed.
Lemma swapped_range n x : in_range (8 * Z.of_nat n) (le_value (toBigEndian n x)).
Proof.
  pose proof (le_value_range _ (toBigEndian_ok n x)) as H. rewrite toBigEndian_length in H.
  unfold in_range. change 256 with (2 ^ 8) in H. by rewrite <- Z.pow_mul_r in H by lia.
Qed.

Section endian_theorems.
Context (o : byte_order).

(** The bytes of a nonce in the seed are the same on every host. *)
Lemma host_nonce_bytes n : native_bytes o 8 (host_le_uint64 o n) = le_bytes 8 n.
Proof. destruct o; [done|]. cbn [native_bytes host_le_uint64]. unfold bswap64. apply (swapped_bytes 8), swapped_range. Qed.

(** [le::uint32s] gives words whose bytes are those of the numbers, least significant first. *)
Lemma host_le_words h : native_bytes o 4 <$> host_le_uint32s o h = le_bytes 4 <$> h.
Proof.
  destruct o; [done|]. cbn [host_le_uint32s]. rewrite <- list_fmap_compose. apply list_fmap_ext.
  intros i x _. cbn. apply (swapped_bytes 4), swapped_range.
Qed.

Lemma host_word h i : hash_ok 32 h -> (i < 4)%nat ->
  host_be_uint64 o (host_word64 o h i) = be_uint64 (word64 h i).
Proof. intros Hh Hi. rewrite word_be by done. destruct o; [by apply word_be | done]. Qed.

Lemma host_comparison n i a b : (i + n = 4)%nat -> hash_ok 32 a -> hash_ok 32 b ->
  host_is_less_or_equal_loop o n i a b = is_less_or_equal_loop n i a b.
Proof.
  intros Hi Ha Hb. revert i Hi. induction n as [|n IH]; intros i Hi; [done|].
  cbn [host_is_less_or_equal_loop is_less_or_equal_loop]. by rewrite !host_word, IH by (done || lia).
Qed.

(** The search does not depend on the byte order of the host: of every nonce it makes the same seed,
    and it submits the same solution. *)
Theorem search_portable (randomx : bytes -> hash) (w : WorkPackage) (m_index now n : Z) :
  (forall seed, hash_ok 32 (randomx seed)) -> hash_ok 32 (boundary w) ->
  host_try_nonce o randomx w m_index now n = try_nonce randomx w m_index now n.
Proof.
  intros Hr Hb. unfold host_try_nonce, try_nonce, host_pow_hash, pow_hash, host_is_less_or_equal.
  cbv zeta. rewrite host_nonce_bytes. by rewrite host_comparison.
Qed.

End endian_theorems.

Lemma search_portable_witness :
  host_try_nonce BigEndian (fun _ => h_zero 32) (set_boundary (replicate 32 255) WorkPackage_default) 1 0 7 = try_nonce (fun _ => h_zero 32) (set_boundary (replicate 32 255) WorkPackage_default) 1 0 7.
Proof. apply (search_portable BigEndian (fun _ => h_zero 32) (set_boundary (replicate 32 255) WorkPackage_default) 1 0 7); [intros _|]; by_evaluation. Defined.

(** ** Systems *)

(** Whatever the system answers, the memory is a [size_t]; a failed call counts as none. *)
Lemma host_memory_range k s : (forall n, ullAvailPhys s = Some n -> in_range 64 n) -> in_range 64 (host_memory k s).
Proof.
  intros Hw. destruct k; cbn [host_memory].
  - unfold getTotalPhysAvailableMemory. repeat case_match; auto with miner lia; done.
  - repeat case_match; auto with miner lia; done.
  - case_match; [by apply Hw | done].
Qed.

(** The mask binds a thread to its processor and to no other. *)
Lemma affinity_mask_bit cpu m i : affinity_mask cpu = Ok m -> 0 <= i -> Z.testbit m i = (i =? cpu).
Proof.
  unfold affinity_mask. intros E Hi. case_match; [|done]. injection E as <-. bool_to_prop.
  rewrite Z.shiftl_1_l, Z.pow2_bits_eqb by lia. apply Z.eqb_sym.
Qed.
