(* ===== verification/Farm.v ===== *)
(** * libethcore/Farm: the collection of miners

    [Farm] of src/libethcore/Farm.{h,cpp}: distribution of work over disjoint nonce segments,
    start/stop/pause of the miners, solution accounting and verification, hash-rate collection.
    A farm miner is a [Miner] with its [Worker] thread.  The ethash library and the random
    device are parameters. *)

From S2P Require Import Prelude CppString CommonData FixedHash Worker Float.
From S2P Require Import Types Miner CpuMiner.

Record FarmSettings := { dagLoadMode : Z; noEval : bool; ergodicity : Z }.

Record FarmMiner := { fm : Miner.Miner; thr : worker }.

Record Farm := {
  m_Settings : FarmSettings;
  m_DevicesCollection : devices;
  f_paused : bool;
  m_isMining : bool;
  m_miners : list FarmMiner;
  m_currentWp : WorkPackage;
  m_currentEc : option EpochContext;
  m_telemetry : TelemetryType;
  m_nonce_scrambler : Z;
  m_nonce_segment_with : Z;
  dag : DagLoad }.

(** Assignments to the members. *)
Definition with_paused (b : bool) (f : Farm) : Farm := {| m_Settings := m_Settings f; m_DevicesCollection := m_DevicesCollection f; f_paused := b; m_isMining := m_isMining f; m_miners := m_miners f; m_currentWp := m_currentWp f; m_currentEc := m_currentEc f; m_telemetry := m_telemetry f; m_nonce_scrambler := m_nonce_scrambler f; m_nonce_segment_with := m_nonce_segment_with f; dag := dag f |}.
Definition with_mining (b : bool) (f : Farm) : Farm := {| m_Settings := m_Settings f; m_DevicesCollection := m_DevicesCollection f; f_paused := f_paused f; m_isMining := b; m_miners := m_miners f; m_currentWp := m_currentWp f; m_currentEc := m_currentEc f; m_telemetry := m_telemetry f; m_nonce_scrambler := m_nonce_scrambler f; m_nonce_segment_with := m_nonce_segment_with f; dag := dag f |}.
Definition with_miners (l : list FarmMiner) (f : Farm) : Farm := {| m_Settings := m_Settings f; m_DevicesCollection := m_DevicesCollection f; f_paused := f_paused f; m_isMining := m_isMining f; m_miners := l; m_currentWp := m_currentWp f; m_currentEc := m_currentEc f; m_telemetry := m_telemetry f; m_nonce_scrambler := m_nonce_scrambler f; m_nonce_segment_with := m_nonce_segment_with f; dag := dag f |}.
Definition with_work (w : WorkPackage) (f : Farm) : Farm := {| m_Settings := m_Settings f; m_DevicesCollection := m_DevicesCollection f; f_paused := f_paused f; m_isMining := m_isMining f; m_miners := m_miners f; m_currentWp := w; m_currentEc := m_currentEc f; m_telemetry := m_telemetry f; m_nonce_scrambler := m_nonce_scrambler f; m_nonce_segment_with := m_nonce_segment_with f; dag := dag f |}.
Definition with_ec (e : EpochContext) (f : Farm) : Farm := {| m_Settings := m_Settings f; m_DevicesCollection := m_DevicesCollection f; f_paused := f_paused f; m_isMining := m_isMining f; m_miners := m_miners f; m_currentWp := m_currentWp f; m_currentEc := Some e; m_telemetry := m_telemetry f; m_nonce_scrambler := m_nonce_scrambler f; m_nonce_segment_with := m_nonce_segment_with f; dag := dag f |}.
Definition with_telemetry (t : TelemetryType) (f : Farm) : Farm := {| m_Settings := m_Settings f; m_DevicesCollection := m_DevicesCollection f; f_paused := f_paused f; m_isMining := m_isMining f; m_miners := m_miners f; m_currentWp := m_currentWp f; m_currentEc := m_currentEc f; m_telemetry := t; m_nonce_scrambler := m_nonce_scrambler f; m_nonce_segment_with := m_nonce_segment_with f; dag := dag f |}.
Definition set_nonce_scrambler (n : Z) (f : Farm) : Farm := {| m_Settings := m_Settings f; m_DevicesCollection := m_DevicesCollection f; f_paused := f_paused f; m_isMining := m_isMining f; m_miners := m_miners f; m_currentWp := m_currentWp f; m_currentEc := m_currentEc f; m_telemetry := m_telemetry f; m_nonce_scrambler := n; m_nonce_segment_with := m_nonce_segment_with f; dag := dag f |}.
Definition with_segment (n : Z) (f : Farm) : Farm := {| m_Settings := m_Settings f; m_DevicesCollection := m_DevicesCollection f; f_paused := f_paused f; m_isMining := m_isMining f; m_miners := m_miners f; m_currentWp := m_currentWp f; m_currentEc := m_currentEc f; m_telemetry := m_telemetry f; m_nonce_scrambler := m_nonce_scrambler f; m_nonce_segment_with := n; dag := dag f |}.
Definition with_dag (d : DagLoad) (f : Farm) : Farm := {| m_Settings := m_Settings f; m_DevicesCollection := m_DevicesCollection f; f_paused := f_paused f; m_isMining := m_isMining f; m_miners := m_miners f; m_currentWp := m_currentWp f; m_currentEc := m_currentEc f; m_telemetry := m_telemetry f; m_nonce_scrambler := m_nonce_scrambler f; m_nonce_segment_with := m_nonce_segment_with f; dag := d |}.

Definition on_miner (g : Miner.Miner -> Miner.Miner) (x : FarmMiner) : FarmMiner :=
  {| fm := g (fm x); thr := thr x |}.
Definition on_thread (g : worker -> worker) (x : FarmMiner) : FarmMiner :=
  {| fm := fm x; thr := g (thr x) |}.

(** The part of the ethash library [setWork] and [EthashAux::eval] call. *)
Class Ethash := {
  light_cache_num_items : Z -> Z;
  full_dataset_num_items : Z -> Z;
  light_cache : Z -> list Z;
  get_light_cache_size : Z -> Z;
  get_full_dataset_size : Z -> Z;
  ethash_hash : Z -> hash -> Z -> Result }.

Section farm.
Context `{Ethash}.

(** The constructor: [now] stamps the telemetry, [rnd] is the random device's draw. *)
Definition Farm_new (_devices : devices) (_settings : FarmSettings) (now rnd : Z) : Farm := {|
  m_Settings := _settings; m_DevicesCollection := _devices; f_paused := false;
  m_isMining := false; m_miners := []; m_currentWp := WorkPackage_default; m_currentEc := None;
  m_telemetry := {| t_start := now; farm := TelemetryAccount_new now; miners_ := [] |};
  m_nonce_scrambler := u64 rnd; m_nonce_segment_with := 32;
  dag := {| s_dagLoadMode := 0; s_dagLoadIndex := 0; s_minersCount := 0 |} |}.

Definition shuffle (rnd : Z) (f : Farm) : Farm := set_nonce_scrambler (u64 rnd) f.

(** ** Work distribution *)

(** [(unsigned)log2(pow(2, k) / n)] of doubles: the quotient is inexact only far below a unit
    of the logarithm for fewer than 2^40 miners, so the truncation is the integer logarithm;
    a logarithm at or below -1 (or infinite) does not fit the target type. *)
Definition segment_width (k n : Z) : res Z :=
  if n =? 0 then Throw (UndefinedBehaviour "infinity to unsigned")
  else if n <=? 2 ^ k then Ok (Z.log2 (2 ^ k / n))
  else if n <? 2 ^ (k + 1) then Ok 0
  else Throw (UndefinedBehaviour "negative logarithm to unsigned").

(** [(uint64_t)i << w] *)
Definition shl64 (i w : Z) : res Z :=
  if w <? 64 then Ok (u64 (Z.shiftl i w)) else Throw (UndefinedBehaviour "shift width").

(** The loop over the miners: it leaves the last start nonce in [m_currentWp]. *)
Fixpoint assign_work (i : Z) (_startNonce width : Z) (wp : WorkPackage) (l : list FarmMiner) :
    res (WorkPackage * list FarmMiner) :=
  match l with
  | [] => Ok (wp, [])
  | x :: l' =>
      let! off := shl64 i width in
      let wp := set_startNonce (u64 (_startNonce + off)) wp in
      let! (wp', l'') := assign_work (u32 (i + 1)) _startNonce width wp l' in
      Ok (wp', on_miner (Miner.setWork wp) x :: l'')
  end.

Definition epoch_context (e : Z) : EpochContext := {|
  epochNumber := e;
  lightNumItems := light_cache_num_items e;
  lightSize := get_light_cache_size (light_cache_num_items e);
  lightCache := light_cache e;
  dagNumItems := full_dataset_num_items e;
  dagSize := get_full_dataset_size (full_dataset_num_items e) |}.

(** [setWork]; [rnd] is the draw of [shuffle], if it is called. *)
Definition setWork (rnd : Z) (_newWp : WorkPackage) (f : Farm) : res Farm :=
  let f := if epoch (m_currentWp f) =? epoch _newWp then f
           else let ec := epoch_context (epoch _newWp) in
                with_miners (on_miner (setEpoch ec) <$> m_miners f) (with_ec ec f) in
  let f := with_work _newWp f in
  let f := if (ergodicity (m_Settings f) =? 2) && (exSizeBytes (m_currentWp f) =? 0)
           then shuffle rnd f else f in
  let! (f, _startNonce) :=
    if 0 <? exSizeBytes (m_currentWp f) then
      let! w := segment_width (64 - exSizeBytes (m_currentWp f) * 4)
                              (Z.of_nat (length (m_miners f))) in
      Ok (with_segment w f, startNonce (m_currentWp f))
    else Ok (f, m_nonce_scrambler f) in
  let! (wp, l) := assign_work 0 _startNonce (m_nonce_segment_with f) (m_currentWp f) (m_miners f) in
  Ok (with_miners l (with_work wp f)).

Definition set_nonce_segment_width (n : Z) (f : Farm) : Farm :=
  if exSizeBytes (m_currentWp f) =? 0 then with_segment n f else f.

(** ** Start and stop *)

(** [start]'s loop over the devices: a miner and a telemetry entry per subscribed device. *)
Definition start_device (now : Z) (f : Farm) (it : string * DeviceDescriptor) : Farm :=
  if bool_decide (subscriptionType (snd it) = DS_Cpu) then
    let tele := {| prefix := "cp"; hashrate := f_zero; paused_ := false; sensors := HwSensors_new;
                   solutions := SolutionAccount_new now |} in
    let m := {| fm := Miner_new (Z.of_nat (length (m_miners f))) (snd it) now; thr := new_worker |} in
    with_miners (m_miners f ++ [on_thread startWorking m])
      (with_telemetry {| t_start := t_start (m_telemetry f); farm := farm (m_telemetry f);
                         miners_ := miners_ (m_telemetry f) ++ [tele] |} f)
  else f.

Definition start (now : Z) (f : Farm) : bool * Farm :=
  if m_isMining f then (true, f)
  else match m_miners f with
       | [] =>
           let f := fold_left (start_device now) (m_DevicesCollection f) f in
           let f := with_dag (setDagLoadInfo (dagLoadMode (m_Settings f))
                                             (u32 (Z.of_nat (length (m_miners f))))) f in
           (true, with_mining true f)
       | _ => (true, with_mining true (with_miners (on_thread startWorking <$> m_miners f) f))
       end.

(** [stop]: every miner is asked to stop and kicked, then released (the second component). *)
Definition stop (f : Farm) : Farm * list FarmMiner :=
  if m_isMining f then
    let l := (fun x => on_miner kick_miner (on_thread triggerStopWorking x)) <$> m_miners f in
    (with_mining false (with_miners [] f), l)
  else (f, []).

Definition f_pause (f : Farm) : Farm :=
  with_miners (on_miner (Miner.pause PauseDueToFarmPaused) <$> m_miners f) (with_paused true f).
Definition f_resume (f : Farm) : Farm :=
  with_miners (on_miner (Miner.resume PauseDueToFarmPaused) <$> m_miners f) (with_paused false f).

(** [getMiner]: null when the index is out of range. *)
Definition getMiner (index : Z) (f : Farm) : option FarmMiner := m_miners f !! Z.to_nat index.

(** ** Accounting *)

Definition bump (k : SolutionAccountingEnum) (now : Z) (s : SolutionAccountType) : SolutionAccountType :=
  match k with
  | Accepted => {| accepted := u32 (accepted s + 1); rejected := rejected s; wasted := wasted s; failed := failed s; sa_tstamp := now |}
  | Wasted => {| accepted := accepted s; rejected := rejected s; wasted := u32 (wasted s + 1); failed := failed s; sa_tstamp := now |}
  | Rejected => {| accepted := accepted s; rejected := u32 (rejected s + 1); wasted := wasted s; failed := failed s; sa_tstamp := now |}
  | Failed => {| accepted := accepted s; rejected := rejected s; wasted := wasted s; failed := u32 (failed s + 1); sa_tstamp := now |}
  end.

Definition with_solutions (g : SolutionAccountType -> SolutionAccountType) (t : TelemetryAccountType)
    : TelemetryAccountType :=
  {| prefix := prefix t; hashrate := hashrate t; paused_ := paused_ t; sensors := sensors t;
     solutions := g (solutions t) |}.

(** [accountSolution]: the farm's counter is incremented before [miners.at] may throw. *)
Definition accountSolution (now _minerIdx : Z) (_accounting : SolutionAccountingEnum) : SE Farm unit :=
  fun f =>
    let t := m_telemetry f in
    let t := {| t_start := t_start t; farm := with_solutions (bump _accounting now) (farm t);
                miners_ := miners_ t |} in
    match miners_ t !! Z.to_nat _minerIdx with
    | Some a =>
        (Ok tt, with_telemetry {| t_start := t_start t; farm := farm t;
           miners_ := <[Z.to_nat _minerIdx := with_solutions (bump _accounting now) a]> (miners_ t) |} f)
    | None => (Throw (OutOfRange "vector::_M_range_check"), with_telemetry t f)
    end.

Definition getSolutions (f : Farm) : SolutionAccountType := solutions (farm (m_telemetry f)).

(** [getSolutions(_minerIdx)]: a fresh account when the index is out of range. *)
Definition getSolutions_of (now _minerIdx : Z) (f : Farm) : SolutionAccountType :=
  match miners_ (m_telemetry f) !! Z.to_nat _minerIdx with
  | Some a => solutions a
  | None => SolutionAccount_new now
  end.

(** [submitProofAsync]: the solution handed to [m_onSolutionFound], if any. *)
Definition submitProofAsync (now : Z) (_s : Solution) : SE Farm (option Solution) :=
  fun f =>
    if negb (noEval (m_Settings f)) then
      let r := ethash_hash (epoch (work _s)) (header (work _s)) (nonce _s) in
      if hash_gt (value r) (boundary (work _s)) then
        (exec (accountSolution now (midx _s) Failed); se_ret None)%se f
      else
        (Ok (Some {| nonce := nonce _s; mixHash := r_mixHash r; work := work _s;
                     tstamp := tstamp _s; midx := midx _s |}), f)
    else (Ok (Some _s), f).

(** ** Hash-rate collection *)

Definition with_rate (hr : spec_float) (p : bool) (t : TelemetryAccountType) : TelemetryAccountType :=
  {| prefix := prefix t; hashrate := hr; paused_ := p; sensors := sensors t; solutions := solutions t |}.

(** The loop of [collectData] over the miners from position [i] on. *)
Fixpoint collect_loop (l : list FarmMiner) (i : nat) (farm_hr : spec_float) : SE Farm unit :=
  match l with
  | [] => se_ret tt
  | x :: l' => fun f =>
      let minerIdx := m_index (fm x) in
      let hr := if Miner.paused (fm x) then f_zero else RetrieveHashRate (fm x) in
      let farm_hr := f32_add farm_hr hr in
      match miners_ (m_telemetry f) !! Z.to_nat minerIdx with
      | None => (Throw (OutOfRange "vector::_M_range_check"), f)
      | Some a =>
          let t := {| t_start := t_start (m_telemetry f);
                      farm := with_rate farm_hr (paused_ (farm (m_telemetry f))) (farm (m_telemetry f));
                      miners_ := <[Z.to_nat minerIdx := with_rate hr (Miner.paused (fm x)) a]>
                                   (miners_ (m_telemetry f)) |} in
          collect_loop l' (S i) farm_hr
            (with_miners (<[i := on_miner TriggerHashRateUpdate x]> (m_miners f)) (with_telemetry t f))
      end
  end.

(** [collectData(ec)]: [error] is whether the timer was cancelled. *)
Definition collectData (error : bool) : SE Farm unit :=
  fun f => if error then (Ok tt, f) else collect_loop (m_miners f) 0 f_zero f.

End farm.

(** * Proofs *)

(** ** Nonce segments *)

Lemma segment_width_fits k n w : 0 < n -> 0 <= k -> segment_width k n = Ok w -> n <= 2 ^ k ->
  0 <= w <= k /\ n * 2 ^ w <= 2 ^ k.
Proof.
  intros Hn Hk. unfold segment_width. destruct (Z.eqb_spec n 0); [lia|].
  intros E Hle. apply Z.leb_le in Hle. rewrite Hle in E. injection E as <-.
  apply Z.leb_le in Hle. assert (1 <= 2 ^ k / n) by (apply Z.div_le_lower_bound; lia).
  assert (Hw : 2 ^ Z.log2 (2 ^ k / n) <= 2 ^ k / n) by (apply Z.log2_spec; lia).
  pose proof (Z.log2_nonneg (2 ^ k / n)). pose proof (Z.mul_div_le (2 ^ k) n Hn).
  split_and!; try lia; [|nia].
  apply Z.le_trans with (Z.log2 (2 ^ k)); [|by rewrite Z.log2_pow2].
  apply Z.log2_le_mono, Z.div_le_upper_bound; [done|]. rewrite <- (Z.mul_1_l (2 ^ k)) at 1.
  apply Z.mul_le_mono_nonneg_r; lia.
Qed.

(** The start nonce given to position [i]. *)
Definition segment_start (start w : Z) (i : nat) : Z := u64 (start + u64 (Z.of_nat i * 2 ^ w)).

Lemma assign_work_spec l : forall k start w wp, 0 <= w < 64 ->
  Z.of_nat (k + length l) < 2 ^ 32 ->
  exists wp' l', assign_work (Z.of_nat k) start w wp l = Ok (wp', l') /\
    l' = imap (fun i x => on_miner (Miner.setWork (set_startNonce (segment_start start w (k + i)) wp)) x) l.
Proof.
  induction l as [|x l IH]; intros k start w wp Hw Hk; simpl; [eauto|].
  unfold shl64. destruct (Z.ltb_spec w 64); [|lia]. simpl in Hk. cbn [res_bind].
  assert (u32 (Z.of_nat k + 1) = Z.of_nat (S k)) as ->
    by (rewrite wrap_id by (split; lia); lia).
  destruct (IH (S k) start w (set_startNonce (u64 (start + u64 (Z.shiftl (Z.of_nat k) w))) wp) Hw
              ltac:(lia)) as (wp' & l' & -> & ->).
  cbn [res_bind]. do 2 eexists. split; [done|]. f_equal.
  - rewrite Nat.add_0_r. unfold segment_start. by rewrite Z.shiftl_mul_pow2 by lia.
  - apply imap_ext. intros i y _. cbn. by rewrite Nat.add_succ_r.
Qed.

Lemma mod_add_cancel c a b m : 0 <= a < m -> 0 <= b < m -> (c + a) mod m = (c + b) mod m -> a = b.
Proof.
  intros Ha Hb E. apply (f_equal (fun x => (x - c) mod m)) in E.
  rewrite !Zminus_mod_idemp_l in E.
  replace (c + a - c) with a in E by lia. replace (c + b - c) with b in E by lia.
  by rewrite !Z.mod_small in E by lia.
Qed.

Lemma segment_step (p n : nat) w : 0 <= w -> (p < n)%nat ->
  0 <= Z.of_nat p * 2 ^ w /\ Z.of_nat p * 2 ^ w + 2 ^ w <= Z.of_nat n * 2 ^ w.
Proof.
  intros Hw Hp. assert (0 < 2 ^ w) by lia.
  assert ((Z.of_nat p + 1) * 2 ^ w <= Z.of_nat n * 2 ^ w) by (apply Z.mul_le_mono_nonneg_r; lia).
  split; [apply Z.mul_nonneg_nonneg|]; lia.
Qed.

(** Two different positions never share a nonce, as long as the segments together fit 64 bits. *)
Lemma segments_disjoint start w n (i j : nat) a b : 0 <= w -> Z.of_nat n * 2 ^ w <= 2 ^ 64 ->
  (i < n)%nat -> (j < n)%nat -> 0 <= a < 2 ^ w -> 0 <= b < 2 ^ w ->
  u64 (segment_start start w i + a) = u64 (segment_start start w j + b) -> i = j.
Proof.
  intros Hw Hn Hi Hj Ha Hb E. assert (0 < 2 ^ w) by lia.
  assert (Hs : forall p c, (p < n)%nat -> 0 <= c < 2 ^ w -> 0 <= Z.of_nat p * 2 ^ w + c < 2 ^ 64).
  { intros p c Hp Hc. destruct (segment_step p n w); lia. }
  assert (He : forall p c, u64 (segment_start start w p + c) =
    (start + (Z.of_nat p * 2 ^ w + c)) mod 2 ^ 64).
  { intros p c. unfold segment_start, wrap. rewrite Zplus_mod_idemp_l, (Z.add_comm start _),
      <- Z.add_assoc, Zplus_mod_idemp_l. f_equal. lia. }
  rewrite !He in E. apply mod_add_cancel in E; [|by apply Hs ..].
  apply Nat2Z.inj. nia.
Qed.

Section farm_theorems.
Context `{Ethash}.

(** The start of [setWork], as the segment origin and width it uses. *)
Definition work_origin (rnd : Z) (wp : WorkPackage) (f : Farm) : Z :=
  if 0 <? exSizeBytes wp then startNonce wp
  else if ergodicity (m_Settings f) =? 2 then u64 rnd else m_nonce_scrambler f.

Lemma setWork_spec rnd wp f w :
  0 <= exSizeBytes wp -> Z.of_nat (length (m_miners f)) < 2 ^ 32 ->
  (if 0 <? exSizeBytes wp
   then segment_width (64 - exSizeBytes wp * 4) (Z.of_nat (length (m_miners f))) = Ok w
   else w = m_nonce_segment_with f) ->
  0 <= w < 64 ->
  exists f', setWork rnd wp f = Ok f' /\ m_nonce_segment_with f' = w /\
    length (m_miners f') = length (m_miners f) /\
    forall i x', m_miners f' !! i = Some x' -> exists x m0,
      m_miners f !! i = Some x /\ m_pauseFlags m0 = m_pauseFlags (fm x) /\
      fm x' = Miner.setWork (set_startNonce (segment_start (work_origin rnd wp f) w i) wp) m0.
Proof.
  intros He Hlen Hw Hw'. unfold setWork.
  set (f1 := if epoch (m_currentWp f) =? epoch wp then f else _).
  assert (Hf1 : m_Settings f1 = m_Settings f /\ m_nonce_scrambler f1 = m_nonce_scrambler f /\
     m_nonce_segment_with f1 = m_nonce_segment_with f /\
     exists g, m_miners f1 = on_miner g <$> m_miners f /\
       forall m, m_pauseFlags (g m) = m_pauseFlags m).
  { subst f1. destruct (_ =? _); (split_and!; try done).
    - exists id. split; [|done]. rewrite <- (list_fmap_id (m_miners f)) at 1.
      apply list_fmap_ext. by intros ? [].
    - by exists (setEpoch (epoch_context (epoch wp))). }
  destruct Hf1 as (Hs & Hn & Hd & g & Hg & Hgp).
  set (f2 := if _ && _ then shuffle rnd _ else _).
  assert (Hf2 : m_miners f2 = m_miners f1 /\ m_currentWp f2 = wp /\
     m_nonce_segment_with f2 = m_nonce_segment_with f1 /\
     (exSizeBytes wp <= 0 -> m_nonce_scrambler f2 = work_origin rnd wp f)).
  { subst f2. unfold work_origin. cbn. rewrite Hs, <- Hn.
    destruct (Z.eqb_spec (exSizeBytes wp) 0), (ergodicity _ =? 2), (Z.ltb_spec 0 (exSizeBytes wp));
      cbn; split_and!; try done; lia. }
  clearbody f2. destruct Hf2 as (Hm2 & Hw2 & Hd2 & Hn2). rewrite Hm2, Hw2, Hg, length_fmap.
  assert (Hstep : exists f3, (if 0 <? exSizeBytes wp then
      let! w0 := segment_width (64 - exSizeBytes wp * 4) (Z.of_nat (length (m_miners f))) in
      Ok (with_segment w0 f2, startNonce wp) else Ok (f2, m_nonce_scrambler f2)) =
    Ok (f3, work_origin rnd wp f) /\ m_nonce_segment_with f3 = w /\ m_currentWp f3 = wp /\
    m_miners f3 = on_miner g <$> m_miners f).
  { unfold work_origin in *. destruct (Z.ltb_spec 0 (exSizeBytes wp)).
    - rewrite Hw. cbn [res_bind]. eexists. split; [done|]. cbn. by rewrite Hm2, Hw2, Hg.
    - exists f2. rewrite Hn2 by lia. split; [done|]. by rewrite Hm2, Hw2, Hg, Hd2, Hd. }
  destruct Hstep as (f3 & -> & Hw3 & Hwp3 & Hm3). cbn [res_bind]. rewrite Hw3, Hwp3, Hm3.
  destruct (assign_work_spec (on_miner g <$> m_miners f) 0 (work_origin rnd wp f) w wp Hw')
    as (wp' & l' & E & Hl'); [rewrite length_fmap; lia|].
  change (Z.of_nat 0) with 0 in E. rewrite E. cbn [res_bind]. eexists. split; [done|]. cbn.
  split_and!; [done | by rewrite Hl', length_imap, length_fmap |].
  intros i x' Hx. rewrite Hl', list_lookup_imap, list_lookup_fmap in Hx.
  destruct (m_miners f !! i) as [x|] eqn:Ex; [|done]. simpl in Hx. injection Hx as <-.
  exists x, (g (fm x)). by rewrite Hgp.
Qed.

(** The segments under an extranonce of [e] nibbles: [setWork] succeeds, and the miner at
    position [p] starts [p] segments of [2^w] nonces after the pool's start nonce; together they
    fit the range the pool granted, which does not wrap around. *)
Lemma setWork_segments (rnd : Z) (wp : WorkPackage) (f : Farm) :
  0 < exSizeBytes wp <= 15 -> in_range 64 (startNonce wp) ->
  startNonce wp mod 2 ^ (64 - exSizeBytes wp * 4) = 0 ->
  0 < Z.of_nat (length (m_miners f)) <= 2 ^ (64 - exSizeBytes wp * 4) ->
  Z.of_nat (length (m_miners f)) < 2 ^ 32 ->
  exists f' w, setWork rnd wp f = Ok f' /\ m_nonce_segment_with f' = w /\ 0 <= w /\
    length (m_miners f') = length (m_miners f) /\
    Z.of_nat (length (m_miners f)) * 2 ^ w <= 2 ^ (64 - exSizeBytes wp * 4) /\
    startNonce wp + 2 ^ (64 - exSizeBytes wp * 4) <= 2 ^ 64 /\
    forall p x', m_miners f' !! p = Some x' -> Miner.paused (fm x') = false ->
      (p < length (m_miners f))%nat /\
      m_work (fm x') = set_startNonce (startNonce wp + Z.of_nat p * 2 ^ w) wp.
Proof.
  intros He Hr Halign Hn Hn32. set (k := 64 - exSizeBytes wp * 4) in *.
  assert (Hk : 4 <= k <= 60) by (unfold k; lia).
  assert (Hseg : exists w, segment_width k (Z.of_nat (length (m_miners f))) = Ok w).
  { unfold segment_width. destruct (Z.eqb_spec (Z.of_nat (length (m_miners f))) 0); [lia|].
    destruct (Z.leb_spec (Z.of_nat (length (m_miners f))) (2 ^ k)); [eauto|lia]. }
  destruct Hseg as [w Hseg].
  pose proof (segment_width_fits k (Z.of_nat (length (m_miners f))) w ltac:(lia) ltac:(lia) Hseg
    ltac:(lia)) as [Hw Hfit].
  assert (Hpos : 0 <? exSizeBytes wp = true) by (apply Z.ltb_lt; lia).
  destruct (setWork_spec rnd wp f w) as (f' & Hf' & Hw' & Hlen & Hx); [lia | lia | | lia |].
  { by rewrite Hpos. }
  assert (Hbase : startNonce wp + 2 ^ k <= 2 ^ 64).
  { pose proof (Z.div_mod (startNonce wp) (2 ^ k) ltac:(lia)) as Hdm.
    rewrite Halign, Z.add_0_r in Hdm. destruct Hr as [Hr0 Hr1].
    assert (E64 : 2 ^ 64 = 2 ^ k * 2 ^ (64 - k)) by (rewrite <- Z.pow_add_r by lia; f_equal; lia).
    set (q := startNonce wp / 2 ^ k) in *. assert (0 < 2 ^ k) by lia.
    assert (q < 2 ^ (64 - k)) by (apply (Z.mul_lt_mono_pos_l (2 ^ k)); lia).
    rewrite E64, Hdm. replace (2 ^ k * q + 2 ^ k) with (2 ^ k * (q + 1)) by lia.
    apply Z.mul_le_mono_nonneg_l; lia. }
  exists f', w. split_and!; try done; [lia|]. intros p x' Hp Hpa.
  assert (Hpl := lookup_lt_Some _ _ _ Hp). rewrite Hlen in Hpl. split; [done|].
  destruct (Hx p x' Hp) as (x & m0 & _ & _ & Ex). rewrite Ex in *. unfold Miner.setWork in *.
  destruct (Miner.paused m0) eqn:E0; [by cbv [Miner.paused] in E0, Hpa; cbn in Hpa; rewrite E0 in Hpa|].
  cbn. f_equal. unfold work_origin, segment_start. rewrite Hpos.
  destruct Hr, (segment_step p (length (m_miners f)) w ltac:(lia) Hpl).
  rewrite (wrap_id 64 (_ * _)) by (split; lia). by rewrite wrap_id by (split; lia).
Qed.

(** C8: Work distribution with an extranonce of [e] nibbles: whenever the miners are no more
    than the nonces the pool left, [setWork] succeeds and gives every miner that is not paused
    its own segment of [2^w] nonces; the segments of different miners never meet, and (the
    pool's start nonce having its low bits clear) all stay inside the range the pool granted. *)
Theorem setWork_extranonce_segments (rnd : Z) (wp : WorkPackage) (f : Farm) :
  0 < exSizeBytes wp <= 15 -> in_range 64 (startNonce wp) ->
  startNonce wp mod 2 ^ (64 - exSizeBytes wp * 4) = 0 ->
  0 < Z.of_nat (length (m_miners f)) <= 2 ^ (64 - exSizeBytes wp * 4) ->
  Z.of_nat (length (m_miners f)) < 2 ^ 32 ->
  exists f' w, setWork rnd wp f = Ok f' /\ m_nonce_segment_with f' = w /\
    forall i j xi xj, m_miners f' !! i = Some xi -> m_miners f' !! j = Some xj ->
      Miner.paused (fm xi) = false -> Miner.paused (fm xj) = false ->
      let si := startNonce (m_work (fm xi)) in
      let sj := startNonce (m_work (fm xj)) in
      (startNonce wp <= si /\ si + 2 ^ w <= startNonce wp + 2 ^ (64 - exSizeBytes wp * 4)) /\
      (i <> j -> si + 2 ^ w <= sj \/ sj + 2 ^ w <= si).
Proof.
  intros He Hr Halign Hn Hn32.
  destruct (setWork_segments rnd wp f He Hr Halign Hn Hn32)
    as (f' & w & Hf' & Hw' & Hw & Hlen & Hfit & Hbase & Hx).
  exists f', w. split_and!; [done | done |]. intros i j xi xj Hi Hj Hpi Hpj.
  destruct (Hx i xi Hi Hpi) as [Hil ->], (Hx j xj Hj Hpj) as [Hjl ->]. cbn.
  destruct (segment_step i (length (m_miners f)) w ltac:(lia) Hil). split; [split; lia|]. intros Hij.
  destruct (decide (i < j)%nat).
  - destruct (segment_step i j w); lia.
  - destruct (segment_step j i w); lia.
Qed.

(** ** Telemetry and miner indexes *)

(** Every call on the farm, every call on one of its miners, and the miner threads' own steps.  The
    accounts are for indexes that have an entry, as the callers' are: miners have entries
    ([farm_telemetry_consistent]), and a client's verdicts name a miner that submitted (proved of the
    composed system in System).  What any other index does is [account_out_of_range]. *)
Inductive farm_step : Farm -> Farm -> Prop :=
  | FsSetWork rnd wp f f' : setWork rnd wp f = Ok f' -> farm_step f f'
  | FsStart now f : farm_step f (snd (start now f))
  | FsStop f : farm_step f (fst (stop f))
  | FsPause f : farm_step f (f_pause f)
  | FsResume f : farm_step f (f_resume f)
  | FsAccount now i k f : 0 <= i < Z.of_nat (length (miners_ (m_telemetry f))) ->
      farm_step f (snd (accountSolution now i k f))
  | FsSubmit now s f : 0 <= midx s < Z.of_nat (length (miners_ (m_telemetry f))) ->
      farm_step f (snd (submitProofAsync now s f))
  | FsCollect e f : farm_step f (snd (collectData e f))
  | FsMiner i o f :
      farm_step f (with_miners (alter (on_miner (fun m => apply_op m o)) i (m_miners f)) f)
  | FsThread i x w f : m_miners f !! i = Some x -> Worker.step (thr x) w ->
      farm_step f (with_miners (<[i := on_thread (fun _ => w) x]> (m_miners f)) f)
  | FsScrambler n f : farm_step f (set_nonce_scrambler n f)
  | FsWidth n f : farm_step f (set_nonce_segment_width n f).

Definition farm_reachable (f : Farm) : Prop :=
  exists devs settings now rnd, star farm_step (Farm_new devs settings now rnd) f.

Definition indexes (f : Farm) : list Z := (fun x => m_index (fm x)) <$> m_miners f.
Definition accounts (f : Farm) : list SolutionAccountType := solutions <$> miners_ (m_telemetry f).

Definition counter (k : SolutionAccountingEnum) (s : SolutionAccountType) : Z :=
  match k with
  | Accepted => accepted s | Rejected => rejected s | Wasted => wasted s | Failed => failed s
  end.
Definition total (k : SolutionAccountingEnum) (l : list SolutionAccountType) : Z :=
  foldr Z.add 0 (counter k <$> l).

(** Miner [i] has index [i] and a telemetry entry, an idle farm has no miners, and the farm's
    counters are the sums of the miners' (in 32-bit arithmetic). *)
Definition farm_inv (f : Farm) : Prop :=
  indexes f = Z.of_nat <$> List.seq 0 (length (m_miners f)) /\
  (length (m_miners f) <= length (accounts f))%nat /\
  (m_isMining f = false -> m_miners f = []) /\
  (forall k, counter k (getSolutions f) mod 2 ^ 32 = total k (accounts f) mod 2 ^ 32).

(** What most calls leave alone. *)
Definition keeps (f f' : Farm) : Prop :=
  indexes f' = indexes f /\ accounts f' = accounts f /\ m_isMining f' = m_isMining f /\
  getSolutions f' = getSolutions f.

Lemma keeps_inv f f' : keeps f f' -> farm_inv f -> farm_inv f'.
Proof.
  intros (Hi & Ha & Hm & Hs) (H1 & H2 & H3 & H4).
  assert (Hl : length (m_miners f') = length (m_miners f)).
  { apply (f_equal length) in Hi. unfold indexes in Hi. by rewrite !length_fmap in Hi. }
  unfold farm_inv. rewrite Hi, Ha, Hm, Hs, Hl. split_and!; auto.
  intros Hf. apply nil_length_inv. rewrite Hl. by rewrite H3.
Qed.

Lemma keeps_refl f : keeps f f.
Proof. done. Qed.
Lemma keeps_trans f g h : keeps f g -> keeps g h -> keeps f h.
Proof. unfold keeps. intros (->&->&->&->) (->&->&->&->). done. Qed.

(** Calls that only map over the miners. *)
Lemma indexes_fmap g (l : list FarmMiner) : (forall x, m_index (fm (g x)) = m_index (fm x)) ->
  (fun x => m_index (fm x)) <$> (g <$> l) = (fun x => m_index (fm x)) <$> l.
Proof. intros Hg. rewrite <- list_fmap_compose. apply list_fmap_ext. intros i x _. apply Hg. Qed.

Lemma apply_op_index m o : m_index (apply_op m o) = m_index m.
Proof.
  destruct o; try done; simpl; unfold Miner.setWork, TriggerHashRateUpdate, updateHashRate;
    repeat case_scrut; done.
Qed.

Lemma setWork_index w m : m_index (Miner.setWork w m) = m_index m.
Proof. apply (apply_op_index m (OpSetWork w)). Qed.

Lemma assign_work_indexes l : forall i s w wp wp' l', assign_work i s w wp l = Ok (wp', l') ->
  (fun x => m_index (fm x)) <$> l' = (fun x => m_index (fm x)) <$> l.
Proof.
  induction l as [|x l IH]; intros i s w wp wp' l' E; simpl in E; [by simplify_eq|].
  apply res_bind_ok in E as (off & _ & E). apply res_bind_ok in E as ([wp1 l1] & E1 & E2).
  simplify_eq. cbn [fmap list_fmap fm on_miner]. rewrite setWork_index. f_equal. by eapply IH.
Qed.

Lemma setWork_keeps rnd wp f f' : setWork rnd wp f = Ok f' -> keeps f f'.
Proof.
  unfold setWork. set (f1 := if epoch (m_currentWp f) =? epoch wp then f else _).
  assert (H1 : keeps f f1).
  { subst f1. destruct (_ =? _); [done|]. split_and!; try done. by apply indexes_fmap. }
  clearbody f1. set (f2 := if _ && _ then shuffle rnd _ else _).
  assert (H2 : keeps f1 f2) by (subst f2; by destruct (_ && _)). clearbody f2.
  intros E. apply res_bind_ok in E as ([f3 s] & E3 & E).
  assert (H3 : keeps f2 f3).
  { destruct (0 <? _); [|by simplify_eq]. apply res_bind_ok in E3 as (w & _ & E3). by simplify_eq. }
  apply res_bind_ok in E as ([wp' l] & E4 & E). simplify_eq.
  do 3 (eapply keeps_trans; [eassumption|]). split_and!; try done. by eapply assign_work_indexes.
Qed.

Lemma list_fmap_insert_keep {A B} (g : A -> B) (l : list A) i x y :
  l !! i = Some x -> g y = g x -> g <$> <[i:=y]> l = g <$> l.
Proof.
  intros Hi Hg. rewrite list_fmap_insert, Hg. apply list_insert_id.
  by rewrite list_lookup_fmap, Hi.
Qed.

Lemma trigger_index m : m_index (TriggerHashRateUpdate m) = m_index m.
Proof. apply (apply_op_index m OpTrigger). Qed.

Lemma collect_loop_keeps l : forall i hr f r f',
  (forall j x, l !! j = Some x -> exists x', m_miners f !! (i + j)%nat = Some x' /\
     m_index (fm x') = m_index (fm x)) ->
  (forall x, x ∈ l -> 0 <= m_index (fm x) < Z.of_nat (length (accounts f))) ->
  collect_loop l i hr f = (r, f') -> keeps f f' /\ r = Ok tt.
Proof.
  induction l as [|x l IH]; intros i hr f r f' Hl Ha E; simpl in E.
  - by injection E as <- <-.
  - destruct (Ha x) as [Hx1 Hx2]; [left|]. unfold accounts in Hx2. rewrite length_fmap in Hx2.
    destruct (lookup_lt_is_Some_2 (miners_ (m_telemetry f)) (Z.to_nat (m_index (fm x)))) as [a Ea];
      [lia|]. rewrite Ea in E.
    destruct (Hl 0%nat x eq_refl) as (x0 & Hx0 & Hi0). rewrite Nat.add_0_r in Hx0.
    set (f1 := with_miners _ _) in E.
    assert (K : keeps f f1).
    { split_and!; try done; subst f1; unfold indexes, accounts; cbn.
      - rewrite list_fmap_insert_keep with (x := x0); [done|done|]. cbn. by rewrite trigger_index.
      - by rewrite list_fmap_insert_keep with (x := a). }
    apply IH in E as [K' ->].
    + split; [|done]. by eapply keeps_trans.
    + intros j y Hy. destruct (Hl (S j) y Hy) as (y' & Hy' & Hyi). exists y'. split; [|done].
      subst f1. cbn. rewrite list_lookup_insert_ne by lia. by rewrite Nat.add_succ_r in Hy'.
    + intros y Hy. destruct K as (_ & -> & _). apply Ha. by right.
Qed.

Lemma index_range f x : farm_inv f -> x ∈ m_miners f ->
  0 <= m_index (fm x) < Z.of_nat (length (accounts f)).
Proof.
  intros (H1 & H2 & _) Hx. apply list_elem_of_lookup in Hx as [i Hi].
  assert (E : indexes f !! i = Some (m_index (fm x))) by (unfold indexes; by rewrite list_lookup_fmap, Hi).
  apply lookup_lt_Some in Hi. rewrite H1, list_lookup_fmap, lookup_seq_lt in E by done.
  injection E as <-. lia.
Qed.

Lemma collectData_keeps e f : farm_inv f -> keeps f (snd (collectData e f)) /\ fst (collectData e f) = Ok tt.
Proof.
  intros Hinv. unfold collectData. destruct e; [done|].
  destruct (collect_loop (m_miners f) 0 f_zero f) as [r f'] eqn:E.
  apply collect_loop_keeps in E; [done | by eauto | intros x Hx; by apply index_range].
Qed.

Lemma total_cons k s l : total k (s :: l) = counter k s + total k l.
Proof. done. Qed.

Lemma total_app k l1 l2 : total k (l1 ++ l2) = total k l1 + total k l2.
Proof. induction l1 as [|s l1 IH]; [done|]. simpl app. rewrite !total_cons, IH. lia. Qed.

Lemma total_insert k l i s s' : l !! i = Some s ->
  total k (<[i := s']> l) = total k l + counter k s' - counter k s.
Proof.
  revert i. induction l as [|x l IH]; intros [|i] E; try done.
  - injection E as ->. change (<[0%nat:=s']> (s :: l)) with (s' :: l). rewrite !total_cons. lia.
  - change (<[S i:=s']> (x :: l)) with (x :: <[i:=s']> l). rewrite !total_cons, (IH i) by done. lia.
Qed.

Lemma start_device_inv now f it : farm_inv (with_mining true f) ->
  farm_inv (with_mining true (start_device now f it)).
Proof.
  intros (H1 & H2 & _ & H4). destruct (decide (subscriptionType (snd it) = DS_Cpu)) as [Hd|Hd].
  - set (f' := start_device now f it).
    assert (Ha : accounts f' = accounts f ++ [SolutionAccount_new now]).
    { subst f'. unfold start_device, accounts. rewrite bool_decide_eq_true_2 by done. cbn.
      by rewrite fmap_app. }
    assert (Hi : indexes f' = indexes f ++ [Z.of_nat (length (m_miners f))]).
    { subst f'. unfold start_device, indexes. rewrite bool_decide_eq_true_2 by done. cbn.
      by rewrite fmap_app. }
    assert (Hs : getSolutions f' = getSolutions f /\ length (m_miners f') = S (length (m_miners f))).
    { subst f'. unfold start_device. rewrite bool_decide_eq_true_2 by done. cbn. split; [done|].
      rewrite length_app. simpl. lia. }
    clearbody f'. destruct Hs as [Hs Hl]. unfold farm_inv in *.
    change (indexes (with_mining true f')) with (indexes f').
    change (accounts (with_mining true f')) with (accounts f').
    change (getSolutions (with_mining true f')) with (getSolutions f').
    change (m_miners (with_mining true f')) with (m_miners f').
    change (indexes (with_mining true f)) with (indexes f) in H1.
    rewrite Hs, Ha, Hi, Hl, seq_S, fmap_app, H1, length_app. split_and!; [done| | done |].
    + unfold accounts in *. cbn in *. lia.
    + intros k. rewrite total_app. change (getSolutions f) with (getSolutions (with_mining true f)).
      rewrite H4.
      replace (total k [SolutionAccount_new now]) with 0 by (by destruct k). by rewrite Z.add_0_r.
  - unfold start_device. by rewrite bool_decide_eq_false_2.
Qed.

Lemma start_inv now f : farm_inv f -> farm_inv (snd (start now f)).
Proof.
  intros Hf. unfold start. destruct (m_isMining f) eqn:E; [done|].
  destruct Hf as (H1 & H2 & H3 & H4). rewrite (H3 E). cbn [snd].
  assert (Hi : farm_inv (with_mining true f)) by done.
  assert (Hl : farm_inv (with_mining true (fold_left (start_device now) (m_DevicesCollection f) f))).
  { clear H1 H2 H3 H4 E. generalize (m_DevicesCollection f) as devs. intros devs. revert f Hi.
    induction devs as [|it devs IH]; intros f Hi; [done|]. by apply IH, start_device_inv. }
  by destruct Hl as (? & ? & _ & ?).
Qed.

Lemma counter_bump k k' now s : counter k' (bump k now s) mod 2 ^ 32 =
  (counter k' s + (if decide (k = k') then 1 else 0)) mod 2 ^ 32.
Proof. destruct k, k'; cbn; unfold wrap; rewrite ?Zmod_mod, ?Z.add_0_r; done. Qed.

(** The effect of accounting on the counters, in range. *)
Lemma accountSolution_in_range now i k f : 0 <= i < Z.of_nat (length (accounts f)) ->
  exists s f', accountSolution now i k f = (Ok tt, f') /\ accounts f !! Z.to_nat i = Some s /\
    accounts f' = <[Z.to_nat i := bump k now s]> (accounts f) /\
    getSolutions f' = bump k now (getSolutions f) /\ m_miners f' = m_miners f /\
    m_isMining f' = m_isMining f.
Proof.
  intros Hi. unfold accounts in Hi. rewrite length_fmap in Hi.
  destruct (lookup_lt_is_Some_2 (miners_ (m_telemetry f)) (Z.to_nat i)) as [a Ea]; [lia|].
  unfold accountSolution. cbn [miners_]. rewrite Ea. exists (solutions a). eexists. split; [done|].
  unfold accounts. cbn [m_telemetry miners_ with_telemetry]. rewrite list_lookup_fmap, Ea.
  split_and!; try done. by rewrite list_fmap_insert.
Qed.

(** An index without an entry: the farm's counter is incremented, then [miners.at] throws and no miner's
    counter is. *)
Theorem account_out_of_range now i k f : Z.of_nat (length (accounts f)) <= i ->
  exists w f', accountSolution now i k f = (Throw (OutOfRange w), f') /\ accounts f' = accounts f /\
    getSolutions f' = bump k now (getSolutions f).
Proof.
  intros Hi. unfold accounts in Hi. rewrite length_fmap in Hi. unfold accountSolution. cbn [miners_].
  rewrite lookup_ge_None_2 by lia. do 2 eexists. split; [done|]. by split.
Qed.

Lemma accountSolution_inv now i k f : 0 <= i < Z.of_nat (length (accounts f)) -> farm_inv f ->
  fst (accountSolution now i k f) = Ok tt /\ farm_inv (snd (accountSolution now i k f)).
Proof.
  intros Hi (H1 & H2 & H3 & H4).
  destruct (accountSolution_in_range now i k f Hi) as (s & f' & -> & Hs & Ha & Hg & Hm & Hmi).
  split; [done|]. cbn [snd]. unfold farm_inv, indexes in *.
  rewrite Hg, Ha, Hm, Hmi, length_insert. split_and!; [done..|]. intros k'.
  rewrite (total_insert k' _ _ s) by done. rewrite counter_bump, <- Zplus_mod_idemp_l, H4.
  rewrite Zplus_mod_idemp_l, <- Z.add_sub_assoc, <- (Zplus_mod_idemp_r (_ - _)), <- Zminus_mod_idemp_l,
    counter_bump, Zminus_mod_idemp_l, Zplus_mod_idemp_r. f_equal. lia.
Qed.

Lemma submitProofAsync_inv now s f : 0 <= midx s < Z.of_nat (length (accounts f)) -> farm_inv f ->
  farm_inv (snd (submitProofAsync now s f)).
Proof.
  intros Hi Hf. unfold submitProofAsync. repeat case_match; try done.
  destruct (accountSolution_inv now (midx s) Failed f Hi Hf) as [Ha1 Ha2].
  unfold se_bind. destruct (accountSolution _ _ _ _) as [[]]; done.
Qed.

Lemma alter_index o i (l : list FarmMiner) :
  (fun x => m_index (fm x)) <$> alter (on_miner (fun m => apply_op m o)) i l =
  (fun x => m_index (fm x)) <$> l.
Proof.
  revert i. induction l as [|x l IH]; intros [|i]; [done..| |]; simpl.
  - by rewrite apply_op_index.
  - f_equal. apply IH.
Qed.

Lemma farm_step_inv f f' : farm_step f f' -> farm_inv f -> farm_inv f'.
Proof.
  intros Hs Hf. destruct Hs as [? ? ? ? E| | | | |? ? ? ? Hi|? ? ? Hi| | |i x w f Hx| |? f].
  - by eapply keeps_inv; [eapply setWork_keeps|].
  - by apply start_inv.
  - unfold stop. destruct (m_isMining f) eqn:E; [|done]. destruct Hf as (_ & _ & _ & H4).
    unfold farm_inv, indexes. cbn. split_and!; [done | lia | done | done].
  - eapply keeps_inv; [|done]. split_and!; try done. by apply indexes_fmap.
  - eapply keeps_inv; [|done]. split_and!; try done. by apply indexes_fmap.
  - apply accountSolution_inv; [|done]. unfold accounts. by rewrite length_fmap.
  - apply submitProofAsync_inv; [|done]. unfold accounts. by rewrite length_fmap.
  - eapply keeps_inv; [by apply collectData_keeps|done].
  - eapply keeps_inv; [|done]. split_and!; try done. apply alter_index.
  - eapply keeps_inv; [|done]. split_and!; try done.
    by apply (list_fmap_insert_keep (fun x => m_index (fm x)) _ i x).
  - eapply keeps_inv; [|done]. done.
  - eapply keeps_inv; [|done]. unfold set_nonce_segment_width. by destruct (_ =? 0).
Qed.

Lemma farm_reachable_inv f : farm_reachable f -> farm_inv f.
Proof.
  intros (devs & settings & now & rnd & Hs). eapply star_invariant; [apply farm_step_inv | done |].
  split_and!; try done. intros []; done.
Qed.

(** C9: In every reachable farm (any interleaving of the farm's calls, its miners' calls and
    thread steps) miner [i] has index [i] and a telemetry entry, so neither the collector nor
    the accounting of a live miner's solution ever throws [out_of_range]; and the farm's
    accepted, rejected, wasted and failed counters are the sums of the miners' counters modulo
    2^32. *)
Theorem farm_telemetry_consistent (f : Farm) : farm_reachable f ->
  (forall i x, m_miners f !! i = Some x -> m_index (fm x) = Z.of_nat i /\
     (forall now k, fst (accountSolution now (m_index (fm x)) k f) = Ok tt)) /\
  (forall e, fst (collectData e f) = Ok tt) /\
  (forall k, counter k (getSolutions f) mod 2 ^ 32 = total k (accounts f) mod 2 ^ 32).
Proof.
  intros Hr. pose proof (farm_reachable_inv f Hr) as Hf. split_and!.
  - intros i x Hx. split.
    + destruct Hf as (H1 & _). assert (E : indexes f !! i = Some (m_index (fm x)))
        by (unfold indexes; by rewrite list_lookup_fmap, Hx).
      apply lookup_lt_Some in Hx. rewrite H1, list_lookup_fmap, lookup_seq_lt in E by done.
      by injection E as <-.
    + intros now k. apply accountSolution_inv; [|done]. apply index_range; [done|].
      by eapply list_elem_of_lookup_2.
  - intros e. by apply collectData_keeps.
  - apply Hf.
Qed.

(** What leaves the farm for the pool: with re-evaluation on, [submitProofAsync] forwards a
    solution exactly when the recomputed value is numerically at most the boundary, with the
    recomputed mix hash and everything else unchanged; otherwise nothing is forwarded and the
    solution is counted as failed.  With [noEval] every solution is forwarded as it is. *)
Theorem submitProof_forwards_valid (now : Z) (s : Solution) (f : Farm) :
  farm_inv f -> 0 <= midx s < Z.of_nat (length (accounts f)) ->
  let r := ethash_hash (epoch (work s)) (header (work s)) (nonce s) in
  hash_ok 32 (value r) -> hash_ok 32 (boundary (work s)) ->
  let '(out, f') := submitProofAsync now s f in
  if noEval (m_Settings f) then out = Ok (Some s) /\ f' = f
  else if to_arith 32 (value r) <=? to_arith 32 (boundary (work s))
  then out = Ok (Some {| nonce := nonce s; mixHash := r_mixHash r; work := work s;
                         tstamp := tstamp s; midx := midx s |}) /\ f' = f
  else out = Ok None /\ failed (getSolutions f') = u32 (failed (getSolutions f) + 1) /\
       accepted (getSolutions f') = accepted (getSolutions f).
Proof.
  intros Hf Hi r Hv Hb. unfold submitProofAsync. fold r.
  destruct (noEval (m_Settings f)); [done|]. cbn [negb].
  assert (Hgt : hash_gt (value r) (boundary (work s)) =
    negb (to_arith 32 (value r) <=? to_arith 32 (boundary (work s)))).
  { unfold hash_gt. by destruct (hash_order_numeric 32 (value r) (boundary (work s)) Hv Hb) as (_ & -> & _). }
  rewrite Hgt. destruct (_ <=? _); [done|]. cbn [negb]. unfold se_bind.
  destruct (accountSolution_in_range now (midx s) Failed f Hi) as (a & f' & -> & _ & _ & Hg & _).
  cbn. by rewrite Hg.
Qed.

(** Work distribution without an extranonce: [setWork] succeeds, miners that are not paused
    get segments of the configured width starting at the scrambler (a fresh draw when
    ergodicity is 2), and no nonce, wrapped to 64 bits, belongs to two segments as long as the
    segments together fit 64 bits.  An extranonce of more than 16 nibbles makes the width
    computation undefined. *)
Theorem setWork_scrambled_segments (rnd : Z) (wp : WorkPackage) (f : Farm) :
  0 <= m_nonce_segment_with f < 64 -> Z.of_nat (length (m_miners f)) < 2 ^ 32 ->
  (exSizeBytes wp = 0 ->
   Z.of_nat (length (m_miners f)) * 2 ^ m_nonce_segment_with f <= 2 ^ 64 ->
   exists f', setWork rnd wp f = Ok f' /\
     forall i j xi xj a b, m_miners f' !! i = Some xi -> m_miners f' !! j = Some xj ->
       Miner.paused (fm xi) = false -> Miner.paused (fm xj) = false -> i <> j ->
       0 <= a < 2 ^ m_nonce_segment_with f -> 0 <= b < 2 ^ m_nonce_segment_with f ->
       u64 (startNonce (m_work (fm xi)) + a) <> u64 (startNonce (m_work (fm xj)) + b)) /\
  (16 < exSizeBytes wp -> exists u, setWork rnd wp f = Throw (UndefinedBehaviour u)).
Proof.
  intros Hw Hn. split.
  - intros He Hfit.
    destruct (setWork_spec rnd wp f (m_nonce_segment_with f)) as (f' & Hf' & _ & Hlen & Hx);
      [lia | done | by rewrite He | done |].
    exists f'. split; [done|]. intros i j xi xj a b Hi Hj Hpi Hpj Hij Ha Hb E. apply Hij.
    assert (Hs : forall p x, m_miners f' !! p = Some x -> Miner.paused (fm x) = false ->
      startNonce (m_work (fm x)) = segment_start (work_origin rnd wp f) (m_nonce_segment_with f) p).
    { intros p x Hp Hpa. destruct (Hx p x Hp) as (x0 & m0 & _ & _ & Ex). rewrite Ex in *.
      unfold Miner.setWork in *. destruct (Miner.paused m0) eqn:E0; [|done].
      by cbv [Miner.paused] in E0, Hpa; cbn in Hpa; rewrite E0 in Hpa. }
    rewrite (Hs i xi Hi Hpi), (Hs j xj Hj Hpj) in E.
    eapply segments_disjoint; try exact E; try done; [lia | ..];
      rewrite <- Hlen; by eapply lookup_lt_Some.
  - intros He. unfold setWork. set (f1 := if epoch (m_currentWp f) =? epoch wp then f else _).
    set (f2 := if _ && _ then shuffle rnd _ else _).
    assert (Hw2 : m_currentWp f2 = wp) by (subst f2; by destruct (_ && _)). rewrite Hw2.
    assert (0 <? exSizeBytes wp = true) as -> by (apply Z.ltb_lt; lia). cbn [res_bind].
    unfold segment_width. destruct (Z.eqb_spec (Z.of_nat (length (m_miners f2))) 0); [by eexists|].
    rewrite (Z.pow_neg_r 2 (64 - _)) by lia.
    destruct (Z.leb_spec (Z.of_nat (length (m_miners f2))) 0); [lia|].
    destruct (Z.ltb_spec (Z.of_nat (length (m_miners f2))) (2 ^ (64 - exSizeBytes wp * 4 + 1)));
      [|by eexists].
    rewrite (Z.pow_neg_r 2 (_ + 1)) in * by lia. lia.
Qed.

(** ** Restart *)

Definition is_cpu (it : string * DeviceDescriptor) : bool :=
  bool_decide (subscriptionType (snd it) = DS_Cpu).

Lemma start_devices_spec now devs : forall f,
  let f' := fold_left (start_device now) devs f in
  length (m_miners f') = (length (m_miners f) + length (filter (fun it => is_cpu it = true) devs))%nat /\
  length (accounts f') = (length (accounts f) + length (filter (fun it => is_cpu it = true) devs))%nat /\
  f_paused f' = f_paused f /\
  (Forall (fun x => Miner.paused (fm x) = false) (m_miners f) ->
   Forall (fun x => Miner.paused (fm x) = false) (m_miners f')).
Proof.
  induction devs as [|it devs IH]; intros f; cbn zeta in *; cbn [fold_left].
  - rewrite !Nat.add_0_r. done.
  - destruct (IH (start_device now f it)) as (-> & -> & -> & Hp).
    rewrite filter_cons. destruct (is_cpu it) eqn:Hc; unfold start_device in *; unfold is_cpu in Hc;
      rewrite Hc in *.
    + rewrite decide_True by done. unfold accounts.
      cbn [m_telemetry with_telemetry with_miners m_miners miners_ length].
      rewrite !length_fmap, !length_app. cbn [length]. split_and!; [lia | lia | done |].
      intros Hf. apply Hp, Forall_app. split; [done|]. by repeat constructor.
    + by rewrite decide_False by done.
Qed.

(** Stopping and starting a mining farm (a restart) replaces the miners by one fresh,
    unpaused miner per subscribed CPU device, also when the farm is paused (the farm then still
    reports itself paused); and it adds a new telemetry entry per miner without removing the
    old ones, so the telemetry grows with every restart. *)
Theorem restart_replaces_miners (f : Farm) (now : Z) :
  m_isMining f = true ->
  let n := length (filter (fun it => is_cpu it = true) (m_DevicesCollection f)) in
  let '(ok, f') := start now (fst (stop f)) in
  ok = true /\ m_isMining f' = true /\ length (m_miners f') = n /\
  f_paused f' = f_paused f /\
  Forall (fun x => Miner.paused (fm x) = false) (m_miners f') /\
  length (accounts f') = (length (accounts f) + n)%nat /\
  Forall (fun x => m_new_work (fm x) = true) (snd (stop f)).
Proof.
  intros Hm n. unfold stop. rewrite Hm. cbn [fst snd]. unfold start. cbn [m_isMining with_mining m_miners with_miners].
  set (f0 := with_mining false (with_miners [] f)).
  pose proof (start_devices_spec now (m_DevicesCollection f) f0) as Hs. cbn zeta in Hs.
  destruct Hs as (H1 & H2 & H3 & H4). split_and!; [done | done | done | done | by apply H4; constructor | done |].
  apply Forall_fmap, Forall_true. intros x. done.
Qed.

End farm_theorems.

(** ** Examples and witnesses *)

(** A model of the ethash parameters: every hash is zero, every size is the epoch. *)
#[local] Instance zero_ethash : Ethash := {|
  light_cache_num_items := id; full_dataset_num_items := id; light_cache := fun _ => [];
  get_light_cache_size := id; get_full_dataset_size := id;
  ethash_hash := fun _ _ _ => {| value := h_zero 32; r_mixHash := h_zero 32 |} |}.

Definition example_devices : devices :=
  [("cpu-0", example_device); ("cpu-1", example_device); ("cpu-2", example_device)].
Definition example_settings : FarmSettings := {| dagLoadMode := 0; noEval := false; ergodicity := 0 |}.
Definition example_farm : Farm := snd (start 0 (Farm_new example_devices example_settings 0 77)).
Definition example_work : WorkPackage :=
  set_exSizeBytes 4 (set_startNonce 0xabcd000000000000 WorkPackage_default).

Example setWork_three_miners :
  (fun f => (fun x => startNonce (m_work (fm x))) <$> m_miners f) <$>
    (match setWork 0 example_work example_farm with Ok f => Some f | Throw _ => None end) =
  Some [0xabcd000000000000; 0xabcd400000000000; 0xabcd800000000000].
Proof. vm_compute. reflexivity. Qed.

Lemma setWork_extranonce_segments_witness : exists f' w,
  setWork 0 example_work example_farm = Ok f' /\ m_nonce_segment_with f' = w.
Proof.
  destruct (setWork_extranonce_segments 0 example_work example_farm) as (f' & w & H1 & H2 & _);
    [by_evaluation..|]. exists f', w. split; [exact H1 | exact H2].
Defined.

Lemma setWork_scrambled_segments_witness : exists f', setWork 0 WorkPackage_default example_farm = Ok f'.
Proof.
  destruct (setWork_scrambled_segments 0 WorkPackage_default example_farm) as [H _];
    [by_evaluation..|]. destruct H as (f' & Hf & _); [reflexivity | by_evaluation|]. exists f'. exact Hf.
Defined.

Lemma example_farm_reachable : farm_reachable example_farm.
Proof.
  exists example_devices, example_settings, 0, 77. eapply star_step; [|apply star_refl].
  apply (FsStart 0).
Qed.

Lemma farm_telemetry_consistent_witness : fst (collectData false example_farm) = Ok tt.
Proof. apply (farm_telemetry_consistent example_farm). apply example_farm_reachable. Defined.

Definition example_solution : Solution :=
  {| nonce := 5; mixHash := h_zero 32; work := WorkPackage_default; tstamp := 0; midx := 1 |}.

Lemma submitProof_forwards_valid_witness :
  fst (submitProofAsync 0 example_solution example_farm) = Ok (Some example_solution).
Proof.
  pose proof (submitProof_forwards_valid 0 example_solution example_farm
    (farm_reachable_inv _ example_farm_reachable)) as H.
  assert (Hle : to_arith 32 (h_zero 32) <=? to_arith 32 (boundary (work example_solution)) = true)
    by (vm_compute; reflexivity).
  specialize (H ltac:(by_evaluation) ltac:(by_evaluation) ltac:(by_evaluation)).
  destruct (submitProofAsync 0 example_solution example_farm) as [out f'].
  change (noEval (m_Settings example_farm)) with false in H. cbn [value ethash_hash zero_ethash] in H.
  rewrite Hle in H. destruct H as [-> _]. reflexivity.
Defined.

Lemma restart_replaces_miners_witness :
  length (accounts (snd (start 9 (fst (stop example_farm))))) = 6%nat.
Proof.
  pose proof (restart_replaces_miners example_farm 9 eq_refl) as H. cbn zeta in H.
  destruct (start 9 (fst (stop example_farm))) as [ok f'].
  destruct H as (_ & _ & _ & _ & _ & H & _). exact H.
Defined.
