(* ===== verification/FarmFace.v ===== *)
(** * libethcore: the interface between the farm and its miners, and the farm's strand

    The abstract class [FarmFace] of src/libethcore/Miner.h as a type class with what a miner may rely
    on, and its implementation by the farm with the calls posted for its io strand
    (src/libethcore/Farm.{h,cpp}): [submitProof] and [restart_async] only post; the strand runs the posted
    calls one at a time, but [io_service.post(strand.wrap(...))] promises no order, so which of the
    pending calls comes next is left to a schedule.
    The search of CPUMiner is restated with its calls of [submitProof], nonce by nonce, on any
    implementation of the interface. *)

From S2P Require Import Prelude CppString CommonData FixedHash Worker Float.
From S2P Require Import Types Telemetry Miner CpuMiner Farm.

(** ** The interface *)

(** The laws: submitting a solution or accounting for one moves nobody's segment. *)
Class FarmFace (F : Type) := {
  get_ergodicity : F -> Z;
  face_submitProof : Solution -> F -> F;
  face_accountSolution : Z -> Z -> SolutionAccountingEnum -> SE F unit;     (* at a time *)
  get_nonce_scrambler : F -> Z;
  get_segment_width : F -> Z;
  submit_moves_nothing sol f : get_nonce_scrambler (face_submitProof sol f) = get_nonce_scrambler f /\
    get_segment_width (face_submitProof sol f) = get_segment_width f;
  account_moves_nothing now i k f :
    get_nonce_scrambler (snd (face_accountSolution now i k f)) = get_nonce_scrambler f /\
    get_segment_width (snd (face_accountSolution now i k f)) = get_segment_width f }.

(** ** A miner that submits *)

Section submitting.
Context {F : Type} {Face : FarmFace F}.
Context (randomx_calculate_hash : bytes -> hash).

(** The inner loop of [search]: every nonce that passes the test is submitted at once. *)
Definition submit_nonce (w : WorkPackage) (m_index now : Z) (f : F) (n : Z) : F :=
  match try_nonce randomx_calculate_hash w m_index now n with
  | Some sol => face_submitProof sol f
  | None => f
  end.
Definition submit_block (w : WorkPackage) (m_index now nonce : Z) (f : F) : F :=
  fold_left (submit_nonce w m_index now) (block_nonces nonce) f.

(** The outer loop, on the miner, its nonce and the farm. *)
Fixpoint submit_loop (w : WorkPackage) (env : list turn) (m : Miner) (nonce : Z) (f : F) : Miner * Z * F :=
  match env with
  | [] => (m, nonce, f)
  | t :: env' =>
      let m := if kicked t then kick_miner m else m in
      if m_new_work m then (set_new_work false m, nonce, f)
      else if asked_to_stop t then (m, nonce, f)
      else submit_loop w env' (updateHashRate blocksize 1 (at_time t) m) (u64 (nonce + blocksize))
             (submit_block w (m_index m) (at_time t) nonce f)
  end.
End submitting.

(** ** The farm's strand *)

Inductive strand_task := PostedProof (sol : Solution) | PostedRestart.

(** [strand] are the posted calls that have not run yet; their order means nothing. *)
Record PostedFarm := { pf : Farm; strand : list strand_task; forwarded : list Solution }.

Definition submitProof (_s : Solution) (f : PostedFarm) : PostedFarm :=
  {| pf := pf f; strand := PostedProof _s :: strand f; forwarded := forwarded f |}.
Definition restart_async (f : PostedFarm) : PostedFarm :=
  {| pf := pf f; strand := PostedRestart :: strand f; forwarded := forwarded f |}.
Definition posted_account (now i : Z) (k : SolutionAccountingEnum) : SE PostedFarm unit := fun f =>
  let '(r, g) := Farm.accountSolution now i k (pf f) in
  (r, {| pf := g; strand := strand f; forwarded := forwarded f |}).

Section strand.
Context {Eth : Ethash}.

(** One of the posted calls, the [i]-th of those pending: the schedule chooses [i].  [m_onMinerRestart]
    is the handler the pool manager installs; the solutions given to [m_onSolutionFound] are recorded. *)
Definition run_strand (i : nat) (now : Z) (m_onMinerRestart : option (Farm -> Farm)) : SE PostedFarm unit := fun f =>
  match strand f !! i with
  | None => (Ok tt, f)
  | Some (PostedProof sol) =>
      let '(r, g) := submitProofAsync now sol (pf f) in
      match r with
      | Ok o => (Ok tt, {| pf := g; strand := delete i (strand f); forwarded := forwarded f ++ option_list o |})
      | Throw e => (Throw e, {| pf := g; strand := delete i (strand f); forwarded := forwarded f |})
      end
  | Some PostedRestart =>
      (Ok tt, {| pf := match m_onMinerRestart with Some h => h (pf f) | None => pf f end;
                 strand := delete i (strand f); forwarded := forwarded f |})
  end.

(** ** Schedules *)

(** What may happen between the miners and the manager, in any order: a miner searches and submits, a
    restart is posted, the io thread runs the [i]-th pending call. *)
Inductive posted_event :=
  | EvSearch (w : WorkPackage) (env : list turn) (m : Miner)
  | EvRestart
  | EvRun (i : nat) (now : Z).

Definition posted_step (randomx : bytes -> hash) (h : option (Farm -> Farm)) {Face : FarmFace PostedFarm}
    (f : PostedFarm) (e : posted_event) : PostedFarm :=
  match e with
  | EvSearch w env m => snd (submit_loop randomx w env m (startNonce w) f)
  | EvRestart => restart_async f
  | EvRun i now => snd (run_strand i now h f)
  end.

(** The io thread left alone: at every turn one of the pending calls, chosen by the schedule. *)
Definition run_pending (h : option (Farm -> Farm)) (f : PostedFarm) (pick : nat * Z) : PostedFarm :=
  snd (run_strand (fst pick mod length (strand f))%nat (snd pick) h f).
End strand.

(** * Proofs *)

Lemma account_segments now i k f :
  m_nonce_scrambler (snd (Farm.accountSolution now i k f)) = m_nonce_scrambler f /\
  m_nonce_segment_with (snd (Farm.accountSolution now i k f)) = m_nonce_segment_with f.
Proof. unfold Farm.accountSolution. by case_match. Qed.

#[export, refine] Instance posted_farm_face : FarmFace PostedFarm := {|
  get_ergodicity f := ergodicity (m_Settings (pf f));
  face_submitProof := submitProof;
  face_accountSolution := posted_account;
  get_nonce_scrambler f := m_nonce_scrambler (pf f);
  get_segment_width f := m_nonce_segment_with (pf f) |}.
Proof.
  - done.
  - intros now i k f. unfold posted_account. pose proof (account_segments now i k (pf f)) as H.
    by destruct (Farm.accountSolution now i k (pf f)).
Defined.

Section submitting_theorems.
Context {F : Type} {Face : FarmFace F}.
Context (randomx : bytes -> hash).

Definition submit_all (f : F) (l : list Solution) : F := fold_left (fun f sol => face_submitProof sol f) l f.

Lemma submit_block_all w i now n f :
  submit_block randomx w i now n f = submit_all f (search_block randomx w i now n).
Proof.
  unfold submit_block, search_block, submit_all. generalize (block_nonces n). intros l. revert f.
  induction l as [|x l IH]; intros f; [done|]. cbn [fold_left omap list_omap]. unfold submit_nonce at 2.
  destruct (try_nonce _ _ _ _ x); cbn [fold_left]; apply IH.
Qed.

Lemma submit_all_app f l l' : submit_all f (l ++ l') = submit_all (submit_all f l) l'.
Proof. apply fold_left_app. Qed.

Lemma submit_loop_all w env f : forall s0,
  submit_loop randomx w env (s_miner s0) (s_nonce s0) (submit_all f (s_found s0)) =
  (s_miner (search_loop randomx w env s0), s_nonce (search_loop randomx w env s0),
   submit_all f (s_found (search_loop randomx w env s0))).
Proof.
  induction env as [|t env IH]; intros s0; [done|]. cbn [submit_loop search_loop]. cbv zeta.
  destruct (m_new_work _); [done|]. destruct (asked_to_stop t); [done|].
  rewrite submit_block_all, <- submit_all_app. by rewrite <- IH.
Qed.

(** The search submits, on any implementation of the interface, exactly the solutions that the search of
    CpuMiner collects, each once and in the order of their nonces, and ends with the same miner and
    nonce; and no submission moves a segment. *)
Theorem search_submits_in_order (w : WorkPackage) (env : list turn) (m : Miner) (f : F) :
  let s := search randomx true w env m in
  submit_loop randomx w env m (startNonce w) f = (s_miner s, s_nonce s, submit_all f (s_found s)) /\
  get_nonce_scrambler (submit_all f (s_found s)) = get_nonce_scrambler f /\
  get_segment_width (submit_all f (s_found s)) = get_segment_width f.
Proof.
  intros s. split.
  - apply (submit_loop_all w env f {| s_miner := m; s_nonce := startNonce w; s_found := []; s_running := true |}).
  - clearbody s. generalize (s_found s). intros l. revert f.
    induction l as [|sol l IH]; intros f; [done|].
    change (submit_all f (sol :: l)) with (submit_all (face_submitProof sol f) l).
    destruct (IH (face_submitProof sol f)) as [-> ->].
    apply submit_moves_nothing.
Qed.

End submitting_theorems.

(** On the farm itself nothing but the posted calls changes. *)
Lemma submit_all_posted (f : PostedFarm) l :
  submit_all f l = {| pf := pf f; strand := rev (PostedProof <$> l) ++ strand f; forwarded := forwarded f |}.
Proof.
  revert f. induction l as [|sol l IH]; intros f; [by destruct f|].
  change (submit_all f (sol :: l)) with (submit_all (submitProof sol f) l). rewrite IH. cbn. by rewrite <- app_assoc.
Qed.

Section strand_theorems.
Context {Eth : Ethash} (randomx : bytes -> hash).

(** The solutions among the posted calls, and those the events of a schedule add. *)
Definition proof_of (t : strand_task) : option Solution :=
  match t with PostedProof sol => Some sol | PostedRestart => None end.
Definition pending (f : PostedFarm) : list Solution := omap proof_of (strand f).
Definition found_by (e : posted_event) : list Solution :=
  match e with EvSearch w env m => s_found (search randomx true w env m) | _ => [] end.

(** What the verification makes of a solution, from the farm's [noEval] alone. *)
Definition verified (no_eval : bool) (sol : Solution) : option Solution :=
  if no_eval then Some sol
  else let r := ethash_hash (epoch (work sol)) (header (work sol)) (nonce sol) in
    if hash_gt (value r) (boundary (work sol)) then None
    else Some {| nonce := nonce sol; mixHash := r_mixHash r; work := work sol; tstamp := tstamp sol; midx := midx sol |}.

Lemma submitProofAsync_verified now sol f :
  m_Settings (snd (submitProofAsync now sol f)) = m_Settings f /\
  match fst (submitProofAsync now sol f) with
  | Ok o => o = verified (noEval (m_Settings f)) sol
  | Throw _ => verified (noEval (m_Settings f)) sol = None
  end.
Proof.
  unfold submitProofAsync, verified. destruct (noEval _); [done|]. cbn [negb]. cbv zeta.
  destruct (hash_gt _ _); [|done]. unfold se_bind, Farm.accountSolution. by destruct (_ !! Z.to_nat _).
Qed.

(** What has been handed over or will be, by the settings the farm has. *)
Definition account (b : bool) (f : PostedFarm) : list Solution := forwarded f ++ omap (verified b) (pending f).

Lemma run_strand_account i now h f : (forall hh g, h = Some hh -> m_Settings (hh g) = m_Settings g) ->
  let f' := snd (run_strand i now h f) in
  m_Settings (pf f') = m_Settings (pf f) /\
  account (noEval (m_Settings (pf f))) f' ≡ₚ account (noEval (m_Settings (pf f))) f /\
  strand f' = (if strand f !! i then delete i (strand f) else strand f).
Proof.
  intros Hh. unfold run_strand. destruct (strand f !! i) as [t|] eqn:E; [|done]. unfold account, pending.
  set (V := verified (noEval (m_Settings (pf f)))).
  assert (Hp : omap V (omap proof_of (strand f)) ≡ₚ omap V (omap proof_of (t :: delete i (strand f))))
    by (do 2 f_equiv; by apply delete_Permutation).
  destruct t as [sol|].
  - pose proof (submitProofAsync_verified now sol (pf f)) as [Hs Hv].
    destruct (submitProofAsync now sol (pf f)) as [[o|e] g]; cbn in Hs, Hv; cbn [snd pf strand forwarded];
      (split_and!; [done| |done]); rewrite Hp; cbn [omap list_omap proof_of]; fold V in Hv.
    + rewrite <- Hv, <- app_assoc. by destruct o.
    + by rewrite Hv.
  - cbn [snd pf strand forwarded]. split_and!; [|by rewrite Hp|done]. destruct h; [by eapply Hh|done].
Qed.

Lemma posted_step_account h e f : (forall hh g, h = Some hh -> m_Settings (hh g) = m_Settings g) ->
  let f' := posted_step randomx h f e in let b := noEval (m_Settings (pf f)) in
  m_Settings (pf f') = m_Settings (pf f) /\
  account b f' ≡ₚ account b f ++ omap (verified b) (found_by e).
Proof.
  intros Hh f' b. destruct e as [w env m| |i now]; cbn [found_by].
  - subst f'. cbn [posted_step]. destruct (search_submits_in_order randomx w env m f) as (-> & _).
    cbn [snd]. rewrite submit_all_posted. split; [done|]. unfold account, pending. cbn [pf strand forwarded].
    rewrite <- app_assoc. f_equiv. rewrite !omap_app, (Permutation_app_comm (omap (verified b) (omap _ (rev _)))).
    f_equiv. rewrite <- Permutation_rev. generalize (s_found (search randomx true w env m)). intros l.
    induction l as [|x l IH]; [done|]. cbn. destruct (verified b x); by rewrite IH.
  - split; [done|]. cbn. by rewrite app_nil_r.
  - cbn [omap list_omap]. rewrite app_nil_r. by destruct (run_strand_account i now h f Hh) as (H1 & H2 & _).
Qed.

Lemma posted_steps_account h es : forall f, (forall hh g, h = Some hh -> m_Settings (hh g) = m_Settings g) ->
  let f' := fold_left (posted_step randomx h) es f in let b := noEval (m_Settings (pf f)) in
  m_Settings (pf f') = m_Settings (pf f) /\
  account b f' ≡ₚ account b f ++ omap (verified b) (flat_map found_by es).
Proof.
  induction es as [|e es IH]; intros f Hh; [split; [done|]; cbn; by rewrite app_nil_r|]. cbn zeta. cbn [fold_left flat_map].
  destruct (posted_step_account h e f Hh) as [H1 H2]. destruct (IH (posted_step randomx h f e) Hh) as [H3 H4].
  rewrite H1 in H3, H4. split; [done|]. by rewrite H4, H2, omap_app, <- app_assoc.
Qed.

Lemma run_pending_all h picks : forall f, (forall hh g, h = Some hh -> m_Settings (hh g) = m_Settings g) ->
  length picks = length (strand f) ->
  let f' := fold_left (run_pending h) picks f in let b := noEval (m_Settings (pf f)) in
  strand f' = [] /\ account b f' ≡ₚ account b f.
Proof.
  induction picks as [|[i now] picks IH]; intros f Hh Hl.
  { split; [by apply nil_length_inv|done]. }
  cbn zeta. cbn [fold_left]. unfold run_pending at 2 4. cbn [fst snd].
  set (k := (i mod length (strand f))%nat).
  assert (Hk : (k < length (strand f))%nat) by (apply Nat.mod_upper_bound; cbn in Hl; lia).
  destruct (run_strand_account k now h f Hh) as (H1 & H2 & H3).
  apply lookup_lt_is_Some in Hk. destruct (strand f !! k) eqn:E; [|by destruct Hk].
  destruct (IH (snd (run_strand k now h f)) Hh) as [H4 H5].
  { rewrite H3, length_delete by (by rewrite E; eexists). cbn in Hl. lia. }
  rewrite H1 in H5. split; [done|]. by rewrite H5.
Qed.

(** C31: No share is lost or handed over twice between the miners and the pool manager, in whatever
    order the posted calls run: however searches, restarts and runs of the strand interleave, the
    solutions handed over so far and those the pending calls will hand over are together exactly the
    ones handed over or pending at the start and those of the searches, each as often as it was found,
    less the ones the verification refuses (none when evaluation is off); and the strand, left alone,
    runs out of calls in as many turns as there are calls, whichever it takes first, and then all of
    them have been handed over. *)
Theorem shares_reach_manager_once (h : option (Farm -> Farm)) (es : list posted_event) (f : PostedFarm) :
  (forall hh g, h = Some hh -> m_Settings (hh g) = m_Settings g) ->
  let b := noEval (m_Settings (pf f)) in
  let f1 := fold_left (posted_step randomx h) es f in
  let all := forwarded f ++ omap (verified b) (pending f ++ flat_map found_by es) in
  forwarded f1 ++ omap (verified b) (pending f1) ≡ₚ all /\
  forall picks, length picks = length (strand f1) ->
    let f2 := fold_left (run_pending h) picks f1 in
    strand f2 = [] /\ forwarded f2 ≡ₚ all.
Proof.
  intros Hh b f1 all. destruct (posted_steps_account h es f Hh) as [H1 H2]. fold f1 b in H1, H2.
  assert (Ha : account b f1 ≡ₚ all) by (rewrite H2; unfold account, all; by rewrite omap_app, <- app_assoc).
  split; [exact Ha|]. intros picks Hl f2. destruct (run_pending_all h picks f1 Hh Hl) as [H3 H4].
  fold f2 in H3, H4. rewrite H1 in H4. fold b in H4. split; [done|]. rewrite <- Ha, <- H4. unfold account, pending.
  rewrite H3. cbn. by rewrite app_nil_r.
Qed.

(** Nothing more is promised: of two shares posted one after the other either may be handed over first. *)
Theorem order_not_promised (now : Z) (sol sol' : Solution) (f : PostedFarm) :
  noEval (m_Settings (pf f)) = true -> strand f = [] ->
  let f1 := submitProof sol' (submitProof sol f) in
  forwarded (fold_left (run_pending None) [(0%nat, now); (0%nat, now)] f1) = forwarded f ++ [sol'; sol] /\
  forwarded (fold_left (run_pending None) [(1%nat, now); (0%nat, now)] f1) = forwarded f ++ [sol; sol'].
Proof.
  intros He Hs. unfold run_pending, run_strand, submitProof, submitProofAsync. cbn. rewrite Hs. cbn. rewrite He. cbn. rewrite He. cbn.
  by rewrite <- !app_assoc.
Qed.
End strand_theorems.

#[local] Existing Instance Farm.zero_ethash.

(** One search finds a block of solutions, a restart is posted, and the io thread takes the last posted call first. *)
Lemma shares_reach_manager_once_witness :
  let found := s_found (search (fun _ => h_zero 32) true example_work
    [{| kicked := false; asked_to_stop := false; at_time := 7 |}] (Miner_new 0 example_device 0)) in
  found <> [] /\ exists f2, strand f2 = [] /\ forwarded f2 ≡ₚ found.
Proof.
  cbv zeta. split; [by vm_compute|].
  set (f := {| pf := Farm_new example_devices {| dagLoadMode := 0; noEval := true; ergodicity := 0 |} 0 77;
               strand := []; forwarded := [] |}).
  set (es := [EvSearch example_work [{| kicked := false; asked_to_stop := false; at_time := 7 |}] (Miner_new 0 example_device 0);
              EvRestart]).
  pose proof (shares_reach_manager_once (fun _ => h_zero 32) (Some (fun g => g)) es f
    ltac:(by intros hh g [= <-])) as [_ H].
  specialize (H (replicate _ (0%nat, 5)) (length_replicate _ _)) as [H1 H2].
  eexists. split; [exact H1|]. rewrite H2. cbn [forwarded f pending strand flat_map found_by es app omap list_omap].
  rewrite app_nil_r. generalize (s_found (search (fun _ => h_zero 32) true example_work
    [{| kicked := false; asked_to_stop := false; at_time := 7 |}] (Miner_new 0 example_device 0))). intros l.
  change (omap Some l ≡ₚ l). induction l as [|x l IH]; [done|]. cbn. by constructor.
Defined.
