(* ===== verification/FarmLife.v ===== *)
(** * libethcore/Farm: the life of the farm

    The constructor, the destructor and the restart of [Farm] of src/libethcore/Farm.cpp together
    with what they do to the RandomY library through [CPUMiner] (CpuDevice): the dataset, and one
    virtual machine for each miner, made with the miner and destroyed with it; and the script
    [reboot] starts.  The miners are held by the farm alone, so that they are destroyed when [stop]
    clears their list. *)

From stdpp Require Import gmultiset.
From S2P Require Import Prelude CppString CommonData FixedHash Float Types Telemetry Worker Miner CpuMiner CpuDevice Farm.

Section life.
Context `{Ethash}.
Context (RANDOMX_FLAG_LARGE_PAGES RANDOMX_FLAG_HARD_AES RANDOMX_FLAG_FULL_MEM RANDOMX_FLAG_JIT : Z).
#[local] Notation get := (getRandomYDataset RANDOMX_FLAG_LARGE_PAGES RANDOMX_FLAG_HARD_AES RANDOMX_FLAG_FULL_MEM RANDOMX_FLAG_JIT).
#[local] Notation release := (releaseRandomYDataset RANDOMX_FLAG_LARGE_PAGES RANDOMX_FLAG_HARD_AES RANDOMX_FLAG_FULL_MEM RANDOMX_FLAG_JIT).
#[local] Notation new_miner := (CPUMiner_new RANDOMX_FLAG_LARGE_PAGES RANDOMX_FLAG_HARD_AES RANDOMX_FLAG_FULL_MEM RANDOMX_FLAG_JIT).

(** [m_CPSettings.flags] *)
Context (flags : Z).

(** The farm, its miners as the library knows them, the library. *)
Record Life := { lf : Farm.Farm; machines : list CPUMiner; ry : RandomY }.

(** [Farm::Farm] *)
Definition Life_new (_devices : devices) (_settings : FarmSettings) (now rnd : Z) (w : answers) : Life :=
  {| lf := Farm_new _devices _settings now rnd; machines := []; ry := snd (get flags w RandomY_init) |}.

(** The devices a miner is made for, in [start]'s loop: [ws i] is what the system answers to miner [i]. *)
Fixpoint make_machines (now : Z) (ws : nat -> answers) (l : list (string * DeviceDescriptor)) (i : nat) (s : RandomY)
    : list CPUMiner * RandomY :=
  match l with
  | [] => ([], s)
  | it :: l' =>
      if bool_decide (subscriptionType (snd it) = DS_Cpu) then
        let '(m, s) := new_miner (Z.of_nat i) flags (snd it) now (ws i) s in
        let '(ms, s) := make_machines now ws l' (S i) s in
        (m :: ms, s)
      else make_machines now ws l' i s
  end.

Definition life_start (now : Z) (ws : nat -> answers) (l : Life) : Life :=
  if m_isMining (lf l) then l
  else
    let f' := snd (Farm.start now (lf l)) in
    match m_miners (lf l) with
    | [] => let '(ms, s) := make_machines now ws (m_DevicesCollection (lf l)) 0 (ry l) in
            {| lf := f'; machines := ms; ry := s |}
    | _ => {| lf := f'; machines := machines l; ry := ry l |}
    end.

(** [m_miners.clear()] *)
Fixpoint delete_machines (ms : list CPUMiner) (s : RandomY) : RandomY :=
  match ms with
  | [] => s
  | m :: ms' => delete_machines ms' (snd (CPUMiner_delete m s))
  end.

Definition life_stop (l : Life) : Life :=
  if m_isMining (lf l)
  then {| lf := fst (Farm.stop (lf l)); machines := []; ry := delete_machines (machines l) (ry l) |}
  else l.

(** The handler the pool manager installs, and [restart], which calls the installed one. *)
Definition restart_handler (now : Z) (ws : nat -> answers) (l : Life) : Life :=
  life_start now ws (if m_isMining (lf l) then life_stop l else l).
Definition restart (m_onMinerRestart : option (Life -> Life)) (l : Life) : Life :=
  match m_onMinerRestart with Some handler => handler l | None => l end.

(** [Farm::~Farm] *)
Definition Life_delete (w : answers) (l : Life) : Life :=
  let l := if m_isMining (lf l) then life_stop l else l in
  {| lf := lf l; machines := machines l; ry := release flags w (ry l) |}.

(** The calls on the farm. *)
Inductive life_step : Life -> Life -> Prop :=
  | LfStart now ws l : life_step l (life_start now ws l)
  | LfStop l : life_step l (life_stop l)
  | LfRestart now ws l : life_step l (restart (Some (restart_handler now ws)) l)
  | LfFarm f' l : farm_step (lf l) f' -> m_isMining f' = m_isMining (lf l) ->
      life_step l {| lf := f'; machines := machines l; ry := ry l |}.
Definition life_reachable (l : Life) : Prop :=
  exists devs settings now rnd w, star life_step (Life_new devs settings now rnd w) l.

(** The virtual machines that are made and not destroyed. *)
Definition live_after (c : call) (X : gmultiset Z) : gmultiset Z :=
  match c with
  | CreateVm _ _ (Some vm) => X ⊎ {[+ vm +]}
  | DestroyVm vm => X ∖ {[+ vm +]}
  | _ => X
  end.
Definition live (l : list call) : gmultiset Z := fold_left (fun X c => live_after c X) l ∅.
Definition handles (ms : list CPUMiner) : gmultiset Z := list_to_set_disj (omap m_vm ms).

(** ** Proofs *)

Lemma live_app a b : live (a ++ b) = fold_left (fun X c => live_after c X) b (live a).
Proof. apply fold_left_app. Qed.

(** Calls that make or destroy no machine and release nothing. *)
Definition neutral (c : call) : bool :=
  match c with CreateVm _ _ _ | DestroyVm _ | ReleaseDataset _ => false | _ => true end.

Lemma neutral_live l X : Forall (fun c => neutral c = true) l -> fold_left (fun X c => live_after c X) l X = X.
Proof. intros Hl. revert X. induction Hl as [|c l Hc Hl IH]; intros X; [done|]. cbn. rewrite IH. by destruct c. Qed.

Lemma get_neutral w s : exists l, calls (snd (get flags w s)) = calls s ++ l /\ Forall (fun c => neutral c = true) l.
Proof.
  assert (Hshow : Forall (fun c => neutral c = true) (showRandomYFlags RANDOMX_FLAG_LARGE_PAGES RANDOMX_FLAG_HARD_AES
    RANDOMX_FLAG_FULL_MEM RANDOMX_FLAG_JIT flags)) by (unfold showRandomYFlags; repeat case_match; cbn; by repeat constructor).
  unfold getRandomYDataset. destruct (dataset s); [exists []; by rewrite app_nil_r|].
  destruct (new_cache w); cbn [snd calls add_calls].
  2: { eexists. rewrite <- app_assoc. split; [done|]. apply Forall_app. split; [done|by repeat constructor]. }
  destruct (new_dataset w); cbn [snd calls add_calls]; eexists; rewrite <- !app_assoc; (split; [done|]);
    (apply Forall_app; split; [done|]); try (by repeat constructor).
  repeat (constructor; [done|]). apply Forall_app. split; [|by repeat constructor]. apply Forall_fmap, Forall_true. by intros [].
Qed.

(** The library's calls account for the machines: [ms] are the live ones, nothing is released. *)
Definition accounted (ms : list CPUMiner) (s : RandomY) : Prop :=
  live (calls s) = handles ms /\ Forall (fun c => is_release c = false) (calls s).

Lemma accounted_neutral ms s l d : accounted ms s -> Forall (fun c => neutral c = true) l ->
  accounted ms {| dataset := d; calls := calls s ++ l |}.
Proof.
  intros [H1 H2] Hl. split; cbn [calls].
  - by rewrite live_app, H1, neutral_live.
  - apply Forall_app. split; [done|]. eapply Forall_impl; [exact Hl|]. by intros [].
Qed.

Lemma get_accounted ms w s : accounted ms s -> accounted ms (snd (get flags w s)).
Proof.
  intros Hs. destruct (get_neutral w s) as (l & E & Hl).
  assert (Heq : snd (get flags w s) = {| dataset := dataset (snd (get flags w s)); calls := calls s ++ l |})
    by (rewrite <- E; by destruct (snd _)).
  rewrite Heq. by apply accounted_neutral.
Qed.

Lemma handles_app a b : handles (a ++ b) = handles a ⊎ handles b.
Proof. unfold handles. by rewrite omap_app, list_to_set_disj_app. Qed.
Lemma handles_one m : handles [m] = match m_vm m with Some vm => {[+ vm +]} | None => ∅ end.
Proof. unfold handles. cbn [omap list_omap]. destruct (m_vm m); [|done]. rewrite list_to_set_disj_cons, list_to_set_disj_nil. multiset_solver. Qed.

Lemma new_accounted ms i d now w s : accounted ms s ->
  let '(m, s') := new_miner i flags d now w s in accounted (ms ++ [m]) s'.
Proof.
  intros Hs. pose proof (get_accounted ms w s Hs) as Hg. unfold CPUMiner_new.
  destruct (get flags w s) as [[x|] s1]; cbn [snd] in Hg.
  - destruct Hg as [H1 H2]. split; cbn [calls add_calls].
    + rewrite live_app, H1, handles_app, handles_one. cbn. destruct (new_vm w); multiset_solver.
    + apply Forall_app. split; [done|by repeat constructor].
  - destruct Hg as [H1 H2]. split; [|done]. rewrite H1, handles_app, handles_one. cbn. multiset_solver.
Qed.

Lemma make_accounted now ws l : forall i ms s, accounted ms s ->
  let '(new, s') := make_machines now ws l i s in
  accounted (ms ++ new) s' /\ length new = length (filter (fun it => is_cpu it = true) l).
Proof.
  induction l as [|it l IH]; intros i ms s Hs; cbn [make_machines]; [by rewrite app_nil_r|].
  rewrite filter_cons. destruct (is_cpu it) eqn:Hc; pose proof Hc as Hc'; unfold is_cpu in Hc'; rewrite Hc'; clear Hc'.
  - rewrite decide_True by done. pose proof (new_accounted ms (Z.of_nat i) (snd it) now (ws i) s Hs) as Hn.
    destruct (new_miner _ _ _ _ _ _) as [m s1]. specialize (IH (S i) _ _ Hn).
    destruct (make_machines _ _ _ _ _) as [new s2]. rewrite <- app_assoc in IH. cbn [length]. destruct IH as [? ->]. by split.
  - rewrite decide_False by done. by apply IH.
Qed.

Lemma delete_accounted ms : forall s, accounted ms s -> accounted [] (delete_machines ms s).
Proof.
  induction ms as [|m ms IH]; intros s Hs; [done|]. cbn [delete_machines]. apply IH. destruct Hs as [H1 H2].
  change (m :: ms) with ([m] ++ ms) in H1. rewrite handles_app, handles_one in H1.
  unfold CPUMiner_delete. cbn [m_vm]. destruct (m_vm m) as [vm|]; cbn [snd].
  - split; cbn [calls add_calls].
    + rewrite live_app, H1. cbn [fold_left live_after]. multiset_solver.
    + apply Forall_app. split; [done|by repeat constructor].
  - split; [|done]. rewrite H1. multiset_solver.
Qed.

(** The invariant: the farm's own, one machine per miner, and the library's account. *)
Definition life_inv (l : Life) : Prop :=
  farm_inv (lf l) /\ length (machines l) = length (m_miners (lf l)) /\ accounted (machines l) (ry l).

Lemma life_new_inv devs settings now rnd w : life_inv (Life_new devs settings now rnd w).
Proof.
  split; [|split; [done|]].
  - apply farm_reachable_inv. exists devs, settings, now, rnd. constructor.
  - apply get_accounted. split; [done|constructor].
Qed.

Lemma life_start_inv now ws l : life_inv l -> life_inv (life_start now ws l).
Proof.
  intros (Hf & Hl & Ha). unfold life_start. destruct (m_isMining (lf l)) eqn:Em; [done|].
  pose proof (start_inv now _ Hf) as Hf'.
  destruct (m_miners (lf l)) as [|x xs] eqn:Eml; [|by destruct Hf as (_ & _ & Hn & _); rewrite Hn in Eml].
  apply nil_length_inv in Hl. rewrite Hl in Ha.
  pose proof (make_accounted now ws (m_DevicesCollection (lf l)) 0 [] (ry l) Ha) as Hm.
  destruct (make_machines _ _ _ _ _) as [ms s]. destruct Hm as [Hm1 Hm2]. split_and!; [done| |done].
  cbn [lf machines]. rewrite Hm2. unfold Farm.start. rewrite Em, Eml. cbn [snd m_miners with_mining with_dag].
  destruct (start_devices_spec now (m_DevicesCollection (lf l)) (lf l)) as (-> & _). by rewrite Eml.
Qed.

Lemma life_stop_inv l : life_inv l -> life_inv (life_stop l).
Proof.
  intros (Hf & Hl & Ha). unfold life_stop. destruct (m_isMining (lf l)) eqn:Em; [|done].
  split_and!; cbn [lf machines ry].
  - eapply farm_step_inv; [constructor|done].
  - unfold Farm.stop. by rewrite Em.
  - by eapply delete_accounted.
Qed.

Lemma account_miners now i k f : length (m_miners (snd (accountSolution now i k f))) = length (m_miners f).
Proof. unfold accountSolution. cbv zeta. by destruct (_ !! _). Qed.

(** Between two starts the farm keeps its miners. *)
Lemma farm_step_length f f' : farm_step f f' -> farm_inv f -> m_isMining f' = m_isMining f ->
  length (m_miners f') = length (m_miners f).
Proof.
  assert (K : forall f f', keeps f f' -> length (m_miners f') = length (m_miners f)).
  { intros g g' (E & _). apply (f_equal length) in E. unfold indexes in E. by rewrite !length_fmap in E. }
  intros Hs Hf Hm. destruct Hs as [? ? ? ? E| | | | |? ? ? ? Hi|? ? ? Hi| | |i x w f Hx| |? f].
  - by eapply K, setWork_keeps.
  - unfold Farm.start in *. destruct (m_isMining f) eqn:E; [done|]. by destruct (m_miners f).
  - unfold Farm.stop in *. by destruct (m_isMining f).
  - apply length_fmap.
  - apply length_fmap.
  - apply account_miners.
  - unfold submitProofAsync. destruct (negb _); [|done]. destruct (hash_gt _ _); [|done].
    unfold se_bind. pose proof (account_miners now (midx s) Failed f) as E. by destruct (accountSolution _ _ _ _) as [[]].
  - apply K, collectData_keeps, Hf.
  - cbn. apply length_alter.
  - cbn. apply length_insert.
  - done.
  - unfold set_nonce_segment_width. by destruct (_ =? 0).
Qed.

Lemma life_step_inv l l' : life_step l l' -> life_inv l -> life_inv l'.
Proof.
  intros [now ws x|x|now ws x|f' x Hs Hm] Hl.
  - by apply life_start_inv.
  - by apply life_stop_inv.
  - cbn. unfold restart_handler. apply life_start_inv. destruct (m_isMining (lf x)); [by apply life_stop_inv|done].
  - destruct Hl as (Hf & Hl & Ha). split_and!; [by eapply farm_step_inv| |done]. cbn [lf machines]. rewrite Hl.
    symmetry. by apply farm_step_length.
Qed.

Lemma life_reachable_inv l : life_reachable l -> life_inv l.
Proof.
  intros (devs & settings & now & rnd & w & Hs). pose proof (life_new_inv devs settings now rnd w) as H0. revert H0.
  induction Hs as [|x y z Hxy Hyz IH]; [done|]. intros Hx. apply IH. by eapply life_step_inv.
Qed.

Lemma get_result w s : fst (get flags w s) = dataset (snd (get flags w s)).
Proof.
  unfold getRandomYDataset. destruct (dataset s) eqn:E; [done|].
  destruct (new_cache w); [|done]. by destruct (new_dataset w).
Qed.

(** C34: No virtual machine outlives its miner or the dataset: through any sequence of calls on the
    farm, restarts included and whatever allocations fail, the machines in use are exactly those of
    the farm's present miners, none when it does not mine, and the dataset is not released; the
    destructor leaves no miner and no machine in use, and releases the dataset once, as its last call. *)
Theorem machines_die_with_miners (l : Life) : life_reachable l ->
  live (calls (ry l)) = handles (machines l) /\ length (machines l) = length (m_miners (lf l)) /\
  Forall (fun c => is_release c = false) (calls (ry l)) /\
  (m_isMining (lf l) = false -> live (calls (ry l)) = ∅) /\
  forall w, let l' := Life_delete w l in
    m_isMining (lf l') = false /\ m_miners (lf l') = [] /\ live (calls (ry l')) = ∅ /\
    match dataset (ry l') with
    | Some d => exists before, calls (ry l') = before ++ [ReleaseDataset d] /\ Forall (fun c => is_release c = false) before
    | None => Forall (fun c => is_release c = false) (calls (ry l'))
    end.
Proof.
  intros Hl. apply life_reachable_inv in Hl. pose proof Hl as (Hf & Hlen & Hlive & Hrel).
  assert (Hidle : forall x, life_inv x -> m_isMining (lf x) = false -> m_miners (lf x) = [] /\ machines x = []).
  { intros x ((_ & _ & Hn & _) & Hx & _) Hm. rewrite Hn in Hx by done. split; [by apply Hn|]. by apply nil_length_inv. }
  split_and!; [done..| |].
  - intros Hm. rewrite Hlive. by destruct (Hidle l Hl Hm) as [_ ->].
  - intros w. unfold Life_delete. set (l1 := if m_isMining (lf l) then life_stop l else l).
    assert (H1 : life_inv l1 /\ m_isMining (lf l1) = false).
    { subst l1. destruct (m_isMining (lf l)) eqn:Em; [|done]. split; [by apply life_stop_inv|].
      unfold life_stop, Farm.stop. by rewrite Em. }
    clearbody l1. destruct H1 as [H1 Hm]. destruct (Hidle l1 H1 Hm) as [Hn Hk]. cbn [lf ry]. split; [done|]. split; [done|].
    destruct H1 as (_ & _ & Ha). rewrite Hk in Ha. pose proof (get_accounted [] w _ Ha) as [Hg1 Hg2].
    unfold releaseRandomYDataset. pose proof (get_result w (ry l1)) as Hr.
    destruct (get flags w (ry l1)) as [[d|] s]; cbn [fst snd] in *.
    + cbn [dataset calls add_calls]. rewrite <- Hr. split; [by rewrite live_app, Hg1|]. by eexists.
    + by rewrite <- Hr.
Qed.
End life.

(** ** The reboot script *)

(** What the file system says of a path: the size of the file and its mode, if there is one; a call
    may also throw.  [spawn] runs a program, or throws. *)
Class System := {
  exists_ : string -> res bool;
  file_size : string -> res Z;
  stat_mode : string -> option Z;
  spawn : string -> list string -> res unit }.

Definition S_IXUSR : Z := 64.
Definition S_IXGRP : Z := 8.
Definition S_IXOTH : Z := 1.

(** [spawn_file_in_bin_dir] on the programs run; [bin_dir] is the directory of the program, which is
    asked for outside the handler.  [catch (...)] catches everything. *)
Definition spawn_file_in_bin_dir `{System} (bin_dir : res string) (filename : string) (args : list string)
    : SE (list (string * list string)) bool :=
  (do dir <- se_lift bin_dir;
   let fn := dir +:+ "/" +:+ filename in
   fun run =>
     match (do found <- se_lift (exists_ fn);
            if negb found then se_ret false
            else
              do bytes <- se_lift (file_size fn);
              if bytes =? 0 then se_ret false
              else
                match stat_mode fn with
                | None => se_ret false
                | Some mode =>
                    if Z.land mode (Z.lor S_IXUSR (Z.lor S_IXGRP S_IXOTH)) =? 0 then se_ret false
                    else (exec se_lift (spawn fn args); exec se_modify (fun run => run ++ [(fn, args)]); se_ret true)
                end) run with
     | (Ok b, run) => (Ok b, run)
     | (Throw _, run) => (Ok false, run)
     end)%se.

Definition reboot `{System} (bin_dir : res string) (args : list string) : SE (list (string * list string)) bool :=
  spawn_file_in_bin_dir bin_dir "reboot.sh" args.

(** Whether the file is one the farm would run. *)
Definition runnable `{System} (fn : string) : Prop :=
  exists_ fn = Ok true /\ (exists n, file_size fn = Ok n /\ n <> 0) /\
  exists mode, stat_mode fn = Some mode /\ (Z.testbit mode 6 || Z.testbit mode 3 || Z.testbit mode 0 = true).

Lemma land_zero a b : Z.land a b = 0 <-> forall i, 0 <= i -> Z.testbit a i && Z.testbit b i = false.
Proof.
  split.
  - intros E i Hi. by rewrite <- Z.land_spec, E, Z.bits_0.
  - intros E. apply Z.bits_inj'. intros i Hi. by rewrite Z.land_spec, Z.bits_0, E.
Qed.

(** Some execute bit is set. *)
Lemma execute_bits mode : Z.land mode (Z.lor S_IXUSR (Z.lor S_IXGRP S_IXOTH)) =? 0 =
  negb (Z.testbit mode 6 || Z.testbit mode 3 || Z.testbit mode 0).
Proof.
  change (Z.lor S_IXUSR (Z.lor S_IXGRP S_IXOTH)) with 73. rewrite !negb_orb.
  apply eq_true_iff_eq. rewrite Z.eqb_eq, !andb_true_iff, !negb_true_iff, land_zero. split.
  - intros E. pose proof (E 6 ltac:(lia)) as E6. pose proof (E 3 ltac:(lia)) as E3. pose proof (E 0 ltac:(lia)) as E0.
    by rewrite andb_true_r in *.
  - intros [[E6 E3] E0] i Hi. destruct (decide (i < 7)) as [H|H].
    + assert (i = 0 \/ i = 1 \/ i = 2 \/ i = 3 \/ i = 4 \/ i = 5 \/ i = 6) as H' by lia.
      destruct H' as [->|[->|[->|[->|[->|[->| ->]]]]]]; by rewrite ?E0, ?E3, ?E6, ?andb_false_r.
    + rewrite (Z.bits_above_log2 73) by (cbn; lia). apply andb_false_r.
Qed.

(** The reboot script is started exactly when it is a file with content and an execute permission and
    starting it succeeds: then once, with the arguments given, and the answer is true; in every other
    case nothing is started and the answer is false, whatever the file system throws. *)
Theorem reboot_runs_script `{System} (dir : string) (args : list string) (run : list (string * list string)) :
  let fn := dir +:+ "/reboot.sh" in
  (runnable fn /\ spawn fn args = Ok tt -> reboot (Ok dir) args run = (Ok true, run ++ [(fn, args)])) /\
  (~ (runnable fn /\ spawn fn args = Ok tt) -> reboot (Ok dir) args run = (Ok false, run)).
Proof.
  cbn zeta. unfold reboot, spawn_file_in_bin_dir, runnable. rewrite run_lift. cbv zeta.
  change (dir +:+ "/" +:+ "reboot.sh") with (dir +:+ "/reboot.sh").
  set (fn := dir +:+ "/reboot.sh"). split.
  - intros ((-> & (n & -> & Hn) & mode & -> & Hm) & Hs). rewrite run_lift. cbn [negb]. rewrite run_lift.
    destruct (Z.eqb_spec n 0); [done|]. rewrite execute_bits, Hm. cbn [negb]. by rewrite run_lift, Hs, run_modify.
  - intros Hno. rewrite run_lift. destruct (exists_ fn) as [[]|] eqn:Ee; cbn [negb]; [|done..].
    rewrite run_lift. destruct (file_size fn) as [n|] eqn:En; [|done].
    destruct (Z.eqb_spec n 0); [done|]. destruct (stat_mode fn) as [mode|] eqn:Em; [|done].
    rewrite execute_bits. destruct (_ || _) eqn:Hx; cbn [negb]; [|done]. rewrite run_lift.
    destruct (spawn fn args) as [[]|] eqn:Es; [|done]. exfalso. apply Hno. eauto 10.
Qed.

(** ** Witness *)

(** A file system with one executable script. *)
Definition one_script (mode : Z) : System := {|
  exists_ := fun fn => Ok (String.eqb fn "/bin/reboot.sh");
  file_size := fun fn => if String.eqb fn "/bin/reboot.sh" then Ok 10 else Throw (LibError "no such file");
  stat_mode := fun fn => if String.eqb fn "/bin/reboot.sh" then Some mode else None;
  spawn := fun _ _ => Ok tt |}.
Example reboot_script :
  @reboot (one_script 493) (Ok "/bin") ["api_miner_reboot"] [] = (Ok true, [("/bin/reboot.sh", ["api_miner_reboot"])]) /\
  @reboot (one_script 420) (Ok "/bin") ["api_miner_reboot"] [] = (Ok false, []) /\
  @reboot (one_script 493) (Ok "/usr") ["api_miner_reboot"] [] = (Ok false, []).
Proof. by split_and!. Qed.

#[local] Instance zero_ethash : Ethash := {|
  light_cache_num_items := id; full_dataset_num_items := id; light_cache := fun _ => [];
  get_light_cache_size := id; get_full_dataset_size := id;
  ethash_hash := fun _ _ _ => {| value := h_zero 32; r_mixHash := h_zero 32 |} |}.

(** A farm of three miners, restarted; the machines are numbered by turn and miner. *)
Definition life_answers (turn : Z) (i : nat) : answers := {|
  new_cache := Some 1; new_dataset := Some 2; new_vm := Some (10 * turn + Z.of_nat i); item_count := 10;
  hardware_concurrency := 3 |}.
Definition example_new : Life := Life_new 1 2 4 8 12 example_devices example_settings 0 77 example_answers.
Definition example_started : Life := life_start 1 2 4 8 12 0 (life_answers 1) example_new.
Definition example_life : Life := restart (Some (restart_handler 1 2 4 8 12 1 (life_answers 2))) example_started.

Lemma example_life_reachable : life_reachable 1 2 4 8 12 example_life.
Proof.
  exists example_devices, example_settings, 0, 77, example_answers.
  exact (star_step _ example_new example_started example_life (LfStart 1 2 4 8 12 0 (life_answers 1) example_new)
    (star_step _ example_started example_life example_life (LfRestart 1 2 4 8 12 1 (life_answers 2) example_started)
      (star_refl _ example_life))).
Qed.

Lemma machines_die_with_miners_witness :
  live (calls (ry example_life)) = handles (machines example_life) /\ m_vm <$> machines example_life = [Some 20; Some 21; Some 22].
Proof.
  split; [exact (proj1 (machines_die_with_miners 1 2 4 8 12 example_life example_life_reachable))|vm_compute; reflexivity].
Defined.
