(* ===== verification/Digest.v ===== *)
(** * Digests, hashes and the evaluation of a nonce

    The text of a digest (src/libethash-cpu/picosha3.h), the members of [FixedHash] that need memory
    or a source of randomness (src/libdevcore/FixedHash.h), the environment variable setter
    (src/libdevcore/CommonData.cpp) and [EthashAux::eval] (src/libethcore/EthashAux.cpp).  The random
    engine, the hash combiner of Boost and the ethash library are parameters. *)

From S2P Require Import Prelude CppString CommonData FixedHash VectorRef PicoSha3 Sha3Sponge Worker Float Types Telemetry Miner CpuMiner Farm.

(** ** The text of a digest *)

Fixpoint bytes_to_hex_string (l : bytes) : string :=
  match l with [] => "" | b :: l' => setw 2 "0" (hex_str b) +:+ bytes_to_hex_string l' end.

Section digest.
Context (rate_bytes d_bytes : nat) (padding_type : PaddingType).

Definition get_hex_string (g : HashGenerator) : res string :=
  if is_finished_ g then Ok (bytes_to_hex_string (hash_ g)) else Throw (RuntimeError "Not finished!").

(** [get_hex_string(in_first, in_last)] *)
Definition hex_of (src : bytes) : SE HashGenerator string := fun g =>
  let g := finish rate_bytes d_bytes padding_type (process rate_bytes src g) in
  match get_hex_string g with
  | Ok hash => (Ok hash, PicoSha3.clear rate_bytes g)
  | Throw e => (Throw e, g)
  end.
End digest.

(** ** FixedHash *)

Section fixed_hash.
Context (N : nat).

(** [FixedHash(byte const* _bs, ConstructFromPointer)] *)
Definition FixedHash_of_pointer (m : memory) (_bs : Z) : hash := load m _bs N.

(** [operator[]]; [std::array] does not check the index. *)
Definition hash_at (_i : nat) (h : hash) : res Z :=
  match h !! _i with Some b => Ok b | None => Throw (UndefinedBehaviour "array index") end.

(** [ref()] of a hash whose bytes are at [address]. *)
Definition hash_ref (address : Z) : vector_ref := ref_vector address (Z.of_nat N).

(** [randomize]: a draw for every byte, in order; [draw] is a uniform distribution on 0..255. *)
Context {Engine : Type} (draw : Engine -> Z * Engine).
Fixpoint draws (n : nat) (_eng : Engine) : bytes * Engine :=
  match n with
  | O => ([], _eng)
  | S n' => let '(i, _eng) := draw _eng in let '(l, _eng) := draws n' _eng in (u8 i :: l, _eng)
  end.
Definition randomize (h : hash) (_eng : Engine) : hash * Engine := draws (length h) _eng.
Definition random (_eng : Engine) : hash * Engine := randomize (h_zero N) _eng.

(** [FixedHash::hash]: [boost::hash_range] combines the bytes, or the words of an [h256]. *)
Context (hash_combine : Z -> Z -> Z).
Definition hash_range (l : list Z) : Z := fold_left hash_combine l 0.
Definition hash_bytes (_value : hash) : Z := hash_range _value.
Definition hash_words (value : hash) : Z := hash_range (word64 value <$> List.seq 0 4).
End fixed_hash.

Definition hash_clear (h : hash) : hash := h_zero (length h).

Definition toString (_bs : list hash) : string :=
  "[ " +:+ foldr (fun i out => hash_abridged i +:+ ", " +:+ out) "" _bs +:+ "]".

(** ** The environment *)

(** [setenv] of POSIX: the name must not be empty or contain an equals sign. *)
Definition posix_setenv (name value : string) (overwrite : bool) (env : list (string * string))
    : Z * list (string * string) :=
  if String.eqb name "" || bool_decide (find_char "=" name <> None) then (-1, env)
  else match map_find name env with
       | Some _ => (0, if overwrite then map_set name value env else env)
       | None => (0, map_set name value env)
       end.
Definition setenv (name value : string) (override : bool) (env : list (string * string))
    : bool * list (string * string) :=
  let '(r, env) := posix_setenv name value override env in (r =? 0, env).

(** ** Common.h: unsigned integers of a fixed width, without overflow checks *)

Definition unchecked (bits : Z) (z : Z) : Z := wrap bits z.
Definition Invalid256 : Z := unchecked 256 (Z.lnot (unchecked 256 0)).
(** [toString] of a number. *)
Definition toString_number (_t : Z) : string := dec_str _t.

(** ** EthashAux::eval *)

(** The ethash library: the context of an epoch, and the hash of a header and a nonce in it. *)
Class EthashLib := {
  context : Type;
  get_global_epoch_context : Z -> context;
  ethash_result : context -> hash -> Z -> hash * hash;      (* mix_hash, final_hash *)
  ethash_result_law : forall c h n, hash_ok 32 (fst (ethash_result c h n)) /\ hash_ok 32 (snd (ethash_result c h n)) }.

(** The library's structures are copied byte by byte; [at_] is where its result lies. *)
Definition eval `{EthashLib} (epoch : Z) (_headerHash : hash) (_nonce : Z) : Result :=
  let context := get_global_epoch_context epoch in
  let '(mix_hash, final_hash) := ethash_result context (take 32 _headerHash) _nonce in
  let bytes := store 0 mix_hash (store 32 final_hash (fun _ => 0)) in
  {| value := FixedHash_of_pointer 32 bytes 32; r_mixHash := FixedHash_of_pointer 32 bytes 0 |}.

(** * Proofs *)

Lemma hex_toHex l : bytes_to_hex_string l = toHex l 2 DontAdd.
Proof. rewrite toHex_2. induction l as [|b l IH]; [done|]. cbn. by rewrite IH. Qed.

(** The text of a digest is the hexadecimal text of the digest's bytes: two digits for every
    byte, from which the digest is read back; the generator is then ready for the next message; and no
    text is given before the message is finished. *)
Theorem digest_text (rate d : nat) (pt : PaddingType) (m : bytes) (g : HashGenerator) :
  (0 < rate <= 200)%nat ->
  (exists text, hex_of rate d pt m (new_generator rate d) = (Ok text, PicoSha3.clear rate (finish rate d pt (process rate m (new_generator rate d)))) /\
     String.length text = (2 * d)%nat /\ fromHex text ThrowIt = Ok (fst (run rate d pt m (new_generator rate d)))) /\
  get_hex_string (PicoSha3.clear rate g) = Throw (RuntimeError "Not finished!").
Proof.
  intros Hr. split; [|done]. destruct (run_bytes rate d pt m Hr) as [Hok Hlen].
  exists (toHex (fst (run rate d pt m (new_generator rate d))) 2 DontAdd). split_and!.
  - unfold hex_of, get_hex_string. assert (Hf : is_finished_ (finish rate d pt (process rate m (new_generator rate d))) = true).
    { unfold finish. by destruct (squeeze_all _ _ _ _). }
    by rewrite Hf, hex_toHex.
  - rewrite toHex_2. cbn [with_prefix]. by rewrite toHex_rest_length, Hlen.
  - by apply fromHex_toHex_ok.
Qed.

Section random_theorems.
Context {Engine : Type} (draw : Engine -> Z * Engine).

Lemma draws_ok n : forall e, hash_ok n (fst (draws draw n e)).
Proof.
  induction n as [|n IH]; intros e; [split; [done|constructor]|]. cbn [draws]. destruct (draw e) as [i e1].
  specialize (IH e1). destruct (draws draw n e1) as [l e2]. destruct IH as [H1 H2]. cbn [fst] in *.
  split; [cbn; congruence|]. constructor; [|done]. by apply wrap_range.
Qed.

(** The identifier of a hash rate submission, a random hash as text, is read back as that hash: it is
    "0x" and 64 hexadecimal digits. *)
Theorem random_id (e : Engine) :
  let h := fst (random 32 draw e) in
  hash_ok 32 h /\ h256 (hash_hex h Add) = Ok h /\ String.length (hash_hex h Add) = 66%nat.
Proof.
  intros h. assert (Hh : hash_ok 32 h) by (subst h; apply (draws_ok 32)).
  split; [done|]. split; [by apply h256_hex|]. unfold hash_hex. rewrite toHex_2. cbn [with_prefix].
  destruct Hh as [Hl Hb]. by rewrite string_length_app, toHex_rest_length, Hl.
Qed.
End random_theorems.

(** Reading a variable back after [setenv] succeeded gives the new value, unless it was set before and
    is not to be overwritten; no other variable changes. *)
Theorem setenv_spec (name value : string) (override : bool) (env env' : list (string * string)) :
  setenv name value override env = (true, env') ->
  map_find name env' = Some (if override then value else default value (map_find name env)) /\
  forall other, other <> name -> map_find other env' = map_find other env.
Proof.
  unfold setenv, posix_setenv. destruct (_ || _); [done|]. destruct (map_find name env) as [old|] eqn:E.
  - destruct override; intros [= <-]; [|done]. split; [by rewrite map_find_set, String.eqb_refl|].
    intros other Ho. apply String.eqb_neq in Ho. by rewrite map_find_set, Ho.
  - intros [= <-]. split; [rewrite map_find_set, String.eqb_refl; by destruct override|].
    intros other Ho. apply String.eqb_neq in Ho. by rewrite map_find_set, Ho.
Qed.

Lemma load_store_same p l m : load (store p l m) p (length l) = l.
Proof.
  apply list_eq. intros i. destruct (decide (i < length l)%nat) as [Hi|Hi].
  - rewrite lookup_load by done. rewrite store_inside by lia. replace (p + Z.of_nat i - p) with (Z.of_nat i) by lia.
    rewrite Nat2Z.id. by destruct (lookup_lt_is_Some_2 l i Hi) as [x ->].
  - rewrite (lookup_ge_None_2 l) by lia. apply lookup_ge_None_2. rewrite length_load. lia.
Qed.

(** The evaluation of a nonce gives the final hash and the mix hash of the library, each in its place. *)
Theorem eval_result `{EthashLib} (epoch : Z) (h : hash) (n : Z) : length h = 32%nat ->
  let r := eval epoch h n in
  (r_mixHash r, value r) = ethash_result (get_global_epoch_context epoch) h n /\
  hash_ok 32 (value r) /\ hash_ok 32 (r_mixHash r).
Proof.
  intros Hh. cbn zeta. unfold eval. rewrite take_ge by lia.
  pose proof (ethash_result_law (get_global_epoch_context epoch) h n) as [Hm Hf].
  destruct (ethash_result _ _ _) as [mix final]. cbn [fst snd r_mixHash value] in *. unfold FixedHash_of_pointer.
  assert (E1 : load (store 0 mix (store 32 final (fun _ => 0))) 0 32 = mix).
  { destruct Hm as [Hm _]. rewrite <- Hm. apply load_store_same. }
  assert (E2 : load (store 0 mix (store 32 final (fun _ => 0))) 32 32 = final).
  { rewrite (load_ext _ (store 32 final (fun _ => 0)) 32 32).
    - destruct Hf as [Hf _]. rewrite <- Hf. apply load_store_same.
    - intros i Hi. rewrite store_outside; [done|]. destruct Hm as [Hm _]. lia. }
  by rewrite E1, E2.
Qed.

(** [Invalid256] is the largest number of its width, and as a hash all ones: no hash exceeds it. *)
Lemma invalid256_largest : Invalid256 = 2 ^ 256 - 1 /\ FixedHash_of_arith 32 Invalid256 = replicate 32 255 /\
  forall h, hash_ok 32 h -> hash_le h (FixedHash_of_arith 32 Invalid256) = true.
Proof.
  assert (E : FixedHash_of_arith 32 Invalid256 = replicate 32 255) by (vm_compute; reflexivity).
  split_and!; [vm_compute; reflexivity | done |]. intros h Hh. rewrite E.
  destruct (hash_order_numeric 32 h (replicate 32 255) Hh ltac:(by_evaluation)) as (_ & -> & _).
  apply Z.leb_le. rewrite !to_arith_value by (done || by_evaluation).
  pose proof (hash_ok_value 32 h Hh) as H. assert (be_value (replicate 32 255) = 2 ^ 256 - 1) as -> by (vm_compute; reflexivity).
  change (8 * Z.of_nat 32) with 256 in H. lia.
Qed.

(** ** Examples *)

(** A model of the ethash library: the mix is the epoch, the hash is the nonce. *)
#[local] Instance plain_ethash : EthashLib := {|
  context := Z; get_global_epoch_context := id; ethash_result := fun c _ n => (toBigEndian 32 c, toBigEndian 32 n);
  ethash_result_law := fun c _ n => conj (conj (toBigEndian_length 32 c) (toBigEndian_ok 32 c))
                                         (conj (toBigEndian_length 32 n) (toBigEndian_ok 32 n)) |}.
Example eval_model : let r := eval 7 (h_zero 32) 9 in (be_value (value r), be_value (r_mixHash r)) = (9, 7).
Proof. vm_compute. reflexivity. Qed.

Example digest_abc : exists g, hex_of 136 32 SHA [97; 98; 99] (new_generator 136 32) =
  (Ok "3a985da74fe225b2045c172d6bd390bd855f086e3e9d525b46bfe24511431532", g).
Proof. eexists. vm_compute. reflexivity. Qed.
Example hashes_text : toString [h_zero 32; h_zero 32] =
  "[ 00000000" +:+ k_ellipsis +:+ ", 00000000" +:+ k_ellipsis +:+ ", ]".
Proof. vm_compute. reflexivity. Qed.
