(* ===== verification/Regex.v ===== *)
(** * std::regex: the ECMAScript subset the program uses

    A backtracking matcher with the ECMAScript priorities (greedy repetition, leftmost
    alternative first), captures included, for the patterns of src/libpoolprotocols/PoolURI.cpp,
    src/libapicore/ApiServer.cpp and src/coreminer/main.cpp; [regex_search], [regex_match] and
    [sregex_iterator].  The lemmas give closed forms of greedy repetition, from which the
    meaning of the patterns that split a string at a separator (the last one) is derived. *)

From S2P Require Import Prelude CppString.

Inductive re :=
  | REps
  | RChar (p : ascii -> bool)
  | RBegin
  | REnd
  | RSeq (r1 r2 : re)
  | RAlt (r1 r2 : re)
  | RStar (r : re)
  | RGroup (n : nat) (r : re).

Definition caps := list (nat * string).
Definition match_result := option (string * caps).   (* the rest of the input, the groups *)

(** [b]: the position is the start of the input; [k]: what remains to be matched. *)
Fixpoint rmatch (r : re) (b : bool) (s : string) (c : caps)
    (k : bool -> string -> caps -> match_result) {struct r} : match_result :=
  match r with
  | REps => k b s c
  | RChar p => match s with
               | String a s' => if p a then k false s' c else None
               | EmptyString => None
               end
  | RBegin => if b then k b s c else None
  | REnd => match s with EmptyString => k b s c | String _ _ => None end
  | RSeq r1 r2 => rmatch r1 b s c (fun b s c => rmatch r2 b s c k)
  | RAlt r1 r2 => match rmatch r1 b s c k with
                  | Some x => Some x
                  | None => rmatch r2 b s c k
                  end
  | RGroup n r => rmatch r b s c (fun b' s' c' =>
      k b' s' ((n, stake (String.length s - String.length s') s) :: c'))
  | RStar r =>
      (fix star (fuel : nat) (b : bool) (s : string) (c : caps) : match_result :=
         match fuel with
         | O => k b s c
         | S fuel' =>
             match rmatch r b s c (fun b' s' c' =>
                     if Nat.ltb (String.length s') (String.length s) then star fuel' b' s' c'
                     else None) with
             | Some x => Some x
             | None => k b s c
             end
         end) (String.length s) b s c
  end.

Definition accept (_ : bool) (s : string) (c : caps) : match_result := Some (s, c).

(** [regex_search] from the positions of [s] on; [b] as above. *)
Fixpoint search_from (r : re) (b : bool) (s : string) : match_result :=
  match rmatch r b s [] accept with
  | Some x => Some x
  | None => match s with
            | EmptyString => None
            | String _ s' => search_from r false s'
            end
  end.

Definition regex_search (r : re) (s : string) : option caps := snd <$> search_from r true s.

(** [regex_match]: the whole input. *)
Definition regex_match (r : re) (s : string) : option caps :=
  snd <$> rmatch r true s [] (fun _ s' c => if String.eqb s' "" then Some (s', c) else None).

(** [sregex_iterator] for a pattern that never matches the empty string. *)
Fixpoint regex_iterator (fuel : nat) (r : re) (b : bool) (s : string) : list caps :=
  match fuel with
  | O => []
  | S fuel' => match search_from r b s with
               | None => []
               | Some (s', c) => c :: regex_iterator fuel' r false s'
               end
  end.

(** [matches[n].str()] *)
Fixpoint group (n : nat) (c : caps) : string :=
  match c with
  | [] => ""
  | (m, s) :: c' => if Nat.eqb n m then s else group n c'
  end.

(** ** Derived forms *)

Definition rplus (r : re) : re := RSeq r (RStar r).
(** [r{1,n+1}], greedy. *)
Fixpoint rupto (n : nat) (r : re) : re :=
  match n with O => r | S n' => RSeq r (RAlt (rupto n' r) REps) end.
Definition rlit (c : ascii) : re := RChar (Ascii.eqb c).
Fixpoint rstr (s : string) : re :=
  match s with EmptyString => REps | String c s' => RSeq (rlit c) (rstr s') end.
Definition is_alnum (c : ascii) : bool := is_digit c || is_upper c || is_lower c.
(** [.]: anything but a line terminator. *)
Definition dot (c : ascii) : bool := negb ((code c =? 10) || (code c =? 13)).
Definition dots (n : nat) : re := RGroup n (RStar (RChar dot)).

Declare Scope re_scope.
Delimit Scope re_scope with re.
Infix "@@" := RSeq (at level 60, right associativity) : re_scope.
Open Scope re_scope.

Example last_at : regex_search (RBegin @@ dots 1 @@ rlit "@" @@ dots 2 @@ REnd) "a@b@c" =
  Some [(2%nat, "c"); (1%nat, "a@b")].
Proof. reflexivity. Qed.
Example no_at : regex_search (RBegin @@ dots 1 @@ rlit "@" @@ dots 2 @@ REnd) "abc" = None.
Proof. reflexivity. Qed.
Example upto5 : regex_search (RBegin @@ dots 1 @@ rlit ":" @@ RGroup 2 (rupto 4 (RChar is_digit)) @@ REnd)
  "h:123456" = None.
Proof. reflexivity. Qed.

(** * Lemmas *)

(** Greedy repetition of one character class, in closed form. *)
Fixpoint greedy (p : ascii -> bool) (b : bool) (s : string) (k : bool -> string -> match_result)
    : match_result :=
  match s with
  | EmptyString => k b s
  | String a s' => if p a then match greedy p false s' k with
                               | Some x => Some x
                               | None => k b s
                               end
                   else k b s
  end.

Lemma star_char p b s c k :
  rmatch (RStar (RChar p)) b s c k = greedy p b s (fun b s => k b s c).
Proof.
  cbn [rmatch]. revert b. induction s as [|a s IH]; intros b; [done|].
  cbn [String.length greedy]. destruct (p a); [|done].
  assert (String.length s <? S (String.length s) = true)%nat as -> by (apply Nat.ltb_lt; lia).
  by rewrite IH.
Qed.

Lemma greedy_ext p b s k k' : (forall b s, k b s = k' b s) -> greedy p b s k = greedy p b s k'.
Proof. intros H. revert b. induction s as [|a s IH]; intros b; simpl; [done|]. by rewrite IH, H. Qed.

(** If the continuation fails on every suffix, so does the repetition. *)
Lemma greedy_none p b s k : (forall b' u v, s = u +:+ v -> k b' v = None) -> greedy p b s k = None.
Proof.
  revert b. induction s as [|a s IH]; intros b H; simpl; [by apply (H b "" "")|].
  assert (Hk : k b (String a s) = None) by by apply (H b "" (String a s)).
  destruct (p a); [|done]. rewrite IH; [done|]. intros b' u v E.
  apply (H b' (String a u) v). by rewrite string_app_cons, E.
Qed.

(** The longest prefix after which the continuation succeeds is taken: it succeeds on [d :: t]
    and on no shorter suffix. *)
Lemma greedy_last p b u d t k x : sforall p u = true ->
  (forall b' u' v, t = u' +:+ v -> k b' v = None) ->
  (forall b', k b' (String d t) = Some x) ->
  greedy p b (u +:+ String d t) k = Some x.
Proof.
  intros Hu Ht Hk. revert b. induction u as [|a u IH]; intros b.
  - change ("" +:+ String d t) with (String d t). cbn [greedy]. rewrite (greedy_none p false t) by done.
    rewrite Hk. by destruct (p d).
  - rewrite string_app_cons. simpl in Hu. apply andb_true_iff in Hu as [Ha Hu]. cbn [greedy].
    by rewrite Ha, IH.
Qed.

(** The repetition stops at the first character outside its class. *)
Lemma greedy_stop p b u d t k x : sforall p u = true -> p d = false ->
  (forall b', k b' (String d t) = Some x) -> greedy p b (u +:+ String d t) k = Some x.
Proof.
  intros Hu Hd Hk. revert b. induction u as [|a u IH]; intros b.
  - change ("" +:+ String d t) with (String d t). cbn [greedy]. by rewrite Hd, Hk.
  - rewrite string_app_cons. simpl in Hu. apply andb_true_iff in Hu as [Ha Hu]. cbn [greedy].
    by rewrite Ha, IH.
Qed.

(** The whole rest of the input is taken when the continuation accepts the empty rest. *)
Lemma greedy_all p b s k x : sforall p s = true -> (forall b', k b' "" = Some x) ->
  greedy p b s k = Some x.
Proof.
  intros Hs Hk. revert b. induction s as [|a s IH]; intros b; simpl in *; [done|].
  apply andb_true_iff in Hs as [-> Hs]. by rewrite IH.
Qed.

Lemma stake_before u v : stake (String.length (u +:+ v) - String.length v) (u +:+ v) = u.
Proof.
  rewrite string_length_app. replace (_ + _ - _)%nat with (String.length u) by lia. apply stake_app.
Qed.

(** A character absent from the rest cannot be matched on any suffix of it. *)
Definition absent (d : ascii) (s : string) : bool := sforall (fun c => negb (Ascii.eqb d c)) s.

Lemma absent_cons d a s : absent d (String a s) = negb (Ascii.eqb d a) && absent d s.
Proof. done. Qed.

Lemma absent_suffix d u v : absent d (u +:+ v) = true -> absent d v = true.
Proof. unfold absent. rewrite sforall_app. intros H. by apply andb_true_iff in H as [_ H]. Qed.

Lemma rlit_absent d b s c k : absent d s = true -> rmatch (rlit d) b s c k = None.
Proof.
  destruct s as [|a s]; [done|]. unfold absent. simpl. intros H. apply andb_true_iff in H as [H _].
  apply negb_true_iff in H. by rewrite H.
Qed.

Lemma rlit_hit d b s c k : rmatch (rlit d) b (String d s) c k = k false s c.
Proof. simpl. by rewrite Ascii.eqb_refl. Qed.

Lemma absent_app d u v : absent d (u +:+ v) = absent d u && absent d v.
Proof. apply sforall_app. Qed.

Lemma rlit_cons d b a s c k :
  rmatch (rlit d) b (String a s) c k = if Ascii.eqb d a then k false s c else None.
Proof. done. Qed.

(** A sequence is the continuation of its head. *)
Lemma rseq r1 r2 b s c k :
  rmatch (r1 @@ r2) b s c k = rmatch r1 b s c (fun b s c => rmatch r2 b s c k).
Proof. done. Qed.

Lemma rbegin r s c k : rmatch (RBegin @@ r) true s c k = rmatch r true s c k.
Proof. done. Qed.

Lemma dots_greedy n b s c k : rmatch (dots n) b s c k =
  greedy dot b s (fun b' s' => k b' s' ((n, stake (String.length s - String.length s') s) :: c)).
Proof. apply (star_char dot b s c). Qed.

(** A greedy group of any characters before a separator ends at the last [d]: the continuation sees what follows it. *)
Lemma dots_last n d b u t c k x : sforall dot u = true ->
  absent d t = true ->
  (forall b', k b' t ((n, u) :: c) = Some x) ->
  rmatch (dots n @@ rlit d) b (u +:+ String d t) c k = Some x.
Proof.
  intros Hu Ht Hk. rewrite rseq, dots_greedy. apply greedy_last; [done | |].
  - intros b' u' v ->. apply rlit_absent. by eapply absent_suffix.
  - intros b'. rewrite stake_before, rlit_hit. apply Hk.
Qed.

Lemma rgroup n r b s c k : rmatch (RGroup n r) b s c k =
  rmatch r b s c (fun b' s' c' => k b' s' ((n, stake (String.length s - String.length s') s) :: c')).
Proof. done. Qed.

Lemma rchar_cons p b a s c k :
  rmatch (RChar p) b (String a s) c k = if p a then k false s c else None.
Proof. done. Qed.

(** A non-empty run of a class, captured, ends at the first character outside the class. *)
Lemma rplus_stop n p b u d t c k x : sforall p u = true -> u <> "" -> p d = false ->
  (forall b', k b' (String d t) ((n, u) :: c) = Some x) ->
  rmatch (RGroup n (rplus (RChar p))) b (u +:+ String d t) c k = Some x.
Proof.
  intros Hu Hne Hd Hk. rewrite rgroup. unfold rplus. rewrite rseq.
  destruct u as [|a u]; [done|]. cbn [sforall] in Hu. apply andb_true_iff in Hu as [Ha Hu].
  rewrite (string_app_cons a u (String d t)) at 1.
  rewrite rchar_cons, Ha, star_char. apply greedy_stop; [done | done |].
  intros b'. rewrite stake_before. apply Hk.
Qed.
