(* ===== verification/Json.v ===== *)
(** * Json::Value: what the program relies on of jsoncpp

    The JSON library is not part of the repository: its value type and operations are the
    fields of the class [Json], its documented behaviour the laws.  The clients and the API
    server are modelled against this interface.  [JsonModel] is a model of the class, used to
    evaluate examples and to show that the laws can hold together. *)

From Stdlib Require Import SpecFloat.
From S2P Require Import Prelude CppString.
From stdpp Require Import countable.
#[local] Open Scope Z_scope.

(** [type()] of a value, with the payload of the scalars; signed and unsigned integers are not
    distinguished. *)
Inductive jview :=
  | VNull | VBool (b : bool) | VInt (z : Z) | VReal | VString (s : string) | VArray | VObject.

#[export] Instance jview_eq_dec : EqDecision jview.
Proof. solve_decision. Defined.

Class Json := {
  J : Type;
  view : J -> jview;
  jnull : J;
  of_bool : bool -> J;
  of_Z : Z -> J;
  of_string : string -> J;
  of_double : spec_float -> J;
  empty_array : J;
  jhas : J -> string -> res bool;             (* isMember *)
  jget : J -> string -> res J;                (* operator[](key): null when missing *)
  jset : J -> string -> J -> res J;           (* v[key] = x *)
  jat : J -> nat -> res J;                    (* operator[](index): null when missing *)
  jappend : J -> J -> res J;
  jsize : J -> nat;
  jelements : J -> list J;                    (* iteration over an array *)
  jmembers : J -> list (string * J);          (* iteration over an object *)
  real_string : J -> string;                  (* asString of a real number *)
  real_bool : J -> bool;                      (* asBool of a real number *)
  real_value : J -> spec_float;               (* asDouble of a real number *)
  json_parse : string -> option J;            (* Json::Reader::parse *)
  json_write : J -> string;                   (* Json::writeString *)

  view_null : view jnull = VNull;
  view_bool : forall b, view (of_bool b) = VBool b;
  view_Z : forall z, view (of_Z z) = VInt z;
  view_string : forall s, view (of_string s) = VString s;
  view_double : forall d, view (of_double d) = VReal;
  value_double : forall d, real_value (of_double d) = d;
  view_empty_array : view empty_array = VArray;
  size_empty_array : jsize empty_array = 0%nat;
  size_null : forall v, view v = VNull -> jsize v = 0%nat;
  has_null : forall v k, view v = VNull -> jhas v k = Ok false;
  get_null : forall v k, view v = VNull -> jget v k = Ok jnull;
  has_other : forall v k, view v <> VNull -> view v <> VObject ->
    exists w, jhas v k = Throw (LibError w);
  get_other : forall v k, view v <> VNull -> view v <> VObject ->
    exists w, jget v k = Throw (LibError w);
  has_object : forall v k, view v = VObject -> exists b, jhas v k = Ok b;
  get_object : forall v k, view v = VObject -> exists x, jget v k = Ok x;
  get_missing : forall v k, jhas v k = Ok false -> jget v k = Ok jnull;
  set_object : forall v k x, view v = VNull \/ view v = VObject ->
    exists v', jset v k x = Ok v' /\ view v' = VObject /\
      (forall k', jget v' k' = if String.eqb k' k then Ok x else jget v k') /\
      (forall k', jhas v' k' = if String.eqb k' k then Ok true else jhas v k');
  at_null : forall v i, view v = VNull -> jat v i = Ok jnull;
  at_other : forall v i, view v <> VNull -> view v <> VArray -> exists w, jat v i = Throw (LibError w);
  at_array : forall v i, view v = VArray -> exists x, jat v i = Ok x /\ (jsize v <= i -> x = jnull)%nat;
  append_array : forall v x, view v = VArray ->
    exists v', jappend v x = Ok v' /\ view v' = VArray /\ jsize v' = S (jsize v) /\
      (forall i, jat v' i = if Nat.eqb i (jsize v) then Ok x else jat v i);
  parse_write : forall v, json_parse (json_write v) = Some v;
  write_nonempty : forall v, json_write v <> "" }.

Section json.
Context `{Json}.

Definition isNull (v : J) : bool := bool_decide (view v = VNull).
Definition isArray (v : J) : bool := bool_decide (view v = VArray).
Definition isObject (v : J) : bool := bool_decide (view v = VObject).
Definition isString (v : J) : bool := match view v with VString _ => true | _ => false end.
Definition isBool (v : J) : bool := match view v with VBool _ => true | _ => false end.

(** A real number at least 0 and its integer part, with whether it is integral. *)
Definition real_floor (d : spec_float) : option (Z * bool) :=
  match d with
  | S754_zero _ => Some (0, true)
  | S754_finite false m e =>
      if 0 <=? e then Some (Zpos m * 2 ^ e, true)
      else Some (Zpos m / 2 ^ (- e), Zpos m mod 2 ^ (- e) =? 0)
  | _ => None
  end.
(** A real number of [0, 2^w - 1]: its integer part and whether it is integral. *)
Definition real_uint (w : Z) (d : spec_float) : option (Z * bool) :=
  match real_floor d with
  | Some (z, b) => if z + (if b then 0 else 1) <? 2 ^ w then Some (z, b) else None
  | None => None
  end.

Definition isUInt (v : J) : bool :=
  match view v with
  | VInt z => (0 <=? z) && (z <? 2 ^ 32)
  | VReal => match real_uint 32 (real_value v) with Some (_, b) => b | None => false end
  | _ => false
  end.

(** [empty()]: null, or a container without elements. *)
Definition jempty (v : J) : bool :=
  match view v with
  | VNull => true
  | VArray | VObject => Nat.eqb (jsize v) 0
  | _ => false
  end.

(** The documented conversions. *)
Definition asString (v : J) : res string :=
  match view v with
  | VNull => Ok ""
  | VString s => Ok s
  | VBool b => Ok (if b then "true" else "false")
  | VInt z => Ok (dec_str z)
  | VReal => Ok (real_string v)
  | VArray | VObject => Throw (LibError "Type is not convertible to string")
  end.

Definition asBool (v : J) : res bool :=
  match view v with
  | VBool b => Ok b
  | VNull => Ok false
  | VInt z => Ok (negb (z =? 0))
  | VReal => Ok (real_bool v)
  | _ => Throw (LibError "Value is not convertible to bool.")
  end.

(** [asUInt] and [asUInt64] *)
Definition asUInt (w : Z) (v : J) : res Z :=
  match view v with
  | VInt z => if (0 <=? z) && (z <? 2 ^ w) then Ok z else Throw (LibError "LargestInt out of UInt range")
  | VNull => Ok 0
  | VBool b => Ok (if b then 1 else 0)
  | VReal => match real_uint w (real_value v) with
             | Some (z, _) => Ok z
             | None => Throw (LibError "double out of UInt range")
             end
  | _ => Throw (LibError "Value is not convertible to UInt.")
  end.

(** [asDouble]; [to_double] is the conversion of an integer. *)
Definition asDouble (to_double : Z -> spec_float) (v : J) : res spec_float :=
  match view v with
  | VInt z => Ok (to_double z)
  | VReal => Ok (real_value v)
  | VNull => Ok (to_double 0)
  | VBool b => Ok (to_double (if b then 1 else 0))
  | _ => Throw (LibError "Value is not convertible to double.")
  end.

(** [isConvertibleTo(stringValue)], [(arrayValue)], [(objectValue)], [(booleanValue)]. *)
Definition conv_string (v : J) : bool :=
  match view v with VArray | VObject => false | _ => true end.
Definition conv_array (v : J) : bool := match view v with VArray | VNull => true | _ => false end.
Definition conv_object (v : J) : bool := match view v with VObject | VNull => true | _ => false end.
Definition conv_bool (v : J) : bool :=
  match view v with VBool _ | VInt _ | VReal | VNull => true | _ => false end.

(** [get(key, default)] and [get(index, default)] *)
Definition jget_or (v : J) (k : string) (d : J) : res J :=
  let! b := jhas v k in if b then jget v k else Ok d.
Definition jat_or (v : J) (i : nat) (d : J) : res J :=
  let! x := jat v i in if Nat.ltb i (jsize v) then Ok x else Ok d.

(** Building an object and an array from scratch. *)
Fixpoint jobject (v : J) (l : list (string * J)) : res J :=
  match l with
  | [] => Ok v
  | (k, x) :: l' => let! v' := jset v k x in jobject v' l'
  end.
Fixpoint jarray (v : J) (l : list J) : res J :=
  match l with
  | [] => Ok v
  | x :: l' => let! v' := jappend v x in jarray v' l'
  end.

(** ** Lemmas *)

Lemma jarray_spec l : forall v, view v = VArray ->
  exists v', jarray v l = Ok v' /\ view v' = VArray /\ jsize v' = (jsize v + length l)%nat /\
    (forall i, (i < jsize v)%nat -> jat v' i = jat v i) /\
    (forall i x, l !! i = Some x -> jat v' (jsize v + i) = Ok x).
Proof.
  induction l as [|x l IH]; intros v Hv; simpl.
  - exists v. by rewrite Nat.add_0_r.
  - destruct (append_array v x Hv) as (v1 & -> & Hv1 & Hs1 & Ha1). cbn [res_bind].
    destruct (IH v1 Hv1) as (v2 & -> & Hv2 & Hs2 & Hlo & Hhi). exists v2. split_and!; [done|done|lia| |].
    + intros i Hi. rewrite Hlo by lia. rewrite Ha1. destruct (Nat.eqb_spec i (jsize v)); [lia|done].
    + intros [|i] y Hy; simpl in Hy.
      * injection Hy as ->. rewrite Nat.add_0_r, Hlo by lia. by rewrite Ha1, Nat.eqb_refl.
      * rewrite <- (Hhi i y Hy). f_equal. lia.
Qed.

(** The last assignment to a key wins. *)
Fixpoint last_set (k : string) (l : list (string * J)) : option J :=
  match l with
  | [] => None
  | (k', x) :: l' => match last_set k l' with
                     | Some y => Some y
                     | None => if String.eqb k k' then Some x else None
                     end
  end.

Lemma jobject_spec l : forall v, view v = VNull \/ view v = VObject ->
  exists v', jobject v l = Ok v' /\ (view v' = VNull \/ view v' = VObject) /\
    (forall k, jget v' k = match last_set k l with Some x => Ok x | None => jget v k end) /\
    (forall k, jhas v' k = match last_set k l with Some _ => Ok true | None => jhas v k end).
Proof.
  induction l as [|[k x] l IH]; intros v Hv; simpl; [by exists v|].
  destruct (set_object v k x Hv) as (v1 & -> & Hv1 & Hg1 & Hh1). cbn [res_bind].
  destruct (IH v1 (or_intror Hv1)) as (v2 & -> & Hv2 & Hg2 & Hh2). exists v2. split_and!; [done|done| |].
  - intros k'. rewrite Hg2. destruct (last_set k' l); [done|]. rewrite Hg1. by destruct (String.eqb k' k).
  - intros k'. rewrite Hh2. destruct (last_set k' l); [done|]. rewrite Hh1. by destruct (String.eqb k' k).
Qed.

End json.

(** ** A model of the class *)

Module JsonModel.

Inductive jv :=
  | JNull | JBool (b : bool) | JInt (z : Z) | JReal (d : spec_float) | JStr (s : string)
  | JArr (l : list jv) | JObj (l : list (string * jv)).

Definition jview_of (v : jv) : jview :=
  match v with
  | JNull => VNull | JBool b => VBool b | JInt z => VInt z | JReal _ => VReal | JStr s => VString s
  | JArr _ => VArray | JObj _ => VObject
  end.

Definition err {A} : res A := Throw (LibError "json").
Definition is_some {A} (o : option A) : bool := match o with Some _ => true | None => false end.
Definition has (v : jv) (k : string) : res bool :=
  match v with JNull => Ok false | JObj l => Ok (is_some (map_find k l)) | _ => err end.
Definition get (v : jv) (k : string) : res jv :=
  match v with JNull => Ok JNull | JObj l => Ok (default JNull (map_find k l)) | _ => err end.
Definition set (v : jv) (k : string) (x : jv) : res jv :=
  match v with JNull => Ok (JObj [(k, x)]) | JObj l => Ok (JObj (map_set k x l)) | _ => err end.
Definition at_ (v : jv) (i : nat) : res jv :=
  match v with JNull => Ok JNull | JArr l => Ok (default JNull (l !! i)) | _ => err end.
Definition append (v : jv) (x : jv) : res jv :=
  match v with JNull => Ok (JArr [x]) | JArr l => Ok (JArr (l ++ [x])) | _ => err end.
Definition size (v : jv) : nat := match v with JArr l => length l | JObj l => length l | _ => 0%nat end.

(** A textual form that can be read back (not the JSON syntax). *)
Fixpoint enc (v : jv) : gen_tree (bool + Z + string) :=
  match v with
  | JNull => GenNode 0 []
  | JBool b => GenLeaf (inl (inl b))
  | JInt z => GenLeaf (inl (inr z))
  | JStr s => GenLeaf (inr s)
  | JReal (S754_zero b) => GenNode 4 [GenLeaf (inl (inl b))]
  | JReal (S754_infinity b) => GenNode 5 [GenLeaf (inl (inl b))]
  | JReal S754_nan => GenNode 6 []
  | JReal (S754_finite b m e) =>
      GenNode 7 [GenLeaf (inl (inl b)); GenLeaf (inl (inr (Zpos m))); GenLeaf (inl (inr e))]
  | JArr l => GenNode 1 (map enc l)
  | JObj l => GenNode 2 (map (fun e => GenNode 3 [GenLeaf (inr (fst e)); enc (snd e)]) l)
  end.
Fixpoint dec (t : gen_tree (bool + Z + string)) : jv :=
  match t with
  | GenLeaf (inl (inl b)) => JBool b
  | GenLeaf (inl (inr z)) => JInt z
  | GenLeaf (inr s) => JStr s
  | GenNode 1 l => JArr (map dec l)
  | GenNode 2 l => JObj (map (fun t => match t with
                                       | GenNode 3 [GenLeaf (inr k); x] => (k, dec x)
                                       | _ => ("", JNull)
                                       end) l)
  | GenNode 4 [GenLeaf (inl (inl b))] => JReal (S754_zero b)
  | GenNode 5 [GenLeaf (inl (inl b))] => JReal (S754_infinity b)
  | GenNode 6 [] => JReal S754_nan
  | GenNode 7 [GenLeaf (inl (inl b)); GenLeaf (inl (inr m)); GenLeaf (inl (inr e))] =>
      JReal (S754_finite b (Z.to_pos m) e)
  | GenNode _ _ => JNull
  end.

Fixpoint dec_enc (v : jv) : dec (enc v) = v.
Proof.
  destruct v as [| | |d| |l|l]; [reflexivity..|by destruct d|reflexivity| |]; cbn; f_equal.
  - induction l as [|x l IHl]; [reflexivity|]. cbn. rewrite dec_enc, IHl. reflexivity.
  - induction l as [|[k x] l IHl]; [reflexivity|]. cbn. rewrite dec_enc, IHl. reflexivity.
Qed.

Fixpoint bits (p : positive) : string :=
  match p with xH => "" | xO q => String "0" (bits q) | xI q => String "1" (bits q) end.
Fixpoint unbits (s : string) : positive :=
  match s with
  | EmptyString => xH
  | String c s' => if Ascii.eqb c "1" then xI (unbits s') else xO (unbits s')
  end.
Lemma unbits_bits p : unbits (bits p) = p.
Proof. induction p as [p IH|p IH|]; cbn; by rewrite ?IH. Qed.

Definition write (v : jv) : string := String "J" (bits (encode (enc v))).
Definition parse (s : string) : option jv :=
  match s with String _ s' => dec <$> decode (unbits s') | EmptyString => None end.
Lemma parse_write v : parse (write v) = Some v.
Proof. unfold parse, write. rewrite unbits_bits, decode_encode. cbn. by rewrite dec_enc. Qed.

Lemma set_ok v k x : jview_of v = VNull \/ jview_of v = VObject ->
  exists v', set v k x = Ok v' /\ jview_of v' = VObject /\
    (forall k', get v' k' = if String.eqb k' k then Ok x else get v k') /\
    (forall k', has v' k' = if String.eqb k' k then Ok true else has v k').
Proof.
  destruct v; intros [|]; try done; cbn; eexists; (split; [done|]); (split; [done|]); split; intros k'; cbn;
    rewrite ?map_find_set; by destruct (String.eqb k' k).
Qed.

Lemma at_ok v i : jview_of v = VArray ->
  exists x, at_ v i = Ok x /\ (size v <= i -> x = JNull)%nat.
Proof.
  destruct v as [| | | | |l|]; try done. intros _. eexists. split; [done|]. cbn. intros Hi.
  by rewrite lookup_ge_None_2.
Qed.

Lemma append_ok v x : jview_of v = VArray ->
  exists v', append v x = Ok v' /\ jview_of v' = VArray /\ size v' = S (size v) /\
    (forall i, at_ v' i = if Nat.eqb i (size v) then Ok x else at_ v i).
Proof.
  destruct v as [| | | | |l|]; try done. intros _. eexists. split; [done|]. cbn. rewrite length_app. cbn.
  split_and!; [done | lia |]. intros i. destruct (Nat.eqb_spec i (length l)) as [->|Hi].
  - by rewrite lookup_app_r, Nat.sub_diag by lia.
  - destruct (decide (i < length l)%nat); [by rewrite lookup_app_l by done|].
    by rewrite !lookup_ge_None_2 by (rewrite ?length_app; cbn; lia).
Qed.

Lemma missing v k : has v k = Ok false -> get v k = Ok JNull.
Proof. destruct v; try done. cbn. by destruct (map_find k l). Qed.

Definition elements (v : jv) : list jv := match v with JArr l => l | JObj l => l.*2 | _ => [] end.
Definition members (v : jv) : list (string * jv) := match v with JObj l => l | _ => [] end.

#[export] Instance json : Json.
Proof.
  refine {| J := jv; view := jview_of; jnull := JNull; of_bool := JBool; of_Z := JInt;
    of_string := JStr; of_double := JReal; empty_array := JArr []; jhas := has; jget := get; jset := set; jat := at_;
    jappend := append; jsize := size; jelements := elements; jmembers := members;
    real_string := fun _ => ""; real_bool := fun _ => false;
    real_value := fun v => match v with JReal d => d | _ => S754_nan end;
    json_parse := parse; json_write := write;
    set_object := set_ok; at_array := at_ok; append_array := append_ok;
    get_missing := missing; Json.parse_write := parse_write |};
  first [done | intros v; destruct v; done | intros v ?; destruct v; first [done | by eexists | by intros; eexists]].
Defined.

End JsonModel.
