(* ===== verification/PoolManager.v ===== *)
(** * libpoolprotocols/PoolManager: the connections and the current work

    [PoolManager] of src/libpoolprotocols/PoolManager.{h,cpp} with the base class of the pool
    clients, src/libpoolprotocols/PoolClient.h.  The URIs are shared objects: they live in a
    store, and the connection list and the client hold references into it.  What the manager
    asks of its client (connect, disconnect, submissions) and the termination signal are an
    action trace; what the client reports back are the handlers, run as separate events, as the
    io strand does.  A timer is [Some] delay while a wait is pending. *)

From S2P Require Import Prelude CppString CommonData FixedHash Worker Float.
From S2P Require Import Types Miner CpuMiner Farm PoolURI Json.

Record PoolSettings := {
  getWorkPollInterval : Z;
  noWorkTimeout : Z;
  noResponseTimeout : Z;
  poolFailoverTimeout : Z;
  reportHashrate : bool;
  hashRateInterval : Z;
  hashRateId : string;
  connectionMaxRetries : Z;
  delayBeforeRetry : Z;
  benchmarkBlock : Z }.

(** The part of a [PoolClient] its manager sees: the protocol, [m_connected], [m_conn]. *)
Record client := { c_family : ProtocolFamily; m_connected : bool; m_conn : option nat }.

Inductive action :=
  | AConnect (conn : option nat)
  | ADisconnect
  | ASubmitSolution (s : Solution)
  | ASubmitHashrate (rate : Z) (id : string)
  | ARaiseSigterm.

Record PoolManager := {
  uris : list URI;
  connections : list nat;
  ps : PoolSettings;
  m_running : bool;
  m_stopping : bool;
  m_async_pending : bool;
  m_connectionAttempt : Z;
  m_selectedHost : string;
  m_connectionSwitches : Z;
  m_activeConnectionIdx : Z;
  pm_currentWp : WorkPackage;
  m_epochChanges : Z;
  p_client : option client;
  failovertimer : option Z;
  submithrtimer : option Z;
  reconnecttimer : option Z;
  pm_farm : Farm.Farm;
  posted : nat;
  trace : list action }.

(** Assignments to the members. *)
Definition put_uris (x : list URI) (s : PoolManager) : PoolManager := {| uris := x; connections := connections s; ps := ps s; m_running := m_running s; m_stopping := m_stopping s; m_async_pending := m_async_pending s; m_connectionAttempt := m_connectionAttempt s; m_selectedHost := m_selectedHost s; m_connectionSwitches := m_connectionSwitches s; m_activeConnectionIdx := m_activeConnectionIdx s; pm_currentWp := pm_currentWp s; m_epochChanges := m_epochChanges s; p_client := p_client s; failovertimer := failovertimer s; submithrtimer := submithrtimer s; reconnecttimer := reconnecttimer s; pm_farm := pm_farm s; posted := posted s; trace := trace s |}.
Definition put_connections (x : list nat) (s : PoolManager) : PoolManager := {| uris := uris s; connections := x; ps := ps s; m_running := m_running s; m_stopping := m_stopping s; m_async_pending := m_async_pending s; m_connectionAttempt := m_connectionAttempt s; m_selectedHost := m_selectedHost s; m_connectionSwitches := m_connectionSwitches s; m_activeConnectionIdx := m_activeConnectionIdx s; pm_currentWp := pm_currentWp s; m_epochChanges := m_epochChanges s; p_client := p_client s; failovertimer := failovertimer s; submithrtimer := submithrtimer s; reconnecttimer := reconnecttimer s; pm_farm := pm_farm s; posted := posted s; trace := trace s |}.
Definition put_running (x : bool) (s : PoolManager) : PoolManager := {| uris := uris s; connections := connections s; ps := ps s; m_running := x; m_stopping := m_stopping s; m_async_pending := m_async_pending s; m_connectionAttempt := m_connectionAttempt s; m_selectedHost := m_selectedHost s; m_connectionSwitches := m_connectionSwitches s; m_activeConnectionIdx := m_activeConnectionIdx s; pm_currentWp := pm_currentWp s; m_epochChanges := m_epochChanges s; p_client := p_client s; failovertimer := failovertimer s; submithrtimer := submithrtimer s; reconnecttimer := reconnecttimer s; pm_farm := pm_farm s; posted := posted s; trace := trace s |}.
Definition put_stopping (x : bool) (s : PoolManager) : PoolManager := {| uris := uris s; connections := connections s; ps := ps s; m_running := m_running s; m_stopping := x; m_async_pending := m_async_pending s; m_connectionAttempt := m_connectionAttempt s; m_selectedHost := m_selectedHost s; m_connectionSwitches := m_connectionSwitches s; m_activeConnectionIdx := m_activeConnectionIdx s; pm_currentWp := pm_currentWp s; m_epochChanges := m_epochChanges s; p_client := p_client s; failovertimer := failovertimer s; submithrtimer := submithrtimer s; reconnecttimer := reconnecttimer s; pm_farm := pm_farm s; posted := posted s; trace := trace s |}.
Definition put_pending (x : bool) (s : PoolManager) : PoolManager := {| uris := uris s; connections := connections s; ps := ps s; m_running := m_running s; m_stopping := m_stopping s; m_async_pending := x; m_connectionAttempt := m_connectionAttempt s; m_selectedHost := m_selectedHost s; m_connectionSwitches := m_connectionSwitches s; m_activeConnectionIdx := m_activeConnectionIdx s; pm_currentWp := pm_currentWp s; m_epochChanges := m_epochChanges s; p_client := p_client s; failovertimer := failovertimer s; submithrtimer := submithrtimer s; reconnecttimer := reconnecttimer s; pm_farm := pm_farm s; posted := posted s; trace := trace s |}.
Definition put_attempt (x : Z) (s : PoolManager) : PoolManager := {| uris := uris s; connections := connections s; ps := ps s; m_running := m_running s; m_stopping := m_stopping s; m_async_pending := m_async_pending s; m_connectionAttempt := x; m_selectedHost := m_selectedHost s; m_connectionSwitches := m_connectionSwitches s; m_activeConnectionIdx := m_activeConnectionIdx s; pm_currentWp := pm_currentWp s; m_epochChanges := m_epochChanges s; p_client := p_client s; failovertimer := failovertimer s; submithrtimer := submithrtimer s; reconnecttimer := reconnecttimer s; pm_farm := pm_farm s; posted := posted s; trace := trace s |}.
Definition put_host (x : string) (s : PoolManager) : PoolManager := {| uris := uris s; connections := connections s; ps := ps s; m_running := m_running s; m_stopping := m_stopping s; m_async_pending := m_async_pending s; m_connectionAttempt := m_connectionAttempt s; m_selectedHost := x; m_connectionSwitches := m_connectionSwitches s; m_activeConnectionIdx := m_activeConnectionIdx s; pm_currentWp := pm_currentWp s; m_epochChanges := m_epochChanges s; p_client := p_client s; failovertimer := failovertimer s; submithrtimer := submithrtimer s; reconnecttimer := reconnecttimer s; pm_farm := pm_farm s; posted := posted s; trace := trace s |}.
Definition put_switches (x : Z) (s : PoolManager) : PoolManager := {| uris := uris s; connections := connections s; ps := ps s; m_running := m_running s; m_stopping := m_stopping s; m_async_pending := m_async_pending s; m_connectionAttempt := m_connectionAttempt s; m_selectedHost := m_selectedHost s; m_connectionSwitches := x; m_activeConnectionIdx := m_activeConnectionIdx s; pm_currentWp := pm_currentWp s; m_epochChanges := m_epochChanges s; p_client := p_client s; failovertimer := failovertimer s; submithrtimer := submithrtimer s; reconnecttimer := reconnecttimer s; pm_farm := pm_farm s; posted := posted s; trace := trace s |}.
Definition put_active (x : Z) (s : PoolManager) : PoolManager := {| uris := uris s; connections := connections s; ps := ps s; m_running := m_running s; m_stopping := m_stopping s; m_async_pending := m_async_pending s; m_connectionAttempt := m_connectionAttempt s; m_selectedHost := m_selectedHost s; m_connectionSwitches := m_connectionSwitches s; m_activeConnectionIdx := x; pm_currentWp := pm_currentWp s; m_epochChanges := m_epochChanges s; p_client := p_client s; failovertimer := failovertimer s; submithrtimer := submithrtimer s; reconnecttimer := reconnecttimer s; pm_farm := pm_farm s; posted := posted s; trace := trace s |}.
Definition put_wp (x : WorkPackage) (s : PoolManager) : PoolManager := {| uris := uris s; connections := connections s; ps := ps s; m_running := m_running s; m_stopping := m_stopping s; m_async_pending := m_async_pending s; m_connectionAttempt := m_connectionAttempt s; m_selectedHost := m_selectedHost s; m_connectionSwitches := m_connectionSwitches s; m_activeConnectionIdx := m_activeConnectionIdx s; pm_currentWp := x; m_epochChanges := m_epochChanges s; p_client := p_client s; failovertimer := failovertimer s; submithrtimer := submithrtimer s; reconnecttimer := reconnecttimer s; pm_farm := pm_farm s; posted := posted s; trace := trace s |}.
Definition put_epochs (x : Z) (s : PoolManager) : PoolManager := {| uris := uris s; connections := connections s; ps := ps s; m_running := m_running s; m_stopping := m_stopping s; m_async_pending := m_async_pending s; m_connectionAttempt := m_connectionAttempt s; m_selectedHost := m_selectedHost s; m_connectionSwitches := m_connectionSwitches s; m_activeConnectionIdx := m_activeConnectionIdx s; pm_currentWp := pm_currentWp s; m_epochChanges := x; p_client := p_client s; failovertimer := failovertimer s; submithrtimer := submithrtimer s; reconnecttimer := reconnecttimer s; pm_farm := pm_farm s; posted := posted s; trace := trace s |}.
Definition put_client (x : option client) (s : PoolManager) : PoolManager := {| uris := uris s; connections := connections s; ps := ps s; m_running := m_running s; m_stopping := m_stopping s; m_async_pending := m_async_pending s; m_connectionAttempt := m_connectionAttempt s; m_selectedHost := m_selectedHost s; m_connectionSwitches := m_connectionSwitches s; m_activeConnectionIdx := m_activeConnectionIdx s; pm_currentWp := pm_currentWp s; m_epochChanges := m_epochChanges s; p_client := x; failovertimer := failovertimer s; submithrtimer := submithrtimer s; reconnecttimer := reconnecttimer s; pm_farm := pm_farm s; posted := posted s; trace := trace s |}.
Definition put_failover (x : option Z) (s : PoolManager) : PoolManager := {| uris := uris s; connections := connections s; ps := ps s; m_running := m_running s; m_stopping := m_stopping s; m_async_pending := m_async_pending s; m_connectionAttempt := m_connectionAttempt s; m_selectedHost := m_selectedHost s; m_connectionSwitches := m_connectionSwitches s; m_activeConnectionIdx := m_activeConnectionIdx s; pm_currentWp := pm_currentWp s; m_epochChanges := m_epochChanges s; p_client := p_client s; failovertimer := x; submithrtimer := submithrtimer s; reconnecttimer := reconnecttimer s; pm_farm := pm_farm s; posted := posted s; trace := trace s |}.
Definition put_submithr (x : option Z) (s : PoolManager) : PoolManager := {| uris := uris s; connections := connections s; ps := ps s; m_running := m_running s; m_stopping := m_stopping s; m_async_pending := m_async_pending s; m_connectionAttempt := m_connectionAttempt s; m_selectedHost := m_selectedHost s; m_connectionSwitches := m_connectionSwitches s; m_activeConnectionIdx := m_activeConnectionIdx s; pm_currentWp := pm_currentWp s; m_epochChanges := m_epochChanges s; p_client := p_client s; failovertimer := failovertimer s; submithrtimer := x; reconnecttimer := reconnecttimer s; pm_farm := pm_farm s; posted := posted s; trace := trace s |}.
Definition put_reconnect (x : option Z) (s : PoolManager) : PoolManager := {| uris := uris s; connections := connections s; ps := ps s; m_running := m_running s; m_stopping := m_stopping s; m_async_pending := m_async_pending s; m_connectionAttempt := m_connectionAttempt s; m_selectedHost := m_selectedHost s; m_connectionSwitches := m_connectionSwitches s; m_activeConnectionIdx := m_activeConnectionIdx s; pm_currentWp := pm_currentWp s; m_epochChanges := m_epochChanges s; p_client := p_client s; failovertimer := failovertimer s; submithrtimer := submithrtimer s; reconnecttimer := x; pm_farm := pm_farm s; posted := posted s; trace := trace s |}.
Definition put_farm (x : Farm.Farm) (s : PoolManager) : PoolManager := {| uris := uris s; connections := connections s; ps := ps s; m_running := m_running s; m_stopping := m_stopping s; m_async_pending := m_async_pending s; m_connectionAttempt := m_connectionAttempt s; m_selectedHost := m_selectedHost s; m_connectionSwitches := m_connectionSwitches s; m_activeConnectionIdx := m_activeConnectionIdx s; pm_currentWp := pm_currentWp s; m_epochChanges := m_epochChanges s; p_client := p_client s; failovertimer := failovertimer s; submithrtimer := submithrtimer s; reconnecttimer := reconnecttimer s; pm_farm := x; posted := posted s; trace := trace s |}.
Definition put_posted (x : nat) (s : PoolManager) : PoolManager := {| uris := uris s; connections := connections s; ps := ps s; m_running := m_running s; m_stopping := m_stopping s; m_async_pending := m_async_pending s; m_connectionAttempt := m_connectionAttempt s; m_selectedHost := m_selectedHost s; m_connectionSwitches := m_connectionSwitches s; m_activeConnectionIdx := m_activeConnectionIdx s; pm_currentWp := pm_currentWp s; m_epochChanges := m_epochChanges s; p_client := p_client s; failovertimer := failovertimer s; submithrtimer := submithrtimer s; reconnecttimer := reconnecttimer s; pm_farm := pm_farm s; posted := x; trace := trace s |}.
Definition put_trace (x : list action) (s : PoolManager) : PoolManager := {| uris := uris s; connections := connections s; ps := ps s; m_running := m_running s; m_stopping := m_stopping s; m_async_pending := m_async_pending s; m_connectionAttempt := m_connectionAttempt s; m_selectedHost := m_selectedHost s; m_connectionSwitches := m_connectionSwitches s; m_activeConnectionIdx := m_activeConnectionIdx s; pm_currentWp := pm_currentWp s; m_epochChanges := m_epochChanges s; p_client := p_client s; failovertimer := failovertimer s; submithrtimer := submithrtimer s; reconnecttimer := reconnecttimer s; pm_farm := pm_farm s; posted := posted s; trace := x |}.

(** The constructor: a manager for the given settings, connections and farm. *)
Definition PoolManager_new (settings : PoolSettings) (store : list URI) (conns : list nat) (f : Farm.Farm)
    : PoolManager := {|
  uris := store; connections := conns; ps := settings; m_running := false; m_stopping := false;
  m_async_pending := false; m_connectionAttempt := 0; m_selectedHost := ""; m_connectionSwitches := 0;
  m_activeConnectionIdx := 0; pm_currentWp := set_header (h_zero 32) WorkPackage_default; m_epochChanges := 0;
  p_client := None; failovertimer := None; submithrtimer := None; reconnecttimer := None;
  pm_farm := f; posted := 0; trace := [] |}.

Definition emit (a : action) (s : PoolManager) : PoolManager := put_trace (trace s ++ [a]) s.
Definition isConnected (s : PoolManager) : bool :=
  match p_client s with Some c => m_connected c | None => false end.
Definition add_switch (s : PoolManager) : PoolManager := put_switches (u32 (m_connectionSwitches s + 1)) s.
Definition zsize {A} (l : list A) : Z := Z.of_nat (length l).

(** [connections.at(i)] *)
Definition conn_at (i : Z) (s : PoolManager) : res nat :=
  match connections s !! Z.to_nat i with
  | Some a => Ok a
  | None => Throw (OutOfRange "vector::_M_range_check")
  end.
(** The object a reference designates. *)
Definition deref (a : nat) (s : PoolManager) : URI := default (URI_init "") (uris s !! a).
Definition update_uri (a : nat) (g : URI -> URI) (s : PoolManager) : PoolManager :=
  put_uris (alter g a (uris s)) s.

(** [connections.erase(connections.begin() + i)] *)
Definition erase (i : Z) (l : list nat) : list nat := delete (Z.to_nat i) l.

(** [PoolClient::setConnection] of the new client. *)
Definition setConnection (a : nat) (s : PoolManager) : PoolManager :=
  let s := update_uri a (set_Responds false) s in
  match p_client s with
  | Some c => put_client (Some {| c_family := c_family c; m_connected := m_connected c; m_conn := Some a |}) s
  | None => s
  end.

Section pool_manager.
Context `{Ethash, BigInteger, BoostUri, Json}.
Context (find_epoch_number : hash -> Z).   (* ethash *)
Context (iequals : string -> string -> bool).   (* boost *)

(** ** Miner restart and solutions: the handlers the constructor installs *)

Definition onMinerRestart (now : Z) (f : Farm.Farm) : Farm.Farm :=
  let f := if m_isMining f then fst (Farm.stop f) else f in
  snd (Farm.start now f).

Definition onSolutionFound (sol : Solution) (s : PoolManager) : PoolManager :=
  if isConnected s then emit (ASubmitSolution sol) s else s.

(** ** Connection list *)

Definition addConnection (_connstring : string) : SE PoolManager unit := fun s =>
  match URI_new _connstring false with
  | Ok u => (Ok tt, put_connections (connections s ++ [length (uris s)]) (put_uris (uris s ++ [u]) s))
  | Throw e => (Throw e, s)
  end.

Definition removeConnection (idx : Z) : SE PoolManager unit := fun s =>
  if m_async_pending s then (Throw (RuntimeError "Outstanding operations. Retry ..."), s)
  else if zsize (connections s) <=? idx then (Throw (RuntimeError "Index out-of bounds."), s)
  else if idx =? m_activeConnectionIdx s then (Throw (RuntimeError "Can't remove active connection"), s)
  else
    let s := put_connections (erase idx (connections s)) s in
    (Ok tt, if idx <? m_activeConnectionIdx s then put_active (m_activeConnectionIdx s - 1) s else s).

(** [p_client->disconnect()]; through a null pointer it has no meaning. *)
Definition client_disconnect : SE PoolManager unit := fun s =>
  match p_client s with
  | Some _ => (Ok tt, emit ADisconnect s)
  | None => (Throw (UndefinedBehaviour "null p_client"), s)
  end.

Definition setActiveConnectionCommon (idx : Z) : SE PoolManager unit := fun s =>
  if m_async_pending s then (Throw (RuntimeError "Outstanding operations. Retry ..."), s)
  else
    let s := put_pending true s in
    if idx =? m_activeConnectionIdx s then (Ok tt, put_pending false s)
    else client_disconnect (put_attempt 0 (put_active idx (add_switch s))).

Definition setActiveConnection (idx : Z) : SE PoolManager unit := fun s =>
  if zsize (connections s) <=? idx then (Throw (RuntimeError "Index out-of bounds."), s)
  else setActiveConnectionCommon idx s.

(** [setActiveConnection(_connstring)]: the first connection with that text, ignoring case. *)
Fixpoint find_connection (_connstring : string) (i : Z) (l : list nat) (s : PoolManager) : option Z :=
  match l with
  | [] => None
  | a :: l' => if iequals (m_uri (deref a s)) _connstring then Some i
               else find_connection _connstring (i + 1) l' s
  end.
Definition setActiveConnection_str (_connstring : string) : SE PoolManager unit := fun s =>
  match find_connection _connstring 0 (connections s) s with
  | Some idx => setActiveConnectionCommon idx s
  | None => (Throw (RuntimeError "Not found."), s)
  end.

Definition getActiveConnection (s : PoolManager) : option nat :=
  connections s !! Z.to_nat (m_activeConnectionIdx s).

Definition connection_json (active : Z) (s : PoolManager) (i : nat) (a : nat) : res J :=
  jobject jnull [("index", of_Z (Z.of_nat i)); ("active", of_bool (Z.of_nat i =? active));
                 ("uri", of_string (m_uri (deref a s)))].
Fixpoint connections_json (i : nat) (jRes : J) (l : list nat) (s : PoolManager) : res J :=
  match l with
  | [] => Ok jRes
  | a :: l' =>
      let! JConn := connection_json (m_activeConnectionIdx s) s i a in
      let! jRes := jappend jRes JConn in
      connections_json (S i) jRes l' s
  end.
Definition getConnectionsJson (s : PoolManager) : res J := connections_json 0 jnull (connections s) s.

(** ** Start, stop, rotation *)

Definition start (s : PoolManager) : PoolManager :=
  put_posted (S (posted s)) (add_switch (put_pending true (put_running true s))).

Definition farm_stop_if_mining (s : PoolManager) : PoolManager :=
  if m_isMining (pm_farm s) then put_farm (fst (Farm.stop (pm_farm s))) s else s.

(** [stop] up to the wait for [m_running] to fall in the connected case: the wait ends, and
    [p_client] is released, with [stop_returns]. *)
Definition stop (s : PoolManager) : PoolManager :=
  if m_running s then
    let s := put_stopping true (put_pending true s) in
    if isConnected s then emit ADisconnect s
    else farm_stop_if_mining (put_reconnect None (put_submithr None (put_failover None s)))
  else s.
Definition stop_returns (s : PoolManager) : option PoolManager :=
  if m_running s then None else Some (put_client None s).

(** The choice of the connection at the head of [rotateConnect]. *)
Definition rotate_select : SE PoolManager unit := fun s =>
  let s := if zsize (connections s) <=? m_activeConnectionIdx s then put_active 0 s else s in
  match conn_at (m_activeConnectionIdx s) s with
  | Throw e => (Throw e, s)
  | Ok a =>
      if m_unrecoverable (deref a s) then
        let s := put_connections (erase (m_activeConnectionIdx s) (connections s)) s in
        let s := put_attempt 0 s in
        let s := if zsize (connections s) <=? m_activeConnectionIdx s then put_active 0 s else s in
        (Ok tt, add_switch s)
      else if connectionMaxRetries (ps s) <=? m_connectionAttempt s then
        if zsize (connections s) =? 1 then
          (Ok tt, put_connections (erase (m_activeConnectionIdx s) (connections s)) s)
        else
          let s := put_attempt 0 s in
          let s := put_active (u32 (m_activeConnectionIdx s + 1)) s in
          let s := if zsize (connections s) <=? m_activeConnectionIdx s then put_active 0 s else s in
          (Ok tt, add_switch s)
      else (Ok tt, s)
  end.

(** The connection of the selected URI: a new client of its protocol, now or after a delay. *)
Definition rotate_connect (a : nat) (s : PoolManager) : PoolManager :=
  let u := deref a s in
  let s := put_client (Some {| c_family := Family u; m_connected := false; m_conn := None |}) s in
  let s := put_attempt (u32 (m_connectionAttempt s + 1)) s in
  let s := put_host (m_host u +:+ ":" +:+ dec_str (m_port u)) s in
  let s := setConnection a s in
  if (1 <? m_connectionAttempt s) && (0 <? delayBeforeRetry (ps s))
  then put_reconnect (Some (delayBeforeRetry (ps s))) s
  else emit (AConnect (Some a)) s.

Definition rotateConnect : SE PoolManager unit := fun s =>
  if isConnected s then (Ok tt, s)
  else
    match rotate_select s with
    | (Throw e, s) => (Throw e, s)
    | (Ok _, s) =>
        match conn_at (m_activeConnectionIdx s) s with
        | Ok a => if negb (String.eqb (m_host (deref a s)) "exit")
                  then (Ok tt, rotate_connect a s)
                  else (Ok tt, emit ARaiseSigterm (put_running false (farm_stop_if_mining s)))
        | Throw e =>
            match connections s with
            | [] => (Ok tt, emit ARaiseSigterm (put_running false (farm_stop_if_mining s)))
            | _ => (Throw e, s)
            end
        end
    end.

(** ** Client events *)

Definition set_connected (b : bool) (s : PoolManager) : PoolManager :=
  match p_client s with
  | Some c => put_client (Some {| c_family := c_family c; m_connected := b; m_conn := m_conn c |}) s
  | None => s
  end.

(** [onConnected]: [ep] is the client's [ActiveEndPoint()], [rnd] the draw of [shuffle]. *)
Definition onConnected (ep : string) (now rnd : Z) : SE PoolManager unit := fun s =>
  match p_client s ≫= m_conn with
  | None => (Throw (UndefinedBehaviour "null connection"), s)
  | Some a =>
      let u := deref a s in
      let s := if (bool_decide (m_hostType u = HT_Dns) || bool_decide (m_hostType u = HT_Basic))
                  && negb (String.eqb ep "")
               then put_host (m_host u +:+ ep) s else s in
      let s := put_attempt 0 s in
      let s := put_wp (set_header (h_zero 32) (set_job "" (pm_currentWp s))) s in
      let s := if ergodicity (m_Settings (pm_farm s)) =? 1
               then put_farm (shuffle rnd (pm_farm s)) s else s in
      let s := if negb (m_activeConnectionIdx s =? 0) && negb (poolFailoverTimeout (ps s) =? 0)
               then put_failover (Some (poolFailoverTimeout (ps s))) s
               else put_failover None s in
      let s := if negb (m_isMining (pm_farm s)) then put_farm (snd (Farm.start now (pm_farm s))) s
               else if f_paused (pm_farm s) then put_farm (f_resume (pm_farm s)) s
               else s in
      let s := if reportHashrate (ps s) then put_submithr (Some (hashRateInterval (ps s))) s else s in
      (Ok tt, put_pending false s)
  end.

Definition onDisconnected (s : PoolManager) : PoolManager :=
  let s := match p_client s with
           | Some c => put_client (Some {| c_family := c_family c; m_connected := m_connected c; m_conn := None |}) s
           | None => s
           end in
  let s := put_wp (set_header (h_zero 32) (pm_currentWp s)) s in
  let s := put_submithr None (put_failover None s) in
  if m_stopping s then put_running false (farm_stop_if_mining s)
  else put_posted (S (posted s)) (put_farm (f_pause (pm_farm s)) (put_pending true s)).

(** [showMiningAt]: the difficulty line it logs. *)
Definition showMiningAt (s : PoolManager) : res string :=
  if wp_bool (pm_currentWp s) then
    let! d := getHashesToTarget (hash_hex (boundary (pm_currentWp s)) Add) in
    getFormattedHashes d WithSuffix 2
  else Ok "".

(** The current work package after [wp] was received, and whether the epoch is new. *)
Definition next_work (mode : Z) (wp cur : WorkPackage) : WorkPackage * bool :=
  let newEpoch := if epoch cur =? -1 then true
                  else if mode =? 3 then negb (epoch wp =? epoch cur)
                  else negb (hash_eq (seed wp) (seed cur)) in
  if newEpoch then
    (if epoch wp =? -1
     then set_epoch (if 0 <=? block wp then Z.quot (block wp) 30000 else find_epoch_number (seed wp)) wp
     else wp, true)
  else (set_epoch (epoch cur) wp, false).

Definition onWorkReceived (wp : WorkPackage) (rnd : Z) : SE PoolManager unit := fun s =>
  if negb (wp_bool wp) then (Ok tt, s)
  else
    let old := pm_currentWp s in
    let mode := match p_client s ≫= m_conn with
                | Some a => Ok (m_stratumMode (deref a s))
                | None => if epoch old =? -1 then Ok 0
                          else Throw (UndefinedBehaviour "null connection")
                end in
    match mode with
    | Throw e => (Throw e, s)
    | Ok mode =>
        let newDiff := negb (hash_eq (boundary wp) (boundary old)) in
        let '(w, newEpoch) := next_work mode wp old in
        let s := put_wp w s in
        let s := if newEpoch then put_epochs (u32 (m_epochChanges s + 1)) s else s in
        match (if newDiff || newEpoch then showMiningAt s else Ok "") with
        | Throw e => (Throw e, s)
        | Ok _ =>
            match Farm.setWork rnd w (pm_farm s) with
            | Ok f => (Ok tt, put_farm f s)
            | Throw e => (Throw e, s)
            end
        end
    end.

Definition onSolution (k : SolutionAccountingEnum) (now _minerIdx : Z) : SE PoolManager unit := fun s =>
  let '(r, f) := accountSolution now _minerIdx k (pm_farm s) in (r, put_farm f s).
Definition onSolutionAccepted := onSolution Accepted.
Definition onSolutionRejected := onSolution Rejected.

(** ** Timers: [ec] is whether the wait was cancelled *)

Definition failovertimer_elapsed (ec : bool) : SE PoolManager unit := fun s =>
  let s := if ec then s else put_failover None s in
  if negb ec && m_running s && negb (m_activeConnectionIdx s =? 0)
  then client_disconnect (add_switch (put_attempt 0 (put_active 0 s)))
  else (Ok tt, s).

(** [(uint32_t)f] for a float: defined when the truncated value fits. *)
Definition f_to_u32 (f : spec_float) : res Z :=
  match f with
  | S754_zero _ => Ok 0
  | S754_finite sg m e =>
      let v := if 0 <=? e then Zpos m * 2 ^ e else Z.quot (Zpos m) (2 ^ (- e)) in
      if (if sg then v =? 0 else v <? 2 ^ 32) then Ok v else Throw (UndefinedBehaviour "float to uint32_t")
  | _ => Throw (UndefinedBehaviour "float to uint32_t")
  end.

Definition submithrtimer_elapsed (ec : bool) : SE PoolManager unit := fun s =>
  let s := if ec then s else put_submithr None s in
  if negb ec && m_running s then
    match (if isConnected s then f_to_u32 (hashrate (farm (m_telemetry (pm_farm s)))) else Ok 0) with
    | Throw e => (Throw e, s)
    | Ok r =>
        let s := if isConnected s then emit (ASubmitHashrate r (hashRateId (ps s))) s else s in
        (Ok tt, put_submithr (Some (hashRateInterval (ps s))) s)
    end
  else (Ok tt, s).

Definition reconnecttimer_elapsed (ec : bool) (s : PoolManager) : PoolManager :=
  if ec then s
  else
  let s := put_reconnect None s in
  if m_running s then
    match p_client s with
    | Some c => if m_connected c then s
                else emit (AConnect (m_conn c)) s
    | None => s
    end
  else s.

Definition getCurrentEpoch (s : PoolManager) : Z := epoch (pm_currentWp s).
Definition getCurrentDifficulty (s : PoolManager) : res spec_float :=
  if wp_bool (pm_currentWp s) then getHashesToTarget (hash_hex (boundary (pm_currentWp s)) Add)
  else Ok f_zero.

End pool_manager.

(** * Proofs *)

Section pool_manager_theorems.
Context {Eth : Ethash} {Big : BigInteger} {Bst : BoostUri} {Jsn : Json}.
Context (find_epoch_number : hash -> Z) (iequals : string -> string -> bool).

(** ** The active index *)

(** References point into the store; the active index designates a connection, or is 0. *)
Definition pm_inv (s : PoolManager) : Prop :=
  Forall (fun a => (a < length (uris s))%nat) (connections s) /\
  0 <= m_activeConnectionIdx s /\
  (m_activeConnectionIdx s < zsize (connections s) \/ (connections s = [] /\ m_activeConnectionIdx s = 0)).

(** Every call and event of the manager. *)
Inductive pm_step : PoolManager -> PoolManager -> Prop :=
  | PsAdd c s : pm_step s (snd (addConnection c s))
  | PsRemove i s : 0 <= i -> pm_step s (snd (removeConnection i s))
  | PsActive i s : 0 <= i -> pm_step s (snd (setActiveConnection i s))
  | PsActiveStr c s : pm_step s (snd (setActiveConnection_str iequals c s))
  | PsStart s : pm_step s (start s)
  | PsStop s : pm_step s (stop s)
  | PsStopped s s' : stop_returns s = Some s' -> pm_step s s'
  | PsRotate s : pm_step s (snd (rotateConnect s))
  | PsConnected ep now rnd s : pm_step s (snd (onConnected ep now rnd (set_connected true s)))
  | PsDisconnected s : pm_step s (onDisconnected (set_connected false s))
  | PsWork wp rnd s : pm_step s (snd (onWorkReceived find_epoch_number wp rnd s))
  | PsSolution k now i s : pm_step s (snd (onSolution k now i s))
  | PsFound sol s : pm_step s (onSolutionFound sol s)
  | PsFailover ec s : pm_step s (snd (failovertimer_elapsed ec s))
  | PsHashrate ec s : pm_step s (snd (submithrtimer_elapsed ec s))
  | PsReconnect ec s : pm_step s (reconnecttimer_elapsed ec s)
  | PsUri a g s : pm_step s (update_uri a g s)
  | PsFarm f s : pm_step s (put_farm f s).

(** What most of them leave alone. *)
Definition same_list (s s' : PoolManager) : Prop :=
  length (uris s') = length (uris s) /\ connections s' = connections s /\
  m_activeConnectionIdx s' = m_activeConnectionIdx s.

Lemma same_list_inv s s' : same_list s s' -> pm_inv s -> pm_inv s'.
Proof. intros (H1 & H2 & H3). unfold pm_inv, same_list in *. by rewrite H1, H2, H3. Qed.

(** The bounds check that follows every change of the list or of the index. *)
Lemma clamp_inv s : Forall (fun a => (a < length (uris s))%nat) (connections s) ->
  0 <= m_activeConnectionIdx s ->
  pm_inv (if zsize (connections s) <=? m_activeConnectionIdx s then put_active 0 s else s).
Proof.
  intros Hf Hi. unfold pm_inv, zsize.
  destruct (Z.leb_spec (Z.of_nat (length (connections s))) (m_activeConnectionIdx s)); cbn.
  - split_and!; [done | lia |]. destruct (connections s); [by right | left; simpl; lia].
  - split_and!; [done | lia | by left].
Qed.

Lemma Forall_delete {A} (P : A -> Prop) l i : Forall P l -> Forall P (delete i l).
Proof. intros Hl. revert i. induction Hl; intros [|i]; cbn; auto. Qed.

Lemma length_erase i l : 0 <= i < zsize l -> zsize (erase i l) = zsize l - 1.
Proof.
  intros Hi. unfold zsize, erase in *. rewrite length_delete; [lia|]. apply lookup_lt_is_Some_2. lia.
Qed.

Lemma conn_at_range i s a : 0 <= i -> conn_at i s = Ok a ->
  i < zsize (connections s) /\ connections s !! Z.to_nat i = Some a.
Proof.
  unfold conn_at. intros Hi E. destruct (connections s !! _) eqn:El; [|done]. injection E as ->.
  split; [|done]. apply lookup_lt_Some in El. unfold zsize. lia.
Qed.

Lemma rotate_select_inv s : pm_inv s -> pm_inv (snd (rotate_select s)).
Proof.
  intros (Hf & H0 & Hr). unfold rotate_select. pose proof (clamp_inv s Hf H0) as Hs1.
  set (s1 := if zsize (connections s) <=? m_activeConnectionIdx s then _ else _) in *. clearbody s1.
  destruct (conn_at _ s1) as [a|] eqn:Ea; [|done]. pose proof Hs1 as (Hf1 & H01 & _).
  apply conn_at_range in Ea as [Ha _]; [|done].
  pose proof (Forall_delete _ _ (Z.to_nat (m_activeConnectionIdx s1)) Hf1) as Hdel.
  destruct (m_unrecoverable (deref a s1)); [|destruct (_ <=? _)].
  - apply (same_list_inv _ _ (conj eq_refl (conj eq_refl eq_refl))).
    by apply (clamp_inv (put_attempt 0 (put_connections (erase (m_activeConnectionIdx s1) (connections s1)) s1))).
  - destruct (Z.eqb_spec (zsize (connections s1)) 1) as [E1|]; cbn [snd].
    + split_and!; [done | done |]. right. cbn. split; [|lia]. apply nil_length_inv.
      pose proof (length_erase _ _ (conj H01 Ha)) as Hl. unfold zsize in *. lia.
    + apply (same_list_inv _ _ (conj eq_refl (conj eq_refl eq_refl))).
      apply (clamp_inv (put_active (u32 (m_activeConnectionIdx s1 + 1)) (put_attempt 0 s1))); [done|].
      by apply wrap_range.
  - done.
Qed.

Lemma farm_stop_if_mining_list s : same_list s (farm_stop_if_mining s).
Proof. unfold farm_stop_if_mining. by destruct (m_isMining _). Qed.

Lemma rotate_connect_list a s : same_list s (rotate_connect a s).
Proof.
  unfold rotate_connect, setConnection, update_uri. cbn [p_client put_client].
  destruct (_ && _); (split_and!; cbn; [by rewrite length_alter | done | done]).
Qed.

Lemma rotateConnect_inv s : pm_inv s -> pm_inv (snd (rotateConnect s)).
Proof.
  intros Hs. unfold rotateConnect. destruct (isConnected s); [done|].
  pose proof (rotate_select_inv s Hs) as H1. destruct (rotate_select s) as [[] s1]; [|done]. cbn in H1.
  assert (Hexit : pm_inv (emit ARaiseSigterm (put_running false (farm_stop_if_mining s1)))).
  { eapply same_list_inv; [|done]. apply farm_stop_if_mining_list. }
  destruct (conn_at _ s1); [|by destruct (connections s1)].
  destruct (negb _); [|done]. eapply same_list_inv; [apply rotate_connect_list | done].
Qed.

Lemma find_connection_range c l s : forall i j, find_connection iequals c i l s = Some j ->
  i <= j < i + zsize l.
Proof.
  unfold zsize. induction l as [|a l IH]; intros i j E; simpl in E; [done|].
  destruct (iequals _ _); [injection E as <-; simpl; lia|]. apply IH in E. simpl. lia.
Qed.

Lemma setActiveConnectionCommon_inv i s : 0 <= i < zsize (connections s) -> pm_inv s ->
  pm_inv (snd (setActiveConnectionCommon i s)).
Proof.
  intros Hi (Hf & H0 & Hr). unfold setActiveConnectionCommon, client_disconnect.
  repeat case_match; cbn; (split_and!; cbn; [done | lia | first [exact Hr | left; unfold zsize in *; cbn; lia]]).
Qed.

Lemma pm_step_inv s s' : pm_step s s' -> pm_inv s -> pm_inv s'.
Proof.
  intros Hs Hi. destruct Hs; try (eapply same_list_inv; [|exact Hi]; done).
  - unfold addConnection. destruct (URI_new _ _); [|done]. destruct Hi as (Hf & Hz & Hr). cbn [snd].
    split_and!; [|done|].
    + cbn. rewrite length_app. apply Forall_app. split; [|constructor; simpl; lia || done].
      * eapply Forall_impl; [done|]. simpl. lia.
    + left. unfold zsize. cbn. rewrite length_app. simpl. destruct Hr as [Hr|[Hr ->]]; unfold zsize in *; lia.
  - unfold removeConnection. destruct (m_async_pending s); [done|].
    destruct (Z.leb_spec (zsize (connections s)) i); [done|].
    destruct (Z.eqb_spec i (m_activeConnectionIdx s)); [done|]. cbn [snd].
    destruct Hi as (Hf & Hz & Hr). destruct Hr as [Hr|[Hr E0]]; [|rewrite Hr in *; unfold zsize in *; simpl in *; lia].
    assert (Hrange : 0 <= i < zsize (connections s)) by (split; assumption).
    pose proof (length_erase i (connections s) Hrange) as Hl.
    cbn [m_activeConnectionIdx put_connections]. destruct (Z.ltb_spec i (m_activeConnectionIdx s));
      (split_and!; cbn; [by apply Forall_delete | lia | left; lia]).
  - unfold setActiveConnection. destruct (Z.leb_spec (zsize (connections s)) i); [done|].
    by apply setActiveConnectionCommon_inv.
  - unfold setActiveConnection_str. destruct (find_connection _ _ _ _ _) eqn:E; [|done].
    apply find_connection_range in E. by apply setActiveConnectionCommon_inv.
  - eapply same_list_inv; [|exact Hi]. unfold stop, farm_stop_if_mining. repeat case_match; done.
  - eapply same_list_inv; [|exact Hi]. unfold stop_returns in H. case_match; by simplify_eq.
  - by apply rotateConnect_inv.
  - eapply same_list_inv; [|exact Hi]. unfold onConnected, set_connected. repeat case_match; done.
  - eapply same_list_inv; [|exact Hi]. unfold onDisconnected, set_connected, farm_stop_if_mining.
    repeat case_match; done.
  - eapply same_list_inv; [|exact Hi]. unfold onWorkReceived. repeat case_match; try done.
  - eapply same_list_inv; [|exact Hi]. unfold onSolution. by destruct (accountSolution _ _ _ _).
  - eapply same_list_inv; [|exact Hi]. unfold onSolutionFound. by destruct (isConnected s).
  - unfold failovertimer_elapsed, client_disconnect. destruct Hi as (Hf & Hz & Hr).
    repeat case_match; cbn; try done; (split_and!; cbn; [done | lia |]);
      (destruct Hr as [Hr|[Hr Hr']]; [left; unfold zsize in *; cbn; lia | by right]).
  - eapply same_list_inv; [|exact Hi]. unfold submithrtimer_elapsed. repeat case_match; done.
  - eapply same_list_inv; [|exact Hi]. unfold reconnecttimer_elapsed. repeat case_match; done.
  - eapply same_list_inv; [|exact Hi]. split_and!; cbn; [by rewrite length_alter | done | done].
Qed.

Lemma star_pm_inv s s' : star pm_step s s' -> pm_inv s -> pm_inv s'.
Proof. apply star_invariant. exact pm_step_inv. Qed.

Lemma active_lookup s : pm_inv s -> connections s <> [] ->
  exists a, getActiveConnection s = Some a /\ (a < length (uris s))%nat.
Proof.
  intros (Hf & H0 & Hr) Hne. destruct Hr as [Hr|[? _]]; [|done]. unfold zsize in Hr.
  destruct (lookup_lt_is_Some_2 (connections s) (Z.to_nat (m_activeConnectionIdx s))) as [a Ha]; [lia|].
  exists a. split; [done|]. by eapply (Forall_lookup_1 _ _ _ _ Hf).
Qed.

Lemma rotate_select_ok s : pm_inv s -> connections s <> [] -> fst (rotate_select s) = Ok tt.
Proof.
  intros Hi Hne. destruct (active_lookup s Hi Hne) as (a & Ha & _). unfold rotate_select.
  assert (Hlt : zsize (connections s) <=? m_activeConnectionIdx s = false).
  { destruct Hi as (_ & _ & [Hr|[? _]]); [|done]. by apply Z.leb_gt. }
  rewrite Hlt. unfold conn_at. change (connections s !! _) with (getActiveConnection s). rewrite Ha.
  by repeat case_match.
Qed.

(** C10: Whatever calls, client events and timers a pool manager goes through, the active index
    designates a live connection as long as any connection is left: the active connection is
    null only when the list is empty, and rotating a non-empty list never throws. *)
Theorem active_connection_valid (s0 s : PoolManager) :
  pm_inv s0 -> star pm_step s0 s ->
  (getActiveConnection s = None <-> connections s = []) /\
  (connections s <> [] -> fst (rotateConnect s) = Ok tt).
Proof.
  intros H0 Hs. apply star_pm_inv in Hs; [|done]. split.
  - split; [|unfold getActiveConnection; by intros ->]. intros Hn.
    destruct (decide (connections s = [])); [done|].
    destruct (active_lookup s Hs n) as (a & Ha & _). congruence.
  - intros Hne. unfold rotateConnect. destruct (isConnected s); [done|].
    pose proof (rotate_select_ok s Hs Hne) as Hok. pose proof (rotate_select_inv s Hs) as Hi.
    destruct (rotate_select s) as [r s1]. cbn in Hok, Hi. subst r.
    destruct (decide (connections s1 = [])) as [He|Hne1].
    + unfold conn_at. by rewrite He.
    + destruct (active_lookup s1 Hi Hne1) as (a & Ha & _). unfold conn_at.
      unfold getActiveConnection in Ha. rewrite Ha. by destruct (negb _).
Qed.

(** Removing a connection never changes which connection is active: the call either fails
    with one of its three errors and leaves the state alone, or takes exactly the given entry
    out and the active connection stays the same object. *)
Theorem removeConnection_keeps_active (idx : Z) (s : PoolManager) :
  pm_inv s -> 0 <= idx ->
  match removeConnection idx s with
  | (Ok _, s') => getActiveConnection s' = getActiveConnection s /\
                  connections s' = delete (Z.to_nat idx) (connections s) /\
                  length (connections s') = (length (connections s) - 1)%nat /\ m_async_pending s = false
  | (Throw _, s') => s' = s /\ (m_async_pending s = true \/ zsize (connections s) <= idx \/
                                idx = m_activeConnectionIdx s)
  end.
Proof.
  intros (Hf & H0 & Hr) Hidx. unfold removeConnection.
  destruct (m_async_pending s); [by auto|].
  destruct (Z.leb_spec (zsize (connections s)) idx); [by auto|].
  destruct (Z.eqb_spec idx (m_activeConnectionIdx s)); [by auto|].
  cbn [m_activeConnectionIdx put_connections].
  assert (Hlen : length (delete (Z.to_nat idx) (connections s)) = (length (connections s) - 1)%nat).
  { apply length_delete, lookup_lt_is_Some_2. unfold zsize in *. lia. }
  destruct Hr as [Hr|[Hr _]]; [|rewrite Hr in *; unfold zsize in *; simpl in *; lia].
  destruct (Z.ltb_spec idx (m_activeConnectionIdx s)); (split_and!; [|done|done|done]);
    unfold getActiveConnection, erase; cbn.
  - rewrite list_lookup_delete_ge by lia. f_equal. lia.
  - rewrite list_lookup_delete_lt by lia. done.
Qed.

(** ** Retries *)







(** The client gives up: it reports itself disconnected, then the posted rotation runs. *)
Definition failed_attempt (s : PoolManager) : PoolManager :=
  snd (rotateConnect (onDisconnected (set_connected false s))).




(** C38: Failover: when the active one of several pools has used up its attempts (and is not
    marked unrecoverable), the next rotation moves to the following pool in the list, wrapping
    around, counts a switch, restarts the attempt count and connects at once, unless that entry
    is the exit marker, which stops the miners and terminates. *)
Theorem failover_to_next_pool (s : PoolManager) (a b : nat) :
  pm_inv s -> isConnected s = false -> 2 <= zsize (connections s) < 2 ^ 32 ->
  getActiveConnection s = Some a -> m_unrecoverable (deref a s) = false ->
  connectionMaxRetries (ps s) <= m_connectionAttempt s ->
  connections s !! Z.to_nat ((m_activeConnectionIdx s + 1) mod zsize (connections s)) = Some b ->
  let s' := snd (rotateConnect s) in
  m_activeConnectionIdx s' = (m_activeConnectionIdx s + 1) mod zsize (connections s) /\
  connections s' = connections s /\
  m_connectionSwitches s' = u32 (m_connectionSwitches s + 1) /\
  if String.eqb (m_host (deref b s)) "exit"
  then trace s' = trace s ++ [ARaiseSigterm] /\ m_running s' = false /\ m_isMining (pm_farm s') = false
  else trace s' = trace s ++ [AConnect (Some b)] /\ m_connectionAttempt s' = 1 /\
       (p_client s' ≫= m_conn) = Some b.
Proof.
  intros (Hf & H0 & Hr) Hn Hsz Ha Hu Hmax Hb.
  destruct Hr as [Hr|[Hr _]]; [|rewrite Hr in Hsz; unfold zsize in Hsz; simpl in Hsz; lia].
  set (i := (m_activeConnectionIdx s + 1) mod zsize (connections s)) in *.
  assert (Hi : (if zsize (connections s) <=? u32 (m_activeConnectionIdx s + 1) then 0
                else u32 (m_activeConnectionIdx s + 1)) = i).
  { rewrite wrap_id by (split; lia). subst i. destruct (Z.leb_spec (zsize (connections s)) (m_activeConnectionIdx s + 1)).
    - replace (m_activeConnectionIdx s + 1) with (zsize (connections s)) by lia. by rewrite Z.mod_same by lia.
    - by rewrite Z.mod_small by lia. }
  set (s1 := add_switch (put_active i (put_attempt 0 s))).
  assert (Hsel : rotate_select s = (Ok tt, s1)).
  { unfold rotate_select. assert (zsize (connections s) <=? m_activeConnectionIdx s = false) as ->
      by (by apply Z.leb_gt).
    unfold conn_at. unfold getActiveConnection in Ha. rewrite Ha, Hu.
    assert (connectionMaxRetries (ps s) <=? m_connectionAttempt s = true) as -> by (by apply Z.leb_le).
    destruct (Z.eqb_spec (zsize (connections s)) 1); [lia|].
    cbn [connections put_active put_attempt m_activeConnectionIdx]. subst s1. rewrite <- Hi.
    by destruct (_ <=? _). }
  cbn zeta. unfold rotateConnect. rewrite Hn, Hsel. unfold conn_at. change (connections s1) with (connections s).
  change (m_activeConnectionIdx s1) with i. rewrite Hb. change (deref b s1) with (deref b s).
  destruct (String.eqb (m_host (deref b s)) "exit"); cbn [negb].
  - subst s1. unfold farm_stop_if_mining. cbn [pm_farm add_switch put_active put_attempt put_switches].
    destruct (m_isMining (pm_farm s)) eqn:Em; [|done]. unfold Farm.stop. rewrite Em. done.
  - done.
Qed.

(** ** Work *)

(** The epoch of the work handed to the farm.  While the manager has no epoch, or the job's
    epoch (stratum mode 3) or seed (other modes) differs from the current one, the epoch is the
    job's own, else its block number divided by 30000, else the one found from its seed; and the
    epoch change is counted.  Otherwise the current epoch is kept whatever the job says. *)
Theorem work_epoch (mode : Z) (wp cur : WorkPackage) :
  let '(w, newEpoch) := next_work find_epoch_number mode wp cur in
  let changed := epoch cur = -1 \/ (mode = 3 /\ epoch wp <> epoch cur) \/
                 (mode <> 3 /\ seed wp <> seed cur) in
  (newEpoch = true <-> changed) /\
  header w = header wp /\ boundary w = boundary wp /\ seed w = seed wp /\ block w = block wp /\
  startNonce w = startNonce wp /\ exSizeBytes w = exSizeBytes wp /\
  epoch w = (if newEpoch then
               if epoch wp =? -1 then
                 if 0 <=? block wp then block wp / 30000 else find_epoch_number (seed wp)
               else epoch wp
             else epoch cur).
Proof.
  unfold next_work. destruct (Z.eqb_spec (epoch cur) (-1)) as [E|E].
  - destruct (epoch wp =? -1); (split_and!; try done; try tauto). cbn.
    destruct (Z.leb_spec 0 (block wp)); [|done]. by rewrite Z.quot_div_nonneg by lia.
  - set (ne := if mode =? 3 then _ else _).
    assert (Hne : ne = true <-> epoch cur = -1 \/ (mode = 3 /\ epoch wp <> epoch cur) \/
                 (mode <> 3 /\ seed wp <> seed cur)).
    { subst ne. unfold hash_eq. destruct (Z.eqb_spec mode 3); rewrite negb_true_iff.
      - rewrite Z.eqb_neq. tauto.
      - rewrite bool_decide_eq_false. tauto. }
    clearbody ne. destruct ne; [|by split_and!].
    destruct (epoch wp =? -1); (split_and!; try done).
    cbn. destruct (Z.leb_spec 0 (block wp)); [|done]. by rewrite Z.quot_div_nonneg by lia.
Qed.

(** ** Losing and regaining the connection, and stopping *)

Lemma farm_pause_all f : Forall (fun x => Miner.pauseTest PauseDueToFarmPaused (fm x) = true)
  (m_miners (f_pause f)).
Proof.
  unfold f_pause. cbn [m_miners with_miners]. apply Forall_fmap, Forall_true. intros x.
  unfold compose. cbn [fm on_miner].
  rewrite pauseTest_setbit. by rewrite bool_decide_eq_true_2.
Qed.

Lemma farm_resume_all f : Forall (fun x => Miner.pauseTest PauseDueToFarmPaused (fm x) = false)
  (m_miners (f_resume f)).
Proof.
  unfold f_resume. cbn [m_miners with_miners]. apply Forall_fmap, Forall_true. intros x.
  unfold compose. cbn [fm on_miner].
  rewrite pauseTest_clearbit. by rewrite bool_decide_eq_true_2.
Qed.

(** A lost connection that is not a requested stop suspends every miner and schedules the
    rotation; when a client then connects, the miners of a mining farm are resumed, the pending
    flag falls and the stale job is gone.  A lost connection during a stop shuts the farm down
    and ends the run. *)
Theorem connection_loss (s : PoolManager) (ep : string) (now rnd : Z) :
  let d := onDisconnected (set_connected false s) in
  wp_bool (pm_currentWp d) = false /\
  (m_stopping s = false ->
     f_paused (pm_farm d) = true /\ posted d = S (posted s) /\ m_async_pending d = true /\
     m_running d = m_running s /\
     Forall (fun x => Miner.paused (fm x) = true) (m_miners (pm_farm d))) /\
  (m_stopping s = true -> m_running d = false /\ m_isMining (pm_farm d) = false /\ posted d = posted s) /\
  (forall a, p_client s ≫= m_conn = Some a -> m_isMining (pm_farm s) = true -> f_paused (pm_farm s) = true ->
     let '(r, c) := onConnected ep now rnd (set_connected true s) in
     r = Ok tt /\ f_paused (pm_farm c) = false /\ m_async_pending c = false /\
     m_connectionAttempt c = 0 /\ wp_bool (pm_currentWp c) = false /\
     Forall (fun x => Miner.pauseTest PauseDueToFarmPaused (fm x) = false) (m_miners (pm_farm c))).
Proof.
  cbn zeta. split_and!.
  - unfold onDisconnected, set_connected, farm_stop_if_mining. repeat case_match; done.
  - intros Hst. unfold onDisconnected, set_connected.
    assert (Hgen : forall s1, m_stopping s1 = false -> pm_farm s1 = pm_farm s -> posted s1 = posted s ->
      m_running s1 = m_running s ->
      let d := (if m_stopping s1 then put_running false (farm_stop_if_mining s1)
        else put_posted (S (posted s1)) (put_farm (f_pause (pm_farm s1)) (put_pending true s1))) in
      f_paused (pm_farm d) = true /\ posted d = S (posted s) /\ m_async_pending d = true /\
      m_running d = m_running s /\ Forall (fun x => Miner.paused (fm x) = true) (m_miners (pm_farm d))).
    { intros s1 -> Hf Hp Hr. cbn. rewrite Hf, Hp, Hr. split_and!; try done.
      eapply Forall_impl; [apply (farm_pause_all (pm_farm s))|]. intros x Hx. unfold Miner.paused, pauseTest in *.
      apply negb_true_iff, Z.eqb_neq. intros E. by rewrite E, Z.bits_0 in Hx. }
    apply Hgen; repeat case_match; done.
  - intros Hst. unfold onDisconnected, set_connected, farm_stop_if_mining.
    repeat case_match; simplify_eq/=; try congruence; split_and!; try done;
      unfold Farm.stop; repeat case_match; simplify_eq/=; try done; congruence.
  - intros a Ha Hm Hp. unfold onConnected, set_connected.
    destruct (p_client s) as [c|] eqn:Ec; [|done]. cbn in Ha.
    cbn [p_client put_client option_bind mbind m_conn]. rewrite Ha.
    repeat case_match; simplify_eq/=; bool_to_prop; try congruence; split_and!; try done;
      apply farm_resume_all.
Qed.

(** Stopping.  With a connected client, [stop] asks it to disconnect, and its report shuts
    the farm down and lets [stop] return.  Without one, [stop] cancels the timers and stops the
    miners, but the manager still counts as running, and a client that completes its connection
    afterwards starts the miners again. *)
Theorem stop_outcomes (s : PoolManager) (ep : string) (now rnd : Z) :
  m_running s = true ->
  (isConnected s = true ->
     let t := stop s in
     trace t = trace s ++ [ADisconnect] /\ stop_returns t = None /\
     (exists t', stop_returns (onDisconnected (set_connected false t)) = Some t' /\
        m_running t' = false /\ m_isMining (pm_farm t') = false /\ p_client t' = None)) /\
  (isConnected s = false ->
     let t := stop s in
     failovertimer t = None /\ submithrtimer t = None /\ reconnecttimer t = None /\
     m_isMining (pm_farm t) = false /\ m_running t = true /\ m_stopping t = true /\
     (forall a, p_client s ≫= m_conn = Some a ->
        m_isMining (pm_farm (snd (onConnected ep now rnd (set_connected true t)))) = true)).
Proof.
  intros Hr. split; intros Hc; unfold stop; rewrite Hr;
    change (isConnected (put_stopping true (put_pending true s))) with (isConnected s); rewrite Hc.
  - cbn zeta. split_and!; [done | unfold stop_returns; cbn; by rewrite Hr |].
    unfold isConnected in Hc. destruct (p_client s) as [c|] eqn:Ec; [|done].
    unfold stop_returns, onDisconnected, set_connected. cbn. rewrite Ec. cbn.
    eexists. split; [done|]. unfold farm_stop_if_mining. cbn.
    destruct (m_isMining (pm_farm s)) eqn:Em; cbn; [|by rewrite Em]. unfold Farm.stop. by rewrite Em.
  - cbn zeta. unfold farm_stop_if_mining. cbn [pm_farm put_reconnect put_submithr put_failover put_stopping put_pending].
    assert (Hoff : m_isMining (pm_farm (if m_isMining (pm_farm s)
       then put_farm (fst (Farm.stop (pm_farm s))) (put_reconnect None (put_submithr None (put_failover None
         (put_stopping true (put_pending true s)))))
       else put_reconnect None (put_submithr None (put_failover None (put_stopping true (put_pending true s)))))) = false).
    { destruct (m_isMining (pm_farm s)) eqn:Em; [|done]. unfold Farm.stop. by rewrite Em. }
    set (t := if m_isMining (pm_farm s) then _ else _) in *.
    assert (Ht : failovertimer t = None /\ submithrtimer t = None /\ reconnecttimer t = None /\
      m_running t = true /\ m_stopping t = true /\ p_client t = p_client s)
      by (subst t; by destruct (m_isMining (pm_farm s))).
    clearbody t. destruct Ht as (H1 & H2 & H3 & H4 & H5 & H6). split_and!; try done.
    intros a Ha. unfold onConnected, set_connected. rewrite H6.
    destruct (p_client s) as [c|]; [|done]. cbn in Ha.
    cbn [p_client put_client option_bind mbind m_conn]. rewrite Ha.
    assert (Hstart : forall f, snd (Farm.start now f) = snd (Farm.start now f) /\
      m_isMining (snd (Farm.start now f)) = true).
    { intros f. split; [done|]. unfold Farm.start. destruct (m_isMining f) eqn:E; [done|]. by destruct (m_miners f). }
    repeat case_match; cbn; try apply Hstart; bool_to_prop; simplify_eq/=; congruence.
Qed.

(** Switching to another pool by index: the call fails without any effect when the index is
    out of range or an operation is outstanding; on the active pool it does nothing; otherwise
    it makes the pool active, restarts its attempt count, counts the switch, keeps further
    requests out and asks the client to disconnect. *)
Theorem setActiveConnection_effect (idx : Z) (s : PoolManager) :
  p_client s <> None ->
  match setActiveConnection idx s with
  | (Throw _, s') => s' = s /\ (zsize (connections s) <= idx \/ m_async_pending s = true)
  | (Ok _, s') =>
      idx < zsize (connections s) /\ m_async_pending s = false /\
      if idx =? m_activeConnectionIdx s
      then trace s' = trace s /\ m_async_pending s' = false /\ m_activeConnectionIdx s' = idx
      else trace s' = trace s ++ [ADisconnect] /\ m_async_pending s' = true /\
           m_activeConnectionIdx s' = idx /\ m_connectionAttempt s' = 0 /\
           m_connectionSwitches s' = u32 (m_connectionSwitches s + 1)
  end.
Proof.
  intros Hc. unfold setActiveConnection. destruct (Z.leb_spec (zsize (connections s)) idx); [by auto|].
  unfold setActiveConnectionCommon. destruct (m_async_pending s); [by auto|].
  cbn [m_activeConnectionIdx put_pending]. destruct (Z.eqb_spec idx (m_activeConnectionIdx s)); [done|].
  unfold client_disconnect. cbn [p_client put_attempt put_active add_switch put_switches put_pending].
  by destruct (p_client s).
Qed.

End pool_manager_theorems.

(** ** Examples and witnesses *)

#[local] Existing Instance Farm.zero_ethash.
#[local] Existing Instance BoostModel.boost.
#[local] Existing Instance JsonModel.json.
#[local] Existing Instance BigIntegerModel.instance.

Definition example_pool_settings : PoolSettings := {|
  getWorkPollInterval := 500; noWorkTimeout := 180; noResponseTimeout := 2; poolFailoverTimeout := 0;
  reportHashrate := false; hashRateInterval := 60; hashRateId := "0x0"; connectionMaxRetries := 3;
  delayBeforeRetry := 0; benchmarkBlock := 0 |}.

Definition example_uri (s : string) : URI :=
  match URI_new s false with Ok u => u | Throw _ => URI_init s end.
Definition example_manager : PoolManager :=
  PoolManager_new example_pool_settings
    [example_uri "stratum1+tcp://a@one.org:1"; example_uri "http://b@two.org:2"] [0%nat; 1%nat]
    (Farm_new example_devices example_settings 0 7).

(** Both pools fail three times each: the manager returns to the first one. *)
Example failover_trace :
  trace (Nat.iter 7 failed_attempt example_manager) =
  [AConnect (Some 0%nat); AConnect (Some 0%nat); AConnect (Some 0%nat);
   AConnect (Some 1%nat); AConnect (Some 1%nat); AConnect (Some 1%nat); AConnect (Some 0%nat)].
Proof. vm_compute. reflexivity. Qed.

Lemma example_manager_inv : pm_inv example_manager.
Proof. split_and!; [by_evaluation | by_evaluation | left; by_evaluation]. Qed.

(** The first pool is connected, the manager switched to the second, which connects in turn, and then the first
    one is removed: the second pool stays active, under the index 0. *)
Definition example_connected (s : PoolManager) : PoolManager :=
  snd (onConnected "1.2.3.4:1" 5 7 (set_connected true (snd (rotateConnect s)))).
Definition example_walk : PoolManager :=
  let s := snd (setActiveConnection 1 (example_connected (start example_manager))) in
  snd (removeConnection 0 (example_connected (onDisconnected (set_connected false s)))).
Lemma example_walk_reached find_epoch iequals : star (pm_step find_epoch iequals) example_manager example_walk.
Proof.
  unfold example_walk, example_connected. cbv zeta.
  eapply star_step; [apply PsStart|]. eapply star_step; [apply PsRotate|].
  eapply star_step; [by apply (PsConnected _ _ "1.2.3.4:1" 5 7)|]. eapply star_step; [by apply (PsActive _ _ 1)|].
  eapply star_step; [apply PsDisconnected|]. eapply star_step; [apply PsRotate|].
  eapply star_step; [by apply (PsConnected _ _ "1.2.3.4:1" 5 7)|]. eapply star_step; [by apply (PsRemove _ _ 0)|].
  apply star_refl.
Qed.

Lemma active_connection_valid_witness :
  (getActiveConnection example_walk = None <-> connections example_walk = []) /\
  connections example_walk = [1%nat] /\ fst (rotateConnect example_walk) = Ok tt.
Proof.
  destruct (active_connection_valid (fun _ => 0) String.eqb example_manager example_walk
    example_manager_inv (example_walk_reached _ _)) as [H1 H2].
  assert (Hc : connections example_walk = [1%nat]) by by_evaluation.
  split; [exact H1|]. split; [exact Hc|]. apply H2. rewrite Hc. discriminate.
Defined.

Lemma removeConnection_keeps_active_witness :
  getActiveConnection (snd (removeConnection 1 example_manager)) = getActiveConnection example_manager.
Proof.
  pose proof (removeConnection_keeps_active 1 example_manager example_manager_inv ltac:(lia)) as H.
  destruct (removeConnection 1 example_manager) as [[[]|e] s'].
  - destruct H as (H & _). exact H.
  - destruct H as [-> _]. reflexivity.
Defined.



Definition example_exhausted : PoolManager := put_attempt 3 example_manager.

Lemma failover_to_next_pool_witness :
  m_activeConnectionIdx (snd (rotateConnect example_exhausted)) =
  (m_activeConnectionIdx example_exhausted + 1) mod zsize (connections example_exhausted).
Proof.
  destruct (failover_to_next_pool example_exhausted 0 1) as [H _].
  - split_and!; [by_evaluation | by_evaluation | left; by_evaluation].
  - vm_compute. reflexivity.
  - by_evaluation.
  - vm_compute. reflexivity.
  - vm_compute. reflexivity.
  - by_evaluation.
  - vm_compute. reflexivity.
  - exact H.
Defined.

Definition example_connecting : PoolManager :=
  put_running true (snd (rotateConnect example_manager)).

Definition example_active : PoolManager :=
  snd (onConnected "" 0 0 (set_connected true example_connecting)).

Lemma connection_loss_witness :
  f_paused (pm_farm (onDisconnected (set_connected false example_connecting))) = true.
Proof.
  assert (Hs : m_stopping example_connecting = false) by (vm_compute; reflexivity).
  destruct (connection_loss example_connecting "" 0 0) as (_ & H & _).
  destruct (H Hs) as [H' _]. exact H'.
Defined.

Lemma stop_outcomes_witness :
  m_isMining (pm_farm (snd (onConnected "" 5 0 (set_connected true (stop example_connecting))))) = true.
Proof.
  assert (Hc : isConnected example_connecting = false) by (vm_compute; reflexivity).
  assert (Ha : p_client example_connecting ≫= m_conn = Some 0%nat) by (vm_compute; reflexivity).
  destruct (stop_outcomes example_connecting "" 5 0) as [_ H]; [vm_compute; reflexivity|].
  destruct (H Hc) as (_ & _ & _ & _ & _ & _ & H'). exact (H' 0%nat Ha).
Defined.

Lemma setActiveConnection_effect_witness :
  trace (snd (setActiveConnection 1 example_active)) = trace example_active ++ [ADisconnect].
Proof.
  assert (Hc : p_client example_active <> None) by (vm_compute; discriminate).
  pose proof (setActiveConnection_effect 1 example_active Hc) as H.
  assert (Hi : 1 =? m_activeConnectionIdx example_active = false) by (vm_compute; reflexivity).
  assert (Hf : fst (setActiveConnection 1 example_active) = Ok tt) by (vm_compute; reflexivity).
  destruct (setActiveConnection 1 example_active) as [r s']. cbn in Hf. subst r.
  destruct H as (_ & _ & H). rewrite Hi in H. destruct H as (H & _). exact H.
Defined.
