(* ===== verification/ApiStat.v ===== *)
(** * libapicore: the statistics the API server reports

    [getMinerStat1], [getMinerStatDetail], [getMinerStatDetailPerMiner] and the page of
    [getHttpMinerStatDetail] of src/libapicore/ApiServer.cpp, and the [Farm] and [PoolManager]
    queries they are made of.  They are functions of the time and of the pool manager with its
    farm; the build's name and the host's name are parameters.  The page is built from the JSON
    value, read back member by member as the code does. *)

From S2P Require Import Prelude CppString CommonData FixedHash Worker Float.
From S2P Require Import Types Miner CpuMiner Farm PoolURI Json PoolManager.

Section api_stat.
Context {Jsn : Json} {Big : BigInteger}.
Context (project_name : string) (host_name : option string).

(** [Farm::get_nonce_scrambler_json] *)
Definition get_nonce_scrambler_json (f : Farm.Farm) : res J :=
  jobject jnull
    [("start_nonce", of_string (toHex_uint64 (m_nonce_scrambler f) Add 16));
     ("device_width", of_Z (m_nonce_segment_with f));
     ("device_count", of_Z (u64 (Z.of_nat (length (m_miners f)))))].

(** [getActiveConnection()], dereferenced. *)
Definition active_uri (p : PoolManager) : res URI :=
  match getActiveConnection p with
  | Some a => Ok (deref a p)
  | None => Throw (UndefinedBehaviour "null connection")
  end.

(** [PoolManager::isConnected], which does not look whether there is a client. *)
Definition client_isConnected (p : PoolManager) : res bool :=
  match p_client p with
  | Some c => Ok (m_connected c)
  | None => Throw (UndefinedBehaviour "null p_client")
  end.

(** Texts separated by [";"]. *)
Fixpoint semicolons (l : list string) : string :=
  match l with
  | [] => ""
  | [x] => x
  | x :: l' => x +:+ ";" +:+ semicolons l'
  end.

(** A hash rate in thousands, without decimals. *)
Definition khash (hr : spec_float) : string := fixed_str 0 (f32_div hr (f32_of_Z 1000)).

Definition getMinerStat1 (now : Z) (p : PoolManager) : res J :=
  let t := m_telemetry (pm_farm p) in
  let runningTime := Z.quot (now - t_start t) 60000000000 in
  let s := solutions (farm t) in
  let! connection := active_uri p in
  jarray empty_array (of_string <$>
    [project_name;
     dec_str runningTime;
     semicolons [khash (hashrate (farm t)); dec_str (accepted s); dec_str (rejected s)];
     semicolons ((fun m => khash (hashrate m)) <$> miners_ t);
     "0;0;0";
     semicolons ((fun _ => "off") <$> miners_ t);
     semicolons ((fun m => dec_str (tempC (sensors m)) +:+ ";" +:+ dec_str (fanP (sensors m))) <$> miners_ t);
     m_host connection +:+ ":" +:+ dec_str (m_port connection);
     dec_str (failed s) +:+ ";0" +:+ ";0;0"]).

(** The whole seconds since a time stamp. *)
Definition seconds_since (now t : Z) : Z := u64 (Z.quot (now - t) 1000000000).

Definition shares_json (now : Z) (s : SolutionAccountType) : res J :=
  jarray empty_array [of_Z (accepted s); of_Z (rejected s); of_Z (failed s);
                      of_Z (seconds_since now (sa_tstamp s))].

(** The nonces of a miner's segment: its first and the first after it. *)
Definition segment_of (f : Farm.Farm) (_index : Z) : res (Z * Z) :=
  let! off := shl64 _index (m_nonce_segment_with f) in
  let gpustartnonce := u64 (m_nonce_scrambler f + off) in
  let! width := shl64 1 (m_nonce_segment_with f) in
  Ok (gpustartnonce, u64 (gpustartnonce + width)).

Definition getMinerStatDetailPerMiner (now : Z) (f : Farm.Farm) (_miner : Miner.Miner) : res J :=
  let _index := m_index _miner in
  let minerDescriptor := getDescriptor _miner in
  let! memory := getFormattedMemory (f64_of_Z (totalMemory minerDescriptor)) WithSuffix 2 in
  let! t := (match miners_ (m_telemetry f) !! Z.to_nat _index with
             | Some t => Ok t
             | None => Throw (OutOfRange "vector::_M_range_check")
             end) in
  let! jsensors := jarray empty_array [of_Z (tempC (sensors t)); of_Z (fanP (sensors t));
                                       of_double (powerW (sensors t))] in
  let! hwinfo := jobject jnull [("pci", of_string (uniqueId minerDescriptor)); ("type", of_string "CPU");
                                ("name", of_string ("CPU" +:+ " " +:+ memory)); ("sensors", jsensors)] in
  let! jshares := shares_json now (solutions t) in
  let! (first, last) := segment_of f _index in
  let! jsegment := jarray empty_array [of_string (toHex_uint64 first Add 16);
                                       of_string (toHex_uint64 last Add 16)] in
  let! hr := f_to_u32 (hashrate t) in
  let! mininginfo := jobject jnull
    [("shares", jshares); ("paused", of_bool (Miner.paused _miner));
     ("pause_reason", if Miner.paused _miner then of_string (pausedString _miner) else jnull);
     ("segment", jsegment); ("hashrate", of_string (toHex_uint32 hr Add 8))] in
  jobject jnull [("_index", of_Z _index); ("hardware", hwinfo); ("mining", mininginfo)].

(** The devices, in the farm's order. *)
Fixpoint devices_json (now : Z) (f : Farm.Farm) (devices : J) (l : list FarmMiner) : res J :=
  match l with
  | [] => Ok devices
  | miner :: l' =>
      let! d := getMinerStatDetailPerMiner now f (fm miner) in
      let! devices := jappend devices d in
      devices_json now f devices l'
  end.

Definition getMinerStatDetail (now : Z) (p : PoolManager) : res J :=
  let f := pm_farm p in
  let t := m_telemetry f in
  let! hostinfo := jobject jnull
    [("version", of_string project_name); ("runtime", of_Z (seconds_since now (t_start t)));
     ("name", match host_name with Some n => of_string n | None => jnull end)] in
  let! connection := active_uri p in
  let! connected := client_isConnected p in
  let! connectioninfo := jobject jnull
    [("uri", of_string (m_uri connection)); ("connected", of_bool connected);
     ("switches", of_Z (m_connectionSwitches p))] in
  let! hr := f_to_u32 (hashrate (farm t)) in
  let! difficulty := getCurrentDifficulty p in
  let! sharesinfo := shares_json now (solutions (farm t)) in
  let! mininginfo := jobject jnull
    [("hashrate", of_string (toHex_uint32 hr Add 8)); ("epoch", of_Z (getCurrentEpoch p));
     ("epoch_changes", of_Z (m_epochChanges p)); ("difficulty", of_double difficulty);
     ("shares", sharesinfo)] in
  let! devices := devices_json now f empty_array (m_miners f) in
  jobject jnull [("devices", devices); ("connection", connectioninfo); ("host", hostinfo);
                 ("mining", mininginfo)].

(** ** The page *)

Definition dq : string := String (chr 34) "".
Definition quoted (s : string) : string := dq +:+ s +:+ dq.

(** [j[a][b]] *)
Definition member2 (j : J) (a b : string) : res J := let! x := jget j a in jget x b.
Definition text2 (j : J) (a b : string) : res string := let! x := member2 j a b in asString x.
Definition item (j : J) (a b : string) (i : nat) : res J := let! x := member2 j a b in jat x i.

Definition HTTP_HDR0_COLOR := "#e8e8e8".
Definition HTTP_HDR1_COLOR := "#f0f0f0".
Definition HTTP_ROW0_COLOR := "#f8f8f8".
Definition HTTP_ROW1_COLOR := "#ffffff".
Definition HTTP_ROWRED_COLOR := "#f46542".

Definition html_style : string := String.concat ""
  ["<style>";
   "body{font-family:-apple-system,BlinkMacSystemFont,"; quoted "Segoe UI"; ",Roboto,";
   quoted "Helvetica Neue"; ",Helvetica,Arial,sans-serif;font-size:16px;line-height:1.5;";
   "text-align:center;}";
   "table,td,th{border:1px inset #000;}";
   "table{border-spacing:0;}";
   "td,th{padding:3px;}";
   "tbody tr:nth-child(even){background-color:"; HTTP_ROW0_COLOR; ";}";
   "tbody tr:nth-child(odd){background-color:"; HTTP_ROW1_COLOR; ";}";
   ".mx-auto{margin-left:auto;margin-right:auto;}";
   ".bg-header1{background-color:"; HTTP_HDR1_COLOR; ";}";
   ".bg-header0{background-color:"; HTTP_HDR0_COLOR; ";}";
   ".bg-red{color:"; HTTP_ROWRED_COLOR; ";}";
   ".right{text-align: right;}";
   "</style>"].

Definition html_columns : string := String.concat ""
  ["<th>PCI</th>"; "<th>Device</th>"; "<th>Mode</th>"; "<th>Paused</th>";
   "<th class=right>Hash Rate</th>"; "<th class=right>Solutions</th>"; "<th class=right>Temp.</th>";
   "<th class=right>Fan %</th>"; "<th class=right>Power</th>"].

(** The running time as [h:mm]. *)
Definition run_time (durationSeconds : Z) : string :=
  let hours := i32 (durationSeconds / 3600) in
  let minutes := i32 (u64 (durationSeconds - hours * 3600) / 60) in
  let hoursSize := if 9 <? hours then if 99 <? hours then 3%nat else 2%nat else 1%nat in
  setw hoursSize " " (dec_str hours) +:+ ":" +:+ setw 2 "0" (dec_str minutes).

Definition html_head (jStat : J) : res string :=
  let! runtime := member2 jStat "host" "runtime" in
  let! durationSeconds := asUInt 64 runtime in
  let! title := text2 jStat "host" "name" in
  let! version := text2 jStat "host" "version" in
  let! uri := text2 jStat "connection" "uri" in
  Ok (String.concat ""
    ["<!doctype html>"; "<html lang=en>"; "<head>"; "<meta charset=utf-8>";
     "<meta http-equiv="; quoted "refresh"; " content="; quoted "30"; ">";
     "<title>"; title; "</title>"; html_style;
     "<meta http-equiv=refresh content=30>"; "</head>"; "<body>"; "<table class=mx-auto>"; "<thead>";
     "<tr class=bg-header1>"; "<th colspan=9>"; version; " - "; run_time durationSeconds;
     "<br>Pool: "; uri; "</th>"; "</tr>"; "<tr class=bg-header0>"; html_columns; "</tr>";
     "</thead><tbody>"]).

(** Hash rate, power and accepted solutions: of a device, and summed up. *)
Record totals := { total_hashrate : spec_float; total_power : spec_float; total_solutions : Z }.

Definition html_row (device : J) : res (string * totals) :=
  let! h := text2 device "mining" "hashrate" in
  let! hr := stoull h 16 in
  let hashrate := f64_of_Z hr in
  let! jpower := item device "hardware" "sensors" 2 in
  let! power := asDouble f64_of_Z jpower in
  let! jsolutions := item device "mining" "shares" 0 in
  let! solutions := asUInt 32 jsolutions in
  let! jpaused := member2 device "mining" "paused" in
  let! paused := asBool jpaused in
  let! pci := text2 device "hardware" "pci" in
  let! name := text2 device "hardware" "name" in
  let! mode := jget device "_mode" in
  let! mode := asString mode in
  let! reason := (if paused : bool then text2 device "mining" "pause_reason" else Ok "No") in
  let! rate := getFormattedHashes hashrate WithSuffix 2 in
  let! a := asString jsolutions in
  let! r := item device "mining" "shares" 1 in
  let! r := asString r in
  let! f := item device "mining" "shares" 2 in
  let! f := asString f in
  let! temp := item device "hardware" "sensors" 0 in
  let! temp := asString temp in
  let! fan := item device "hardware" "sensors" 1 in
  let! fan := asString fan in
  Ok (String.concat ""
        ["<tr"; if paused then " class=" +:+ quoted "bg-red" else ""; ">";
         "<td>"; pci; "</td>"; "<td>"; name; "</td>"; "<td>"; mode; "</td>";
         "<td>"; reason; "</td>"; "<td class=right>"; rate; "</td>";
         "<td class=right>"; "A" +:+ a +:+ ":R" +:+ r +:+ ":F" +:+ f; "</td>";
         "<td class=right>"; temp; "</td>"; "<td class=right>"; fan; "</td>";
         "<td class=right>"; fixed_str 2 power; "</td>"; "</tr>"],
      {| total_hashrate := hashrate; total_power := power; total_solutions := solutions |}).

Fixpoint html_rows (n : nat) (devices : J) (i : nat) (acc : totals) : res (string * totals) :=
  match n with
  | O => Ok ("", acc)
  | S n' =>
      let! device := jat devices i in
      let! (row, t) := html_row device in
      let! (rows, acc) := html_rows n' devices (S i)
        {| total_hashrate := f64_add (total_hashrate acc) (total_hashrate t);
           total_power := f64_add (total_power acc) (total_power t);
           total_solutions := u32 (total_solutions acc + total_solutions t) |} in
      Ok (row +:+ rows, acc)
  end.

Definition html_page (jStat : J) : res string :=
  let! head := html_head jStat in
  let! devices := jget jStat "devices" in
  let! (rows, t) := html_rows (jsize devices) devices 0
    {| total_hashrate := f_zero; total_power := f_zero; total_solutions := 0 |} in
  let! rate := getFormattedHashes (total_hashrate t) WithSuffix 2 in
  Ok (String.concat ""
    [head; rows; "</tbody>";
     "<tfoot><tr class=bg-header0><td colspan=4 class=right>Total</td><td class=right>"; rate;
     "</td><td class=right>"; dec_str (total_solutions t); "</td><td colspan=3 class=right>";
     fixed_str 2 (total_power t); "</td></tfoot>"; "</table></body></html>"]).

Definition getHttpMinerStatDetail (now : Z) (p : PoolManager) : res string :=
  let! jStat := getMinerStatDetail now p in html_page jStat.

End api_stat.
