(* ===== verification/ApiServer.v ===== *)
(** * libapicore/ApiServer: the monitoring and control interface

    [ApiConnection] and [ApiServer] of src/libapicore/ApiServer.{h,cpp}: request validation,
    authentication, the dispatch of every method onto the farm and the pool manager, the HTTP
    side, the life of the sessions.  A handler runs on one session and the state the process
    shares ([World]); the asynchronous operations it starts are a list of pending operations.  The
    handlers are bound to the bare object, so an operation that completes after its session was
    destroyed runs on freed memory: [UndefinedBehaviour]. *)

From S2P Require Import Prelude CppString Lines CommonData FixedHash Worker Float.
From S2P Require Import Types Miner CpuMiner Farm Regex PoolURI Json PoolManager ApiStat.

(** The state outside the API server its methods act on: the pool manager with its farm, the
    verbosity, and the farm restarts and reboot scripts asked for. *)
Record World := {
  pool : PoolManager;
  g_logOptions : Z;
  restarts : nat;
  reboots : nat }.

Definition with_pool (p : PoolManager) (w : World) : World :=
  {| pool := p; g_logOptions := g_logOptions w; restarts := restarts w; reboots := reboots w |}.
Definition with_log (v : Z) (w : World) : World :=
  {| pool := pool w; g_logOptions := v; restarts := restarts w; reboots := reboots w |}.
Definition add_restart (w : World) : World :=
  {| pool := pool w; g_logOptions := g_logOptions w; restarts := S (restarts w); reboots := reboots w |}.
Definition add_reboot (w : World) : World :=
  {| pool := pool w; g_logOptions := g_logOptions w; restarts := restarts w; reboots := S (reboots w) |}.
Definition on_farm (g : Farm.Farm -> Farm.Farm) (w : World) : World :=
  with_pool (put_farm (g (pm_farm (pool w))) (pool w)) w.

Definition LOG_NEXT : Z := 512.

Record ApiConnection := {
  m_sessionId : Z;
  m_readonly : bool;
  m_password : string;
  m_is_authenticated : bool;
  m_message : string;
  m_sendBuffer : string;
  m_open : bool }.

Definition ApiConnection_new (id : Z) (readonly : bool) (password : string) : ApiConnection := {|
  m_sessionId := id; m_readonly := readonly; m_password := password;
  m_is_authenticated := String.eqb password ""; m_message := ""; m_sendBuffer := ""; m_open := true |}.

(** The operations under way: the read, a write of a text (with whether the session ends after it). *)
Inductive op := ORead | OWrite (text : string) (_disconnect : bool).

(** What a handler works on. *)
Record Api := {
  ses : ApiConnection;
  env : World;
  started : list op;
  disconnected : bool }.    (* m_onDisconnected was called: the session is destroyed *)

Definition put_env (w : World) (a : Api) : Api :=
  {| ses := ses a; env := w; started := started a; disconnected := disconnected a |}.
Definition put_ses (s : ApiConnection) (a : Api) : Api :=
  {| ses := s; env := env a; started := started a; disconnected := disconnected a |}.
Definition put_auth (b : bool) (a : Api) : Api :=
  put_ses {| m_sessionId := m_sessionId (ses a); m_readonly := m_readonly (ses a);
             m_password := m_password (ses a); m_is_authenticated := b; m_message := m_message (ses a);
             m_sendBuffer := m_sendBuffer (ses a); m_open := m_open (ses a) |} a.
Definition put_message (x : string) (a : Api) : Api :=
  put_ses {| m_sessionId := m_sessionId (ses a); m_readonly := m_readonly (ses a);
             m_password := m_password (ses a); m_is_authenticated := m_is_authenticated (ses a);
             m_message := x; m_sendBuffer := m_sendBuffer (ses a); m_open := m_open (ses a) |} a.
Definition put_sendBuffer (x : string) (a : Api) : Api :=
  put_ses {| m_sessionId := m_sessionId (ses a); m_readonly := m_readonly (ses a);
             m_password := m_password (ses a); m_is_authenticated := m_is_authenticated (ses a);
             m_message := m_message (ses a); m_sendBuffer := x; m_open := m_open (ses a) |} a.
Definition put_open (b : bool) (a : Api) : Api :=
  put_ses {| m_sessionId := m_sessionId (ses a); m_readonly := m_readonly (ses a);
             m_password := m_password (ses a); m_is_authenticated := m_is_authenticated (ses a);
             m_message := m_message (ses a); m_sendBuffer := m_sendBuffer (ses a); m_open := b |} a.
Definition start_op (o : op) (a : Api) : Api :=
  {| ses := ses a; env := env a; started := started a ++ [o]; disconnected := disconnected a |}.
Definition set_disconnected (a : Api) : Api :=
  {| ses := ses a; env := env a; started := started a; disconnected := true |}.

Definition M := SE Api.
Definition gets {A} (f : Api -> A) : M A := fun a => (Ok (f a), a).

(** An operation of the pool manager. *)
Definition on_pool (m : SE PoolManager unit) : M unit := fun a =>
  let '(r, p) := m (pool (env a)) in (r, put_env (with_pool p (env a)) a).

(** [what()] of the exceptions whose text reaches a client. *)
Definition what (e : exn) : string :=
  match e with
  | RuntimeError w | InvalidArgument w | OutOfRange w | LibError w => w
  | BadHexCharacter => "BadHexCharacter"
  | ThrownPointer | UndefinedBehaviour _ => ""
  end.
Definition caught_by_any (e : exn) : bool := match e with UndefinedBehaviour _ => false | _ => true end.

(** [try { m } catch ... { handler }] *)
Definition try_with {A} (caught : exn -> bool) (m : M A) (handler : exn -> M A) : M A := fun a =>
  match m a with
  | (Throw e, a') => if caught e then handler e a' else (Throw e, a')
  | r => r
  end.

Section requests.
Context {Jsn : Json} {Big : BigInteger} {Bst : BoostUri}.
Context (project_name : string) (host_name : option string).
Context (iequals : string -> string -> bool).   (* boost *)
Context (reboot : bool).                        (* whether the reboot script is there *)

(** ** Reading the members of a request *)

(** [jResponse["error"]["code"] = code; jResponse["error"]["message"] = message] *)
Definition set_error (jResponse : J) (code : Z) (message : string) : res J :=
  let! e := jget jResponse "error" in
  let! e := jset e "code" (of_Z code) in
  let! e := jset e "message" (of_string message) in
  jset jResponse "error" e.

Definition in_quotes (s : string) : string := "'" +:+ s +:+ "'".

(** [getRequestValue] of the type tested by [type_ok] and read by [conv]: [inl] is the value left
    in [refValue] (unchanged when the member is optional and missing), [inr] the refusal. *)
Definition getRequestValue {A} (type_ok : J -> bool) (conv : J -> res A) (membername : string)
    (refValue : A) (jRequest : J) (optional : bool) (jResponse : J) : res (A + J) :=
  let refuse (text : string) :=
    let! r := set_error jResponse (-32602) (text +:+ in_quotes membername) in Ok (inr r) in
  let! has := jhas jRequest membername in
  if negb has then if optional then Ok (inl refValue) else refuse "Missing "
  else
    let! v := jget jRequest membername in
    if negb (type_ok v) then refuse "Invalid type of value "
    else if jempty v then refuse "Empty "
    else let! x := conv v in Ok (inl x).

Definition getRequestBool := getRequestValue isBool asBool.
Definition getRequestUnsigned := getRequestValue isUInt (asUInt 32).
Definition getRequestObject := getRequestValue isObject (fun v => Ok v).
Definition getRequestString := getRequestValue isString asString.

(** The 64-bit overload does not look at the type; when the conversion throws, the error code is
    written into the request instead of the response. *)
Definition getRequestUInt64 (membername : string) (refValue : Z) (jRequest : J) (optional : bool)
    (jResponse : J) : res (Z + J) :=
  let refuse (text : string) :=
    let! r := set_error jResponse (-32602) (text +:+ in_quotes membername) in Ok (inr r) in
  let! has := jhas jRequest membername in
  if negb has then if optional then Ok (inl refValue) else refuse "Missing "
  else
    let! v := jget jRequest membername in
    if jempty v then refuse "Empty "
    else
      match asUInt 64 v with
      | Ok x => Ok (inl x)
      | Throw _ =>
          let! e := jget jResponse "error" in
          let! e := jset e "message" (of_string ("Bad value in " +:+ in_quotes membername)) in
          let! r := jset jResponse "error" e in Ok (inr r)
      end.

Definition checkApiWriteAccess (is_read_only : bool) (jResponse : J) : res (unit + J) :=
  if is_read_only
  then let! r := set_error jResponse (-32601) "Method not available" in Ok (inr r)
  else Ok (inl tt).

(** [true] with the id copied into the response, or [false] with the error in it. *)
Definition parseRequestId (jRequest jResponse : J) : res (bool * J) :=
  let! has := jhas jRequest "id" in
  let! v := (if has : bool then jget jRequest "id" else Ok jnull) in
  if negb has || jempty v then
    let! r := jset jResponse "id" jnull in
    let! r := set_error r (-32600) "Invalid Request (missing or empty id)" in Ok (false, r)
  else if isUInt v then
    let! z := asUInt 32 v in let! r := jset jResponse "id" (of_Z z) in Ok (true, r)
  else if isString v then
    let! s := asString v in let! r := jset jResponse "id" (of_string s) in Ok (true, r)
  else
    let! r := jset jResponse "id" jnull in
    let! r := set_error r (-32600) "Invalid Request (id has invalid type)" in Ok (false, r).

(** ** The methods *)

(** Go on with the value, or answer with the refusal. *)
Definition with_value {A} (r : res (A + J)) (k : A -> M J) : M J :=
  (do v <- se_lift r; match v with inl x => k x | inr jResponse => se_ret jResponse end)%se.
Definition with_write_access (jResponse : J) (k : M J) : M J :=
  (do a <- gets (fun a => m_readonly (ses a)); with_value (checkApiWriteAccess a jResponse) (fun _ => k))%se.
Definition with_params (jRequest jResponse : J) (k : J -> M J) : M J :=
  with_value (getRequestObject "params" jnull jRequest false jResponse) k.

Definition answer (jResponse result : J) : M J := se_lift (jset jResponse "result" result).
Definition answer_true (jResponse : J) : M J := answer jResponse (of_bool true).
Definition refuse (jResponse : J) (code : Z) (message : string) : M J :=
  se_lift (set_error jResponse code message).

(** The comparison of the passwords: both copied into buffers of 500 zeroes, all bytes or-ed. *)
Definition max_length : nat := 500.
Definition copied (s : string) : string := resize (stake max_length s) max_length NUL.
Fixpoint password_diff (a b : string) (result : Z) : Z :=
  match a, b with
  | String c a', String d b' => password_diff a' b' (Z.lor result (Z.lxor (code c) (code d)))
  | _, _ => result
  end.
Definition password_matches (psw password : string) : bool :=
  password_diff (copied psw) (copied password) 0 =? 0.

Definition api_authorize (jRequest jResponse : J) : M J :=
  (exec se_modify (put_auth false);
   with_params jRequest jResponse (fun jRequestParams =>
   with_value (getRequestString "psw" "" jRequestParams false jResponse) (fun psw =>
   do password <- gets (fun a => m_password (ses a));
   if password_matches psw password then exec se_modify (put_auth true); se_ret jResponse
   else refuse jResponse (-401) "Invalid password")))%se.

Definition miner_shuffle (rnd : Z) (jResponse : J) : M J :=
  with_write_access jResponse
    (do r <- answer_true jResponse;
     exec se_modify (fun a => put_env (on_farm (shuffle rnd) (env a)) a); se_ret r)%se.

Definition miner_restart (jResponse : J) : M J :=
  with_write_access jResponse
    (do r <- answer_true jResponse; exec se_modify (fun a => put_env (add_restart (env a)) a); se_ret r)%se.

Definition miner_reboot (jResponse : J) : M J :=
  with_write_access jResponse
    (exec se_modify (fun a => put_env (add_reboot (env a)) a); answer jResponse (of_bool reboot))%se.

Definition miner_addconnection (jRequest jResponse : J) : M J :=
  with_write_access jResponse (with_params jRequest jResponse (fun jRequestParams =>
    with_value (getRequestString "uri" "" jRequestParams false jResponse) (fun sUri =>
    try_with caught_by_any
      (exec on_pool (addConnection sUri); answer_true jResponse)
      (fun _ => refuse jResponse (-422) ("Bad URI : " +:+ sUri)))))%se.

(** An operation of the pool manager whose exceptions become the response's error. *)
Definition pool_method (m : SE PoolManager unit) (jResponse : J) : M J :=
  try_with caught_by_std (exec on_pool m; answer_true jResponse)%se
    (fun e => refuse jResponse (-422) (what e)).

Definition miner_setactiveconnection (jRequest jResponse : J) : M J :=
  with_write_access jResponse (with_params jRequest jResponse (fun jRequestParams =>
    let invalid_index jResponse := refuse jResponse (-422) "Invalid index" in
    do has <- se_lift (jhas jRequestParams "index");
    if has : bool then
      do v <- se_lift (getRequestUnsigned "index" 0 jRequestParams false jResponse);
      match v with
      | inl index => pool_method (setActiveConnection index) jResponse
      | inr jResponse => invalid_index jResponse
      end
    else
      do v <- se_lift (getRequestString "URI" "" jRequestParams false jResponse);
      match v with
      | inl uri => pool_method (setActiveConnection_str iequals uri) jResponse
      | inr jResponse => invalid_index jResponse
      end))%se.

Definition miner_removeconnection (jRequest jResponse : J) : M J :=
  with_write_access jResponse (with_params jRequest jResponse (fun jRequestParams =>
    with_value (getRequestUnsigned "index" 0 jRequestParams false jResponse) (fun index =>
    pool_method (removeConnection index) jResponse)))%se.

(** The new nonce scrambler, when the request has one: a hexadecimal text or a number. *)
Definition scrambler_param (jRequestParams jResponse : J) (nonce : Z) : res (Z + J) :=
  let! v := jget jRequestParams "noncescrambler" in
  let! nonceHex := asString v in
  if String.eqb (stake 2 nonceHex) "0x" then
    catch_std (let! n := stoull nonceHex 16 in Ok (inl n))
      (fun _ => let! r := set_error jResponse (-422) "Invalid nonce" in Ok (inr r))
  else getRequestUInt64 "noncescrambler" nonce jRequestParams false jResponse.

Definition clamp_width (exp : Z) : Z :=
  let exp := if exp <? 10 then 10 else exp in
  if 50 <? exp then 40 else exp.

Definition miner_setscramblerinfo (jRequest jResponse : J) : M J :=
  with_write_access jResponse (with_params jRequest jResponse (fun jRequestParams =>
    do f <- gets (fun a => pm_farm (pool (env a)));
    do has_nonce <- se_lift (jhas jRequestParams "noncescrambler");
    with_value (if has_nonce : bool then scrambler_param jRequestParams jResponse (m_nonce_scrambler f)
                else Ok (inl (m_nonce_scrambler f))) (fun nonce =>
    do has_width <- se_lift (jhas jRequestParams "segmentwidth");
    with_value (if has_width : bool
                then getRequestUnsigned "segmentwidth" (m_nonce_segment_with f) jRequestParams false jResponse
                else Ok (inl (m_nonce_segment_with f))) (fun exp =>
    if negb (has_nonce || has_width) then refuse jResponse (-32602) "Missing parameters"
    else
      exec se_modify (fun a => put_env (on_farm (fun f =>
             set_nonce_segment_width (clamp_width exp) (set_nonce_scrambler nonce f)) (env a)) a);
      answer_true jResponse))))%se.

(** Pausing and resuming one miner. *)
Definition pause_miner (index : Z) (pause : bool) (f : Farm.Farm) : Farm.Farm :=
  with_miners (alter (on_miner (if pause then Miner.pause PauseDueToAPIRequest
                                else Miner.resume PauseDueToAPIRequest))
                     (Z.to_nat index) (m_miners f)) f.

Definition miner_pausegpu (jRequest jResponse : J) : M J :=
  with_write_access jResponse (with_params jRequest jResponse (fun jRequestParams =>
    with_value (getRequestUnsigned "index" 0 jRequestParams false jResponse) (fun index =>
    with_value (getRequestBool "pause" false jRequestParams false jResponse) (fun pause =>
    do f <- gets (fun a => pm_farm (pool (env a)));
    match getMiner index f with
    | Some _ =>
        exec se_modify (fun a => put_env (on_farm (pause_miner index pause) (env a)) a);
        answer_true jResponse
    | None => refuse jResponse (-422) "Index out of bounds"
    end))))%se.

Definition miner_setverbosity (jRequest jResponse : J) : M J :=
  with_write_access jResponse (with_params jRequest jResponse (fun jRequestParams =>
    with_value (getRequestUnsigned "verbosity" 0 jRequestParams false jResponse) (fun verbosity =>
    if LOG_NEXT <=? verbosity
    then refuse jResponse (-422) ("Verbosity out of bounds (0-" +:+ dec_str (LOG_NEXT - 1) +:+ ")")
    else exec se_modify (fun a => put_env (with_log verbosity (env a)) a); answer_true jResponse)))%se.

(** A method that reports on the pools or the farm. *)
Definition report (query : PoolManager -> res J) (jResponse : J) : M J :=
  (do p <- gets (fun a => pool (env a)); do j <- se_lift (query p); answer jResponse j)%se.

(** The branch of an authenticated session. *)
Definition dispatch (now rnd : Z) (_method : string) (jRequest jResponse : J) : M J :=
  if String.eqb _method "miner_getstat1" then report (getMinerStat1 project_name now) jResponse
  else if String.eqb _method "miner_getstatdetail"
    then report (getMinerStatDetail project_name host_name now) jResponse
  else if String.eqb _method "miner_shuffle" then miner_shuffle rnd jResponse
  else if String.eqb _method "miner_ping" then answer jResponse (of_string "pong")
  else if String.eqb _method "miner_restart" then miner_restart jResponse
  else if String.eqb _method "miner_reboot" then miner_reboot jResponse
  else if String.eqb _method "miner_getconnections" then report getConnectionsJson jResponse
  else if String.eqb _method "miner_addconnection" then miner_addconnection jRequest jResponse
  else if String.eqb _method "miner_setactiveconnection" then miner_setactiveconnection jRequest jResponse
  else if String.eqb _method "miner_removeconnection" then miner_removeconnection jRequest jResponse
  else if String.eqb _method "miner_getscramblerinfo"
    then report (fun p => get_nonce_scrambler_json (pm_farm p)) jResponse
  else if String.eqb _method "miner_setscramblerinfo" then miner_setscramblerinfo jRequest jResponse
  else if String.eqb _method "miner_pausegpu" then miner_pausegpu jRequest jResponse
  else if String.eqb _method "miner_setverbosity" then miner_setverbosity jRequest jResponse
  else refuse jResponse (-32601) "Method not found".

(** The method of a valid request, or the refusal. *)
Definition read_method (jRequest jResponse : J) : res (string + J) :=
  let invalid (jResponse : J) := let! r := set_error jResponse (-32600) "Invalid Request" in Ok (inr r) in
  let! v := getRequestString "jsonrpc" "" jRequest false jResponse in
  match v with
  | inr jResponse => invalid jResponse
  | inl jsonrpc =>
      if negb (String.eqb jsonrpc "2.0") then invalid jResponse
      else
        let! v := getRequestString "method" "" jRequest false jResponse in
        match v with inr jResponse => invalid jResponse | inl _method => Ok (inl _method) end
  end.

Definition processRequest (now rnd : Z) (jRequest jResponse : J) : M J :=
  (do jResponse <- se_lift (jset jResponse "jsonrpc" (of_string "2.0"));
   do (ok, jResponse) <- se_lift (parseRequestId jRequest jResponse);
   if negb ok then se_ret jResponse
   else
     with_value (read_method jRequest jResponse) (fun _method =>
     do auth <- gets (fun a => m_is_authenticated (ses a));
     if negb auth || String.eqb _method "api_authorize" then
       if negb (String.eqb _method "api_authorize") then refuse jResponse (-403) "Authorization needed"
       else api_authorize jRequest jResponse
     else dispatch now rnd _method jRequest jResponse))%se.

End requests.

(** ** The connection *)

Section connection.
Context {Jsn : Json} {Big : BigInteger} {Bst : BoostUri}.
Context (project_name : string) (host_name : option string).
Context (iequals : string -> string -> bool) (reboot : bool).

(** [sendSocketData]: the text is appended to the send buffer and an [async_write] of the whole buffer,
    as it then is, is started - whether or not another one is under way, whose text is in the buffer
    still. *)
Definition sendSocketData (_s : string) (_disconnect : bool) : M unit := fun a =>
  if negb (m_open (ses a)) then (Ok tt, a)
  else
    let a := put_sendBuffer (m_sendBuffer (ses a) +:+ _s) a in
    (Ok tt, start_op (OWrite (m_sendBuffer (ses a)) _disconnect) a).
Definition sendSocketData_json (jReq : J) : M unit := sendSocketData (json_write jReq +:+ LF) false.
Definition recvSocketData : M unit := se_modify (start_op ORead).

(** [m_socket.cancel()] throws on a closed socket.  The handler the server installed destroys the
    session. *)
Definition disconnect : M unit := fun a =>
  if m_open (ses a) then (Ok tt, set_disconnected (put_open false a))
  else (Throw (LibError "Bad file descriptor"), a).

(** What the completion of [async_write] does to the buffer before the handler runs: the bytes written
    leave it. *)
Definition consume_sent (bytes_transferred : Z) (a : Api) : Api :=
  put_sendBuffer (sdrop (Z.to_nat bytes_transferred) (m_sendBuffer (ses a))) a.

Definition onSendSocketDataCompleted (ec _disconnect : bool) : M unit :=
  if ec || _disconnect then disconnect else se_ret tt.

(** *** HTTP *)

Definition CRLF : string := String (chr 13) LF.
Definition http_pattern : re :=
  RBegin @@ RGroup 1 (rupto 5 (RChar is_upper)) @@ rlit " " @@
  RGroup 2 (rlit "/" @@ RStar (RChar (fun c => negb (is_space c)))) @@ rlit " " @@
  RGroup 3 (rstr "HTTP/1." @@ RChar is_digit).

Definition http_response (http_ver status content_type body : string) : string :=
  http_ver +:+ " " +:+ status +:+ CRLF
  +:+ "Server: " +:+ project_name +:+ CRLF
  +:+ "Content-Type: " +:+ content_type +:+ CRLF
  +:+ "Content-Length: " +:+ dec_str (size body) +:+ CRLF +:+ CRLF
  +:+ body +:+ CRLF.

(** The response to a request; an exception that is not one of the standard library passes on. *)
Definition http_answer (now : Z) (http_method http_path http_ver : string) (p : PoolManager) : res string :=
  if negb (String.eqb http_method "GET") then
    Ok (http_response http_ver "405 Method not allowed" "text/plain"
          ("Method " +:+ http_method +:+ " not allowed"))
  else if negb (String.eqb http_path "/") && negb (String.eqb http_path "/getstat1") then
    Ok (http_response http_ver "404 Not Found" "text/plain"
          ("The requested resource " +:+ http_path +:+ " not found on this server"))
  else
    match getHttpMinerStatDetail project_name host_name now p with
    | Ok body => Ok (http_response http_ver "200 Ok Error" "text/html; charset=utf-8" body)
    | Throw e =>
        if caught_by_std e
        then Ok (http_response http_ver "500 Internal Server Error" "text/plain"
                   ("Internal error : " +:+ what e))
        else Throw e
    end.

(** *** JSON lines *)

Definition error_response (code message : string) : res J :=
  let! r := jset jnull "jsonrpc" (of_string "2.0") in
  let! r := jset r "id" jnull in
  let! e := jset jnull "errorcode" (of_string code) in
  let! e := jset e "message" (of_string message) in
  jset r "error" e.

(** The response to a line; [reader_error] is what the JSON reader says of a text it rejects. *)
Definition line_response (reader_error : string -> string) (now rnd : Z) (line : string) : M J :=
  match json_parse line with
  | Some jMsg =>
      try_with caught_by_std (processRequest project_name host_name iequals reboot now rnd jMsg jnull)
        (fun e => se_lift (error_response "500" (what e)))
  | None => se_lift (error_response "-32700" ("Json parse error : " +:+ reader_error line))
  end.

Definition process_line (reader_error : string -> string) (now rnd : Z) (line : string) : M unit :=
  if String.eqb line "" then se_ret tt
  else (do jRes <- line_response reader_error now rnd line; sendSocketData_json jRes)%se.

Fixpoint receive_loop (fuel : nat) (reader_error : string -> string) (now rnd : Z) : M unit := fun a =>
  match fuel with
  | O => (Ok tt, a)
  | S fuel' =>
      match find_char (chr 10) (m_message (ses a)) with
      | None => (Ok tt, a)
      | Some offset =>
          (exec process_line reader_error now rnd (trim (stake offset (m_message (ses a))));
           exec se_modify (fun a => put_message (sdrop (offset + 1) (m_message (ses a))) a);
           receive_loop fuel' reader_error now rnd)%se a
      end
  end.

(** The completion of a read: with an error or without a byte the session ends. *)
Definition onRecvSocketDataCompleted (reader_error : string -> string) (now rnd : Z) (ec : bool)
    (rx_message : string) : M unit := fun a =>
  if negb ec && (0 <? size rx_message) then
    let a := put_message (m_message (ses a) +:+ rx_message) a in
    if size (m_message (ses a)) <? 4 then (Ok tt, a)
    else
      match regex_search http_pattern (m_message (ses a)) with
      | Some http_matches =>
          (do p <- gets (fun a => pool (env a));
           do s <- se_lift (http_answer now (group 1 http_matches) (group 2 http_matches)
                              (group 3 http_matches) p);
           exec sendSocketData s true;
           se_modify (put_message ""))%se a
      | None =>
          (exec receive_loop (S (String.length (m_message (ses a)))) reader_error now rnd;
           do o <- gets (fun a => m_open (ses a));
           if o : bool then recvSocketData else se_ret tt)%se a
      end
  else disconnect a.
End connection.

(** ** The server *)

(** A pending operation: the accept of a new session, or an operation of a session. *)
Inductive pending := PAccept (session : ApiConnection) | POp (id : Z) (o : op).

Record ApiServer := {
  lastSessionId : Z;
  m_running : bool;
  sv_readonly : bool;
  sv_password : string;
  m_address : string;
  m_portnumber : Z;
  m_sessions : list ApiConnection;
  sv_env : World;
  sv_pending : list pending }.

(** [ApiServer(address, portnum, password)]: a negative port means read-only. *)
Definition ApiServer_new (address : string) (portnum : Z) (password : string) (w : World) : ApiServer := {|
  lastSessionId := 0; m_running := false; sv_readonly := portnum <? 0; sv_password := password;
  m_address := address; m_portnumber := u16 (if portnum <? 0 then - portnum else portnum);
  m_sessions := []; sv_env := w; sv_pending := [] |}.

Definition with_sessions (last : Z) (l : list ApiConnection) (p : list pending) (w : World) (s : ApiServer)
    : ApiServer := {|
  lastSessionId := last; m_running := m_running s; sv_readonly := sv_readonly s;
  sv_password := sv_password s; m_address := m_address s; m_portnumber := m_portnumber s;
  m_sessions := l; sv_env := w; sv_pending := p |}.
Definition with_running (b : bool) (s : ApiServer) : ApiServer := {|
  lastSessionId := lastSessionId s; m_running := b; sv_readonly := sv_readonly s;
  sv_password := sv_password s; m_address := m_address s; m_portnumber := m_portnumber s;
  m_sessions := m_sessions s; sv_env := sv_env s; sv_pending := sv_pending s |}.

Definition begin_accept (s : ApiServer) : ApiServer :=
  if m_running s then
    let id := i32 (lastSessionId s + 1) in
    with_sessions id (m_sessions s)
      (sv_pending s ++ [PAccept (ApiConnection_new id (sv_readonly s) (sv_password s))]) (sv_env s) s
  else s.

(** [start]: [bound] is whether the acceptor could be opened, bound and put to listen. *)
Definition start (bound : bool) (s : ApiServer) : ApiServer :=
  if m_portnumber s =? 0 then s
  else if bound then begin_accept (with_running true s) else s.

(** [stop]: the accept is cancelled (its handler still runs), the sessions are destroyed. *)
Definition stop (s : ApiServer) : ApiServer :=
  if m_running s
  then with_sessions (lastSessionId s) [] (sv_pending s) (sv_env s) (with_running false s)
  else s.

(** The handler of the accept: the new session joins the table and starts reading, and the next accept is
    started.  [peer_gone]: the client has closed the connection already, so that [remote_endpoint()] of
    the log statement throws, with the session in the table but neither read nor accept started. *)
Definition handle_accept (session : ApiConnection) (ec peer_gone : bool) : SE ApiServer unit := fun s =>
  if ec then (Ok tt, begin_accept s)
  else
    let s := with_sessions (lastSessionId s) (m_sessions s ++ [session]) (sv_pending s) (sv_env s) s in
    if peer_gone then (Throw (LibError "remote_endpoint: Transport endpoint is not connected"), s)
    else
      (Ok tt, begin_accept (with_sessions (lastSessionId s) (m_sessions s)
                (sv_pending s ++ [POp (m_sessionId session) ORead]) (sv_env s) s)).

Definition has_id (id : Z) (c : ApiConnection) : bool := m_sessionId c =? id.

(** The first session with that id leaves the list: what [onDisconnected] does. *)
Fixpoint erase_session (id : Z) (l : list ApiConnection) : list ApiConnection :=
  match l with
  | [] => []
  | c :: l' => if has_id id c then l' else c :: erase_session id l'
  end.
Fixpoint find_session (id : Z) (l : list ApiConnection) : option ApiConnection :=
  match l with
  | [] => None
  | c :: l' => if has_id id c then Some c else find_session id l'
  end.
Fixpoint replace_session (id : Z) (x : ApiConnection) (l : list ApiConnection) : list ApiConnection :=
  match l with
  | [] => []
  | c :: l' => if has_id id c then x :: l' else c :: replace_session id x l'
  end.

(** A handler of session [id]; there is no meaning to it once the session is destroyed. *)
Definition run_session (id : Z) (h : M unit) : SE ApiServer unit := fun s =>
  match find_session id (m_sessions s) with
  | None => (Throw (UndefinedBehaviour "handler of a destroyed session"), s)
  | Some c =>
      let '(r, a) := h {| ses := c; env := sv_env s; started := []; disconnected := false |} in
      (r, with_sessions (lastSessionId s)
            (if disconnected a then erase_session id (m_sessions s) else replace_session id (ses a) (m_sessions s))
            (sv_pending s ++ (POp id <$> started a)) (env a) s)
  end.

(** What the network and the clock bring to a completion. *)
Record completion := { c_error : bool; c_peer_gone : bool; c_data : string; c_now : Z; c_rnd : Z }.

Section server.
Context {Jsn : Json} {Big : BigInteger} {Bst : BoostUri}.
Context (project_name : string) (host_name : option string).
Context (iequals : string -> string -> bool) (reboot : bool) (reader_error : string -> string).

Definition complete (p : pending) (c : completion) : SE ApiServer unit :=
  match p with
  | PAccept session => handle_accept session (c_error c) (c_peer_gone c)
  | POp id ORead =>
      run_session id (onRecvSocketDataCompleted project_name host_name iequals reboot reader_error
                        (c_now c) (c_rnd c) (c_error c) (c_data c))
  | POp id (OWrite text _disconnect) =>
      run_session id (exec (if c_error c then se_ret tt else se_modify (consume_sent (size text)));
                      onSendSocketDataCompleted (c_error c) _disconnect)%se
  end.

(** The [i]-th pending operation completes. *)
Definition complete_nth (i : nat) (c : completion) : SE ApiServer unit := fun s =>
  match sv_pending s !! i with
  | None => (Ok tt, s)
  | Some p => complete p c (with_sessions (lastSessionId s) (m_sessions s) (delete i (sv_pending s)) (sv_env s) s)
  end.
End server.
