(* ===== verification/ApiProps.v ===== *)
(** * What the API server guarantees

    Authorisation (a read-only server changes nothing, a session without the password gets nothing
    done), the shape of the responses, the effect of the methods, the life of the sessions. *)

From S2P Require Import Prelude CppString Lines CommonData FixedHash Worker Float.
From S2P Require Import Types Miner CpuMiner Farm Regex PoolURI Json PoolManager ApiStat ApiServer.

Section props.
Context {Jsn : Json} {Big : BigInteger} {Bst : BoostUri}.
Context (project_name : string) (host_name : option string).
Context (iequals : string -> string -> bool) (reboot : bool) (reader_error : string -> string).
#[local] Notation process := (processRequest project_name host_name iequals reboot).

(** ** Reasoning about handlers *)

Section preserving.
Context (P : Api -> Prop).

Lemma preserves_gets {A} (f : Api -> A) : se_preserves P (gets f).
Proof. by intros a. Qed.
Lemma preserves_with_value {A} (r : res (A + J)) (k : A -> M J) :
  (forall x, se_preserves P (k x)) -> se_preserves P (with_value r k).
Proof.
  intros Hk. apply preserves_bind; [apply preserves_lift|]. intros [x|j]; [apply Hk | apply preserves_ret].
Qed.
Lemma preserves_try {A} caught (m : M A) (h : exn -> M A) :
  se_preserves P m -> (forall e, se_preserves P (h e)) -> se_preserves P (try_with caught m h).
Proof.
  intros Hm Hh a Ha. unfold try_with. specialize (Hm a Ha).
  destruct (m a) as [[x|e] a']; [done|]. destruct (caught e); [by apply Hh | done].
Qed.
Lemma preserves_if {A} (b : bool) (m k : M A) :
  se_preserves P m -> se_preserves P k -> se_preserves P (if b then m else k).
Proof. by destruct b. Qed.
Lemma preserves_params q r k : (forall x, se_preserves P (k x)) -> se_preserves P (with_params q r k).
Proof. apply preserves_with_value. Qed.
Lemma preserves_answer r x : se_preserves P (answer r x).
Proof. apply preserves_lift. Qed.
Lemma preserves_answer_true r : se_preserves P (answer_true r).
Proof. apply preserves_lift. Qed.
Lemma preserves_refuse r c t : se_preserves P (refuse r c t).
Proof. apply preserves_lift. Qed.
Lemma preserves_report q r : se_preserves P (report q r).
Proof. repeat (apply preserves_bind; [apply preserves_gets || apply preserves_lift | intros ?]). apply preserves_lift. Qed.
End preserving.

(** ** Read-only sessions *)

Definition readonly_in (w : World) (a : Api) : Prop := m_readonly (ses a) = true /\ env a = w.

(** A method behind the write check is not run. *)
Lemma readonly_refused w r k : se_preserves (readonly_in w) (with_write_access r k).
Proof.
  intros a [Ha Hw]. unfold with_write_access, gets, with_value. unfold se_bind at 1. rewrite Ha.
  cbn [checkApiWriteAccess]. rewrite run_lift.
  destruct (set_error r (-32601) "Method not available"); cbn [res_bind]; done.
Qed.

Lemma readonly_put_auth w b : se_preserves (readonly_in w) (se_modify (put_auth b)).
Proof. by apply preserves_modify. Qed.

Lemma readonly_authorize w q r : se_preserves (readonly_in w) (api_authorize q r).
Proof.
  apply preserves_bind; [apply readonly_put_auth|]. intros _.
  apply preserves_params. intros x. apply preserves_with_value. intros psw.
  apply preserves_bind; [apply preserves_gets|]. intros p. apply preserves_if; [|apply preserves_refuse].
  apply preserves_bind; [apply readonly_put_auth|]. intros _. apply preserves_ret.
Qed.

Lemma readonly_dispatch w now rnd m q r :
  se_preserves (readonly_in w) (dispatch project_name host_name iequals reboot now rnd m q r).
Proof.
  unfold dispatch. repeat (apply preserves_if; [first [apply preserves_report | apply preserves_answer | apply readonly_refused]|]).
  apply preserves_refuse.
Qed.

Lemma readonly_process w now rnd q r : se_preserves (readonly_in w) (process now rnd q r).
Proof.
  apply preserves_bind; [apply preserves_lift|]. intros j.
  apply preserves_bind; [apply preserves_lift|]. intros [ok j']. apply preserves_if; [apply preserves_ret|].
  apply preserves_with_value. intros m. apply preserves_bind; [apply preserves_gets|]. intros auth.
  apply preserves_if; [|apply readonly_dispatch]. apply preserves_if; [apply preserves_refuse | apply readonly_authorize].
Qed.

(** ** Responses *)

(** The members every response to a request with id [id] has; [result] and [error] are whether
    it has those. *)
Definition response (id : J) (result error : bool) (r : J) : Prop :=
  view r = VObject /\ jget r "jsonrpc" = Ok (of_string "2.0") /\ jget r "id" = Ok id /\
  jhas r "result" = Ok result /\ jhas r "error" = Ok error /\
  (if error then exists e m, jget r "error" = Ok e /\ view e = VObject /\
                             jget e "message" = Ok (of_string m)
   else True).
Definition fresh (id r : J) : Prop := response id false false r.
Definition failed (id r : J) : Prop := response id false true r.
Definition succeeded (id r : J) : Prop := response id true false r.

Lemma set_member r k x : view r = VNull \/ view r = VObject ->
  exists r', jset r k x = Ok r' /\ view r' = VObject /\ jget r' k = Ok x /\ jhas r' k = Ok true /\
    (forall k', k' <> k -> jget r' k' = jget r k' /\ jhas r' k' = jhas r k').
Proof.
  intros Hr. destruct (set_object r k x Hr) as (r' & -> & Hv & Hg & Hh). exists r'.
  split_and!; [done | done | by rewrite Hg, String.eqb_refl | by rewrite Hh, String.eqb_refl |].
  intros k' Hk. rewrite Hg, Hh. by apply String.eqb_neq in Hk as ->.
Qed.

(** The error of a response can always be written to. *)
Lemma error_member id error r : response id false error r ->
  exists e, jget r "error" = Ok e /\ (view e = VNull \/ view e = VObject).
Proof.
  intros (_ & _ & _ & _ & Hh & He). destruct error.
  - destruct He as (e & m & -> & Hv & _). eauto.
  - rewrite (get_missing _ _ Hh). exists jnull. rewrite view_null. auto.
Qed.

Lemma store_error id error r e m : response id false error r -> view e = VObject ->
  jget e "message" = Ok (of_string m) -> exists r', jset r "error" e = Ok r' /\ failed id r'.
Proof.
  intros (Hv & Hj & Hi & Hr & _ & _) He Hm.
  destruct (set_member r "error" e (or_intror Hv)) as (r' & Hs & Hv' & Hg & Hh & Ho).
  exists r'. split; [done|]. unfold failed, response.
  rewrite (proj1 (Ho "jsonrpc" ltac:(done))), (proj1 (Ho "id" ltac:(done))), (proj2 (Ho "result" ltac:(done))). eauto 10.
Qed.

Lemma set_error_failed id error r code m : response id false error r ->
  exists r', set_error r code m = Ok r' /\ failed id r'.
Proof.
  intros Hr. destruct (error_member _ _ _ Hr) as (e & He & Hv). unfold set_error. rewrite He. cbn [res_bind].
  destruct (set_member e "code" (of_Z code) Hv) as (e1 & -> & Hv1 & _). cbn [res_bind].
  destruct (set_member e1 "message" (of_string m) (or_intror Hv1)) as (e2 & -> & Hv2 & Hg & _). cbn [res_bind].
  by apply (store_error id error r e2 m).
Qed.

Lemma answer_succeeded id r x : fresh id r -> exists r', jset r "result" x = Ok r' /\ succeeded id r'.
Proof.
  intros (Hv & Hj & Hi & Hr & He & _).
  destruct (set_member r "result" x (or_intror Hv)) as (r' & Hs & Hv' & _ & Hh & Ho).
  exists r'. split; [done|]. unfold succeeded, response.
  rewrite (proj1 (Ho "jsonrpc" ltac:(done))), (proj1 (Ho "id" ltac:(done))), (proj2 (Ho "error" ltac:(done))). auto 10.
Qed.

(** A value that is read, or a response that has become an error. *)
Definition value_or_failed {A} (id : J) (v : res (A + J)) : Prop :=
  match v with Ok (inr r) => failed id r | _ => True end.

Lemma refusal_failed {A} id error r code m : response id false error r ->
  value_or_failed id (let! r := set_error r code m in Ok (@inr A J r)).
Proof. intros Hr. by destruct (set_error_failed id error r code m Hr) as (r' & -> & ?). Qed.

Lemma getRequestValue_failed {A} type_ok (conv : J -> res A) k d q opt id error r :
  response id false error r -> value_or_failed id (getRequestValue type_ok conv k d q opt r).
Proof.
  intros Hr. unfold getRequestValue.
  destruct (jhas q k) as [[]|]; cbn [res_bind negb]; [|destruct opt; [done|by eapply refusal_failed]|done].
  destruct (jget q k) as [v|]; cbn [res_bind]; [|done].
  destruct (type_ok v); cbn [negb]; [|by eapply refusal_failed].
  destruct (jempty v); [by eapply refusal_failed|]. by destruct (conv v).
Qed.

Lemma getRequestUInt64_failed k d q opt id error r :
  response id false error r -> value_or_failed id (getRequestUInt64 k d q opt r).
Proof.
  intros Hr. unfold getRequestUInt64.
  destruct (jhas q k) as [[]|]; cbn [res_bind negb]; [|destruct opt; [done|by eapply refusal_failed]|done].
  destruct (jget q k) as [v|]; cbn [res_bind]; [|done].
  destruct (jempty v); [by eapply refusal_failed|]. destruct (asUInt 64 v) as [|ex]; [done|].
  destruct (error_member _ _ _ Hr) as (e & -> & Hv). cbn [res_bind].
  destruct (set_member e "message" (of_string ("Bad value in " +:+ in_quotes k)) Hv)
    as (e1 & -> & Hv1 & Hg & _). cbn [res_bind].
  by destruct (store_error id error r e1 _ Hr Hv1 Hg) as (r' & -> & ?).
Qed.

Lemma scrambler_param_failed id p r n : fresh id r -> value_or_failed id (scrambler_param p r n).
Proof.
  intros Hr. unfold scrambler_param. destruct (jget p "noncescrambler") as [v|]; cbn [res_bind]; [|done].
  destruct (asString v) as [t|]; cbn [res_bind]; [|done].
  destruct (String.eqb _ _); [|by eapply getRequestUInt64_failed].
  destruct (stoull t 16) as [z|e]; cbn [res_bind catch_std]; [done|].
  destruct (caught_by_std e); [|done]. by eapply refusal_failed.
Qed.

(** *** What a method answers *)

Definition yields (Q : J -> Prop) (m : M J) : Prop := forall a r a', m a = (Ok r, a') -> Q r.

Section yielding.
Context (Q : J -> Prop).
Lemma yields_ret r : Q r -> yields Q (se_ret r).
Proof. intros HQ a r' a' [= <- _]. done. Qed.
Lemma yields_bind {A} (m : M A) (k : A -> M J) : (forall x, yields Q (k x)) -> yields Q (se_bind m k).
Proof. intros Hk a r a'. unfold se_bind. destruct (m a) as [[x|e] a1]; [apply Hk | done]. Qed.
Lemma yields_then (R : J -> Prop) (m : M J) (k : J -> M J) :
  yields R m -> (forall x, R x -> yields Q (k x)) -> yields Q (se_bind m k).
Proof.
  intros Hm Hk a r a'. unfold se_bind. destruct (m a) as [[x|e] a1] eqn:E; [|done]. apply Hk. by apply (Hm a x a1).
Qed.
Lemma yields_if (b : bool) m k : yields Q m -> yields Q k -> yields Q (if b then m else k).
Proof. by destruct b. Qed.
Lemma yields_value {A} id (v : res (A + J)) k :
  value_or_failed id v -> (forall r, failed id r -> Q r) -> (forall x, yields Q (k x)) ->
  yields Q (with_value v k).
Proof.
  intros Hv HQ Hk a r a'. unfold with_value. rewrite run_lift. destruct v as [[x|j]|e]; [apply Hk| |done].
  intros [= <- _]. by apply HQ.
Qed.
Lemma yields_try caught m h : yields Q m -> (forall e, yields Q (h e)) -> yields Q (try_with caught m h).
Proof.
  intros Hm Hh a r a'. unfold try_with. destruct (m a) as [[x|e] a1] eqn:E.
  - intros [= <- _]. by apply (Hm a x a1).
  - destruct (caught e); [apply Hh | done].
Qed.
End yielding.

(** A response that is final: a result or an error. *)
Definition final (id r : J) : Prop := succeeded id r \/ failed id r.

Lemma yields_answer id r x : fresh id r -> yields (final id) (answer r x).
Proof.
  intros Hr a r' a'. unfold answer, se_lift. destruct (answer_succeeded id r x Hr) as (r1 & -> & ?).
  intros [= <- _]. by left.
Qed.
Lemma yields_refuse id error r c m : response id false error r -> yields (failed id) (refuse r c m).
Proof.
  intros Hr a r' a'. unfold refuse, se_lift. destruct (set_error_failed id error r c m Hr) as (r1 & -> & ?).
  by intros [= <- _].
Qed.
Lemma yields_weaken (Q Q' : J -> Prop) m : (forall r, Q r -> Q' r) -> yields Q m -> yields Q' m.
Proof. intros HQ Hm a r a' E. by eapply HQ, Hm. Qed.
Lemma yields_refuse_final id error r c m : response id false error r -> yields (final id) (refuse r c m).
Proof. intros Hr. eapply yields_weaken; [|by eapply yields_refuse]. intros ? ?. by right. Qed.
Lemma yields_write_access id r k : fresh id r -> yields (final id) k ->
  yields (final id) (with_write_access r k).
Proof.
  intros Hr Hk. apply yields_bind. intros ro. eapply (yields_value _ id); [|by right|done].
  unfold checkApiWriteAccess. destruct ro; [by eapply refusal_failed | done].
Qed.
Lemma yields_params id q r k : fresh id r -> (forall p, yields (final id) (k p)) ->
  yields (final id) (with_params q r k).
Proof. intros Hr Hk. eapply (yields_value _ id); [by eapply getRequestValue_failed|by right|done]. Qed.

Lemma yields_lift_bind {A} (Q : J -> Prop) (m : res A) (k : A -> M J) :
  (forall x, m = Ok x -> yields Q (k x)) -> yields Q (se_bind (se_lift m) k).
Proof. intros Hk a r a'. rewrite run_lift. destruct m; [by apply Hk | done]. Qed.

Lemma yields_pool_method id r m : fresh id r -> yields (final id) (pool_method m r).
Proof.
  intros Hr. apply yields_try; [apply yields_bind; intros; by apply yields_answer|].
  intros e. by eapply yields_refuse_final.
Qed.

Lemma yields_report id r q : fresh id r -> yields (final id) (report q r).
Proof. intros Hr. do 2 (apply yields_bind; intros). by apply yields_answer. Qed.

#[local] Ltac value_read i :=
  apply (yields_value _ i);
    [first [by eapply getRequestValue_failed | by eapply getRequestUInt64_failed] | by right | intros ?].

Lemma yields_setactive id q r : fresh id r -> yields (final id) (miner_setactiveconnection iequals q r).
Proof.
  intros Hr. apply yields_write_access; [done|]. apply yields_params; [done|]. intros p.
  assert (Hv : forall {A} (v : res (A + J)) (k : A -> M J), value_or_failed id v -> (forall x, yields (final id) (k x)) ->
    yields (final id) (se_bind (se_lift v) (fun v => match v with inl x => k x
      | inr r => refuse r (-422) "Invalid index" end))).
  { intros A v k Hv Hk. apply yields_lift_bind. intros [x|j] ->; [apply Hk|]. by eapply yields_refuse_final. }
  apply yields_bind. intros [].
  - apply Hv; [by eapply getRequestValue_failed|]. intros. by apply yields_pool_method.
  - apply Hv; [by eapply getRequestValue_failed|]. intros. by apply yields_pool_method.
Qed.

Lemma yields_setscrambler id q r : fresh id r -> yields (final id) (miner_setscramblerinfo q r).
Proof.
  intros Hr. apply yields_write_access; [done|]. apply yields_params; [done|]. intros p.
  apply yields_bind. intros f. apply yields_bind. intros hn.
  apply (yields_value _ id); [destruct hn; [by apply scrambler_param_failed|done] | by right |]. intros n.
  apply yields_bind. intros hw.
  apply (yields_value _ id); [destruct hw; [by eapply getRequestValue_failed|done] | by right |]. intros w.
  apply yields_if; [by eapply yields_refuse_final|]. apply yields_bind. intros. by apply yields_answer.
Qed.

(** Every method answers with a result or an error. *)
Lemma yields_dispatch id now rnd m q r : fresh id r ->
  yields (final id) (dispatch project_name host_name iequals reboot now rnd m q r).
Proof.
  intros Hr. assert (Ha : forall x, yields (final id) (answer r x)) by (intros; by apply yields_answer).
  assert (He : forall c t, yields (final id) (refuse r c t)) by (intros; by eapply yields_refuse_final).
  assert (Hp : forall k, (forall p, yields (final id) (k p)) -> yields (final id) (with_write_access r (with_params q r k)))
    by (intros; by apply yields_write_access, yields_params).
  unfold dispatch. repeat (apply yields_if; [first [by apply yields_report | by apply Ha | by apply yields_setactive
    | by apply yields_setscrambler | idtac]|]); [..|by apply He].
  - apply yields_write_access; [done|]. eapply yields_then; [apply Ha|]. intros x Hx.
    apply yields_bind. intros _. by apply yields_ret.
  - apply yields_write_access; [done|]. eapply yields_then; [apply Ha|]. intros x Hx.
    apply yields_bind. intros _. by apply yields_ret.
  - apply yields_write_access; [done|]. apply yields_bind. intros. apply Ha.
  - apply Hp. intros p. value_read id. apply yields_try; [apply yields_bind; intros; apply Ha | intros; apply He].
  - apply Hp. intros p. value_read id. by apply yields_pool_method.
  - apply Hp. intros p. do 2 value_read id. apply yields_bind. intros f.
    destruct (getMiner _ _); [apply yields_bind; intros; apply Ha | apply He].
  - apply Hp. intros p. value_read id. apply yields_if; [apply He|]. apply yields_bind. intros. apply Ha.
Qed.

(** *** Request ids and authorisation *)

(** The id a request has: a number or a text. *)
Definition request_id (q : J) : option J :=
  match jhas q "id", jget q "id" with
  | Ok true, Ok v =>
      if jempty v then None
      else match view v with
           | VString t => Some (of_string t)
           | _ => if isUInt v then match asUInt 32 v with Ok z => Some (of_Z z) | Throw _ => None end else None
           end
  | _, _ => None
  end.

Lemma first_member : exists r, jset jnull "jsonrpc" (of_string "2.0") = Ok r /\ view r = VObject /\
  jget r "jsonrpc" = Ok (of_string "2.0") /\ jhas r "result" = Ok false /\ jhas r "error" = Ok false.
Proof.
  destruct (set_member jnull "jsonrpc" (of_string "2.0") (or_introl view_null)) as (r & Hs & Hv & Hg & _ & Ho).
  exists r. destruct (Ho "result" ltac:(done)) as [_ ->], (Ho "error" ltac:(done)) as [_ ->].
  by rewrite !(has_null _ _ view_null).
Qed.

Lemma with_id r x : view r = VObject -> jget r "jsonrpc" = Ok (of_string "2.0") ->
  jhas r "result" = Ok false -> jhas r "error" = Ok false ->
  exists r', jset r "id" x = Ok r' /\ fresh x r'.
Proof.
  intros Hv Hj Hr He. destruct (set_member r "id" x (or_intror Hv)) as (r' & Hs & Hv' & Hg & _ & Ho).
  exists r'. split; [done|]. unfold fresh, response.
  rewrite (proj1 (Ho "jsonrpc" ltac:(done))), (proj2 (Ho "result" ltac:(done))), (proj2 (Ho "error" ltac:(done))).
  auto 10.
Qed.

(** The id of the request is copied, or the response is an error with a null id. *)
Lemma parseRequestId_spec q r ok r' : view r = VObject -> jget r "jsonrpc" = Ok (of_string "2.0") ->
  jhas r "result" = Ok false -> jhas r "error" = Ok false ->
  parseRequestId q r = Ok (ok, r') ->
  match request_id q with
  | Some id => ok = true /\ fresh id r'
  | None => ok = false /\ failed jnull r'
  end.
Proof.
  intros Hv Hj Hr He. unfold parseRequestId, request_id.
  destruct (with_id r jnull Hv Hj Hr He) as (r0 & Hs0 & Hf0).
  assert (Hno : forall t, (let! x := jset r "id" jnull in let! x := set_error x (-32600) t in Ok (false, x)) = Ok (ok, r') ->
    ok = false /\ failed jnull r').
  { intros t. rewrite Hs0. cbn [res_bind]. destruct (set_error_failed jnull false r0 (-32600) t Hf0) as (r1 & -> & Hf1).
    by intros [= <- <-]. }
  destruct (jhas q "id") as [[]|] eqn:Eh; cbn [res_bind negb orb]; [| |done].
  2: { intros E. apply Hno in E. by destruct (jget q "id"). }
  destruct (jget q "id") as [v|]; cbn [res_bind]; [|done]. destruct (jempty v); [apply Hno|].
  destruct (isUInt v) eqn:Eu.
  - destruct (asUInt 32 v) as [z|e] eqn:Ez; cbn [res_bind]; [|done].
    destruct (with_id r (of_Z z) Hv Hj Hr He) as (r1 & -> & Hf1). intros [= <- <-].
    unfold isUInt in Eu. by destruct (view v).
  - destruct (view v) as [| | | |t| |] eqn:Ev; unfold isString, asString; rewrite Ev; try apply Hno. cbn [res_bind].
    destruct (with_id r (of_string t) Hv Hj Hr He) as (r1 & -> & Hf1). by intros [= <- <-].
Qed.

(** Two passwords the server is to take for the same: the first 500 bytes agree, bytes beyond the end
    of a text counting as zero. *)
Definition byte_at (i : nat) (t : string) : ascii := default NUL (String.get i t).
Definition same_password (psw password : string) : Prop :=
  forall i, (i < 500)%nat -> byte_at i psw = byte_at i password.

(** A request that carries the password. *)
Definition presents (password : string) (q : J) : Prop :=
  exists p v psw, jget q "params" = Ok p /\ jget p "psw" = Ok v /\ view v = VString psw /\
    same_password psw password.

Lemma password_diff_zero a b : String.length a = String.length b ->
  forall result, password_diff a b result = 0 <-> result = 0 /\ a = b.
Proof.
  revert b. induction a as [|c a IH]; intros [|d b] Hl result; try done; cbn [password_diff].
  { split; [done|]. by intros []. }
  rewrite IH by (by injection Hl). rewrite Z.lor_eq_0_iff, Z.lxor_eq_0_iff. split.
  - intros [[H1 H2] ->]. apply code_inj in H2 as ->. done.
  - intros [H1 H2]. by injection H2 as -> ->.
Qed.

Lemma copied_length t : String.length (copied t) = max_length.
Proof. apply resize_length. Qed.

Lemma byte_at_cons i c t : byte_at (S i) (String c t) = byte_at i t.
Proof. done. Qed.
Lemma byte_at_fill i n : byte_at i (sfill n NUL) = NUL.
Proof. revert i. induction n as [|n IH]; intros [|i]; [done..|]. apply IH. Qed.
Lemma resize_cons c x n d : resize (String c x) (S n) d = String c (resize x n d).
Proof. unfold resize. cbn [String.length Nat.leb]. by destruct (_ <=? _)%nat. Qed.
Lemma byte_at_fixed n : forall t i, (i < n)%nat -> byte_at i (resize (stake n t) n NUL) = byte_at i t.
Proof.
  induction n as [|n IH]; intros [|c t] i Hi; [lia..| |].
  - change (resize (stake (S n) "") (S n) NUL) with (sfill (S n) NUL). rewrite byte_at_fill. by destruct i.
  - cbn [stake]. rewrite resize_cons. destruct i as [|i]; [done|]. rewrite !byte_at_cons. apply IH. lia.
Qed.

Lemma bytes_equal a : forall b, String.length a = String.length b ->
  (forall i, (i < String.length a)%nat -> byte_at i a = byte_at i b) -> a = b.
Proof.
  induction a as [|c a IH]; intros [|d b] Hl H; try done. f_equal; [exact (H 0%nat ltac:(cbn; lia))|].
  apply IH; [by injection Hl|]. intros i Hi. exact (H (S i) ltac:(cbn; lia)).
Qed.

(** The comparison of the code is that one. *)
Lemma password_matches_same psw password : password_matches psw password = true <-> same_password psw password.
Proof.
  unfold password_matches. rewrite Z.eqb_eq, password_diff_zero by (by rewrite !copied_length).
  change 500%nat with max_length. split.
  - intros [_ E] i Hi. rewrite <- (byte_at_fixed max_length psw), <- (byte_at_fixed max_length password) by done.
    by fold (copied psw) (copied password); rewrite E.
  - intros H. split; [done|]. apply bytes_equal; [by rewrite !copied_length|]. rewrite copied_length. intros i Hi.
    unfold copied. rewrite !byte_at_fixed by done. by apply H.
Qed.

Lemma getRequestValue_read {A} type_ok (conv : J -> res A) k d q r x :
  getRequestValue type_ok conv k d q false r = Ok (inl x) ->
  exists v, jget q k = Ok v /\ type_ok v = true /\ conv v = Ok x.
Proof.
  unfold getRequestValue. destruct (jhas q k) as [[]|]; cbn [res_bind negb]; [|by destruct (set_error _ _ _)|done].
  destruct (jget q k) as [v|]; cbn [res_bind]; [|done].
  destruct (type_ok v) eqn:Et; cbn [negb]; [|by destruct (set_error _ _ _)].
  destruct (jempty v); [by destruct (set_error _ _ _)|]. destruct (conv v) eqn:Ec; [|done].
  intros [= <-]. eauto.
Qed.

(** [api_authorize] leaves the session authenticated exactly when it returns the response as it
    was, which it does for the right password only. *)
Lemma authorize_outcome id q r a : fresh id r ->
  let '(x, a') := api_authorize q r a in
  env a' = env a /\ started a' = started a /\ m_password (ses a') = m_password (ses a) /\
  ((m_is_authenticated (ses a') = true /\ x = Ok r /\ presents (m_password (ses a)) q) \/
   (a' = put_auth false a /\ forall r', x = Ok r' -> failed id r')).
Proof.
  intros Hr. unfold api_authorize. rewrite run_modify. unfold with_params, with_value. rewrite run_lift.
  pose proof (getRequestValue_failed isObject (fun v => Ok v) "params" jnull q false id false r Hr) as Hp.
  unfold getRequestObject. destruct (getRequestValue isObject _ "params" jnull q false r) as [[p|j]|e] eqn:Ep.
  2,3: cbn; split_and!; [done|done|done|right; split; [done|]; by intros ? [= <-]].
  unfold value_or_failed in Hp. rewrite run_lift.
  pose proof (getRequestValue_failed isString asString "psw" "" p false id false r Hr) as Hq.
  unfold getRequestString. destruct (getRequestValue isString asString "psw" "" p false r) as [[psw|j]|e] eqn:Eq.
  2,3: cbn; split_and!; [done|done|done|right; split; [done|]; by intros ? [= <-]].
  unfold gets, se_bind at 1. destruct (password_matches psw (m_password (ses (put_auth false a)))) eqn:Em.
  - split_and!; [done|done|done|]. left. split_and!; [done|done|].
    apply getRequestValue_read in Ep as (p' & Hp' & _ & [= ->]).
    apply getRequestValue_read in Eq as (v & Hv & Hs & Hc).
    exists p, v, psw. split_and!; [done|done| |by apply password_matches_same].
    unfold isString, asString in Hs, Hc. destruct (view v); try done. by injection Hc as ->.
  - unfold refuse, se_lift. destruct (set_error_failed id false r (-401) "Invalid password" Hr) as (r1 & -> & H1).
    split_and!; [done|done|done|]. right. split; [done|]. by intros ? [= <-].
Qed.

Lemma read_method_failed id q r : fresh id r -> value_or_failed id (read_method q r).
Proof.
  intros Hr. unfold read_method.
  pose proof (getRequestValue_failed isString asString "jsonrpc" "" q false id false r Hr) as Hj.
  unfold getRequestString. destruct (getRequestValue isString asString "jsonrpc" "" q false r) as [[v|j]|]; cbn [res_bind];
    [|by eapply refusal_failed|done].
  destruct (negb _); [by eapply refusal_failed|].
  pose proof (getRequestValue_failed isString asString "method" "" q false id false r Hr) as Hm.
  destruct (getRequestValue isString asString "method" "" q false r) as [[m|j]|]; cbn [res_bind]; [done| |done].
  by eapply refusal_failed.
Qed.

(** A response to request [q] as JSON-RPC asks: the version, the id of the request (null when it has
    none that can be used, and then it is an error), and either a result or an error with a message,
    never both - or, for a successful api_authorize, which leaves the session authenticated, neither. *)
Definition answered (q : J) (a : Api) (r : J) (a' : Api) : Prop :=
  match request_id q with
  | None => failed jnull r
  | Some id => succeeded id r \/ failed id r \/
               (fresh id r /\ presents (m_password (ses a)) q /\ m_is_authenticated (ses a') = true)
  end.

Lemma process_answered (now rnd : Z) (q r : J) (a a' : Api) :
  process now rnd q jnull a = (Ok r, a') -> answered q a r a'.
Proof.
  unfold answered, processRequest. destruct first_member as (r0 & Hs0 & Hv0 & Hj0 & Hr0 & He0).
  rewrite !run_lift, Hs0, run_lift. destruct (parseRequestId q r0) as [[ok r1]|e] eqn:Ep; [|done].
  apply parseRequestId_spec in Ep; [|done..]. destruct (request_id q) as [id|]; destruct Ep as [-> Hf]; cbn [negb].
  2: { unfold se_ret. by intros [= <- <-]. }
  unfold with_value. rewrite run_lift. pose proof (read_method_failed id q r1 Hf) as Hm.
  destruct (read_method q r1) as [[m|j]|e]; [| unfold se_ret; intros [= <- <-]; auto | done].
  unfold gets, se_bind at 1. destruct (negb (m_is_authenticated (ses a)) || String.eqb m "api_authorize").
  - destruct (negb (String.eqb m "api_authorize")).
    + intros E. right; left. by eapply (yields_refuse id false r1).
    + intros E. pose proof (authorize_outcome id q r1 a Hf) as Ho. rewrite E in Ho.
      destruct Ho as (_ & _ & _ & [(Ha & [= <-] & Hp)|[_ Hx]]); [by right; right|right; left; by apply Hx].
  - intros E. destruct (yields_dispatch id now rnd m q r1 Hf a r a' E); auto.
Qed.

(** ** Transmissions *)

#[local] Notation line_done := (process_line project_name host_name iequals reboot reader_error).
#[local] Notation received := (onRecvSocketDataCompleted project_name host_name iequals reboot reader_error).

(** An invariant of the handling of the lines of a transmission. *)
Lemma receive_loop_invariant (P : Api -> Prop) now rnd :
  (forall x a, P a -> P (put_message x a)) ->
  (forall x l, se_preserves (fun a => m_message (ses a) = x) (line_done now rnd l)) ->
  forall fuel a,
  (forall l, In l (fst (split_lines (m_message (ses a)))) -> se_preserves P (line_done now rnd (trim l))) ->
  P a -> P (snd (receive_loop project_name host_name iequals reboot fuel reader_error now rnd a)).
Proof.
  intros Hput Hmsg fuel. induction fuel as [|fuel IH]; intros a Hl Ha; [done|]. cbn [receive_loop].
  pose proof (split_lines_find (m_message (ses a))) as Hs.
  destruct (find_char (chr 10) (m_message (ses a))) as [i|]; [|done].
  unfold se_bind at 1. pose proof (Hmsg (m_message (ses a)) (trim (stake i (m_message (ses a)))) a eq_refl) as Hm.
  pose proof (Hl (stake i (m_message (ses a))) ltac:(rewrite Hs; by left) a Ha) as H1.
  destruct (line_done now rnd (trim (stake i (m_message (ses a)))) a) as [[[]|e] a1]; [|done]. cbn [snd] in *.
  rewrite run_modify. cbv beta. apply IH; [|by apply Hput]. intros l Hin. apply Hl. rewrite Hs. cbn [fst].
  right. cbn in Hin. by rewrite Hm in Hin.
Qed.

(** What does not depend on the authentication, the process's state and the operations under way
    is preserved by every request. *)
Section stable.
Context (P : Api -> Prop).
Context (stable_env : forall w a, P a -> P (put_env w a)).
Context (stable_auth : forall b a, P a -> P (put_auth b a)).
Context (stable_op : forall o a, P a -> P (start_op o a)).
Context (stable_buffer : forall x a, P a -> P (put_sendBuffer x a)).

Lemma stable_on_pool m : se_preserves P (on_pool m).
Proof. intros a Ha. unfold on_pool. destruct (m (pool (env a))). by apply stable_env. Qed.
Lemma stable_modify g : se_preserves P (se_modify (fun a => put_env (g a) a)).
Proof. apply preserves_modify. intros. by apply stable_env. Qed.
Lemma stable_put_auth b : se_preserves P (se_modify (put_auth b)).
Proof. apply preserves_modify. intros. by apply stable_auth. Qed.
Lemma stable_access r k : se_preserves P k -> se_preserves P (with_write_access r k).
Proof. intros Hk. apply preserves_bind; [apply preserves_gets|]. intros b. by apply preserves_with_value. Qed.

Ltac stable :=
  repeat first
    [ apply preserves_ret | apply preserves_lift | apply preserves_gets | apply stable_on_pool | apply stable_modify
    | apply stable_put_auth | apply preserves_answer | apply preserves_answer_true | apply preserves_refuse
    | apply preserves_report | apply preserves_with_value; intros ? | apply preserves_params; intros ?
    | apply stable_access | apply preserves_if | apply preserves_try; [|intros ?]
    | match goal with |- se_preserves _ (match ?v with _ => _ end) => destruct v end
    | apply preserves_bind; [|intros ?] ].

Lemma stable_process now rnd q r : se_preserves P (process now rnd q r).
Proof.
  unfold processRequest, dispatch, api_authorize, miner_shuffle, miner_restart, miner_reboot, miner_addconnection,
    miner_setactiveconnection, miner_removeconnection, miner_setscramblerinfo, miner_pausegpu,
    miner_setverbosity, pool_method. cbn zeta. stable.
Qed.

Lemma stable_line now rnd l : se_preserves P (line_done now rnd l).
Proof.
  unfold process_line, line_response. apply preserves_if; [apply preserves_ret|]. apply preserves_bind.
  - destruct (json_parse l); [apply preserves_try; [apply stable_process | intros; apply preserves_lift]|].
    apply preserves_lift.
  - intros r a Ha. unfold sendSocketData_json, sendSocketData. destruct (m_open (ses a)); [|done].
    by apply stable_op, stable_buffer.
Qed.
End stable.

(** Handling a line leaves the receive buffer alone. *)
Lemma keeps_line x now rnd l : se_preserves (fun a => m_message (ses a) = x) (line_done now rnd l).
Proof. by apply stable_line. Qed.

(** The handling of a transmission preserves what the handling of its lines, and the changes of
    the session's own members, preserve. *)
Lemma received_preserves (P : Api -> Prop) now rnd ec data a :
  (forall x a, P a -> P (put_message x a)) -> (forall a, P a -> P (set_disconnected (put_open false a))) ->
  (forall a, P a -> P (start_op ORead a)) ->
  (forall m p v t a, P a -> http_answer project_name host_name now m p v (pool (env a)) = Ok t ->
     P (snd (sendSocketData t true a))) ->
  (forall l, In l (fst (split_lines (m_message (ses a) +:+ data))) -> se_preserves P (line_done now rnd (trim l))) ->
  P a -> P (snd (received now rnd ec data a)).
Proof.
  intros Hput Hdis Hread Hpage Hl Ha. unfold onRecvSocketDataCompleted. destruct (_ && _).
  2: { unfold disconnect. destruct (m_open (ses a)); [by apply Hdis | done]. }
  pose proof (Hput (m_message (ses a) +:+ data) a Ha) as H1.
  set (a1 := put_message _ a) in *. assert (Em : m_message (ses a1) = m_message (ses a) +:+ data) by done.
  clearbody a1. rewrite <- Em in Hl.
  destruct (_ <? 4); [done|]. destruct (regex_search http_pattern (m_message (ses a1))) as [c|].
  - unfold gets, se_bind at 1. rewrite run_lift. destruct (http_answer _ _ _ _ _ _ _) eqn:Ep; [|done].
    unfold se_bind, se_modify. pose proof (Hpage _ _ _ _ a1 H1 Ep) as H2. unfold sendSocketData in *.
    destruct (negb (m_open (ses a1))); by apply Hput.
  - unfold se_bind at 1.
    pose proof (receive_loop_invariant P now rnd Hput (fun x l => keeps_line x now rnd l)
      (S (String.length (m_message (ses a1)))) a1) as Hloop. specialize (Hloop Hl H1).
    destruct (receive_loop _ _ _ _ _ _ _ _ a1) as [[[]|e] a2]; [|done]. cbn [snd] in Hloop.
    unfold gets, se_bind, recvSocketData, se_modify. destruct (m_open (ses a2)); [by apply Hread | done].
Qed.

(** ** The server *)

Lemma readonly_line w now rnd l : se_preserves (readonly_in w) (line_done now rnd l).
Proof.
  unfold process_line, line_response. apply preserves_if; [apply preserves_ret|]. apply preserves_bind.
  - destruct (json_parse l); [apply preserves_try; [apply readonly_process | intros; apply preserves_lift]|].
    apply preserves_lift.
  - intros r a Ha. unfold sendSocketData_json, sendSocketData. by destruct (m_open (ses a)).
Qed.

(** Read-only throughout, with the process's state as it was. *)
Definition readonly_server (w : World) (s : ApiServer) : Prop :=
  sv_readonly s = true /\ sv_env s = w /\ Forall (fun c => m_readonly c = true) (m_sessions s) /\
  Forall (fun p => match p with PAccept c => m_readonly c = true | POp _ _ => True end) (sv_pending s).

Lemma find_session_In id l c : find_session id l = Some c -> In c l /\ m_sessionId c = id.
Proof.
  induction l as [|d l IH]; [done|]. cbn. unfold has_id. destruct (Z.eqb_spec (m_sessionId d) id).
  - intros [= ->]. auto.
  - intros H. destruct (IH H). auto.
Qed.
Lemma Forall_erase (Q : ApiConnection -> Prop) id l : Forall Q l -> Forall Q (erase_session id l).
Proof. induction 1; cbn; [done|]. destruct (has_id _ _); auto. Qed.
Lemma Forall_replace (Q : ApiConnection -> Prop) id x l : Q x -> Forall Q l -> Forall Q (replace_session id x l).
Proof. intros Hx. induction 1; cbn; [done|]. destruct (has_id _ _); auto. Qed.

(** What happens to a server: a pending operation completes, or it is stopped.  An exception that
    leaves a handler ends the process. *)
Inductive server_event := EComplete (i : nat) (c : completion) | EStop.
Definition server_step (e : server_event) : SE ApiServer unit :=
  match e with
  | EComplete i c => complete_nth project_name host_name iequals reboot reader_error i c
  | EStop => se_modify stop
  end.
Fixpoint run_server (l : list server_event) : SE ApiServer unit :=
  match l with [] => se_ret tt | e :: l' => (exec server_step e; run_server l')%se end.

Lemma run_server_preserves (P : ApiServer -> Prop) l :
  (forall e, se_preserves P (server_step e)) -> se_preserves P (run_server l).
Proof. intros He. induction l; [apply preserves_ret|]. by apply preserves_bind. Qed.

(** A handler of a session, for an invariant of the server. *)
Lemma run_session_cases id (h : M unit) s :
  find_session id (m_sessions s) = None /\ run_session id h s = (Throw (UndefinedBehaviour "handler of a destroyed session"), s) \/
  exists c r a, find_session id (m_sessions s) = Some c /\
    h {| ses := c; env := sv_env s; started := []; disconnected := false |} = (r, a) /\
    run_session id h s =
      (r, with_sessions (lastSessionId s)
            (if disconnected a then erase_session id (m_sessions s) else replace_session id (ses a) (m_sessions s))
            (sv_pending s ++ (POp id <$> started a)) (env a) s).
Proof.
  unfold run_session. destruct (find_session id (m_sessions s)) as [c|]; [|by left]. right.
  destruct (h _) as [r a] eqn:E. by exists c, r, a.
Qed.

Lemma Forall_delete_any {A} (Q : A -> Prop) l i : Forall Q l -> Forall Q (delete i l).
Proof. intros Hl. revert i. induction Hl; intros [|i]; cbn; auto. Qed.

Lemma readonly_begin w s : readonly_server w s -> readonly_server w (begin_accept s).
Proof.
  intros (Hr & Hw & Hs & Hp). unfold begin_accept. destruct (m_running s); [|done].
  split_and!; [done|done|done|]. cbn. apply Forall_app. split; [done|]. by constructor.
Qed.

Lemma readonly_session w id h s : se_preserves (readonly_in w) h -> readonly_server w s ->
  readonly_server w (snd (run_session id h s)).
Proof.
  intros Hh Hs. destruct (run_session_cases id h s) as [[_ ->]|(c & r & a & Hf & Ha & ->)]; [done|].
  destruct Hs as (Hr & Hw & Hss & Hp). apply find_session_In in Hf as [Hin _].
  pose proof (proj1 (List.Forall_forall _ _) Hss _ Hin) as Hc. cbn in Hc.
  destruct (Hh {| ses := c; env := sv_env s; started := []; disconnected := false |} (conj Hc Hw)) as [Hc' Hw'].
  rewrite Ha in Hc', Hw'. split_and!; [done|done| |]; cbn.
  - destruct (disconnected a); [by apply Forall_erase | by apply Forall_replace].
  - apply Forall_app. split; [done|]. clear. by induction (started a); constructor.
Qed.

Lemma readonly_step w e : se_preserves (readonly_server w) (server_step e).
Proof.
  intros s Hs. destruct e as [i c|]; cbn [server_step].
  2: { unfold stop, se_modify. cbn. destruct (m_running s); [|done]. destruct Hs as (Hr & Hw & _ & Hp). by split_and!. }
  unfold complete_nth. destruct (sv_pending s !! i) as [p|] eqn:Ei; [|done].
  pose proof Hs as (Hr & Hw & Hss & Hp).
  assert (Hs1 : readonly_server w (with_sessions (lastSessionId s) (m_sessions s) (delete i (sv_pending s)) (sv_env s) s)).
  { split_and!; [done|done|done|]. by apply Forall_delete_any. }
  destruct p as [session|id [|t d]]; cbn [complete].
  - pose proof (Forall_lookup_1 _ _ _ _ Hp Ei) as Hsession. cbn in Hsession. destruct Hs1 as (_ & _ & _ & Hp1).
    assert (Hnew : forall l, Forall (fun p => match p with PAccept c => m_readonly c = true | POp _ _ => True end) l ->
      readonly_server w (with_sessions (lastSessionId s) (m_sessions s ++ [session]) l (sv_env s) s)).
    { intros l Hl. split_and!; [done|done| |done]. cbn. apply Forall_app. split; [done|]. by constructor. }
    unfold handle_accept. destruct (c_error c); [by apply readonly_begin|].
    destruct (c_peer_gone c); [by apply Hnew|]. apply readonly_begin, Hnew. cbn.
    apply Forall_app. split; [done|]. by constructor.
  - apply readonly_session; [|done]. intros a Ha. apply received_preserves; [done|done|done| | |done].
    + intros m q v t b Hb _. unfold sendSocketData. by destruct (m_open (ses b)).
    + intros l _. apply readonly_line.
  - apply readonly_session; [|done]. apply preserves_bind.
    + apply preserves_if; [apply preserves_ret|]. by apply preserves_modify.
    + intros _. unfold onSendSocketDataCompleted. apply preserves_if; [|apply preserves_ret].
      intros a Ha. unfold disconnect. by destruct (m_open (ses a)).
Qed.

(** C21: A read-only server changes nothing: whatever its clients send and in whatever order the
    network operations complete, a server started with a negative port number leaves the pool
    manager, the farm and the verbosity as they were, and asks for no restart and no reboot. *)
Theorem readonly_server_changes_nothing (address password : string) (portnum : Z) (w : World)
    (bound : bool) (l : list server_event) : portnum < 0 ->
  sv_env (snd (run_server l (start bound (ApiServer_new address portnum password w)))) = w.
Proof.
  intros Hp. apply (run_server_preserves (readonly_server w)); [apply readonly_step|].
  assert (Hn : readonly_server w (ApiServer_new address portnum password w)).
  { apply Z.ltb_lt in Hp. split_and!; [done|done|by constructor|by constructor]. }
  unfold start. destruct (_ =? 0); [done|]. destruct bound; [|done]. by apply readonly_begin.
Qed.

(** ** Authentication *)

(** A text that gives nothing away: the line of an error response, or the page that is served to
    everybody. *)
Definition harmless_text (now : Z) (p : PoolManager) (t : string) : Prop :=
  (exists id r, failed id r /\ t = json_write r +:+ LF) \/
  (exists m path v, http_answer project_name host_name now m path v p = Ok t).

(** An operation that gives nothing away, with [sent] what was in the send buffer before. *)
Definition harmless (now : Z) (p : PoolManager) (sent : string) (o : op) : Prop :=
  match o with
  | ORead => True
  | OWrite t _ => exists ts, Forall (harmless_text now p) ts /\ t = sent +:+ String.concat "" ts
  end.

(** A session that has not been authenticated, and has done nothing since the operations [l0]. *)
Definition locked (now : Z) (password : string) (w : World) (l0 : list op) (sent : string) (a : Api) : Prop :=
  m_is_authenticated (ses a) = false /\ m_password (ses a) = password /\ env a = w /\
  (exists ts, Forall (harmless_text now (pool w)) ts /\ m_sendBuffer (ses a) = sent +:+ String.concat "" ts) /\
  exists l, started a = l0 ++ l /\ Forall (harmless now (pool w) sent) l.

Lemma locked_start now pw w l0 sent o a : harmless now (pool w) sent o -> locked now pw w l0 sent a ->
  locked now pw w l0 sent (start_op o a).
Proof.
  intros Ho (Ha & Hp & Hw & Hb & l & Hs & Hl). split_and!; [done|done|done|done|]. exists (l ++ [o]). cbn. split.
  - by rewrite Hs, app_assoc.
  - apply Forall_app. split; [done|]. by constructor.
Qed.

Lemma concat_snoc ts t : String.concat "" (ts ++ [t]) = String.concat "" ts +:+ t.
Proof.
  induction ts as [|x ts IH]; [done|]. cbn [app]. destruct ts as [|y ts]; [done|].
  change (String.concat "" (x :: (y :: ts) ++ [t])) with (x +:+ String.concat "" ((y :: ts) ++ [t])). rewrite IH.
  by rewrite <- string_app_assoc.
Qed.

Lemma locked_send now pw w l0 sent t d a : harmless_text now (pool w) t -> locked now pw w l0 sent a ->
  locked now pw w l0 sent (snd (sendSocketData t d a)).
Proof.
  intros Ht Hl. unfold sendSocketData. destruct (negb (m_open (ses a))); [done|].
  pose proof Hl as (Ha & Hp & Hw & (ts & Hts & Hb) & Hops). cbn [snd].
  assert (Hnew : Forall (harmless_text now (pool w)) (ts ++ [t]) /\
    m_sendBuffer (ses a) +:+ t = sent +:+ String.concat "" (ts ++ [t])).
  { split; [apply Forall_app; split; [done|by constructor]|]. by rewrite Hb, concat_snoc, string_app_assoc. }
  apply locked_start; [by exists (ts ++ [t])|]. split_and!; [done|done|done| |done]. by exists (ts ++ [t]).
Qed.

(** Without the password a request changes nothing and is refused. *)
Lemma locked_request now rnd q a : m_is_authenticated (ses a) = false -> ~ presents (m_password (ses a)) q ->
  let '(x, a') := process now rnd q jnull a in
  a' = a /\ forall r, x = Ok r -> exists id, failed id r.
Proof.
  intros Hu Hq. assert (Hput : put_auth false a = a) by (destruct a as [[] ? ? ?]; cbn in Hu; by rewrite Hu).
  unfold processRequest. destruct first_member as (r0 & Hs0 & Hv0 & Hj0 & Hr0 & He0).
  rewrite !run_lift, Hs0, run_lift. destruct (parseRequestId q r0) as [[ok r1]|e] eqn:Ep; [|done].
  apply parseRequestId_spec in Ep; [|done..]. destruct (request_id q) as [id|]; destruct Ep as [-> Hf]; cbn [negb].
  2: { unfold se_ret. split; [done|]. intros r [= <-]. eauto. }
  unfold with_value. rewrite run_lift. pose proof (read_method_failed id q r1 Hf) as Hm.
  destruct (read_method q r1) as [[m|j]|e]; [|unfold se_ret; split; [done|]; intros r [= <-]; eauto|done].
  unfold gets, se_bind at 1. rewrite Hu. cbn [negb orb]. destruct (negb (String.eqb m "api_authorize")).
  - unfold refuse, se_lift. split; [done|].
    destruct (set_error_failed id false r1 (-403) "Authorization needed" Hf) as (r2 & -> & H2).
    intros r [= <-]. eauto.
  - pose proof (authorize_outcome id q r1 a Hf) as Ho. destruct (api_authorize q r1 a) as [x a'].
    destruct Ho as (_ & _ & _ & [(_ & _ & Hp)|[-> Hx]]); [done|]. split; [done|]. intros r ->. eauto.
Qed.

Lemma error_response_failed code m : exists r, error_response code m = Ok r /\ failed jnull r.
Proof.
  unfold error_response. destruct first_member as (r0 & -> & Hv0 & Hj0 & Hr0 & He0). cbn [res_bind].
  destruct (with_id r0 jnull Hv0 Hj0 Hr0 He0) as (r1 & -> & H1). cbn [res_bind].
  destruct (set_member jnull "errorcode" (of_string code) (or_introl view_null)) as (e1 & -> & Hv1 & _). cbn [res_bind].
  destruct (set_member e1 "message" (of_string m) (or_intror Hv1)) as (e2 & -> & Hv2 & Hg & _). cbn [res_bind].
  by apply (store_error jnull false r1 e2 m).
Qed.

(** C22: Every line is answered: one that is no JSON text by an error with a null id; one that is, by the
    response to its request - with the version, the id of the request, and exactly one of result and
    error, but for a successful api_authorize, which has neither - unless the handling throws.  A
    standard exception is answered by an error whose id is null, whatever id the request has; any
    other one is not caught. *)
Theorem request_answered (now rnd : Z) (line : string) (a : Api) :
  let '(x, a') := line_response project_name host_name iequals reboot reader_error now rnd line a in
  match json_parse line with
  | None => a' = a /\ exists r, x = Ok r /\ failed jnull r
  | Some q =>
      let '(y, a1) := process now rnd q jnull a in
      a' = a1 /\
      match y with
      | Ok r => x = Ok r /\ answered q a r a'
      | Throw e => if caught_by_std e then exists r, x = Ok r /\ failed jnull r else x = Throw e
      end
  end.
Proof.
  unfold line_response. destruct (json_parse line) as [q|].
  - unfold try_with. destruct (process now rnd q jnull a) as [[r|e] a1] eqn:E.
    + split; [done|]. split; [done|]. by eapply process_answered.
    + destruct (caught_by_std e); [|done]. unfold se_lift.
      destruct (error_response_failed "500" (what e)) as (r & -> & Hr). split; [done|]. by exists r.
  - unfold se_lift. destruct (error_response_failed "-32700" ("Json parse error : " +:+ reader_error line)) as (r & -> & Hr).
    split; [done|]. by exists r.
Qed.

Lemma locked_line now rnd pw w l0 sent line :
  (forall q, json_parse line = Some q -> ~ presents pw q) ->
  se_preserves (locked now pw w l0 sent) (line_done now rnd line).
Proof.
  intros Hq a Ha. unfold process_line. destruct (String.eqb line ""); [done|].
  assert (Hr : let '(x, a') := line_response project_name host_name iequals reboot reader_error now rnd line a in
    a' = a /\ forall r, x = Ok r -> exists id, failed id r).
  { pose proof Ha as (Hu & Hp & _). unfold line_response, try_with, se_lift. destruct (json_parse line) as [q|].
    - pose proof (locked_request now rnd q a Hu ltac:(rewrite Hp; by apply Hq)) as Hl.
      destruct (process now rnd q jnull a) as [[r|e] a']; [done|]. destruct Hl as [-> _].
      destruct (caught_by_std e); [|done]. destruct (error_response_failed "500" (what e)) as (r & -> & Hr).
      split; [done|]. intros r' [= <-]. eauto.
    - destruct (error_response_failed "-32700" ("Json parse error : " +:+ reader_error line)) as (r & -> & Hr).
      split; [done|]. intros r' [= <-]. eauto. }
  unfold se_bind. destruct (line_response _ _ _ _ _ _ _ _ a) as [[r|e] a']; destruct Hr as [-> Hr]; [|done].
  destruct (Hr r eq_refl) as [id Hf]. unfold sendSocketData_json. apply locked_send; [|done]. left. by exists id, r.
Qed.

(** C20: Without the password nothing can be done: as long as a session is not authenticated, a
    transmission none of whose lines carries the password - a "psw" parameter whose first 500 bytes are
    those of the server's, short ones continued with zero bytes; a wrong password may well be among
    the lines - leaves the pool manager, the farm and the verbosity as they were and the session
    unauthenticated; and all that is added to what is being sent are error responses and the
    statistics page, which the HTTP side serves to everybody. *)
Theorem password_required (now rnd : Z) (ec : bool) (data : string) (a : Api) :
  m_is_authenticated (ses a) = false ->
  (forall line q, In line (fst (split_lines (m_message (ses a) +:+ data))) ->
     json_parse (trim line) = Some q -> ~ presents (m_password (ses a)) q) ->
  let '(_, a') := received now rnd ec data a in
  env a' = env a /\ m_is_authenticated (ses a') = false /\ m_password (ses a') = m_password (ses a) /\
  exists l, started a' = started a ++ l /\ Forall (harmless now (pool (env a)) (m_sendBuffer (ses a))) l.
Proof.
  intros Hu Hq.
  pose proof (received_preserves (locked now (m_password (ses a)) (env a) (started a) (m_sendBuffer (ses a))) now rnd ec data a) as H.
  destruct (received now rnd ec data a) as [x a']. cbn [snd] in H. destruct H as (H1 & H2 & H3 & _ & H4); [..|done].
  - by intros x0 b Hb.
  - by intros b Hb.
  - intros b Hb. by apply locked_start.
  - intros m p v t b Hb Ht. apply locked_send; [|done]. right. destruct Hb as (_ & _ & Hw & _). rewrite Hw in Ht.
    by exists m, p, v.
  - intros line Hin. apply locked_line. intros q. by apply Hq.
  - split_and!; [done|done|done|exists []|exists []]; rewrite ?app_nil_r, ?string_app_nil_r; done.
Qed.

(** *** The password *)

Lemma padded_inj a b n m :
  sforall (fun c => negb (Ascii.eqb c NUL)) a = true -> sforall (fun c => negb (Ascii.eqb c NUL)) b = true ->
  a +:+ sfill n NUL = b +:+ sfill m NUL -> a = b.
Proof.
  revert b. induction a as [|c a IH]; intros [|d b] Ha Hb E; [done| | |]; cbn in Ha, Hb; bool_to_prop.
  - exfalso. destruct n as [|n]; [done|]. change ("" +:+ sfill (S n) NUL) with (String NUL (sfill n NUL)) in E.
    rewrite string_app_cons in E. injection E as <- _. by rewrite Ascii.eqb_refl in *.
  - exfalso. destruct m as [|m]; [done|]. change ("" +:+ sfill (S m) NUL) with (String NUL (sfill m NUL)) in E.
    rewrite string_app_cons in E. injection E as -> _. by rewrite Ascii.eqb_refl in *.
  - rewrite !string_app_cons in E. injection E as -> E. f_equal. by apply IH.
Qed.

Lemma copied_short t : (String.length t <= max_length)%nat ->
  copied t = t +:+ sfill (max_length - String.length t) NUL.
Proof.
  intros Ht. unfold copied. rewrite stake_ge by done. unfold resize.
  destruct (max_length <=? String.length t)%nat eqn:E; [|done]. apply Nat.leb_le in E.
  replace (max_length - String.length t)%nat with 0%nat by lia. rewrite stake_ge by lia. by rewrite string_app_nil_r.
Qed.

(** The comparison of the passwords, without an early exit over buffers of 500 bytes, holds
    exactly when the two texts, cut to 500 bytes and padded with zero bytes, are the same; for texts
    of at most 500 bytes without a zero byte that is equality, but what follows the first 500 bytes
    of a longer password does not count. *)
Theorem password_check (psw password : string) :
  (password_matches psw password = true <-> copied psw = copied password) /\
  (sforall (fun c => negb (Ascii.eqb c NUL)) psw = true ->
   sforall (fun c => negb (Ascii.eqb c NUL)) password = true ->
   (String.length psw <= 500)%nat -> (String.length password <= 500)%nat ->
   password_matches psw password = true <-> psw = password) /\
  (String.length psw = 500%nat -> forall rest, password_matches psw (psw +:+ rest) = true).
Proof.
  assert (H : password_matches psw password = true <-> copied psw = copied password).
  { unfold password_matches. rewrite Z.eqb_eq, password_diff_zero by (by rewrite !copied_length).
    split; [by intros []|done]. }
  split_and!; [done| |].
  - intros Hn1 Hn2 H1 H2. rewrite H, !copied_short by done. split; [|by intros ->]. by apply padded_inj.
  - intros Hl rest. unfold password_matches. apply Z.eqb_eq, password_diff_zero; [by rewrite !copied_length|].
    split; [done|]. unfold copied. f_equal. change max_length with 500%nat. rewrite <- Hl.
    by rewrite stake_app, stake_ge by done.
Qed.
End props.

(** ** Witnesses *)

#[local] Existing Instance JsonModel.json.
#[local] Existing Instance BoostModel.boost.
#[local] Existing Instance BigIntegerModel.instance.

Definition example_world : World := {|
  pool := PoolManager_new example_pool_settings [example_uri "stratum://0x1@pool.test:1"] [0%nat] example_farm;
  g_logOptions := 0; restarts := 0; reboots := 0 |}.
Definition example_session (readonly : bool) (password : string) : Api := {|
  ses := ApiConnection_new 1 readonly password; env := example_world; started := []; disconnected := false |}.
(** A request with id 7. *)
Definition example_request (m : string) (p : list (string * JsonModel.jv)) : @J JsonModel.json :=
  JsonModel.JObj [("id", JsonModel.JInt 7); ("jsonrpc", JsonModel.JStr "2.0"); ("method", JsonModel.JStr m);
                  ("params", JsonModel.JObj p)].
Definition example_pong : @J JsonModel.json :=
  JsonModel.JObj [("id", JsonModel.JInt 7); ("jsonrpc", JsonModel.JStr "2.0"); ("result", JsonModel.JStr "pong")].
Definition example_shuffle : string := json_write (example_request "miner_shuffle" []) +:+ LF.

(** The id of a request is lost when its handling throws: a nonce scrambler that is an object is no
    text, the conversion throws, and the request with id 7 is answered with a null id. *)
Theorem request_id_lost :
  let q := example_request "miner_setscramblerinfo" [("noncescrambler", JsonModel.JObj [("x", JsonModel.JInt 1)])] in
  request_id q = Some (JsonModel.JInt 7 : @J JsonModel.json) /\
  exists r a', line_response "coreminer" None String.eqb false (fun _ => "") 0 0 (json_write q) (example_session false "") = (Ok r, a') /\
    jget r "id" = Ok jnull /\ jhas r "error" = Ok true.
Proof.
  split; [vm_compute; reflexivity|]. eexists _, _. split; [vm_compute; reflexivity|]. split; vm_compute; reflexivity.
Qed.

Lemma readonly_server_changes_nothing_witness :
  -3333 < 0 /\
  sv_env (snd (run_server "coreminer" None String.eqb false (fun _ => "")
    [EComplete 0 {| c_error := false; c_peer_gone := false; c_data := ""; c_now := 0; c_rnd := 0 |};
     EComplete 0 {| c_error := false; c_peer_gone := false; c_data := example_shuffle; c_now := 0; c_rnd := 99 |}; EStop]
    (start true (ApiServer_new "0.0.0.0" (-3333) "" example_world)))) = example_world.
Proof.
  split; [done|]. apply (readonly_server_changes_nothing "coreminer" None String.eqb false (fun _ => "")
    "0.0.0.0" "" (-3333) example_world true). done.
Defined.

(** An attempt with a wrong password. *)
Definition example_guess : @J JsonModel.json := example_request "api_authorize" [("psw", JsonModel.JStr "guess")].

Lemma password_required_witness :
  m_is_authenticated (ses (example_session false "secret")) = false /\
  let '(_, a') := onRecvSocketDataCompleted "coreminer" None String.eqb false (fun _ => "") 0 99 false
                    (json_write example_guess +:+ LF) (example_session false "secret") in
  env a' = example_world /\ m_is_authenticated (ses a') = false /\ m_password (ses a') = "secret" /\
  exists l, started a' = [] ++ l /\ Forall (harmless "coreminer" None 0 (pool example_world) "") l.
Proof.
  split; [done|]. apply (password_required "coreminer" None String.eqb false (fun _ => "") 0 99 false
    (json_write example_guess +:+ LF) (example_session false "secret")); [done|].
  intros line q Hin Hq (p & v & psw & Hp & Hv & Hs & Hsame).
  assert (E : fst (split_lines (m_message (ses (example_session false "secret")) +:+ (json_write example_guess +:+ LF))) =
    [json_write example_guess]) by (vm_compute; reflexivity).
  rewrite E in Hin. destruct Hin as [<-|[]].
  assert (E2 : json_parse (trim (json_write example_guess)) = Some example_guess) by (vm_compute; reflexivity).
  rewrite E2 in Hq. injection Hq as <-. cbn in Hp. injection Hp as <-. cbn in Hv. injection Hv as <-.
  injection Hs as <-. specialize (Hsame 0%nat ltac:(lia)). vm_compute in Hsame. discriminate Hsame.
Defined.

Lemma password_check_witness : password_matches "secret" "secret" = true.
Proof.
  destruct (password_check "secret" "secret") as (_ & H & _). by apply H; [| |vm_compute; lia|vm_compute; lia|].
Defined.
