(* ===== verification/ApiStream.v ===== *)
(** * The API server's stream of requests

    A transmission is taken apart into lines, and every line that is not blank is handled, in order, as a
    plain request: what [onRecvSocketDataCompleted] of src/libapicore/ApiServer.cpp does with its
    receive buffer.  The writes share one send buffer: each repeats what the ones before it are still
    sending. *)

From S2P Require Import Prelude CppString Lines CommonData FixedHash Worker Float.
From S2P Require Import Types Miner CpuMiner Farm Regex PoolURI Json PoolManager ApiStat ApiServer ApiProps.

Section stream.
Context {Jsn : Json} {Big : BigInteger} {Bst : BoostUri}.
Context (project_name : string) (host_name : option string).
Context (iequals : string -> string -> bool) (reboot : bool) (reader_error : string -> string).
#[local] Notation process := (processRequest project_name host_name iequals reboot).
#[local] Notation respond := (line_response project_name host_name iequals reboot reader_error).
#[local] Notation loop := (receive_loop project_name host_name iequals reboot).
#[local] Notation received := (onRecvSocketDataCompleted project_name host_name iequals reboot reader_error).

(** ** The specification: the requests one after the other, without a buffer *)

Fixpoint responses (now rnd : Z) (ls : list string) : M (list J) :=
  match ls with
  | [] => se_ret []
  | l :: ls' =>
      if String.eqb (trim l) "" then responses now rnd ls'
      else (do r <- respond now rnd (trim l); do rs <- responses now rnd ls'; se_ret (r :: rs))%se
  end.

(** The lines of the responses, and the writes: one for each response, of all that is in the send buffer
    with the response added. *)
Definition response_line (r : J) : string := json_write r +:+ LF.
Fixpoint response_lines (rs : list J) : string :=
  match rs with [] => "" | r :: rs' => response_line r +:+ response_lines rs' end.
Fixpoint writes (sent : string) (rs : list J) : list op :=
  match rs with
  | [] => []
  | r :: rs' => OWrite (sent +:+ response_line r) false :: writes (sent +:+ response_line r) rs'
  end.

(** The session's receive and send buffers and the operations under way. *)
Definition framed (x sent : string) (ops : list op) (a : Api) : Api :=
  put_message x (put_sendBuffer sent
    {| ses := ses a; env := env a; started := ops; disconnected := disconnected a |}).

(** ** A request does not look at them *)

Section frame.
Context (x sent : string) (ops : list op).
#[local] Notation f := (framed x sent ops).

Lemma frame_gets {A} (g : Api -> A) : (forall a, g (f a) = g a) -> se_frame f (gets g).
Proof. intros Hg a. unfold gets. by rewrite Hg. Qed.
Lemma frame_with_value {A} (r : res (A + J)) (k : A -> M J) :
  (forall v, se_frame f (k v)) -> se_frame f (with_value r k).
Proof. intros Hk. apply frame_bind; [apply frame_lift|]. intros [v|j]; [apply Hk|apply frame_ret]. Qed.
Lemma frame_params q r k : (forall v, se_frame f (k v)) -> se_frame f (with_params q r k).
Proof. apply frame_with_value. Qed.
Lemma frame_try {A} caught (m : M A) (h : exn -> M A) :
  se_frame f m -> (forall e, se_frame f (h e)) -> se_frame f (try_with caught m h).
Proof.
  intros Hm Hh a. unfold try_with. rewrite Hm. destruct (m a) as [[v|e] a']; cbn [fst snd]; [done|].
  destruct (caught e); [apply Hh|done].
Qed.
Lemma frame_if {A} (b : bool) (m k : M A) : se_frame f m -> se_frame f k -> se_frame f (if b then m else k).
Proof. by destruct b. Qed.
Lemma frame_access r k : se_frame f k -> se_frame f (with_write_access r k).
Proof. intros Hk. apply frame_bind; [by apply frame_gets|]. intros b. by apply frame_with_value. Qed.
Lemma frame_on_pool m : se_frame f (on_pool m).
Proof. intros a. unfold on_pool. cbn. by destruct (m (pool (env a))). Qed.
Lemma frame_put_env g : (forall a, g (f a) = g a) -> se_frame f (se_modify (fun a => put_env (g a) a)).
Proof. intros Hg. apply frame_modify. intros a. by rewrite Hg. Qed.
Lemma frame_put_auth b : se_frame f (se_modify (put_auth b)).
Proof. by apply frame_modify. Qed.
Lemma frame_report q r : se_frame f (report q r).
Proof. apply frame_bind; [by apply frame_gets|]. intros p. apply frame_bind; [apply frame_lift|]. intros j. apply frame_lift. Qed.

Ltac framed :=
  repeat first
    [ apply frame_ret | apply frame_lift | by apply frame_gets | apply frame_on_pool | by apply frame_put_env
    | apply frame_put_auth | apply frame_report
    | apply frame_with_value; intros ? | apply frame_params; intros ? | apply frame_access | apply frame_if
    | apply frame_try; [|intros ?]
    | match goal with |- se_frame _ (match ?v with _ => _ end) => destruct v end
    | apply frame_bind; [|intros ?] ].

Lemma frame_process now rnd q r : se_frame f (process now rnd q r).
Proof.
  unfold processRequest, dispatch, api_authorize, miner_shuffle, miner_restart, miner_reboot, miner_addconnection,
    miner_setactiveconnection, miner_removeconnection, miner_setscramblerinfo, miner_pausegpu,
    miner_setverbosity, pool_method, answer_true, answer, refuse. cbn zeta. framed.
Qed.

Lemma frame_respond now rnd l : se_frame f (respond now rnd l).
Proof. unfold line_response. destruct (json_parse l); [apply frame_try; [apply frame_process|intros; apply frame_lift]|apply frame_lift]. Qed.
End frame.

(** ** The loop over the lines *)

Lemma respond_open now rnd l a : m_open (ses (snd (respond now rnd l a))) = m_open (ses a).
Proof.
  assert (H : se_preserves (fun b => m_open (ses b) = m_open (ses a)) (respond now rnd l)); [|by apply H].
  unfold line_response. destruct (json_parse l); [apply preserves_try; [by apply stable_process|intros; apply preserves_lift]|].
  apply preserves_lift.
Qed.

Lemma loop_responses now rnd : forall fuel x sent ops a, (String.length x < fuel)%nat -> m_open (ses a) = true ->
  match responses now rnd (fst (split_lines x)) a with
  | (Ok rs, a') => loop fuel reader_error now rnd (framed x sent ops a) =
                     (Ok tt, framed (snd (split_lines x)) (sent +:+ response_lines rs) (ops ++ writes sent rs) a') /\
                   m_open (ses a') = true
  | (Throw e, _) => fst (loop fuel reader_error now rnd (framed x sent ops a)) = Throw e
  end.
Proof.
  induction fuel as [|fuel IH]; intros x sent ops a Hf Ha; [lia|]. cbn [receive_loop].
  change (m_message (ses (framed x sent ops a))) with x.
  pose proof (split_lines_find x) as Hs. destruct (find_char (chr 10) x) as [i|] eqn:E; rewrite Hs; cbn [fst snd responses].
  2: { unfold se_ret. cbn [writes response_lines]. rewrite app_nil_r, string_app_nil_r. by split. }
  set (next := sdrop (i + 1) x). set (l := trim (stake i x)).
  assert (Hn : (String.length next < fuel)%nat) by (pose proof (find_char_length _ _ _ E); fold next in H; lia).
  unfold process_line. destruct (String.eqb l "").
  - unfold se_bind at 1, se_ret at 1. rewrite run_modify. change (m_message (ses (framed x sent ops a))) with x. fold next.
    change (put_message next (framed x sent ops a)) with (framed next sent ops a). by apply IH.
  - pose proof (respond_open now rnd l a) as Ho.
    destruct (respond now rnd l a) as [[r|e] a1] eqn:Er; cbn [snd] in Ho;
      pose proof (frame_respond x sent ops now rnd l a) as Hfr; rewrite Er in Hfr; cbn [fst snd] in Hfr.
    + set (sent1 := sent +:+ response_line r). set (w := OWrite sent1 false).
      assert (Hsend : sendSocketData_json r (framed x sent ops a1) = (Ok tt, framed x sent1 (ops ++ [w]) a1)).
      { unfold sendSocketData_json, sendSocketData. change (m_open (ses (framed x sent ops a1))) with (m_open (ses a1)).
        by rewrite Ho, Ha. }
      rewrite (run_ok _ _ _ _ _ Er), run_assoc, (run_ok _ _ _ _ _ Hfr), (run_ok _ _ _ _ _ Hsend), run_modify.
      change (m_message (ses (framed x sent1 (ops ++ [w]) a1))) with x. fold next.
      change (put_message next (framed x sent1 (ops ++ [w]) a1)) with (framed next sent1 (ops ++ [w]) a1).
      specialize (IH next sent1 (ops ++ [w]) a1 Hn (eq_trans Ho Ha)).
      destruct (responses now rnd (fst (split_lines next)) a1) as [[rs|e] a2] eqn:E2.
      * rewrite (run_ok _ _ _ _ _ E2). unfold se_ret. destruct IH as [-> Ho2]. split; [|done].
        cbn [writes response_lines]. fold sent1. rewrite <- app_assoc, <- string_app_assoc. done.
      * rewrite (run_err _ _ _ _ _ E2). exact IH.
    + rewrite (run_err _ _ _ _ _ Er), run_assoc, (run_err _ _ _ _ _ Hfr). done.
Qed.

(** C23: Requests are handled in order, and answered more than once: a transmission on an open session
    that brings the receive buffer to at least four bytes which are no HTTP request is handled as the
    requests in the complete lines of the buffer, one after the other, as if each were called on its
    own - blank lines skipped; the incomplete rest stays in the buffer, the next read is started, and
    the loop over the lines always ends.  The responses are added to the send buffer in the order of
    the requests, and with each one a write of the whole buffer is started: as no write completes in
    between, the write of the second response sends the first one again, and so on, and all of them
    begin with what an earlier write is still sending.  With one request and nothing being sent the
    write is the response. *)
Theorem requests_answered_in_order (now rnd : Z) (data : string) (a : Api) :
  m_open (ses a) = true -> data <> "" ->
  let x := m_message (ses a) +:+ data in
  let sent := m_sendBuffer (ses a) in
  4 <= size x -> regex_search http_pattern x = None ->
  match responses now rnd (fst (split_lines x)) a with
  | (Ok rs, a') => received now rnd false data a =
      (Ok tt, framed (snd (split_lines x)) (sent +:+ response_lines rs) (started a ++ writes sent rs ++ [ORead]) a') /\
      length (writes sent rs) = length rs /\
      (forall i r, rs !! i = Some r ->
         writes sent rs !! i = Some (OWrite (sent +:+ response_lines (take i rs) +:+ response_line r) false))
  | (Throw e, _) => fst (received now rnd false data a) = Throw e
  end.
Proof.
  intros Ha Hd x sent Hx Hhttp. unfold onRecvSocketDataCompleted.
  assert (0 <? size data = true) as ->.
  { unfold size. destruct data; [done|]. cbn [String.length]. apply Z.ltb_lt. lia. }
  cbn [negb andb]. fold x.
  assert (put_message x a = framed x sent (started a) a) as -> by by destruct a as [[] ? ? ?].
  change (m_message (ses (framed x sent (started a) a))) with x.
  destruct (Z.ltb_spec (size x) 4); [lia|]. rewrite Hhttp.
  pose proof (loop_responses now rnd (S (String.length x)) x sent (started a) a ltac:(lia) Ha) as Hl.
  destruct (responses now rnd (fst (split_lines x)) a) as [[rs|e] a'].
  - destruct Hl as [El Ho]. split_and!.
    + unfold se_bind at 1. rewrite El. unfold gets, se_bind.
      match goal with |- context [framed ?y ?z ?l a'] => change (m_open (ses (framed y z l a'))) with (m_open (ses a')) end.
      rewrite Ho. unfold recvSocketData, se_modify. by rewrite app_assoc.
    + clear. generalize sent. induction rs as [|r rs IH]; intros z; [done|]. cbn. by rewrite IH.
    + clear. generalize sent. induction rs as [|r rs IH]; intros z [|i] r' Hr; [done..| |].
      * injection Hr as ->. done.
      * etrans; [exact (IH (z +:+ response_line r) i r' Hr)|]. cbn [take response_lines]. by rewrite !string_app_assoc.
  - unfold se_bind. destruct (loop _ _ _ _ _) as [[]]; [done|]. by injection Hl as ->.
Qed.
End stream.

(** ** Witness *)

#[local] Existing Instance JsonModel.json.
#[local] Existing Instance BoostModel.boost.
#[local] Existing Instance BigIntegerModel.instance.

(** A request, a blank line, and the beginning of another request. *)
Definition example_transmission : string := example_shuffle +:+ LF +:+ "[".
Definition example_response : @J JsonModel.json :=
  JsonModel.JObj [("id", JsonModel.JInt 7); ("jsonrpc", JsonModel.JStr "2.0"); ("result", JsonModel.JBool true)].

Lemma requests_answered_in_order_witness :
  exists a', onRecvSocketDataCompleted "coreminer" None String.eqb false (fun _ => "") 0 0 false example_transmission
      (example_session false "") = (Ok tt, a') /\
    m_message (ses a') = "[" /\ started a' = [OWrite (json_write example_response +:+ LF) false; ORead].
Proof.
  pose proof (requests_answered_in_order "coreminer" None String.eqb false (fun _ => "") 0 0 example_transmission
    (example_session false "") eq_refl ltac:(vm_compute; discriminate) ltac:(vm_compute; discriminate)
    ltac:(vm_compute; reflexivity)) as H.
  destruct (responses _ _ _ _ _ _ _ _ _) as [[rs|e] a1] eqn:E; [|exfalso; vm_compute in E; discriminate E].
  destruct H as [H _]. eexists. split; [exact H|]. split; [vm_compute; reflexivity|].
  cbn [started framed put_message put_sendBuffer put_ses]. vm_compute in E. injection E as <- <-. vm_compute. reflexivity.
Defined.

(** Two requests in one transmission: the client gets the first response twice. *)
Theorem response_repeated :
  let line := json_write example_response +:+ LF in
  exists a', onRecvSocketDataCompleted "coreminer" None String.eqb false (fun _ => "") 0 0 false
      (example_shuffle +:+ example_shuffle) (example_session false "") = (Ok tt, a') /\
    started a' = [OWrite line false; OWrite (line +:+ line) false; ORead].
Proof. eexists. split; [vm_compute; reflexivity|]. vm_compute. reflexivity. Qed.
