(* ===== verification/ApiSessions.v ===== *)
(** * The life of the API server's sessions

    Session ids are distinct and a session that ends is the only one to leave the table; a session
    that received fewer than four bytes is never read from again; an operation still under way when
    its session ends completes on a destroyed object. *)

From S2P Require Import Prelude CppString Lines CommonData FixedHash Worker Float.
From S2P Require Import Types Miner CpuMiner Farm Regex PoolURI Json PoolManager ApiStat ApiServer ApiProps.

Section sessions.
Context {Jsn : Json} {Big : BigInteger} {Bst : BoostUri}.
Context (project_name : string) (host_name : option string).
Context (iequals : string -> string -> bool) (reboot : bool) (reader_error : string -> string).
#[local] Notation received := (onRecvSocketDataCompleted project_name host_name iequals reboot reader_error).
#[local] Notation complete_nth := (complete_nth project_name host_name iequals reboot reader_error).
#[local] Notation run_server := (run_server project_name host_name iequals reboot reader_error).
#[local] Notation server_step := (server_step project_name host_name iequals reboot reader_error).

(** ** A session through its handlers *)

(** It keeps its id, and stays open unless it was disconnected. *)
Definition same_session (id : Z) (a : Api) : Prop :=
  m_sessionId (ses a) = id /\ (disconnected a = false -> m_open (ses a) = true).

Lemma same_received id now rnd ec data : se_preserves (same_session id) (received now rnd ec data).
Proof.
  intros a Ha. apply received_preserves; [done| |done| | |done].
  - intros b [Hi _]. by split.
  - intros m q v t b Hb _. unfold sendSocketData. by destruct (m_open (ses b)).
  - intros l _. by apply stable_line.
Qed.

(** ** The table *)

Definition accept_ids (l : list pending) : list Z :=
  omap (fun p => match p with PAccept c => Some (m_sessionId c) | POp _ _ => None end) l.

(** The ids of the sessions, and of those being accepted. *)
Definition ids (s : ApiServer) : list Z := (m_sessionId <$> m_sessions s) ++ accept_ids (sv_pending s).

(** Ids are distinct and given out in order, sessions in the table are open; [n] more sessions can
    be accepted before the counter overflows. *)
Definition server_inv (n : Z) (s : ApiServer) : Prop :=
  NoDup (ids s) /\ Forall (fun i => 0 < i <= lastSessionId s) (ids s) /\
  Forall (fun c => m_open c = true) (m_sessions s) /\
  Forall (fun p => match p with PAccept c => m_open c = true | POp i _ => i <= lastSessionId s end) (sv_pending s) /\
  0 <= lastSessionId s /\ lastSessionId s + n < 2 ^ 31.

Lemma accept_ids_app a b : accept_ids (a ++ b) = accept_ids a ++ accept_ids b.
Proof. apply omap_app. Qed.
Lemma accept_ids_ops id l : accept_ids (POp id <$> l) = [].
Proof. by induction l. Qed.
Lemma accept_ids_delete l i p : l !! i = Some p ->
  accept_ids l ≡ₚ accept_ids [p] ++ accept_ids (delete i l).
Proof.
  intros Hp. rewrite <- accept_ids_app. apply omap_Permutation.
  rewrite <- (take_drop_middle l i p Hp) at 1. rewrite delete_take_drop. cbn.
  by rewrite Permutation_middle.
Qed.

Lemma erase_sublist id l : sublist (m_sessionId <$> erase_session id l) (m_sessionId <$> l).
Proof.
  induction l as [|c l IH]; [constructor|]. cbn. destruct (has_id id c); [by apply sublist_cons | by apply sublist_skip].
Qed.
Lemma erase_gone id l : NoDup (m_sessionId <$> l) -> ~ In id (m_sessionId <$> erase_session id l).
Proof.
  induction l as [|c l IH]; [by intros _ []|]. cbn. intros Hnd. apply NoDup_cons in Hnd as [Hc Hnd].
  unfold has_id. destruct (Z.eqb_spec (m_sessionId c) id) as [E|E].
  - rewrite E in Hc. by rewrite <- list_elem_of_In.
  - cbn. intros [H|H]; [done|]. by apply IH.
Qed.
Lemma replace_ids id x l : m_sessionId x = id -> m_sessionId <$> replace_session id x l = m_sessionId <$> l.
Proof.
  intros Hx. induction l as [|c l IH]; [done|]. cbn. unfold has_id.
  destruct (Z.eqb_spec (m_sessionId c) id); cbn; congruence.
Qed.
Lemma erase_other id i l : i <> id -> find_session i (erase_session id l) = find_session i l.
Proof.
  intros Hi. induction l as [|c l IH]; [done|]. cbn. unfold has_id.
  destruct (Z.eqb_spec (m_sessionId c) id) as [E|E]; cbn; unfold has_id; destruct (Z.eqb_spec (m_sessionId c) i);
    (congruence || done).
Qed.
Lemma replace_other id i x l : i <> id -> m_sessionId x = id ->
  find_session i (replace_session id x l) = find_session i l.
Proof.
  intros Hi Hx. induction l as [|c l IH]; [done|]. cbn. unfold has_id.
  destruct (Z.eqb_spec (m_sessionId c) id) as [E|E]; cbn; unfold has_id.
  - destruct (Z.eqb_spec (m_sessionId x) i), (Z.eqb_spec (m_sessionId c) i); (congruence || done).
  - destruct (Z.eqb_spec (m_sessionId c) i); (congruence || done).
Qed.
Lemma find_gone id l : ~ In id (m_sessionId <$> l) -> find_session id l = None.
Proof.
  induction l as [|c l IH]; [done|]. cbn. intros Hn. unfold has_id.
  destruct (Z.eqb_spec (m_sessionId c) id); [tauto|]. apply IH. tauto.
Qed.

Lemma inv_weaken n s : server_inv (n + 1) s -> server_inv n s.
Proof. intros (H1 & H2 & H3 & H4 & H5 & H6). split_and!; (done || lia). Qed.

Lemma inv_begin n s : 0 <= n -> server_inv (n + 1) s -> server_inv n (begin_accept s).
Proof.
  intros Hn Hs. pose proof Hs as (H1 & H2 & H3 & H4 & H5 & H6). unfold begin_accept.
  destruct (m_running s); [|by apply inv_weaken].
  assert (Hid : i32 (lastSessionId s + 1) = lastSessionId s + 1).
  { unfold i32. rewrite Z.mod_small by lia. destruct (Z.ltb_spec (lastSessionId s + 1) (2 ^ 31)); lia. }
  rewrite Hid. unfold server_inv, ids. cbn. rewrite accept_ids_app, app_assoc. cbn.
  fold (ids s). split_and!; [| | done | |lia|lia].
  - apply NoDup_app. split_and!; [done| |apply NoDup_singleton].
    intros x Hx Hin. apply list_elem_of_singleton in Hin as ->. rewrite Forall_forall in H2.
    apply H2 in Hx. lia.
  - apply Forall_app. split; [|constructor; [lia|constructor]]. eapply Forall_impl; [exact H2|]. cbn. lia.
  - apply Forall_app. split; [|by repeat constructor]. eapply Forall_impl; [exact H4|].
    intros [c|i o]; [done|]. lia.
Qed.

(** Less pending, and fewer sessions. *)
Lemma inv_fewer n s l p w : server_inv n s -> sublist (m_sessionId <$> l) (m_sessionId <$> m_sessions s) ->
  Forall (fun c => m_open c = true) l ->
  Forall (fun p => match p with PAccept c => m_open c = true | POp i _ => i <= lastSessionId s end) p ->
  sublist (accept_ids p) (accept_ids (sv_pending s)) ->
  server_inv n (with_sessions (lastSessionId s) l p w s).
Proof.
  intros (H1 & H2 & H3 & H4 & H5 & H6) Hl Ho Hp Ha.
  assert (Hsub : sublist ((m_sessionId <$> l) ++ accept_ids p) (ids s)) by by apply sublist_app.
  split_and!; cbn; [by eapply sublist_NoDup | | done | done | done | done].
  rewrite Forall_forall in H2 |- *. intros x Hx. apply H2. by eapply elem_of_sublist.
Qed.

Lemma Forall_pending n s i : server_inv n s ->
  Forall (fun p => match p with PAccept c => m_open c = true | POp j _ => j <= lastSessionId s end)
    (delete i (sv_pending s)).
Proof. intros (_ & _ & _ & H4 & _). by apply Forall_delete_any. Qed.

Lemma accept_ids_sublist l i : sublist (accept_ids (delete i l)) (accept_ids l).
Proof.
  revert i. induction l as [|p l IH]; intros [|i]; cbn; [done|done| |].
  - destruct p; cbn; [by apply sublist_cons | done].
  - destruct p; cbn; [apply sublist_skip|]; apply IH.
Qed.

Lemma inv_delete n s i : server_inv n s ->
  server_inv n (with_sessions (lastSessionId s) (m_sessions s) (delete i (sv_pending s)) (sv_env s) s).
Proof.
  intros Hs. apply inv_fewer; [done|done|by destruct Hs as (_ & _ & H3 & _) | by eapply Forall_pending|].
  apply accept_ids_sublist.
Qed.

Lemma inv_accepted n s i c l : server_inv n s -> sv_pending s !! i = Some (PAccept c) ->
  l = [] \/ l = [POp (m_sessionId c) ORead] ->
  server_inv n (with_sessions (lastSessionId s) (m_sessions s ++ [c]) (delete i (sv_pending s) ++ l) (sv_env s) s).
Proof.
  intros Hs Hi Hlist.
  assert (Hl : accept_ids l = [] /\ Forall (fun p => match p with PAccept c => m_open c = true | POp j _ => j <= m_sessionId c end) l).
  { destruct Hlist as [->| ->]; (split; [done|]); by repeat constructor. }
  destruct Hl as [Hl1 Hl2]. pose proof Hs as (H1 & H2 & H3 & H4 & H5 & H6).
  pose proof (Forall_lookup_1 _ _ _ _ H4 Hi) as Hopen. cbn in Hopen.
  assert (Hperm : ids (with_sessions (lastSessionId s) (m_sessions s ++ [c])
    (delete i (sv_pending s) ++ l) (sv_env s) s) ≡ₚ ids s).
  { unfold ids. cbn. rewrite accept_ids_app, Hl1, fmap_app, (accept_ids_delete _ _ _ Hi). cbn.
    by rewrite app_nil_r, <- app_assoc. }
  unfold server_inv. rewrite Hperm. split_and!; [done|done| | |done|done]; cbn.
  - apply Forall_app. split; [done|]. by repeat constructor.
  - apply Forall_app. split; [by eapply Forall_pending|].
    assert (Hid : m_sessionId c <= lastSessionId s).
    { rewrite Forall_forall in H2. apply (H2 (m_sessionId c)). unfold ids. apply elem_of_app. right.
      rewrite (accept_ids_delete _ _ _ Hi). by left. }
    eapply Forall_impl; [exact Hl2|]. intros [x|j o]; [done|]. lia.
Qed.

Lemma inv_session n id h s : se_preserves (same_session id) h -> server_inv n s ->
  server_inv n (snd (run_session id h s)).
Proof.
  intros Hh Hs. destruct (run_session_cases id h s) as [[_ ->]|(c & r & a & Hf & Ha & ->)]; [done|]. cbn [snd].
  pose proof Hs as (H1 & H2 & H3 & H4 & H5 & H6). apply find_session_In in Hf as [Hin Hid].
  pose proof (proj1 (List.Forall_forall _ _) H3 _ Hin) as Hopen. cbn in Hopen.
  destruct (Hh {| ses := c; env := sv_env s; started := []; disconnected := false |} (conj Hid (fun _ => Hopen))) as [Hi' Ho'].
  rewrite Ha in Hi', Ho'. cbn [snd] in Hi', Ho'. apply inv_fewer; [done| | | |].
  - destruct (disconnected a); [apply erase_sublist | by rewrite replace_ids].
  - destruct (disconnected a) eqn:Ed; [by apply Forall_erase | apply Forall_replace; [by apply Ho'|done]].
  - apply Forall_app. split; [done|]. assert (id <= lastSessionId s).
    { rewrite Forall_forall in H2. apply (H2 id). unfold ids. apply elem_of_app. left.
      rewrite <- Hid. apply list_elem_of_fmap. exists c. split; [done|]. by apply list_elem_of_In. }
    clear -H. induction (started a); by constructor.
  - by rewrite accept_ids_app, accept_ids_ops, app_nil_r.
Qed.

Lemma same_sent id n ec d : se_preserves (same_session id)
  (exec (if ec : bool then se_ret tt else se_modify (consume_sent n)); onSendSocketDataCompleted ec d)%se.
Proof.
  apply preserves_bind; [apply preserves_if; [apply preserves_ret|by apply preserves_modify]|]. intros _.
  unfold onSendSocketDataCompleted. apply preserves_if; [|apply preserves_ret].
  intros a Ha. unfold disconnect. destruct (m_open (ses a)); [|exact Ha]. destruct Ha as [Hi _]. by split.
Qed.

Lemma inv_step n e s : 0 <= n -> server_inv (n + 1) s -> server_inv n (snd (server_step e s)).
Proof.
  intros Hn Hs. destruct e as [i c|]; cbn [ApiProps.server_step].
  2: { unfold stop, se_modify. cbn. apply inv_weaken. destruct (m_running s); [|done].
       pose proof Hs as (H1 & H2 & H3 & H4 & H5 & H6). by apply (inv_fewer _ s [] (sv_pending s) (sv_env s) Hs); [apply sublist_nil_l|constructor| |]. }
  unfold ApiServer.complete_nth. destruct (sv_pending s !! i) as [p|] eqn:Ei; [|by apply inv_weaken].
  destruct p as [session|id [|t d]]; cbn [complete].
  - unfold handle_accept. destruct (c_error c); [apply inv_begin; [done|]; exact (inv_delete _ _ i Hs)|].
    destruct (c_peer_gone c); cbn [snd].
    + apply inv_weaken. pose proof (inv_accepted _ _ _ _ [] Hs Ei (or_introl eq_refl)) as H.
      by rewrite app_nil_r in H.
    + apply inv_begin; [done|]. exact (inv_accepted _ _ _ _ _ Hs Ei (or_intror eq_refl)).
  - apply inv_session; [intros a; apply same_received|]. by apply inv_delete, inv_weaken.
  - apply inv_session; [apply same_sent|]. by apply inv_delete, inv_weaken.
Qed.

Lemma inv_run n l s : 0 <= n -> server_inv (n + Z.of_nat (length l)) s -> server_inv n (snd (run_server l s)).
Proof.
  intros Hn. revert s. induction l as [|e l IH]; intros s Hs; cbn [ApiProps.run_server length] in *.
  - replace (n + Z.of_nat 0) with n in Hs by lia. done.
  - unfold se_bind. assert (H1 : server_inv (n + Z.of_nat (length l)) (snd (server_step e s))).
    { apply inv_step; [lia|]. by replace (n + Z.of_nat (length l) + 1) with (n + Z.of_nat (S (length l))) by lia. }
    destruct (server_step e s) as [[[]|x] s1]; cbn [snd] in *; [by apply IH|].
    destruct H1 as (H1 & H2 & H3 & H4 & H5 & H6). split_and!; (done || lia).
Qed.

(** C24: The session table is sound: in every state a server gets into with fewer than 2^31 - 2
    network events, the ids of the sessions and of the one being accepted are distinct, positive and
    not above the last one given out, and the sessions in the table are those whose socket is open -
    so the handler of a disconnection, which looks a session up by its id, removes that one. *)
Theorem session_table (address password : string) (portnum : Z) (w : World) (bound : bool)
    (l : list server_event) : Z.of_nat (length l) < 2 ^ 31 - 2 ->
  let s := snd (run_server l (start bound (ApiServer_new address portnum password w))) in
  NoDup (ids s) /\ Forall (fun i => 0 < i <= lastSessionId s) (ids s) /\
  Forall (fun c => m_open c = true) (m_sessions s) /\
  forall id, find_session id (erase_session id (m_sessions s)) = None /\
    forall i, i <> id -> find_session i (erase_session id (m_sessions s)) = find_session i (m_sessions s).
Proof.
  intros Hl s. assert (Hs : server_inv 0 s).
  { apply inv_run; [done|]. assert (Hn : server_inv (Z.of_nat (length l) + 1) (ApiServer_new address portnum password w)).
    { split_and!; cbn; try constructor; lia. }
    assert (Hr : server_inv (Z.of_nat (length l) + 1) (with_running true (ApiServer_new address portnum password w))) by exact Hn.
    unfold start. destruct (_ =? 0); [by apply inv_weaken|]. destruct bound; [|by apply inv_weaken].
    rewrite Z.add_0_l. by apply inv_begin; [lia|]. }
  destruct Hs as (H1 & H2 & H3 & _). split_and!; [done..|]. intros id. split; [|intros; by apply erase_other].
  apply find_gone, erase_gone. unfold ids in H1. by apply NoDup_app in H1 as [H1 _].
Qed.

(** ** Operations that outlive their session *)

Lemma destroyed_handler id h s : find_session id (m_sessions s) = None ->
  run_session id h s = (Throw (UndefinedBehaviour "handler of a destroyed session"), s).
Proof. intros Hf. unfold run_session. by rewrite Hf. Qed.

Lemma destroyed_op j id o d s : sv_pending s !! j = Some (POp id o) -> find_session id (m_sessions s) = None ->
  fst (complete_nth j d s) = Throw (UndefinedBehaviour "handler of a destroyed session").
Proof. intros Hj Hf. unfold ApiServer.complete_nth. rewrite Hj. destruct o; cbn [complete]; by rewrite destroyed_handler. Qed.

(** C25: Operations outlive their session: when a read ends with an error - the client has closed
    the connection - its session is destroyed although other operations of it, such as the writing
    of a response, may be under way, and stopping the server destroys all sessions although each
    waits for a read; the completion of any such operation runs on a destroyed object. *)
Theorem operations_outlive_sessions (s : ApiServer) (id : Z) (c : ApiConnection) (i : nat) (eof : completion) :
  find_session id (m_sessions s) = Some c -> m_open c = true -> NoDup (m_sessionId <$> m_sessions s) ->
  m_running s = true -> sv_pending s !! i = Some (POp id ORead) -> c_error eof = true ->
  let '(r, s1) := complete_nth i eof s in
  r = Ok tt /\ find_session id (m_sessions s1) = None /\ sv_pending s1 = delete i (sv_pending s) /\
  (forall j o d, sv_pending s1 !! j = Some (POp id o) ->
     fst (complete_nth j d s1) = Throw (UndefinedBehaviour "handler of a destroyed session")) /\
  (forall j id' o d, sv_pending (stop s) !! j = Some (POp id' o) ->
     fst (complete_nth j d (stop s)) = Throw (UndefinedBehaviour "handler of a destroyed session")).
Proof.
  intros Hf Ho Hnd Hrun Hi He. unfold ApiServer.complete_nth at 1. rewrite Hi. cbn [complete].
  unfold run_session. cbn [m_sessions with_sessions]. rewrite Hf. unfold onRecvSocketDataCompleted.
  rewrite He. cbn [negb andb]. unfold disconnect. cbn [ses]. rewrite Ho.
  cbn [disconnected set_disconnected put_open put_ses started env fmap list_fmap].
  assert (Hgone : find_session id (erase_session id (m_sessions s)) = None) by by apply find_gone, erase_gone.
  split_and!; [done | done | by cbn; rewrite app_nil_r | |].
  - intros j o d Hj. by eapply destroyed_op.
  - intros j id' o d Hj. eapply destroyed_op; [exact Hj|]. unfold stop. by rewrite Hrun.
Qed.

(** ** Short transmissions *)

(** Nothing is under way for a session. *)
Definition no_op (id : Z) (l : list pending) : Prop :=
  Forall (fun p => match p with PAccept _ => True | POp i _ => i <> id end) l.
Definition stalled (id : Z) (c : ApiConnection) (n : Z) (s : ApiServer) : Prop :=
  server_inv n s /\ find_session id (m_sessions s) = Some c /\ no_op id (sv_pending s).

Lemma find_app id l c : find_session id (l ++ [c]) =
  match find_session id l with Some d => Some d | None => if has_id id c then Some c else None end.
Proof. induction l as [|d l IH]; [done|]. cbn. by destruct (has_id id d). Qed.

Lemma begin_accept_keeps id s : no_op id (sv_pending s) ->
  m_sessions (begin_accept s) = m_sessions s /\ no_op id (sv_pending (begin_accept s)).
Proof.
  intros H. unfold begin_accept. destruct (m_running s); [|done]. split; [done|].
  apply Forall_app. split; [done|]. by constructor.
Qed.

Lemma other_session id' id c n h s : id' <> id -> se_preserves (same_session id') h -> server_inv n s ->
  find_session id (m_sessions s) = Some c -> no_op id (sv_pending s) ->
  find_session id (m_sessions (snd (run_session id' h s))) = Some c /\ no_op id (sv_pending (snd (run_session id' h s))).
Proof.
  intros Hne Hh Hs Hf Hp. destruct (run_session_cases id' h s) as [[_ ->]|(c' & r & a & Hf' & Ha & ->)]; [done|]. cbn.
  destruct Hs as (_ & _ & H3 & _). apply find_session_In in Hf' as [Hin Hid].
  pose proof (proj1 (List.Forall_forall _ _) H3 _ Hin) as Hopen. cbn in Hopen.
  destruct (Hh {| ses := c'; env := sv_env s; started := []; disconnected := false |} (conj Hid (fun _ => Hopen))) as [Hi' _].
  rewrite Ha in Hi'. cbn [snd] in Hi'. split.
  - destruct (disconnected a); [by rewrite erase_other by done | by rewrite replace_other by done].
  - apply Forall_app. split; [done|]. clear -Hne. induction (started a); by constructor.
Qed.

Lemma stalled_step id c n e s : 0 <= n -> e <> EStop -> stalled id c (n + 1) s ->
  stalled id c n (snd (server_step e s)).
Proof.
  intros Hn He (Hs & Hf & Hp). split; [by apply inv_step|].
  destruct e as [i d|]; [|done]. cbn [ApiProps.server_step]. unfold ApiServer.complete_nth.
  destruct (sv_pending s !! i) as [p|] eqn:Ei; [|done].
  assert (Hd : no_op id (delete i (sv_pending s))) by by apply Forall_delete_any.
  pose proof (Forall_lookup_1 _ _ _ _ Hp Ei) as Hpi. cbn in Hpi.
  destruct p as [session|id' [|t b]]; cbn [complete].
  - unfold handle_accept.
    destruct (c_error d).
    { cbn [snd]. match goal with |- context [begin_accept ?x] => by destruct (begin_accept_keeps id x Hd) as [-> ?] end. }
    assert (Hfound : find_session id (m_sessions s ++ [session]) = Some c) by by rewrite find_app, Hf.
    destruct (c_peer_gone d); [done|].
    match goal with |- context [begin_accept ?x] => destruct (begin_accept_keeps id x) as [Hk ?] end; [|by cbn [snd]; rewrite Hk].
    apply Forall_app. split; [done|]. constructor; [|constructor].
    destruct Hs as (H1 & _). unfold ids in H1. intros E. apply find_session_In in Hf as [Hin Hid].
    apply NoDup_app in H1 as (_ & H1 & _). apply (H1 id).
    + rewrite <- Hid. apply list_elem_of_fmap. exists c. split; [done|]. by apply list_elem_of_In.
    + rewrite (accept_ids_delete _ _ _ Ei), <- E. by left.
  - eapply other_session; [done|intros a; apply same_received|by apply inv_delete|done|done].
  - eapply other_session; [done|apply same_sent|by apply inv_delete|done|done].
Qed.

Lemma stalled_run id c l : Forall (fun e => e <> EStop) l -> forall n s, 0 <= n ->
  stalled id c (n + Z.of_nat (length l)) s -> stalled id c n (snd (run_server l s)).
Proof.
  induction 1 as [|e l He Hl IH]; intros n s Hn Hs; cbn [ApiProps.run_server length] in *.
  - by replace (n + Z.of_nat 0) with n in Hs by lia.
  - unfold se_bind. assert (H1 : stalled id c (n + Z.of_nat (length l)) (snd (server_step e s))).
    { apply stalled_step; [lia|done|].
      by replace (n + Z.of_nat (length l) + 1) with (n + Z.of_nat (S (length l))) by lia. }
    destruct (server_step e s) as [[[]|x] s1]; cbn [snd] in *; [by apply IH|].
    destruct H1 as ((H1 & H2 & H3 & H4 & H5 & H6) & Hf & Hp). split_and!; (done || lia || split_and!; (done || lia)).
Qed.

(** A short transmission stalls its session: when fewer than four bytes have been received the
    handler returns to "wait for other data to come in" without starting a read; no operation of the
    session is left, and whatever happens on the server until it is stopped, the session stays as it
    is, with these bytes in its buffer. *)
Theorem short_transmission_stalls (s : ApiServer) (id : Z) (c : ApiConnection) (i : nat) (d : completion)
    (l : list server_event) :
  server_inv (Z.of_nat (length l)) s -> find_session id (m_sessions s) = Some c ->
  sv_pending s !! i = Some (POp id ORead) ->
  no_op id (delete i (sv_pending s)) ->
  c_error d = false -> c_data d <> "" -> size (m_message c +:+ c_data d) < 4 ->
  Forall (fun e => e <> EStop) l ->
  let '(r, s1) := complete_nth i d s in
  r = Ok tt /\ sv_pending s1 = delete i (sv_pending s) /\
  exists c', find_session id (m_sessions (snd (run_server l s1))) = Some c' /\
    m_message c' = m_message c +:+ c_data d /\ m_open c' = true.
Proof.
  intros Hs Hf Hi Hp He Hd Hsize Hl. unfold ApiServer.complete_nth. rewrite Hi. cbn [complete].
  set (s0 := with_sessions _ _ (delete i _) _ s).
  set (c' := ses (put_message (m_message c +:+ c_data d) {| ses := c; env := sv_env s; started := []; disconnected := false |})).
  assert (Hlen : 0 < size (c_data d)) by (unfold size; destruct (c_data d); [done|cbn; lia]).
  assert (Hrun : run_session id (received (c_now d) (c_rnd d) (c_error d) (c_data d)) s0 =
    (Ok tt, with_sessions (lastSessionId s) (replace_session id c' (m_sessions s)) (delete i (sv_pending s)) (sv_env s) s)).
  { unfold run_session. cbn [s0 m_sessions with_sessions]. rewrite Hf. unfold onRecvSocketDataCompleted.
    rewrite He. apply Z.ltb_lt in Hlen as ->. cbn [negb andb ses]. cbn zeta. cbn [m_message ses put_message put_ses].
    apply Z.ltb_lt in Hsize as ->. cbn. by rewrite app_nil_r. }
  assert (Hc' : find_session id (replace_session id c' (m_sessions s)) = Some c').
  { clear -Hf. induction (m_sessions s) as [|x xs IH]; [done|]. cbn in *. destruct (has_id id x) eqn:E; cbn.
    - injection Hf as ->. unfold has_id in *. cbn. by rewrite E.
    - rewrite E. by apply IH. }
  assert (Hi1 : server_inv (Z.of_nat (length l)) (with_sessions (lastSessionId s)
    (replace_session id c' (m_sessions s)) (delete i (sv_pending s)) (sv_env s) s)).
  { pose proof (inv_session (Z.of_nat (length l)) id (received (c_now d) (c_rnd d) (c_error d) (c_data d)) s0) as H.
    rewrite Hrun in H. apply H; [intros a; apply same_received | by apply inv_delete]. }
  rewrite Hrun. split_and!; [done|done|].
  destruct (stalled_run id c' l Hl 0 _ ltac:(done) (conj Hi1 (conj Hc' Hp))) as (Hi2 & Hf2 & _).
  exists c'. split_and!; [done|done|]. destruct Hi2 as (_ & _ & H3 & _). apply find_session_In in Hf2 as [Hin _].
  by apply (proj1 (List.Forall_forall _ _) H3).
Qed.
End sessions.

(** ** Witnesses *)

#[local] Existing Instance JsonModel.json.
#[local] Existing Instance BoostModel.boost.
#[local] Existing Instance BigIntegerModel.instance.

Definition received_text (t : string) : completion := {| c_error := false; c_peer_gone := false; c_data := t; c_now := 0; c_rnd := 0 |}.
Definition connection_closed : completion := {| c_error := true; c_peer_gone := false; c_data := ""; c_now := 0; c_rnd := 0 |}.

(** A server with one session; then its read, and the accept of the next session, are under way. *)
Definition example_server : ApiServer :=
  snd (run_server "coreminer" None String.eqb false (fun _ => "") [EComplete 0 (received_text "")]
    (start true (ApiServer_new "0.0.0.0" 3333 "" example_world))).

Lemma session_table_witness : Z.of_nat (length [EComplete 0 (received_text ""); EComplete 0 connection_closed]) < 2 ^ 31 - 2 /\
  NoDup (ids (snd (run_server "coreminer" None String.eqb false (fun _ => "")
    [EComplete 0 (received_text ""); EComplete 0 connection_closed]
    (start true (ApiServer_new "0.0.0.0" 3333 "" example_world))))).
Proof.
  split; [done|]. destruct (session_table "coreminer" None String.eqb false (fun _ => "") "0.0.0.0" "" 3333 example_world
    true [EComplete 0 (received_text ""); EComplete 0 connection_closed]) as [H _]; [done|exact H].
Defined.

Lemma example_server_pending : sv_pending example_server = [POp 1 ORead; PAccept (ApiConnection_new 2 false "")].
Proof. vm_compute. reflexivity. Qed.
Lemma example_server_sessions : m_sessions example_server = [ApiConnection_new 1 false ""].
Proof. vm_compute. reflexivity. Qed.
Lemma example_server_running : m_running example_server = true.
Proof. vm_compute. reflexivity. Qed.
Lemma example_server_last : lastSessionId example_server = 2.
Proof. vm_compute. reflexivity. Qed.

(** The same server after a request: a response is being written, and the next read is under way. *)
Definition example_writing : ApiServer :=
  snd (run_server "coreminer" None String.eqb false (fun _ => "") [EComplete 0 (received_text example_shuffle)] example_server).
Definition example_answer_text : string :=
  json_write (JsonModel.JObj [("id", JsonModel.JInt 7); ("jsonrpc", JsonModel.JStr "2.0"); ("result", JsonModel.JBool true)]
    : @J JsonModel.json) +:+ LF.

Lemma example_writing_pending : sv_pending example_writing =
  [PAccept (ApiConnection_new 2 false ""); POp 1 (OWrite example_answer_text false); POp 1 ORead].
Proof. vm_compute. reflexivity. Qed.
Definition example_writer : ApiConnection := {|
  m_sessionId := 1; m_readonly := false; m_password := ""; m_is_authenticated := true; m_message := "";
  m_sendBuffer := example_answer_text; m_open := true |}.
Lemma example_writing_sessions : m_sessions example_writing = [example_writer].
Proof. vm_compute. reflexivity. Qed.
Lemma example_writing_running : m_running example_writing = true.
Proof. vm_compute. reflexivity. Qed.

(** The client closes the connection while the response is being written. *)
Lemma operations_outlive_sessions_witness :
  let s1 := snd (complete_nth "coreminer" None String.eqb false (fun _ => "") 2 connection_closed example_writing) in
  sv_pending s1 !! 1%nat = Some (POp 1 (OWrite example_answer_text false)) /\
  fst (complete_nth "coreminer" None String.eqb false (fun _ => "") 1 (received_text "") s1) =
    Throw (UndefinedBehaviour "handler of a destroyed session").
Proof.
  pose proof (operations_outlive_sessions "coreminer" None String.eqb false (fun _ => "") example_writing 1
    example_writer 2 connection_closed) as H.
  rewrite example_writing_sessions, example_writing_pending in H.
  specialize (H eq_refl eq_refl (NoDup_singleton _) example_writing_running eq_refl eq_refl).
  destruct (complete_nth _ _ _ _ _ 2 connection_closed example_writing) as [r s1].
  destruct H as (_ & _ & Hp & Hd & _). cbn [snd]. rewrite Hp. split; [done|].
  apply (Hd 1%nat (OWrite example_answer_text false)). by rewrite Hp.
Defined.

Lemma short_transmission_stalls_witness :
  sv_pending (snd (complete_nth "coreminer" None String.eqb false (fun _ => "") 0 (received_text "{") example_server)) =
    [PAccept (ApiConnection_new 2 false "")].
Proof.
  pose proof (short_transmission_stalls "coreminer" None String.eqb false (fun _ => "") example_server 1
    (ApiConnection_new 1 false "") 0 (received_text "{") []) as H.
  unfold server_inv, ids in H.
  rewrite example_server_sessions, example_server_pending, example_server_last in H.
  destruct (complete_nth _ _ _ _ _ 0 (received_text "{") example_server) as [r s1].
  destruct H as (_ & H & _); [|done|done|repeat constructor|done|done|done|constructor|exact H].
  cbn. split_and!; [by_evaluation..| |done|done].
  constructor; [by_evaluation|]. constructor; [done|constructor].
Defined.
