(* ===== verification/ApiMethods.v ===== *)
(** * What the methods of the API do

    The effect of a valid request on the farm: pausing one miner, setting the nonce scrambler; and
    how the segments the statistics report relate to those the miners search. *)

From S2P Require Import Prelude CppString Lines CommonData FixedHash Worker Float.
From S2P Require Import Types Miner CpuMiner Farm Regex PoolURI Json PoolManager ApiStat ApiServer ApiProps.

Section methods.
Context {Jsn : Json} {Big : BigInteger} {Bst : BoostUri}.
Context (project_name : string) (host_name : option string).
Context (iequals : string -> string -> bool) (reboot : bool).
#[local] Notation process := (processRequest project_name host_name iequals reboot).

(** ** Valid requests *)

Definition member (q : J) (k : string) (v : J) : Prop := jhas q k = Ok true /\ jget q k = Ok v.
Definition text_member (q : J) (k t : string) : Prop := exists v, member q k v /\ view v = VString t.
Definition uint_member (q : J) (k : string) (z : Z) : Prop :=
  exists v, member q k v /\ view v = VInt z /\ 0 <= z < 2 ^ 32.
Definition bool_member (q : J) (k : string) (b : bool) : Prop := exists v, member q k v /\ view v = VBool b.

Definition valid_request (q id : J) (m : string) (p : J) : Prop :=
  request_id q = Some id /\ text_member q "jsonrpc" "2.0" /\ text_member q "method" m /\
  member q "params" p /\ view p = VObject /\ jempty p = false.

Lemma read_text q k t d o r : text_member q k t -> getRequestString k d q o r = Ok (inl t).
Proof.
  intros (v & (Hh & Hg) & Hv). unfold getRequestString, getRequestValue. rewrite Hh. cbn [res_bind negb].
  rewrite Hg. cbn [res_bind]. unfold isString, jempty, asString. rewrite Hv. done.
Qed.
Lemma read_uint q k z d o r : uint_member q k z -> getRequestUnsigned k d q o r = Ok (inl z).
Proof.
  intros (v & (Hh & Hg) & Hv & H0 & H1). unfold getRequestUnsigned, getRequestValue. rewrite Hh. cbn [res_bind negb].
  rewrite Hg. cbn [res_bind]. unfold isUInt, jempty, asUInt. rewrite Hv.
  apply Z.leb_le in H0 as ->. by apply Z.ltb_lt in H1 as ->.
Qed.
Lemma read_bool q k b d o r : bool_member q k b -> getRequestBool k d q o r = Ok (inl b).
Proof.
  intros (v & (Hh & Hg) & Hv). unfold getRequestBool, getRequestValue. rewrite Hh. cbn [res_bind negb].
  rewrite Hg. cbn [res_bind]. unfold isBool, jempty, asBool. by rewrite Hv.
Qed.
Lemma run_params q p k r a : member q "params" p -> view p = VObject -> jempty p = false ->
  with_params q r k a = k p a.
Proof.
  intros (Hh & Hg) Hv He. unfold with_params, with_value. rewrite run_lift.
  unfold getRequestObject, getRequestValue. rewrite Hh. cbn [res_bind negb]. rewrite Hg. cbn [res_bind].
  unfold isObject. rewrite Hv. cbn [negb]. by rewrite bool_decide_eq_true_2, He by done.
Qed.
Lemma run_value {A} (x : A) (v : res (A + J)) k a : v = Ok (inl x) -> with_value v k a = k x a.
Proof. intros ->. done. Qed.
Lemma run_write r k a : m_readonly (ses a) = false -> with_write_access r k a = k a.
Proof. intros Ha. unfold with_write_access, gets, se_bind. by rewrite Ha. Qed.

Lemma parseRequestId_ok q id r : view r = VObject -> jget r "jsonrpc" = Ok (of_string "2.0") ->
  jhas r "result" = Ok false -> jhas r "error" = Ok false -> request_id q = Some id ->
  exists r', parseRequestId q r = Ok (true, r') /\ fresh id r'.
Proof.
  intros Hv Hj Hr He Hid. destruct (parseRequestId q r) as [[ok r']|e] eqn:E.
  - pose proof (parseRequestId_spec q r ok r' Hv Hj Hr He E) as H. rewrite Hid in H. destruct H as [-> Hf].
    by exists r'.
  - exfalso. revert E Hid. unfold parseRequestId, request_id.
    destruct (jhas q "id") as [[]|]; [|done..]. destruct (jget q "id") as [v|]; [|done]. cbn [res_bind negb orb].
    destruct (jempty v); [done|]. destruct (isUInt v) eqn:Eu.
    + destruct (asUInt 32 v) as [z|]; cbn [res_bind].
      * destruct (with_id r (of_Z z) Hv Hj Hr He) as (r1 & -> & _). done.
      * unfold isUInt in Eu. by destruct (view v).
    + unfold isString, asString. destruct (view v) as [| | | |t| |]; try done. cbn [res_bind].
      by destruct (with_id r (of_string t) Hv Hj Hr He) as (r1 & -> & _).
Qed.

(** A valid request of an authenticated session runs its method. *)
Lemma process_valid now rnd q id m p a : valid_request q id m p -> m <> "api_authorize" ->
  m_is_authenticated (ses a) = true ->
  exists r, fresh id r /\
    process now rnd q jnull a = dispatch project_name host_name iequals reboot now rnd m q r a.
Proof.
  intros (Hid & Hj & Hm & _) Hne Ha. unfold processRequest.
  destruct first_member as (r0 & Hs0 & Hv0 & Hj0 & Hr0 & He0). rewrite !run_lift, Hs0, run_lift.
  destruct (parseRequestId_ok q id r0 Hv0 Hj0 Hr0 He0 Hid) as (r & -> & Hf). cbn [negb]. exists r. split; [done|].
  assert (Hread : read_method q r = Ok (inl m)).
  { unfold read_method. rewrite (read_text _ _ _ _ _ _ Hj). cbn [res_bind]. cbn.
    by rewrite (read_text _ _ _ _ _ _ Hm). }
  rewrite (run_value m) by done. unfold gets, se_bind at 1. rewrite Ha. by apply String.eqb_neq in Hne as ->.
Qed.

Lemma run_answer_true id r a : fresh id r -> exists r', answer_true r a = (Ok r', a) /\ succeeded id r'.
Proof.
  intros Hr. unfold answer_true, answer, se_lift. destruct (answer_succeeded id r (of_bool true) Hr) as (r' & -> & ?).
  by exists r'.
Qed.
Lemma run_refuse id r c t a : fresh id r -> exists r', refuse r c t a = (Ok r', a) /\ failed id r'.
Proof.
  intros Hr. unfold refuse, se_lift. destruct (set_error_failed id false r c t Hr) as (r' & -> & ?). by exists r'.
Qed.

(** A session that may change things. *)
Definition may_write (a : Api) : Prop := m_is_authenticated (ses a) = true /\ m_readonly (ses a) = false.
Definition farm_of (a : Api) : Farm.Farm := pm_farm (pool (env a)).

(** ** Pausing a miner *)

Lemma alter_pause_reasons (b : bool) (m : Miner.Miner) (why : MinerPauseEnum) :
  pauseTest why ((if b then Miner.pause PauseDueToAPIRequest else Miner.resume PauseDueToAPIRequest) m) =
  if bool_decide (why = PauseDueToAPIRequest) then b else pauseTest why m.
Proof.
  destruct b; [rewrite pauseTest_setbit | rewrite pauseTest_clearbit];
    (case_bool_decide as E1; case_bool_decide as E2; subst; done).
Qed.

(** Pausing a miner through the API: the request sets - or clears - exactly one pause reason,
    that of an API request, of exactly the miner with the given index; every other reason, every
    other miner and the rest of the process's state stay as they were; an index without a miner is
    refused and changes nothing. *)
Theorem pause_one_miner (now rnd : Z) (q id p : J) (index : Z) (pause : bool) (a : Api) :
  may_write a -> valid_request q id "miner_pausegpu" p -> uint_member p "index" index ->
  bool_member p "pause" pause ->
  let '(x, a') := process now rnd q jnull a in
  match getMiner index (farm_of a) with
  | None => a' = a /\ exists r, x = Ok r /\ failed id r
  | Some m =>
      (exists r, x = Ok r /\ succeeded id r) /\
      a' = put_env (on_farm (with_miners (m_miners (farm_of a'))) (env a)) a /\
      length (m_miners (farm_of a')) = length (m_miners (farm_of a)) /\
      (forall j, 0 <= j -> j <> index -> getMiner j (farm_of a') = getMiner j (farm_of a)) /\
      exists m', getMiner index (farm_of a') = Some m' /\ thr m' = thr m /\
        forall why, pauseTest why (fm m') =
          if bool_decide (why = PauseDueToAPIRequest) then pause else pauseTest why (fm m)
  end.
Proof.
  intros [Ha Hw] Hq Hi Hp. destruct (process_valid now rnd q id _ p a Hq ltac:(done) Ha) as (r & Hr & ->).
  destruct Hq as (_ & _ & _ & Hm & Hv & He). change (dispatch _ _ _ _ _ _ _ q r) with (miner_pausegpu q r).
  unfold miner_pausegpu. rewrite run_write, (run_params q p) by done.
  rewrite (run_value index) by by apply read_uint. rewrite (run_value pause) by by apply read_bool.
  unfold gets, se_bind at 1. fold (farm_of a). unfold getMiner.
  destruct (m_miners (farm_of a) !! Z.to_nat index) as [m|] eqn:Em.
  - rewrite run_modify. match goal with |- context [answer_true r ?b] => set (a1 := b) end.
    destruct (run_answer_true id r a1 Hr) as (r' & -> & Hr').
    assert (Hf : farm_of a1 = pause_miner index pause (farm_of a)) by done. rewrite Hf. unfold pause_miner. cbn [m_miners with_miners].
    split_and!; [by exists r' | done | by rewrite length_alter | |].
    + intros j Hj Hne. rewrite list_lookup_alter_ne; [done|]. destruct Hi as (v & _ & _ & Hi). lia.
    + rewrite list_lookup_alter_eq, Em. cbn. eexists. split_and!; [done|done|]. intros why. cbn.
      apply alter_pause_reasons.
  - destruct (run_refuse id r (-422) "Index out of bounds" a Hr) as (r' & -> & Hr'). split; [done|]. by exists r'.
Qed.

(** ** The nonce scrambler *)

Lemma clamp_width_range w : 10 <= clamp_width w <= 50.
Proof.
  unfold clamp_width. destruct (Z.ltb_spec w 10); [done|]. destruct (Z.ltb_spec 50 w); lia.
Qed.

(** The nonce scrambler set through the API is the one reported: a request with a start nonce
    in hexadecimal and a segment width sets both, the width brought into the range 10 to 50 - a
    larger one becomes 40 -, and miner_getscramblerinfo then reports this nonce, in the same
    notation, and this width; while the pool has set an extranonce the width is left as it is. *)
Theorem scrambler_roundtrip (now rnd : Z) (q id p : J) (n w : Z) (a : Api) :
  may_write a -> valid_request q id "miner_setscramblerinfo" p -> in_range 64 n ->
  text_member p "noncescrambler" (toHex_uint64 n Add 16) -> uint_member p "segmentwidth" w ->
  let '(x, a') := process now rnd q jnull a in
  let width := if exSizeBytes (m_currentWp (farm_of a)) =? 0 then clamp_width w
               else m_nonce_segment_with (farm_of a) in
  (exists r, x = Ok r /\ succeeded id r) /\
  10 <= clamp_width w <= 50 /\ (10 <= w <= 50 -> clamp_width w = w) /\ (50 < w -> clamp_width w = 40) /\
  m_nonce_scrambler (farm_of a') = n /\ m_nonce_segment_with (farm_of a') = width /\
  m_miners (farm_of a') = m_miners (farm_of a) /\
  exists j, get_nonce_scrambler_json (farm_of a') = Ok j /\
    jget j "start_nonce" = Ok (of_string (toHex_uint64 n Add 16)) /\ jget j "device_width" = Ok (of_Z width).
Proof.
  intros [Ha Hw] Hq Hn Ht Hs. destruct (process_valid now rnd q id _ p a Hq ltac:(done) Ha) as (r & Hr & ->).
  destruct Hq as (_ & _ & _ & Hm & Hv & He). change (dispatch _ _ _ _ _ _ _ q r) with (miner_setscramblerinfo q r).
  unfold miner_setscramblerinfo. rewrite run_write, (run_params q p) by done.
  unfold gets, se_bind at 1. fold (farm_of a). rewrite run_lift.
  destruct Ht as (v & [Hth Htg] & Htv). rewrite Hth. rewrite (run_value n).
  2: { unfold scrambler_param. rewrite Htg. cbn [res_bind]. unfold asString. rewrite Htv. cbn [res_bind].
       change (String.eqb (stake 2 (toHex_uint64 n Add 16)) "0x") with true. cbn [catch_std res_bind].
       by rewrite (proj1 (CommonData.stoul_toHex_uint64 n Add Hn)). }
  rewrite run_lift. pose proof Hs as (u & [Hsh _] & _). rewrite Hsh. rewrite (run_value w) by by apply read_uint.
  cbn [orb negb]. rewrite run_modify. match goal with |- context [answer_true r ?b] => set (a1 := b) end.
  destruct (run_answer_true id r a1 Hr) as (r' & -> & Hr').
  assert (Hf : farm_of a1 = set_nonce_segment_width (clamp_width w) (set_nonce_scrambler n (farm_of a))) by done.
  rewrite Hf. unfold set_nonce_segment_width. cbn [m_currentWp set_nonce_scrambler].
  split_and!; [by exists r' | apply clamp_width_range.. | | | | | |].
  - intros ?. unfold clamp_width. destruct (Z.ltb_spec w 10); [lia|]. by destruct (Z.ltb_spec 50 w); [lia|].
  - intros ?. unfold clamp_width. destruct (Z.ltb_spec w 10); [lia|]. by destruct (Z.ltb_spec 50 w); [|lia].
  - by destruct (_ =? 0).
  - by destruct (_ =? 0).
  - by destruct (_ =? 0).
  - unfold get_nonce_scrambler_json. match goal with |- context [jobject jnull ?l] =>
      destruct (jobject_spec l jnull (or_introl view_null)) as (j & -> & _ & Hg & _) end.
    exists j. split; [done|]. rewrite !Hg. cbn. by destruct (_ =? 0).
Qed.
End methods.

(** ** The reported segments *)

Section segments.
Context {Eth : Ethash}.

Lemma setWork_scrambler rnd wp f f' : setWork rnd wp f = Ok f' ->
  m_nonce_scrambler f' =
    if (ergodicity (m_Settings f) =? 2) && (exSizeBytes wp =? 0) then u64 rnd else m_nonce_scrambler f.
Proof.
  unfold setWork. set (f1 := if epoch (m_currentWp f) =? epoch wp then f else _).
  assert (H1 : m_Settings f1 = m_Settings f /\ m_nonce_scrambler f1 = m_nonce_scrambler f)
    by (subst f1; destruct (epoch (m_currentWp f) =? epoch wp); done).
  clearbody f1. destruct H1 as [H1 H2]. cbn [m_Settings with_work m_currentWp].
  rewrite H1. set (f2 := if _ && _ then _ else _).
  assert (Hf2 : m_nonce_scrambler f2 =
    if (ergodicity (m_Settings f) =? 2) && (exSizeBytes wp =? 0) then u64 rnd else m_nonce_scrambler f)
    by (subst f2; destruct (_ && _); cbn; congruence).
  clearbody f2. destruct (0 <? exSizeBytes (m_currentWp f2)); cbn [res_bind].
  - destruct (segment_width _ _) as [w|]; cbn [res_bind]; [|done].
    destruct (assign_work _ _ _ _ _) as [[wp' l]|]; cbn [res_bind]; [|done]. by intros [= <-].
  - destruct (assign_work _ _ _ _ _) as [[wp' l]|]; cbn [res_bind]; [|done]. by intros [= <-].
Qed.

Lemma segment_of_start f i : 0 <= m_nonce_segment_with f < 64 ->
  segment_of f (Z.of_nat i) =
    Ok (segment_start (m_nonce_scrambler f) (m_nonce_segment_with f) i,
        u64 (segment_start (m_nonce_scrambler f) (m_nonce_segment_with f) i + 2 ^ m_nonce_segment_with f)).
Proof.
  intros Hw. unfold segment_of, shl64. destruct (Z.ltb_spec (m_nonce_segment_with f) 64); [|lia]. cbn [res_bind].
  rewrite !Z.shiftl_mul_pow2 by lia. unfold segment_start. cbv zeta.
  by rewrite Z.mul_1_l, (wrap_add_r 64 (u64 (_ + _)) (2 ^ _)).
Qed.

(** C26: The nonce segments the statistics report: right after new work was handed out without an
    extranonce, the segment reported for a miner that is not paused is the one it searches.  The
    report always counts from the farm's nonce scrambler and width of the moment, the miner from the
    start it was given: so with an extranonce of the pool, and as soon as the scrambler or the width
    is changed - by a shuffle or through the API - until the next work, the report is off, by the
    difference between the scrambler and that start. *)
Theorem reported_segments (rnd : Z) (wp : WorkPackage) (f : Farm.Farm) (w : Z) :
  0 <= exSizeBytes wp -> Z.of_nat (length (m_miners f)) < 2 ^ 32 ->
  (if 0 <? exSizeBytes wp
   then segment_width (64 - exSizeBytes wp * 4) (Z.of_nat (length (m_miners f))) = Ok w
   else w = m_nonce_segment_with f) ->
  0 <= w < 64 ->
  exists f', setWork rnd wp f = Ok f' /\
    let origin := if exSizeBytes wp =? 0 then m_nonce_scrambler f' else startNonce wp in
    forall i x, m_miners f' !! i = Some x -> Miner.paused (fm x) = false ->
    let actual := startNonce (m_work (fm x)) in
    actual = u64 (origin + Z.of_nat i * 2 ^ w) /\
    (exSizeBytes wp = 0 -> segment_of f' (Z.of_nat i) = Ok (actual, u64 (actual + 2 ^ w))) /\
    (forall n v, 0 <= v < 64 ->
       segment_of (with_segment v (set_nonce_scrambler n f')) (Z.of_nat i) =
         Ok (u64 (n + Z.of_nat i * 2 ^ v), u64 (n + Z.of_nat i * 2 ^ v + 2 ^ v))) /\
    (forall n, segment_of (set_nonce_scrambler n f') (Z.of_nat i) =
       Ok (u64 (actual + (n - origin)), u64 (actual + (n - origin) + 2 ^ w))).
Proof.
  intros He Hlen Hw Hw'. destruct (setWork_spec rnd wp f w He Hlen Hw Hw') as (f' & Hs & Hseg & _ & Hm).
  exists f'. split; [done|]. intros origin i x Hx Hp actual. destruct (Hm i x Hx) as (x0 & m0 & _ & Hfl & Hfm).
  assert (Ho : work_origin rnd wp f = origin).
  { unfold work_origin, origin. rewrite (setWork_scrambler _ _ _ _ Hs).
    destruct (Z.eqb_spec (exSizeBytes wp) 0) as [E|E]; [rewrite E; cbn; by rewrite andb_true_r|].
    by destruct (Z.ltb_spec 0 (exSizeBytes wp)); [|lia]. }
  assert (Ha : actual = u64 (origin + Z.of_nat i * 2 ^ w)).
  { unfold actual. rewrite Hfm in Hp |- *. rewrite Ho. unfold Miner.setWork in *.
    destruct (Miner.paused m0) eqn:E; [unfold Miner.paused in *; cbn in Hp; congruence|].
    cbn. unfold segment_start. by rewrite wrap_add_r. }
  assert (Hg : forall g v, m_nonce_segment_with g = v -> 0 <= v < 64 ->
    segment_of g (Z.of_nat i) = Ok (u64 (m_nonce_scrambler g + Z.of_nat i * 2 ^ v),
                                    u64 (m_nonce_scrambler g + Z.of_nat i * 2 ^ v + 2 ^ v))).
  { intros g v <- Hv. rewrite segment_of_start by done. unfold segment_start.
    by rewrite wrap_add_r, wrap_add_l. }
  split_and!; [done| | |].
  - intros E. rewrite (Hg f' w) by done. rewrite Ha, wrap_add_l. unfold origin. by rewrite E.
  - intros n v Hv. by rewrite (Hg _ v).
  - intros n. rewrite (Hg _ w) by done. cbn [m_nonce_scrambler set_nonce_scrambler]. rewrite Ha.
    set (k := Z.of_nat i * 2 ^ w).
    replace (u64 (origin + k) + (n - origin) + 2 ^ w) with (u64 (origin + k) + (n - origin + 2 ^ w)) by lia.
    rewrite !wrap_add_l. replace (origin + k + (n - origin)) with (n + k) by lia.
    by replace (origin + k + (n - origin + 2 ^ w)) with (n + k + 2 ^ w) by lia.
Qed.
End segments.

(** ** Witnesses *)

#[local] Existing Instance JsonModel.json.
#[local] Existing Instance BoostModel.boost.
#[local] Existing Instance BigIntegerModel.instance.
#[local] Existing Instance zero_ethash.

Definition pause_params : list (string * JsonModel.jv) := [("index", JsonModel.JInt 1); ("pause", JsonModel.JBool true)].

Lemma example_valid m p : p <> [] -> valid_request (example_request m p) (JsonModel.JInt 7 : J) m (JsonModel.JObj p : J).
Proof.
  intros Hp. split_and!; [reflexivity | by eexists | by eexists | done | done |]. by destruct p.
Qed.

Lemma pause_one_miner_witness :
  uint_member (JsonModel.JObj pause_params : J) "index" 1 /\
  length (m_miners (farm_of (snd (processRequest "coreminer" None String.eqb false 0 0
    (example_request "miner_pausegpu" pause_params) jnull (example_session false ""))))) = 3%nat.
Proof.
  assert (Hi : uint_member (JsonModel.JObj pause_params : J) "index" 1) by (eexists; split_and!; done).
  split; [exact Hi|].
  pose proof (pause_one_miner "coreminer" None String.eqb false 0 0 (example_request "miner_pausegpu" pause_params)
    (JsonModel.JInt 7) (JsonModel.JObj pause_params) 1 true (example_session false "") (conj eq_refl eq_refl)
    (example_valid _ pause_params ltac:(done)) Hi ltac:(by eexists)) as H.
  destruct (processRequest _ _ _ _ _ _ _ _ _) as [x a'].
  destruct (getMiner 1 (farm_of (example_session false ""))) as [m|] eqn:E; [|vm_compute in E; discriminate E].
  by destruct H as (_ & _ & H & _).
Defined.

Definition scrambler_params : list (string * JsonModel.jv) :=
  [("noncescrambler", JsonModel.JStr (toHex_uint64 171 Add 16)); ("segmentwidth", JsonModel.JInt 60)].

Lemma scrambler_roundtrip_witness :
  m_nonce_segment_with (farm_of (snd (processRequest "coreminer" None String.eqb false 0 0
    (example_request "miner_setscramblerinfo" scrambler_params) jnull (example_session false "")))) = 40.
Proof.
  pose proof (scrambler_roundtrip "coreminer" None String.eqb false 0 0
    (example_request "miner_setscramblerinfo" scrambler_params) (JsonModel.JInt 7) (JsonModel.JObj scrambler_params)
    171 60 (example_session false "") (conj eq_refl eq_refl)
    (example_valid _ scrambler_params ltac:(done)) ltac:(done) ltac:(by eexists) ltac:(by eexists)) as H.
  destruct (processRequest _ _ _ _ _ _ _ _ _) as [x a']. by destruct H as (_ & _ & _ & _ & _ & H & _).
Defined.

(** The second miner's segment, before and after a shuffle. *)
Lemma reported_segments_witness : exists f' x, setWork 0 WorkPackage_default example_farm = Ok f' /\
  m_miners f' !! 1%nat = Some x /\
  segment_of f' 1 = Ok (startNonce (m_work (fm x)), u64 (startNonce (m_work (fm x)) + 2 ^ 32)) /\
  segment_of (shuffle 5 f') 1 = Ok (5 + 2 ^ 32, 5 + 2 ^ 32 + 2 ^ 32).
Proof.
  destruct (reported_segments 0 WorkPackage_default example_farm 32)
    as (f' & H & Hseg); [done|vm_compute; done|vm_compute; done|done|].
  assert (E : match setWork 0 WorkPackage_default example_farm with Ok g => Some g | Throw _ => None end = Some f')
    by by rewrite H.
  vm_compute in E. injection E as <-. destruct (Hseg 1%nat _ eq_refl eq_refl) as (_ & H0 & H1 & _).
  eexists _, _. split; [exact H|]. split; [reflexivity|]. split; [exact (H0 eq_refl)|].
  exact (H1 5 32 ltac:(lia)).
Defined.
