(* ===== verification/Cli.v ===== *)
(** * coreminer/main.cpp: the command line and the main loop

    [MinerCLI] and [main] of src/coreminer/main.cpp: the binding of the API, the checks of the
    arguments, the choice of the devices, the start of farm, pool manager and API server, the
    display timer, the wait for a signal and the exit codes.  [app.parse] is CLI11, a library: its
    outcome is an argument of [validateArgs] (what the program declares to it is in CliOptions, the
    help texts are in CliHelp; the io thread, the display timer, the Windows console and D-Bus are in
    Process).  The banner is pure output. *)

From S2P Require Import Prelude CppString Lines CommonData FixedHash Worker Float.
From S2P Require Import Types Telemetry Miner CpuMiner Farm Regex PoolURI Json PoolManager ApiStat ApiServer.

Inductive OperationMode := OM_None | OM_Simulation | OM_Mining.

(** The members the arguments set; [pool_uris] are the objects of [m_PoolSettings.connections]. *)
Record MinerCLI := {
  m_api_address : string;
  m_api_port : Z;
  m_api_password : string;
  m_miningThreads : nat;
  m_mode : OperationMode;
  m_shouldListDevices : bool;
  m_FarmSettings : FarmSettings;
  m_PoolSettings : PoolSettings;
  pool_uris : list URI;
  cp_devices : list Z;
  cp_flags : Z;
  cli_logOptions : Z }.

(** What [app.parse] leaves in the local variables. *)
Record parsed := {
  bhelp : bool;
  shelpExt : string;
  show_version : bool;
  pools : list string;
  sim_count : nat;
  largePages : bool;
  hardAes : bool;
  secureJIT : bool;
  parsed_cli : MinerCLI }.

Definition with_mode (m : OperationMode) (l : list URI) (flags : Z) (c : MinerCLI) : MinerCLI := {|
  m_api_address := m_api_address c; m_api_port := m_api_port c; m_api_password := m_api_password c;
  m_miningThreads := m_miningThreads c; m_mode := m; m_shouldListDevices := m_shouldListDevices c;
  m_FarmSettings := m_FarmSettings c; m_PoolSettings := m_PoolSettings c; pool_uris := l;
  cp_devices := cp_devices c; cp_flags := flags; cli_logOptions := cli_logOptions c |}.

(** ** The binding of the API *)

Section bind.
(** [boost::asio::ip::address::from_string] and [to_string]: the text of the address, if it is one. *)
Context (address_from_string : string -> option string).

Definition address_char (c : ascii) : bool :=
  is_digit c || match digit_val c with Some d => d <? 16 | None => false end || Ascii.eqb c "." || Ascii.eqb c ":".
Definition port_char (c : ascii) : bool := is_digit c || Ascii.eqb c "-".
Definition bind_pattern : re :=
  RGroup 1 (RStar (RChar address_char)) @@ rlit ":" @@ RGroup 2 (RStar (RChar port_char)).

Definition port_allowed (advertise_negative_port : bool) (outport : Z) : bool :=
  if advertise_negative_port
  then negb ((outport <? -65535) || (65535 <? outport) || (outport =? 0))
  else negb ((outport <? 1) || (65535 <? outport)).
Definition port_message (advertise_negative_port : bool) : string :=
  if advertise_negative_port
  then "Invalid port number. Allowed non zero values in range [-65535 .. 65535]"
  else "Invalid port number. Allowed non zero values in range [1 .. 65535]".

(** [ParseBind] on the address and the port it assigns; both may be assigned before it throws. *)
Definition ParseBind (inaddr : string) (advertise_negative_port : bool) : SE (string * Z) unit :=
  match regex_match bind_pattern inaddr with
  | None => se_throw (InvalidArgument "Invalid syntax")
  | Some matches =>
      (exec se_modify (fun out => (default "0.0.0.0" (address_from_string (group 1 matches)), snd out));
       if bool_decide (address_from_string (group 1 matches) = None)
       then se_throw (InvalidArgument "Invalid Ip Address")
       else
         do outport <- se_lift (stoi (group 2 matches) 10);
         exec se_modify (fun out => (fst out, outport));
         if port_allowed advertise_negative_port outport then se_ret tt
         else se_throw (InvalidArgument (port_message advertise_negative_port)))%se
  end.

(** The check of [--api-bind]: whatever [ParseBind] throws becomes a [CLI::ValidationError], which
    derives from [std::runtime_error]. *)
Definition api_bind_check (bind_arg : string) : SE (string * Z) unit := fun out =>
  match ParseBind bind_arg true out with
  | (Throw e, out) => (Throw (if caught_by_std e then RuntimeError ("--api-bind: " +:+ what e) else e), out)
  | r => r
  end.
End bind.

(** ** The arguments *)

Definition LOG_CONNECT : Z := 32.
Definition LOG_SWITCH : Z := 64.
Definition LOG_SUBMIT : Z := 128.
Definition LOG_PROGRAMFLOW : Z := 256.

Definition log_warnings (g_logOptions : Z) : list string :=
  let has (flag : Z) (text : string) := if Z.land g_logOptions flag =? 0 then [] else [text] in
  has LOG_CONNECT "Socket connections won't be logged. Compile with -DDEVBUILD=ON"
  ++ has LOG_SWITCH "Job switch timings won't be logged. Compile with -DDEVBUILD=ON"
  ++ has LOG_SUBMIT "Solution internal submission timings won't be logged. Compile with -DDEVBUILD=ON"
  ++ has LOG_PROGRAMFLOW "Program flow won't be logged. Compile with -DDEVBUILD=ON".

Section cli.
Context {Jsn : Json} {Big : BigInteger} {Bst : BoostUri} {Eth : Ethash}.

Definition tls_warnings (noverify : bool) (uri : URI) : list string :=
  if negb (bool_decide (SecLevel uri = SL_NONE)) && negb (bool_decide (m_hostType uri = HT_Dns)) && negb noverify
  then ["You have specified host " +:+ m_host uri +:+ " with encryption enabled.";
        "Certificate validation will likely fail"]
  else [].

Definition exit_uri : string := "stratum+tcp://-:x@exit:0".

(** The URI of the [i]-th [-P] argument. *)
Definition pool_uri (i : nat) (url : string) : res URI :=
  if String.eqb url "exit" && (i =? 0)%nat
  then Throw (InvalidArgument "'exit' failover directive can't be the first in -P arguments list.")
  else
    let url := if String.eqb url "exit" then exit_uri else url in
    catch_std (URI_new url false) (fun _ex => Throw (RuntimeError ("Bad URI : " +:+ what _ex))).

Fixpoint configure_pools (noverify : bool) (i : nat) (pools : list string) (connections : list URI)
    (warnings : list string) : res (list URI * list string) :=
  match pools with
  | [] => Ok (connections, warnings)
  | url :: pools' =>
      let! uri := pool_uri i url in
      configure_pools noverify (S i) pools' (connections ++ [uri]) (warnings ++ tls_warnings noverify uri)
  end.

(** The flags of the RandomY library. *)
Context (RANDOMX_FLAG_LARGE_PAGES RANDOMX_FLAG_HARD_AES RANDOMX_FLAG_SECURE : Z).

Definition randomx_flags (p : parsed) : Z :=
  let set (b : bool) (flag flags : Z) := if b then Z.lor flags flag else flags in
  set (secureJIT p) RANDOMX_FLAG_SECURE (set (hardAes p) RANDOMX_FLAG_HARD_AES
    (set (largePages p) RANDOMX_FLAG_LARGE_PAGES (cp_flags (parsed_cli p)))).

(** [validateArgs] of what [app.parse] returned: whether to go on, and the warnings printed. *)
Definition validateArgs (noverify : bool) (parse : res parsed) : res (bool * MinerCLI * list string) :=
  let! p := parse in
  let c := parsed_cli p in
  let flags := randomx_flags p in
  if bhelp p || negb (String.eqb (shelpExt p) "") || show_version p
  then Ok (false, with_mode (m_mode c) (pool_uris c) flags c, [])
  else
    let warnings := log_warnings (cli_logOptions c) in
    let! (mode, connections) :=
      (if (0 <? sim_count p)%nat
       then let! uri := URI_new "simulation://localhost:0" true in Ok (OM_Simulation, pool_uris c ++ [uri])
       else Ok (OM_Mining, pool_uris c)) in
    if negb (m_shouldListDevices c) && negb (0 <? sim_count p)%nat then
      match pools p with
      | [] => Throw (InvalidArgument "At least one pool definition required. See -P argument.")
      | _ =>
          let! (connections, warnings) := configure_pools noverify 0 (pools p) connections warnings in
          Ok (true, with_mode mode connections flags c, warnings)
      end
    else Ok (true, with_mode mode connections flags c, warnings).

(** ** The devices *)

Definition setw_left (w : nat) (s : string) : string := s +:+ sfill (w - String.length s) " ".
Definition endl : string := String (chr 10) "".

Definition device_row (i : nat) (d : string * DeviceDescriptor) : res string :=
  let! memory := getFormattedMemory (f64_of_Z (totalMemory (snd d))) WithSuffix 2 in
  Ok (setw 3 " " (dec_str (Z.of_nat i)) +:+ " " +:+ setw_left 10 (fst d)
      +:+ (if bool_decide (dd_type (snd d) = DT_Cpu) then setw_left 5 "Cpu" else "")
      +:+ setw_left 30 (stake 28 (dd_name (snd d))) +:+ setw 13 " " memory +:+ " " +:+ endl).
Fixpoint device_rows (i : nat) (l : devices) : res string :=
  match l with
  | [] => Ok ""
  | d :: l' => let! row := device_row i d in let! rows := device_rows (S i) l' in Ok (row +:+ rows)
  end.
Definition device_table (l : devices) : res string :=
  let! rows := device_rows 0 l in
  Ok (" Id " +:+ setw_left 10 "Pci Id    " +:+ setw_left 5 "Type " +:+ setw_left 30 "Name                          " +:+ endl
      +:+ "--- " +:+ setw_left 10 "--------- " +:+ setw_left 5 "---- " +:+ setw_left 30 "----------------------------- " +:+ endl
      +:+ rows).

Definition subscribe (d : string * DeviceDescriptor) : string * DeviceDescriptor :=
  (fst d, {| dd_type := dd_type (snd d); subscriptionType := DS_Cpu; uniqueId := uniqueId (snd d);
             totalMemory := totalMemory (snd d); dd_name := dd_name (snd d); cpCpuNumer := cpCpuNumer (snd d) |}).
Definition subscribe_index (l : devices) (index : Z) : devices :=
  if index <? Z.of_nat (length l) then alter subscribe (Z.to_nat index) l else l.
(** The discrete subscriptions, or all devices. *)
Definition subscribe_devices (requested : list Z) (l : devices) : devices :=
  match requested with [] => subscribe <$> l | _ => fold_left subscribe_index requested l end.
Definition subscribed (d : string * DeviceDescriptor) : bool :=
  negb (bool_decide (subscriptionType (snd d) = DS_None)).
Definition subscribedDevices (l : devices) : nat := length (filter (fun d => subscribed d = true) l).

(** ** execute *)

Inductive execution := DevicesListed (text : string) | MiningStarted (f : Farm.Farm).

Definition execute (memory : nat -> Z) (boost_name : string) (now rnd : Z) (c : MinerCLI) : res execution :=
  let l := enumDevices memory boost_name (m_miningThreads c) [] in
  if (length l =? 0)%nat then Throw (RuntimeError "No usable mining devices found")
  else if m_shouldListDevices c then let! text := device_table l in Ok (DevicesListed text)
  else
    let l := subscribe_devices (cp_devices c) l in
    if (subscribedDevices l =? 0)%nat then Throw (RuntimeError "No mining device selected. Aborting ...")
    else Ok (MiningStarted (Farm_new l (m_FarmSettings c) now rnd)).

(** ** doMiner: the API server holds the process's state (see ApiServer) *)

(** The pool manager, and the API server when a port is configured; [bound] as in [start]. *)
Definition doMiner_api (bound : bool) (c : MinerCLI) (f : Farm.Farm) : ApiServer :=
  let p := PoolManager_new (m_PoolSettings c) (pool_uris c) (List.seq 0 (length (pool_uris c))) f in
  let api := ApiServer_new (m_api_address c) (m_api_port c) (m_api_password c)
               {| pool := p; g_logOptions := cli_logOptions c; restarts := 0; reboots := 0 |} in
  if m_api_port c =? 0 then api else ApiServer.start bound api.

Definition on_server_pool (g : PoolManager -> PoolManager) (api : ApiServer) : ApiServer :=
  with_sessions (lastSessionId api) (m_sessions api) (sv_pending api)
    (with_pool (g (pool (sv_env api))) (sv_env api)) api.

(** Then the pool manager is started. *)
Definition doMiner_start (bound : bool) (c : MinerCLI) (f : Farm.Farm) : ApiServer :=
  on_server_pool PoolManager.start (doMiner_api bound c f).

(** After the loop. *)
Definition doMiner_stop (api : ApiServer) : ApiServer :=
  let api := if ApiServer.m_running api then ApiServer.stop api else api in
  if PoolManager.m_running (pool (sv_env api)) then on_server_pool PoolManager.stop api else api.

(** The display timer: the line it logs; it is armed again whenever there is one. *)
Definition cliDisplayInterval_elapsed (ec g_running : bool) (now : Z) (p : PoolManager) : res (option string) :=
  if negb ec && g_running then
    let! connected := client_isConnected p in
    let! logLine := (if connected : bool then TelemetryType_str now (m_telemetry (pm_farm p)) else Ok "Not connected") in
    Ok (Some logLine)
  else Ok None.

(** ** main *)

(** The exit code of an exception that leaves [validateArgs] or [execute]; [is_runtime_error] is
    whether an exception of a library derives from [std::runtime_error].  Undefined behaviour has
    no exit code. *)
Definition exit_code (is_runtime_error : string -> bool) (e : exn) : option Z :=
  match e with
  | InvalidArgument _ => Some 1
  | RuntimeError _ => Some 2
  | LibError w => Some (if is_runtime_error w then 2 else 3)
  | OutOfRange _ | BadHexCharacter => Some 3
  | ThrownPointer => Some 4
  | UndefinedBehaviour _ => None
  end.

(** [main] up to the end of the mining: the exit code of a run whose main loop is left. *)
Definition main (is_runtime_error : string -> bool) (argc : Z) (noverify : bool) (parse : res parsed)
    (memory : nat -> Z) (boost_name : string) (now rnd : Z) : option Z :=
  if argc <? 2 then Some 1
  else
    match validateArgs noverify parse with
    | Throw e => exit_code is_runtime_error e
    | Ok (false, _, _) => Some 0
    | Ok (true, c, _) =>
        match execute memory boost_name now rnd c with
        | Throw e => exit_code is_runtime_error e
        | Ok _ => Some 0
        end
    end.
End cli.

(** ** The wait for a signal

    [while (g_running) g_shouldstop.wait(clilock)] of the main thread, interleaved with signal
    handlers, which do not take the mutex: [g_running = false], then [notify_all]. *)

Inductive main_pc := Testing | Entering | Waiting | Left.
#[export] Instance main_pc_eq_dec : EqDecision main_pc.
Proof. solve_decision. Defined.

Record main_loop := { pc : main_pc; g_running : bool; handlers : nat }.

Inductive loop_event :=
  | ETest        (* the main thread tests g_running *)
  | EWait        (* it waits: releases the mutex and blocks *)
  | EWake        (* a wake-up without a notification, which the standard allows *)
  | ESignal      (* a signal handler clears g_running *)
  | ENotify.     (* and then notifies *)
#[export] Instance loop_event_eq_dec : EqDecision loop_event.
Proof. solve_decision. Defined.

(** An event that can happen, and the state after it. *)
Definition loop_step (e : loop_event) (s : main_loop) : option main_loop :=
  match e, pc s with
  | ETest, Testing => Some {| pc := if g_running s then Entering else Left; g_running := g_running s; handlers := handlers s |}
  | EWait, Entering => Some {| pc := Waiting; g_running := g_running s; handlers := handlers s |}
  | EWake, Waiting => Some {| pc := Testing; g_running := g_running s; handlers := handlers s |}
  | ESignal, _ => Some {| pc := pc s; g_running := false; handlers := S (handlers s) |}
  | ENotify, _ =>
      match handlers s with
      | O => None
      | S n => Some {| pc := match pc s with Waiting => Testing | x => x end; g_running := g_running s; handlers := n |}
      end
  | _, _ => None
  end.
Fixpoint loop_run (l : list loop_event) (s : main_loop) : option main_loop :=
  match l with
  | [] => Some s
  | e :: l' => match loop_step e s with Some s' => loop_run l' s' | None => None end
  end.

Definition loop_start : main_loop := {| pc := Testing; g_running := true; handlers := 0 |}.
