(* ===== verification/CliProps.v ===== *)
(** * What the command line and the main loop guarantee

    The binding of the API, the configured pools, the devices that are mined on, the exit codes;
    the requests that arrive before there is a pool client; the wait for a signal. *)

From S2P Require Import Prelude CppString Lines CommonData FixedHash Worker Float.
From S2P Require Import Types Telemetry Miner CpuMiner Farm Regex PoolURI Json PoolManager ApiStat ApiServer.
From S2P Require Import ApiProps ApiMethods Cli.

(** ** Numbers in text *)

Lemma starts_digit_first base s : starts_digit base s = true ->
  skip_space s = s /\ take_sign s = (false, s).
Proof.
  destruct s as [|c s]; [done|]. cbn [starts_digit]. destruct (digit_val c) as [d|] eqn:E; [|done]. intros _.
  unfold digit_val, is_digit, is_upper, is_lower in E.
  assert (H : 48 <= code c) by (repeat case_match; simplify_eq; bool_to_prop; lia).
  split.
  - cbn [skip_space]. destruct (is_space c) eqn:Es; [|done]. exfalso. revert Es H. clear.
    by destruct c as [[] [] [] [] [] [] [] []].
  - cbn [take_sign]. destruct (Ascii.eqb_spec c "-") as [->|_]; [by exfalso; revert H; vm_compute; intros []|].
    by destruct (Ascii.eqb_spec c "+") as [->|_]; [by exfalso; revert H; vm_compute; intros []|].
Qed.

Lemma drop_0x_10 s : drop_0x 10 s = s.
Proof. by destruct s as [|? [|? ?]]. Qed.

(** A decimal text reads back as its number. *)
Lemma stoi_dec_str z : - 2 ^ 31 <= z < 2 ^ 31 -> stoi (dec_str z) 10 = Ok z.
Proof.
  intros Hz. unfold dec_str.
  assert (H : forall n, 0 <= n -> (skip_space (to_base 10 n) = to_base 10 n /\ take_sign (to_base 10 n) = (false, to_base 10 n)) /\
    starts_digit 10 (to_base 10 n) = true /\ digits_value 10 0 (to_base 10 n) = n).
  { intros n Hn. destruct (to_base_spec 10 n ltac:(lia) Hn) as (H1 & _ & H3). split_and!; [by apply (starts_digit_first 10).. |done|done]. }
  unfold stoi, strto. destruct (Z.ltb_spec z 0).
  - destruct (H (- z) ltac:(lia)) as (_ & H1 & H2). rewrite string_app_cons. cbn [skip_space].
    change (is_space "-") with false. cbn [take_sign]. change (Ascii.eqb "-" "-") with true. cbn iota.
    change ("" +:+ to_base 10 (- z)) with (to_base 10 (- z)).
    rewrite drop_0x_10, H1, H2. replace (- - z) with z by lia.
    destruct (Z.leb_spec (- 2 ^ 31) z); [|lia]. destruct (Z.ltb_spec z (2 ^ 31)); [done|lia].
  - destruct (H z ltac:(lia)) as ((Hs & Ht) & H1 & H2). rewrite Hs, Ht, drop_0x_10, H1, H2.
    destruct (Z.leb_spec (- 2 ^ 31) z); [|lia]. destruct (Z.ltb_spec z (2 ^ 31)); [done|lia].
Qed.

Lemma dec_str_port_chars z : sforall port_char (dec_str z) = true.
Proof.
  assert (H : forall n, 0 <= n -> sforall port_char (to_base 10 n) = true).
  { intros n Hn. destruct (to_base_spec 10 n ltac:(lia) Hn) as (_ & H & _). revert H. char_class. }
  unfold dec_str. destruct (Z.ltb_spec z 0); [|by apply H].
  by rewrite sforall_app, H by lia.
Qed.

(** ** The binding of the API *)

Section bind.
Context (address_from_string : string -> option string).
#[local] Notation ParseBind := (ParseBind address_from_string).

Lemma port_no_colon s : sforall port_char s = true -> absent ":" s = true.
Proof. char_class. Qed.

(** The pattern splits at the last colon. *)
Lemma bind_split u v : sforall address_char u = true -> sforall port_char v = true ->
  regex_match bind_pattern (u +:+ ":" +:+ v) = Some [(2%nat, v); (1%nat, u)].
Proof.
  intros Hu Hv. unfold regex_match, bind_pattern. change (":" +:+ v) with (String ":" v).
  rewrite rseq, rgroup, star_char.
  rewrite (greedy_last _ _ u ":" v _ ("", [(2%nat, v); (1%nat, u)])); [done|done| |].
  - intros b' u' w ->. rewrite rseq. apply rlit_absent. apply port_no_colon in Hv. by eapply absent_suffix.
  - intros b'. rewrite rseq, rlit_hit, rgroup, star_char. apply greedy_all; [done|]. intros b2.
    cbn. by rewrite Nat.sub_0_r, stake_before, stake_ge by done.
Qed.

Lemma port_allowed_spec adv p : port_allowed adv p = true <->
  if adv : bool then -65535 <= p <= 65535 /\ p <> 0 else 1 <= p <= 65535.
Proof. unfold port_allowed. destruct adv; rewrite negb_true_iff, ?orb_false_iff, ?Z.ltb_ge, ?Z.eqb_neq; lia. Qed.

(** The port of a text that is accepted is in the advertised range. *)
Lemma ParseBind_ok inaddr adv out a p : ParseBind inaddr adv out = (Ok tt, (a, p)) ->
  (if adv : bool then -65535 <= p <= 65535 /\ p <> 0 else 1 <= p <= 65535) /\
  exists m, regex_match bind_pattern inaddr = Some m /\ a = default "0.0.0.0" (address_from_string (group 1 m)).
Proof.
  unfold Cli.ParseBind. destruct (regex_match bind_pattern inaddr) as [m|]; [|done].
  rewrite run_modify. case_bool_decide; [done|]. rewrite run_lift. destruct (stoi (group 2 m) 10) as [q|]; [|done].
  rewrite run_modify. destruct (port_allowed adv q) eqn:Ep; [|done]. intros [= <- <-].
  apply port_allowed_spec in Ep. eauto.
Qed.

(** C27: Binding the API to address:port gives a server on that address and port: the text of an
    address and of an allowed port, negative ones included where they are advertised, is taken
    apart again; whatever text is accepted, its port is in the advertised range, and the server made
    from it listens on the absolute value of the port, is read-only exactly for a negative one, and
    can be started. *)
Theorem api_binding (adv : bool) (password : string) (w : World) (out : string * Z) :
  (forall u a p, sforall address_char u = true -> address_from_string u = Some a ->
     (if adv then -65535 <= p <= 65535 /\ p <> 0 else 1 <= p <= 65535) ->
     ParseBind (u +:+ ":" +:+ dec_str p) adv out = (Ok tt, (a, p))) /\
  (forall inaddr a p, ParseBind inaddr adv out = (Ok tt, (a, p)) ->
     (if adv then -65535 <= p <= 65535 /\ p <> 0 else 1 <= p <= 65535) /\
     let s := ApiServer_new a p password w in
     m_address s = a /\ m_portnumber s = Z.abs p /\ sv_readonly s = (p <? 0) /\
     ApiServer.m_running (ApiServer.start true s) = true).
Proof.
  split.
  - intros u a p Hu Ha Hp. unfold Cli.ParseBind. rewrite bind_split by (done || apply dec_str_port_chars).
    rewrite run_modify. change (group 1 [(2%nat, dec_str p); (1%nat, u)]) with u.
    change (group 2 [(2%nat, dec_str p); (1%nat, u)]) with (dec_str p). rewrite Ha.
    rewrite bool_decide_eq_false_2 by done. rewrite run_lift, stoi_dec_str by (destruct adv; lia).
    rewrite run_modify. by apply port_allowed_spec in Hp as ->.
  - intros inaddr a q Hok. apply ParseBind_ok in Hok as (Ep & m & _ & ->). split; [done|].
    assert (Hr : -65535 <= q <= 65535 /\ q <> 0) by (destruct adv; lia). cbn zeta.
    assert (Hport : m_portnumber (ApiServer_new (default "0.0.0.0" (address_from_string (group 1 m))) q password w) = Z.abs q).
    { cbn. destruct (Z.ltb_spec q 0); rewrite wrap_id by (split; lia); lia. }
    split_and!; [done|done|done|]. unfold ApiServer.start. rewrite Hport.
    destruct (Z.eqb_spec (Z.abs q) 0); [lia|]. done.
Qed.
End bind.

(** ** The devices *)

Lemma map_set_Forall {V} (P : string * V -> Prop) k v d : P (k, v) -> Forall P d -> Forall P (map_set k v d).
Proof.
  intros Hk Hd. induction Hd as [|[k' v'] d Hd' Hd IH]; cbn; [by constructor|].
  destruct (String.compare k k'); by repeat constructor.
Qed.

(** No device is subscribed to begin with. *)
Lemma enumDevices_unsubscribed memory boost_name n : Forall (fun d => subscribed d = false) (enumDevices memory boost_name n []).
Proof.
  unfold enumDevices. assert (H : Forall (fun d : string * DeviceDescriptor => subscribed d = false) []) by constructor.
  revert H. generalize (@nil (string * DeviceDescriptor)). induction (List.seq 0 n) as [|i l IH]; intros d Hd; [done|].
  cbn [fold_left]. apply IH. unfold enum_device. apply map_set_Forall; [|done]. unfold subscribed. cbn.
  destruct (map_find _ d) as [x|] eqn:E; [|done]. cbn. apply map_find_In in E.
  by apply (proj1 (List.Forall_forall _ _) Hd) in E.
Qed.

Lemma subscribe_index_lookup l i j d : 0 <= i -> l !! j = Some d ->
  subscribe_index l i !! j = Some (if Z.of_nat j =? i then subscribe d else d).
Proof.
  intros Hi Hj. pose proof (lookup_lt_Some _ _ _ Hj). unfold subscribe_index.
  destruct (Z.ltb_spec i (Z.of_nat (length l))), (Z.eqb_spec (Z.of_nat j) i); try lia.
  - assert (Z.to_nat i = j) as -> by lia. by rewrite list_lookup_alter_eq, Hj.
  - rewrite list_lookup_alter_ne by lia. done.
  - done.
Qed.

Lemma subscribe_indexes requested : Forall (fun i => 0 <= i) requested -> forall l j d, l !! j = Some d ->
  fold_left subscribe_index requested l !! j =
    Some (if bool_decide (Z.of_nat j ∈ requested) then subscribe d else d).
Proof.
  induction 1 as [|i requested Hi Hr IH]; intros l j d Hj; cbn [fold_left]; [done|].
  rewrite (IH _ j _ (subscribe_index_lookup l i j d Hi Hj)). f_equal.
  destruct (Z.eqb_spec (Z.of_nat j) i); repeat case_bool_decide; first [done | exfalso; set_solver].
Qed.

Lemma subscribe_devices_lookup requested l j d : Forall (fun i => 0 <= i) requested -> l !! j = Some d ->
  subscribe_devices requested l !! j =
    Some (if bool_decide (requested = [] \/ Z.of_nat j ∈ requested) then subscribe d else d).
Proof.
  intros Hr Hj. unfold subscribe_devices. destruct requested as [|i requested].
  - rewrite bool_decide_eq_true_2 by auto. by rewrite list_lookup_fmap, Hj.
  - rewrite (subscribe_indexes _ Hr l j d Hj). f_equal. repeat case_bool_decide; naive_solver.
Qed.

Lemma subscribe_devices_length requested l : length (subscribe_devices requested l) = length l.
Proof.
  unfold subscribe_devices. destruct requested as [|i requested]; [apply length_fmap|].
  generalize (i :: requested). intros r. revert l. induction r as [|x r IH]; intros l; [done|]. cbn [fold_left].
  rewrite IH. unfold subscribe_index. destruct (_ <? _); [apply length_alter|done].
Qed.

Section cli.
Context {Jsn : Json} {Big : BigInteger} {Bst : BoostUri} {Eth : Ethash}.

(** ** The miners *)

Lemma subscribed_is_cpu d : is_cpu d = subscribed d.
Proof. unfold is_cpu, subscribed. by destruct (subscriptionType (snd d)). Qed.

Lemma start_devices_descriptors now l : forall f,
  (fun m => getDescriptor (fm m)) <$> m_miners (fold_left (start_device now) l f) =
  ((fun m => getDescriptor (fm m)) <$> m_miners f) ++ (snd <$> filter (fun d => subscribed d = true) l).
Proof.
  induction l as [|d l IH]; intros f; cbn [fold_left]; [by rewrite app_nil_r|].
  rewrite IH, filter_cons, <- (subscribed_is_cpu d). unfold start_device. unfold is_cpu.
  case_bool_decide; [|done]. cbn [m_miners with_miners]. rewrite fmap_app, <- app_assoc. done.
Qed.

(** C30: The requested devices are mined on: unless the devices are only listed, [execute] leaves a
    farm whose devices are those enumerated, with exactly the requested ones - all of them when none
    was named, and ignoring numbers that name no device - subscribed, and the farm, once started, has
    one miner for each of these, in their order; it refuses to start exactly when that would be no
    miner at all. *)
Theorem requested_devices_mined (memory : nat -> Z) (boost_name : string) (now rnd t : Z) (c : MinerCLI) :
  Forall (fun i => 0 <= i) (cp_devices c) -> m_shouldListDevices c = false ->
  let l := enumDevices memory boost_name (m_miningThreads c) [] in
  let asked j := cp_devices c = [] \/ Z.of_nat j ∈ cp_devices c in
  match execute memory boost_name now rnd c with
  | Ok (MiningStarted f) =>
      length (m_DevicesCollection f) = length l /\
      (forall j d, l !! j = Some d -> exists d', m_DevicesCollection f !! j = Some d' /\
         d' = (if bool_decide (asked j) then subscribe d else d) /\ (subscribed d' = true <-> asked j)) /\
      (fun m => getDescriptor (fm m)) <$> m_miners (snd (Farm.start t f)) =
        snd <$> filter (fun d => subscribed d = true) (m_DevicesCollection f) /\
      m_miners (snd (Farm.start t f)) <> []
  | Ok (DevicesListed _) => False
  | Throw e => (exists w, e = RuntimeError w) /\ forall j d, l !! j = Some d -> ~ asked j
  end.
Proof.
  intros Hr Hlist l asked. unfold execute. rewrite Hlist. fold l.
  assert (Hsub : forall j d, l !! j = Some d -> subscribed (if bool_decide (asked j) then subscribe d else d) = true <-> asked j).
  { intros j d Hj. pose proof (enumDevices_unsubscribed memory boost_name (m_miningThreads c)) as Hu. fold l in Hu.
    pose proof (Forall_lookup_1 _ _ _ _ Hu Hj) as Hd. cbn in Hd. case_bool_decide; [done|]. by rewrite Hd. }
  destruct (Nat.eqb_spec (length l) 0) as [Hl|Hl].
  { split; [by eexists|]. intros j d Hj. apply lookup_lt_Some in Hj. lia. }
  destruct (Nat.eqb_spec (subscribedDevices (subscribe_devices (cp_devices c) l)) 0) as [Hz|Hz].
  - split; [by eexists|]. intros j d Hj Hasked. unfold subscribedDevices in Hz.
    pose proof (subscribe_devices_lookup (cp_devices c) l j d Hr Hj) as Hs. fold (asked j) in Hs.
    apply nil_length_inv in Hz. apply list_elem_of_lookup_2 in Hs.
    eapply (not_elem_of_nil (if bool_decide (asked j) then subscribe d else d)). rewrite <- Hz.
    apply list_elem_of_filter. split; [by apply Hsub|done].
  - cbn [m_DevicesCollection Farm_new]. split_and!.
    + apply subscribe_devices_length.
    + intros j d Hj. eexists. split; [by apply subscribe_devices_lookup|]. split; [done|]. by apply Hsub.
    + unfold Farm.start. cbn [m_isMining Farm_new m_miners snd with_mining with_miners with_dag].
      rewrite start_devices_descriptors. done.
    + intros E. apply Hz. unfold subscribedDevices.
      assert (H : (fun m => getDescriptor (fm m)) <$> m_miners (snd (Farm.start t
        (Farm_new (subscribe_devices (cp_devices c) l) (m_FarmSettings c) now rnd))) = []) by (by rewrite E).
      revert H. unfold Farm.start. cbn [m_isMining Farm_new m_miners snd with_mining with_miners with_dag].
      rewrite start_devices_descriptors. cbn [m_DevicesCollection Farm_new m_miners fmap list_fmap app].
      intros H. apply (f_equal length) in H. by rewrite length_fmap in H.
Qed.
(** ** The pools *)

(** The connection that stands for the exit directive is the one the pool manager exits on. *)
Lemma exit_host : exists u, URI_new exit_uri false = Ok u /\ m_host u = "exit".
Proof.
  unfold URI_new.
  assert (regex_search sch_auth exit_uri = Some [(2%nat, "-:x@exit:0"); (1%nat, "stratum+tcp")]) as -> by (vm_compute; reflexivity).
  change (group 1 [(2%nat, "-:x@exit:0"); (1%nat, "stratum+tcp")]) with "stratum+tcp".
  change (group 2 [(2%nat, "-:x@exit:0"); (1%nat, "stratum+tcp")]) with "-:x@exit:0". cbv zeta.
  rewrite to_lower_law. change (smap tolower "stratum+tcp") with "stratum+tcp".
  change (String.eqb "-:x@exit:0" "") with false. change (negb false && String.eqb "stratum+tcp" "simulation") with false.
  cbv iota. rewrite bool_decide_eq_false_2 by (vm_compute; discriminate).
  assert (regex_search usr_url "-:x@exit:0" = Some [(2%nat, "exit:0"); (1%nat, "-:x")]) as -> by (vm_compute; reflexivity).
  destruct (parse_userinfo _ _) as [[[userinfo user] worker] password].
  change (group 2 [(2%nat, "exit:0"); (1%nat, "-:x")]) with "exit:0". unfold split_urlinfo.
  change (find_char "/" "exit:0") with (@None nat). rewrite to_lower_law. change (smap tolower "exit:0") with ("exit" +:+ ":" +:+ "0").
  rewrite parse_hostinfo_port by (done || vm_compute; lia). change (digits_value 10 0 "0" <? 65536) with true.
  cbn [res_bind]. change (String.eqb "exit" "") with false. cbv iota.
  change (parse_pathinfo "") with ("", "", ""). destruct (host_type "exit") as [ht lb]. by eexists.
Qed.

(** What is configured for the [i]-th [-P] argument. *)
Definition pool_of (i : nat) (url : string) (u : URI) : Prop :=
  URI_new (if String.eqb url "exit" then exit_uri else url) false = Ok u /\
  (url = "exit" -> (0 < i)%nat /\ m_host u = "exit").

Lemma pool_uri_ok i url u : pool_uri i url = Ok u -> pool_of i url u.
Proof.
  unfold pool_uri. destruct (String.eqb_spec url "exit") as [->|Hne]; cbn [andb].
  - destruct (Nat.eqb_spec i 0); [done|]. destruct exit_host as (x & Ex & Hx). rewrite Ex. intros [= <-].
    split; [exact Ex|]. split; [lia|done].
  - destruct (URI_new url false) as [x|e] eqn:E; cbn [catch_std]; [|by destruct (caught_by_std e)].
    intros [= <-]. split; [by apply String.eqb_neq in Hne as ->|done].
Qed.

Lemma configure_pools_ok noverify l : forall i cs ws cs' ws', configure_pools noverify i l cs ws = Ok (cs', ws') ->
  exists us, cs' = cs ++ us /\ length us = length l /\
    forall j url, l !! j = Some url -> exists u, us !! j = Some u /\ pool_of (i + j) url u.
Proof.
  induction l as [|url l IH]; intros i cs ws cs' ws'; cbn [configure_pools].
  - intros [= <- <-]. exists []. by rewrite app_nil_r.
  - destruct (pool_uri i url) as [u|] eqn:Eu; [|done]. cbn [res_bind]. intros H.
    destruct (IH _ _ _ _ _ H) as (us & -> & Hl & Hj). exists (u :: us). rewrite <- app_assoc.
    split_and!; [done|cbn; congruence|]. intros [|j] url' Hu.
    + injection Hu as <-. exists u. rewrite Nat.add_0_r. split; [done|]. by apply pool_uri_ok.
    + destruct (Hj j url' Hu) as (u' & Hu' & Hp). exists u'. rewrite Nat.add_succ_r. by split.
Qed.

(** C29: The pools are those of the command line: when the arguments are accepted for mining, the
    pool manager gets one connection for each -P argument, in their order, with the URI of its text;
    an exit directive becomes the connection the manager terminates on, and the argument exit itself is never
    the first; so the manager starts with a valid active connection (a first URL whose host is exit
    is not refused: it too is a connection to terminate on). *)
Theorem configured_pools (large aes secure : Z) (noverify : bool) (p : parsed) (c : MinerCLI) (ws : list string)
    (f : Farm.Farm) :
  validateArgs large aes secure noverify (Ok p) = Ok (true, c, ws) ->
  m_mode c = OM_Mining -> m_shouldListDevices c = false -> pool_uris (parsed_cli p) = [] ->
  length (pool_uris c) = length (pools p) /\
  (forall i url, pools p !! i = Some url -> exists u, pool_uris c !! i = Some u /\ pool_of i url u) /\
  head (pools p) <> Some "exit" /\
  let m := pool (sv_env (doMiner_start true c f)) in
  connections m = List.seq 0 (length (pools p)) /\ getActiveConnection m = Some 0%nat /\
  forall i u, pool_uris c !! i = Some u -> deref i m = u.
Proof.
  intros Hv Hm Hl Hu. unfold validateArgs in Hv. cbn [res_bind] in Hv.
  destruct (_ || _); [done|]. destruct (0 <? sim_count p)%nat eqn:Es.
  { destruct (URI_new _ true); cbn [res_bind] in Hv; [|done]. rewrite andb_false_r in Hv. injection Hv as <- _. done. }
  cbn [res_bind] in Hv. rewrite Hu in Hv. destruct (m_shouldListDevices (parsed_cli p)) eqn:Ed.
  { cbn in Hv. injection Hv as <- _. cbn in Hl. congruence. }
  cbn [negb andb] in Hv. destruct (pools p) as [|url0 l] eqn:Ep; [done|]. rewrite <- Ep in Hv |- *.
  destruct (configure_pools noverify 0 (pools p) [] _) as [[cs ws']|] eqn:Ec; [|done].
  cbn [res_bind] in Hv. injection Hv as <- _. apply configure_pools_ok in Ec as (us & -> & Hlen & Hus).
  cbn [pool_uris with_mode app]. split; [done|]. split; [done|]. split.
  - rewrite Ep. cbn. intros [= ->]. destruct (Hus 0%nat "exit") as (u & _ & _ & He); [by rewrite Ep|].
    destruct (He eq_refl). lia.
  - set (c := with_mode _ _ _ _).
    assert (Hpool : pool (sv_env (doMiner_start true c f)) = PoolManager.start
      (PoolManager_new (m_PoolSettings c) us (List.seq 0 (length us)) f)).
    { unfold doMiner_start, on_server_pool, doMiner_api. cbn [sv_env with_sessions pool with_pool].
      f_equal. destruct (m_api_port c =? 0); [done|]. unfold ApiServer.start. destruct (_ =? 0); [done|].
      unfold begin_accept. cbn. done. }
    rewrite Hpool. cbv zeta. cbn. rewrite Hlen. split_and!; [done|by rewrite Ep|].
    intros i u Hi. unfold deref. cbn. by rewrite Hi.
Qed.

(** ** Exit codes *)

(** The exit codes: 1 without arguments, without a pool and for a leading exit directive; 0 for a
    help or version request; but the errors the argument parser reports, a bad pool URI included,
    derive from [std::runtime_error] and end with 2, the code of a runtime error. *)
Theorem exit_codes (large aes secure : Z) (is_runtime_error : string -> bool) (argc : Z) (noverify : bool)
    (memory : nat -> Z) (boost_name : string) (now rnd : Z) :
  let run argc parse := main large aes secure is_runtime_error argc noverify parse memory boost_name now rnd in
  (forall parse, argc < 2 -> run argc parse = Some 1) /\
  (2 <= argc ->
   (forall w, run argc (Throw (RuntimeError w)) = Some 2) /\
   (forall p, bhelp p || negb (String.eqb (shelpExt p) "") || show_version p = true -> run argc (Ok p) = Some 0) /\
   (forall p, bhelp p || negb (String.eqb (shelpExt p) "") || show_version p = false -> sim_count p = 0%nat ->
      m_shouldListDevices (parsed_cli p) = false ->
      (pools p = [] -> run argc (Ok p) = Some 1) /\
      (head (pools p) = Some "exit" -> run argc (Ok p) = Some 1) /\
      (forall url l e, pools p = url :: l -> url <> "exit" -> URI_new url false = Throw e -> caught_by_std e = true ->
         run argc (Ok p) = Some 2) /\
      (run argc (Ok p) = Some 0 -> m_miningThreads (parsed_cli p) <> 0%nat))).
Proof.
  intros run. split.
  { intros parse Ha. unfold run, main. apply Z.ltb_lt in Ha as ->. done. }
  intros Ha. assert (Hrun : forall parse, run argc parse = match validateArgs large aes secure noverify parse with
    | Throw e => exit_code is_runtime_error e
    | Ok (false, _, _) => Some 0
    | Ok (true, c, _) => match execute memory boost_name now rnd c with
                         | Throw e => exit_code is_runtime_error e | Ok _ => Some 0 end
    end).
  { intros parse. unfold run, main. destruct (Z.ltb_spec argc 2); [lia|done]. }
  split_and!; [intros; by rewrite Hrun | |].
  - intros p Hh. rewrite Hrun. unfold validateArgs. cbn [res_bind]. by rewrite Hh.
  - intros p Hh Hs Hl. rewrite Hrun. unfold validateArgs. cbn [res_bind]. rewrite Hh, Hs, Hl. cbn [res_bind Nat.ltb Nat.leb negb andb].
    split_and!.
    + by intros ->.
    + destruct (pools p) as [|u l]; [done|]. cbn. by intros [= ->].
    + intros url l e -> Hne He Hc. cbn [configure_pools]. unfold pool_uri.
      destruct (String.eqb_spec url "exit"); [done|]. cbn [andb]. rewrite He. cbn [catch_std]. by rewrite Hc.
    + destruct (pools p) as [|url l]; [done|].
      destruct (configure_pools _ _ _ _ _) as [[cs ws]|e]; cbn [res_bind].
      2: { intros H E. revert H. by destruct e; cbn; repeat case_match; intros. }
      unfold execute. cbn [m_miningThreads with_mode]. intros H E. rewrite E in H. cbn in H. done.
Qed.

(** ** Requests before there is a pool client *)

Lemma doMiner_no_client bound c f : p_client (pool (sv_env (doMiner_start bound c f))) = None.
Proof.
  unfold doMiner_start, on_server_pool, doMiner_api. cbn [sv_env with_sessions pool with_pool].
  destruct (m_api_port c =? 0); [done|]. unfold ApiServer.start. destruct (_ =? 0); [done|]. destruct bound; [|done].
  unfold begin_accept. done.
Qed.

Lemma no_client_statistics (project_name : string) (host_name : option string) now p : p_client p = None ->
  exists w, getMinerStatDetail project_name host_name now p = Throw (UndefinedBehaviour w).
Proof.
  intros Hp. unfold getMinerStatDetail.
  match goal with |- context [jobject jnull ?l] => destruct (jobject_spec l jnull (or_introl view_null)) as (j & -> & _) end.
  cbn [res_bind]. unfold active_uri. destruct (getActiveConnection p); cbn [res_bind]; [|by eexists].
  unfold client_isConnected. rewrite Hp. by eexists.
Qed.

(** The API answers before there is anything to ask: the server is started before the pool
    manager, and the manager has no client until its first rotation has run; until then a valid
    request for the detailed statistics, the statistics page and the first tick of the display timer
    dereference the null client. *)
Theorem statistics_before_connection (project_name : string) (host_name : option string)
    (iequals : string -> string -> bool) (reboot bound : bool) (c : MinerCLI) (f : Farm.Farm) (now rnd : Z) :
  let s := doMiner_start bound c f in
  (forall q id p a, env a = sv_env s -> m_is_authenticated (ses a) = true ->
     valid_request q id "miner_getstatdetail" p ->
     exists w, processRequest project_name host_name iequals reboot now rnd q jnull a =
       (Throw (UndefinedBehaviour w), a)) /\
  (forall v, exists w, http_answer project_name host_name now "GET" "/" v (pool (sv_env s)) = Throw (UndefinedBehaviour w)) /\
  exists w, cliDisplayInterval_elapsed false true now (pool (sv_env s)) = Throw (UndefinedBehaviour w).
Proof.
  intros s. pose proof (doMiner_no_client bound c f) as Hp. fold s in Hp.
  destruct (no_client_statistics project_name host_name now (pool (sv_env s)) Hp) as [w Hw]. split_and!.
  - intros q id p a He Ha Hq. exists w.
    destruct (process_valid project_name host_name iequals reboot now rnd q id _ p a Hq ltac:(done) Ha) as (r & _ & ->).
    change (dispatch _ _ _ _ _ _ _ q r) with (report (getMinerStatDetail project_name host_name now) r).
    unfold report, gets, se_bind at 1. by rewrite run_lift, He, Hw.
  - intros v. exists w. unfold http_answer. change (negb (String.eqb "GET" "GET")) with false.
    change (negb (String.eqb "/" "/") && negb (String.eqb "/" "/getstat1")) with false. cbv iota.
    unfold getHttpMinerStatDetail. by rewrite Hw.
  - unfold cliDisplayInterval_elapsed, client_isConnected. rewrite Hp. by eexists.
Qed.
End cli.

(** ** The wait for a signal *)

Lemma loop_run_invariant (P : main_loop -> Prop) (Q : loop_event -> Prop) l :
  (forall e s s', Q e -> loop_step e s = Some s' -> P s -> P s') ->
  Forall Q l -> forall s s', loop_run l s = Some s' -> P s -> P s'.
Proof.
  intros Hstep. induction 1 as [|e l He Hl IH]; intros s s'; cbn [loop_run]; [by intros [= ->]|].
  destruct (loop_step e s) as [s1|] eqn:E; [|done]. intros Hr Hs. by eapply IH, Hstep.
Qed.

Ltac step_cases :=
  intros e [pc0 g0 h0] s1 Hq Hstep; destruct e, pc0; cbn in *; repeat case_match; simplify_eq; cbn; naive_solver.

(** C32: A signal that arrives at the wrong moment is lost: the handlers clear the flag and notify
    without the mutex.  The main thread leaves its loop only after a signal; if the notification
    comes while it waits, or before it has tested the flag, the next steps it can make lead out of the
    loop; but if it comes after the test and before the wait, the thread waits with the flag
    cleared, and only another signal or a wake-up without notification gets it out again. *)
Theorem lost_signal :
  (forall l s, loop_run l loop_start = Some s -> pc s = Left -> ESignal ∈ l) /\
  (forall s, g_running s = false -> handlers s = 1%nat ->
     exists s1, loop_step ENotify s = Some s1 /\
       (pc s <> Entering ->
          pc s1 <> Waiting /\ pc s1 <> Entering /\
          forall l s', Forall (fun e => e <> ESignal) l -> loop_run l s1 = Some s' ->
            pc s' = Left \/ exists s2, loop_step ETest s' = Some s2 /\ pc s2 = Left) /\
       (pc s = Entering ->
          forall l s', Forall (fun e => e <> ESignal /\ e <> EWake) l -> loop_run l s1 = Some s' ->
            pc s' = Entering \/ pc s' = Waiting /\ forall e, loop_step e s' <> None -> e = ESignal \/ e = EWake)) /\
  (exists s, loop_run [ETest; ESignal] loop_start = Some s /\ g_running s = false /\ handlers s = 1%nat /\ pc s = Entering).
Proof.
  split_and!.
  - intros l s Hr Hl. destruct (decide (ESignal ∈ l)) as [|Hn]; [done|]. exfalso.
    assert (H : g_running s = true /\ pc s <> Left); [|by destruct H].
    eapply (loop_run_invariant (fun s => g_running s = true /\ pc s <> Left) (fun e => e <> ESignal)); [|..|exact Hr|done].
    + step_cases.
    + apply Forall_forall. intros e He ->. done.
  - intros [p g h] Hg Hh. cbn in Hg, Hh. subst g h. cbn [loop_step handlers pc]. eexists. split; [done|]. split.
    + intros Hp. cbn in Hp |- *. split; [by destruct p|]. split; [by destruct p|]. intros l s' Hl Hr.
      assert (H : g_running s' = false /\ (pc s' = Left \/ pc s' = Testing)).
      { eapply (loop_run_invariant (fun s => g_running s = false /\ (pc s = Left \/ pc s = Testing))); [|exact Hl|exact Hr|].
        - step_cases.
        - cbn. destruct p; auto; done. }
      destruct s' as [p' g' h']. cbn in *. destruct H as [-> [->| ->]]; [by left|]. right. by eexists.
    + cbn. intros -> l s' Hl Hr.
      assert (H : handlers s' = 0%nat /\ (pc s' = Entering \/ pc s' = Waiting)).
      { eapply (loop_run_invariant (fun s => handlers s = 0%nat /\ (pc s = Entering \/ pc s = Waiting))); [|exact Hl|exact Hr|].
        - step_cases.
        - cbn. auto. }
      destruct s' as [p' g' h']. cbn in *. destruct H as [-> [->| ->]]; [by left|]. right. split; [done|].
      intros e He. destruct e; auto; done.
  - by eexists.
Qed.

(** ** Witnesses *)

#[local] Existing Instance JsonModel.json.
#[local] Existing Instance BoostModel.boost.
#[local] Existing Instance BigIntegerModel.instance.
#[local] Existing Instance zero_ethash.

Definition example_cli : MinerCLI := {|
  m_api_address := "0.0.0.0"; m_api_port := 3333; m_api_password := ""; m_miningThreads := 3;
  m_mode := OM_None; m_shouldListDevices := false; m_FarmSettings := example_settings;
  m_PoolSettings := example_pool_settings; pool_uris := []; cp_devices := [2; 7]; cp_flags := 0;
  cli_logOptions := 0 |}.
Definition example_parsed : parsed := {|
  bhelp := false; shelpExt := ""; show_version := false; pools := ["stratum1+tcp://a@one.org:1"; "exit"];
  sim_count := 0; largePages := false; hardAes := false; secureJIT := false; parsed_cli := example_cli |}.

Lemma api_binding_witness :
  ParseBind (fun s => Some s) ("127.0.0.1" +:+ ":" +:+ dec_str (-3333)) true ("", 0) = (Ok tt, ("127.0.0.1", -3333)).
Proof.
  destruct (api_binding (fun s => Some s) true ""
    {| pool := pool example_world; g_logOptions := 0; restarts := 0; reboots := 0 |} ("", 0)) as [H _].
  apply H; [done|done|lia].
Defined.

Lemma requested_devices_mined_witness :
  (exists f, execute (fun _ => 0) "" 0 0 example_cli = Ok (MiningStarted f) /\ length (m_miners (snd (Farm.start 0 f))) = 1%nat).
Proof.
  pose proof (requested_devices_mined (fun _ => 0) "" 0 0 0 example_cli ltac:(repeat constructor; lia) eq_refl) as H.
  destruct (execute (fun _ => 0) "" 0 0 example_cli) as [[t|f]|e] eqn:E; [by destruct H| |vm_compute in E; discriminate E].
  destruct H as (_ & _ & H & _). exists f. split; [done|]. apply (f_equal length) in H. rewrite !length_fmap in H.
  rewrite H. vm_compute in E. injection E as <-. vm_compute. reflexivity.
Defined.

Lemma configured_pools_witness : exists c ws, validateArgs 0 0 0 false (Ok example_parsed) = Ok (true, c, ws) /\
  length (pool_uris c) = 2%nat.
Proof.
  destruct (validateArgs 0 0 0 false (Ok example_parsed)) as [[[b c] ws]|e] eqn:E; [|vm_compute in E; discriminate E].
  assert (b = true) as -> by (vm_compute in E; injection E as <- _ _; reflexivity).
  exists c, ws. split; [done|].
  destruct (configured_pools 0 0 0 false example_parsed c ws example_farm E) as (H & _);
    [vm_compute in E; injection E as <- _; reflexivity | vm_compute in E; injection E as <- _; reflexivity | done | exact H].
Defined.

Lemma statistics_before_connection_witness :
  exists w, fst (processRequest "coreminer" None String.eqb false 0 0
    (example_request "miner_getstatdetail" pause_params) jnull
    {| ses := ApiConnection_new 1 false ""; env := sv_env (doMiner_start true example_cli example_farm);
       started := []; disconnected := false |}) = Throw (UndefinedBehaviour w).
Proof.
  destruct (statistics_before_connection "coreminer" None String.eqb false true example_cli example_farm 0 0) as [H _].
  destruct (H (example_request "miner_getstatdetail" pause_params) (JsonModel.JInt 7) (JsonModel.JObj pause_params)
    {| ses := ApiConnection_new 1 false ""; env := sv_env (doMiner_start true example_cli example_farm);
       started := []; disconnected := false |}) as [w Hw]; [done|done|by apply (example_valid _ pause_params)|].
  exists w. by rewrite Hw.
Defined.

Lemma lost_signal_witness : exists s s', loop_run [ETest; ESignal] loop_start = Some s /\
  loop_run [ENotify; EWait] s = Some s' /\ pc s' = Waiting /\ g_running s' = false.
Proof.
  destruct lost_signal as (_ & _ & s & Hr & Hg & Hh & Hp). exists s.
  destruct s as [p g h]. cbn in Hg, Hh, Hp. subst. eexists. split; [exact Hr|]. by split_and!.
Defined.
