(* ===== verification/CliOptions.v ===== *)
(** * coreminer/main.cpp: the options of the command line

    What [validateArgs] of src/coreminer/main.cpp declares with [add_option] and [add_flag]: the
    names, the checks and the variables of the options.  The library that takes the command line
    apart (CLI11) is a parameter: [parse] says which arguments every declared option was given, the
    class [Cli11] how a text is converted to a number or a flag.  What the library does with the
    declarations is as documented: the options that were given are processed in the order of their
    declaration, each argument is checked, a single-valued option takes exactly one argument, a
    refusal is a [CLI::ParseError], a [std::runtime_error]. *)

From S2P Require Import Prelude CppString Lines CommonData FixedHash Worker Float.
From S2P Require Import Types Telemetry Log Miner CpuMiner CpuDevice Farm Regex PoolURI Json PoolManager ApiStat ApiServer.
From S2P Require Import ApiProps ApiMethods Cli CliProps.

(** ** The declarations *)

Inductive option_id :=
  | O_help | O_help_ext | O_ergodicity | O_version | O_verbosity | O_farm_recheck | O_farm_retries
  | O_retry_delay | O_work_timeout | O_response_timeout | O_report_hashrate | O_display_interval | O_exit
  | O_pool | O_failover_timeout | O_nocolor | O_syslog | O_stdout | O_api_bind | O_api_port | O_api_password
  | O_threads | O_list_devices | O_cpu_devices | O_noeval | O_dag_load_mode | O_simulation
  | O_large_pages | O_hard_aes | O_jit_secure.
#[export] Instance option_id_eq_dec : EqDecision option_id.
Proof. solve_decision. Defined.

(** The type of the variable, and the check. *)
Inductive kind := KFlag | KInt | KUnsigned | KText | KTexts | KUnsigneds.
Inductive check := Unchecked | Range (min max : Z) | RangeUnsigned (min max : Z) | IsMember (l : list string) | CheckBind.

Record declaration := { id : option_id; names : list string; var : kind; checked : check }.
Definition add (id : option_id) (names : list string) (var : kind) (checked : check) : declaration :=
  {| id := id; names := names; var := var; checked := checked |}.

Definition contexts : list string := ["con"; "test"; "cp"; "api"; "misc"; "env"].

(** In the order of the source. *)
Definition declarations (numDevices : Z) : list declaration := [
  add O_help ["-h"; "--help"] KFlag Unchecked;
  add O_help_ext ["-H"; "--help-ext"] KText (IsMember contexts);
  add O_ergodicity ["--ergodicity"] KUnsigned (Range 0 2);
  add O_version ["-V"; "--version"] KFlag Unchecked;
  add O_verbosity ["-v"; "--verbosity"] KUnsigned (Range 0 (LOG_NEXT - 1));
  add O_farm_recheck ["--farm-recheck"] KUnsigned (Range 1 99999);
  add O_farm_retries ["--farm-retries"] KUnsigned (Range 0 99999);
  add O_retry_delay ["--retry-delay"] KUnsigned (Range 1 999);
  add O_work_timeout ["--work-timeout"] KUnsigned (Range 180 99999);
  add O_response_timeout ["--response-timeout"] KUnsigned (Range 2 999);
  add O_report_hashrate ["-R"; "--report-hashrate"; "--report-hr"] KFlag Unchecked;
  add O_display_interval ["--display-interval"] KUnsigned (Range 1 1800);
  add O_exit ["--exit"] KFlag Unchecked;
  add O_pool ["-P"; "--pool"] KTexts Unchecked;
  add O_failover_timeout ["--failover-timeout"] KUnsigned (Range 0 999);
  add O_nocolor ["--nocolor"] KFlag Unchecked;
  add O_syslog ["--syslog"] KFlag Unchecked;
  add O_stdout ["--stdout"] KFlag Unchecked;
  add O_api_bind ["--api-bind"] KText CheckBind;
  add O_api_port ["--api-port"] KInt (Range (-65535) 65535);
  add O_api_password ["--api-password"] KText Unchecked;
  add O_threads ["-t"; "--threads"] KUnsigned (RangeUnsigned 1 numDevices);
  add O_list_devices ["--list-devices"] KFlag Unchecked;
  add O_cpu_devices ["--cpu-devices"; "--cp-devices"] KUnsigneds Unchecked;
  add O_noeval ["--noeval"] KFlag Unchecked;
  add O_dag_load_mode ["-L"; "--dag-load-mode"] KUnsigned (Range 0 1);
  add O_simulation ["-Z"; "--simulation"; "-M"; "--benchmark"] KUnsigned Unchecked;
  add O_large_pages ["--large-pages"] KFlag Unchecked;
  add O_hard_aes ["--hard-aes"] KFlag Unchecked;
  add O_jit_secure ["--jit-secure"] KFlag Unchecked].

(** ** The variables *)

(** All that the options set: the members of [MinerCLI] and the locals of [validateArgs] ([vars]),
    and the variables no other part of the model needs. *)
Record command_line := {
  vars : parsed;
  m_cliDisplayInterval : Z;
  g_exitOnError : bool;
  cl_log : log_settings;
  m_api_bind : string }.

(** Before the parse: [flags] are RANDOMX_FLAG_JIT | RANDOMX_FLAG_FULL_MEM, [hashRateId_] is the random text. *)
Definition initial_line (numDevices flags : Z) (hashRateId_ : string) : command_line := {|
  vars := {| bhelp := false; shelpExt := ""; show_version := false; pools := []; sim_count := 0;
    largePages := false; hardAes := false; secureJIT := false;
    parsed_cli := {| m_api_address := "0.0.0.0"; m_api_port := 0; m_api_password := "";
      m_miningThreads := Z.to_nat numDevices; m_mode := OM_None; m_shouldListDevices := false;
      m_FarmSettings := {| dagLoadMode := 0; noEval := true; ergodicity := 0 |};
      m_PoolSettings := {| getWorkPollInterval := 500; noWorkTimeout := 180; noResponseTimeout := 2;
        poolFailoverTimeout := 0; reportHashrate := false; hashRateInterval := 60; hashRateId := hashRateId_;
        connectionMaxRetries := 3; delayBeforeRetry := 0; benchmarkBlock := 0 |};
      pool_uris := []; cp_devices := []; cp_flags := flags; cli_logOptions := 0 |} |};
  m_cliDisplayInterval := 5; g_exitOnError := false;
  cl_log := {| g_logNoColor := false; g_logSyslog := false; g_logStdout := false |};
  m_api_bind := "" |}.

(** A converted argument. *)
Inductive value := VFlag (b : bool) | VInt (z : Z) | VText (s : string) | VTexts (l : list string) | VInts (l : list Z).
Definition as_flag (v : value) (old : bool) : bool := match v with VFlag b => b | _ => old end.
Definition as_int (v : value) (old : Z) : Z := match v with VInt z => z | _ => old end.
Definition as_text (v : value) (old : string) : string := match v with VText s => s | _ => old end.
Definition as_texts (v : value) (old : list string) : list string := match v with VTexts l => l | _ => old end.
Definition as_ints (v : value) (old : list Z) : list Z := match v with VInts l => l | _ => old end.

Section assign.
Context (o : option_id) (v : value).
(** The variable of option [o'] after option [o] has been processed. *)
Definition flag_of (o' : option_id) (old : bool) : bool := if decide (o = o') then as_flag v old else old.
Definition int_of (o' : option_id) (old : Z) : Z := if decide (o = o') then as_int v old else old.
Definition text_of (o' : option_id) (old : string) : string := if decide (o = o') then as_text v old else old.

Definition assign_farm (s : FarmSettings) : FarmSettings := {|
  dagLoadMode := int_of O_dag_load_mode (dagLoadMode s);
  noEval := flag_of O_noeval (noEval s);
  ergodicity := int_of O_ergodicity (ergodicity s) |}.

Definition assign_pool (s : PoolSettings) : PoolSettings := {|
  getWorkPollInterval := int_of O_farm_recheck (getWorkPollInterval s);
  noWorkTimeout := int_of O_work_timeout (noWorkTimeout s);
  noResponseTimeout := int_of O_response_timeout (noResponseTimeout s);
  poolFailoverTimeout := int_of O_failover_timeout (poolFailoverTimeout s);
  reportHashrate := flag_of O_report_hashrate (reportHashrate s);
  hashRateInterval := hashRateInterval s;
  hashRateId := hashRateId s;
  connectionMaxRetries := int_of O_farm_retries (connectionMaxRetries s);
  delayBeforeRetry := int_of O_retry_delay (delayBeforeRetry s);
  benchmarkBlock := int_of O_simulation (benchmarkBlock s) |}.

Definition assign_cli (c : MinerCLI) : MinerCLI := {|
  m_api_address := m_api_address c;
  m_api_port := int_of O_api_port (m_api_port c);
  m_api_password := text_of O_api_password (m_api_password c);
  m_miningThreads := Z.to_nat (int_of O_threads (Z.of_nat (m_miningThreads c)));
  m_mode := m_mode c;
  m_shouldListDevices := flag_of O_list_devices (m_shouldListDevices c);
  m_FarmSettings := assign_farm (m_FarmSettings c);
  m_PoolSettings := assign_pool (m_PoolSettings c);
  pool_uris := pool_uris c;
  cp_devices := if decide (o = O_cpu_devices) then as_ints v (cp_devices c) else cp_devices c;
  cp_flags := cp_flags c;
  cli_logOptions := int_of O_verbosity (cli_logOptions c) |}.

(** [count] is [sim_opt->count()]. *)
Definition assign (count : nat) (l : command_line) : command_line :=
  let p := vars l in {|
  vars := {|
    bhelp := flag_of O_help (bhelp p);
    shelpExt := text_of O_help_ext (shelpExt p);
    show_version := flag_of O_version (show_version p);
    pools := if decide (o = O_pool) then as_texts v (pools p) else pools p;
    sim_count := if decide (o = O_simulation) then count else sim_count p;
    largePages := flag_of O_large_pages (largePages p);
    hardAes := flag_of O_hard_aes (hardAes p);
    secureJIT := flag_of O_jit_secure (secureJIT p);
    parsed_cli := assign_cli (parsed_cli p) |};
  m_cliDisplayInterval := int_of O_display_interval (m_cliDisplayInterval l);
  g_exitOnError := flag_of O_exit (g_exitOnError l);
  cl_log := {| g_logNoColor := flag_of O_nocolor (g_logNoColor (cl_log l));
               g_logSyslog := flag_of O_syslog (g_logSyslog (cl_log l));
               g_logStdout := flag_of O_stdout (g_logStdout (cl_log l)) |};
  m_api_bind := text_of O_api_bind (m_api_bind l) |}.
End assign.

(** What the check of the binding assigns. *)
Definition set_binding (b : string * Z) (l : command_line) : command_line :=
  let p := vars l in let c := parsed_cli p in {|
  vars := {| bhelp := bhelp p; shelpExt := shelpExt p; show_version := show_version p; pools := pools p;
    sim_count := sim_count p; largePages := largePages p; hardAes := hardAes p; secureJIT := secureJIT p;
    parsed_cli := {| m_api_address := fst b; m_api_port := snd b; m_api_password := m_api_password c;
      m_miningThreads := m_miningThreads c; m_mode := m_mode c; m_shouldListDevices := m_shouldListDevices c;
      m_FarmSettings := m_FarmSettings c; m_PoolSettings := m_PoolSettings c; pool_uris := pool_uris c;
      cp_devices := cp_devices c; cp_flags := cp_flags c; cli_logOptions := cli_logOptions c |} |};
  m_cliDisplayInterval := m_cliDisplayInterval l; g_exitOnError := g_exitOnError l; cl_log := cl_log l;
  m_api_bind := m_api_bind l |}.

(** ** Processing *)

(** The conversions of the library: two conversions of one text agree on the number it denotes. *)
Class Cli11 := {
  cast_int : string -> option Z;
  cast_unsigned : string -> option Z;
  cast_flag : list string -> option bool;
  cast_unsigned_range : forall s z, cast_unsigned s = Some z -> in_range 32 z;
  cast_agree : forall s y z, cast_int s = Some y -> cast_unsigned s = Some z -> y = z }.

Section options.
Context {Lib : Cli11} (address_from_string : string -> option string).

(** [CLI::ValidationError], [CLI::ConversionError], [CLI::ArgumentMismatch]. *)
Definition refuse {A} (o : declaration) : SE command_line A :=
  se_throw (RuntimeError (default "" (head (names o)) +:+ ": invalid argument")).

(** One argument is checked. *)
Definition check_argument (o : declaration) (s : string) : SE command_line unit :=
  match checked o with
  | Unchecked => se_ret tt
  | Range min max =>
      match cast_int s with
      | Some z => if (min <=? z) && (z <=? max) then se_ret tt else refuse o
      | None => refuse o
      end
  | RangeUnsigned min max =>
      match cast_unsigned s with
      | Some z => if (min <=? z) && (z <=? max) then se_ret tt else refuse o
      | None => refuse o
      end
  | IsMember l => if bool_decide (s ∈ l) then se_ret tt else refuse o
  | CheckBind => fun l =>
      let c := parsed_cli (vars l) in
      let '(r, b) := api_bind_check address_from_string s (m_api_address c, m_api_port c) in
      (r, set_binding b l)
  end.
Fixpoint check_arguments (o : declaration) (args : list string) : SE command_line unit :=
  match args with
  | [] => se_ret tt
  | s :: args' => (exec check_argument o s; check_arguments o args')%se
  end.

(** The arguments are converted to the type of the variable. *)
Definition convert (o : declaration) (args : list string) : option value :=
  match var o, args with
  | KFlag, _ => VFlag <$> cast_flag args
  | KInt, [s] => VInt <$> cast_int s
  | KUnsigned, [s] => VInt <$> cast_unsigned s
  | KText, [s] => Some (VText s)
  | KTexts, _ => Some (VTexts args)
  | KUnsigneds, _ => VInts <$> mapM cast_unsigned args
  | _, _ => None
  end.

Definition process (o : declaration) (args : list string) : SE command_line unit :=
  (exec check_arguments o args;
   match convert o args with
   | Some v => se_modify (assign (id o) v (length args))
   | None => refuse o
   end)%se.

(** All declared options; [given o] are the arguments of an option that was given, [None] for one
    that was not. *)
Fixpoint process_all (l : list declaration) (given : option_id -> option (list string)) : SE command_line unit :=
  match l with
  | [] => se_ret tt
  | o :: l' =>
      (exec match given (id o) with Some args => process o args | None => se_ret tt end;
       process_all l' given)%se
  end.

(** [app.parse(argc, argv)]: [parse] is the part that takes the texts apart, which fails for unknown
    options. *)
Definition app_parse (parse : list declaration -> list string -> res (option_id -> option (list string)))
    (numDevices flags : Z) (hashRateId_ : string) (argv : list string) : res command_line :=
  let! given := parse (declarations numDevices) argv in
  match process_all (declarations numDevices) given (initial_line numDevices flags hashRateId_) with
  | (Ok _, l) => Ok l
  | (Throw e, _) => Throw e
  end.
End options.

(** [main], after [validateArgs]: the environment variables [SYSLOG] and [NO_COLOR]. *)
Definition env_log_settings (SYSLOG NO_COLOR : bool) (st : log_settings) : log_settings :=
  let syslog := SYSLOG || g_logSyslog st in {|
  g_logNoColor := syslog || NO_COLOR || g_logNoColor st; g_logSyslog := syslog; g_logStdout := g_logStdout st |}.

(** * Proofs *)

(** What the checks are to guarantee of the variables: the range of the option, and for the retry delay
    also its default, which lies outside the range. *)
Definition in_bounds (numDevices : Z) (l : command_line) : Prop :=
  let c := parsed_cli (vars l) in let s := m_PoolSettings c in let f := m_FarmSettings c in
  (1 <= getWorkPollInterval s <= 99999 /\ 0 <= connectionMaxRetries s <= 99999 /\
   (delayBeforeRetry s = 0 \/ 1 <= delayBeforeRetry s <= 999) /\ 180 <= noWorkTimeout s <= 99999 /\ 2 <= noResponseTimeout s <= 999 /\
   0 <= poolFailoverTimeout s <= 999 /\ in_range 32 (benchmarkBlock s)) /\
  (0 <= ergodicity f <= 2 /\ 0 <= dagLoadMode f <= 1) /\
  (0 <= cli_logOptions c < LOG_NEXT /\ 1 <= m_cliDisplayInterval l <= 1800 /\
   -65535 <= m_api_port c <= 65535 /\ Z.of_nat (m_miningThreads c) <= numDevices /\
   (1 <= numDevices -> 1 <= Z.of_nat (m_miningThreads c)) /\
   (shelpExt (vars l) = "" \/ shelpExt (vars l) ∈ contexts) /\ Forall (in_range 32) (cp_devices c)).

(** The values option [o] may get. *)
Definition value_ok (numDevices : Z) (o : option_id) (v : value) : Prop :=
  match o, v with
  | O_ergodicity, VInt z => 0 <= z <= 2
  | O_verbosity, VInt z => 0 <= z <= 511
  | O_farm_recheck, VInt z => 1 <= z <= 99999
  | O_farm_retries, VInt z => 0 <= z <= 99999
  | O_retry_delay, VInt z => 1 <= z <= 999
  | O_work_timeout, VInt z => 180 <= z <= 99999
  | O_response_timeout, VInt z => 2 <= z <= 999
  | O_display_interval, VInt z => 1 <= z <= 1800
  | O_failover_timeout, VInt z => 0 <= z <= 999
  | O_api_port, VInt z => -65535 <= z <= 65535
  | O_threads, VInt z => 1 <= z <= numDevices
  | O_dag_load_mode, VInt z => 0 <= z <= 1
  | O_simulation, VInt z => in_range 32 z
  | O_help_ext, VText s => s ∈ contexts
  | O_cpu_devices, VInts l => Forall (in_range 32) l
  | _, _ => True
  end.

Lemma int_of_ok (P : Z -> Prop) o v o' old : (forall z, v = VInt z -> o = o' -> P z) -> P old -> P (int_of o v o' old).
Proof. intros Hv Ho. unfold int_of. case_decide; [|done]. destruct v; cbn; eauto. Qed.

Lemma assign_in_bounds numDevices o v count l :
  value_ok numDevices o v -> in_bounds numDevices l -> in_bounds numDevices (assign o v count l).
Proof.
  intros Hv (H1 & H2 & H3). unfold in_bounds, LOG_NEXT in *.
  cbn [assign vars parsed_cli assign_cli m_PoolSettings m_FarmSettings assign_pool assign_farm m_cliDisplayInterval
    getWorkPollInterval connectionMaxRetries delayBeforeRetry noWorkTimeout noResponseTimeout poolFailoverTimeout
    benchmarkBlock ergodicity dagLoadMode cli_logOptions m_api_port m_miningThreads shelpExt cp_devices].
  assert (Ht : 0 <= int_of o v O_threads (Z.of_nat (m_miningThreads (parsed_cli (vars l)))) <= numDevices /\
    (1 <= numDevices -> 1 <= int_of o v O_threads (Z.of_nat (m_miningThreads (parsed_cli (vars l)))))).
  { apply int_of_ok; [|lia]. intros z -> ->. cbn in Hv. lia. }
  rewrite Z2Nat.id by lia.
  split_and!; try (apply int_of_ok; [intros z -> ->; cbn in Hv; lia || done|tauto || lia]); try tauto.
  - unfold text_of. case_decide as E; [subst o|tauto]. destruct v; cbn in Hv |- *; tauto.
  - case_decide as E; [subst o|tauto]. destruct v; cbn in Hv |- *; tauto.
Qed.

Section options_theorems.
Context {Lib : Cli11} (address_from_string : string -> option string).
#[local] Notation check_arguments := (check_arguments address_from_string).
#[local] Notation process := (process address_from_string).
#[local] Notation process_all := (process_all address_from_string).

Lemma se_bind_ok {S A B} (m : SE S A) (k : A -> SE S B) s b s' :
  se_bind m k s = (Ok b, s') -> exists a s1, m s = (Ok a, s1) /\ k a s1 = (Ok b, s').
Proof. unfold se_bind. destruct (m s) as [[a|e] s1]; [by eauto|done]. Qed.

(** An integer that has passed the check is in its range. *)
Lemma convert_in_range o args l l' z : check_arguments o args l = (Ok tt, l') -> convert o args = Some (VInt z) ->
  match checked o with
  | Range a b | RangeUnsigned a b => a <= z <= b
  | _ => var o = KUnsigned -> in_range 32 z
  end.
Proof.
  unfold convert. destruct (var o) eqn:Ev, args as [|s [|s2 args]]; try done;
    try (by destruct (cast_flag _)); try (by destruct (mapM _ _)).
  all: cbn [CliOptions.check_arguments]; intros Hc Hz; apply se_bind_ok in Hc as ([] & l1 & Hc & _);
    unfold check_argument in Hc; destruct (checked o) as [|a b|a b|m|];
    try (by intros; first [congruence | destruct (cast_unsigned s) eqn:E; [|done]; injection Hz as <-; by eapply cast_unsigned_range]).
  all: destruct (cast_int s) as [y|] eqn:E1, (cast_unsigned s) as [y'|] eqn:E2; try done;
    try (pose proof (cast_agree _ _ _ E1 E2)); cbn in Hz; simplify_eq;
    destruct (_ && _) eqn:Er in Hc; try done; bool_to_prop; lia.
Qed.

Lemma refuse_throws {A} o l (a : A) l' : refuse o l <> (Ok a, l').
Proof. done. Qed.

Lemma check_argument_bounds n o s l l' : check_argument address_from_string o s l = (Ok tt, l') ->
  in_bounds n l -> in_bounds n l' /\ (checked o <> CheckBind -> l' = l).
Proof.
  unfold check_argument. destruct (checked o) as [|a b|a b|m|].
  - by intros [= <-].
  - destruct (cast_int s); [|done]. destruct (_ && _); [by intros [= <-]|done].
  - destruct (cast_unsigned s); [|done]. destruct (_ && _); [by intros [= <-]|done].
  - case_bool_decide; [by intros [= <-]|done].
  - unfold api_bind_check. destruct (Cli.ParseBind _ _ _ _) as [[[]|e] [a p]] eqn:E; [|done]. intros [= <-].
    apply ParseBind_ok in E as [Hp _]. unfold in_bounds. cbn. split; [|done]. intuition lia.
Qed.

Lemma check_arguments_bounds n o args : forall l l', check_arguments o args l = (Ok tt, l') ->
  in_bounds n l -> in_bounds n l'.
Proof.
  induction args as [|s args IH]; intros l l'; cbn [CliOptions.check_arguments]; [by intros [= <-]|].
  intros H Hl. apply se_bind_ok in H as ([] & l1 & H1 & H2).
  eapply IH; [exact H2|]. by apply (check_argument_bounds n) in H1 as [? _].
Qed.

(** The arguments of a declared option, once checked, give an admissible value. *)
Lemma declared_value_ok n o args l l' v : o ∈ declarations n -> check_arguments o args l = (Ok tt, l') ->
  convert o args = Some v -> value_ok n (id o) v.
Proof.
  intros Ho Hc Hv. destruct v as [b|z|s|ss|zs]; try by destruct (id o).
  - pose proof (convert_in_range o args l l' z Hc Hv) as Hz.
    repeat (apply elem_of_cons in Ho as [->|Ho]; [cbn in Hz |- *; first [done | unfold LOG_NEXT in Hz; lia | by apply Hz]|]).
    by apply elem_of_nil in Ho.
  - destruct (decide (id o = O_help_ext)) as [E|E]; [|by destruct (id o)]. rewrite E. cbn.
    assert (checked o = IsMember contexts) as Em by (revert E; repeat (apply elem_of_cons in Ho as [->|Ho]; [done|]); by apply elem_of_nil in Ho).
    unfold convert in Hv. destruct (var o), args as [|s' [|? ?]]; try done;
      try (by destruct (cast_flag _)); try (by destruct (cast_int _)); try (by destruct (cast_unsigned _));
      try (by destruct (mapM _ _)). injection Hv as <-.
    cbn [CliOptions.check_arguments] in Hc. apply se_bind_ok in Hc as ([] & l1 & Hc & _). unfold check_argument in Hc.
    rewrite Em in Hc. by case_bool_decide.
  - destruct (id o); try done. cbn. unfold convert in Hv.
    destruct (var o), args as [|s' [|? ?]]; try done;
      try (by destruct (cast_flag _)); try (by destruct (cast_int _)); try (by destruct (cast_unsigned _)).
    all: destruct (mapM cast_unsigned _) as [zs'|] eqn:Em; [|done]; injection Hv as <-;
      apply mapM_Some in Em; clear -Em; induction Em; constructor; eauto using cast_unsigned_range.
Qed.

Lemma process_bounds n o args l l' : o ∈ declarations n -> process o args l = (Ok tt, l') ->
  in_bounds n l -> in_bounds n l'.
Proof.
  intros Ho H Hl. unfold CliOptions.process in H. apply se_bind_ok in H as ([] & l1 & H1 & H2).
  destruct (convert o args) as [v|] eqn:Ev; [|done]. injection H2 as <-.
  apply assign_in_bounds; [by eapply declared_value_ok|]. by eapply check_arguments_bounds.
Qed.

Lemma process_all_bounds n given os : (forall o, o ∈ os -> o ∈ declarations n) -> forall l l',
  process_all os given l = (Ok tt, l') -> in_bounds n l -> in_bounds n l'.
Proof.
  induction os as [|o os IH]; intros Hos l l'; cbn [CliOptions.process_all]; [by intros [= <-]|].
  intros H Hl. apply se_bind_ok in H as ([] & l1 & H1 & H2).
  eapply IH; [intros o' Ho'; apply Hos; by right|exact H2|].
  destruct (given (id o)); [|by injection H1 as <-]. eapply process_bounds; [apply Hos; by left|exact H1|exact Hl].
Qed.

(** The retry delay is that of its option, in the range of the option, or untouched. *)
Definition retry_delay (l : command_line) : Z := delayBeforeRetry (m_PoolSettings (parsed_cli (vars l))).

Lemma check_arguments_delay o args : forall l l', check_arguments o args l = (Ok tt, l') -> retry_delay l' = retry_delay l.
Proof.
  induction args as [|s args IH]; intros l l'; cbn [CliOptions.check_arguments]; [by intros [= <-]|].
  intros H. apply se_bind_ok in H as ([] & l1 & H1 & H2). rewrite (IH _ _ H2). revert H1. unfold check_argument.
  destruct (checked o); [by intros [= <-]|..|by destruct (api_bind_check _ _ _) as [r p]; intros [= -> <-]].
  all: repeat case_match; first [done | by intros [= <-]].
Qed.

Lemma process_delay n o args l l' : o ∈ declarations n -> process o args l = (Ok tt, l') ->
  if decide (id o = O_retry_delay) then 1 <= retry_delay l' <= 999 else retry_delay l' = retry_delay l.
Proof.
  intros Ho H. unfold CliOptions.process in H. apply se_bind_ok in H as ([] & l1 & H1 & H2).
  destruct (convert o args) as [v|] eqn:Ev; [|done]. injection H2 as <-.
  unfold retry_delay. cbn [assign vars parsed_cli assign_cli m_PoolSettings assign_pool delayBeforeRetry]. unfold int_of.
  case_decide as E; [|by apply check_arguments_delay in H1].
  pose proof (declared_value_ok n o args l l1 v Ho H1 Ev) as Hv. rewrite E in Hv.
  destruct v as [| |s|ss|zs]; try done; exfalso.
  all: repeat (apply elem_of_cons in Ho as [->|Ho]; [try discriminate E|]); try (by apply elem_of_nil in Ho).
  all: unfold convert in Ev; cbn in Ev; destruct args as [|s' [|? ?]]; try done; by destruct (cast_unsigned _).
Qed.

Lemma process_all_delay n given os : (forall o, o ∈ os -> o ∈ declarations n) -> forall l l',
  process_all os given l = (Ok tt, l') ->
  retry_delay l' = retry_delay l \/ 1 <= retry_delay l' <= 999.
Proof.
  induction os as [|o os IH]; intros Hos l l'; cbn [CliOptions.process_all]; [intros [= <-]; by left|].
  intros H. apply se_bind_ok in H as ([] & l1 & H1 & H2).
  destruct (IH ltac:(intros o' Ho'; apply Hos; by right) l1 l' H2) as [E|E]; [|by right].
  rewrite E. destruct (given (id o)) as [args|]; [|injection H1 as <-; by left].
  apply (process_delay n) in H1; [|apply Hos; by left]. case_decide; [by right|by left].
Qed.

Lemma process_all_retry_delay n given os : (forall o, o ∈ os -> o ∈ declarations n) ->
  forall l l', process_all os given l = (Ok tt, l') ->
  match given O_retry_delay with
  | None => retry_delay l' = retry_delay l
  | Some _ => (exists o, o ∈ os /\ id o = O_retry_delay) -> 1 <= retry_delay l' <= 999
  end.
Proof.
  induction os as [|o os IH]; intros Hos l l'; cbn [CliOptions.process_all].
  { intros [= <-]. destruct (given _); [|done]. intros (o & Ho & _). by apply elem_of_nil in Ho. }
  intros H. apply se_bind_ok in H as ([] & l1 & H1 & H2).
  assert (Hos' : forall o', o' ∈ os -> o' ∈ declarations n) by (intros o' Ho'; apply Hos; by right).
  pose proof (process_all_delay n given os Hos' _ _ H2) as Hk.
  specialize (IH Hos' _ _ H2). pose proof (fun args => process_delay n o args l l1 (Hos o ltac:(by left))) as Hp.
  destruct (given O_retry_delay) as [args|] eqn:Eg.
  - intros (o' & Ho' & Hid). apply elem_of_cons in Ho' as [->|Ho']; [|by eauto].
    rewrite Hid, Eg in H1. specialize (Hp _ H1). rewrite decide_True in Hp by done. destruct Hk as [->|]; done.
  - rewrite IH. destruct (given (id o)) as [args|] eqn:Eo; [|by injection H1 as <-].
    specialize (Hp _ H1). rewrite decide_False in Hp; [done|]. intros Hid. congruence.
Qed.

(** Whatever goes wrong in a declared option is a [std::runtime_error]. *)
Lemma process_all_error given os : forall l e l',
  process_all os given l = (Throw e, l') -> exists w, e = RuntimeError w.
Proof.
  assert (Hc : forall o s l e l', check_argument address_from_string o s l = (Throw e, l') -> exists w, e = RuntimeError w).
  { intros o s l e l'. unfold check_argument, refuse, se_throw. destruct (checked o) as [|a b|a b|m|]; repeat case_match; intros; simplify_eq; eauto.
    unfold api_bind_check in *. destruct (Cli.ParseBind _ _ _ _) as [[[]|x] b'] eqn:E; simplify_eq. revert E. unfold Cli.ParseBind.
    destruct (regex_match _ _) as [m|]; [|by intros [= <- _]; eauto]. rewrite run_modify. case_bool_decide; [by intros [= <- _]; eauto|].
    rewrite run_lift. unfold stoi. destruct (strto _ _) as [[neg z]|]; [|by intros [= <- _]; eauto].
    cbv zeta. destruct (_ && _); [|by intros [= <- _]; eauto]. rewrite run_modify. destruct (port_allowed _ _); [done|].
    by intros [= <- _]; eauto. }
  assert (Hcs : forall o args l e l', check_arguments o args l = (Throw e, l') -> exists w, e = RuntimeError w).
  { intros o args. induction args as [|s args IH]; intros l e l'; cbn [CliOptions.check_arguments]; [done|].
    unfold se_bind. destruct (check_argument _ o s l) as [[[]|x] l1] eqn:E; [apply IH|]. intros [= -> ->]. by eapply Hc. }
  induction os as [|o os IH]; intros l e l'; cbn [CliOptions.process_all]; [done|].
  unfold se_bind at 1. destruct (given (id o)) as [args|]; [|apply IH].
  destruct (process o args l) as [[[]|x] l1] eqn:E; [apply IH|]. intros [= -> ->]. revert E.
  unfold CliOptions.process, se_bind. destruct (check_arguments o args l) as [[[]|x] l1'] eqn:E1; [|by intros [= -> ->]; eapply Hcs].
  destruct (convert o args); [done|]. intros [= <- <-]. by eexists.
Qed.
End options_theorems.

Section cli.
Context {Jsn : Json} {Big : BigInteger} {Bst : BoostUri} {Eth : Ethash} {Lib : Cli11}.

(** [validateArgs] sets the mode, the pools and the flags of the RandomY library only. *)
Lemma validateArgs_keeps large aes secure noverify p c ws :
  validateArgs large aes secure noverify (Ok p) = Ok (true, c, ws) ->
  exists m us fl, c = with_mode m us fl (parsed_cli p).
Proof.
  unfold validateArgs. cbn [res_bind]. destruct (_ || _); [done|].
  destruct (if (0 <? sim_count p)%nat then _ else _) as [[m us]|]; [|done]. cbn [res_bind].
  destruct (_ && _); [|intros [= <- _]; eauto]. destruct (pools p) as [|url l]; [done|].
  destruct (configure_pools _ _ _ _ _) as [[us' ws']|]; [|done]. cbn [res_bind]. intros [= <- _]. eauto.
Qed.

Lemma map_set_length {V} k (v : V) d : (length d <= length (map_set k v d))%nat /\ map_set k v d <> [].
Proof. induction d as [|[k' v'] d [IH _]]; cbn; [auto|]. destruct (String.compare k k'); cbn; split; (lia || done). Qed.

Lemma enumDevices_nonempty memory boost_name n : (0 < n)%nat -> enumDevices memory boost_name n [] <> [].
Proof.
  intros Hn. unfold enumDevices. destruct n as [|n]; [lia|]. cbn [List.seq fold_left].
  assert (H : enum_device memory boost_name [] 0 <> []) by apply map_set_length. revert H.
  generalize (enum_device memory boost_name [] 0). induction (List.seq 1 n) as [|i l IH]; intros d Hd; [done|].
  cbn [fold_left]. apply IH. apply map_set_length.
Qed.

(** Without a request every device is subscribed. *)
Lemma execute_all memory boost_name now rnd c : (0 < m_miningThreads c)%nat ->
  m_shouldListDevices c = false -> cp_devices c = [] ->
  exists f, execute memory boost_name now rnd c = Ok (MiningStarted f).
Proof.
  intros Hn Hlist Hr. unfold execute. rewrite Hlist, Hr. cbn [subscribe_devices].
  pose proof (enumDevices_nonempty memory boost_name _ Hn) as Hd. destruct (enumDevices _ _ _ _) as [|d l]; [done|].
  cbn [length Nat.eqb]. eauto.
Qed.

(** C28: The settings the program runs with are within their bounds: whatever the command line, when
    it is accepted the intervals, time-outs, retries and modes, the verbosity, the port and the number
    of threads are in the ranges of their options, given or not; only the delay before a retry is not,
    unless its option is given: its default is 0 and the range of the option starts at 1. Then the
    program does not refuse to mine for want of devices on a machine that has one, unless devices were
    named. An argument that is refused, the API binding included, ends the program with exit code 2
    (where the table of return values in [main] has 1 for invalid command line arguments). *)
Theorem accepted_options (address_from_string : string -> option string)
    (parse : list declaration -> list string -> res (option_id -> option (list string)))
    (is_runtime_error : string -> bool) (numDevices flags : Z) (hashRateId_ : string) (argv : list string) :
  0 <= numDevices ->
  (forall l, app_parse address_from_string parse numDevices flags hashRateId_ argv = Ok l ->
     in_bounds numDevices l /\
     (forall given, parse (declarations numDevices) argv = Ok given ->
        match given O_retry_delay with
        | Some _ => 1 <= retry_delay l <= 999
        | None => retry_delay l = 0
        end) /\
     forall large aes secure noverify c ws, validateArgs large aes secure noverify (Ok (vars l)) = Ok (true, c, ws) ->
       1 <= numDevices -> m_shouldListDevices c = false -> cp_devices c = [] ->
       forall memory boost_name now rnd, exists f, execute memory boost_name now rnd c = Ok (MiningStarted f)) /\
  (forall given e, parse (declarations numDevices) argv = Ok given ->
     app_parse address_from_string parse numDevices flags hashRateId_ argv = Throw e ->
     exit_code is_runtime_error e = Some 2).
Proof.
  intros Hn. unfold app_parse. split.
  - intros l. destruct (parse _ _) as [given|]; [|done]. cbn [res_bind].
    destruct (process_all _ _ _ _) as [[[]|e] l1] eqn:E; [|done]. intros [= <-].
    assert (Hb : in_bounds numDevices l1).
    { apply (process_all_bounds address_from_string numDevices given (declarations numDevices) ltac:(done) _ _ E). unfold in_bounds, in_range, LOG_NEXT. cbn.
      split_and!; try lia; [by left|constructor]. }
    split; [done|]. split.
    { intros ? [= <-]. pose proof (process_all_retry_delay address_from_string numDevices given (declarations numDevices)
        ltac:(done) _ _ E) as Hd. destruct (given O_retry_delay); [|done]. apply Hd.
      exists (add O_retry_delay ["--retry-delay"] KUnsigned (Range 1 999)). split; [|done].
      unfold declarations. repeat (first [by left | right]). }
    intros large aes secure noverify c ws Hv H1 Hlist Hr memory boost_name now rnd.
    apply validateArgs_keeps in Hv as (m & us & fl & ->). apply execute_all; [|done|done].
    cbn [m_miningThreads with_mode]. destruct Hb as (_ & _ & _ & _ & _ & _ & Ht & _). specialize (Ht H1). lia.
  - intros given e ->. cbn [res_bind]. destruct (process_all _ _ _ _) as [[[]|x] l1] eqn:E; [done|]. intros [= <-].
    by apply process_all_error in E as [w ->].
Qed.
End cli.

(** ** Witness *)

Module Cli11Model.
Definition to_int (s : string) : option Z := match stoi s 10 with Ok z => Some z | Throw _ => None end.
Definition to_unsigned (s : string) : option Z :=
  match to_int s with Some z => if (0 <=? z) && (z <? 2 ^ 32) then Some z else None | None => None end.
#[global] Instance library : Cli11.
Proof.
  refine {| cast_int := to_int; cast_unsigned := to_unsigned; cast_flag := fun _ => Some true |}.
  - unfold to_unsigned. intros s z. destruct (to_int s) as [y|]; [|done]. destruct (_ && _) eqn:E; [|done].
    intros [= ->]. bool_to_prop. unfold in_range. lia.
  - unfold to_unsigned. intros s y z ->. destruct (_ && _); congruence.
Defined.
(** [--threads 2 --retry-delay 7 --api-bind 127.0.0.1:-3333 -P stratum+tcp://a@one.org:1], and a refused time-out. *)
Definition given (o : option_id) : option (list string) :=
  match o with
  | O_threads => Some ["2"] | O_api_bind => Some ["127.0.0.1:-3333"] | O_pool => Some ["stratum+tcp://a@one.org:1"]
  | O_retry_delay => Some ["7"]
  | _ => None
  end.
Definition short_timeout (o : option_id) : option (list string) :=
  match o with O_work_timeout => Some ["179"] | _ => None end.
Definition no_options (o : option_id) : option (list string) := None.
Definition line (g : option_id -> option (list string)) : res command_line :=
  app_parse (fun a => Some a) (fun _ _ => Ok g) 4 0 "" [].
End Cli11Model.

#[local] Existing Instance JsonModel.json.
#[local] Existing Instance BoostModel.boost.
#[local] Existing Instance BigIntegerModel.instance.
#[local] Existing Instance zero_ethash.

Lemma accepted_options_witness :
  (exists l, Cli11Model.line Cli11Model.given = Ok l /\ m_api_port (parsed_cli (vars l)) = -3333 /\
     m_miningThreads (parsed_cli (vars l)) = 2%nat /\ in_bounds 4 l /\ retry_delay l = 7) /\
  (exists l, Cli11Model.line Cli11Model.no_options = Ok l /\ retry_delay l = 0) /\
  (exists e, Cli11Model.line Cli11Model.short_timeout = Throw e /\ exit_code (fun _ => true) e = Some 2).
Proof.
  split_and!.
  - destruct (Cli11Model.line Cli11Model.given) as [l|e] eqn:E; [|vm_compute in E; discriminate E].
    exists l. split; [done|]. split; [vm_compute in E; by injection E as <-|].
    split; [vm_compute in E; by injection E as <-|].
    split; [by apply (accepted_options (fun a => Some a) (fun _ _ => Ok Cli11Model.given) (fun _ => true) 4 0 "" [])|].
    vm_compute in E. by injection E as <-.
  - destruct (Cli11Model.line Cli11Model.no_options) as [l|e] eqn:E; [|vm_compute in E; discriminate E].
    exists l. split; [done|].
    destruct (proj1 (accepted_options (fun a => Some a) (fun _ _ => Ok Cli11Model.no_options) (fun _ => true) 4 0 "" []
      ltac:(lia)) l E) as (_ & Hd & _). exact (Hd _ eq_refl).
  - destruct (Cli11Model.line Cli11Model.short_timeout) as [l|e] eqn:E; [vm_compute in E; discriminate E|].
    exists e. split; [done|].
    by apply (accepted_options (fun a => Some a) (fun _ _ => Ok Cli11Model.short_timeout) (fun _ => true) 4 0 "" [])
      with (given := Cli11Model.short_timeout).
Defined.
