(* ===== verification/CliHelp.v ===== *)
(** * coreminer/main.cpp: the help texts

    What [MinerCLI::help] and [MinerCLI::helpExt] of src/coreminer/main.cpp print, line by line, and
    that it agrees with the options that are declared (CliOptions) and the schemes that are known
    (PoolURI).  Built with the API (API_CORE), not on Windows. *)

From S2P Require Import Prelude CppString PoolURI Cli CliOptions.

(** ** The texts *)

(** [help] *)
Definition help_lines : list string := [
  "Coreminer - CPU CryptOre miner";
  "minimal usage : coreminer [DEVICES_TYPE] [OPTIONS] -P... [-P...]";
  "";
  "Connection options :";
  "";
  "    -P,--pool           Stratum pool or http (getWork) connection as URL";
  "                        scheme://[user[.workername][:password]@]hostname:port[/...]";
  "                        For an explication and some samples about";
  "                        how to fill in this value please use";
  "                        coreminer --help-ext con";
  "";
  "Common Options :";
  "";
  "    -h,--help           Displays this help text and exits";
  "    -H,--help-ext       TEXT {'con','test',cp,api,'misc','env'}";
  "                        Display help text about one of these contexts:";
  "                        'con'  Connections and their definitions";
  "                        'test' Benchmark/Simulation options";
  "                        'cp'   Extended CPU options";
  "                        'api'  API and Http monitoring interface";
  "                        'misc' Other miscellaneous options";
  "                        'env'  Using environment variables";
  "    -V,--version        Show program version and exits";
  ""].

(** [helpExt]: the text of each context. *)
Definition test_lines : list string := [
  "Benchmarking / Simulation options :";
  "";
  "    When playing with benchmark or simulation no connection specification is";
  "    needed ie. you can omit any -P argument.";
  "";
  "    -M,--benchmark      UINT [0 ..] Default not set";
  "                        Mining test. Used to test hashing speed.";
  "                        Specify the block number to test on.";
  "";
  "    -Z,--simulation     UINT [0 ..] Default not set";
  "                        Mining test. Used to test hashing speed.";
  "                        Specify the block number to test on.";
  ""].

Definition api_lines : list string := [
  "API Interface Options :";
  "";
  "    Ethminer provide an interface for monitor and or control";
  "    Please note that information delivered by API interface";
  "    may depend on value of --HWMON";
  "    A single endpoint is used to accept both HTTP or plain tcp";
  "    requests.";
  "";
  "    --api-bind          TEXT Default not set";
  "                        Set the API address:port the miner should listen on. ";
  "                        Use negative port number for readonly mode";
  "    --api-port          INT [1 .. 65535] Default not set";
  "                        Set the API port, the miner should listen on all bound";
  "                        addresses. Use negative numbers for readonly mode";
  "    --api-password      TEXT Default not set";
  "                        Set the password to protect interaction with API server. ";
  "                        If not set, any connection is granted access. ";
  "                        Be advised passwords are sent unencrypted over plain TCP!!"].

Definition cp_lines : list string := [
  "CPU Extended Options :";
  "";
  "    Use this extended CPU arguments";
  "";
  "    --cp-devices        UINT {} Default not set";
  "                        Space separated list of device indexes to use";
  "                        eg --cp-devices 0 2 3";
  "                        If not set all available CPUs will be used";
  ""].

Definition env_lines : list string := [
  "Environment variables :";
  "";
  "    If you need or do feel more comfortable you can set the following";
  "    environment variables. Please respect letter casing.";
  "";
  "    NO_COLOR            Set to any value to disable colored output.";
  "                        Acts the same as --nocolor command line argument";
  "    SYSLOG              Set to any value to strip timestamp, colors and channel";
  "                        from output log.";
  "                        Acts the same as --syslog command line argument";
  "    SSL_CERT_FILE       Set to the full path to of your CA certificates file";
  "                        if it is not in standard path :";
  "                        /etc/ssl/certs/ca-certificates.crt.";
  "    SSL_NOVERIFY        set to any value to to disable the verification chain for";
  "                        certificates. WARNING ! Disabling certificate validation";
  "                        declines every security implied in connecting to a secured";
  "                        SSL/TLS remote endpoint.";
  "                        USE AT YOU OWN RISK AND ONLY IF YOU KNOW WHAT YOU'RE DOING"].

Definition con_lines : list string := [
  "Connections specifications :";
  "";
  "    Whether you need to connect to a stratum pool or to make use of getWork polling";
  "    mode (generally used to solo mine) you need to specify the connection making use";
  "    of -P command line argument filling up the URL. The URL is in the form :";
  "    ";
  "    scheme://[user[.workername][:password]@]hostname:port[/...].";
  "    ";
  "    where 'scheme' can be any of :";
  "    ";
  "    getwork    for http getWork mode";
  "    stratum    for tcp stratum mode";
  "    stratums   for tcp encrypted stratum mode";
  "    stratumss  for tcp encrypted stratum mode with strong TLS 1.2 validation";
  "";
  "    Example 1: -P getwork://127.0.0.1:8545";
  "    Example 2: -P stratums://0x012345678901234567890234567890123.miner1@ethermine.org:5555";
  "    Example 3: -P stratum://0x012345678901234567890234567890123.miner1@nanopool.org:9999/john.doe%40gmail.com";
  "    Example 4: -P stratum://0x012345678901234567890234567890123@nanopool.org:9999/miner1/john.doe%40gmail.com";
  "";
  "    Please note: if your user or worker or password do contain characters";
  "    which may impair the correct parsing (namely any of . : @ # ?) you have to";
  "    enclose those values in backticks( ` ASCII 096) or Url Encode them";
  "    Also note that backtick has a special meaning in *nix environments thus";
  "    you need to further escape those backticks with backslash.";
  "";
  "    Example : -P stratums://\`account.121\`.miner1:x@ethermine.org:5555";
  "    Example : -P stratums://account%2e121.miner1:x@ethermine.org:5555";
  "    (In Windows backslashes are not needed)";
  "";
  "";
  "    Common url encoded chars are ";
  "    . (dot)      %2e";
  "    : (column)   %3a";
  "    @ (at sign)  %40";
  "    ? (question) %3f";
  "    # (number)   %23";
  "    / (slash)    %2f";
  "    + (plus)     %2b";
  "";
  "    You can add as many -P arguments as you want. Every -P specification";
  "    after the first one behaves as fail-over connection. When also the";
  "    the fail-over disconnects coreminer passes to the next connection";
  "    available and so on till the list is exhausted. At that moment";
  "    coreminer restarts the connection cycle from the first one.";
  "    An exception to this behavior is ruled by the --failover-timeout";
  "    command line argument. See 'coreminer -H misc' for details.";
  "";
  "    The special notation '-P exit' stops the failover loop.";
  "    When coreminer reaches this kind of connection it simply quits.";
  "";
  "    When using stratum mode coreminer tries to auto-detect the correct";
  "    flavour provided by the pool. Should be fine in 99% of the cases.";
  "    Nevertheless you might want to fine tune the stratum flavour by";
  "    any of of the following valid schemes :";
  "";
  "    " +:+ KnownSchemes PF_STRATUM;
  "";
  "    where a scheme is made up of two parts, the stratum variant + the tcp transport protocol";
  "";
  "    Stratum variants :";
  "";
  "        stratum     Stratum";
  "        stratum1    Eth Proxy compatible";
  "        stratum2    CoreStratum 1.0.0 (nicehash)";
  "        stratum3    CoreStratum 2.0.0";
  "";
  "    Transport variants :";
  "";
  "        tcp         Unencrypted tcp connection";
  "        tls         Encrypted tcp connection (including deprecated TLS 1.1)";
  "        tls12       Encrypted tcp connection with TLS 1.2";
  "        ssl         Encrypted tcp connection with TLS 1.2";
  ""].

(** [cout << ... << endl << ...] *)
Definition print (l : list string) : string := foldr (fun s t => s +:+ endl +:+ t) "" l.

Definition help : string := print help_lines.

(** The tests of the context one after the other, as in the source. *)
Definition helpExt (ctx : string) : string :=
  (if String.eqb ctx "test" then print test_lines else "") +:+
  (if String.eqb ctx "api" then print api_lines else "") +:+
  (if String.eqb ctx "cp" then print cp_lines else "") +:+
  (if String.eqb ctx "env" then print env_lines else "") +:+
  (if String.eqb ctx "con" then print con_lines else "").

(** What [validateArgs] prints before it returns false. *)
Definition printed_help (p : parsed) : string :=
  if bhelp p then help else if negb (String.eqb (shelpExt p) "") then helpExt (shelpExt p) else "".

(** * Proofs *)

(** ** Reading the texts *)

(** The text up to the first [c]. *)
Fixpoint until (c : ascii) (s : string) : string :=
  match s with
  | EmptyString => ""
  | String d s' => if Ascii.eqb d c then "" else String d (until c s')
  end.
Fixpoint split_on (c : ascii) (s : string) : list string :=
  match s with
  | EmptyString => [""]
  | String d s' =>
      if Ascii.eqb d c then "" :: split_on c s'
      else match split_on c s' with w :: l => String d w :: l | [] => [] end
  end.
(** A line that documents an option starts with four blanks and the names of the option. *)
Definition documented_names (line : string) : option (list string) :=
  if String.prefix "    -" line then Some (split_on "," (until " " (sdrop 4 line))) else None.
Definition all_lines : list string :=
  help_lines ++ test_lines ++ api_lines ++ cp_lines ++ env_lines ++ con_lines.
Definition documented : list (list string) := omap documented_names all_lines.

(** The words indented by eight blanks in the text on connections: variants, then transports. *)
Definition indented : list string :=
  omap (fun line => if String.prefix "        " line && negb (String.prefix "         " line)
                    then Some (until " " (sdrop 8 line)) else None) con_lines.
Definition variants : list string := take 4 indented.
Definition transports : list string := drop 4 indented.

Definition documents (l : list string) (o : declaration) : bool := forallb (fun n => bool_decide (n ∈ names o)) l.
Definition undocumented (n : Z) : list option_id :=
  id <$> filter (fun o => forallb (fun l => negb (documents l o)) documented = true) (declarations n).

#[local] Instance scheme_attributes_eq_dec : EqDecision SchemeAttributes.
Proof. solve_decision. Defined.

Lemma indexed {A} (l : list A) i x : l !! i = Some x -> In (i, x) (imap pair l).
Proof. intros H. apply list_elem_of_In, elem_of_lookup_imap. eauto. Qed.

Lemma forallb_In {A} (f : A -> bool) l x : forallb f l = true -> In x l -> f x = true.
Proof. intros H. apply (proj1 (forallb_forall _ _) H). Qed.

(** The help agrees with the program: whatever the number of devices, every line that documents
    an option names one declared option; the text on connections lists exactly the known stratum
    schemes, as products of a variant, whose number is the version, and a transport, whose security is
    the documented one; the accepted contexts print a text, all but one of them, and no other context
    prints anything. *)
Theorem help_is_accurate (numDevices : Z) :
  Forall (fun l => exists o, o ∈ declarations numDevices /\ documents l o = true) documented /\
  (forall v i t j, variants !! i = Some v -> transports !! j = Some t ->
     map_find (v +:+ "+" +:+ t) s_schemes =
       Some {| family := PF_STRATUM; secure := nth j [SL_NONE; SL_TLS; SL_TLS12; SL_TLS12] SL_NONE; version := Z.of_nat i |}) /\
  (forall ctx, helpExt ctx <> "" <-> ctx ∈ contexts /\ ctx <> "misc") /\
  undocumented numDevices =
    [O_ergodicity; O_verbosity; O_farm_recheck; O_farm_retries; O_retry_delay; O_work_timeout; O_response_timeout;
     O_report_hashrate; O_display_interval; O_exit; O_failover_timeout; O_nocolor; O_syslog; O_stdout; O_threads;
     O_list_devices; O_noeval; O_dag_load_mode; O_large_pages; O_hard_aes; O_jit_secure].
Proof.
  split_and!.
  - assert (H : forallb (fun l => existsb (documents l) (declarations numDevices)) documented = true) by (vm_compute; reflexivity).
    apply Forall_forall. intros l Hl. apply list_elem_of_In in Hl. apply (proj1 (forallb_forall _ _) H) in Hl.
    apply existsb_exists in Hl as (o & Ho & Hd). exists o. split; [by apply list_elem_of_In|done].
  - assert (H : forallb (fun x => forallb (fun y => bool_decide (map_find (snd x +:+ "+" +:+ snd y) s_schemes =
        Some {| family := PF_STRATUM; secure := nth (fst y) [SL_NONE; SL_TLS; SL_TLS12; SL_TLS12] SL_NONE; version := Z.of_nat (fst x) |}))
      (imap pair transports)) (imap pair variants) = true) by (vm_compute; reflexivity).
    intros v i t j Hv Ht.
    pose proof (forallb_In _ _ _ (forallb_In _ _ _ H (indexed _ _ _ Hv)) (indexed _ _ _ Ht)) as Hy.
    by apply bool_decide_eq_true in Hy.
  - intros ctx. unfold contexts. rewrite !elem_of_cons, elem_of_nil. unfold helpExt.
    repeat match goal with |- context [String.eqb ctx ?s] => destruct (String.eqb_spec ctx s); [subst ctx; split; [naive_solver|done]|] end.
    split; [done|naive_solver].
  - vm_compute. reflexivity.
Qed.
