(* ===== verification/Process.v ===== *)
(** * coreminer: the life of the process around the main loop

    The rest of [MinerCLI] and [main] of src/coreminer/main.cpp: the constructor and the destructor
    with the thread of the io service, the display timer and its re-arming, the signal handler, the
    console mode on Windows; and src/coreminer/DBusInt.h, which a build option adds.  [asio] and
    [libdbus] are libraries: the timer is modelled by its documented behaviour (setting the expiry
    aborts the waits under way), the calls of libdbus are recorded and their answers are
    arguments. *)

From S2P Require Import Prelude CppString CommonData FixedHash Worker Float.
From S2P Require Import Types Telemetry Log Miner CpuMiner Farm PoolURI Json PoolManager ApiStat ApiServer Cli.

(** ** The display timer *)

(** [live] waits end when the time comes, [aborted] ones with an error. *)
Record timer := { expiry : option Z; live : nat; aborted : nat }.   (* None: pos_infin *)

Definition expires_from_now (d : option Z) (t : timer) : timer :=
  {| expiry := d; live := 0; aborted := aborted t + live t |}.
Definition async_wait (t : timer) : timer :=
  {| expiry := expiry t; live := S (live t); aborted := aborted t |}.
Definition timer_cancel (t : timer) : timer :=
  {| expiry := expiry t; live := 0; aborted := aborted t + live t |}.

Record process := {
  m_cliDisplayTimer : timer;
  m_cliDisplayInterval : Z;
  io_running : bool;              (* g_io_service.run() in m_io_thread *)
  running : bool;                 (* g_running *)
  names : thread_names;
  displayed : list string;
  failed : option exn }.          (* an exception left a handler *)

Definition with_timer (t : timer) (s : process) : process := {|
  m_cliDisplayTimer := t; m_cliDisplayInterval := m_cliDisplayInterval s; io_running := io_running s;
  running := running s; names := names s; displayed := displayed s; failed := failed s |}.
Definition with_running (b : bool) (s : process) : process := {|
  m_cliDisplayTimer := m_cliDisplayTimer s; m_cliDisplayInterval := m_cliDisplayInterval s;
  io_running := io_running s; running := b; names := names s; displayed := displayed s; failed := failed s |}.
Definition with_names (n : thread_names) (s : process) : process := {|
  m_cliDisplayTimer := m_cliDisplayTimer s; m_cliDisplayInterval := m_cliDisplayInterval s;
  io_running := io_running s; running := running s; names := n; displayed := displayed s; failed := failed s |}.
Definition with_displayed (l : string) (s : process) : process := {|
  m_cliDisplayTimer := m_cliDisplayTimer s; m_cliDisplayInterval := m_cliDisplayInterval s;
  io_running := io_running s; running := running s; names := names s; displayed := displayed s ++ [l];
  failed := failed s |}.
Definition with_failed (e : exn) (s : process) : process := {|
  m_cliDisplayTimer := m_cliDisplayTimer s; m_cliDisplayInterval := m_cliDisplayInterval s;
  io_running := io_running s; running := running s; names := names s; displayed := displayed s;
  failed := Some e |}.

(** The constructor: the timer sleeps, the io service runs. *)
Definition MinerCLI_new (comm : string) : process := {|
  m_cliDisplayTimer := async_wait (expires_from_now None {| expiry := None; live := 0; aborted := 0 |});
  m_cliDisplayInterval := 5; io_running := true; running := false; names := initial_names comm;
  displayed := []; failed := None |}.

(** The destructor: the io service is stopped and its thread is joined; what was still to be
    called is not called any more. *)
Definition MinerCLI_delete (s : process) : process :=
  let s := with_timer (timer_cancel (m_cliDisplayTimer s)) s in
  {| m_cliDisplayTimer := m_cliDisplayTimer s; m_cliDisplayInterval := m_cliDisplayInterval s;
     io_running := false; running := running s; names := names s; displayed := displayed s; failed := failed s |}.

Definition arm_display (s : process) : process :=
  with_timer (async_wait (expires_from_now (Some (m_cliDisplayInterval s)) (m_cliDisplayTimer s))) s.

(** [execute] sets the flag; [doMiner] arms the timer with the interval. *)
Definition doMiner_display (s : process) : process := arm_display (with_running true s).

Section process.
Context {Jsn : Json} {Big : BigInteger} {Bst : BoostUri} {Eth : Ethash}.

(** [cliDisplayInterval_elapsed]: the line is logged and the timer armed again. *)
Definition display_elapsed (ec : bool) (now : Z) (p : PoolManager) (s : process) : process :=
  match cliDisplayInterval_elapsed ec (running s) now p with
  | Ok (Some logLine) => arm_display (with_displayed logLine s)
  | Ok None => s
  | Throw e => with_failed e s
  end.

(** [signalHandler] in thread [t]: what it does to the main loop, and to the process. *)
Definition signalHandler (sig : Z) (t : nat) (s : process) : list loop_event * process :=
  let s := with_names (setThreadName "main" t (names s)) s in
  if sig =? 999 then ([], s) else ([ESignal; ENotify], with_running false s).

(** ** What happens to the process *)

Inductive process_event :=
  | PStart                                     (* doMiner *)
  | PElapsed (now : Z) (p : PoolManager)       (* the time of the timer has come *)
  | PAborted (now : Z) (p : PoolManager)       (* the handler of an aborted wait *)
  | PSignal (sig : Z) (t : nat)
  | PDelete.

Definition less_live (t : timer) : timer := {| expiry := expiry t; live := pred (live t); aborted := aborted t |}.
Definition less_aborted (t : timer) : timer := {| expiry := expiry t; live := live t; aborted := pred (aborted t) |}.

(** The state after an event that can happen: handlers run on the io thread. *)
Definition process_step (e : process_event) (s : process) : option process :=
  match e with
  | PStart => if io_running s then Some (doMiner_display s) else None
  | PElapsed now p =>
      if io_running s && bool_decide (expiry (m_cliDisplayTimer s) <> None) && (0 <? live (m_cliDisplayTimer s))%nat
      then Some (display_elapsed false now p (with_timer (less_live (m_cliDisplayTimer s)) s)) else None
  | PAborted now p =>
      if io_running s && (0 <? aborted (m_cliDisplayTimer s))%nat
      then Some (display_elapsed true now p (with_timer (less_aborted (m_cliDisplayTimer s)) s)) else None
  | PSignal sig t => Some (snd (signalHandler sig t s))
  | PDelete => Some (MinerCLI_delete s)
  end.
Fixpoint process_run (l : list process_event) (s : process) : option process :=
  match l with
  | [] => Some s
  | e :: l' => match process_step e s with Some s' => process_run l' s' | None => None end
  end.
End process.

(** ** The console on Windows

    [out] is whether the standard output has a handle, [mode] its mode, [sets] whether it can be set:
    colours are kept only when the console can process the escape sequences. *)
Definition ENABLE_VIRTUAL_TERMINAL_PROCESSING : Z := 4.
Definition windows_colours (g_logNoColor out : bool) (mode : option Z) (sets : Z -> bool) : bool :=
  if negb g_logNoColor then
    match out, mode with
    | true, Some dwMode => negb (sets (Z.lor dwMode ENABLE_VIRTUAL_TERMINAL_PROCESSING))
    | _, _ => true
    end
  else g_logNoColor.

(** ** DBusInt *)

Inductive dbus_call :=
  | ErrorInit
  | BusGet (conn : option Z)
  | RequestName (conn : option Z) (name : string)
  | ConnectionClose (conn : option Z)
  | NewSignal (path interface signal : string) (msg : option Z)
  | AppendString (msg : option Z) (hash : string)
  | ConnectionSend (conn msg : option Z)
  | MessageUnref (msg : option Z)
  | Logged (text : string)
  | Printed (text : string).

(** The answers of the library: the bus, the error it left (name and message) when there is none,
    the error of the request for the name. *)
Record dbus := { bus : option Z; bus_error : string * string; name_error : option (string * string) }.

(** The object: the connection it keeps. *)
Definition DBusInt_new (w : dbus) : option Z * list dbus_call :=
  let text (e : string * string) := "DBus error " +:+ fst e +:+ ": " +:+ snd e in
  (bus w,
   [ErrorInit; BusGet (bus w)]
   ++ (if bool_decide (bus w = None) then [Logged (text (bus_error w))] else [])
   ++ [RequestName (bus w) "eth.miner"]
   ++ (match (if bool_decide (bus w = None) then Some (bus_error w) else name_error w) with
       | Some e => [Logged (text e); ConnectionClose (bus w)]
       | None => []
       end)
   ++ [Logged "DBus initialized!"]).

(** [send]: [msg] is the new message, [sent] whether it could be queued. *)
Definition DBusInt_send (conn msg : option Z) (sent : bool) (hash : string) : list dbus_call :=
  [NewSignal "/eth/miner/hash" "eth.miner.monitor" "Hash" msg]
  ++ (if bool_decide (msg = None) then [Logged "Message is null!"] else [])
  ++ [AppendString msg hash; ConnectionSend conn msg]
  ++ (if sent then [] else [Printed "Error sending message!"])
  ++ [MessageUnref msg].

(** A call libdbus allows: on a connection and with a message. *)
Definition dbus_defined (c : dbus_call) : bool :=
  match c with
  | RequestName None _ | ConnectionClose None | AppendString None _ | MessageUnref None => false
  | ConnectionSend conn msg => bool_decide (conn <> None) && bool_decide (msg <> None)
  | _ => true
  end.

(** * Proofs *)

Section process_theorems.
Context {Jsn : Json} {Big : BigInteger} {Bst : BoostUri} {Eth : Ethash}.

(** At most one wait is live, and only [doMiner] makes the timer run out; before it nothing is shown. *)
Definition process_inv (started : bool) (s : process) : Prop :=
  (live (m_cliDisplayTimer s) <= 1)%nat /\
  (started = false -> expiry (m_cliDisplayTimer s) = None /\ displayed s = [] /\ running s = false).


Lemma display_stopped ec now p s : running s = false -> display_elapsed ec now p s = s.
Proof. intros H. unfold display_elapsed, cliDisplayInterval_elapsed. by rewrite H, andb_false_r. Qed.
Lemma display_aborted now p s : display_elapsed true now p s = s.
Proof. done. Qed.

(** A handler arms the timer afresh or leaves it alone. *)
Lemma display_live ec now p s : (live (m_cliDisplayTimer s) <= 1)%nat ->
  (live (m_cliDisplayTimer (display_elapsed ec now p s)) <= 1)%nat.
Proof. intros H. unfold display_elapsed. by repeat case_match. Qed.

Definition is_start (e : process_event) : bool := match e with PStart => true | _ => false end.

Lemma process_step_inv b e s s' : process_inv b s -> process_step e s = Some s' ->
  process_inv (b || is_start e) s'.
Proof.
  intros [Hl Hb] Hs. unfold process_inv.
  destruct e as [|now p|now p|sig t|]; cbn [process_step is_start] in *; rewrite ?orb_false_r, ?orb_true_r.
  - case_match; simplify_eq. split; [cbn; lia | done].
  - case_match; simplify_eq. bool_to_prop. split; [apply display_live; cbn; lia|].
    intros Hf. by destruct (Hb Hf) as [He _].
  - case_match; simplify_eq. by split; [apply display_live|].
  - simplify_eq. unfold signalHandler. case_match; cbn [snd]; (split; [done|]); cbn; naive_solver.
  - simplify_eq. split; [cbn; lia | exact Hb].
Qed.

Lemma process_run_inv l : forall b s s', process_inv b s -> process_run l s = Some s' ->
  process_inv (b || existsb is_start l) s'.
Proof.
  induction l as [|e l IH]; intros b s s' Hi Hr; cbn [process_run existsb] in *.
  - simplify_eq. by rewrite orb_false_r.
  - destruct (process_step e s) as [s1|] eqn:E; [|done]. rewrite orb_assoc.
    eapply IH; [by eapply process_step_inv | done].
Qed.

(** The status line is shown by one timer: in every history of the process at most one wait is live,
    nothing is shown before the mining starts; once the flag is cleared by a signal, the wait that is
    live ends without showing anything and without being armed again; and after the destructor no
    handler runs. *)
Theorem display_timer (comm : string) (l : list process_event) (s : process) :
  process_run l (MinerCLI_new comm) = Some s ->
  (live (m_cliDisplayTimer s) <= 1)%nat /\
  (existsb is_start l = false -> displayed s = []) /\
  (forall sig t, sig <> 999 -> running (snd (signalHandler sig t s)) = false) /\
  (running s = false -> forall now p s', process_step (PElapsed now p) s = Some s' ->
     displayed s' = displayed s /\ live (m_cliDisplayTimer s') = 0%nat) /\
  (forall now p, process_step (PElapsed now p) (MinerCLI_delete s) = None /\
                 process_step (PAborted now p) (MinerCLI_delete s) = None).
Proof.
  intros Hr. destruct (process_run_inv l false (MinerCLI_new comm) s) as [Hl Hb]; [|done|].
  { split; [cbn; lia | done]. }
  split_and!; [done | intros Hs; by apply Hb | | | done].
  - intros sig t Hs. unfold signalHandler. apply Z.eqb_neq in Hs. by rewrite Hs.
  - intros Hrun now p s' E. cbn [process_step] in E. case_match; simplify_eq. bool_to_prop.
    rewrite display_stopped by done. cbn. split; [done | lia].
Qed.

End process_theorems.

(** A connection to the bus that fails is used all the same: the name is asked for on it, with the error
    still set, and it is closed; with a connection the constructor only makes calls libdbus allows. *)
Theorem dbus_without_bus (w : dbus) :
  forallb dbus_defined (snd (DBusInt_new w)) = bool_decide (bus w <> None) /\
  forall conn msg sent hash,
    forallb dbus_defined (DBusInt_send conn msg sent hash) = bool_decide (conn <> None) && bool_decide (msg <> None).
Proof.
  split.
  - unfold DBusInt_new. destruct w as [[b|] err ne]; [destruct ne|]; done.
  - intros conn msg sent hash. unfold DBusInt_send. by destruct conn, msg, sent.
Qed.

(** Colours stay off on a console that cannot show them, and are never turned on against the
    environment. *)
Lemma windows_colours_off g out mode sets : (g = true \/ out = false \/ mode = None \/ forall z, sets z = false) ->
  windows_colours g out mode sets = true.
Proof.
  unfold windows_colours. intros [->|[->|[->|H]]]; [done | by destruct g | by destruct g, out |].
  destruct g; [done|]. destruct out, mode; try done. cbn. by rewrite H.
Qed.

#[local] Existing Instance Farm.zero_ethash.
#[local] Existing Instance BoostModel.boost.
#[local] Existing Instance JsonModel.json.
#[local] Existing Instance BigIntegerModel.instance.

(** The line shown at the first tick, and the next wait. *)
Lemma display_timer_witness :
  exists s, process_run [PStart; PAborted 0 example_connecting; PElapsed 5 example_connecting; PSignal 15 1]
    (MinerCLI_new "core") = Some s /\ (live (m_cliDisplayTimer s) <= 1)%nat /\ displayed s = ["Not connected"].
Proof.
  eexists. split; [vm_compute; reflexivity|]. split; [|reflexivity].
  apply (display_timer "core" [PStart; PAborted 0 example_connecting; PElapsed 5 example_connecting; PSignal 15 1]).
  vm_compute. reflexivity.
Defined.
