(* ===== verification/Getwork.v ===== *)
(** * libpoolprotocols/getwork: the getwork client over HTTP

    [XcbGetworkClient] of src/libpoolprotocols/getwork/XcbGetworkClient.{h,cpp}: a request queue
    served one HTTP exchange at a time, the polling timer, the parsing of replies and the
    submission of solutions.  Asynchronous socket operations and the calls of the manager's
    handlers are output events; the completions are the [handle_*] operations.  The session is
    [Some] start time.  The connection is the URI object the manager handed over; the manager's
    disconnect handler releases it. *)

From S2P Require Import Prelude CppString Regex CommonData FixedHash Float.
From S2P Require Import Types PoolURI Json.

Inductive event :=
  | EvConnected | EvDisconnected
  | EvWork (wp : WorkPackage)
  | EvAccepted (delay minerIdx : Z)
  | EvRejected (delay minerIdx : Z)
  | EvResolve (host : string) (port : Z)      (* async_resolve *)
  | EvConnect (endpoint : string)             (* async_connect *)
  | EvWrite (request : string)                (* async_write *)
  | EvRead.                                   (* async_read *)

Section getwork.
Context `{Json, BoostUri}.

Record Getwork := {
  g_conn : option URI;
  m_farmRecheckPeriod : Z;
  m_worktimeout : Z;
  m_jsonGetWork : string;
  g_connected : bool;
  m_session : option Z;
  m_connecting : bool;
  m_txPending : bool;
  m_txQueue : list string;
  m_endpoints : list string;
  m_endpoint : option string;
  m_pendingJReq : J;
  m_pending_tstamp : Z;
  m_getwork_timer : option Z;
  m_current : WorkPackage;
  m_current_tstamp : Z;
  m_solution_submitted_max_id : Z;
  g_out : list event }.

(** Assignments to the members. *)
Definition gput_conn (x : option URI) (s : Getwork) : Getwork := {| g_conn := x; m_farmRecheckPeriod := m_farmRecheckPeriod s; m_worktimeout := m_worktimeout s; m_jsonGetWork := m_jsonGetWork s; g_connected := g_connected s; m_session := m_session s; m_connecting := m_connecting s; m_txPending := m_txPending s; m_txQueue := m_txQueue s; m_endpoints := m_endpoints s; m_endpoint := m_endpoint s; m_pendingJReq := m_pendingJReq s; m_pending_tstamp := m_pending_tstamp s; m_getwork_timer := m_getwork_timer s; m_current := m_current s; m_current_tstamp := m_current_tstamp s; m_solution_submitted_max_id := m_solution_submitted_max_id s; g_out := g_out s |}.
Definition gput_connected (x : bool) (s : Getwork) : Getwork := {| g_conn := g_conn s; m_farmRecheckPeriod := m_farmRecheckPeriod s; m_worktimeout := m_worktimeout s; m_jsonGetWork := m_jsonGetWork s; g_connected := x; m_session := m_session s; m_connecting := m_connecting s; m_txPending := m_txPending s; m_txQueue := m_txQueue s; m_endpoints := m_endpoints s; m_endpoint := m_endpoint s; m_pendingJReq := m_pendingJReq s; m_pending_tstamp := m_pending_tstamp s; m_getwork_timer := m_getwork_timer s; m_current := m_current s; m_current_tstamp := m_current_tstamp s; m_solution_submitted_max_id := m_solution_submitted_max_id s; g_out := g_out s |}.
Definition gput_session (x : option Z) (s : Getwork) : Getwork := {| g_conn := g_conn s; m_farmRecheckPeriod := m_farmRecheckPeriod s; m_worktimeout := m_worktimeout s; m_jsonGetWork := m_jsonGetWork s; g_connected := g_connected s; m_session := x; m_connecting := m_connecting s; m_txPending := m_txPending s; m_txQueue := m_txQueue s; m_endpoints := m_endpoints s; m_endpoint := m_endpoint s; m_pendingJReq := m_pendingJReq s; m_pending_tstamp := m_pending_tstamp s; m_getwork_timer := m_getwork_timer s; m_current := m_current s; m_current_tstamp := m_current_tstamp s; m_solution_submitted_max_id := m_solution_submitted_max_id s; g_out := g_out s |}.
Definition gput_connecting (x : bool) (s : Getwork) : Getwork := {| g_conn := g_conn s; m_farmRecheckPeriod := m_farmRecheckPeriod s; m_worktimeout := m_worktimeout s; m_jsonGetWork := m_jsonGetWork s; g_connected := g_connected s; m_session := m_session s; m_connecting := x; m_txPending := m_txPending s; m_txQueue := m_txQueue s; m_endpoints := m_endpoints s; m_endpoint := m_endpoint s; m_pendingJReq := m_pendingJReq s; m_pending_tstamp := m_pending_tstamp s; m_getwork_timer := m_getwork_timer s; m_current := m_current s; m_current_tstamp := m_current_tstamp s; m_solution_submitted_max_id := m_solution_submitted_max_id s; g_out := g_out s |}.
Definition gput_txPending (x : bool) (s : Getwork) : Getwork := {| g_conn := g_conn s; m_farmRecheckPeriod := m_farmRecheckPeriod s; m_worktimeout := m_worktimeout s; m_jsonGetWork := m_jsonGetWork s; g_connected := g_connected s; m_session := m_session s; m_connecting := m_connecting s; m_txPending := x; m_txQueue := m_txQueue s; m_endpoints := m_endpoints s; m_endpoint := m_endpoint s; m_pendingJReq := m_pendingJReq s; m_pending_tstamp := m_pending_tstamp s; m_getwork_timer := m_getwork_timer s; m_current := m_current s; m_current_tstamp := m_current_tstamp s; m_solution_submitted_max_id := m_solution_submitted_max_id s; g_out := g_out s |}.
Definition gput_txQueue (x : list string) (s : Getwork) : Getwork := {| g_conn := g_conn s; m_farmRecheckPeriod := m_farmRecheckPeriod s; m_worktimeout := m_worktimeout s; m_jsonGetWork := m_jsonGetWork s; g_connected := g_connected s; m_session := m_session s; m_connecting := m_connecting s; m_txPending := m_txPending s; m_txQueue := x; m_endpoints := m_endpoints s; m_endpoint := m_endpoint s; m_pendingJReq := m_pendingJReq s; m_pending_tstamp := m_pending_tstamp s; m_getwork_timer := m_getwork_timer s; m_current := m_current s; m_current_tstamp := m_current_tstamp s; m_solution_submitted_max_id := m_solution_submitted_max_id s; g_out := g_out s |}.
Definition gput_endpoints (x : list string) (s : Getwork) : Getwork := {| g_conn := g_conn s; m_farmRecheckPeriod := m_farmRecheckPeriod s; m_worktimeout := m_worktimeout s; m_jsonGetWork := m_jsonGetWork s; g_connected := g_connected s; m_session := m_session s; m_connecting := m_connecting s; m_txPending := m_txPending s; m_txQueue := m_txQueue s; m_endpoints := x; m_endpoint := m_endpoint s; m_pendingJReq := m_pendingJReq s; m_pending_tstamp := m_pending_tstamp s; m_getwork_timer := m_getwork_timer s; m_current := m_current s; m_current_tstamp := m_current_tstamp s; m_solution_submitted_max_id := m_solution_submitted_max_id s; g_out := g_out s |}.
Definition gput_endpoint (x : option string) (s : Getwork) : Getwork := {| g_conn := g_conn s; m_farmRecheckPeriod := m_farmRecheckPeriod s; m_worktimeout := m_worktimeout s; m_jsonGetWork := m_jsonGetWork s; g_connected := g_connected s; m_session := m_session s; m_connecting := m_connecting s; m_txPending := m_txPending s; m_txQueue := m_txQueue s; m_endpoints := m_endpoints s; m_endpoint := x; m_pendingJReq := m_pendingJReq s; m_pending_tstamp := m_pending_tstamp s; m_getwork_timer := m_getwork_timer s; m_current := m_current s; m_current_tstamp := m_current_tstamp s; m_solution_submitted_max_id := m_solution_submitted_max_id s; g_out := g_out s |}.
Definition gput_pendingJReq (x : J) (s : Getwork) : Getwork := {| g_conn := g_conn s; m_farmRecheckPeriod := m_farmRecheckPeriod s; m_worktimeout := m_worktimeout s; m_jsonGetWork := m_jsonGetWork s; g_connected := g_connected s; m_session := m_session s; m_connecting := m_connecting s; m_txPending := m_txPending s; m_txQueue := m_txQueue s; m_endpoints := m_endpoints s; m_endpoint := m_endpoint s; m_pendingJReq := x; m_pending_tstamp := m_pending_tstamp s; m_getwork_timer := m_getwork_timer s; m_current := m_current s; m_current_tstamp := m_current_tstamp s; m_solution_submitted_max_id := m_solution_submitted_max_id s; g_out := g_out s |}.
Definition gput_pending_tstamp (x : Z) (s : Getwork) : Getwork := {| g_conn := g_conn s; m_farmRecheckPeriod := m_farmRecheckPeriod s; m_worktimeout := m_worktimeout s; m_jsonGetWork := m_jsonGetWork s; g_connected := g_connected s; m_session := m_session s; m_connecting := m_connecting s; m_txPending := m_txPending s; m_txQueue := m_txQueue s; m_endpoints := m_endpoints s; m_endpoint := m_endpoint s; m_pendingJReq := m_pendingJReq s; m_pending_tstamp := x; m_getwork_timer := m_getwork_timer s; m_current := m_current s; m_current_tstamp := m_current_tstamp s; m_solution_submitted_max_id := m_solution_submitted_max_id s; g_out := g_out s |}.
Definition gput_timer (x : option Z) (s : Getwork) : Getwork := {| g_conn := g_conn s; m_farmRecheckPeriod := m_farmRecheckPeriod s; m_worktimeout := m_worktimeout s; m_jsonGetWork := m_jsonGetWork s; g_connected := g_connected s; m_session := m_session s; m_connecting := m_connecting s; m_txPending := m_txPending s; m_txQueue := m_txQueue s; m_endpoints := m_endpoints s; m_endpoint := m_endpoint s; m_pendingJReq := m_pendingJReq s; m_pending_tstamp := m_pending_tstamp s; m_getwork_timer := x; m_current := m_current s; m_current_tstamp := m_current_tstamp s; m_solution_submitted_max_id := m_solution_submitted_max_id s; g_out := g_out s |}.
Definition gput_current (x : WorkPackage) (s : Getwork) : Getwork := {| g_conn := g_conn s; m_farmRecheckPeriod := m_farmRecheckPeriod s; m_worktimeout := m_worktimeout s; m_jsonGetWork := m_jsonGetWork s; g_connected := g_connected s; m_session := m_session s; m_connecting := m_connecting s; m_txPending := m_txPending s; m_txQueue := m_txQueue s; m_endpoints := m_endpoints s; m_endpoint := m_endpoint s; m_pendingJReq := m_pendingJReq s; m_pending_tstamp := m_pending_tstamp s; m_getwork_timer := m_getwork_timer s; m_current := x; m_current_tstamp := m_current_tstamp s; m_solution_submitted_max_id := m_solution_submitted_max_id s; g_out := g_out s |}.
Definition gput_current_tstamp (x : Z) (s : Getwork) : Getwork := {| g_conn := g_conn s; m_farmRecheckPeriod := m_farmRecheckPeriod s; m_worktimeout := m_worktimeout s; m_jsonGetWork := m_jsonGetWork s; g_connected := g_connected s; m_session := m_session s; m_connecting := m_connecting s; m_txPending := m_txPending s; m_txQueue := m_txQueue s; m_endpoints := m_endpoints s; m_endpoint := m_endpoint s; m_pendingJReq := m_pendingJReq s; m_pending_tstamp := m_pending_tstamp s; m_getwork_timer := m_getwork_timer s; m_current := m_current s; m_current_tstamp := x; m_solution_submitted_max_id := m_solution_submitted_max_id s; g_out := g_out s |}.
Definition gput_max_id (x : Z) (s : Getwork) : Getwork := {| g_conn := g_conn s; m_farmRecheckPeriod := m_farmRecheckPeriod s; m_worktimeout := m_worktimeout s; m_jsonGetWork := m_jsonGetWork s; g_connected := g_connected s; m_session := m_session s; m_connecting := m_connecting s; m_txPending := m_txPending s; m_txQueue := m_txQueue s; m_endpoints := m_endpoints s; m_endpoint := m_endpoint s; m_pendingJReq := m_pendingJReq s; m_pending_tstamp := m_pending_tstamp s; m_getwork_timer := m_getwork_timer s; m_current := m_current s; m_current_tstamp := m_current_tstamp s; m_solution_submitted_max_id := x; g_out := g_out s |}.
Definition gput_out (x : list event) (s : Getwork) : Getwork := {| g_conn := g_conn s; m_farmRecheckPeriod := m_farmRecheckPeriod s; m_worktimeout := m_worktimeout s; m_jsonGetWork := m_jsonGetWork s; g_connected := g_connected s; m_session := m_session s; m_connecting := m_connecting s; m_txPending := m_txPending s; m_txQueue := m_txQueue s; m_endpoints := m_endpoints s; m_endpoint := m_endpoint s; m_pendingJReq := m_pendingJReq s; m_pending_tstamp := m_pending_tstamp s; m_getwork_timer := m_getwork_timer s; m_current := m_current s; m_current_tstamp := m_current_tstamp s; m_solution_submitted_max_id := m_solution_submitted_max_id s; g_out := x |}.

(** The request the constructor prepares. *)
Definition getwork_request : res J :=
  jobject jnull [("id", of_Z 1); ("jsonrpc", of_string "2.0"); ("method", of_string "xcb_getWork");
                 ("params", empty_array)].

(** The constructor; [max_id] is the value of [m_solution_submitted_max_id], which has no
    initialiser. *)
Definition Getwork_new (worktimeout farmRecheckPeriod now max_id : Z) : res Getwork :=
  let! jGetWork := getwork_request in
  Ok {| g_conn := None; m_farmRecheckPeriod := farmRecheckPeriod; m_worktimeout := worktimeout;
        m_jsonGetWork := json_write jGetWork; g_connected := false; m_session := None;
        m_connecting := false; m_txPending := false; m_txQueue := []; m_endpoints := [];
        m_endpoint := None; m_pendingJReq := jnull; m_pending_tstamp := now; m_getwork_timer := None;
        m_current := WorkPackage_default; m_current_tstamp := now;
        m_solution_submitted_max_id := max_id; g_out := [] |}.

Definition gemit (e : event) (s : Getwork) : Getwork := gput_out (g_out s ++ [e]) s.

(** [m_conn->...] through a null pointer has no meaning. *)
Definition with_conn {A} (k : URI -> SE Getwork A) : SE Getwork A := fun s =>
  match g_conn s with
  | Some u => k u s
  | None => (Throw (UndefinedBehaviour "null m_conn"), s)
  end.

(** A log line that prints the host dereferences [m_conn]. *)
Definition logged {A} (k : SE Getwork A) : SE Getwork A := with_conn (fun _ => k).

(** ** Connection *)

Definition disconnect (now : Z) : SE Getwork unit := fun s =>
  let s := gput_connected false s in
  match (match m_session s with
         | Some start => match g_conn s with
                         | Some u => Ok (Some (addDuration (Z.quot (now - start) (60 * 1000000000)) u))
                         | None => Throw (UndefinedBehaviour "null m_conn")
                         end
         | None => Ok (g_conn s)
         end) with
  | Throw e => (Throw e, s)
  | Ok c =>
      let s := gput_session None (gput_conn c s) in
      let s := gput_timer None (gput_txPending false (gput_connecting false s)) in
      (* consume_all empties the queue; the handler releases the connection *)
      (Ok tt, gput_conn None (gemit EvDisconnected (gput_txQueue [] s)))
  end.

Definition begin_connect (now : Z) : SE Getwork unit := fun s =>
  match m_endpoints s with
  | e :: _ => (Ok tt, gemit (EvConnect e) (gput_endpoint (Some e) s))
  | [] => logged (disconnect now) s
  end.

Definition send (now : Z) (sReq : string) : SE Getwork unit := fun s =>
  let s := gput_txQueue (m_txQueue s ++ [sReq]) s in
  if m_txPending s then (Ok tt, s) else begin_connect now (gput_txPending true s).

(** [connect]: [ip_endpoint] is the endpoint of a literal address and port. *)
Definition connect (now : Z) (ip_endpoint : string -> Z -> string) : SE Getwork unit := fun s =>
  if m_connecting s then (Ok tt, s)
  else
    let s := gput_endpoint None (gput_endpoints [] (gput_timer None (gput_connecting true s))) in
    with_conn (fun u s =>
      if bool_decide (m_hostType u = HT_Dns) || bool_decide (m_hostType u = HT_Basic)
      then (Ok tt, gemit (EvResolve (m_host u) (m_port u)) s)
      else send now (m_jsonGetWork s) (gput_endpoints [ip_endpoint (m_host u) (m_port u)] s)) s.

(** [handle_resolve]: [None] is an error. *)
Definition handle_resolve (now : Z) (result : option (list string)) : SE Getwork unit := fun s =>
  match result with
  | Some l => let s := gput_endpoints (m_endpoints s ++ l) s in send now (m_jsonGetWork s) s
  | None => logged (disconnect now) s
  end.

Definition CRLF : string := String (chr 13) (String (chr 10) "").

Definition http_request (u : URI) (line : string) : string :=
  "POST " +:+ (if String.eqb (m_path u) "" then "/" else m_path u) +:+ " HTTP/1.0" +:+ CRLF +:+
  "Host: " +:+ m_host u +:+ CRLF +:+
  "Content-Type: application/json" +:+ CRLF +:+
  "Content-Length: " +:+ dec_str (size line) +:+ CRLF +:+
  "Connection: close" +:+ CRLF +:+ CRLF +:+ line.

(** The loop that pops the queue up to the first non-empty line. *)
Fixpoint pop_request (l : list string) : option string * list string :=
  match l with
  | [] => (None, [])
  | line :: l' => if String.eqb line "" then pop_request l' else (Some line, l')
  end.

(** [m_endpoints.pop()] and what follows it: [pop] on an empty queue has no meaning. *)
Definition pop_endpoint (k : SE Getwork unit) : SE Getwork unit := fun s =>
  match m_endpoints s with
  | [] => (Throw (UndefinedBehaviour "pop of an empty queue"), s)
  | _ :: l => k (gput_endpoints l s)
  end.

(** [handle_connect]: success, an aborted wait, or another error. *)
Inductive completion := Done | Aborted | Failure.

Definition handle_connect (now : Z) (ec : completion) : SE Getwork unit := fun s =>
  match ec with
  | Done =>
      let s := if m_connecting s
               then gput_current_tstamp now (gemit EvConnected (gput_connecting false
                      (gput_session (Some now) (gput_connected true s))))
               else s in
      match m_txQueue s with
      | [] => (Ok tt, gput_txPending false s)
      | q =>
          let '(line, q') := pop_request q in
          let s := gput_txQueue q' s in
          match line with
          | None => (Ok tt, s)
          | Some line =>
              let s := match json_parse line with
                       | Some j => gput_pendingJReq j s
                       | None => s
                       end in
              let s := gput_pending_tstamp now s in
              with_conn (fun u s => (Ok tt, gemit (EvWrite (http_request u line)) s)) s
          end
      end
  | Aborted => (Ok tt, s)
  | Failure => logged (pop_endpoint (begin_connect now)) s
  end.

Definition handle_write (now : Z) (ec : completion) : SE Getwork unit := fun s =>
  match ec with
  | Done => (Ok tt, gemit EvRead s)
  | Aborted => (Ok tt, s)
  | Failure => logged (pop_endpoint (begin_connect now)) s
  end.

(** ** Replies *)

Fixpoint error_array (l : list J) : res string :=
  match l with
  | [] => Ok ""
  | i :: l' => let! a := asString i in let! b := error_array l' in Ok (a +:+ " " +:+ b)
  end.
Fixpoint error_object (l : list (string * J)) : res string :=
  match l with
  | [] => Ok ""
  | (k, v) :: l' => let! a := asString v in let! b := error_object l' in Ok (k +:+ ":" +:+ a +:+ " " +:+ b)
  end.

Definition processError (JRes : J) : res string :=
  let! has := jhas JRes "error" in
  let! e := jget_or JRes "error" jnull in
  if has && negb (isNull e) then
    if conv_string e then asString e
    else if conv_array e then error_array (jelements e)
    else if conv_object e then error_object (jmembers e)
    else Ok ""
  else Ok "Unknown error".

(** The work package of a reply to a getwork request. *)
Definition work_of_result (JPrm : J) : res WorkPackage :=
  let field i := let! x := jat_or JPrm i (of_string "") in let! t := asString x in h256 t in
  let! hd := field 0%nat in
  let! sd := field 1%nat in
  let! bd := field 2%nat in
  Ok (set_job (hash_hex hd DontAdd) (set_boundary bd (set_seed sd (set_header hd WorkPackage_default)))).

(** [processResponse], for the pending request [m_pendingJReq]. *)
Definition processResponse (now : Z) (JRes : J) : SE Getwork unit := fun s =>
  match jhas JRes "id" with
  | Throw e => (Throw e, s)
  | Ok false => logged (se_ret tt) s
  | Ok true =>
      let parsed :=
        let! i := jget_or (m_pendingJReq s) "id" (of_Z 0) in
        let! _id := asUInt 32 i in
        let! err := jget_or JRes "error" jnull in
        let _isSuccess := jempty err in
        let! _errReason := if _isSuccess then Ok "" else processError JRes in
        Ok (_id, _isSuccess) in
      match parsed with
      | Throw e => (Throw e, s)
      | Ok (_id, _isSuccess) =>
          if (_id =? 0) || (_id =? 1) then
            if negb _isSuccess then logged (se_modify (gput_timer (Some 30000))) s
            else match jhas JRes "result" with
                 | Throw e => (Throw e, s)
                 | Ok false => logged (se_ret tt) s
                 | Ok true =>
                     match (let! r := jget JRes "result" in work_of_result r) with
                     | Throw e => (Throw e, s)
                     | Ok newWp =>
                         let s := if hash_eq (header (m_current s)) (header newWp) then s
                                  else gemit (EvWork newWp) (gput_current_tstamp now (gput_current newWp s)) in
                         (Ok tt, gput_timer (Some (m_farmRecheckPeriod s)) s)
                     end
                 end
          else if _id =? 9 then (Ok tt, s)
          else if (40 <=? _id) && (_id <=? m_solution_submitted_max_id s) then
            let ok := if _isSuccess then
                        let! r := jget JRes "result" in
                        if conv_bool r then asBool r else Ok _isSuccess
                      else Ok _isSuccess in
            match ok with
            | Throw e => (Throw e, s)
            | Ok ok =>
                let _delay := Z.quot (now - m_pending_tstamp s) 1000000 in
                let miner_index := _id - 40 in
                (Ok tt, gemit (if ok then EvAccepted _delay miner_index else EvRejected _delay miner_index) s)
            end
          else (Ok tt, s)
      end
  end.

(** The HTTP status line; [None] when the connection must be dropped. *)
Definition status_ok (line : string) : bool :=
  String.eqb (stake 7 line) "HTTP/1." &&
  match find_char " " line with
  | Some off => String.eqb (stake 3 (sdrop (S off) line)) "200"
  | None => false
  end.

(** The loop of [handle_read] over the lines of the reply; [true] when it returned early. *)
Fixpoint read_loop (fuel : nat) (now : Z) (rx : string) (linenum : Z) (isHeader : bool) : SE Getwork bool :=
  fun s =>
  match fuel with
  | O => (Ok false, s)
  | S fuel' =>
      match find_str CRLF rx with
      | None => (Ok false, s)
      | Some off =>
          let linenum := u32 (linenum + 1) in
          let line := stake off rx in
          let rx := sdrop (off + 2) rx in
          let body_next := String.eqb line "" in
          let isHeader := if body_next then false else isHeader in
          if body_next && bool_decide (find_str CRLF rx <> None)
          then read_loop fuel' now rx linenum isHeader s
          else
            let rx := if body_next then replace_all rx (String (chr 10) "") "" else rx in
            let line := if body_next then rx else line in
            if isHeader && (linenum =? 1) && negb (status_ok line)
            then let '(r, s) := logged (disconnect now) s in (let! _ := r in Ok true, s)
            else if isHeader then read_loop fuel' now rx linenum isHeader s
            else match json_parse line with
                 | Some jRes =>
                     match processResponse now jRes s with
                     | (Throw e, s) => (Throw e, s)
                     | (Ok _, s) => read_loop fuel' now rx linenum isHeader s
                     end
                 | None => read_loop fuel' now rx linenum isHeader s
                 end
      end
  end.

(** [handle_read]: end of file counts as success. *)
Definition handle_read (now : Z) (ec : completion) (rx_message : string) : SE Getwork unit := fun s =>
  match ec with
  | Done =>
      if String.eqb rx_message "" then logged (disconnect now) s
      else match read_loop (S (String.length rx_message)) now rx_message 0 true s with
           | (Throw e, s) => (Throw e, s)
           | (Ok true, s) => (Ok tt, s)
           | (Ok false, s) =>
               match m_txQueue s with
               | [] => (Ok tt, gput_txPending false s)
               | _ => begin_connect now s
               end
           end
  | Aborted => (Ok tt, s)
  | Failure => logged (disconnect now) s
  end.

(** ** Submissions and polling *)

Definition request_json (id : Z) (method : string) (params : list J) : res J :=
  let! ps := jarray empty_array params in
  jobject jnull [("id", of_Z id); ("jsonrpc", of_string "2.0"); ("method", of_string method); ("params", ps)].

Definition submitHashrate (now rate : Z) (id : string) : SE Getwork unit := fun s =>
  match m_session s with
  | None => (Ok tt, s)
  | Some _ =>
      match request_json 9 "xcb_submitHashrate" [of_string (toHex_uint64 rate Add 16); of_string id] with
      | Throw e => (Throw e, s)
      | Ok jReq => send now (json_write jReq) s
      end
  end.

Definition submitSolution (now : Z) (solution : Solution) : SE Getwork unit := fun s =>
  match m_session s with
  | None => (Ok tt, s)
  | Some _ =>
      let id := u32 (40 + midx solution) in
      let s := gput_max_id (Z.max (m_solution_submitted_max_id s) id) s in
      match request_json id "xcb_submitWork"
              [of_string ("0x" +:+ toHex_uint64 (nonce solution) DontAdd 16);
               of_string ("0x" +:+ hash_hex (header (work solution)) DontAdd);
               of_string ("0x" +:+ hash_hex (mixHash solution) DontAdd)] with
      | Throw e => (Throw e, s)
      | Ok jReq => send now (json_write jReq) s
      end
  end.

Definition getwork_timer_elapsed (now : Z) (ec : completion) : SE Getwork unit := fun s =>
  match ec with
  | Done =>
      let s := gput_timer None s in
      if m_worktimeout s <? Z.quot (now - m_current_tstamp s) 1000000000
      then pop_endpoint (disconnect now) s
      else send now (m_jsonGetWork s) s
  | _ => (Ok tt, s)
  end.

End getwork.

(** * Proofs *)

Section getwork_theorems.
Context {Jsn : Json} {Bst : BoostUri}.

(** ** Requests and solutions *)

Lemma request_json_spec id method params : exists j, request_json id method params = Ok j /\
  jget_or j "id" (of_Z 0) = Ok (of_Z id) /\ jget_or j "method" jnull = Ok (of_string method).
Proof.
  unfold request_json. destruct (jarray_spec params empty_array view_empty_array) as (ps & -> & _).
  cbn [res_bind]. set (l := [_; _; _; _]).
  destruct (jobject_spec l jnull (or_introl view_null)) as (j & Ej & _ & Hg & Hh). exists j.
  unfold jget_or. rewrite !Hg, !Hh. split_and!; [done | |]; unfold l; cbn; reflexivity.
Qed.

(** The tail of a submission: the request is queued and the first endpoint is contacted. *)
Lemma send_idle now line s e l : m_txPending s = false -> m_txQueue s = [] -> m_endpoints s = e :: l ->
  send now line s = (Ok tt, gemit (EvConnect e) (gput_endpoint (Some e)
    (gput_txPending true (gput_txQueue [line] s)))).
Proof. intros Hp Hq He. unfold send, begin_connect. cbn. by rewrite Hp, Hq, He. Qed.

(** C39: Solutions are answered to the right miner: after a solution has been submitted on an
    idle client and its request written to the pool, a well-formed reply with a boolean result
    reports exactly one acceptance or rejection, for the index of the miner that found the
    solution and with the time since the request in milliseconds. *)
Theorem solution_reply_reaches_miner (s : Getwork) (sol : Solution) (u : URI) (e : string)
    (l : list string) (start t0 t1 t2 : Z) (jRes r : J) (b : bool) :
  m_session s = Some start -> g_conn s = Some u -> m_connecting s = false ->
  m_txPending s = false -> m_txQueue s = [] -> m_endpoints s = e :: l ->
  0 <= midx sol -> 40 + midx sol < 2 ^ 32 ->
  jhas jRes "id" = Ok true -> jhas jRes "error" = Ok false -> jget jRes "result" = Ok r -> view r = VBool b ->
  let '(r0, s1) := submitSolution t0 sol s in
  let '(r1, s2) := handle_connect t1 Done s1 in
  let '(r2, s3) := processResponse t2 jRes s2 in
  r0 = Ok tt /\ r1 = Ok tt /\ r2 = Ok tt /\
  g_out s3 = g_out s2 ++ [(if b then EvAccepted else EvRejected) (Z.quot (t2 - t1) 1000000) (midx sol)].
Proof.
  intros Hs Hc Hcn Hp Hq He Hm1 Hm2 Hid Herr Hres Hr.
  unfold submitSolution. rewrite Hs. set (id := u32 (40 + midx sol)).
  assert (Hid40 : id = 40 + midx sol) by (apply wrap_id; split; lia).
  set (s0 := gput_max_id _ s).
  destruct (request_json_spec id "xcb_submitWork"
    [of_string ("0x" +:+ toHex_uint64 (nonce sol) DontAdd 16);
     of_string ("0x" +:+ hash_hex (header (work sol)) DontAdd);
     of_string ("0x" +:+ hash_hex (mixHash sol) DontAdd)]) as (j & -> & Hj & _).
  rewrite (send_idle t0 (json_write j) s0 e l) by done.
  set (s1 := gemit _ _). unfold handle_connect.
  change (m_connecting s1) with (m_connecting s). rewrite Hcn.
  change (m_txQueue s1) with [json_write j]. cbn [pop_request].
  pose proof (write_nonempty j) as Hne. apply String.eqb_neq in Hne. rewrite Hne, parse_write.
  unfold with_conn. set (s1' := gput_pending_tstamp t1 _). change (g_conn s1') with (g_conn s). rewrite Hc.
  set (s2 := gemit _ s1'). unfold processResponse. rewrite Hid.
  change (m_pendingJReq s2) with j. rewrite Hj. cbn [res_bind].
  unfold asUInt. rewrite view_Z.
  assert ((0 <=? id) && (id <? 2 ^ 32) = true) as ->
    by (rewrite Hid40; apply andb_true_iff; rewrite Z.leb_le, Z.ltb_lt; lia).
  cbn [res_bind]. unfold jget_or at 1. rewrite Herr. cbn [res_bind]. unfold jempty. rewrite view_null.
  cbn [res_bind]. rewrite Hid40.
  assert ((40 + midx sol =? 0) || (40 + midx sol =? 1) = false) as ->
    by (apply orb_false_iff; rewrite !Z.eqb_neq; lia).
  assert (40 + midx sol =? 9 = false) as -> by (apply Z.eqb_neq; lia).
  change (m_solution_submitted_max_id s2) with (Z.max (m_solution_submitted_max_id s) id).
  assert ((40 <=? 40 + midx sol) && (40 + midx sol <=? Z.max (m_solution_submitted_max_id s) id) = true) as ->
    by (apply andb_true_iff; rewrite !Z.leb_le; lia).
  rewrite Hres. cbn [res_bind]. unfold conv_bool, asBool. rewrite Hr.
  change (m_pending_tstamp s2) with t1. replace (40 + midx sol - 40) with (midx sol) by lia.
  destruct b; done.
Qed.

(** A new connection attempt to a named host empties the queue of endpoints until the name is resolved;
    a write or a connection still under way from before (nothing cancels it) that fails in that time
    pops the empty queue, and so does the poll timer when the work has timed out. *)
Theorem stale_failure_pops_empty (s : Getwork) (u : URI) (now t : Z) (ip_endpoint : string -> Z -> string) :
  m_connecting s = false -> g_conn s = Some u -> m_hostType u = HT_Dns ->
  let s1 := snd (connect now ip_endpoint s) in
  m_endpoints s1 = [] /\
  fst (handle_write t Failure s1) = Throw (UndefinedBehaviour "pop of an empty queue") /\
  fst (handle_connect t Failure s1) = Throw (UndefinedBehaviour "pop of an empty queue") /\
  (m_worktimeout s < Z.quot (t - m_current_tstamp s) 1000000000 ->
   fst (getwork_timer_elapsed t Done s1) = Throw (UndefinedBehaviour "pop of an empty queue")).
Proof.
  intros Hc Hu Hh.
  assert (E : snd (connect now ip_endpoint s) = gemit (EvResolve (m_host u) (m_port u))
    (gput_endpoint None (gput_endpoints [] (gput_timer None (gput_connecting true s))))).
  { unfold connect, with_conn. rewrite Hc. cbn -[gemit]. rewrite Hu, Hh. reflexivity. }
  rewrite E. unfold handle_write, handle_connect, logged, with_conn, pop_endpoint. cbn. rewrite Hu. split_and!; [done..|].
  intros Ht. apply Z.ltb_lt in Ht. cbn. by rewrite Ht.
Qed.

(** ** Jobs *)

Lemma work_field r i h : (i < jsize r)%nat -> hash_ok 32 h -> jat r i = Ok (of_string (hash_hex h Add)) ->
  (let! x := jat_or r i (of_string "") in let! t := asString x in h256 t) = Ok h.
Proof.
  intros Hi Hh Ha. unfold jat_or. rewrite Ha. cbn [res_bind]. apply Nat.ltb_lt in Hi. rewrite Hi.
  cbn [res_bind]. unfold asString. rewrite view_string. cbn [res_bind]. by apply h256_hex.
Qed.

(** A reply to a getwork request with a result of three hash texts is taken over exactly: a
    new header becomes the current job and is reported once with its header, seed and boundary
    (and the header as job name), a known one is not reported again, and either way the next
    poll is scheduled after the recheck period. *)
Theorem getwork_job_taken (now : Z) (s : Getwork) (jRes r pid : J) (hd sd bd : hash) :
  jget_or (m_pendingJReq s) "id" (of_Z 0) = Ok pid -> view pid = VInt 1 ->
  jhas jRes "id" = Ok true -> jhas jRes "error" = Ok false -> jhas jRes "result" = Ok true ->
  jget jRes "result" = Ok r -> jsize r = 3%nat ->
  jat r 0 = Ok (of_string (hash_hex hd Add)) -> jat r 1 = Ok (of_string (hash_hex sd Add)) ->
  jat r 2 = Ok (of_string (hash_hex bd Add)) ->
  hash_ok 32 hd -> hash_ok 32 sd -> hash_ok 32 bd ->
  let wp := set_job (hash_hex hd DontAdd)
              (set_boundary bd (set_seed sd (set_header hd WorkPackage_default))) in
  let '(res_, s') := processResponse now jRes s in
  res_ = Ok tt /\ m_getwork_timer s' = Some (m_farmRecheckPeriod s) /\ header (m_current s') = hd /\
  if hash_eq (header (m_current s)) hd then g_out s' = g_out s /\ m_current s' = m_current s
  else g_out s' = g_out s ++ [EvWork wp] /\ m_current s' = wp /\ m_current_tstamp s' = now.
Proof.
  intros Hp Hv Hid Herr Hhas Hres Hsz H0 H1 H2 Hh Hs Hb wp. unfold processResponse.
  rewrite Hid, Hp. cbn [res_bind]. unfold asUInt. rewrite Hv.
  assert ((0 <=? 1) && (1 <? 2 ^ 32) = true) as -> by done. cbn [res_bind].
  unfold jget_or at 1. rewrite Herr. cbn [res_bind]. unfold jempty. rewrite view_null. cbn [res_bind].
  change ((1 =? 0) || (1 =? 1)) with true. cbn [negb]. rewrite Hhas, Hres. cbn [res_bind].
  unfold work_of_result.
  rewrite (work_field r 0 hd), (work_field r 1 sd), (work_field r 2 bd) by (done || lia).
  cbn [res_bind]. fold wp. change (header wp) with hd.
  destruct (hash_eq (header (m_current s)) hd) eqn:E; cbn; [|done].
  unfold hash_eq in E. apply bool_decide_eq_true in E. done.
Qed.

(** Polling stops for good on an unexpected reply: a reply without an id, or a successful
    reply to the getwork request without a result, leaves the whole client state unchanged, so
    no timer is armed for the next poll. *)
Theorem getwork_polling_stalls (now : Z) (s : Getwork) (u : URI) (jRes pid : J) :
  g_conn s = Some u -> jget_or (m_pendingJReq s) "id" (of_Z 0) = Ok pid -> view pid = VInt 1 ->
  (jhas jRes "id" = Ok false \/
   (jhas jRes "id" = Ok true /\ jhas jRes "error" = Ok false /\ jhas jRes "result" = Ok false)) ->
  processResponse now jRes s = (Ok tt, s).
Proof.
  intros Hc Hp Hv Hj. unfold processResponse, logged, with_conn.
  destruct Hj as [->|(-> & Herr & Hres)]; [by rewrite Hc|].
  rewrite Hp. cbn [res_bind]. unfold asUInt. rewrite Hv.
  assert ((0 <=? 1) && (1 <? 2 ^ 32) = true) as -> by done. cbn [res_bind].
  unfold jget_or at 1. rewrite Herr. cbn [res_bind]. unfold jempty. rewrite view_null. cbn [res_bind].
  change ((1 =? 0) || (1 =? 1)) with true. cbn [negb]. by rewrite Hres, Hc.
Qed.

(** ** HTTP replies *)

Lemma find_crlf_first h t : absent (chr 13) h = true -> find_str CRLF (h +:+ CRLF +:+ t) = Some (String.length h).
Proof.
  induction h as [|a h IH]; intros Ha.
  - change ("" +:+ CRLF +:+ t) with (String (chr 13) (String (chr 10) t)). unfold CRLF.
    cbn [find_str String.prefix]. destruct (ascii_dec (chr 13) (chr 13)); [|done].
    destruct (ascii_dec (chr 10) (chr 10)); [|done]. by destruct t.
  - rewrite absent_cons in Ha. bool_to_prop. rewrite string_app_cons. cbn [find_str].
    assert (String.prefix CRLF (String a (h +:+ CRLF +:+ t)) = false) as ->.
    { unfold CRLF. cbn [String.prefix]. destruct (ascii_dec (chr 13) a) as [<-|]; [|done].
      by rewrite Ascii.eqb_refl in H. }
    by rewrite IH.
Qed.

Lemma find_crlf_none b : absent (chr 13) b = true -> find_str CRLF b = None.
Proof.
  induction b as [|a b IH]; intros Ha; [done|]. rewrite absent_cons in Ha. bool_to_prop. cbn [find_str].
  assert (String.prefix CRLF (String a b) = false) as ->.
  { unfold CRLF. cbn [String.prefix]. destruct (ascii_dec (chr 13) a) as [<-|]; [|done].
    by rewrite Ascii.eqb_refl in H. }
  by rewrite IH.
Qed.

Lemma sdrop_line h t : sdrop (String.length h + 2) (h +:+ CRLF +:+ t) = t.
Proof.
  rewrite <- string_app_assoc. replace (String.length h + 2)%nat with (String.length (h +:+ CRLF))
    by (rewrite string_length_app; done). apply sdrop_app.
Qed.

(** Header lines, each ended by CRLF. *)
Fixpoint lines (l : list string) (rest : string) : string :=
  match l with [] => rest | h :: l' => h +:+ CRLF +:+ lines l' rest end.

Definition header_ok (h : string) : bool := absent (chr 13) h && negb (String.eqb h "").

(** The loop over the lines ends: every turn shortens the text, so that any fuel above its length
    gives the same result. *)
Lemma read_loop_fuel now : forall f1 f2 rx n h s, (String.length rx < f1)%nat -> (String.length rx < f2)%nat ->
  read_loop f1 now rx n h s = read_loop f2 now rx n h s.
Proof.
  induction f1 as [|f1 IH]; intros [|f2] rx n h s H1 H2; try lia. cbn [read_loop].
  destruct (find_str CRLF rx) as [off|] eqn:E; [|done]. apply find_str_length in E. change (String.length CRLF) with 2%nat in E.
  pose proof (sdrop_length (off + 2) rx) as Hd.
  assert (Hr : forall b : bool, (String.length (if b then replace_all (sdrop (off + 2) rx) (String (chr 10) "") ""
    else sdrop (off + 2) rx) < String.length rx)%nat).
  { intros []; [|lia]. pose proof (replace_all_empty_law (sdrop (off + 2) rx) (String (chr 10) "")). lia. }
  assert (Hi : forall b rx' n h s, (rx' = if b : bool then replace_all (sdrop (off + 2) rx) (String (chr 10) "") ""
    else sdrop (off + 2) rx) -> read_loop f1 now rx' n h s = read_loop f2 now rx' n h s).
  { intros b rx' n' h' s' ->. specialize (Hr b). apply IH; lia. }
  destruct (_ && bool_decide _); [by apply (Hi false)|].
  destruct (_ && negb _); [done|]. destruct (if String.eqb (stake off rx) "" then false else h); [by eapply Hi|].
  destruct (json_parse _); [|by eapply Hi]. destruct (processResponse _ _ _) as [[]]; [by eapply Hi|done].
Qed.

(** What [read_loop] does with the body. *)
Definition body_step (now : Z) (body : string) : SE Getwork bool := fun s =>
  match json_parse body with
  | Some jRes => match processResponse now jRes s with
                 | (Throw e, s) => (Throw e, s)
                 | (Ok _, s) => (Ok false, s)
                 end
  | None => (Ok false, s)
  end.

Lemma read_body fuel now body n s : absent (chr 13) body = true -> absent (chr 10) body = true ->
  (2 <= fuel)%nat -> read_loop fuel now (CRLF +:+ body) n true s = body_step now body s.
Proof.
  intros Hc Hl Hf. destruct fuel as [|[|fuel]]; [lia..|]. cbn [read_loop].
  pose proof (find_crlf_first "" body eq_refl) as Hfc. change ("" +:+ CRLF +:+ body) with (CRLF +:+ body) in Hfc.
  rewrite Hfc. change (String.length "") with 0%nat. change (stake 0 (CRLF +:+ body)) with "".
  change (sdrop (0 + 2) (CRLF +:+ body)) with body. rewrite String.eqb_refl, (find_crlf_none body Hc).
  rewrite bool_decide_eq_false_2 by auto. cbn [andb negb].
  rewrite replace_all_absent_law by by apply find_str_absent. unfold body_step.
  rewrite (find_crlf_none body Hc).
  destruct (json_parse body); [|done]. by destruct (processResponse now j s) as [[] ?].
Qed.

Lemma read_headers now body l : forall fuel n s,
  Forall (fun h => header_ok h = true) l -> absent (chr 13) body = true -> absent (chr 10) body = true ->
  (length l + 2 <= fuel)%nat -> 1 <= n -> n + Z.of_nat (length l) < 2 ^ 32 ->
  read_loop fuel now (lines l (CRLF +:+ body)) n true s = body_step now body s.
Proof.
  induction l as [|h l IH]; intros fuel n s Hl Hb1 Hb2 Hf Hn1 Hn2; [by apply read_body|].
  inversion Hl as [|?? Hh Hl']; subst. unfold header_ok in Hh. bool_to_prop.
  destruct fuel as [|fuel]; [simpl in Hf; lia|]. cbn [lines read_loop]. simpl in Hf, Hn2.
  rewrite find_crlf_first, stake_app, sdrop_line by done.
  assert (String.eqb h "" = false) as -> by (by apply String.eqb_neq). cbn [andb].
  assert (u32 (n + 1) = n + 1) as -> by (apply wrap_id; split; lia).
  assert (n + 1 =? 1 = false) as -> by (apply Z.eqb_neq; lia). cbn [andb]. apply IH; auto; lia.
Qed.

(** Reading an HTTP reply: when the status line is not "HTTP/1.x 200" the client disconnects
    and reports it once; otherwise the header lines are skipped and the body (one line) is parsed
    and processed exactly once, after which the next queued request is started or the client is
    idle. *)
Theorem http_reply_read (now : Z) (s : Getwork) (u : URI) (status body : string) (headers : list string) :
  g_conn s = Some u -> header_ok status = true -> Forall (fun h => header_ok h = true) headers ->
  Z.of_nat (length headers) < 2 ^ 31 -> absent (chr 13) body = true -> absent (chr 10) body = true ->
  let r := handle_read now Done (status +:+ CRLF +:+ lines headers (CRLF +:+ body)) s in
  if status_ok status then
    r = match body_step now body s with
        | (Throw e, s') => (Throw e, s')
        | (Ok _, s') => match m_txQueue s' with
                        | [] => (Ok tt, gput_txPending false s')
                        | _ => begin_connect now s'
                        end
        end
  else fst r = Ok tt /\ g_connected (snd r) = false /\ m_txQueue (snd r) = [] /\
       m_getwork_timer (snd r) = None /\ g_out (snd r) = g_out s ++ [EvDisconnected].
Proof.
  intros Hc Hst Hh Hlen Hb1 Hb2 r. subst r. unfold header_ok in Hst. bool_to_prop.
  set (rx := status +:+ CRLF +:+ lines headers (CRLF +:+ body)).
  assert (Hrx : String.length rx = (String.length status + 2 + String.length (lines headers (CRLF +:+ body)))%nat)
    by (unfold rx; rewrite !string_length_app; simpl; lia).
  assert (Hll : (length headers + 2 <= String.length (lines headers (CRLF +:+ body)))%nat).
  { clear. induction headers as [|h l IH]; cbn [lines length]; [|rewrite !string_length_app; simpl; lia].
    rewrite string_length_app. simpl. lia. }
  unfold handle_read. assert (String.eqb rx "" = false) as ->.
  { apply String.eqb_neq. intros E. rewrite E in Hrx. simpl in Hrx. lia. }
  set (fuel := String.length rx) in *. clearbody fuel. subst rx.
  cbn [read_loop]. rewrite find_crlf_first, stake_app, sdrop_line by done.
  apply String.eqb_neq in H0. rewrite H0. cbn [andb]. change (u32 (0 + 1)) with 1. change (1 =? 1) with true. cbn [andb].
  destruct (status_ok status); cbn [negb].
  - rewrite read_headers by (done || lia). unfold body_step. by repeat case_match.
  - unfold logged, with_conn. rewrite Hc. unfold disconnect. cbn.
    destruct (m_session s); cbn; rewrite ?Hc; done.
Qed.

End getwork_theorems.

(** ** Witnesses *)

#[local] Existing Instance JsonModel.json.
#[local] Existing Instance BoostModel.boost.

Definition example_getwork : Getwork :=
  match Getwork_new 180 500 0 40 with
  | Ok g => gput_pendingJReq (JsonModel.JObj [("id", JsonModel.JInt 1)])
              (gput_session (Some 0) (gput_conn (Some (URI_init "http://h")) (gput_endpoints ["1.2.3.4:80"] g)))
  | Throw _ => {| g_conn := None; m_farmRecheckPeriod := 0; m_worktimeout := 0; m_jsonGetWork := "";
      g_connected := false; m_session := None; m_connecting := false; m_txPending := false;
      m_txQueue := []; m_endpoints := []; m_endpoint := None; m_pendingJReq := jnull;
      m_pending_tstamp := 0; m_getwork_timer := None; m_current := WorkPackage_default;
      m_current_tstamp := 0; m_solution_submitted_max_id := 0; g_out := [] |}
  end.

Definition example_gw_solution : Solution :=
  {| nonce := 9; mixHash := h_zero 32; work := WorkPackage_default; tstamp := 0; midx := 5 |}.
Definition example_reply : @J JsonModel.json :=
  JsonModel.JObj [("id", JsonModel.JInt 7); ("result", JsonModel.JBool true)].

Lemma solution_reply_reaches_miner_witness :
  let '(r0, s1) := submitSolution 0 example_gw_solution example_getwork in
  let '(r1, s2) := handle_connect 1000000 Done s1 in
  let '(r2, s3) := processResponse 5000000 example_reply s2 in
  r0 = Ok tt /\ r1 = Ok tt /\ r2 = Ok tt /\ g_out s3 = g_out s2 ++ [EvAccepted 4 5].
Proof.
  apply (solution_reply_reaches_miner example_getwork example_gw_solution (URI_init "http://h") "1.2.3.4:80" []
    0 0 1000000 5000000 example_reply (JsonModel.JBool true) true); try reflexivity; simpl; lia.
Defined.

Definition example_job : @J JsonModel.json := JsonModel.JObj [("id", JsonModel.JInt 1);
  ("result", JsonModel.JArr [JsonModel.JStr (hash_hex (replicate 32 1) Add);
     JsonModel.JStr (hash_hex (replicate 32 2) Add); JsonModel.JStr (hash_hex (replicate 32 3) Add)])].

Lemma getwork_job_taken_witness :
  m_getwork_timer (snd (processResponse 0 example_job example_getwork)) = Some 500.
Proof.
  pose proof (getwork_job_taken 0 example_getwork example_job
    (JsonModel.JArr [JsonModel.JStr (hash_hex (replicate 32 1) Add);
       JsonModel.JStr (hash_hex (replicate 32 2) Add); JsonModel.JStr (hash_hex (replicate 32 3) Add)])
    (JsonModel.JInt 1) (replicate 32 1) (replicate 32 2) (replicate 32 3)
    eq_refl eq_refl eq_refl eq_refl eq_refl eq_refl eq_refl eq_refl eq_refl eq_refl) as H.
  specialize (H ltac:(by_evaluation) ltac:(by_evaluation) ltac:(by_evaluation)).
  destruct (processResponse 0 example_job example_getwork) as [r s']. destruct H as (_ & H & _). exact H.
Defined.

Lemma getwork_polling_stalls_witness :
  processResponse 0 (JsonModel.JObj []) example_getwork = (Ok tt, example_getwork).
Proof.
  apply (getwork_polling_stalls 0 example_getwork (URI_init "http://h") (JsonModel.JObj []) (JsonModel.JInt 1)
    eq_refl eq_refl eq_refl). left. reflexivity.
Defined.

Lemma http_reply_read_witness :
  g_out (snd (handle_read 0 Done ("HTTP/1.1 503 Busy" +:+ CRLF +:+ lines ["A: b"] (CRLF +:+ "x")) example_getwork))
  = g_out example_getwork ++ [EvDisconnected].
Proof.
  destruct (http_reply_read 0 example_getwork (URI_init "http://h") "HTTP/1.1 503 Busy" "x" ["A: b"])
    as (_ & _ & _ & _ & H); [reflexivity | reflexivity | by_evaluation | by_evaluation | reflexivity | reflexivity | exact H].
Defined.
