(* ===== verification/Simulate.v ===== *)
(** * libpoolprotocols/testing: the simulation client

    [SimulateClient] of src/libpoolprotocols/testing/SimulateClient.{h,cpp}: a pool that hands
    out one random job of difficulty 1 and checks the solutions itself, used for benchmarks.
    Its reports to the manager are the events of Getwork. *)

From S2P Require Import Prelude CppString CommonData FixedHash Worker Float.
From S2P Require Import Difficulty Types Miner CpuMiner Farm PoolURI Json.
From S2P Require Import Getwork PoolManager.

Section simulate.
Context {Eth : Ethash} {Big : BigInteger} {Txt : DoubleText}.

Record Simulate := {
  m_block : Z;
  sim_conn : option URI;
  sim_connected : bool;
  sim_session : option Z;
  hr_max : spec_float;
  hr_mean : spec_float;
  sim_worker : worker;
  sim_out : list event }.

Definition Simulate_new (block : Z) : Simulate := {|
  m_block := block; sim_conn := None; sim_connected := false; sim_session := None;
  hr_max := f_zero; hr_mean := f_zero; sim_worker := new_worker; sim_out := [] |}.

Definition sim_emit (e : event) (s : Simulate) : Simulate := {|
  m_block := m_block s; sim_conn := sim_conn s; sim_connected := sim_connected s;
  sim_session := sim_session s; hr_max := hr_max s; hr_mean := hr_mean s; sim_worker := sim_worker s;
  sim_out := sim_out s ++ [e] |}.

Definition connect (now : Z) (s : Simulate) : Simulate :=
  let s := {| m_block := m_block s; sim_conn := sim_conn s; sim_connected := true;
              sim_session := Some now; hr_max := hr_max s; hr_mean := hr_mean s;
              sim_worker := sim_worker s; sim_out := sim_out s |} in
  let s := sim_emit EvConnected s in
  {| m_block := m_block s; sim_conn := sim_conn s; sim_connected := sim_connected s;
     sim_session := sim_session s; hr_max := hr_max s; hr_mean := hr_mean s;
     sim_worker := startWorking (sim_worker s); sim_out := sim_out s |}.

(** [disconnect]: the connection and the session are used without a check; the manager's handler
    releases the connection. *)
Definition disconnect (now : Z) : SE Simulate unit := fun s =>
  match getFormattedHashes (hr_max s) WithSuffix 6, getFormattedHashes (hr_mean s) WithSuffix 6 with
  | Ok _, Ok _ =>
      match sim_conn s, sim_session s with
      | Some _, Some _ =>
          (Ok tt, {| m_block := m_block s; sim_conn := None; sim_connected := false;
                     sim_session := None; hr_max := hr_max s; hr_mean := hr_mean s;
                     sim_worker := sim_worker s; sim_out := sim_out s ++ [EvDisconnected] |})
      | _, _ => (Throw (UndefinedBehaviour "null m_conn or m_session"), s)
      end
  | Throw e, _ | _, Throw e => (Throw e, s)
  end.

Definition submitHashrate (rate : Z) (id : string) (s : Simulate) : Simulate := s.

(** [EthashAux::eval(...).value <= boundary]; [delay] is the time the evaluation took. *)
Definition submitSolution (delay : Z) (solution : Solution) (s : Simulate) : Simulate :=
  let accepted := hash_le (value (ethash_hash (epoch (work solution)) (header (work solution)) (nonce solution)))
                          (boundary (work solution)) in
  sim_emit ((if accepted then EvAccepted else EvRejected) delay (midx solution)) s.

(** The job at the head of [workLoop]; [seed_] and [header_] are random. *)
Definition simulated_work (seed_ header_ : hash) (block_ : Z) : res WorkPackage :=
  let! t := getTargetFromDiff (f64_of_Z 1) Add in
  let! b := h256 t in
  Ok (set_boundary b (set_block (i32 block_) (set_header header_ (set_seed seed_ WorkPackage_default)))).

Definition hr_alpha : spec_float := f32_div (f32_of_Z 45) (f32_of_Z 100).

(** One turn of the loop, for the farm's hash rate [hr]. *)
Definition sample (hr : spec_float) (s : Simulate) : Simulate := {|
  m_block := m_block s; sim_conn := sim_conn s; sim_connected := sim_connected s;
  sim_session := sim_session s;
  hr_max := if SFltb (hr_max s) hr then hr else hr_max s;
  hr_mean := f32_add (f32_mul hr_alpha (hr_mean s)) (f32_mul (SFsub 24 128 (f32_of_Z 1) hr_alpha) hr);
  sim_worker := sim_worker s; sim_out := sim_out s |}.

(** [workLoop] while the session lives: the job, then one sample per turn. *)
Definition workLoop (seed_ header_ : hash) (hrs : list spec_float) : SE Simulate unit := fun s =>
  match simulated_work seed_ header_ (m_block s) with
  | Throw e => (Throw e, s)
  | Ok current => (Ok tt, fold_left (fun s hr => sample hr s) hrs (sim_emit (EvWork current) s))
  end.

(** * Proofs *)

(** The simulated pool accepts a solution exactly when the recomputed hash is numerically at
    most the boundary, and reports it for the submitting miner; and the job it hands out, taken
    by a manager that has no epoch yet, is worked on in the epoch of the block number being
    simulated, with the difficulty-1 target as boundary. *)
Theorem simulation_pool (find_epoch_number : hash -> Z) (s : Simulate) (sol : Solution) (delay mode : Z)
    (seed_ header_ : hash) :
  let r := ethash_hash (epoch (work sol)) (header (work sol)) (nonce sol) in
  hash_ok 32 (value r) -> hash_ok 32 (boundary (work sol)) -> 0 <= m_block s < 2 ^ 31 ->
  sim_out (submitSolution delay sol s) = sim_out s ++
    [(if to_arith 32 (value r) <=? to_arith 32 (boundary (work sol)) then EvAccepted else EvRejected)
       delay (midx sol)] /\
  (exists w, simulated_work seed_ header_ (m_block s) = Ok w /\ header w = header_ /\
     to_arith 32 (boundary w) = 0xffff * 2 ^ 208 /\
     epoch (fst (next_work find_epoch_number mode w WorkPackage_default)) = m_block s / 30000).
Proof.
  intros r Hv Hb Hk. split.
  - unfold submitSolution. fold r.
    destruct (hash_order_numeric 32 (value r) (boundary (work sol)) Hv Hb) as (_ & -> & _). done.
  - destruct target_one as (h & Ht & Hh & Ha). unfold simulated_work. rewrite Ht. cbn [res_bind]. rewrite Hh.
    cbn [res_bind]. eexists. split; [done|]. cbn. split_and!; [done | done |].
    assert (i32 (m_block s) = m_block s) as ->.
    { unfold i32. rewrite Z.mod_small by lia. destruct (Z.ltb_spec (m_block s) (2 ^ 31)); lia. }
    destruct (Z.leb_spec 0 (m_block s)); [|lia]. by rewrite Z.quot_div_nonneg by lia.
Qed.

End simulate.

Lemma simulation_pool_witness : exists w,
  @simulated_work BigIntegerModel.instance DoubleTextModel.instance (h_zero 32) (replicate 32 7)
    (m_block (Simulate_new 65000)) = Ok w /\ header w = replicate 32 7 /\
  to_arith 32 (boundary w) = 0xffff * 2 ^ 208 /\
  epoch (fst (next_work (fun _ => 0) 0 w WorkPackage_default)) = m_block (Simulate_new 65000) / 30000.
Proof.
  apply (@simulation_pool Farm.zero_ethash BigIntegerModel.instance DoubleTextModel.instance (fun _ => 0)
    (Simulate_new 65000) example_solution 3 0 (h_zero 32) (replicate 32 7)).
  - by_evaluation.
  - by_evaluation.
  - simpl. lia.
Defined.
