(* ===== verification/Tls.v ===== *)
(** * libpoolprotocols/stratum: how a connection is secured

    The part of [XcbStratumClient::init_socket] (src/libpoolprotocols/stratum/XcbStratumClient.cpp) that
    Stratum abstracts from, and [verbose_verification] of XcbStratumClient.h: the TLS method, what is
    verified, the certificates, the socket's time-outs, for hosts other than Windows.  asio's ssl
    library and OpenSSL are parameters: the check of a certificate against a host name
    ([rfc2818_verification]) and the loading of a file. *)

From S2P Require Import Prelude CppString CommonData FixedHash Float Types PoolURI PoolManager.

Inductive method := tls_client | tlsv12.
Inductive verify_mode := verify_none | verify_peer.

Section tls.
Context {cert : Type}.                                 (* a certificate of the chain, with its context *)
Context (subject_name : cert -> string).                (* X509_NAME_oneline *)
Context (rfc2818_verification : string -> bool -> cert -> bool).
Context (load_verify_file : string -> bool).

(** [verbose_verification::operator()]: the verifier's answer, and what is logged. *)
Definition verbose_verification (verifier_ : bool -> cert -> bool) (dev_build : bool)
    (preverified : bool) (ctx : cert) : bool * list string :=
  let verified := verifier_ preverified ctx in
  (verified,
   if dev_build then ["Certificate: " +:+ subject_name ctx +:+ " " +:+ (if verified then "Ok" else "Failed")]
   else if verified then [] else ["Certificate: " +:+ subject_name ctx +:+ " Failed"]).

Record secure_socket := {
  ssl_method : method;
  mode : verify_mode;
  callback : option (bool -> cert -> bool * list string);
  ca_warning : bool }.

Definition default_ca : string := "/etc/ssl/certs/ca-certificates.crt".

(** The secure stream of a connection; [SSL_NOVERIFY] and [SSL_CERT_FILE] are the environment's. *)
Definition secure_stream (SSL_NOVERIFY dev_build : bool) (SSL_CERT_FILE : option string) (u : URI) : option secure_socket :=
  if bool_decide (SecLevel u = SL_NONE) then None
  else Some {|
    ssl_method := if bool_decide (SecLevel u = SL_TLS12) then tlsv12 else tls_client;
    mode := if SSL_NOVERIFY then verify_none else verify_peer;
    callback := if SSL_NOVERIFY then None
                else Some (verbose_verification (rfc2818_verification (m_host u)) dev_build);
    ca_warning := negb (load_verify_file (default default_ca SSL_CERT_FILE)) |}.

(** Documented behaviour of OpenSSL: with [verify_peer] the handshake goes on only if the callback
    accepts every certificate of the chain, each with the verdict of its own checks. *)
Definition chain_accepted (s : secure_socket) (chain : list (bool * cert)) : bool :=
  match mode s with
  | verify_none => true
  | verify_peer => forallb (fun c => match callback s with Some k => fst (k (fst c) (snd c)) | None => fst c end) chain
  end.

(** The time-outs of the socket: seconds and microseconds. *)
Definition keepAlive : Z := 10000.
Definition socket_timeout : Z * Z := (keepAlive / 1000, keepAlive mod 1000).

(** ** Proofs *)

(** A chain is accepted on a secure connection exactly when each certificate passes the check for the
    host of the connection, whatever is logged; with SSL_NOVERIFY in the environment every chain is. *)
Theorem host_is_verified (noverify dev : bool) (ca : option string) (u : URI) (chain : list (bool * cert)) (s : secure_socket) :
  secure_stream noverify dev ca u = Some s ->
  SecLevel u <> SL_NONE /\
  chain_accepted s chain = noverify || forallb (fun c => rfc2818_verification (m_host u) (fst c) (snd c)) chain.
Proof.
  unfold secure_stream. case_bool_decide; [done|]. intros [= <-]. split; [done|]. by destruct noverify.
Qed.

(** Every refusal is logged with the name of the certificate. *)
Lemma refusal_logged verifier dev pre c : fst (verbose_verification verifier dev pre c) = false ->
  snd (verbose_verification verifier dev pre c) = ["Certificate: " +:+ subject_name c +:+ " Failed"].
Proof. unfold verbose_verification. cbn. intros ->. by destruct dev. Qed.

End tls.

Lemma host_is_verified_witness : exists s,
  secure_stream id (fun host pre (c : string) => pre && String.eqb c host) (fun _ => true) false false None
    (example_uri "stratum+tls://a@pool.org:1") = Some s /\
  chain_accepted s [(true, "pool.org"); (false, "pool.org")] = false /\ chain_accepted s [(true, "pool.org")] = true.
Proof.
  eexists. split; [vm_compute; reflexivity|]. split.
  - etransitivity; [apply (host_is_verified id (fun host pre (c : string) => pre && String.eqb c host) (fun _ => true)
      false false None (example_uri "stratum+tls://a@pool.org:1")); vm_compute; reflexivity | vm_compute; reflexivity].
  - etransitivity; [apply (host_is_verified id (fun host pre (c : string) => pre && String.eqb c host) (fun _ => true)
      false false None (example_uri "stratum+tls://a@pool.org:1")); vm_compute; reflexivity | vm_compute; reflexivity].
Defined.
