(* ===== verification/Stratum.v ===== *)
(** * libpoolprotocols/stratum: the stratum client

    [XcbStratumClient] of src/libpoolprotocols/stratum/XcbStratumClient.{h,cpp} and [Session] of
    src/libpoolprotocols/PoolClient.h: the connection life cycle over plain and TLS sockets, the
    detection of the stratum flavour, the login sequence, jobs and notifications, submissions,
    the send queue, the response time-outs.

    Calls of the asio library and of the manager's handlers are output events, the completions
    of the asynchronous operations are the handler operations; [io_service::post] appends to
    [posted], which [run_task] serves in order (every handler runs in the client's strand).  A
    socket is [Some] of whether it is open; [m_socket] says which of the two it points to.
    Dereferencing a null pointer and popping an empty [std::queue] are undefined behaviour.
    [Json::Value::operator[]] of a missing key adds a null member to the message; a message is
    only asked for the presence of members for which that makes no difference, so the model
    leaves messages as they are.  The build information is a parameter. *)

From S2P Require Import Prelude CppString Lines CommonData FixedHash Float Difficulty.
From S2P Require Import Types PoolURI Json.

Inductive StratumProtocol := STRATUM | ETHPROXY | CORESTRATUM | CORESTRATUM2.
Definition protocol_value (p : StratumProtocol) : Z :=
  match p with STRATUM => 0 | ETHPROXY => 1 | CORESTRATUM => 2 | CORESTRATUM2 => 3 end.
Definition protocol_of (mode : Z) : option StratumProtocol :=
  if mode =? 0 then Some STRATUM else if mode =? 1 then Some ETHPROXY
  else if mode =? 2 then Some CORESTRATUM else if mode =? 3 then Some CORESTRATUM2 else None.

(** Error codes: success, cancelled, end of file, the TLS shutdown notices of a read and of a
    write, anything else. *)
Inductive error_code := EcOk | EcAborted | EcEof | EcSslReceivedShutdown | EcSslIsShutdown | EcOther.
#[export] Instance error_code_eq_dec : EqDecision error_code.
Proof. solve_decision. Defined.

Inductive sock := SockSecure | SockPlain.

(** ** The session *)

Record Session := {
  ss_start : Z;
  subscribed : bool;
  authorized : bool;
  extraNonce : Z;
  extraNonceSizeBytes : Z;
  nextWorkBoundary : hash;
  firstMiningSet : bool;
  timeout : Z;
  sessionId : string;
  workerId : string;
  ss_algo : string;
  ss_epoch : Z;
  lastTxStamp : Z }.

Definition set_subscribed (x : bool) (s : Session) : Session := {|
     ss_start := ss_start s; subscribed := x; authorized := authorized s; extraNonce := extraNonce s; extraNonceSizeBytes := extraNonceSizeBytes s;
     nextWorkBoundary := nextWorkBoundary s; firstMiningSet := firstMiningSet s; timeout := timeout s; sessionId := sessionId s; workerId := workerId
     s; ss_algo := ss_algo s; ss_epoch := ss_epoch s; lastTxStamp := lastTxStamp s |}.
Definition set_authorized (x : bool) (s : Session) : Session := {|
     ss_start := ss_start s; subscribed := subscribed s; authorized := x; extraNonce := extraNonce s; extraNonceSizeBytes := extraNonceSizeBytes s;
     nextWorkBoundary := nextWorkBoundary s; firstMiningSet := firstMiningSet s; timeout := timeout s; sessionId := sessionId s; workerId := workerId
     s; ss_algo := ss_algo s; ss_epoch := ss_epoch s; lastTxStamp := lastTxStamp s |}.
Definition set_extraNonce (x : Z) (s : Session) : Session := {|
     ss_start := ss_start s; subscribed := subscribed s; authorized := authorized s; extraNonce := x; extraNonceSizeBytes := extraNonceSizeBytes s;
     nextWorkBoundary := nextWorkBoundary s; firstMiningSet := firstMiningSet s; timeout := timeout s; sessionId := sessionId s; workerId := workerId
     s; ss_algo := ss_algo s; ss_epoch := ss_epoch s; lastTxStamp := lastTxStamp s |}.
Definition set_extraNonceSizeBytes (x : Z) (s : Session) : Session := {|
     ss_start := ss_start s; subscribed := subscribed s; authorized := authorized s; extraNonce := extraNonce s; extraNonceSizeBytes := x;
     nextWorkBoundary := nextWorkBoundary s; firstMiningSet := firstMiningSet s; timeout := timeout s; sessionId := sessionId s; workerId := workerId
     s; ss_algo := ss_algo s; ss_epoch := ss_epoch s; lastTxStamp := lastTxStamp s |}.
Definition set_nextWorkBoundary (x : hash) (s : Session) : Session := {|
     ss_start := ss_start s; subscribed := subscribed s; authorized := authorized s; extraNonce := extraNonce s; extraNonceSizeBytes :=
     extraNonceSizeBytes s; nextWorkBoundary := x; firstMiningSet := firstMiningSet s; timeout := timeout s; sessionId := sessionId s; workerId :=
     workerId s; ss_algo := ss_algo s; ss_epoch := ss_epoch s; lastTxStamp := lastTxStamp s |}.
Definition set_firstMiningSet (x : bool) (s : Session) : Session := {|
     ss_start := ss_start s; subscribed := subscribed s; authorized := authorized s; extraNonce := extraNonce s; extraNonceSizeBytes :=
     extraNonceSizeBytes s; nextWorkBoundary := nextWorkBoundary s; firstMiningSet := x; timeout := timeout s; sessionId := sessionId s; workerId :=
     workerId s; ss_algo := ss_algo s; ss_epoch := ss_epoch s; lastTxStamp := lastTxStamp s |}.
Definition set_timeout (x : Z) (s : Session) : Session := {|
     ss_start := ss_start s; subscribed := subscribed s; authorized := authorized s; extraNonce := extraNonce s; extraNonceSizeBytes :=
     extraNonceSizeBytes s; nextWorkBoundary := nextWorkBoundary s; firstMiningSet := firstMiningSet s; timeout := x; sessionId := sessionId s;
     workerId := workerId s; ss_algo := ss_algo s; ss_epoch := ss_epoch s; lastTxStamp := lastTxStamp s |}.
Definition set_sessionId (x : string) (s : Session) : Session := {|
     ss_start := ss_start s; subscribed := subscribed s; authorized := authorized s; extraNonce := extraNonce s; extraNonceSizeBytes :=
     extraNonceSizeBytes s; nextWorkBoundary := nextWorkBoundary s; firstMiningSet := firstMiningSet s; timeout := timeout s; sessionId := x; workerId
     := workerId s; ss_algo := ss_algo s; ss_epoch := ss_epoch s; lastTxStamp := lastTxStamp s |}.
Definition set_workerId (x : string) (s : Session) : Session := {|
     ss_start := ss_start s; subscribed := subscribed s; authorized := authorized s; extraNonce := extraNonce s; extraNonceSizeBytes :=
     extraNonceSizeBytes s; nextWorkBoundary := nextWorkBoundary s; firstMiningSet := firstMiningSet s; timeout := timeout s; sessionId := sessionId
     s; workerId := x; ss_algo := ss_algo s; ss_epoch := ss_epoch s; lastTxStamp := lastTxStamp s |}.
Definition set_ss_algo (x : string) (s : Session) : Session := {|
     ss_start := ss_start s; subscribed := subscribed s; authorized := authorized s; extraNonce := extraNonce s; extraNonceSizeBytes :=
     extraNonceSizeBytes s; nextWorkBoundary := nextWorkBoundary s; firstMiningSet := firstMiningSet s; timeout := timeout s; sessionId := sessionId
     s; workerId := workerId s; ss_algo := x; ss_epoch := ss_epoch s; lastTxStamp := lastTxStamp s |}.
Definition set_ss_epoch (x : Z) (s : Session) : Session := {|
     ss_start := ss_start s; subscribed := subscribed s; authorized := authorized s; extraNonce := extraNonce s; extraNonceSizeBytes :=
     extraNonceSizeBytes s; nextWorkBoundary := nextWorkBoundary s; firstMiningSet := firstMiningSet s; timeout := timeout s; sessionId := sessionId
     s; workerId := workerId s; ss_algo := ss_algo s; ss_epoch := x; lastTxStamp := lastTxStamp s |}.
Definition set_lastTxStamp (x : Z) (s : Session) : Session := {|
     ss_start := ss_start s; subscribed := subscribed s; authorized := authorized s; extraNonce := extraNonce s; extraNonceSizeBytes :=
     extraNonceSizeBytes s; nextWorkBoundary := nextWorkBoundary s; firstMiningSet := firstMiningSet s; timeout := timeout s; sessionId := sessionId
     s; workerId := workerId s; ss_algo := ss_algo s; ss_epoch := ss_epoch s; lastTxStamp := x |}.

Definition default_boundary : hash :=
  match h256 "0x00000000ffff0000000000000000000000000000000000000000000000000000" with
  | Ok h => h | Throw _ => h_zero 32
  end.

Definition Session_new (now : Z) : Session := {|
  ss_start := now; subscribed := false; authorized := false; extraNonce := 0;
  extraNonceSizeBytes := 0; nextWorkBoundary := default_boundary; firstMiningSet := false;
  timeout := 30; sessionId := ""; workerId := ""; ss_algo := "ethash"; ss_epoch := 0;
  lastTxStamp := now |}.

(** [Session::duration], in minutes. *)
Definition duration (now : Z) (ss : Session) : Z := u64 (Z.quot (now - ss_start ss) 60000000000).

Inductive event :=
  | EvConnected | EvDisconnected
  | EvWork (wp : WorkPackage)
  | EvAccepted (delay minerIdx : Z) (stale : bool)
  | EvRejected (delay minerIdx : Z)
  | EvResolve (host : string) (port : Z)
  | EvConnect (endpoint : string)
  | EvShutdown                                 (* async_shutdown *)
  | EvWrite (data : string)
  | EvRead.

Section stratum.
Context `{Json, BigInteger, DoubleText}.
Context (project_name_with_version : string).

(** What [io_service::post] is given. *)
Inductive task :=
  | TDisconnect | TFinalize | TStartConnect
  | TResponse (responseObject : J).

Record Stratum := {
  m_conn : option URI;
  m_session : option Session;
  m_connected : bool;
  m_disconnecting : bool;
  m_connecting : bool;
  m_authpending : bool;
  m_worktimeout : Z;
  m_responsetimeout : Z;
  m_current : WorkPackage;
  m_current_timestamp : Z;
  m_socket : option sock;
  m_securesocket : option bool;
  m_nonsecuresocket : option bool;
  m_message : string;
  m_newjobprocessed : bool;
  m_sendBuffer : string;
  m_workloop_timer : option Z;
  m_response_pleas_count : Z;
  m_response_plea_older : Z;
  m_response_plea_times : list Z;
  m_txPending : bool;
  m_txQueue : list string;
  m_endpoints : list string;
  m_endpoint : option string;
  m_solution_submitted_max_id : Z;
  posted : list task;
  out : list event }.

Definition put_conn (x : option URI) (s : Stratum) : Stratum := {|
     m_conn := x; m_session := m_session s; m_connected := m_connected s; m_disconnecting := m_disconnecting s; m_connecting := m_connecting s;
     m_authpending := m_authpending s; m_worktimeout := m_worktimeout s; m_responsetimeout := m_responsetimeout s; m_current := m_current s;
     m_current_timestamp := m_current_timestamp s; m_socket := m_socket s; m_securesocket := m_securesocket s; m_nonsecuresocket := m_nonsecuresocket
     s; m_message := m_message s; m_newjobprocessed := m_newjobprocessed s; m_sendBuffer := m_sendBuffer s; m_workloop_timer := m_workloop_timer s;
     m_response_pleas_count := m_response_pleas_count s; m_response_plea_older := m_response_plea_older s; m_response_plea_times :=
     m_response_plea_times s; m_txPending := m_txPending s; m_txQueue := m_txQueue s; m_endpoints := m_endpoints s; m_endpoint := m_endpoint s;
     m_solution_submitted_max_id := m_solution_submitted_max_id s; posted := posted s; out := out s |}.
Definition put_session (x : option Session) (s : Stratum) : Stratum := {|
     m_conn := m_conn s; m_session := x; m_connected := m_connected s; m_disconnecting := m_disconnecting s; m_connecting := m_connecting s;
     m_authpending := m_authpending s; m_worktimeout := m_worktimeout s; m_responsetimeout := m_responsetimeout s; m_current := m_current s;
     m_current_timestamp := m_current_timestamp s; m_socket := m_socket s; m_securesocket := m_securesocket s; m_nonsecuresocket := m_nonsecuresocket
     s; m_message := m_message s; m_newjobprocessed := m_newjobprocessed s; m_sendBuffer := m_sendBuffer s; m_workloop_timer := m_workloop_timer s;
     m_response_pleas_count := m_response_pleas_count s; m_response_plea_older := m_response_plea_older s; m_response_plea_times :=
     m_response_plea_times s; m_txPending := m_txPending s; m_txQueue := m_txQueue s; m_endpoints := m_endpoints s; m_endpoint := m_endpoint s;
     m_solution_submitted_max_id := m_solution_submitted_max_id s; posted := posted s; out := out s |}.
Definition put_connected (x : bool) (s : Stratum) : Stratum := {|
     m_conn := m_conn s; m_session := m_session s; m_connected := x; m_disconnecting := m_disconnecting s; m_connecting := m_connecting s;
     m_authpending := m_authpending s; m_worktimeout := m_worktimeout s; m_responsetimeout := m_responsetimeout s; m_current := m_current s;
     m_current_timestamp := m_current_timestamp s; m_socket := m_socket s; m_securesocket := m_securesocket s; m_nonsecuresocket := m_nonsecuresocket
     s; m_message := m_message s; m_newjobprocessed := m_newjobprocessed s; m_sendBuffer := m_sendBuffer s; m_workloop_timer := m_workloop_timer s;
     m_response_pleas_count := m_response_pleas_count s; m_response_plea_older := m_response_plea_older s; m_response_plea_times :=
     m_response_plea_times s; m_txPending := m_txPending s; m_txQueue := m_txQueue s; m_endpoints := m_endpoints s; m_endpoint := m_endpoint s;
     m_solution_submitted_max_id := m_solution_submitted_max_id s; posted := posted s; out := out s |}.
Definition put_disconnecting (x : bool) (s : Stratum) : Stratum := {|
     m_conn := m_conn s; m_session := m_session s; m_connected := m_connected s; m_disconnecting := x; m_connecting := m_connecting s; m_authpending
     := m_authpending s; m_worktimeout := m_worktimeout s; m_responsetimeout := m_responsetimeout s; m_current := m_current s; m_current_timestamp :=
     m_current_timestamp s; m_socket := m_socket s; m_securesocket := m_securesocket s; m_nonsecuresocket := m_nonsecuresocket s; m_message :=
     m_message s; m_newjobprocessed := m_newjobprocessed s; m_sendBuffer := m_sendBuffer s; m_workloop_timer := m_workloop_timer s;
     m_response_pleas_count := m_response_pleas_count s; m_response_plea_older := m_response_plea_older s; m_response_plea_times :=
     m_response_plea_times s; m_txPending := m_txPending s; m_txQueue := m_txQueue s; m_endpoints := m_endpoints s; m_endpoint := m_endpoint s;
     m_solution_submitted_max_id := m_solution_submitted_max_id s; posted := posted s; out := out s |}.
Definition put_connecting (x : bool) (s : Stratum) : Stratum := {|
     m_conn := m_conn s; m_session := m_session s; m_connected := m_connected s; m_disconnecting := m_disconnecting s; m_connecting := x;
     m_authpending := m_authpending s; m_worktimeout := m_worktimeout s; m_responsetimeout := m_responsetimeout s; m_current := m_current s;
     m_current_timestamp := m_current_timestamp s; m_socket := m_socket s; m_securesocket := m_securesocket s; m_nonsecuresocket := m_nonsecuresocket
     s; m_message := m_message s; m_newjobprocessed := m_newjobprocessed s; m_sendBuffer := m_sendBuffer s; m_workloop_timer := m_workloop_timer s;
     m_response_pleas_count := m_response_pleas_count s; m_response_plea_older := m_response_plea_older s; m_response_plea_times :=
     m_response_plea_times s; m_txPending := m_txPending s; m_txQueue := m_txQueue s; m_endpoints := m_endpoints s; m_endpoint := m_endpoint s;
     m_solution_submitted_max_id := m_solution_submitted_max_id s; posted := posted s; out := out s |}.
Definition put_authpending (x : bool) (s : Stratum) : Stratum := {|
     m_conn := m_conn s; m_session := m_session s; m_connected := m_connected s; m_disconnecting := m_disconnecting s; m_connecting := m_connecting s;
     m_authpending := x; m_worktimeout := m_worktimeout s; m_responsetimeout := m_responsetimeout s; m_current := m_current s; m_current_timestamp :=
     m_current_timestamp s; m_socket := m_socket s; m_securesocket := m_securesocket s; m_nonsecuresocket := m_nonsecuresocket s; m_message :=
     m_message s; m_newjobprocessed := m_newjobprocessed s; m_sendBuffer := m_sendBuffer s; m_workloop_timer := m_workloop_timer s;
     m_response_pleas_count := m_response_pleas_count s; m_response_plea_older := m_response_plea_older s; m_response_plea_times :=
     m_response_plea_times s; m_txPending := m_txPending s; m_txQueue := m_txQueue s; m_endpoints := m_endpoints s; m_endpoint := m_endpoint s;
     m_solution_submitted_max_id := m_solution_submitted_max_id s; posted := posted s; out := out s |}.
Definition put_current (x : WorkPackage) (s : Stratum) : Stratum := {|
     m_conn := m_conn s; m_session := m_session s; m_connected := m_connected s; m_disconnecting := m_disconnecting s; m_connecting := m_connecting s;
     m_authpending := m_authpending s; m_worktimeout := m_worktimeout s; m_responsetimeout := m_responsetimeout s; m_current := x; m_current_timestamp
     := m_current_timestamp s; m_socket := m_socket s; m_securesocket := m_securesocket s; m_nonsecuresocket := m_nonsecuresocket s; m_message :=
     m_message s; m_newjobprocessed := m_newjobprocessed s; m_sendBuffer := m_sendBuffer s; m_workloop_timer := m_workloop_timer s;
     m_response_pleas_count := m_response_pleas_count s; m_response_plea_older := m_response_plea_older s; m_response_plea_times :=
     m_response_plea_times s; m_txPending := m_txPending s; m_txQueue := m_txQueue s; m_endpoints := m_endpoints s; m_endpoint := m_endpoint s;
     m_solution_submitted_max_id := m_solution_submitted_max_id s; posted := posted s; out := out s |}.
Definition put_current_timestamp (x : Z) (s : Stratum) : Stratum := {|
     m_conn := m_conn s; m_session := m_session s; m_connected := m_connected s; m_disconnecting := m_disconnecting s; m_connecting := m_connecting s;
     m_authpending := m_authpending s; m_worktimeout := m_worktimeout s; m_responsetimeout := m_responsetimeout s; m_current := m_current s;
     m_current_timestamp := x; m_socket := m_socket s; m_securesocket := m_securesocket s; m_nonsecuresocket := m_nonsecuresocket s; m_message :=
     m_message s; m_newjobprocessed := m_newjobprocessed s; m_sendBuffer := m_sendBuffer s; m_workloop_timer := m_workloop_timer s;
     m_response_pleas_count := m_response_pleas_count s; m_response_plea_older := m_response_plea_older s; m_response_plea_times :=
     m_response_plea_times s; m_txPending := m_txPending s; m_txQueue := m_txQueue s; m_endpoints := m_endpoints s; m_endpoint := m_endpoint s;
     m_solution_submitted_max_id := m_solution_submitted_max_id s; posted := posted s; out := out s |}.
Definition put_socket (x : option sock) (s : Stratum) : Stratum := {|
     m_conn := m_conn s; m_session := m_session s; m_connected := m_connected s; m_disconnecting := m_disconnecting s; m_connecting := m_connecting s;
     m_authpending := m_authpending s; m_worktimeout := m_worktimeout s; m_responsetimeout := m_responsetimeout s; m_current := m_current s;
     m_current_timestamp := m_current_timestamp s; m_socket := x; m_securesocket := m_securesocket s; m_nonsecuresocket := m_nonsecuresocket s;
     m_message := m_message s; m_newjobprocessed := m_newjobprocessed s; m_sendBuffer := m_sendBuffer s; m_workloop_timer := m_workloop_timer s;
     m_response_pleas_count := m_response_pleas_count s; m_response_plea_older := m_response_plea_older s; m_response_plea_times :=
     m_response_plea_times s; m_txPending := m_txPending s; m_txQueue := m_txQueue s; m_endpoints := m_endpoints s; m_endpoint := m_endpoint s;
     m_solution_submitted_max_id := m_solution_submitted_max_id s; posted := posted s; out := out s |}.
Definition put_securesocket (x : option bool) (s : Stratum) : Stratum := {|
     m_conn := m_conn s; m_session := m_session s; m_connected := m_connected s; m_disconnecting := m_disconnecting s; m_connecting := m_connecting s;
     m_authpending := m_authpending s; m_worktimeout := m_worktimeout s; m_responsetimeout := m_responsetimeout s; m_current := m_current s;
     m_current_timestamp := m_current_timestamp s; m_socket := m_socket s; m_securesocket := x; m_nonsecuresocket := m_nonsecuresocket s; m_message :=
     m_message s; m_newjobprocessed := m_newjobprocessed s; m_sendBuffer := m_sendBuffer s; m_workloop_timer := m_workloop_timer s;
     m_response_pleas_count := m_response_pleas_count s; m_response_plea_older := m_response_plea_older s; m_response_plea_times :=
     m_response_plea_times s; m_txPending := m_txPending s; m_txQueue := m_txQueue s; m_endpoints := m_endpoints s; m_endpoint := m_endpoint s;
     m_solution_submitted_max_id := m_solution_submitted_max_id s; posted := posted s; out := out s |}.
Definition put_nonsecuresocket (x : option bool) (s : Stratum) : Stratum := {|
     m_conn := m_conn s; m_session := m_session s; m_connected := m_connected s; m_disconnecting := m_disconnecting s; m_connecting := m_connecting s;
     m_authpending := m_authpending s; m_worktimeout := m_worktimeout s; m_responsetimeout := m_responsetimeout s; m_current := m_current s;
     m_current_timestamp := m_current_timestamp s; m_socket := m_socket s; m_securesocket := m_securesocket s; m_nonsecuresocket := x; m_message :=
     m_message s; m_newjobprocessed := m_newjobprocessed s; m_sendBuffer := m_sendBuffer s; m_workloop_timer := m_workloop_timer s;
     m_response_pleas_count := m_response_pleas_count s; m_response_plea_older := m_response_plea_older s; m_response_plea_times :=
     m_response_plea_times s; m_txPending := m_txPending s; m_txQueue := m_txQueue s; m_endpoints := m_endpoints s; m_endpoint := m_endpoint s;
     m_solution_submitted_max_id := m_solution_submitted_max_id s; posted := posted s; out := out s |}.
Definition put_message (x : string) (s : Stratum) : Stratum := {|
     m_conn := m_conn s; m_session := m_session s; m_connected := m_connected s; m_disconnecting := m_disconnecting s; m_connecting := m_connecting s;
     m_authpending := m_authpending s; m_worktimeout := m_worktimeout s; m_responsetimeout := m_responsetimeout s; m_current := m_current s;
     m_current_timestamp := m_current_timestamp s; m_socket := m_socket s; m_securesocket := m_securesocket s; m_nonsecuresocket := m_nonsecuresocket
     s; m_message := x; m_newjobprocessed := m_newjobprocessed s; m_sendBuffer := m_sendBuffer s; m_workloop_timer := m_workloop_timer s;
     m_response_pleas_count := m_response_pleas_count s; m_response_plea_older := m_response_plea_older s; m_response_plea_times :=
     m_response_plea_times s; m_txPending := m_txPending s; m_txQueue := m_txQueue s; m_endpoints := m_endpoints s; m_endpoint := m_endpoint s;
     m_solution_submitted_max_id := m_solution_submitted_max_id s; posted := posted s; out := out s |}.
Definition put_newjobprocessed (x : bool) (s : Stratum) : Stratum := {|
     m_conn := m_conn s; m_session := m_session s; m_connected := m_connected s; m_disconnecting := m_disconnecting s; m_connecting := m_connecting s;
     m_authpending := m_authpending s; m_worktimeout := m_worktimeout s; m_responsetimeout := m_responsetimeout s; m_current := m_current s;
     m_current_timestamp := m_current_timestamp s; m_socket := m_socket s; m_securesocket := m_securesocket s; m_nonsecuresocket := m_nonsecuresocket
     s; m_message := m_message s; m_newjobprocessed := x; m_sendBuffer := m_sendBuffer s; m_workloop_timer := m_workloop_timer s;
     m_response_pleas_count := m_response_pleas_count s; m_response_plea_older := m_response_plea_older s; m_response_plea_times :=
     m_response_plea_times s; m_txPending := m_txPending s; m_txQueue := m_txQueue s; m_endpoints := m_endpoints s; m_endpoint := m_endpoint s;
     m_solution_submitted_max_id := m_solution_submitted_max_id s; posted := posted s; out := out s |}.
Definition put_sendBuffer (x : string) (s : Stratum) : Stratum := {|
     m_conn := m_conn s; m_session := m_session s; m_connected := m_connected s; m_disconnecting := m_disconnecting s; m_connecting := m_connecting s;
     m_authpending := m_authpending s; m_worktimeout := m_worktimeout s; m_responsetimeout := m_responsetimeout s; m_current := m_current s;
     m_current_timestamp := m_current_timestamp s; m_socket := m_socket s; m_securesocket := m_securesocket s; m_nonsecuresocket := m_nonsecuresocket
     s; m_message := m_message s; m_newjobprocessed := m_newjobprocessed s; m_sendBuffer := x; m_workloop_timer := m_workloop_timer s;
     m_response_pleas_count := m_response_pleas_count s; m_response_plea_older := m_response_plea_older s; m_response_plea_times :=
     m_response_plea_times s; m_txPending := m_txPending s; m_txQueue := m_txQueue s; m_endpoints := m_endpoints s; m_endpoint := m_endpoint s;
     m_solution_submitted_max_id := m_solution_submitted_max_id s; posted := posted s; out := out s |}.
Definition put_timer (x : option Z) (s : Stratum) : Stratum := {|
     m_conn := m_conn s; m_session := m_session s; m_connected := m_connected s; m_disconnecting := m_disconnecting s; m_connecting := m_connecting s;
     m_authpending := m_authpending s; m_worktimeout := m_worktimeout s; m_responsetimeout := m_responsetimeout s; m_current := m_current s;
     m_current_timestamp := m_current_timestamp s; m_socket := m_socket s; m_securesocket := m_securesocket s; m_nonsecuresocket := m_nonsecuresocket
     s; m_message := m_message s; m_newjobprocessed := m_newjobprocessed s; m_sendBuffer := m_sendBuffer s; m_workloop_timer := x;
     m_response_pleas_count := m_response_pleas_count s; m_response_plea_older := m_response_plea_older s; m_response_plea_times :=
     m_response_plea_times s; m_txPending := m_txPending s; m_txQueue := m_txQueue s; m_endpoints := m_endpoints s; m_endpoint := m_endpoint s;
     m_solution_submitted_max_id := m_solution_submitted_max_id s; posted := posted s; out := out s |}.
Definition put_count (x : Z) (s : Stratum) : Stratum := {|
     m_conn := m_conn s; m_session := m_session s; m_connected := m_connected s; m_disconnecting := m_disconnecting s; m_connecting := m_connecting s;
     m_authpending := m_authpending s; m_worktimeout := m_worktimeout s; m_responsetimeout := m_responsetimeout s; m_current := m_current s;
     m_current_timestamp := m_current_timestamp s; m_socket := m_socket s; m_securesocket := m_securesocket s; m_nonsecuresocket := m_nonsecuresocket
     s; m_message := m_message s; m_newjobprocessed := m_newjobprocessed s; m_sendBuffer := m_sendBuffer s; m_workloop_timer := m_workloop_timer s;
     m_response_pleas_count := x; m_response_plea_older := m_response_plea_older s; m_response_plea_times := m_response_plea_times s; m_txPending :=
     m_txPending s; m_txQueue := m_txQueue s; m_endpoints := m_endpoints s; m_endpoint := m_endpoint s; m_solution_submitted_max_id :=
     m_solution_submitted_max_id s; posted := posted s; out := out s |}.
Definition put_older (x : Z) (s : Stratum) : Stratum := {|
     m_conn := m_conn s; m_session := m_session s; m_connected := m_connected s; m_disconnecting := m_disconnecting s; m_connecting := m_connecting s;
     m_authpending := m_authpending s; m_worktimeout := m_worktimeout s; m_responsetimeout := m_responsetimeout s; m_current := m_current s;
     m_current_timestamp := m_current_timestamp s; m_socket := m_socket s; m_securesocket := m_securesocket s; m_nonsecuresocket := m_nonsecuresocket
     s; m_message := m_message s; m_newjobprocessed := m_newjobprocessed s; m_sendBuffer := m_sendBuffer s; m_workloop_timer := m_workloop_timer s;
     m_response_pleas_count := m_response_pleas_count s; m_response_plea_older := x; m_response_plea_times := m_response_plea_times s; m_txPending :=
     m_txPending s; m_txQueue := m_txQueue s; m_endpoints := m_endpoints s; m_endpoint := m_endpoint s; m_solution_submitted_max_id :=
     m_solution_submitted_max_id s; posted := posted s; out := out s |}.
Definition put_times (x : list Z) (s : Stratum) : Stratum := {|
     m_conn := m_conn s; m_session := m_session s; m_connected := m_connected s; m_disconnecting := m_disconnecting s; m_connecting := m_connecting s;
     m_authpending := m_authpending s; m_worktimeout := m_worktimeout s; m_responsetimeout := m_responsetimeout s; m_current := m_current s;
     m_current_timestamp := m_current_timestamp s; m_socket := m_socket s; m_securesocket := m_securesocket s; m_nonsecuresocket := m_nonsecuresocket
     s; m_message := m_message s; m_newjobprocessed := m_newjobprocessed s; m_sendBuffer := m_sendBuffer s; m_workloop_timer := m_workloop_timer s;
     m_response_pleas_count := m_response_pleas_count s; m_response_plea_older := m_response_plea_older s; m_response_plea_times := x; m_txPending :=
     m_txPending s; m_txQueue := m_txQueue s; m_endpoints := m_endpoints s; m_endpoint := m_endpoint s; m_solution_submitted_max_id :=
     m_solution_submitted_max_id s; posted := posted s; out := out s |}.
Definition put_txPending (x : bool) (s : Stratum) : Stratum := {|
     m_conn := m_conn s; m_session := m_session s; m_connected := m_connected s; m_disconnecting := m_disconnecting s; m_connecting := m_connecting s;
     m_authpending := m_authpending s; m_worktimeout := m_worktimeout s; m_responsetimeout := m_responsetimeout s; m_current := m_current s;
     m_current_timestamp := m_current_timestamp s; m_socket := m_socket s; m_securesocket := m_securesocket s; m_nonsecuresocket := m_nonsecuresocket
     s; m_message := m_message s; m_newjobprocessed := m_newjobprocessed s; m_sendBuffer := m_sendBuffer s; m_workloop_timer := m_workloop_timer s;
     m_response_pleas_count := m_response_pleas_count s; m_response_plea_older := m_response_plea_older s; m_response_plea_times :=
     m_response_plea_times s; m_txPending := x; m_txQueue := m_txQueue s; m_endpoints := m_endpoints s; m_endpoint := m_endpoint s;
     m_solution_submitted_max_id := m_solution_submitted_max_id s; posted := posted s; out := out s |}.
Definition put_txQueue (x : list string) (s : Stratum) : Stratum := {|
     m_conn := m_conn s; m_session := m_session s; m_connected := m_connected s; m_disconnecting := m_disconnecting s; m_connecting := m_connecting s;
     m_authpending := m_authpending s; m_worktimeout := m_worktimeout s; m_responsetimeout := m_responsetimeout s; m_current := m_current s;
     m_current_timestamp := m_current_timestamp s; m_socket := m_socket s; m_securesocket := m_securesocket s; m_nonsecuresocket := m_nonsecuresocket
     s; m_message := m_message s; m_newjobprocessed := m_newjobprocessed s; m_sendBuffer := m_sendBuffer s; m_workloop_timer := m_workloop_timer s;
     m_response_pleas_count := m_response_pleas_count s; m_response_plea_older := m_response_plea_older s; m_response_plea_times :=
     m_response_plea_times s; m_txPending := m_txPending s; m_txQueue := x; m_endpoints := m_endpoints s; m_endpoint := m_endpoint s;
     m_solution_submitted_max_id := m_solution_submitted_max_id s; posted := posted s; out := out s |}.
Definition put_endpoints (x : list string) (s : Stratum) : Stratum := {|
     m_conn := m_conn s; m_session := m_session s; m_connected := m_connected s; m_disconnecting := m_disconnecting s; m_connecting := m_connecting s;
     m_authpending := m_authpending s; m_worktimeout := m_worktimeout s; m_responsetimeout := m_responsetimeout s; m_current := m_current s;
     m_current_timestamp := m_current_timestamp s; m_socket := m_socket s; m_securesocket := m_securesocket s; m_nonsecuresocket := m_nonsecuresocket
     s; m_message := m_message s; m_newjobprocessed := m_newjobprocessed s; m_sendBuffer := m_sendBuffer s; m_workloop_timer := m_workloop_timer s;
     m_response_pleas_count := m_response_pleas_count s; m_response_plea_older := m_response_plea_older s; m_response_plea_times :=
     m_response_plea_times s; m_txPending := m_txPending s; m_txQueue := m_txQueue s; m_endpoints := x; m_endpoint := m_endpoint s;
     m_solution_submitted_max_id := m_solution_submitted_max_id s; posted := posted s; out := out s |}.
Definition put_endpoint (x : option string) (s : Stratum) : Stratum := {|
     m_conn := m_conn s; m_session := m_session s; m_connected := m_connected s; m_disconnecting := m_disconnecting s; m_connecting := m_connecting s;
     m_authpending := m_authpending s; m_worktimeout := m_worktimeout s; m_responsetimeout := m_responsetimeout s; m_current := m_current s;
     m_current_timestamp := m_current_timestamp s; m_socket := m_socket s; m_securesocket := m_securesocket s; m_nonsecuresocket := m_nonsecuresocket
     s; m_message := m_message s; m_newjobprocessed := m_newjobprocessed s; m_sendBuffer := m_sendBuffer s; m_workloop_timer := m_workloop_timer s;
     m_response_pleas_count := m_response_pleas_count s; m_response_plea_older := m_response_plea_older s; m_response_plea_times :=
     m_response_plea_times s; m_txPending := m_txPending s; m_txQueue := m_txQueue s; m_endpoints := m_endpoints s; m_endpoint := x;
     m_solution_submitted_max_id := m_solution_submitted_max_id s; posted := posted s; out := out s |}.
Definition put_max_id (x : Z) (s : Stratum) : Stratum := {|
     m_conn := m_conn s; m_session := m_session s; m_connected := m_connected s; m_disconnecting := m_disconnecting s; m_connecting := m_connecting s;
     m_authpending := m_authpending s; m_worktimeout := m_worktimeout s; m_responsetimeout := m_responsetimeout s; m_current := m_current s;
     m_current_timestamp := m_current_timestamp s; m_socket := m_socket s; m_securesocket := m_securesocket s; m_nonsecuresocket := m_nonsecuresocket
     s; m_message := m_message s; m_newjobprocessed := m_newjobprocessed s; m_sendBuffer := m_sendBuffer s; m_workloop_timer := m_workloop_timer s;
     m_response_pleas_count := m_response_pleas_count s; m_response_plea_older := m_response_plea_older s; m_response_plea_times :=
     m_response_plea_times s; m_txPending := m_txPending s; m_txQueue := m_txQueue s; m_endpoints := m_endpoints s; m_endpoint := m_endpoint s;
     m_solution_submitted_max_id := x; posted := posted s; out := out s |}.
Definition put_posted (x : list task) (s : Stratum) : Stratum := {|
     m_conn := m_conn s; m_session := m_session s; m_connected := m_connected s; m_disconnecting := m_disconnecting s; m_connecting := m_connecting s;
     m_authpending := m_authpending s; m_worktimeout := m_worktimeout s; m_responsetimeout := m_responsetimeout s; m_current := m_current s;
     m_current_timestamp := m_current_timestamp s; m_socket := m_socket s; m_securesocket := m_securesocket s; m_nonsecuresocket := m_nonsecuresocket
     s; m_message := m_message s; m_newjobprocessed := m_newjobprocessed s; m_sendBuffer := m_sendBuffer s; m_workloop_timer := m_workloop_timer s;
     m_response_pleas_count := m_response_pleas_count s; m_response_plea_older := m_response_plea_older s; m_response_plea_times :=
     m_response_plea_times s; m_txPending := m_txPending s; m_txQueue := m_txQueue s; m_endpoints := m_endpoints s; m_endpoint := m_endpoint s;
     m_solution_submitted_max_id := m_solution_submitted_max_id s; posted := x; out := out s |}.
Definition put_out (x : list event) (s : Stratum) : Stratum := {|
     m_conn := m_conn s; m_session := m_session s; m_connected := m_connected s; m_disconnecting := m_disconnecting s; m_connecting := m_connecting s;
     m_authpending := m_authpending s; m_worktimeout := m_worktimeout s; m_responsetimeout := m_responsetimeout s; m_current := m_current s;
     m_current_timestamp := m_current_timestamp s; m_socket := m_socket s; m_securesocket := m_securesocket s; m_nonsecuresocket := m_nonsecuresocket
     s; m_message := m_message s; m_newjobprocessed := m_newjobprocessed s; m_sendBuffer := m_sendBuffer s; m_workloop_timer := m_workloop_timer s;
     m_response_pleas_count := m_response_pleas_count s; m_response_plea_older := m_response_plea_older s; m_response_plea_times :=
     m_response_plea_times s; m_txPending := m_txPending s; m_txQueue := m_txQueue s; m_endpoints := m_endpoints s; m_endpoint := m_endpoint s;
     m_solution_submitted_max_id := m_solution_submitted_max_id s; posted := posted s; out := x |}.

(** The constructor; [max_id] is the value of the uninitialised [m_solution_submitted_max_id]. *)
Definition Stratum_new (worktimeout responsetimeout now max_id : Z) : Stratum := {|
  m_conn := None; m_session := None; m_connected := false; m_disconnecting := false;
  m_connecting := false; m_authpending := false; m_worktimeout := worktimeout;
  m_responsetimeout := responsetimeout; m_current := WorkPackage_default;
  m_current_timestamp := 0; m_socket := None; m_securesocket := None; m_nonsecuresocket := None;
  m_message := ""; m_newjobprocessed := false; m_sendBuffer := ""; m_workloop_timer := None;
  m_response_pleas_count := 0; m_response_plea_older := now; m_response_plea_times := [];
  m_txPending := false; m_txQueue := []; m_endpoints := []; m_endpoint := None;
  m_solution_submitted_max_id := max_id; posted := []; out := [] |}.

Definition M := SE Stratum.
Definition gets {A} (f : Stratum -> A) : M A := fun s => (Ok (f s), s).
Definition undefined {A} (what : string) : M A := se_throw (UndefinedBehaviour what).
Definition emit (e : event) : M unit := se_modify (fun s => put_out (out s ++ [e]) s).
Definition post (t : task) : M unit := se_modify (fun s => put_posted (posted s ++ [t]) s).

(** [m_conn->...] and [m_session->...] *)
Definition conn : M URI := fun s =>
  match m_conn s with Some u => (Ok u, s) | None => undefined "null m_conn" s end.
Definition on_conn (g : URI -> URI) : M unit := (do u <- conn; se_modify (put_conn (Some (g u))))%se.
Definition session : M Session := fun s =>
  match m_session s with Some ss => (Ok ss, s) | None => undefined "null m_session" s end.
Definition on_session (g : Session -> Session) : M unit :=
  (do ss <- session; se_modify (put_session (Some (g ss))))%se.
Definition stratum_mode : M Z := (do u <- conn; se_ret (m_stratumMode u))%se.
Definition is_secure (u : URI) : bool := negb (bool_decide (SecLevel u = SL_NONE)).
Definition has_session (s : Stratum) : bool := match m_session s with Some _ => true | None => false end.

Definition isPendingState (s : Stratum) : bool := m_connecting s || m_disconnecting s.
Definition isConnected (s : Stratum) : bool := m_connected s && negb (isPendingState s).
Definition isSubscribed (s : Stratum) : bool :=
  match m_session s with Some ss => subscribed ss | None => false end.
Definition isAuthorized (s : Stratum) : bool :=
  match m_session s with Some ss => authorized ss | None => false end.

(** ** Response pleas: the requests that wait for an answer *)

Definition enqueue_response_plea (now : Z) (s : Stratum) : Stratum :=
  let s' := put_count (m_response_pleas_count s + 1) s in
  let s' := if m_response_pleas_count s =? 0 then put_older now s' else s' in
  put_times (m_response_plea_times s' ++ [now]) s'.

(** The delay in milliseconds. *)
Definition dequeue_response_plea (now : Z) (s : Stratum) : Z * Stratum :=
  let response_delay_ms := Z.quot (now - m_response_plea_older s) 1000000 in
  let s := match m_response_plea_times s with
           | t :: l => put_older t (put_times l s)
           | [] => s
           end in
  if 0 <? m_response_pleas_count s
  then (response_delay_ms, put_count (m_response_pleas_count s - 1) s) else (0, s).

Definition dequeue (now : Z) : M Z := fun s =>
  let '(d, s) := dequeue_response_plea now s in (Ok d, s).

Definition clear_response_pleas (now : Z) (s : Stratum) : Stratum :=
  put_older now (put_times [] (put_count 0 s)).

(** ** Sockets *)

(** [m_socket->is_open()], [m_socket->close()] and the initiation of [async_connect], which
    opens the socket. *)
Definition socket_open : M bool := fun s =>
  match m_socket s with
  | Some SockSecure => match m_securesocket s with
                       | Some b => (Ok b, s) | None => undefined "null socket" s end
  | Some SockPlain => match m_nonsecuresocket s with
                      | Some b => (Ok b, s) | None => undefined "null socket" s end
  | None => undefined "null socket" s
  end.
Definition set_open (b : bool) : M unit := fun s =>
  match m_socket s with
  | Some SockSecure => (Ok tt, put_securesocket (Some b) s)
  | Some SockPlain => (Ok tt, put_nonsecuresocket (Some b) s)
  | None => undefined "null socket" s
  end.

(** [m_securesocket->...] and [m_nonsecuresocket->...] *)
Definition secure_socket : M bool := fun s =>
  match m_securesocket s with Some b => (Ok b, s) | None => undefined "null m_securesocket" s end.
Definition plain_socket : M bool := fun s =>
  match m_nonsecuresocket s with Some b => (Ok b, s) | None => undefined "null m_nonsecuresocket" s end.
(** The socket the security level selects. *)
Definition selected_socket : M bool := (do u <- conn; if is_secure u then secure_socket else plain_socket)%se.

Definition init_socket : M unit :=
  (do u <- conn;
   if is_secure u
   then se_modify (fun s => put_socket (Some SockSecure) (put_securesocket (Some false) s))
   else se_modify (fun s => put_socket (Some SockPlain) (put_nonsecuresocket (Some false) s)))%se.

Definition pop_endpoint : M unit := fun s =>
  match m_endpoints s with
  | _ :: l => (Ok tt, put_endpoints l s)
  | [] => undefined "pop of an empty queue" s
  end.

(** ** Sending *)

Definition sendSocketData : M unit := fun s =>
  if negb (isConnected s) || bool_decide (m_txQueue s = [])
  then (Ok tt, put_txPending false (put_txQueue [] (put_sendBuffer "" s)))
  else
    let buffer := foldl (fun b line => b +:+ line +:+ LF) (m_sendBuffer s) (m_txQueue s) in
    let s := put_txQueue [] (put_sendBuffer buffer s) in
    (do _ <- selected_socket; emit (EvWrite buffer))%se s.

Definition send (jReq : J) : M unit := fun s =>
  let s := put_txQueue (m_txQueue s ++ [json_write jReq]) s in
  if m_txPending s then (Ok tt, s) else sendSocketData (put_txPending true s).

Definition send_request (jReq : res J) : M unit := (do j <- se_lift jReq; send j)%se.

(** The streambuf form of [async_write] consumes what it has written. *)
Definition onSendSocketDataCompleted (now : Z) (ec : error_code) : M unit := fun s =>
  if bool_decide (ec = EcOk) then
    let s := put_sendBuffer "" s in
    (exec (if has_session s
           then do mode <- stratum_mode;
                if mode =? 3 then on_session (set_lastTxStamp now) else se_ret tt
           else se_ret tt);
     do q <- gets m_txQueue;
     if bool_decide (q = []) then se_modify (put_txPending false) else sendSocketData)%se s
  else
    let s := put_txPending false (put_txQueue [] (put_sendBuffer "" s)) in
    (exec (if bool_decide (ec = EcSslIsShutdown) then post TDisconnect else se_ret tt);
     do c <- gets isConnected;
     if c then post TDisconnect else se_ret tt)%se s.

Definition recvSocketData : M unit := (do _ <- selected_socket; emit EvRead)%se.

(** ** Connecting and disconnecting *)

(** [ip_endpoint]: [address::from_string] with the port. *)
Definition connect (ip_endpoint : string -> Z -> res string) : M unit := fun s =>
  if m_connecting s then (Ok tt, s) else
  (exec se_modify (fun s => put_authpending false (put_timer (Some 1000) s));
   do k <- gets m_socket;
   exec (match k with None => init_socket | Some _ => se_ret tt end);
   exec se_modify (fun s => put_endpoint None (put_endpoints [] s));
   do u <- conn;
   if bool_decide (m_hostType u = HT_Dns) || bool_decide (m_hostType u = HT_Basic)
   then emit (EvResolve (m_host u) (m_port u))
   else
     do e <- se_lift (ip_endpoint (m_host u) (m_port u));
     exec se_modify (put_endpoints [e]); post TStartConnect)%se s.

Definition disconnect_finalize (now : Z) : M unit :=
  (exec se_modify (fun s =>
     let s := match m_securesocket s with
              | Some true => put_securesocket (Some false) s | _ => s end in
     put_nonsecuresocket None (put_socket None s));
   do o <- gets m_session;
   exec (match o with
         | Some ss => on_conn (addDuration (duration now ss))
         | None => se_ret tt
         end);
   exec se_modify (fun s => put_txPending false (put_disconnecting false
                              (put_authpending false (put_session None s))));
   do u <- conn;
   do again <- (if negb (m_unrecoverable u) && negb (m_stratumModeConfirmed u) && m_responds u then
                  if 0 <? m_stratumMode u then
                    exec on_conn (SetStratumMode (m_stratumMode u - 1));
                    exec post TStartConnect; se_ret true
                  else exec on_conn MarkUnrecoverable; se_ret false
                else se_ret false);
   if again : bool then se_ret tt
   else
     exec se_modify (fun s => put_timer None (put_max_id 0 (clear_response_pleas now s)));
     (* the manager's handler releases the connection *)
     exec emit EvDisconnected; se_modify (put_conn None))%se.

(** [m_socket->cancel()] throws on a socket that is not open. *)
Definition cancel_socket : M unit :=
  (do open <- socket_open;
   if open : bool then se_ret tt else se_throw (LibError "cancel: Bad file descriptor"))%se.

Definition disconnect (now : Z) : M unit := fun s =>
  if m_disconnecting s then (Ok tt, s) else
  (exec se_modify (fun s => put_connected false (put_disconnecting true s));
   do k <- gets m_socket;
   exec (match k with None => se_ret tt | Some _ => cancel_socket end);
   do open <- (match k with None => se_ret false | Some _ => socket_open end);
   if open : bool then
     do u <- conn;
     if is_secure u then
       do _ <- secure_socket;
       exec emit EvShutdown; se_modify (enqueue_response_plea now)
     else
       do _ <- plain_socket;
       exec set_open false; disconnect_finalize now
   else disconnect_finalize now)%se s.

Definition onSSLShutdownCompleted (now : Z) : M unit :=
  (exec se_modify (clear_response_pleas now); post TFinalize)%se.

(** [None] is an error. *)
Definition resolve_handler (now : Z) (result : option (list string)) : M unit :=
  match result with
  | Some l => (exec se_modify (fun s => put_endpoints (m_endpoints s ++ l) s); post TStartConnect)%se
  | None => (do _ <- conn; exec se_modify (put_connecting false); disconnect_finalize now)%se
  end.

Definition start_connect (now : Z) : M unit := fun s =>
  if m_connecting s then (Ok tt, s) else
  (exec se_modify (put_connecting true);
   do l <- gets m_endpoints;
   match l with
   | e :: _ =>
       exec se_modify (put_endpoint (Some e));
       do k <- gets m_socket;
       exec (match k with None => init_socket | Some _ => se_ret tt end);
       exec se_modify (clear_response_pleas now);
       exec se_modify (put_connecting true);
       exec se_modify (enqueue_response_plea now);
       exec se_modify (put_max_id 0);
       do u <- conn;
       if is_secure u
       then do _ <- secure_socket; exec se_modify (put_securesocket (Some true)); emit (EvConnect e)
       else exec set_open true; emit (EvConnect e)
   | [] =>
       exec se_modify (put_connecting false);
       do _ <- conn; disconnect_finalize now
   end)%se s.

(** ** The first request of a connection *)

Definition params (l : list J) : res J := jarray empty_array l.

Definition login_request (u : URI) : res J :=
  match protocol_of (m_stratumMode u) with
  | Some STRATUM =>
      let! ps := params [] in
      jobject jnull [("id", of_Z 1); ("method", of_string "mining.subscribe"); ("params", ps);
                     ("jsonrpc", of_string "2.0")]
  | Some ETHPROXY =>
      let! ps := params (of_string (m_user u +:+ m_path u) ::
                         if String.eqb (m_password u) "" then [] else [of_string (m_password u)]) in
      jobject jnull ([("id", of_Z 1); ("method", of_string "eth_submitLogin")] ++
                     (if String.eqb (m_worker u) "" then [] else [("worker", of_string (m_worker u))]) ++
                     [("params", ps)])
  | Some CORESTRATUM =>
      let! ps := params [of_string project_name_with_version; of_string "CoreStratum/1.0.0"] in
      jobject jnull [("id", of_Z 1); ("method", of_string "mining.subscribe"); ("params", ps)]
  | Some CORESTRATUM2 =>
      let! jPrm := jobject jnull [("agent", of_string project_name_with_version);
                     ("host", of_string (m_host u));
                     ("port", of_string (toCompactHex_uint32 (m_port u) DontAdd));
                     ("proto", of_string "CoreStratum/2.0.0")] in
      jobject jnull [("id", of_Z 1); ("method", of_string "mining.hello"); ("params", jPrm)]
  | None =>
      let! ps := params [] in
      jobject jnull [("id", of_Z 1); ("method", of_string "mining.subscribe"); ("params", ps)]
  end.

(** The choice of the flavour to try. *)
Definition select_mode (u : URI) : URI :=
  if Version u <? 999 then SetStratumMode_confirmed (Version u) true u
  else if negb (m_stratumModeConfirmed u) && (m_stratumMode u =? 999)
       then SetStratumMode_confirmed 3 false u else u.

(** A connection that is open: the first request, in the chosen flavour. *)
Definition first_request (now : Z) : M unit :=
  (exec se_modify (fun s => put_sendBuffer (sdrop 4096 (m_sendBuffer s)) s);
   exec se_modify (clear_response_pleas now);
   exec on_conn select_mode;
   do u <- conn;
   do jReq <- se_lift (login_request u);
   exec recvSocketData;
   exec se_modify (enqueue_response_plea now);
   send jReq)%se.

(** [handshake]: whether the TLS handshake succeeds. *)
Definition connect_handler (now : Z) (ec : error_code) (handshake : bool) : M unit :=
  (exec se_modify (put_connecting false);
   do failed <- (if bool_decide (ec = EcOk) then do o <- socket_open; se_ret (negb o) else se_ret true);
   if failed : bool then
     do o <- socket_open;
     exec (if o : bool then set_open false else se_ret tt);
     exec pop_endpoint; post TStartConnect
   else
     exec on_conn (set_Responds true);
     exec se_modify (fun s => put_txQueue [] (put_message "" (put_connected true s)));
     do u <- conn;
     do _ <- selected_socket;
     if is_secure u && negb handshake then
       exec on_conn MarkUnrecoverable; post TDisconnect
     else first_request now)%se.

(** ** The work loop timer *)

(** The error reply a client sends itself when a login request is not answered. *)
Definition fake_error : res J :=
  jobject jnull [("id", of_Z 1); ("result", jnull); ("error", of_bool true)].

Definition noop_request : res J := jobject jnull [("id", of_Z 7); ("method", of_string "mining.noop")].

(** While connecting or disconnecting; [true] when the handler returns. *)
Definition check_pending (now : Z) : M bool :=
  (do pending <- gets isPendingState;
   do delay <- gets (fun s => Z.quot (now - m_response_plea_older s) 1000000);
   do limit <- gets (fun s => m_responsetimeout s * 1000);
   if pending && (delay <=? limit) then
     do c <- gets m_connecting;
     if c : bool then exec set_open false; se_ret true
     else
       do d <- gets m_disconnecting;
       do u <- conn;
       if d && is_secure u then
         do o <- secure_socket;
         if o : bool then exec se_modify (put_securesocket (Some false)); se_ret true else se_ret false
       else se_ret false
   else se_ret false)%se.

Definition check_connected (now : Z) : M unit := fun s =>
  if isConnected s then
    let delay := Z.quot (now - m_response_plea_older s) 1000000 in
    if m_responsetimeout s * 1000 <=? delay then
      (do u <- conn;
       if negb (m_stratumModeConfirmed u) && negb (m_unrecoverable u) then
         do jRes <- se_lift fake_error;
         exec se_modify (clear_response_pleas now); post (TResponse jRes)
       else
         exec pop_endpoint; exec se_modify (clear_response_pleas now); post TDisconnect)%se s
    else if has_session s &&
            (m_worktimeout s <? Z.quot (now - m_current_timestamp s) 1000000000) then
      (exec pop_endpoint; exec se_modify (clear_response_pleas now); post TDisconnect)%se s
    else (Ok tt, s)
  else (Ok tt, s).

Definition workloop_timer_elapsed (now : Z) (cancelled : bool) : M unit := fun s =>
  if cancelled then (Ok tt, s) else
  let s := put_timer None s in
  match m_conn s with
  | None => (Ok tt, s)
  | Some u =>
      (exec (match m_session s with
             | Some ss =>
                 if (m_stratumMode u =? 3) &&
                    (i32 (timeout ss) - 5 <? Z.quot (now - lastTxStamp ss) 1000000000)
                 then send_request noop_request else se_ret tt
             | None => se_ret tt
             end);
       do n <- gets m_response_pleas_count;
       do returned <- (if n =? 0 then se_ret false
                       else
                         do r <- check_pending now;
                         if r : bool then se_ret true else exec check_connected now; se_ret false);
       if returned : bool then se_ret tt else se_modify (put_timer (Some 1000)))%se s
  end.

(** ** Replies *)

Definition startSession (now : Z) : M unit :=
  (exec se_modify (fun s => put_current_timestamp now (put_session (Some (Session_new now)) s));
   emit EvConnected)%se.

Fixpoint error_array (l : list J) : res string :=
  match l with
  | [] => Ok ""
  | i :: l' => let! a := asString i in let! b := error_array l' in Ok (a +:+ " " +:+ b)
  end.
Fixpoint error_object (l : list (string * J)) : res string :=
  match l with
  | [] => Ok ""
  | (k, v) :: l' => let! a := asString v in let! b := error_object l' in Ok (k +:+ ":" +:+ a +:+ " " +:+ b)
  end.

Definition processError (responseObject : J) : res string :=
  let! has := jhas responseObject "error" in
  let! e := jget_or responseObject "error" jnull in
  if has && negb (isNull e) then
    if conv_string e then asString e
    else if conv_array e then error_array (jelements e)
    else if conv_object e then error_object (jmembers e)
    else Ok ""
  else Ok "Unknown error".

Definition processExtranonce (enonce : string) : M unit :=
  (exec on_session (set_extraNonceSizeBytes (u32 (size enonce)));
   do n <- se_lift (stoull (resize enonce 16 "0") 16);
   on_session (set_extraNonce n))%se.

(** Lazy conjunction of tests that may throw. *)
Fixpoint all_hold (l : list (unit -> res bool)) : res bool :=
  match l with
  | [] => Ok true
  | f :: l' => let! b := f tt in if b then all_hold l' else Ok false
  end.

Definition text_at (j : J) (i : nat) : res string := let! x := jat_or j i (of_string "") in asString x.
Definition text_of (j : J) (k : string) (d : string) : res string :=
  let! x := jget_or j k (of_string d) in asString x.

Definition hello_accepted (jResult : J) : res bool :=
  all_hold [
    (fun _ => Ok (conv_object jResult));
    (fun _ => jhas jResult "proto");
    (fun _ => let! p := jget jResult "proto" in let! t := asString p in Ok (String.eqb t "CoreStratum/2.0.0"));
    (fun _ => jhas jResult "encoding"); (fun _ => jhas jResult "resume");
    (fun _ => jhas jResult "timeout"); (fun _ => jhas jResult "maxerrors"); (fun _ => jhas jResult "node")].

Definition subscription_accepted (jResult : J) : res bool :=
  if isArray jResult then
    let! r0 := jat jResult 0 in
    if isArray r0 && Nat.eqb (jsize r0) 3 then
      let! t := text_at r0 2 in Ok (String.eqb t "CoreStratum/1.0.0")
    else Ok false
  else Ok false.

Definition authorize_request (rpc2 : bool) (u : URI) : res J :=
  let! ps := params [of_string (UserDotWorker u +:+ m_path u); of_string (m_password u)] in
  jobject jnull ([("id", of_Z 3)] ++ (if rpc2 then [("jsonrpc", of_string "2.0")] else []) ++
                 [("method", of_string "mining.authorize"); ("params", ps)]).

(** A refused login; a confirmed flavour makes the connection unusable. *)
Definition login_refused : M unit :=
  (do u <- conn;
   exec (if m_stratumModeConfirmed u then on_conn MarkUnrecoverable else se_ret tt);
   post TDisconnect)%se.

(** The reply to the first request, after the plea was dequeued and without an error that ends
    the detection of this flavour.  The request [jReq] that follows it is sent at the end. *)
(** The reply to the first request, by flavour. *)
Definition login_corestratum2 (now : Z) (jResult : J) : M unit :=
  (do ok <- se_lift (hello_accepted jResult);
   if ok : bool then
     exec on_conn (SetStratumMode_confirmed 3 true);
     exec startSession now;
     exec se_modify (enqueue_response_plea now);
     send_request (jobject jnull [("id", of_Z 2); ("method", of_string "mining.subscribe")])
   else login_refused)%se.

Definition login_corestratum (now : Z) (u : URI) (jResult : J) : M unit :=
  (do ok <- se_lift (subscription_accepted jResult);
   if ok : bool then
     exec on_conn (SetStratumMode_confirmed 2 true);
     exec startSession now;
     exec on_session (set_subscribed true);
     exec send_request (jobject jnull [("id", of_Z 2);
            ("method", of_string "mining.extranonce.subscribe"); ("params", empty_array)]);
     do enonce <- se_lift (text_at jResult 1);
     exec (if String.eqb enonce "" then se_ret tt else processExtranonce enonce);
     exec se_modify (put_authpending true);
     exec se_modify (enqueue_response_plea now);
     send_request (authorize_request false u)
   else login_refused)%se.

Definition login_ethproxy (now : Z) (_isSuccess : bool) : M unit :=
  (if _isSuccess then
     exec on_conn (SetStratumMode_confirmed 1 true);
     exec startSession now;
     exec on_session (set_subscribed true);
     exec on_session (set_authorized true);
     send_request (jobject jnull [("id", of_Z 5); ("method", of_string "eth_getWork");
                                  ("params", empty_array)])
   else login_refused)%se.

Definition login_stratum (now : Z) (u : URI) (_isSuccess : bool) : M unit :=
  (if _isSuccess then
     exec on_conn (SetStratumMode_confirmed 0 true);
     exec startSession now;
     exec on_session (set_subscribed true);
     exec se_modify (put_authpending true);
     exec se_modify (enqueue_response_plea now);
     send_request (authorize_request true u)
   else login_refused)%se.

Definition login_reply (now : Z) (_isSuccess : bool) (jResult : J) : M unit :=
  (do u <- conn;
   match protocol_of (m_stratumMode u) with
   | Some CORESTRATUM2 => login_corestratum2 now jResult
   | Some CORESTRATUM => login_corestratum now u jResult
   | Some ETHPROXY => login_ethproxy now _isSuccess
   | Some STRATUM => login_stratum now u _isSuccess
   | None => send jnull
   end)%se.

(** [_isSuccess] reconsidered: a boolean result counts. *)
Definition bool_result (_isSuccess : bool) (jResult : J) : res bool :=
  if _isSuccess && isBool jResult then asBool jResult else Ok _isSuccess.

(** A non-empty string result. *)
Definition string_result (jResult : J) : option string :=
  match view jResult with
  | VString t => if String.eqb t "" then None else Some t
  | _ => None
  end.

Definition report_solution (ok : bool) (delay _id : Z) (stale : bool) : M unit :=
  emit (if ok then EvAccepted delay (u32 (_id - 40)) stale else EvRejected delay (u32 (_id - 40))).

(** How [processResponse] goes on after the handling of a reply: it returns, or it goes on with
    a method name and whether the message is a notification. *)
Inductive flow := Return | Continue (_method : string) (_isNotification : bool).

Definition go (_method : string) : M flow := se_ret (Continue _method false).
Definition stop (m : M unit) : M flow := (exec m; se_ret Return)%se.

(** id 1: the first request; a refusal while the flavour is being detected ends the attempt. *)
Definition first_reply (now : Z) (_isSuccess : bool) (_method : string) (jResult : J) : M flow :=
  (do _ <- dequeue now;
   do u <- (if _isSuccess then se_ret None else do u <- conn; se_ret (Some u));
   match u with
   | Some u => if negb (m_stratumModeConfirmed u) then stop (post TDisconnect)
               else exec login_reply now _isSuccess jResult; go _method
   | None => exec login_reply now _isSuccess jResult; go _method
   end)%se.

(** id 2: the subscription of CoreStratum/2.0.0 *)
Definition subscription_reply (now : Z) (_method : string) (jResult : J) : M flow :=
  (do mode <- stratum_mode;
   if mode =? 3 then
     do _ <- dequeue now;
     match string_result jResult with
     | None => stop (exec on_conn MarkUnrecoverable; post TDisconnect)
     | Some t =>
         exec on_session (set_sessionId t);
         exec on_session (set_subscribed true);
         exec se_modify (put_authpending true);
         do u <- conn;
         exec se_modify (enqueue_response_plea now);
         exec send_request (authorize_request false u); go _method
     end
   else go _method)%se.

(** id 3: the authorisation *)
Definition authorization_reply (now : Z) (_isSuccess : bool) (_method : string) (jResult : J) : M flow :=
  (do mode <- stratum_mode;
   do _ <- dequeue now;
   if negb (mode =? 3) then
     do ok <- se_lift (bool_result _isSuccess jResult);
     exec se_modify (put_authpending false);
     exec on_session (set_authorized ok);
     if negb ok then stop (exec on_conn MarkUnrecoverable; post TDisconnect) else go _method
   else
     match (if _isSuccess then string_result jResult else None) with
     | None => stop (exec on_conn MarkUnrecoverable; post TDisconnect)
     | Some t =>
         exec se_modify (put_authpending false);
         exec on_session (set_authorized true);
         exec on_session (set_workerId t); go _method
     end)%se.

(** ids from 40 on: a submission; the reasons for staleness of CoreStratum/2.0.0 are the codes 2xx. *)
Definition solution_reply (now _id : Z) (_isSuccess : bool) (_method : string) (responseObject jResult : J) : M flow :=
  (do mode <- stratum_mode;
   do delay <- dequeue now;
   if negb (mode =? 3) then
     do ok <- se_lift (bool_result _isSuccess jResult);
     exec report_solution ok delay _id false; go _method
   else
     do stale <- (if _isSuccess then se_ret false
                  else se_lift (let! e := jget responseObject "error" in
                                let! errCode := text_of e "code" "" in
                                Ok (String.eqb (stake 1 errCode) "2")));
     exec report_solution (_isSuccess || stale) delay _id stale; go _method)%se.

(** id 5: the work of an eth-proxy pool *)
Definition getwork_reply (_method : string) (responseObject : J) : M flow :=
  (do mode <- stratum_mode;
   do r <- se_lift (jget responseObject "result");
   if (mode =? 1) && isArray r then se_ret (Continue "mining.notify" true) else go _method)%se.

(** id 999: the error a client sends itself, and those of pools that use this id *)
Definition error_reply (_isSuccess : bool) (_method : string) : M flow :=
  (if _isSuccess then go _method
   else
     do u <- conn;
     do sub <- gets isSubscribed;
     do aut <- gets isAuthorized;
     if negb (m_stratumModeConfirmed u) then stop (post TDisconnect)
     else if negb sub then stop (post TDisconnect)
     else if negb aut then stop (post TDisconnect)
     else go _method)%se.

Definition processReply (now _id : Z) (_isSuccess : bool) (_method : string) (responseObject : J) : M flow :=
  (do jResult <- se_lift (jget_or responseObject "result" jnull);
   if _id =? 1 then first_reply now _isSuccess _method jResult
   else if _id =? 2 then subscription_reply now _method jResult
   else if _id =? 3 then authorization_reply now _isSuccess _method jResult
   else
   do max_id <- gets m_solution_submitted_max_id;
   if (40 <=? _id) && (_id <=? max_id) then solution_reply now _id _isSuccess _method responseObject jResult
   else if _id =? 5 then getwork_reply _method responseObject
   else if _id =? 9 then go _method
   else if _id =? 999 then error_reply _isSuccess _method
   else se_ret Return)%se.

(** ** Notifications *)

Definition current_ (g : WorkPackage -> WorkPackage) : M unit :=
  se_modify (fun s => put_current (g (m_current s)) s).
Definition new_job : M unit := se_modify (put_newjobprocessed true).

(** The block number some eth-proxy pools append; [throw new std::exception()] throws a
    pointer. *)
Definition proxy_block (t : string) : M unit := fun s =>
  match stoull t 16 with
  | Ok n =>
      let block := i32 n in
      let s := put_current (set_block block (m_current s)) s in
      if 0x9660180 <? block then (Throw ThrownPointer, s) else (Ok tt, s)
  | Throw _ => (Ok tt, put_current (set_block (-1) (m_current s)) s)
  end.

(** The share target, padded to 64 digits. *)
Definition share_target (t : string) : res string :=
  let l := String.length t in
  if (l <? 66)%nat
  then let! r := substr t 2 l in Ok ("0x" +:+ sfill (66 - l) "0" +:+ r)
  else Ok t.

Definition notify_corestratum (now : Z) (jPrm : J) : M unit :=
  (do sSeedHash <- se_lift (text_at jPrm 1);
   do sHeaderHash <- se_lift (text_at jPrm 2);
   if String.eqb sHeaderHash "" || String.eqb sSeedHash "" then se_ret tt
   else
     do sd <- se_lift (h256 sSeedHash); exec current_ (set_seed sd);
     do hd <- se_lift (h256 sHeaderHash); exec current_ (set_header hd);
     do ss <- session;
     exec current_ (fun w => set_exSizeBytes (u16 (extraNonceSizeBytes ss))
                      (set_startNonce (extraNonce ss) (set_boundary (nextWorkBoundary ss) w)));
     exec se_modify (put_current_timestamp now);
     exec current_ (set_block (-1)); new_job)%se.

Definition notify_other (now mode : Z) (jPrm : J) (prmIdx : nat) : M unit :=
  (do sHeaderHash <- se_lift (text_at jPrm prmIdx);
   do sSeedHash <- se_lift (text_at jPrm (prmIdx + 1));
   do sShareTarget <- se_lift (text_at jPrm (prmIdx + 2));
   exec current_ (set_block (-1));
   exec (if (mode =? 1) && (prmIdx + 3 <? jsize jPrm)%nat then
           do t <- se_lift (text_at jPrm (prmIdx + 3));
           if String.eqb (stake 2 t) "0x" then proxy_block t else se_ret tt
         else se_ret tt);
   do sShareTarget <- se_lift (share_target sShareTarget);
   do sd <- se_lift (h256 sSeedHash); exec current_ (set_seed sd);
   do hd <- se_lift (h256 sHeaderHash); exec current_ (set_header hd);
   do bd <- se_lift (h256 sShareTarget); exec current_ (set_boundary bd);
   exec se_modify (put_current_timestamp now); new_job)%se.

(** mining.notify of the flavours below CoreStratum/2.0.0 *)
Definition notify (now mode : Z) (responseObject : J) : M unit := fun s =>
  if negb (isSubscribed s) || m_newjobprocessed s then (Ok tt, s) else
  (do has_result <- (if mode =? 1 then se_lift (jhas responseObject "result") else se_ret false);
   do jPrm <- se_lift (jget_or responseObject (if has_result then "result" else "params") jnull);
   let prmIdx := if has_result : bool then 0%nat else 1%nat in
   if isArray jPrm && negb (jempty jPrm) then
     do j <- se_lift (text_at jPrm 0);
     exec current_ (set_job j);
     if mode =? 2 then notify_corestratum now jPrm else notify_other now mode jPrm prmIdx
   else se_ret tt)%se s.

(** mining.notify of CoreStratum/2.0.0 *)
Definition notify2 (now : Z) (responseObject : J) : M unit := fun s =>
  match m_session s with
  | None => (Ok tt, s)
  | Some ss =>
      if negb (firstMiningSet ss) then (Ok tt, s) else
      (do has <- se_lift (jhas responseObject "params");
       do jPrm <- se_lift (jget responseObject "params");
       if negb has || negb (isArray jPrm) || negb (Nat.eqb (jsize jPrm) 4) then se_ret tt
       else
         do j <- se_lift (text_at jPrm 0); exec current_ (set_job j);
         do b <- se_lift (let! t := text_at jPrm 1 in stoull t 16); exec current_ (set_block (i32 b));
         do t <- se_lift (text_at jPrm 2);
         do hd <- se_lift (h256 ("0x" +:+ padLeft t 64 "0")); exec current_ (set_header hd);
         do bd <- se_lift (h256 (hash_hex (nextWorkBoundary ss) Add)); exec current_ (set_boundary bd);
         exec current_ (fun w => set_exSizeBytes (u16 (extraNonceSizeBytes ss))
                (set_startNonce (extraNonce ss) (set_algo (ss_algo ss) (set_epoch (i32 (ss_epoch ss)) w))));
         exec se_modify (put_current_timestamp now); new_job)%se s
  end.

(** The nearest double of 0.00001, what [max(0.000001, 0.00001)] is. *)
Definition nextWorkDifficulty : spec_float := f64_div (f64_of_Z 1) (f64_of_Z 100000).

Definition set_difficulty (responseObject : J) : M unit :=
  (do jPrm <- se_lift (jget_or responseObject "params" jnull);
   if isArray jPrm then
     do _ <- session;
     do b <- se_lift (let! t := getTargetFromDiff nextWorkDifficulty Add in h256 t);
     on_session (set_nextWorkBoundary b)
   else se_ret tt)%se.

Definition set_extranonce (responseObject : J) : M unit :=
  (do jPrm <- se_lift (jget_or responseObject "params" jnull);
   if isArray jPrm then
     do enonce <- se_lift (text_at jPrm 0);
     if String.eqb enonce "" then se_ret tt else processExtranonce enonce
   else se_ret tt)%se.

Definition mining_set (responseObject : J) : M unit :=
  (do has <- se_lift (jhas responseObject "params");
   do jPrm <- se_lift (jget responseObject "params");
   if negb has || negb (isObject jPrm) || jempty jPrm then se_ret tt
   else
     exec on_session (set_firstMiningSet true);
     do t <- se_lift (text_of jPrm "timeout" "");
     do e <- se_lift (text_of jPrm "epoch" "");
     do g <- se_lift (text_of jPrm "target" "");
     exec (if String.eqb t "" then se_ret tt
           else do v <- se_lift (stoi t 16); on_session (set_timeout (u32 v)));
     exec (if String.eqb e "" then se_ret tt
           else do v <- se_lift (stoull e 16); on_session (set_ss_epoch (u32 v)));
     exec (if String.eqb g "" then se_ret tt
           else do b <- se_lift (h256 ("0x" +:+ padLeft g 64 "0")); on_session (set_nextWorkBoundary b));
     do a <- se_lift (text_of jPrm "algo" "ethash");
     exec on_session (set_ss_algo a);
     do enonce <- se_lift (text_of jPrm "extranonce" "");
     if String.eqb enonce "" then se_ret tt else processExtranonce enonce)%se.

(** The answers to client.get_version and to an unknown method. *)
Definition version_reply (_id : Z) (rpc2 : bool) : res J :=
  jobject jnull [("id", of_Z _id); ("result", of_string project_name_with_version);
                 if rpc2 then ("jsonrpc", of_string "2.0") else ("error", jnull)].
Definition unknown_reply (_id : Z) (rpc2 : bool) : res J :=
  jobject jnull ((if rpc2 then [("jsonrpc", of_string "2.0")] else []) ++
                 [("id", of_Z _id); ("error", of_string "Method not found")]).

(** The notifications that carry no work. *)
Definition other_notification (mode _id : Z) (rpc2 : bool) (_method : string) : M unit :=
  if String.eqb _method "mining.bye" && (mode =? 3) then post TDisconnect
  else if String.eqb _method "client.get_version" then send_request (version_reply _id rpc2)
  else send_request (unknown_reply _id rpc2).

Definition processNotification (now _id : Z) (rpc2 : bool) (_method : string) (responseObject : J) : M unit :=
  (do mode <- stratum_mode;
   let named m := String.eqb _method m in
   if named "mining.notify" && negb (mode =? 3) then notify now mode responseObject
   else if named "mining.notify" then notify2 now responseObject
   else if named "mining.set_difficulty" && (mode =? 2) then set_difficulty responseObject
   else if named "mining.set_extranonce" && (mode =? 2) then set_extranonce responseObject
   else if named "mining.set" && (mode =? 3) then mining_set responseObject
   else other_notification mode _id rpc2 _method)%se.

(** ** Messages *)

Record header_ := { h_rpc2 : bool; h_id : Z; h_success : bool; h_method : string }.

(** The members every message is looked at for. *)
Definition read_header (responseObject : J) : res header_ :=
  let! rpc2 := jhas responseObject "jsonrpc" in
  let! i := jget_or responseObject "id" (of_Z 0) in
  let! _id := asUInt 32 i in
  let! err := jget_or responseObject "error" jnull in
  let _isSuccess := jempty err in
  let! _ := (if _isSuccess then Ok "" else processError responseObject) in
  let! _method := text_of responseObject "method" "" in
  Ok {| h_rpc2 := rpc2; h_id := _id; h_success := _isSuccess; h_method := _method |}.

Definition h_notification (h : header_) : bool := negb (String.eqb (h_method h) "") || (h_id h =? 0).

(** The sanity checks fail. *)
Definition invalid_message (h : header_) (responseObject : J) : res bool :=
  let! bad_rpc := (if h_rpc2 h
                   then let! v := jget responseObject "jsonrpc" in
                        Ok (negb (bool_decide (view v = VString "2.0")))
                   else Ok false) in
  if bad_rpc then Ok true
  else if h_notification h then
    let! p := jget responseObject "params" in
    let! r := jget responseObject "result" in
    Ok (jempty p && jempty r)
  else Ok false.

Definition processResponse (now : Z) (responseObject : J) : M unit :=
  (do h <- se_lift (read_header responseObject);
   do _method <- (if h_notification h && String.eqb (h_method h) "" then
                    do mode <- stratum_mode;
                    do r <- se_lift (if mode =? 1 then jget responseObject "result" else Ok jnull);
                    se_ret (if (mode =? 1) && isArray r then "mining.notify" else h_method h)
                  else se_ret (h_method h));
   do bad <- se_lift (invalid_message h responseObject);
   if bad : bool then post TDisconnect
   else
     do f <- (if h_notification h then se_ret (Continue _method true)
              else processReply now (h_id h) (h_success h) _method responseObject);
     match f with
     | Return => se_ret tt
     | Continue _method notification =>
         if notification then
           do u <- conn;
           if m_stratumModeConfirmed u
           then processNotification now (h_id h) (h_rpc2 h) _method responseObject else se_ret tt
         else se_ret tt
     end)%se.

(** ** Receiving *)

(** One line of a transmission: exceptions of the standard library are reported and dropped. *)
Definition process_line (now : Z) (line : string) : M unit := fun s =>
  if String.eqb line "" then (Ok tt, s)
  else match json_parse line with
       | None => (Ok tt, s)
       | Some jMsg =>
           match processResponse now jMsg s with
           | (Throw e, s) => (if caught_by_std e then Ok tt else Throw e, s)
           | r => r
           end
       end.

(** The loop over the complete lines of [m_message]. *)
Fixpoint receive_loop (fuel : nat) (now : Z) : M unit := fun s =>
  match fuel with
  | O => (Ok tt, s)
  | S fuel' =>
      match find_char (chr 10) (m_message s) with
      | None => (Ok tt, s)
      | Some offset =>
          (exec (process_line now (trim (stake offset (m_message s))));
           exec se_modify (fun s => put_message (sdrop (offset + 1) (m_message s)) s);
           receive_loop fuel' now)%se s
      end
  end.

Definition onRecvSocketDataCompleted (now : Z) (ec : error_code) (rx_message : string) : M unit := fun s =>
  if bool_decide (ec = EcOk) then
    let s := put_newjobprocessed false (put_message (m_message s +:+ rx_message) s) in
    (exec receive_loop (S (String.length (m_message s))) now;
     do n <- gets m_newjobprocessed;
     exec (if n : bool then do w <- gets m_current; emit (EvWork w) else se_ret tt);
     do c <- gets isConnected;
     if c : bool then recvSocketData else se_ret tt)%se s
  else if isConnected s then
    (exec (if m_authpending s then on_conn MarkUnrecoverable else se_ret tt);
     exec (if bool_decide (ec = EcSslReceivedShutdown) || bool_decide (ec = EcEof)
           then do _ <- conn; se_ret tt else se_ret tt);
     post TDisconnect)%se s
  else (Ok tt, s).

(** ** Submissions *)

Definition append_worker (u : URI) : list (string * J) :=
  if String.eqb (m_worker u) "" then [] else [("worker", of_string (m_worker u))].

Definition submitHashrate (rate : Z) (id : string) : M unit := fun s =>
  if negb (isConnected s) then (Ok tt, s) else
  (do u <- conn;
   if negb (m_stratumMode u =? 3) then
     send_request (
       let! ps := params [of_string (toHex_uint64 rate Add 32); of_string id] in
       jobject jnull ([("id", of_Z 9); ("jsonrpc", of_string "2.0")] ++ append_worker u ++
                      [("method", of_string "eth_submitHashrate"); ("params", ps)]))
   else
     do ss <- session;
     send_request (
       let! ps := params [of_string (toCompactHex_uint64 rate DontAdd); of_string (workerId ss)] in
       jobject jnull [("id", of_Z 9); ("method", of_string "mining.hashrate"); ("params", ps)]))%se s.

(** The nonce without the part the pool gave. *)
Definition short_nonce (solution : Solution) : res string :=
  let t := toHex_uint64 (nonce solution) DontAdd 16 in
  substr t (Z.to_nat (exSizeBytes (work solution))) (String.length t).

Definition submit_request (u : URI) (workerId : string) (id : Z) (solution : Solution) : res J :=
  let hex h := of_string (hash_hex h Add) in
  let full := of_string (toHex_uint64 (nonce solution) Add 16) in
  match protocol_of (m_stratumMode u) with
  | Some STRATUM =>
      let! ps := params [of_string (m_user u); of_string (job (work solution)); full;
                         hex (header (work solution)); hex (mixHash solution)] in
      jobject jnull ([("id", of_Z id); ("method", of_string "mining.submit"); ("params", ps);
                      ("jsonrpc", of_string "2.0")] ++ append_worker u)
  | Some ETHPROXY =>
      let! ps := params [full; hex (header (work solution)); hex (mixHash solution)] in
      jobject jnull ([("id", of_Z id); ("method", of_string "eth_submitWork"); ("params", ps)] ++
                     append_worker u)
  | Some CORESTRATUM =>
      let! t := short_nonce solution in
      let! ps := params [of_string (UserDotWorker u); of_string (job (work solution)); of_string t] in
      jobject jnull [("id", of_Z id); ("method", of_string "mining.submit"); ("params", ps)]
  | Some CORESTRATUM2 =>
      let! t := short_nonce solution in
      let! ps := params [of_string (job (work solution)); of_string t; of_string workerId] in
      jobject jnull [("id", of_Z id); ("method", of_string "mining.submit"); ("params", ps)]
  | None =>
      let! ps := params [] in
      jobject jnull [("id", of_Z id); ("method", of_string "mining.submit"); ("params", ps)]
  end.

Definition submitSolution (now : Z) (solution : Solution) : M unit := fun s =>
  match m_session s with
  | Some ss =>
      if negb (authorized ss) then (Ok tt, s) else
      let id := u32 (40 + midx solution) in
      (exec se_modify (fun s => put_max_id (Z.max (m_solution_submitted_max_id s) id) s);
       do u <- conn;
       do jReq <- se_lift (submit_request u (workerId ss) id solution);
       exec se_modify (enqueue_response_plea now);
       send jReq)%se s
  | None => (Ok tt, s)
  end.

(** [PoolClient::setConnection] *)
Definition setConnection (u : URI) (s : Stratum) : Stratum := put_conn (Some (set_Responds false u)) s.

(** ** The strand *)

Definition run_task (now : Z) (t : task) : M unit :=
  match t with
  | TDisconnect => disconnect now
  | TFinalize => disconnect_finalize now
  | TStartConnect => start_connect now
  | TResponse r => processResponse now r
  end.

(** Serving the next posted handler. *)
Definition run_posted (now : Z) : M unit := fun s =>
  match posted s with
  | [] => (Ok tt, s)
  | t :: l => run_task now t (put_posted l s)
  end.

End stratum.

(** * Proofs *)

Section stratum_theorems.
Context {Jsn : Json} {Big : BigInteger} {Dbl : DoubleText}.
Context (name : string).

(** ** Reachable states *)

(** Everything that happens to a client: the calls of the manager, the completions of the
    asynchronous operations, the posted handlers. *)
Inductive operation :=
  | OSetConnection (u : URI)
  | OConnect (ip_endpoint : string -> Z -> res string)
  | ODisconnect | OPosted
  | OResolved (result : option (list string))
  | OConnected (ec : error_code) (handshake : bool)
  | OTimer (cancelled : bool)
  | OReceived (ec : error_code) (data : string)
  | OSent (ec : error_code)
  | OShutdown
  | OHashrate (rate : Z) (id : string)
  | OSolution (sol : Solution).

Definition apply_op (now : Z) (o : operation) : M unit :=
  match o with
  | OSetConnection u => se_modify (setConnection u)
  | OConnect ip => connect ip
  | ODisconnect => disconnect now
  | OPosted => run_posted name now
  | OResolved r => resolve_handler now r
  | OConnected ec h => connect_handler name now ec h
  | OTimer c => workloop_timer_elapsed now c
  | OReceived ec d => onRecvSocketDataCompleted name now ec d
  | OSent ec => onSendSocketDataCompleted now ec
  | OShutdown => onSSLShutdownCompleted now
  | OHashrate rate id => submitHashrate rate id
  | OSolution sol => submitSolution now sol
  end.

(** Operations with the time each happens at; an operation that throws keeps its writes. *)
Definition run_ops (l : list (Z * operation)) (s : Stratum) : Stratum :=
  foldl (fun s o => snd (apply_op (fst o) (snd o) s)) s l.

(** Bounds on the ids of the submissions: [B] is an upper bound of what is submitted. *)
Context (B : Z) (B_nonneg : 0 <= B).

Definition op_bounded (o : operation) : Prop :=
  match o with OSolution sol => u32 (40 + midx sol) <= B | _ => True end.

Definition is_some {A} (o : option A) : Prop := match o with Some _ => True | None => False end.

(** What the manager gets is well formed. *)
Definition session_ok (ss : Session) : Prop :=
  in_range 64 (extraNonce ss) /\ in_range 32 (extraNonceSizeBytes ss) /\
  hash_ok 32 (nextWorkBoundary ss) /\ in_range 32 (timeout ss) /\ in_range 32 (ss_epoch ss).
Definition event_ok (e : event) : Prop :=
  match e with
  | EvWork wp => work_ok wp
  | EvAccepted _ minerIdx _ | EvRejected _ minerIdx => in_range 32 minerIdx /\ 40 + minerIdx <= B
  | _ => True
  end.

(** Every plea is counted; a client with a session has a connection; the session, the current
    job and everything reported are well formed; the largest id submitted is within the bound. *)
Definition stratum_inv (s : Stratum) : Prop :=
  m_response_pleas_count s = Z.of_nat (length (m_response_plea_times s)) /\
  (is_some (m_session s) -> is_some (m_conn s)) /\
  work_ok (m_current s) /\ (forall ss, m_session s = Some ss -> session_ok ss) /\
  Forall event_ok (out s) /\ m_solution_submitted_max_id s <= B.

Lemma session_new_ok now : session_ok (Session_new now).
Proof. unfold session_ok. cbn. split_and!; by_evaluation. Qed.

Lemma inv_enqueue now s : stratum_inv s -> stratum_inv (enqueue_response_plea now s).
Proof.
  unfold stratum_inv, enqueue_response_plea. intros (H1 & H).
  destruct (m_response_pleas_count s =? 0); cbn; rewrite length_app; cbn; (split; [lia | done]).
Qed.

Lemma inv_clear now s : stratum_inv s -> stratum_inv (clear_response_pleas now s).
Proof. intros (_ & H). split; [done | exact H]. Qed.

Lemma inv_dequeue now : se_preserves stratum_inv (dequeue now).
Proof.
  intros s (H1 & H). unfold dequeue, dequeue_response_plea. split.
  - destruct (m_response_plea_times s) as [|t l] eqn:E; cbn in *.
    + rewrite H1. change (0 <? Z.of_nat 0) with false. cbn. by rewrite H1, E.
    + rewrite H1. assert (0 <? Z.of_nat (S (length l)) = true) as -> by (apply Z.ltb_lt; lia). cbn. lia.
  - destruct (m_response_plea_times s); cbn; by destruct (0 <? m_response_pleas_count s).
Qed.

Ltac inv_state :=
  match goal with H : stratum_inv _ |- _ => destruct H as (?&?&?&?&?&?) end;
  unfold stratum_inv; cbn; by intuition (try congruence).
Ltac inv_modify := apply preserves_modify; intros ? ?; inv_state.

Lemma inv_conn : se_preserves stratum_inv conn.
Proof. intros s Hs. unfold conn. by destruct (m_conn s). Qed.
Lemma inv_gets {A} (g : Stratum -> A) : se_preserves stratum_inv (gets g).
Proof. by intros s. Qed.
Lemma inv_undefined {A} w : se_preserves stratum_inv (@undefined Jsn A w).
Proof. by intros s. Qed.
Lemma inv_emit e : event_ok e -> se_preserves stratum_inv (emit e).
Proof.
  intros He. apply preserves_modify. intros s (?&?&?&?&?&?). unfold stratum_inv. cbn. split_and!; try done.
  apply Forall_app_2; [done | by repeat constructor].
Qed.
Lemma inv_post t : se_preserves stratum_inv (post t).
Proof. inv_modify. Qed.
Lemma inv_on_conn g : se_preserves stratum_inv (on_conn g).
Proof. apply preserves_bind; [apply inv_conn|]. intros u. inv_modify. Qed.
Lemma inv_session_bind {A} (k : Session -> M A) :
  (forall ss, session_ok ss -> se_preserves stratum_inv (k ss)) ->
  se_preserves stratum_inv (do ss <- session; k ss)%se.
Proof.
  intros Hk s Hs. unfold se_bind, session. destruct (m_session s) as [ss|] eqn:E; [|exact Hs].
  apply Hk; [|done]. by apply Hs.
Qed.
Lemma inv_on_session g : (forall ss, session_ok ss -> session_ok (g ss)) ->
  se_preserves stratum_inv (on_session g).
Proof.
  intros Hg s Hs. unfold on_session, session, se_bind. destruct (m_session s) as [ss|] eqn:E; [|exact Hs].
  destruct Hs as (?&H2&?&H4&?&?). split_and!; try done; cbn.
  - intros _. apply H2. by rewrite E.
  - intros ss' [= <-]. by apply Hg, H4.
Qed.
Lemma inv_current g : (forall w, work_ok w -> work_ok (g w)) -> se_preserves stratum_inv (current_ g).
Proof. intros Hg. apply preserves_modify. intros s (?&?&?&?&?&?). unfold stratum_inv. cbn. by split_and!; auto. Qed.
Lemma inv_work_bind {A} (k : WorkPackage -> M A) :
  (forall w, work_ok w -> se_preserves stratum_inv (k w)) ->
  se_preserves stratum_inv (do w <- gets m_current; k w)%se.
Proof. intros Hk s Hs. apply Hk; [|done]. by apply Hs. Qed.
Lemma inv_socket_open : se_preserves stratum_inv socket_open.
Proof. intros s Hs. unfold socket_open. by repeat case_match. Qed.
Lemma inv_set_open b : se_preserves stratum_inv (set_open b).
Proof. intros s Hs. unfold set_open. by repeat case_match. Qed.
Lemma inv_secure_socket : se_preserves stratum_inv secure_socket.
Proof. intros s Hs. unfold secure_socket. by repeat case_match. Qed.
Lemma inv_plain_socket : se_preserves stratum_inv plain_socket.
Proof. intros s Hs. unfold plain_socket. by repeat case_match. Qed.
Lemma inv_pop_endpoint : se_preserves stratum_inv pop_endpoint.
Proof. intros s Hs. unfold pop_endpoint. by repeat case_match. Qed.

#[local] Hint Resolve inv_conn inv_gets inv_undefined inv_post inv_on_conn inv_socket_open inv_set_open
  inv_secure_socket inv_plain_socket inv_pop_endpoint inv_dequeue : miner.

(** Well-formedness of an updated session or job. *)
Ltac ok_goal :=
  repeat match goal with H : res_bind _ _ = Ok _ |- _ => apply res_bind_ok in H as (?&_&?) end;
  intros ? ?; unfold session_ok, work_ok in *; destruct_and?; cbn;
  split_and!; first
    [ assumption | lia | by eapply h256_ok | by apply wrap_range | by apply i32_range
    | eapply stoull_range; [|eassumption]; lia ].

(** The shape of a handler's body. *)
Ltac walk_step :=
  first
    [ assumption | solve [auto with miner nocore]
    | apply inv_emit; done
    | apply inv_on_session; ok_goal
    | apply inv_current; ok_goal
    | apply preserves_ret | apply preserves_throw
    | apply preserves_lift_bind; intros ? ? | apply preserves_lift
    | apply inv_session_bind; intros ? (?&?&?&?&?) | apply inv_work_bind; intros ? ?
    | apply preserves_bind; [|intros ?]
    | apply preserves_modify; intros; by (apply inv_enqueue || apply inv_clear)
    | match goal with |- se_preserves _ (if ?b then _ else _) => destruct b end
    | match goal with |- se_preserves _ (match ?x with _ => _ end) => destruct x end
    | inv_modify ].
Ltac walk := repeat walk_step.

(** Handlers that look at the state first. *)
Lemma preserves_run {A} (m : M A) s : se_preserves stratum_inv m -> stratum_inv s -> stratum_inv (snd (m s)).
Proof. intros Hm. apply Hm. Qed.
Ltac enters := intros s Hs; cbn zeta; repeat case_match;
  try (cbn [snd]; first [assumption | inv_state]);
  try (apply preserves_run; [walk | first [assumption | inv_state]]).

Lemma inv_stratum_mode : se_preserves stratum_inv stratum_mode.
Proof. unfold stratum_mode. walk. Qed.
Lemma inv_selected_socket : se_preserves stratum_inv selected_socket.
Proof. unfold selected_socket. walk. Qed.
Lemma inv_init_socket : se_preserves stratum_inv init_socket.
Proof. unfold init_socket. walk. Qed.
Lemma inv_cancel_socket : se_preserves stratum_inv cancel_socket.
Proof. unfold cancel_socket. walk. Qed.
#[local] Hint Resolve inv_stratum_mode inv_selected_socket inv_init_socket inv_cancel_socket : miner.

Lemma inv_sendSocketData : se_preserves stratum_inv sendSocketData.
Proof. unfold sendSocketData. enters. Qed.
#[local] Hint Resolve inv_sendSocketData : miner.
Lemma inv_send j : se_preserves stratum_inv (send j).
Proof. unfold send. enters. Qed.
#[local] Hint Resolve inv_send : miner.
Lemma inv_send_request j : se_preserves stratum_inv (send_request j).
Proof. unfold send_request. walk. Qed.
Lemma inv_recvSocketData : se_preserves stratum_inv recvSocketData.
Proof. unfold recvSocketData. walk. Qed.
#[local] Hint Resolve inv_send_request inv_recvSocketData : miner.
Lemma inv_onSent now ec : se_preserves stratum_inv (onSendSocketDataCompleted now ec).
Proof. unfold onSendSocketDataCompleted. enters. Qed.
Lemma inv_connect ip : se_preserves stratum_inv (connect ip).
Proof. unfold connect. enters. Qed.
#[local] Hint Resolve inv_onSent inv_connect : miner.

(** Inside [disconnect_finalize] the session is gone before the connection is released. *)
Definition closing (s : Stratum) : Prop := stratum_inv s /\ m_session s = None.

Ltac closing_modify := apply preserves_modify; intros s [(?&?&?&?&?&?) E]; unfold closing, stratum_inv; cbn;
  split_and!; rewrite ?E; by intuition (try congruence).
Lemma closing_conn : se_preserves closing conn.
Proof. intros s Hs. unfold conn. by destruct (m_conn s). Qed.
Lemma closing_on_conn g : se_preserves closing (on_conn g).
Proof. apply preserves_bind; [apply closing_conn|]. intros u. closing_modify. Qed.
Lemma closing_tail now : se_preserves closing
  (exec se_modify (fun s => put_timer None (put_max_id 0 (clear_response_pleas now s)));
   exec emit EvDisconnected; se_modify (put_conn None))%se.
Proof.
  apply preserves_bind; [closing_modify|intros _]. apply preserves_bind; [|intros _; closing_modify].
  intros s [Hs E]. split; [|exact E]. by apply inv_emit.
Qed.
#[local] Hint Resolve closing_conn closing_on_conn closing_tail : miner.

Lemma inv_disconnect_finalize now : se_preserves stratum_inv (disconnect_finalize now).
Proof.
  unfold disconnect_finalize. apply preserves_bind;
    [apply preserves_modify; intros s Hs; cbn zeta; repeat case_match; inv_state|]. intros _.
  apply preserves_bind; [walk|]. intros o. apply preserves_bind; [walk|]. intros _.
  apply (ensures_bind _ closing); [|intros _|by intros s [? _]].
  - intros s (?&?&?&?&?&?). unfold closing, stratum_inv. cbn. by intuition (try congruence).
  - apply ensures_weaken; [|by intros s [? _]].
    repeat first [ solve [auto with miner nocore] | apply preserves_bind; [|intros ?] | closing_modify
                 | case_match ].
Qed.
#[local] Hint Resolve inv_disconnect_finalize : miner.

Lemma inv_disconnect now : se_preserves stratum_inv (disconnect now).
Proof. unfold disconnect. enters. Qed.
Lemma inv_onSSL now : se_preserves stratum_inv (onSSLShutdownCompleted now).
Proof. unfold onSSLShutdownCompleted. walk. Qed.
Lemma inv_resolve now r : se_preserves stratum_inv (resolve_handler now r).
Proof. unfold resolve_handler. walk. Qed.
Lemma inv_start_connect now : se_preserves stratum_inv (start_connect now).
Proof. unfold start_connect. enters. Qed.
#[local] Hint Resolve inv_disconnect inv_onSSL inv_resolve inv_start_connect : miner.

Lemma inv_connect_handler now ec h : se_preserves stratum_inv (connect_handler name now ec h).
Proof. unfold connect_handler, first_request. walk. Qed.
Lemma inv_check_pending now : se_preserves stratum_inv (check_pending now).
Proof. unfold check_pending. walk. Qed.
Lemma inv_check_connected now : se_preserves stratum_inv (check_connected now).
Proof. unfold check_connected. enters. Qed.
#[local] Hint Resolve inv_connect_handler inv_check_pending inv_check_connected : miner.
Lemma inv_timer now c : se_preserves stratum_inv (workloop_timer_elapsed now c).
Proof. unfold workloop_timer_elapsed. enters. Qed.

(** ** Messages *)

Lemma inv_processExtranonce e : se_preserves stratum_inv (processExtranonce e).
Proof. unfold processExtranonce. walk. Qed.
Lemma inv_login_refused : se_preserves stratum_inv login_refused.
Proof. unfold login_refused. walk. Qed.
#[local] Hint Resolve inv_timer inv_processExtranonce inv_login_refused : miner.

(** A session is started when there is a connection. *)
Lemma inv_startSession now s : stratum_inv s -> is_some (m_conn s) -> stratum_inv (snd (startSession now s)).
Proof.
  intros (?&?&?&?&?&?) Hc. unfold stratum_inv. cbn. split_and!; try done.
  - intros ss [= <-]. apply session_new_ok.
  - apply Forall_app_2; [done | by repeat constructor].
Qed.
Lemma inv_confirm_then_session {A} now g (k : M A) : se_preserves stratum_inv k ->
  se_preserves stratum_inv (exec on_conn g; exec startSession now; k)%se.
Proof.
  intros Hk s Hs. unfold on_conn, conn, se_bind at 1 2. destruct (m_conn s) as [u|]; [|exact Hs].
  cbn [se_modify]. set (s1 := put_conn (Some (g u)) s).
  assert (Hs1 : stratum_inv s1) by (destruct Hs as (?&?&?&?&?&?); unfold s1, stratum_inv; cbn; by intuition).
  assert (Hs2 := inv_startSession now s1 Hs1 I). unfold se_bind.
  destruct (startSession now s1) as [[]?]; [by apply Hk | exact Hs2].
Qed.

Lemma inv_login_reply now ok r : se_preserves stratum_inv (login_reply now ok r).
Proof.
  unfold login_reply, login_corestratum2, login_corestratum, login_ethproxy, login_stratum.
  repeat first [ apply inv_confirm_then_session | walk_step ].
Qed.
Lemma inv_report ok d i st : 40 <= i <= B -> se_preserves stratum_inv (report_solution ok d i st).
Proof.
  intros Hi. unfold report_solution. apply inv_emit.
  assert (in_range 32 (u32 (i - 40)) /\ 40 + u32 (i - 40) <= B) by
    (split; [by apply wrap_range | pose proof (Z.mod_le (i - 40) (2 ^ 32)); unfold wrap; lia]).
  by destruct ok.
Qed.
Lemma inv_max_bind {A} (k : Z -> M A) :
  (forall n, n <= B -> se_preserves stratum_inv (k n)) ->
  se_preserves stratum_inv (do n <- gets m_solution_submitted_max_id; k n)%se.
Proof. intros Hk s Hs. apply Hk; [|done]. by apply Hs. Qed.
#[local] Hint Resolve inv_login_reply : miner.

Lemma inv_processReply now i ok m r : se_preserves stratum_inv (processReply now i ok m r).
Proof.
  unfold processReply, first_reply, subscription_reply, authorization_reply, solution_reply, getwork_reply,
    error_reply, stop, go.
  repeat first
    [ apply inv_max_bind; intros n Hn; destruct ((40 <=? i) && (i <=? n)) eqn:E;
      [bool_to_prop; pose proof (fun b d t => inv_report b d i t ltac:(lia))|]
    | match goal with H : forall _ _ _, se_preserves _ _ |- _ => apply H end
    | walk_step ].
Qed.

Lemma inv_proxy_block t : se_preserves stratum_inv (proxy_block t).
Proof.
  intros s (H1&H2&H3&H4&H5&H6). unfold proxy_block. cbn zeta. destruct (stoull t 16); [case_match|];
    unfold stratum_inv; cbn; split_and!; try done; revert H3; generalize (m_current s); ok_goal.
Qed.
#[local] Hint Resolve inv_processReply inv_proxy_block : miner.
Lemma inv_notify_corestratum now j : se_preserves stratum_inv (notify_corestratum now j).
Proof. unfold notify_corestratum, new_job. walk. Qed.
Lemma inv_notify_other now m j i : se_preserves stratum_inv (notify_other now m j i).
Proof. unfold notify_other, new_job. walk. Qed.
#[local] Hint Resolve inv_notify_corestratum inv_notify_other : miner.
Lemma inv_notify now m j : se_preserves stratum_inv (notify now m j).
Proof. unfold notify. enters. Qed.
Lemma inv_notify2 now j : se_preserves stratum_inv (notify2 now j).
Proof.
  intros s Hs. unfold notify2. destruct (m_session s) as [ss|] eqn:E; [|exact Hs].
  assert (Hss : session_ok ss) by by apply Hs. destruct Hss as (?&?&?&?&?).
  case_match; [exact Hs|]. apply preserves_run; [unfold new_job; walk | exact Hs].
Qed.
Lemma inv_set_difficulty j : se_preserves stratum_inv (set_difficulty j).
Proof. unfold set_difficulty. generalize nextWorkDifficulty. intros d. walk. Qed.
Lemma inv_set_extranonce j : se_preserves stratum_inv (set_extranonce j).
Proof. unfold set_extranonce. walk. Qed.
Lemma inv_mining_set j : se_preserves stratum_inv (mining_set j).
Proof. unfold mining_set. walk. Qed.
#[local] Hint Resolve inv_notify inv_notify2 inv_set_difficulty inv_set_extranonce inv_mining_set : miner.
Lemma inv_processNotification now i b m r : se_preserves stratum_inv (processNotification name now i b m r).
Proof. unfold processNotification, other_notification. cbn zeta. walk. Qed.
#[local] Hint Resolve inv_processNotification : miner.
Lemma inv_processResponse now r : se_preserves stratum_inv (processResponse name now r).
Proof. unfold processResponse. walk. Qed.
#[local] Hint Resolve inv_processResponse : miner.

Lemma inv_process_line now l : se_preserves stratum_inv (process_line name now l).
Proof.
  intros s Hs. unfold process_line. destruct (String.eqb l ""); [exact Hs|].
  destruct (json_parse l) as [j|]; [|exact Hs]. pose proof (inv_processResponse now j s Hs) as Hp.
  by destruct (processResponse name now j s) as [[] ?].
Qed.
#[local] Hint Resolve inv_process_line : miner.
Lemma inv_receive_loop now n : se_preserves stratum_inv (receive_loop name n now).
Proof.
  induction n as [|n IH]; intros s Hs; cbn [receive_loop]; [exact Hs|]. case_match; [|exact Hs].
  apply preserves_run; [walk | exact Hs].
Qed.
#[local] Hint Resolve inv_receive_loop : miner.
Lemma inv_onRecv now ec d : se_preserves stratum_inv (onRecvSocketDataCompleted name now ec d).
Proof. unfold onRecvSocketDataCompleted. enters. Qed.
Lemma inv_submitHashrate rate i : se_preserves stratum_inv (submitHashrate rate i).
Proof. unfold submitHashrate. enters. Qed.
Lemma inv_submitSolution now sol : u32 (40 + midx sol) <= B -> se_preserves stratum_inv (submitSolution now sol).
Proof.
  intros Hm s Hs. unfold submitSolution. destruct (m_session s); [|exact Hs]. destruct (negb _); [exact Hs|].
  cbn zeta. apply preserves_run; [|exact Hs]. apply preserves_bind; [|intros _; walk].
  apply preserves_modify. intros s1 (?&?&?&?&?&?). unfold stratum_inv. cbn. split_and!; try done. lia.
Qed.
Lemma inv_run_task now t : se_preserves stratum_inv (run_task name now t).
Proof. destruct t; cbn [run_task]; auto with miner nocore. Qed.
#[local] Hint Resolve inv_run_task : miner.
Lemma inv_run_posted now : se_preserves stratum_inv (run_posted name now).
Proof. unfold run_posted. enters. Qed.
#[local] Hint Resolve inv_onRecv inv_submitHashrate inv_submitSolution inv_run_posted : miner.

Lemma inv_apply_op now o : op_bounded o -> se_preserves stratum_inv (apply_op now o).
Proof. destruct o; cbn [apply_op op_bounded]; intros Ho; auto with miner nocore. walk. Qed.

Lemma inv_new wt rt now m : m <= B -> stratum_inv (Stratum_new wt rt now m).
Proof. intros ?. unfold stratum_inv. cbn. split_and!; try done. apply work_ok_default. Qed.

(** C11: In every state a stratum client can get into, whatever the manager, the network and the
    pool do and in whatever order, the number of pending pleas is the length of their queue, a
    session never outlives the connection it belongs to, the session parameters and the current
    job have well-formed values (32-byte hashes, 64-bit start nonce, ...), and so has every work
    package handed to the manager; and no verdict is ever reported for a miner whose index is
    beyond the largest one a solution was submitted for, whatever ids the pool replies with. *)
Theorem stratum_invariant (worktimeout responsetimeout t0 max_id : Z) (l : list (Z * operation)) :
  max_id <= B -> Forall (fun o => op_bounded (snd o)) l ->
  let s := run_ops l (Stratum_new worktimeout responsetimeout t0 max_id) in
  m_response_pleas_count s = Z.of_nat (length (m_response_plea_times s)) /\
  (is_some (m_session s) -> is_some (m_conn s)) /\
  (forall ss, m_session s = Some ss -> session_ok ss) /\
  work_ok (m_current s) /\
  Forall event_ok (out s).
Proof.
  intros Hm Hl s. assert (Hs : stratum_inv s).
  { subst s. unfold run_ops. generalize (inv_new worktimeout responsetimeout t0 max_id Hm).
    generalize (Stratum_new worktimeout responsetimeout t0 max_id).
    induction Hl as [|[now o] l Ho _ IH]; intros s Hs; [done|]. cbn [foldl]. apply IH. by apply inv_apply_op. }
  destruct Hs as (?&?&?&?&?&?). by split_and!.
Qed.
End stratum_theorems.

(** ** Witness *)

#[local] Existing Instance JsonModel.json.
#[local] Existing Instance BigIntegerModel.instance.
#[local] Existing Instance DoubleTextModel.instance.

Definition example_submission : list (Z * operation) :=
  [(0, OSolution {| nonce := 1; mixHash := h_zero 32; work := WorkPackage_default; tstamp := 0; midx := 2 |})].

Lemma stratum_invariant_witness :
  Forall (event_ok 42) (out (run_ops "coreminer" example_submission (Stratum_new 180 2 0 0))).
Proof.
  refine (proj2 (proj2 (proj2 (proj2 (stratum_invariant "coreminer" 42 _ 180 2 0 0 example_submission _ _))))).
  - lia.
  - lia.
  - repeat constructor. cbn. vm_compute. discriminate.
Defined.
