(* ===== verification/StratumStream.v ===== *)
(** * The stratum client's received stream

    Handling a message neither reads nor writes the receive buffer, so the lines a client processes
    are those of the whole stream, however the network cuts it into transmissions. *)

From S2P Require Import Prelude CppString Lines CommonData FixedHash Float Difficulty.
From S2P Require Import Types PoolURI Json Stratum.

Section stream.
Context {Jsn : Json} {Big : BigInteger} {Dbl : DoubleText}.
Context (name : string).

(** ** Messages leave the receive buffer alone *)

Section frame.
Context (x : string).
#[local] Notation framed := (se_frame (put_message x)).

Lemma framed_gets {A} (g : Stratum -> A) : (forall s, g (put_message x s) = g s) -> framed (gets g).
Proof. intros Hg s. unfold gets. by rewrite Hg. Qed.
Lemma framed_conn : framed conn.
Proof. intros s. unfold conn. cbn. by destruct (m_conn s). Qed.
Lemma framed_session : framed session.
Proof. intros s. unfold session. cbn. by destruct (m_session s). Qed.
Lemma framed_dequeue now : framed (dequeue now).
Proof.
  intros s. unfold dequeue, dequeue_response_plea. cbn. destruct (m_response_plea_times s); cbn; destruct (0 <? m_response_pleas_count s); reflexivity.
Qed.
Lemma framed_socket : framed secure_socket /\ framed plain_socket.
Proof. split; intros s; unfold secure_socket, plain_socket; cbn;
  [destruct (m_securesocket s) | destruct (m_nonsecuresocket s)]; reflexivity. Qed.
Lemma framed_secure_socket : framed secure_socket. Proof. apply framed_socket. Qed.
Lemma framed_plain_socket : framed plain_socket. Proof. apply framed_socket. Qed.

Ltac frames :=
  repeat first
    [ assumption
    | solve [ apply framed_conn | apply framed_session | apply framed_dequeue | apply framed_secure_socket
            | apply framed_plain_socket | apply framed_gets; reflexivity
            | apply frame_modify; reflexivity | eauto with frames nocore ]
    | apply frame_ret | apply frame_throw | apply frame_lift
    | apply frame_bind; [|intros ?]
    | match goal with |- se_frame _ (if ?b then _ else _) => destruct b end
    | match goal with |- se_frame _ (match ?y with _ => _ end) => destruct y end ].

Create HintDb frames discriminated.

Lemma framed_on_conn g : framed (on_conn g).
Proof. unfold on_conn. frames. Qed.
Lemma framed_on_session g : framed (on_session g).
Proof. unfold on_session. frames. Qed.
Lemma framed_mode : framed stratum_mode.
Proof. unfold stratum_mode. frames. Qed.
Lemma framed_selected : framed selected_socket.
Proof. unfold selected_socket. frames. Qed.
Lemma framed_emit e : framed (emit e).
Proof. apply frame_modify. reflexivity. Qed.
Lemma framed_post t : framed (post t).
Proof. apply frame_modify. reflexivity. Qed.
Lemma framed_current g : framed (current_ g).
Proof. apply frame_modify. reflexivity. Qed.
Hint Resolve framed_on_conn framed_on_session framed_mode framed_selected framed_emit framed_post
  framed_current : frames.
Lemma framed_sendSocketData : framed sendSocketData.
Proof.
  intros s. unfold sendSocketData. change (isConnected (put_message x s)) with (isConnected s).
  change (m_txQueue (put_message x s)) with (m_txQueue s). case_match; [done|]. cbn zeta.
  set (b := foldl _ _ _).
  exact (frame_bind (put_message x) selected_socket (fun _ => emit (EvWrite b)) framed_selected
           (fun _ => framed_emit (EvWrite b)) (put_txQueue [] (put_sendBuffer b s))).
Qed.
Hint Resolve framed_sendSocketData : frames.
Lemma framed_send j : framed (send j).
Proof.
  intros s. unfold send. change (m_txQueue (put_message x s)) with (m_txQueue s). cbn zeta.
  destruct (m_txPending s) eqn:E; [cbn; by rewrite E|]. cbn [m_txPending put_txQueue put_message]. rewrite E.
  exact (framed_sendSocketData (put_txPending true (put_txQueue (m_txQueue s ++ [json_write j]) s))).
Qed.
Hint Resolve framed_send : frames.
Lemma framed_send_request j : framed (send_request j).
Proof. unfold send_request. frames. Qed.
Lemma framed_enqueue now : framed (se_modify (enqueue_response_plea now)).
Proof.
  apply frame_modify. intros s. unfold enqueue_response_plea. cbn. by destruct (m_response_pleas_count s =? 0).
Qed.
Hint Resolve framed_send_request framed_enqueue : frames.
Lemma framed_startSession now : framed (startSession now).
Proof. unfold startSession. frames. Qed.
Lemma framed_extranonce e : framed (processExtranonce e).
Proof. unfold processExtranonce. frames. Qed.
Lemma framed_login_refused : framed login_refused.
Proof. unfold login_refused. frames. Qed.
Hint Resolve framed_startSession framed_extranonce framed_login_refused : frames.
Lemma framed_login_reply now ok r : framed (login_reply now ok r).
Proof. unfold login_reply, login_corestratum2, login_corestratum, login_ethproxy, login_stratum. frames. Qed.
Lemma framed_report ok d i st : framed (report_solution ok d i st).
Proof. apply framed_emit. Qed.
Hint Resolve framed_login_reply framed_report : frames.
Lemma framed_processReply now i ok m r : framed (processReply now i ok m r).
Proof.
  unfold processReply, first_reply, subscription_reply, authorization_reply, solution_reply, getwork_reply,
    error_reply, stop, go. frames.
Qed.
Lemma framed_proxy_block t : framed (proxy_block t).
Proof. intros s. unfold proxy_block. destruct (stoull t 16); [cbn zeta; case_match|]; done. Qed.
Hint Resolve framed_processReply framed_proxy_block : frames.
Lemma framed_new_job : framed new_job.
Proof. apply frame_modify. reflexivity. Qed.
Hint Resolve framed_new_job : frames.
Lemma framed_notify_corestratum now j : framed (notify_corestratum now j).
Proof. unfold notify_corestratum. frames. Qed.
Lemma framed_notify_other now m j i : framed (notify_other now m j i).
Proof. unfold notify_other. frames. Qed.
Hint Resolve framed_notify_corestratum framed_notify_other : frames.
Lemma framed_if {A} (b : Stratum -> bool) (m1 m2 : M A) : (forall s, b (put_message x s) = b s) ->
  framed m1 -> framed m2 -> framed (fun s => if b s then m1 s else m2 s).
Proof. intros Hb H1 H2 s. rewrite Hb. case_match; [apply H1 | apply H2]. Qed.
Lemma framed_notify now m j : framed (notify now m j).
Proof.
  unfold notify. apply (framed_if (fun s => negb (isSubscribed s) || m_newjobprocessed s));
    [done | by intros s |]. frames.
Qed.
Lemma framed_notify2 now j : framed (notify2 now j).
Proof.
  intros s. unfold notify2. change (m_session (put_message x s)) with (m_session s).
  destruct (m_session s) as [ss|]; [|done]. case_match; [done|].
  match goal with |- ?m _ = _ => assert (Hm : framed m) by frames end. apply Hm.
Qed.
Lemma framed_set_difficulty j : framed (set_difficulty j).
Proof. unfold set_difficulty. generalize nextWorkDifficulty. intros d. frames. Qed.
Lemma framed_set_extranonce j : framed (set_extranonce j).
Proof. unfold set_extranonce. frames. Qed.
Lemma framed_mining_set j : framed (mining_set j).
Proof. unfold mining_set. frames. Qed.
Hint Resolve framed_notify framed_notify2 framed_set_difficulty framed_set_extranonce framed_mining_set : frames.
Lemma framed_processNotification now i b m r : framed (processNotification name now i b m r).
Proof. unfold processNotification, other_notification. cbn zeta. frames. Qed.
Hint Resolve framed_processNotification : frames.
Lemma framed_processResponse now r : framed (processResponse name now r).
Proof. unfold processResponse. frames. Qed.
Lemma framed_process_line now l : framed (process_line name now l).
Proof.
  intros s. unfold process_line. destruct (String.eqb l ""); [done|]. destruct (json_parse l) as [j|]; [|done].
  rewrite framed_processResponse. by destruct (processResponse name now j s) as [[] ?].
Qed.
End frame.

(** ** The receiving loop *)

(** The lines of a stream, one after the other. *)
Fixpoint process_all (now : Z) (ls : list string) : M unit :=
  match ls with
  | [] => se_ret tt
  | l :: ls' => (exec process_line name now (trim l); process_all now ls')%se
  end.

Lemma put_message_twice a b s : put_message a (put_message b s) = put_message a s.
Proof. by destruct s. Qed.

Lemma receive_loop_lines now : forall fuel s, (String.length (m_message s) < fuel)%nat ->
  let '(ls, rest) := split_lines (m_message s) in
  let '(r, s') := process_all now ls (put_message "" s) in
  r = Ok tt -> receive_loop name fuel now s = (Ok tt, put_message rest s').
Proof.
  induction fuel as [|fuel IH]; intros s Hf; [lia|]. cbn [receive_loop].
  pose proof (split_lines_find (m_message s)) as Hs. destruct (find_char (chr 10) (m_message s)) as [i|] eqn:E.
  - rewrite Hs. clear Hs. set (next := sdrop (i + 1) (m_message s)). cbn [process_all]. set (l := trim _).
    unfold se_bind at 1. pose proof (framed_process_line "" now l s) as Hl. rewrite Hl.
    pose proof (framed_process_line (m_message s) now l s) as Hl'.
    assert (Em : put_message (m_message s) s = s) by by destruct s. rewrite Em in Hl'.
    destruct (process_line name now l s) as [[[]|e] s1] eqn:Ep; cbn [fst snd]; [|by destruct (split_lines next)].
    injection Hl' as Hs1. assert (Hm1 : m_message s1 = m_message s) by (rewrite Hs1; done).
    unfold se_bind at 1. rewrite Ep, run_modify, Hm1. fold next.
    specialize (IH (put_message next s1)). cbn [m_message put_message] in IH. rewrite put_message_twice in IH.
    destruct (split_lines next) as [ls rest]. apply IH. pose proof (find_char_length _ _ _ E). fold next in H. lia.
  - rewrite Hs. cbn [process_all se_ret]. intros _. rewrite put_message_twice. by destruct s.
Qed.

(** What follows the lines of a transmission: the job it brought is dispatched and, on a connected
    client, the next read is started. *)
Definition after_transmission : M unit := fun s =>
  let s1 := if m_newjobprocessed s then put_out (out s ++ [EvWork (m_current s)]) s else s in
  if isConnected s1 then recvSocketData s1 else (Ok tt, s1).

Lemma transmission_processed (now : Z) (s : Stratum) (data : string) :
  let '(ls, rest) := split_lines (m_message s +:+ data) in
  let '(r, s') := process_all now ls (put_newjobprocessed false (put_message "" s)) in
  r = Ok tt -> onRecvSocketDataCompleted name now EcOk data s = after_transmission (put_message rest s').
Proof.
  pose proof (receive_loop_lines now (S (String.length (m_message s +:+ data)))
    (put_newjobprocessed false (put_message (m_message s +:+ data) s))) as Hl.
  cbn [m_message put_newjobprocessed put_message] in Hl.
  change (put_message "" (put_newjobprocessed false (put_message (m_message s +:+ data) s)))
    with (put_newjobprocessed false (put_message "" s)) in Hl.
  destruct (split_lines (m_message s +:+ data)) as [ls rest].
  destruct (process_all now ls (put_newjobprocessed false (put_message "" s))) as [r s'].
  intros Hr. specialize (Hl ltac:(lia) Hr). unfold onRecvSocketDataCompleted, after_transmission.
  rewrite bool_decide_eq_true_2 by done. cbn zeta. unfold se_bind at 1.
  cbn [m_message put_newjobprocessed put_message]. rewrite Hl. unfold gets, emit, se_modify, se_bind, se_ret.
  cbn [m_newjobprocessed m_current put_message]. destruct (m_newjobprocessed s');
    cbn [m_current put_message]; match goal with |- context [isConnected ?y] => by destruct (isConnected y) end.
Qed.

(** ** A stream cut into transmissions *)

(** The socket of the connection's security level exists. *)
Definition ready (s : Stratum) : Prop := exists u b, m_conn s = Some u /\ selected_socket s = (Ok b, s).

Lemma ready_same s s' : ready s -> m_conn s' = m_conn s -> m_securesocket s' = m_securesocket s ->
  m_nonsecuresocket s' = m_nonsecuresocket s -> ready s'.
Proof.
  intros (u & b & Hc & Hs) H1 H2 H3. exists u. revert Hs. rewrite H1, Hc.
  unfold selected_socket, conn, secure_socket, plain_socket, undefined, se_throw, se_bind. rewrite H1, Hc.
  destruct (is_secure u); rewrite ?H2, ?H3; case_match; intros; simplify_eq; by eexists.
Qed.

Lemma plain_ready u b s : m_conn s = Some u -> is_secure u = false -> m_nonsecuresocket s = Some b -> ready s.
Proof.
  intros Hc Hs Hb. exists u, b. split; [done|]. unfold selected_socket, conn, plain_socket, se_bind. by rewrite Hc, Hs, Hb.
Qed.

Lemma reads_on s : ready s -> recvSocketData s = (Ok tt, put_out (out s ++ [EvRead]) s).
Proof. intros (u & b & _ & Hs). unfold recvSocketData, se_bind. by rewrite Hs. Qed.

Definition no_line (d : string) : Prop := find_char (chr 10) d = None.

Lemma no_line_app a b : no_line a -> no_line b -> no_line (a +:+ b).
Proof.
  unfold no_line. induction a as [|c a IH]; intros Ha Hb; [done|]. rewrite string_app_cons. cbn [find_char] in *.
  destruct (Ascii.eqb (chr 10) c); [done|]. destruct (find_char (chr 10) a); [done|]. by rewrite IH.
Qed.

#[local] Notation listen := (onRecvSocketDataCompleted name).

(** Part of a line is kept, and the client goes on reading. *)
Lemma fragment_kept now d s : no_line (m_message s) -> no_line d -> ready s -> isConnected s = true ->
  listen now EcOk d s =
    (Ok tt, put_out (out s ++ [EvRead]) (put_newjobprocessed false (put_message (m_message s +:+ d) s))).
Proof.
  intros Hm Hd Hr Hc. unfold onRecvSocketDataCompleted. rewrite bool_decide_eq_true_2 by done. cbv zeta.
  set (s1 := put_newjobprocessed false _). cbn [receive_loop]. unfold se_bind at 1.
  change (m_message s1) with (m_message s +:+ d). rewrite (no_line_app _ _ Hm Hd).
  unfold gets, se_ret, se_bind. change (m_newjobprocessed s1) with false. cbv iota.
  cbv beta iota. change (isConnected s1) with (isConnected s). rewrite Hc. by rewrite (reads_on s1) by by apply (ready_same s).
Qed.

Fixpoint receive_all (now : Z) (ds : list string) : M unit :=
  match ds with [] => se_ret tt | d :: ds' => (exec listen now EcOk d; receive_all now ds')%se end.

(** A transmission sees the buffer and clears the mark of a new job. *)
Lemma listen_buffer now d b s : listen now EcOk b (put_newjobprocessed false (put_message (m_message s +:+ d) s)) =
  listen now EcOk (d +:+ b) s.
Proof.
  unfold onRecvSocketDataCompleted. rewrite bool_decide_eq_true_2 by done. cbv zeta.
  cbn [m_message put_newjobprocessed put_message]. rewrite string_app_assoc. by destruct s.
Qed.

Lemma fragments_joined now b fs : forall s, Forall no_line fs -> no_line (m_message s) -> ready s -> isConnected s = true ->
  receive_all now (fs ++ [b]) s =
    listen now EcOk (String.concat "" fs +:+ b) (put_out (out s ++ replicate (length fs) EvRead) s).
Proof.
  induction fs as [|d fs IH]; intros s Hf Hm Hr Hc; cbn [app receive_all].
  - cbn. rewrite app_nil_r. change ("" +:+ b) with b. replace (put_out (out s) s) with s by by destruct s.
    unfold se_bind. by destruct (listen now EcOk b s) as [[[]|e] s'].
  - apply Forall_cons in Hf as [Hd Hf]. unfold se_bind. rewrite fragment_kept by done.
    set (s1 := put_newjobprocessed false (put_message _ s)).
    rewrite IH; [|done|by apply no_line_app|by apply (ready_same s)|done].
    cbn [out put_out length replicate]. rewrite <- app_assoc.
    change (put_out ?l (put_out _ s1)) with (put_out l s1). set (l := out s ++ _).
    change (put_out l s1) with (put_newjobprocessed false (put_message (m_message (put_out l s) +:+ d) (put_out l s))).
    rewrite listen_buffer. assert (String.concat "" (d :: fs) +:+ b = d +:+ (String.concat "" fs +:+ b)) as ->; [|done].
    destruct fs; [done|]. rewrite <- string_app_assoc. done.
Qed.

Lemma process_all_app now la lb s : process_all now (la ++ lb) s = se_bind (process_all now la) (fun _ => process_all now lb) s.
Proof.
  revert s. induction la as [|l la IH]; intros s; [done|]. cbn [app process_all]. rewrite run_assoc.
  destruct (process_line name now (trim l) s) as [[[]|e] s1] eqn:E; [|by rewrite !(run_err _ _ _ _ _ E)].
  rewrite !(run_ok _ _ _ _ _ E). apply IH.
Qed.
Lemma framed_process_all x now ls : se_frame (put_message x) (process_all now ls).
Proof. induction ls as [|l ls IH]; [apply frame_ret|]. apply frame_bind; [apply framed_process_line|]. intros _. apply IH. Qed.

(** A cut between lines: the first part's lines handled without a job, the rest is as if it came then. *)
Lemma cut_after_lines now a b s s1 :
  let ra := snd (split_lines (m_message s +:+ a)) in
  process_all now (fst (split_lines (m_message s +:+ a))) (put_newjobprocessed false (put_message "" s)) = (Ok tt, s1) ->
  m_newjobprocessed s1 = false -> isConnected s1 = true -> ready s1 ->
  receive_all now [a; b] s = listen now EcOk b (put_out (out s1 ++ [EvRead]) (put_message ra s1)).
Proof.
  intros ra Hp Hn Hc Hr. pose proof (transmission_processed now s a) as H. fold ra in H. subst ra.
  destruct (split_lines (m_message s +:+ a)) as [ls ra]. cbn [fst snd] in *. rewrite Hp in H.
  cbn [receive_all]. unfold se_bind. rewrite (H eq_refl). unfold after_transmission.
  cbn [m_newjobprocessed put_message]. rewrite Hn. change (isConnected (put_message ra s1)) with (isConnected s1). rewrite Hc.
  rewrite reads_on by by apply (ready_same s1). cbn [out put_message].
  by destruct (listen now EcOk b _) as [[[]|e] s'].
Qed.

(** C13: The received stream is put together from its transmissions.  A transmission is handled as, in
    order, the lines it completes - what was left over followed by the new data -, with the mark of a
    new job cleared before the first one; the rest is kept, at most one job is dispatched, and the
    next read is started.  So a line that arrives in any number of pieces is handled exactly as if it
    arrived with its last piece: apart from the reads started in between the client gets into the same
    state by the same outputs.  A cut between lines shows only through that mark: when the lines before
    it announced no job, what follows is handled from the very state the lines before it left. *)
Theorem stream_reassembly (now : Z) (s : Stratum) :
  (forall data ls rest s', split_lines (m_message s +:+ data) = (ls, rest) ->
     process_all now ls (put_newjobprocessed false (put_message "" s)) = (Ok tt, s') ->
     listen now EcOk data s = after_transmission (put_message rest s')) /\
  (forall fs b, Forall no_line fs -> no_line (m_message s) -> ready s -> isConnected s = true ->
     receive_all now (fs ++ [b]) s =
       listen now EcOk (String.concat "" fs +:+ b) (put_out (out s ++ replicate (length fs) EvRead) s)) /\
  (forall a b ls rest s1, split_lines (m_message s +:+ a) = (ls, rest) ->
     process_all now ls (put_newjobprocessed false (put_message "" s)) = (Ok tt, s1) ->
     m_newjobprocessed s1 = false -> isConnected s1 = true -> ready s1 ->
     receive_all now [a; b] s = listen now EcOk b (put_out (out s1 ++ [EvRead]) (put_message rest s1)) /\
     (fst (process_all now (fst (split_lines (rest +:+ b))) (put_message "" s1)) = Ok tt ->
      listen now EcOk (a +:+ b) s = listen now EcOk b (put_message rest s1))).
Proof.
  split_and!.
  - intros data ls rest s' Hs Hp. pose proof (transmission_processed now s data) as H. rewrite Hs, Hp in H. by apply H.
  - intros fs b. apply fragments_joined.
  - intros a b ls rest s1 Hs Hp Hn Hc Hr. split.
    + pose proof (cut_after_lines now a b s s1) as H. rewrite Hs in H. by apply H.
    + intros Hb. pose proof (transmission_processed now s (a +:+ b)) as H1.
      pose proof (transmission_processed now (put_message rest s1) b) as H2.
      rewrite <- string_app_assoc, split_lines_app, Hs in H1. cbn [m_message put_message] in H2.
      destruct (split_lines (rest +:+ b)) as [lb rb]. cbn [fst] in Hb.
      assert (E : put_newjobprocessed false (put_message "" (put_message rest s1)) = put_message "" s1).
      { revert Hn. destruct s1. cbn. by intros ->. }
      rewrite E in H2. rewrite process_all_app in H1. unfold se_bind in H1. rewrite Hp in H1.
      assert (E1 : put_message "" s1 = s1).
      { pose proof (framed_process_all "" now ls (put_newjobprocessed false (put_message "" s))) as H.
        change (put_message "" (put_newjobprocessed false (put_message "" s)))
          with (put_newjobprocessed false (put_message "" s)) in H. rewrite Hp in H. by injection H as <-. }
      rewrite E1 in *. destruct (process_all now lb s1) as [r s2]. cbn [fst] in Hb. by rewrite H1, H2.
Qed.
End stream.

(** ** Witnesses *)

#[local] Existing Instance JsonModel.json.
#[local] Existing Instance BigIntegerModel.instance.
#[local] Existing Instance DoubleTextModel.instance.

Definition example_client : Stratum := Stratum_new 180 2 0 0.

Definition example_target (scheme : string) (mode : Z) (confirmed : bool) : URI := {|
  m_uri := ""; m_scheme := scheme; m_authority := ""; m_userinfo := ""; m_urlinfo := "";
  m_hostinfo := ""; m_pathinfo := ""; m_host := "pool"; m_path := ""; m_query := "";
  m_fragment := ""; m_user := "0xab"; m_password := "x"; m_worker := "rig"; m_stratumMode := mode;
  m_port := 8008; m_stratumModeConfirmed := confirmed; m_unrecoverable := false;
  m_responds := false; m_hostType := HT_Dns; m_isLoopBack := None; m_totalDuration := None |}.

(** A client whose plain socket is open. *)
Definition example_open (u : URI) : Stratum :=
  put_conn (Some u) (put_socket (Some SockPlain) (put_nonsecuresocket (Some true) example_client)).

Definition example_idle (u : URI) : Stratum := put_connected true (example_open u).

Lemma example_idle_ready u : is_secure u = false -> ready (example_idle u).
Proof. intros Hs. by eapply plain_ready. Qed.

(** A line in three pieces. *)
Lemma stream_reassembly_witness :
  let s := example_idle (example_target "stratum" 0 true) in
  receive_all "cm" 0 ["{"; "}"; LF] s =
    onRecvSocketDataCompleted "cm" 0 EcOk ("{}" +:+ LF) (put_out (out s ++ [EvRead; EvRead]) s) /\
  receive_all "cm" 0 ["{"; LF +:+ "y"] s =
    (Ok tt, put_out (out s ++ [EvRead; EvRead]) (put_newjobprocessed false (put_message "y" s))).
Proof.
  intros s. destruct (stream_reassembly "cm" 0 s) as (H1 & H2 & _).
  assert (Hr : ready s) by by apply example_idle_ready. split.
  - apply (H2 ["{"; "}"]); [by repeat constructor|done|done|done].
  - etrans; [apply (H2 ["{"] (LF +:+ "y")); [by repeat constructor|done|done|done]|]. vm_compute. reflexivity.
Defined.
