(* ===== verification/StratumProtocol.v ===== *)
(** * The stratum client at work

    Theorems about the model of [XcbStratumClient] in Stratum: the send queue, the reassembly of
    the received stream, the detection of the stratum flavour, jobs, extranonces, submissions and
    their replies, the time-outs, and the inputs that end the process. *)

From S2P Require Import Prelude CppString Lines CommonData FixedHash Float Difficulty.
From S2P Require Import Types PoolURI Json Stratum StratumStream.

Section protocol.
Context {Jsn : Json} {Big : BigInteger} {Dbl : DoubleText}.
Context (name : string).

(** ** Running the handlers *)

Lemma run_gets {A B} (f : Stratum -> A) (k : A -> M B) s : se_bind (gets f) k s = k (f s) s.
Proof. done. Qed.
Lemma run_conn {B} (k : URI -> M B) s : se_bind conn k s =
  match m_conn s with Some u => k u s | None => (Throw (UndefinedBehaviour "null m_conn"), s) end.
Proof. unfold se_bind, conn. by destruct (m_conn s). Qed.
Lemma run_session {B} (k : Session -> M B) s : se_bind session k s =
  match m_session s with Some ss => k ss s | None => (Throw (UndefinedBehaviour "null m_session"), s) end.
Proof. unfold se_bind, session. by destruct (m_session s). Qed.
Lemma run_on_conn {B} g (k : unit -> M B) s : se_bind (on_conn g) k s =
  match m_conn s with
  | Some u => k tt (put_conn (Some (g u)) s)
  | None => (Throw (UndefinedBehaviour "null m_conn"), s)
  end.
Proof. unfold on_conn. rewrite run_assoc, run_conn. by destruct (m_conn s). Qed.
Lemma run_on_session {B} g (k : unit -> M B) s : se_bind (on_session g) k s =
  match m_session s with
  | Some ss => k tt (put_session (Some (g ss)) s)
  | None => (Throw (UndefinedBehaviour "null m_session"), s)
  end.
Proof. unfold on_session. rewrite run_assoc, run_session. by destruct (m_session s). Qed.
Lemma run_mode {B} (k : Z -> M B) s : se_bind stratum_mode k s =
  match m_conn s with
  | Some u => k (m_stratumMode u) s
  | None => (Throw (UndefinedBehaviour "null m_conn"), s)
  end.
Proof. unfold stratum_mode. rewrite run_assoc, run_conn. by destruct (m_conn s). Qed.
Lemma run_current {B} g (k : unit -> M B) s : se_bind (current_ g) k s = k tt (put_current (g (m_current s)) s).
Proof. done. Qed.
Lemma run_dequeue {B} now (k : Z -> M B) s : se_bind (dequeue now) k s =
  k (fst (dequeue_response_plea now s)) (snd (dequeue_response_plea now s)).
Proof. unfold dequeue, se_bind. by destruct (dequeue_response_plea now s). Qed.
Lemma run_emit {B} e (k : unit -> M B) s : se_bind (emit e) k s = k tt (put_out (out s ++ [e]) s).
Proof. done. Qed.
Lemma run_post {B} t (k : unit -> M B) s : se_bind (post t) k s = k tt (put_posted (posted s ++ [t]) s).
Proof. done. Qed.
Lemma run_socket_open {B} (k : bool -> M B) s : se_bind socket_open k s =
  match (match m_socket s with
         | Some SockSecure => m_securesocket s | Some SockPlain => m_nonsecuresocket s | None => None
         end) with
  | Some b => k b s
  | None => (Throw (UndefinedBehaviour "null socket"), s)
  end.
Proof.
  unfold se_bind, socket_open. destruct (m_socket s) as [[]|];
    [destruct (m_securesocket s) | destruct (m_nonsecuresocket s) |]; done.
Qed.
Lemma run_plain_socket {B} (k : bool -> M B) s : se_bind plain_socket k s =
  match m_nonsecuresocket s with
  | Some b => k b s
  | None => (Throw (UndefinedBehaviour "null m_nonsecuresocket"), s)
  end.
Proof. unfold se_bind, plain_socket. by destruct (m_nonsecuresocket s). Qed.
Lemma enqueue_puts now s : enqueue_response_plea now s =
  put_times (m_response_plea_times s ++ [now]) (put_older
    (if m_response_pleas_count s =? 0 then now else m_response_plea_older s)
    (put_count (m_response_pleas_count s + 1) s)).
Proof. unfold enqueue_response_plea. by destruct (m_response_pleas_count s =? 0), s. Qed.
Lemma run_last {A} (m : M A) s : m s = se_bind m se_ret s.
Proof. unfold se_bind. by destruct (m s) as [[]]. Qed.

#[local] Hint Rewrite @run_gets @run_conn @run_session @run_on_conn @run_on_session @run_mode @run_dequeue @run_current @run_emit
  @run_post @run_socket_open @run_plain_socket enqueue_puts : se_run.

(** The value of a member after assignments to others. *)
Ltac fields := cbn [ fst snd res_bind clear_response_pleas m_conn m_session m_connected m_disconnecting m_connecting m_authpending
  m_worktimeout m_responsetimeout m_current m_current_timestamp m_socket m_securesocket
  m_nonsecuresocket m_message m_newjobprocessed m_sendBuffer m_workloop_timer m_response_pleas_count
  m_response_plea_older m_response_plea_times m_txPending m_txQueue m_endpoints m_endpoint
  m_solution_submitted_max_id posted out put_conn put_session put_connected put_disconnecting
  put_connecting put_authpending put_current put_current_timestamp put_socket put_securesocket
  put_nonsecuresocket put_message put_newjobprocessed put_sendBuffer put_timer put_count put_older
  put_times put_txPending put_txQueue put_endpoints put_endpoint put_max_id put_posted put_out ].
Ltac run := repeat (progress (autorewrite with se_run; cbv beta; fields)).

(** ** Messages *)

(** A JSON-RPC 1 object without an error, with the given id (0 when missing) and method (empty
    when missing). *)
Definition message (R : J) (i : Z) (m : string) : Prop :=
  view R = VObject /\ jhas R "jsonrpc" = Ok false /\
  (exists v, jget_or R "id" (of_Z 0) = Ok v /\ asUInt 32 v = Ok i) /\
  (exists e, jget_or R "error" jnull = Ok e /\ jempty e = true) /\
  text_of R "method" "" = Ok m.

Lemma message_header R i m : message R i m ->
  read_header R = Ok {| h_rpc2 := false; h_id := i; h_success := true; h_method := m |}.
Proof.
  intros (_ & Hj & (v & Hv & Hi) & (e & He & Hee) & Hm). unfold read_header.
  rewrite Hj, Hv. cbn [res_bind]. rewrite Hi, He. cbn [res_bind]. rewrite Hee. cbn [res_bind]. by rewrite Hm.
Qed.

(** A notification with parameters goes straight to [processNotification] once the flavour is
    confirmed. *)
Lemma notification_processed now R i m p u s : message R i m -> m <> "" ->
  jget R "params" = Ok p -> jempty p = false ->
  m_conn s = Some u -> m_stratumModeConfirmed u = true ->
  processResponse name now R s = processNotification name now i false m R s.
Proof.
  intros Hm Hne Hp Hpe Hc Hf. pose proof (message_header R i m Hm) as Hh. destruct Hm as (Ho & _).
  apply String.eqb_neq in Hne. destruct (get_object R "result" Ho) as (r & Hr).
  unfold processResponse, se_lift, se_bind. rewrite Hh. unfold h_notification. cbn [h_method h_id h_success h_rpc2].
  rewrite Hne. cbn [negb orb andb se_ret]. unfold invalid_message, h_notification. cbn [h_method h_id h_rpc2].
  rewrite Hne. cbn [negb orb res_bind]. rewrite Hp, Hr. cbn [res_bind]. rewrite Hpe. cbn [andb].
  unfold se_ret, conn. rewrite Hc. by rewrite Hf.
Qed.

(** ** Extranonce *)

Lemma hex_fixed_is_hex w n : 0 <= n -> sforall is_hex (hex_fixed w n) = true.
Proof. intros Hn. exact (proj1 (hex_fixed_digits w n Hn)). Qed.

Lemma sfill_zeroes k : sfill k "0" = hex_fixed k 0.
Proof. by rewrite hex_fixed_0. Qed.

Lemma resize_extranonce n v : (n <= 16)%nat -> 0 <= v < 16 ^ Z.of_nat n ->
  resize (hex_fixed n v) 16 "0" = hex_fixed 16 (v * 16 ^ Z.of_nat (16 - n)).
Proof.
  intros Hn Hv. unfold resize. rewrite hex_fixed_length. case_match eqn:E.
  - apply Nat.leb_le in E. assert (n = 16%nat) as -> by lia.
    replace 16%nat with (String.length (hex_fixed 16 v)) at 1 by apply hex_fixed_length.
    rewrite stake_all. f_equal. cbn. lia.
  - rewrite sfill_zeroes. replace 16%nat with (n + (16 - n))%nat at 2 by lia.
    assert (0 < 16 ^ Z.of_nat (16 - n)) by (apply Z.pow_pos_nonneg; lia).
    rewrite hex_fixed_app by nia. rewrite Z.div_mul, Z.mod_mul by lia. done.
Qed.

(** The 16 digits of a nonce of the granted range, and what is submitted of it. *)
Lemma extranonce_text (n : nat) (v k : Z) (sol : Solution) :
  (1 <= n <= 16)%nat -> 0 <= v < 16 ^ Z.of_nat n -> 0 <= k < 16 ^ Z.of_nat (16 - n) ->
  nonce sol = v * 16 ^ Z.of_nat (16 - n) + k -> exSizeBytes (work sol) = Z.of_nat n ->
  short_nonce sol = Ok (hex_fixed (16 - n) k) /\
  toHex_uint64 (nonce sol) DontAdd 16 = hex_fixed n v +:+ hex_fixed (16 - n) k.
Proof.
  intros Hn Hv Hk Hnon Hex.
  assert (Hpow : 16 ^ Z.of_nat n * 16 ^ Z.of_nat (16 - n) = 2 ^ 64).
  { rewrite <- Z.pow_add_r by lia. by replace (Z.of_nat n + Z.of_nat (16 - n)) with 16 by lia. }
  assert (Hpos : 0 < 16 ^ Z.of_nat (16 - n)) by (apply Z.pow_pos_nonneg; lia).
  assert (Hhex : toHex_uint64 (nonce sol) DontAdd 16 = hex_fixed n v +:+ hex_fixed (16 - n) k).
  { rewrite toHex_uint64_fixed by (rewrite Hnon; split; nia). rewrite Hnon.
    replace 16%nat with (n + (16 - n))%nat at 1 by lia. rewrite hex_fixed_app by nia.
    rewrite Z.div_add_l, Z.div_small, Z.add_0_r by lia.
    by rewrite Z.add_comm, Z.mod_add, Z.mod_small by lia. }
  split; [|done]. unfold short_nonce. cbn zeta. rewrite Hhex, Hex, Nat2Z.id. unfold substr.
  assert ((String.length (hex_fixed n v +:+ hex_fixed (16 - n) k) <? n)%nat = false) as ->
    by (apply Nat.ltb_ge; rewrite string_length_app, !hex_fixed_length; lia).
  f_equal. pose proof (sdrop_app (hex_fixed n v) (hex_fixed (16 - n) k)) as Hd.
  rewrite hex_fixed_length in Hd. rewrite Hd, string_length_app, !hex_fixed_length.
  apply stake_ge. rewrite hex_fixed_length. lia.
Qed.

(** C16: Extranonces round trip: after the pool has set an extranonce of [n] hexadecimal digits, the
    session's start nonce is that prefix followed by zeroes, so that the nonces of the granted range
    are exactly those that begin with it; the text submitted for such a nonce is its remaining
    [16 - n] digits, and the pool's prefix followed by it is the 16-digit nonce. *)
Theorem extranonce_roundtrip (R p : J) (s : Stratum) (ss : Session) (n : nat) (v k : Z) (sol : Solution) :
  jget_or R "params" jnull = Ok p -> view p = VArray -> text_at p 0 = Ok (hex_fixed n v) ->
  m_session s = Some ss -> (1 <= n <= 16)%nat -> 0 <= v < 16 ^ Z.of_nat n ->
  0 <= k < 16 ^ Z.of_nat (16 - n) ->
  nonce sol = v * 16 ^ Z.of_nat (16 - n) + k -> exSizeBytes (work sol) = Z.of_nat n ->
  let '(r, s') := set_extranonce R s in
  r = Ok tt /\
  (exists ss', m_session s' = Some ss' /\ extraNonce ss' = v * 16 ^ Z.of_nat (16 - n) /\
     extraNonceSizeBytes ss' = Z.of_nat n) /\
  short_nonce sol = Ok (hex_fixed (16 - n) k) /\
  toHex_uint64 (nonce sol) DontAdd 16 = hex_fixed n v +:+ hex_fixed (16 - n) k.
Proof.
  intros Hp Ha Ht Hs Hn Hv Hk Hnon Hex.
  assert (Hpow : 16 ^ Z.of_nat n * 16 ^ Z.of_nat (16 - n) = 2 ^ 64).
  { rewrite <- Z.pow_add_r by lia. by replace (Z.of_nat n + Z.of_nat (16 - n)) with 16 by lia. }
  assert (Hpos : 0 < 16 ^ Z.of_nat (16 - n)) by (apply Z.pow_pos_nonneg; lia).
  destruct (extranonce_text n v k sol Hn Hv Hk Hnon Hex) as [Hshort Hhex].
  unfold set_extranonce, se_lift, se_bind at 1. rewrite Hp. unfold isArray. rewrite Ha.
  rewrite bool_decide_eq_true_2 by done. unfold se_bind at 1. rewrite Ht.
  assert (String.eqb (hex_fixed n v) "" = false) as ->.
  { apply String.eqb_neq. intros E. apply (f_equal String.length) in E. rewrite hex_fixed_length in E.
    cbn in E. lia. }
  unfold processExtranonce, on_session, session, se_lift, se_modify, se_bind. rewrite Hs. cbn [m_session put_session].
  rewrite resize_extranonce by (lia || done). unfold stoull.
  rewrite strto_hex; [|apply hex_fixed_is_hex; nia | intros E; apply (f_equal String.length) in E;
    rewrite hex_fixed_length in E; discriminate].
  destruct (hex_fixed_digits 16 (v * 16 ^ Z.of_nat (16 - n)) ltac:(nia)) as [_ ->].
  rewrite Z.mod_small by (change (16 ^ Z.of_nat 16) with (2 ^ 64); nia).
  assert (v * 16 ^ Z.of_nat (16 - n) <? 2 ^ 64 = true) as -> by (apply Z.ltb_lt; nia).
  split_and!; [done | | done | done].
  eexists. split; [reflexivity|]. cbn. split; [done|].
  unfold size. rewrite hex_fixed_length. apply wrap_id. split; lia.
Qed.

(** ** Response times *)

Definition enqueue_all (ts : list Z) (s : Stratum) : Stratum := foldl (fun s t => enqueue_response_plea t s) s ts.
Fixpoint dequeue_all (ds : list Z) (s : Stratum) : list Z * Stratum :=
  match ds with
  | [] => ([], s)
  | d :: ds' => let '(x, s) := dequeue_response_plea d s in
                let '(xs, s) := dequeue_all ds' s in (x :: xs, s)
  end.

Lemma enqueue_all_cons t ts s : enqueue_all (t :: ts) s = enqueue_all ts (enqueue_response_plea t s).
Proof. exact eq_refl. Qed.

Lemma enqueue_more ts : forall s n, m_response_pleas_count s = Z.of_nat (S n) ->
  m_response_plea_older (enqueue_all ts s) = m_response_plea_older s /\
  m_response_plea_times (enqueue_all ts s) = m_response_plea_times s ++ ts /\
  m_response_pleas_count (enqueue_all ts s) = Z.of_nat (S n + length ts).
Proof.
  induction ts as [|t ts IH]; intros s n Hc.
  - cbn [enqueue_all foldl length]. rewrite app_nil_r, Nat.add_0_r. done.
  - rewrite enqueue_all_cons.
    assert (E : m_response_pleas_count s =? 0 = false) by (apply Z.eqb_neq; lia).
    destruct (IH (enqueue_response_plea t s) (S n)) as (-> & -> & ->);
      unfold enqueue_response_plea; rewrite E; cbn; [lia|].
    rewrite <- app_assoc. split_and!; [done | done | lia].
Qed.

Lemma dequeue_times ds : forall s l, m_response_plea_times s = l ->
  m_response_pleas_count s = Z.of_nat (length l) -> (length ds <= length l)%nat ->
  fst (dequeue_all ds s) = zip_with (fun d r => Z.quot (d - r) 1000000) ds (m_response_plea_older s :: l) /\
  m_response_pleas_count (snd (dequeue_all ds s)) = Z.of_nat (length l - length ds).
Proof.
  induction ds as [|d ds IH]; intros s l Hl Hc Hd; cbn [dequeue_all]; [by rewrite Nat.sub_0_r|].
  destruct l as [|t l]; [cbn in Hd; lia|]. unfold dequeue_response_plea. rewrite Hl.
  cbn [m_response_pleas_count put_older put_times]. rewrite Hc.
  assert (0 <? Z.of_nat (length (t :: l)) = true) as -> by (apply Z.ltb_lt; cbn; lia).
  set (s' := put_count _ _).
  destruct (IH s' l) as [H1 H2]; [done | cbn [length m_response_pleas_count s' put_count]; lia | cbn in Hd; lia |].
  destruct (dequeue_all ds s') as [xs s'']. cbn in *. by rewrite H1.
Qed.

(** Response times are measured from the wrong request: of [n] requests sent one after the
    other, the delay reported with the first answer counts from the first request, but the delay
    of every later answer counts from the request before its own (the second again from the
    first one's), so it is too long by the time between the two. *)
Theorem response_delays (now t : Z) (ts ds : list Z) (s : Stratum) :
  (length ds <= S (length ts))%nat ->
  let s1 := enqueue_all (t :: ts) (clear_response_pleas now s) in
  fst (dequeue_all ds s1) = zip_with (fun d r => Z.quot (d - r) 1000000) ds (t :: t :: ts) /\
  m_response_pleas_count (snd (dequeue_all ds s1)) = Z.of_nat (S (length ts) - length ds).
Proof.
  intros Hd s1. subst s1. rewrite enqueue_all_cons.
  pose (s0 := enqueue_response_plea t (clear_response_pleas now s)). fold s0.
  assert (H0 : m_response_plea_older s0 = t /\ m_response_plea_times s0 = [t] /\ m_response_pleas_count s0 = 1) by done.
  clearbody s0. destruct H0 as (Ho & Ht & Hc).
  destruct (enqueue_more ts s0 0 Hc) as (H1 & H2 & H3).
  destruct (dequeue_times ds (enqueue_all ts s0) (t :: ts)) as [H4 H5]; [by rewrite H2, Ht | by rewrite H3 | done |].
  by rewrite H4, H5, H1, Ho.
Qed.

(** ** Attempts to connect *)

(** C19: A connection attempt is given up at the first tick of the work loop, not after the
    response time-out: while the attempt is younger than the time-out the tick closes the socket
    and does not arm the timer again, and only when the attempt is older does the client keep
    waiting. *)
Theorem attempt_closed_early (now : Z) (s : Stratum) (u : URI) (open : bool) :
  m_conn s = Some u -> m_session s = None -> m_connecting s = true -> m_response_pleas_count s <> 0 ->
  m_socket s = Some SockPlain -> m_nonsecuresocket s = Some open ->
  let '(r, s') := workloop_timer_elapsed now false s in
  r = Ok tt /\
  if Z.quot (now - m_response_plea_older s) 1000000 <=? m_responsetimeout s * 1000
  then m_nonsecuresocket s' = Some false /\ m_workloop_timer s' = None
  else m_nonsecuresocket s' = Some open /\ m_workloop_timer s' = Some 1000.
Proof.
  intros Hc Hss Hcn Hn Hk Ho. unfold workloop_timer_elapsed. cbn zeta. cbn [m_conn put_timer]. rewrite Hc.
  cbn [m_session put_timer]. rewrite Hss. unfold se_bind, gets, se_ret. cbn [m_response_pleas_count put_timer].
  apply Z.eqb_neq in Hn. rewrite Hn. unfold check_pending, gets, isPendingState, se_bind, se_ret. cbn.
  rewrite Hcn. cbn. destruct (_ <=? _); cbn.
  - rewrite Hcn. unfold set_open. cbn. rewrite Hk. done.
  - unfold check_connected, isConnected, isPendingState. cbn. rewrite Hcn. cbn. rewrite andb_false_r. done.
Qed.

(** ** The send queue *)

Definition send_all (js : list J) (s : Stratum) : Stratum := foldl (fun s j => snd (send j s)) s js.
Definition line_of (j : J) : string := json_write j +:+ LF.
Definition lines_of (js : list J) : string := foldl (fun b j => b +:+ line_of j) "" js.

Lemma send_pending j s : m_txPending s = true ->
  send j s = (Ok tt, put_txQueue (m_txQueue s ++ [json_write j]) s).
Proof. intros Hp. unfold send. cbn. by rewrite Hp. Qed.

Lemma send_all_pending js : forall s, m_txPending s = true ->
  send_all js s = put_txQueue (m_txQueue s ++ map json_write js) s.
Proof.
  induction js as [|j js IH]; intros s Hp; cbn [send_all foldl map].
  - rewrite app_nil_r. by destruct s.
  - rewrite send_pending by done. cbn [snd].
    change (foldl _ ?x js) with (send_all js x). rewrite IH by done. cbn. by rewrite <- app_assoc.
Qed.

Lemma foldl_lines js b : foldl (fun b line => b +:+ line +:+ LF) b (map json_write js) =
  foldl (fun b j => b +:+ line_of j) b js.
Proof. revert b. induction js as [|j js IH]; intros b; [done|]. cbn [map foldl]. apply IH. Qed.

(** What a connected client with something queued does. *)
Lemma sendSocketData_writes s : ready s -> isConnected s = true -> m_txQueue s <> [] ->
  sendSocketData s =
    (Ok tt, let b := foldl (fun b line => b +:+ line +:+ LF) (m_sendBuffer s) (m_txQueue s) in
            put_out (out s ++ [EvWrite b]) (put_txQueue [] (put_sendBuffer b s))).
Proof.
  intros Hr Hc Hq. unfold sendSocketData. rewrite Hc, bool_decide_eq_false_2 by done. cbn [negb orb]. cbn zeta.
  set (b := foldl _ _ _). set (s' := put_txQueue [] _).
  destruct (ready_same s s' Hr eq_refl eq_refl eq_refl) as (u & b' & _ & Hs).
  unfold se_bind. rewrite Hs. done.
Qed.

(** The bookkeeping of a completed write. *)
Lemma touch_session now s : (exists u, m_conn s = Some u) -> exists o,
  (if has_session s
   then do mode <- stratum_mode; if mode =? 3 then on_session (set_lastTxStamp now) else se_ret tt
   else se_ret tt)%se s = (Ok tt, put_session o s).
Proof.
  intros [u Hu]. assert (E : put_session (m_session s) s = s) by by destruct s.
  unfold has_session. destruct (m_session s) as [ss|] eqn:Hs; [|exists None; by rewrite E].
  unfold stratum_mode, on_session, session, conn, se_bind, se_ret, se_modify. rewrite Hu.
  destruct (m_stratumMode u =? 3); [rewrite Hs; by eexists | exists (Some ss); by rewrite E].
Qed.

(** C14: Requests leave in order, none is lost, and one write is under way at a time: on an idle
    connected client the first request is written at once; those sent before that write has
    completed are only queued; when it completes they are all written, in the order they were
    sent, each on a line of its own, and when there are none the client is idle again. *)
Theorem requests_in_order (now : Z) (s : Stratum) (j : J) (js : list J) :
  ready s -> isConnected s = true -> m_txPending s = false -> m_txQueue s = [] -> m_sendBuffer s = "" ->
  let s1 := snd (send j s) in
  let s2 := send_all js s1 in
  let '(r, s3) := onSendSocketDataCompleted now EcOk s2 in
  out s1 = out s ++ [EvWrite (line_of j)] /\ out s2 = out s1 /\ r = Ok tt /\
  m_txQueue s3 = [] /\
  if bool_decide (js = []) then out s3 = out s2 /\ m_txPending s3 = false
  else out s3 = out s2 ++ [EvWrite (lines_of js)] /\ m_txPending s3 = true.
Proof.
  intros Hr Hc Hp Hq Hb s1 s2.
  assert (Hs1 : s1 = put_out (out s ++ [EvWrite (line_of j)])
                       (put_txQueue [] (put_sendBuffer (line_of j) (put_txPending true s)))).
  { subst s1. unfold send. cbn zeta. cbn [m_txPending put_txQueue]. rewrite Hp, Hq.
    rewrite sendSocketData_writes by (first [by apply (ready_same s) | exact Hc | done]).
    cbn. by rewrite Hb. }
  assert (Hs2 : s2 = put_txQueue (map json_write js) s1).
  { subst s2. rewrite send_all_pending; rewrite Hs1; done. }
  assert (Hr1 : ready s1) by (by rewrite Hs1; apply (ready_same s)).
  assert (Hc1 : isConnected s1 = true) by (by rewrite Hs1).
  rewrite Hs2. unfold onSendSocketDataCompleted. rewrite bool_decide_eq_true_2 by done. cbn zeta.
  set (s2' := put_sendBuffer "" _). destruct (touch_session now s2') as (o & Ho);
    [by destruct Hr1 as (u & ? & ? & _); exists u |].
  unfold se_bind at 1. rewrite Ho. unfold se_bind, gets. cbn [m_txQueue put_session]. subst s2'.
  cbn [m_txQueue put_sendBuffer put_txQueue].
  destruct js as [|j' js]; cbn [map].
  - rewrite !bool_decide_eq_true_2 by done. cbn. by rewrite Hs1.
  - rewrite !bool_decide_eq_false_2 by done.
    rewrite sendSocketData_writes by (first [by apply (ready_same s1) | exact Hc1 | done]).
    cbn [m_sendBuffer m_txQueue put_sendBuffer put_txQueue put_session].
    change (json_write j' :: map json_write js) with (map json_write (j' :: js)). rewrite foldl_lines.
    by rewrite Hs1.
Qed.

(** ** Connecting and logging in *)

Lemma params_ok l : exists ps, params l = Ok ps.
Proof. destruct (jarray_spec l empty_array view_empty_array) as (ps & Hp & _). by exists ps. Qed.
Lemma object_ok l : exists j, jobject jnull l = Ok j.
Proof. destruct (jobject_spec l jnull (or_introl view_null)) as (j & Hj & _). by exists j. Qed.

Lemma login_request_ok u : exists j, login_request name u = Ok j.
Proof.
  unfold login_request. destruct (protocol_of (m_stratumMode u)) as [[]|];
    try (edestruct params_ok as [ps ->]; cbn [res_bind]; apply object_ok).
  edestruct object_ok as [jp ->]. cbn [res_bind]. apply object_ok.
Qed.

Lemma is_secure_flags m c un r d u : is_secure (set_flags m c un r d u) = is_secure u.
Proof. done. Qed.
Lemma is_secure_select u : is_secure (select_mode u) = is_secure u.
Proof. unfold select_mode. by repeat case_match. Qed.

(** A client on a plain connection, its socket open and nothing under way. *)
Definition plain_open (u : URI) (s : Stratum) : Prop :=
  m_conn s = Some u /\ is_secure u = false /\ m_socket s = Some SockPlain /\
  m_nonsecuresocket s = Some true /\ m_disconnecting s = false.

(** What a successful [connect_handler] leaves on a plain connection. *)
Lemma connect_handler_plain now s u :
  plain_open u s -> m_txPending s = false -> m_sendBuffer s = "" ->
  let u' := select_mode (set_Responds true u) in
  exists j, login_request name u' = Ok j /\
  connect_handler name now EcOk true s =
    (Ok tt, put_out (out s ++ [EvRead; EvWrite (line_of j)]) (put_txQueue [] (put_sendBuffer (line_of j)
       (put_txPending true (enqueue_response_plea now (clear_response_pleas now
          (put_conn (Some u') (put_txQueue [] (put_message "" (put_connected true
             (put_connecting false s))))))))))).
Proof.
  intros (Hc & Hsec & Hk & Ho & Hd) Hp Hb u'. destruct (login_request_ok u') as (j & Hj). exists j. split; [done|].
  assert (Hsec' : is_secure u' = false) by (unfold u'; rewrite is_secure_select; exact Hsec).
  unfold connect_handler, first_request. run. rewrite bool_decide_eq_true_2 by done. run. rewrite Hk, Ho. run.
  cbn [negb]. run. rewrite Hc. run. unfold selected_socket. run.
  change (is_secure (set_Responds true u)) with (is_secure u). rewrite Hsec. run. rewrite Ho. cbn [andb]. run.
  fold u'. rewrite Hj. unfold recvSocketData, selected_socket. run. rewrite Hsec'. run. rewrite Ho. run.
  unfold send. fields. rewrite Hp. cbn [app]. rewrite Hb.
  rewrite sendSocketData_writes; [|by eapply plain_ready | | done].
  - fields. cbn [foldl sdrop]. rewrite <- app_assoc. done.
  - unfold isConnected, isPendingState. fields. by rewrite Hd.
Qed.

(** ** Inputs that end the process

    An exception that no handler of the receiving loop catches leaves [io_service::run] and ends
    the process; so does a null pointer. *)

(** Comparisons of the program's literals. *)
Ltac names := repeat match goal with
  | |- context [String.eqb ?a ?b] =>
      let v := eval vm_compute in (String.eqb a b) in
      match v with true => idtac | false => idtac end; change (String.eqb a b) with v
  end; cbn [andb orb negb].

Lemma process_line_throws now line R e s s' : line <> "" -> json_parse line = Some R ->
  processResponse name now R s = (Throw e, s') -> caught_by_std e = false ->
  process_line name now line s = (Throw e, s').
Proof.
  intros Hl Hp Hr He. unfold process_line. apply String.eqb_neq in Hl. by rewrite Hl, Hp, Hr, He.
Qed.

(** C17: A notification before the login reply ends the process: with a flavour given by the scheme
    (CoreStratum/1.0.0 here) the flavour counts as confirmed as soon as the socket is connected, so
    a mining.set_extranonce that arrives before the reply to the subscription is processed and
    dereferences the null session. *)
Theorem notification_before_login (t0 t1 : Z) (s : Stratum) (u : URI) (line enonce : string) (R p : J) (i : Z) :
  plain_open u s -> m_txPending s = false -> m_sendBuffer s = "" -> m_session s = None -> Version u = 2 ->
  line <> "" -> json_parse line = Some R -> message R i "mining.set_extranonce" ->
  jhas R "params" = Ok true -> jget R "params" = Ok p -> view p = VArray -> jempty p = false ->
  text_at p 0 = Ok enonce -> enonce <> "" ->
  let '(r0, s1) := connect_handler name t0 EcOk true s in
  r0 = Ok tt /\ process_line name t1 line s1 = (Throw (UndefinedBehaviour "null m_session"), s1).
Proof.
  intros Ho Hp Hb Hss Hv Hl Hj Hm Hhas Hget Ha He Ht Hen.
  destruct (connect_handler_plain t0 s u Ho Hp Hb) as (j & _ & ->). split; [done|].
  set (u' := select_mode (set_Responds true u)). set (s1 := put_out _ _).
  assert (Hu' : m_stratumMode u' = 2 /\ m_stratumModeConfirmed u' = true).
  { unfold u', select_mode. change (Version (set_Responds true u)) with (Version u). by rewrite Hv. }
  assert (H1 : m_conn s1 = Some u' /\ m_session s1 = None) by (unfold s1; rewrite enqueue_puts; done).
  clearbody s1 u'. destruct Hu' as [Hmode Hconf], H1 as [Hc Hs].
  eapply process_line_throws; [done | done | | done].
  rewrite (notification_processed t1 R i _ p u') by done. unfold processNotification. run. rewrite Hc, Hmode. names.
  change (2 =? 3) with false. change (2 =? 2) with true. names.
  unfold set_extranonce, jget_or. run. rewrite Hhas. cbn [res_bind]. rewrite Hget. unfold isArray. rewrite Ha.
  rewrite bool_decide_eq_true_2 by done. run. rewrite Ht. apply String.eqb_neq in Hen. rewrite Hen.
  unfold processExtranonce. run. by rewrite Hs.
Qed.

(** An eth-proxy job with a block number above 0x9660180 ends the process: the check throws a
    pointer, which neither the handler around it nor the one of the receiving loop catches. *)
Theorem oversized_block (now : Z) (s : Stratum) (u : URI) (ss : Session) (line a b c t : string) (R r : J) (n : Z) :
  m_conn s = Some u -> m_stratumMode u = 1 -> m_stratumModeConfirmed u = true ->
  m_session s = Some ss -> subscribed ss = true -> m_newjobprocessed s = false ->
  line <> "" -> json_parse line = Some R -> message R 0 "" ->
  jhas R "result" = Ok true -> jget R "result" = Ok r -> view r = VArray -> jsize r = 4%nat ->
  text_at r 0 = Ok a -> text_at r 1 = Ok b -> text_at r 2 = Ok c -> text_at r 3 = Ok t ->
  stake 2 t = "0x" -> stoull t 16 = Ok n -> 0x9660180 < n < 2 ^ 31 ->
  fst (process_line name now line s) = Throw ThrownPointer.
Proof.
  intros Hc Hmode Hconf Hss Hsub Hnew Hl Hj Hm Hhas Hget Ha Hsz T0 T1 T2 T3 Htk Hn Hr.
  assert (E : exists s', processResponse name now R s = (Throw ThrownPointer, s')).
  { pose proof (message_header R 0 "" Hm) as Hh. destruct Hm as (Ho & _).
    destruct (get_object R "params" Ho) as (p & Hp).
    assert (Hje : jempty r = false) by (unfold jempty; by rewrite Ha, Hsz).
    unfold processResponse. run. rewrite Hh. unfold h_notification at 1. cbn [h_method h_id h_success h_rpc2].
    names. change (0 =? 0) with true. cbn [orb andb]. run. rewrite Hc, Hmode. change (1 =? 1) with true. cbn [andb].
    rewrite Hget. run. unfold isArray. rewrite Ha, bool_decide_eq_true_2 by done. run.
    unfold invalid_message, h_notification. cbn [h_method h_id h_success h_rpc2 res_bind]. names.
    change (0 =? 0) with true. cbn [orb]. rewrite Hp, Hget. cbn [res_bind]. rewrite Hje, andb_false_r. run.
    rewrite Hc, Hconf. unfold processNotification. run. rewrite Hc, Hmode. names. change (1 =? 3) with false. names.
    unfold notify, isSubscribed. rewrite Hss, Hsub, Hnew. cbn [negb orb]. change (1 =? 1) with true. run.
    rewrite Hhas. run. unfold jget_or. rewrite Hhas. cbn [res_bind]. rewrite Hget. run. unfold isArray.
    rewrite Ha, bool_decide_eq_true_2, Hje by done. cbn [andb negb]. run. rewrite T0. run.
    change (1 =? 2) with false. unfold notify_other. run. cbn [Nat.add]. rewrite T0, T1, T2. run.
    change (1 =? 1) with true. rewrite Hsz. cbn [Nat.ltb Nat.leb andb]. rewrite T3. run.
    rewrite Htk. names. eexists. apply run_err. unfold proxy_block. rewrite Hn.
    assert (i32 n = n) as ->.
    { unfold i32. rewrite Z.mod_small by lia. by destruct (Z.ltb_spec n (2 ^ 31)); [|lia]. }
    assert (0x9660180 <? n = true) as -> by (apply Z.ltb_lt; lia). reflexivity. }
  destruct E as [s' E]. by rewrite (process_line_throws now line R ThrownPointer s s').
Qed.

(** ** Disconnecting *)

(** [disconnect] on a plain open socket closes it and goes on to [disconnect_finalize]. *)
Lemma disconnect_plain now s u : plain_open u s ->
  disconnect now s = disconnect_finalize now
    (put_nonsecuresocket (Some false) (put_connected false (put_disconnecting true s))).
Proof.
  intros (Hc & Hsec & Hk & Ho & Hd). unfold disconnect. rewrite Hd. run. rewrite Hk. unfold cancel_socket. run.
  rewrite Hk, Ho. run. rewrite Hk, Ho. run. rewrite Hc, Hsec. run. rewrite Ho. run.
  unfold set_open, se_bind at 1. fields. by rewrite Hk.
Qed.

(** The end of [disconnect_finalize] for a connection that is not tried again. *)
Definition released (now : Z) (sec : option bool) (s : Stratum) : Stratum :=
  put_conn None (put_out (out s ++ [EvDisconnected]) (put_timer None (put_max_id 0 (clear_response_pleas now
    (put_txPending false (put_disconnecting false (put_authpending false (put_session None
      (put_nonsecuresocket None (put_socket None (put_securesocket sec s))))))))))).

Definition closed_secure (s : Stratum) : option bool :=
  match m_securesocket s with Some true => Some false | o => o end.

Lemma finalize_close s :
  match m_securesocket s with Some true => put_securesocket (Some false) s | _ => s end =
  put_securesocket (closed_secure s) s.
Proof. unfold closed_secure. destruct (m_securesocket s) as [[]|] eqn:E; destruct s; cbn in *; by rewrite ?E. Qed.

(** A connection that is confirmed or unrecoverable is released. *)
Lemma finalize_released now s u : m_conn s = Some u ->
  m_unrecoverable u = true \/ m_stratumModeConfirmed u = true ->
  disconnect_finalize now s = (Ok tt, released now (closed_secure s) s).
Proof.
  intros Hc Hu. unfold disconnect_finalize. run. rewrite finalize_close. run.
  assert (Hb : negb (m_unrecoverable u) && negb (m_stratumModeConfirmed u) && m_responds u = false)
    by (by destruct Hu as [-> | ->]; rewrite ?andb_false_r).
  destruct (m_session s) as [ss|] eqn:Hss; run; rewrite Hc; run.
  - change (m_unrecoverable (addDuration _ u)) with (m_unrecoverable u).
    change (m_stratumModeConfirmed (addDuration _ u)) with (m_stratumModeConfirmed u).
    change (m_responds (addDuration _ u)) with (m_responds u). rewrite Hb. run. reflexivity.
  - rewrite Hb. run. reflexivity.
Qed.

(** A message the sanity checks reject asks for a disconnection. *)
Lemma invalid_posts now R h s : read_header R = Ok h -> h_method h <> "" -> invalid_message h R = Ok true ->
  processResponse name now R s = (Ok tt, put_posted (posted s ++ [TDisconnect]) s).
Proof.
  intros Hh Hm Hi. unfold processResponse. run. rewrite Hh. apply String.eqb_neq in Hm. rewrite Hm, andb_false_r. run.
  rewrite Hi. done.
Qed.

(** C18: Two invalid messages in one transmission end the process: each of them posts a
    disconnection; the first one releases the connection, and the second one dereferences the null
    pointer left in its place. *)
Theorem double_disconnect (t0 t1 : Z) (s : Stratum) (u : URI) (R1 R2 : J) (h1 h2 : header_) :
  plain_open u s -> m_stratumModeConfirmed u = true -> posted s = [] ->
  read_header R1 = Ok h1 -> h_method h1 <> "" -> invalid_message h1 R1 = Ok true ->
  read_header R2 = Ok h2 -> h_method h2 <> "" -> invalid_message h2 R2 = Ok true ->
  let '(r1, s1) := processResponse name t0 R1 s in
  let '(r2, s2) := processResponse name t0 R2 s1 in
  let '(r3, s3) := run_posted name t1 s2 in
  r1 = Ok tt /\ r2 = Ok tt /\ r3 = Ok tt /\ out s3 = out s ++ [EvDisconnected] /\ m_conn s3 = None /\
  fst (run_posted name t1 s3) = Throw (UndefinedBehaviour "null m_conn").
Proof.
  intros Ho Hconf Hp Hh1 Hm1 Hi1 Hh2 Hm2 Hi2.
  rewrite (invalid_posts t0 R1 h1), (invalid_posts t0 R2 h2) by done. fields. rewrite Hp. cbn [app].
  unfold run_posted at 1. fields. cbn [run_task].
  rewrite (disconnect_plain t1 _ u); [|exact Ho].
  rewrite (finalize_released t1 _ u); [|by destruct Ho as (? & _) | by right].
  split_and!; [done | done | done | done | done |].
  unfold run_posted, released. fields. cbn [run_task]. unfold disconnect. fields. run.
  unfold disconnect_finalize. run. fields. destruct (closed_secure _) as [[]|]; run; done.
Qed.

(** ** Detection of the stratum flavour *)

(** A client about to try endpoint [e] for a connection whose flavour is not known. *)
Definition probing (u : URI) (e : string) (s : Stratum) : Prop :=
  posted s = [TStartConnect] /\ m_conn s = Some u /\ is_secure u = false /\ Version u = 999 /\
  m_stratumModeConfirmed u = false /\ m_unrecoverable u = false /\ m_connecting s = false /\
  m_disconnecting s = false /\ (exists l, m_endpoints s = e :: l) /\ m_socket s = None /\
  m_session s = None /\ m_txPending s = false /\ m_sendBuffer s = "".

(** One attempt: the socket connects, the login request is written, the pool answers [R], the
    posted handler runs. *)
Definition login_attempt (t : Z) (R : J) (s : Stratum) : Stratum :=
  let s := snd (run_posted name t s) in
  let s := snd (connect_handler name t EcOk true s) in
  let s := snd (onSendSocketDataCompleted t EcOk s) in
  let s := snd (processResponse name t R s) in
  snd (run_posted name t s).

Definition tried (u : URI) : URI := select_mode (set_Responds true u).

(** The reply of a pool that refuses the login. *)
Definition refusal (R : J) : Prop :=
  view R = VObject /\
  read_header R = Ok {| h_rpc2 := false; h_id := 1; h_success := false; h_method := "" |}.

Lemma start_connect_plain t u e s : probing u e s ->
  exists s', run_posted name t s = (Ok tt, s') /\ plain_open u s' /\ posted s' = [] /\
    out s' = out s ++ [EvConnect e] /\ m_endpoints s' = m_endpoints s /\ m_session s' = None /\
    m_txPending s' = false /\ m_sendBuffer s' = "".
Proof.
  intros (Hp & Hc & Hsec & _ & _ & _ & Hcn & Hd & (l & He) & Hk & Hss & Htx & Hb).
  unfold run_posted. rewrite Hp. cbn [run_task]. unfold start_connect. fields. rewrite Hcn. run. rewrite He. run.
  rewrite Hk. unfold init_socket. run. rewrite Hc. rewrite Hsec. run. rewrite Hc. run.
  rewrite Hsec. run. unfold set_open, se_bind. fields. eexists. split; [reflexivity|].
  unfold plain_open. fields. by split_and!.
Qed.

Lemma jget_or_object R k d : view R = VObject -> exists x, jget_or R k d = Ok x.
Proof.
  intros Ho. unfold jget_or. destruct (has_object R k Ho) as [[] ->]; cbn [res_bind]; [by apply get_object | by eexists].
Qed.

(** A refused login while the flavour is not confirmed asks for a disconnection. *)
Lemma refusal_posts t R s u : refusal R -> m_conn s = Some u -> m_stratumModeConfirmed u = false ->
  exists d s', dequeue_response_plea t s = (d, s') /\
    processResponse name t R s = (Ok tt, put_posted (posted s' ++ [TDisconnect]) s').
Proof.
  intros [Ho Hh] Hc Hconf. destruct (dequeue_response_plea t s) as [d s'] eqn:Hd. exists d, s'. split; [done|].
  assert (Hc' : m_conn s' = Some u).
  { revert Hd. unfold dequeue_response_plea. destruct (m_response_plea_times s); case_match; intros [= _ <-]; done. }
  destruct (jget_or_object R "result" jnull Ho) as (r & Hr).
  unfold processResponse. run. rewrite Hh. unfold h_notification, invalid_message. cbn [h_method h_id h_rpc2 h_success]. names.
  change (1 =? 0) with false. cbn [orb andb]. run. unfold h_notification. cbn [h_method h_id]. names.
  change (1 =? 0) with false. cbn [orb]. run. unfold processReply, first_reply, solution_reply, stop, go. run. rewrite Hr.
  change (1 =? 1) with true. run. rewrite Hd. run. rewrite Hc'. run.
  rewrite Hconf. cbn [negb]. run. done.
Qed.

Lemma write_done t s : m_session s = None -> m_txQueue s = [] ->
  onSendSocketDataCompleted t EcOk s = (Ok tt, put_txPending false (put_sendBuffer "" s)).
Proof.
  intros Hs Hq. unfold onSendSocketDataCompleted, has_session. rewrite bool_decide_eq_true_2 by done. fields.
  rewrite Hs. run. rewrite Hq. rewrite bool_decide_eq_true_2 by done. done.
Qed.

(** A client whose login request has been written. *)
Definition awaiting (u : URI) (e : string) (s : Stratum) : Prop :=
  plain_open u s /\ posted s = [] /\ (exists l, m_endpoints s = e :: l) /\ m_session s = None /\
  m_connecting s = false /\ m_txPending s = false /\ m_sendBuffer s = "".

Lemma attempt_sends t u e s : probing u e s -> exists j s',
  login_request name (tried u) = Ok j /\ awaiting (tried u) e s' /\
  out s' = out s ++ [EvConnect e; EvRead; EvWrite (line_of j)] /\
  snd (onSendSocketDataCompleted t EcOk (snd (connect_handler name t EcOk true
    (snd (run_posted name t s))))) = s'.
Proof.
  intros Hpr. destruct (start_connect_plain t u e s Hpr) as (s1 & -> & Ho1 & Hp1 & Hout1 & He1 & Hss1 & Htx1 & Hb1).
  destruct Hpr as (_ & _ & Hsec & _ & _ & _ & _ & _ & (l & He) & _).
  destruct (connect_handler_plain t s1 u Ho1 Htx1 Hb1) as (j & Hj & H2). fold (tried u) in Hj, H2.
  exists j. eexists. split; [done|]. cbn [snd]. rewrite H2, enqueue_puts. clear H2. cbn [snd].
  rewrite write_done by (fields; done). cbn [snd]. split_and!; [| |reflexivity].
  - destruct Ho1 as (_ & _ & Hk & Ho & Hd). unfold awaiting, plain_open. fields. rewrite He1, He, Hss1, Hk, Ho, Hd, Hp1.
    split_and!; try done; [unfold tried; by rewrite is_secure_select | by exists l].
  - fields. by rewrite Hout1, <- app_assoc.
Qed.

(** What [disconnect_finalize] does first. *)
Definition shut (sec : option bool) (s : Stratum) : Stratum :=
  put_txPending false (put_disconnecting false (put_authpending false (put_session None
    (put_nonsecuresocket None (put_socket None (put_securesocket sec s)))))).

(** The end of [disconnect_finalize] while the flavour is being detected: the next one is tried, or
    the connection is given up. *)
Lemma finalize_probing now s u : m_conn s = Some u -> m_session s = None ->
  m_unrecoverable u = false -> m_stratumModeConfirmed u = false -> m_responds u = true ->
  disconnect_finalize now s = (Ok tt,
    if 0 <? m_stratumMode u
    then put_posted (posted s ++ [TStartConnect]) (put_conn (Some (SetStratumMode (m_stratumMode u - 1) u))
           (shut (closed_secure s) s))
    else released now (closed_secure s) s).
Proof.
  intros Hc Hss Hun Hcf Hr. unfold disconnect_finalize. run. rewrite finalize_close. run. rewrite Hss. run.
  rewrite Hc. run. rewrite Hun, Hcf, Hr. cbn [negb andb]. destruct (0 <? m_stratumMode u); run; rewrite Hc; run; done.
Qed.

Lemma dequeue_keeps t s d s' : dequeue_response_plea t s = (d, s') ->
  exists n o l, s' = put_count n (put_older o (put_times l s)).
Proof.
  unfold dequeue_response_plea. destruct (m_response_plea_times s) as [|x l] eqn:E.
  - case_match; intros [= _ <-]; [exists (m_response_pleas_count s - 1) | exists (m_response_pleas_count s)];
      exists (m_response_plea_older s), []; rewrite <- E; by destruct s.
  - case_match; intros [= _ <-]; fields; [exists (m_response_pleas_count s - 1) | exists (m_response_pleas_count s)];
      exists x, l; by destruct s.
Qed.

Lemma awaiting_refused t R u e s : awaiting u e s -> refusal R ->
  m_unrecoverable u = false -> m_stratumModeConfirmed u = false -> m_responds u = true -> Version u = 999 ->
  let s' := snd (run_posted name t (snd (processResponse name t R s))) in
  out s' = out s ++ (if 0 <? m_stratumMode u then [] else [EvDisconnected]) /\
  if 0 <? m_stratumMode u then probing (SetStratumMode (m_stratumMode u - 1) u) e s'
  else m_conn s' = None /\ posted s' = [].
Proof.
  intros ((Hc & Hsec & Hk & Ho & Hd) & Hp & (l & He) & Hss & Hcn & Htx & Hb) HR Hun Hcf Hr Hv s'. subst s'.
  destruct (refusal_posts t R s u HR Hc Hcf) as (d & s1 & Hdq & ->).
  destruct (dequeue_keeps t s d s1 Hdq) as (n & o & q & ->). clear Hdq. cbn [snd]. fields. rewrite Hp. cbn [app].
  unfold run_posted. fields. cbn [run_task].
  rewrite (disconnect_plain t _ u) by (unfold plain_open; fields; done).
  rewrite (finalize_probing t _ u) by (fields; done). cbn [snd].
  destruct (0 <? m_stratumMode u) eqn:E; unfold shut, released; fields; rewrite ?app_nil_r; (split; [done|]); [|done].
  unfold probing. fields. split_and!; try done. by exists l.
Qed.

(** The members the detection does not change. *)
Definition same_target (u v : URI) : Prop :=
  m_user u = m_user v /\ m_worker u = m_worker v /\ m_password u = m_password v /\
  m_path u = m_path v /\ m_host u = m_host v /\ m_port u = m_port v.

Lemma login_request_same u v : same_target u v -> m_stratumMode u = m_stratumMode v ->
  login_request name u = login_request name v.
Proof. intros (H1 & H2 & H3 & H4 & H5 & H6) Hm. unfold login_request. by rewrite Hm, H1, H2, H3, H4, H5, H6. Qed.

(** A connection in the course of its detection, [m] being the flavour tried next. *)
Definition detecting (u0 u : URI) (m : Z) : Prop :=
  same_target u u0 /\ m_stratumMode (tried u) = m /\ same_target (tried u) u0 /\
  m_stratumModeConfirmed (tried u) = false /\ m_unrecoverable (tried u) = false /\
  m_responds (tried u) = true /\ Version (tried u) = 999.

Lemma detecting_first u e s : probing u e s -> m_stratumMode u = 999 -> detecting u u 3.
Proof.
  intros (_ & _ & _ & Hv & Hcf & Hun & _) Hm. unfold detecting, tried, select_mode.
  change (Version (set_Responds true u)) with (Version u).
  change (m_stratumModeConfirmed (set_Responds true u)) with (m_stratumModeConfirmed u).
  change (m_stratumMode (set_Responds true u)) with (m_stratumMode u). rewrite Hv, Hcf, Hm.
  change (999 <? 999) with false. change (999 =? 999) with true. cbn [negb andb].
  unfold same_target, SetStratumMode_confirmed, set_Responds. cbn. by rewrite Hun.
Qed.

Lemma detecting_next u0 u e s m : probing (SetStratumMode m (tried u)) e s -> detecting u0 u (m + 1) ->
  0 <= m < 3 -> detecting u0 (SetStratumMode m (tried u)) m.
Proof.
  intros (_ & _ & _ & Hv & Hcf & Hun & _) (_ & _ & Hs & _ & _ & _ & _) Hm.
  set (v := tried u) in *. clearbody v. unfold detecting, tried, select_mode.
  change (Version (set_Responds true (SetStratumMode m v))) with (Version (SetStratumMode m v)).
  change (m_stratumModeConfirmed (set_Responds true (SetStratumMode m v))) with (m_stratumModeConfirmed (SetStratumMode m v)).
  rewrite Hv, Hcf. change (999 <? 999) with false. cbn [negb andb].
  assert (Hu : u16 m = m) by (apply wrap_id; split; lia).
  change (m_stratumMode (set_Responds true (SetStratumMode m v))) with (u16 m). rewrite Hu.
  destruct (Z.eqb_spec m 999); [lia|]. split_and!; done.
Qed.

Lemma attempt_refused t R u0 u m e s : probing u e s -> detecting u0 u m -> refusal R -> 0 <= m <= 3 ->
  let s' := login_attempt t R s in
  exists j, login_request name (SetStratumMode m u0) = Ok j /\
  out s' = out s ++ [EvConnect e; EvRead; EvWrite (line_of j)] ++ (if 0 <? m then [] else [EvDisconnected]) /\
  if 0 <? m then probing (SetStratumMode (m - 1) (tried u)) e s' else m_conn s' = None /\ posted s' = [].
Proof.
  intros Hpr (_ & Hm & Hs & Hcf & Hun & Hr & Hv) HR Hm3 s'.
  destruct (attempt_sends t u e s Hpr) as (j & s1 & Hj & Haw & Hout & E).
  destruct (awaiting_refused t R (tried u) e s1 Haw HR Hun Hcf Hr Hv) as [Hout' Hnext]. rewrite Hm in *.
  exists j. subst s'. unfold login_attempt. rewrite E. split_and!; [| |done].
  - rewrite <- Hj. symmetry. apply login_request_same; [exact Hs|]. rewrite Hm. symmetry. apply wrap_id. split; lia.
  - by rewrite Hout', Hout, <- app_assoc.
Qed.

(** C12: Detection of the stratum flavour: a pool reached through a plain "stratum" connection whose
    flavour is not known, and which refuses every login, is sent exactly the four login requests -
    CoreStratum/2.0.0, CoreStratum/1.0.0, eth-proxy, stratum, in this order, each over a new
    connection to the same endpoint - after which the connection is given up and the manager is told
    once; the detection ends. *)
Theorem flavour_detection (u : URI) (e : string) (s : Stratum) (t3 t2 t1 t0 : Z) (R3 R2 R1 R0 : J) :
  probing u e s -> m_stratumMode u = 999 -> refusal R3 -> refusal R2 -> refusal R1 -> refusal R0 ->
  exists j3 j2 j1 j0,
    login_request name (SetStratumMode (protocol_value CORESTRATUM2) u) = Ok j3 /\
    login_request name (SetStratumMode (protocol_value CORESTRATUM) u) = Ok j2 /\
    login_request name (SetStratumMode (protocol_value ETHPROXY) u) = Ok j1 /\
    login_request name (SetStratumMode (protocol_value STRATUM) u) = Ok j0 /\
    let attempt j := [EvConnect e; EvRead; EvWrite (line_of j)] in
    let s' := login_attempt t0 R0 (login_attempt t1 R1 (login_attempt t2 R2 (login_attempt t3 R3 s))) in
    out s' = out s ++ attempt j3 ++ attempt j2 ++ attempt j1 ++ attempt j0 ++ [EvDisconnected] /\
    m_conn s' = None /\ posted s' = [].
Proof.
  intros Hp3 Hm H3 H2 H1 H0. pose proof (detecting_first u e s Hp3 Hm) as D3.
  destruct (attempt_refused t3 R3 u u 3 e s Hp3 D3 H3 ltac:(lia)) as (j3 & Hj3 & O3 & Hp2). cbn [Z.ltb] in O3, Hp2.
  change (0 <? 3) with true in O3, Hp2. change (3 - 1) with 2 in Hp2.
  set (s3 := login_attempt t3 R3 s) in *. set (u2 := SetStratumMode 2 (tried u)) in *.
  pose proof (detecting_next u u e s3 2 Hp2 D3 ltac:(lia)) as D2. fold u2 in D2.
  destruct (attempt_refused t2 R2 u u2 2 e s3 Hp2 D2 H2 ltac:(lia)) as (j2 & Hj2 & O2 & Hp1).
  change (0 <? 2) with true in O2, Hp1. change (2 - 1) with 1 in Hp1.
  set (s2 := login_attempt t2 R2 s3) in *. set (u1 := SetStratumMode 1 (tried u2)) in *.
  pose proof (detecting_next u u2 e s2 1 Hp1 D2 ltac:(lia)) as D1. fold u1 in D1.
  destruct (attempt_refused t1 R1 u u1 1 e s2 Hp1 D1 H1 ltac:(lia)) as (j1 & Hj1 & O1 & Hp0).
  change (0 <? 1) with true in O1, Hp0. change (1 - 1) with 0 in Hp0.
  set (s1 := login_attempt t1 R1 s2) in *. set (u0 := SetStratumMode 0 (tried u1)) in *.
  pose proof (detecting_next u u1 e s1 0 Hp0 D1 ltac:(lia)) as D0. fold u0 in D0.
  destruct (attempt_refused t0 R0 u u0 0 e s1 Hp0 D0 H0 ltac:(lia)) as (j0 & Hj0 & O0 & Hc & Hps).
  exists j3, j2, j1, j0. cbn zeta. split_and!; try done.
  rewrite O0, O1, O2, O3. cbn [app]. by rewrite <- !app_assoc.
Qed.

(** ** Jobs *)

(** The parameters of a job notification of the stratum flavour. *)
Definition job_params (p : J) (name_ : string) (hd sd bd : hash) : Prop :=
  view p = VArray /\ jsize p = 4%nat /\ text_at p 0 = Ok name_ /\
  text_at p 1 = Ok (hash_hex hd Add) /\ text_at p 2 = Ok (hash_hex sd Add) /\
  text_at p 3 = Ok (hash_hex bd Add).

Lemma hash_hex_length h p : hash_ok 32 h ->
  String.length (hash_hex h p) = match p with Add => 66%nat | DontAdd => 64%nat end.
Proof.
  intros [Hl Hb]. unfold hash_hex. rewrite toHex_2. pose proof (toHex_rest_length h Hb) as Hr. rewrite Hl in Hr.
  destruct p; cbn [with_prefix]; [exact Hr|]. rewrite string_length_app, Hr. done.
Qed.

(** The work package a job announcement makes of the current one. *)
Definition announced (jb : string) (hd sd bd : hash) (cur : WorkPackage) : WorkPackage :=
  set_boundary bd (set_header hd (set_seed sd (set_block (-1) (set_job jb cur)))).

Lemma job_taken (now : Z) (s : Stratum) (u : URI) (ss : Session) (R p : J) (i : Z)
    (jb : string) (hd sd bd : hash) :
  m_conn s = Some u -> m_stratumMode u = 0 -> m_stratumModeConfirmed u = true ->
  m_session s = Some ss -> subscribed ss = true ->
  message R i "mining.notify" -> jhas R "params" = Ok true -> jget R "params" = Ok p ->
  job_params p jb hd sd bd -> hash_ok 32 hd -> hash_ok 32 sd -> hash_ok 32 bd ->
  processResponse name now R s =
    (Ok tt, if m_newjobprocessed s then s
            else put_newjobprocessed true (put_current_timestamp now (put_current
                   (announced jb hd sd bd (m_current s)) s))).
Proof.
  intros Hc Hmode Hconf Hss Hsub Hm Hhas Hget (Ha & Hsz & T0 & T1 & T2 & T3) Hh Hs Hb.
  assert (Hje : jempty p = false) by (unfold jempty; by rewrite Ha, Hsz).
  rewrite (notification_processed now R i _ p u) by done. unfold processNotification. run. rewrite Hc, Hmode. names.
  change (0 =? 3) with false. names. unfold notify, isSubscribed. rewrite Hss, Hsub. cbn [negb orb].
  destruct (m_newjobprocessed s); [done|]. change (0 =? 1) with false. run. unfold jget_or. rewrite Hhas. run.
  rewrite Hget. run. unfold isArray. rewrite Ha, bool_decide_eq_true_2, Hje by done. cbn [andb negb]. run.
  rewrite T0. run. change (0 =? 2) with false. unfold notify_other. run. cbn [Nat.add]. rewrite T1, T2, T3. run.
  change (0 =? 1) with false. cbn [andb]. run.
  unfold share_target. rewrite hash_hex_length by done. change (66 <? 66)%nat with false. run.
  rewrite !h256_hex by done. run. unfold new_job. destruct s; reflexivity.
Qed.

(** The work package a CoreStratum announcement makes: the job's name, seed and header, with the boundary, start nonce and
    extranonce size of the session. *)
Definition granted (ss : Session) (jb : string) (sd hd : hash) (cur : WorkPackage) : WorkPackage :=
  set_block (-1) (set_exSizeBytes (u16 (extraNonceSizeBytes ss)) (set_startNonce (extraNonce ss)
    (set_boundary (nextWorkBoundary ss) (set_header hd (set_seed sd (set_job jb cur)))))).

(** The parameters of the announcement: name, seed, header. *)
Definition core_params (p : J) (jb : string) (sd hd : hash) : Prop :=
  view p = VArray /\ (0 < jsize p)%nat /\ text_at p 0 = Ok jb /\
  text_at p 1 = Ok (hash_hex sd Add) /\ text_at p 2 = Ok (hash_hex hd Add).

Lemma hash_hex_nonempty h : hash_ok 32 h -> String.eqb (hash_hex h Add) "" = false.
Proof.
  intros Hh. apply String.eqb_neq. intros E. pose proof (hash_hex_length h Add Hh) as Hl. rewrite E in Hl. done.
Qed.

Lemma core_job_taken (now : Z) (s : Stratum) (u : URI) (ss : Session) (R p : J) (i : Z)
    (jb : string) (sd hd : hash) :
  m_conn s = Some u -> m_stratumMode u = 2 -> m_stratumModeConfirmed u = true ->
  m_session s = Some ss -> subscribed ss = true -> m_newjobprocessed s = false ->
  message R i "mining.notify" -> jhas R "params" = Ok true -> jget R "params" = Ok p ->
  core_params p jb sd hd -> hash_ok 32 sd -> hash_ok 32 hd ->
  processResponse name now R s =
    (Ok tt, put_newjobprocessed true (put_current_timestamp now (put_current (granted ss jb sd hd (m_current s)) s))).
Proof.
  intros Hc Hmode Hconf Hss Hsub Hn Hm Hhas Hget (Ha & Hsz & T0 & T1 & T2) Hs Hh.
  assert (Hje : jempty p = false).
  { unfold jempty. rewrite Ha. apply Nat.eqb_neq. lia. }
  rewrite (notification_processed now R i _ p u) by done. unfold processNotification.
  run. rewrite Hc, Hmode. names.
  change (2 =? 3) with false. names. unfold notify, isSubscribed. rewrite Hss, Hsub, Hn. cbn [negb orb].
  change (2 =? 1) with false. run. unfold jget_or. rewrite Hhas. run.
  rewrite Hget. run. unfold isArray. rewrite Ha, bool_decide_eq_true_2, Hje by done. cbn [andb negb]. run.
  rewrite T0. run. change (2 =? 2) with true. unfold notify_corestratum. run. rewrite T1, T2. run.
  rewrite !hash_hex_nonempty by done. cbn [orb]. run. rewrite !h256_hex by done. run. rewrite Hss. run.
  unfold new_job. destruct s; reflexivity.
Qed.

(** The work package an announcement of CoreStratum/2.0.0 makes, and its parameters: name, block number
    in hexadecimal, header without prefix, and a flag that is not read. *)
Definition granted2 (ss : Session) (jb : string) (b : Z) (hd : hash) (cur : WorkPackage) : WorkPackage :=
  set_exSizeBytes (u16 (extraNonceSizeBytes ss)) (set_startNonce (extraNonce ss)
    (set_algo (ss_algo ss) (set_epoch (i32 (ss_epoch ss))
      (set_boundary (nextWorkBoundary ss) (set_header hd (set_block (i32 b) (set_job jb cur))))))).
Definition core2_params (p : J) (jb : string) (b : Z) (hd : hash) : Prop :=
  view p = VArray /\ jsize p = 4%nat /\ text_at p 0 = Ok jb /\
  (exists t, text_at p 1 = Ok t /\ stoull t 16 = Ok b) /\ text_at p 2 = Ok (hash_hex hd DontAdd).

Lemma h256_plain h : hash_ok 32 h -> h256 ("0x" +:+ padLeft (hash_hex h DontAdd) 64 "0") = Ok h.
Proof.
  intros Hh. assert (padLeft (hash_hex h DontAdd) 64 "0" = hash_hex h DontAdd) as ->.
  { unfold padLeft. rewrite hash_hex_length by done. reflexivity. }
  change ("0x" +:+ hash_hex h DontAdd) with (hash_hex h Add). by apply h256_hex.
Qed.

Lemma core2_job_taken (now : Z) (s : Stratum) (u : URI) (ss : Session) (R p : J) (i : Z)
    (jb : string) (b : Z) (hd : hash) :
  m_conn s = Some u -> m_stratumMode u = 3 -> m_stratumModeConfirmed u = true ->
  m_session s = Some ss -> firstMiningSet ss = true -> hash_ok 32 (nextWorkBoundary ss) ->
  message R i "mining.notify" -> jhas R "params" = Ok true -> jget R "params" = Ok p ->
  core2_params p jb b hd -> hash_ok 32 hd ->
  processResponse name now R s =
    (Ok tt, put_newjobprocessed true (put_current_timestamp now (put_current (granted2 ss jb b hd (m_current s)) s))).
Proof.
  intros Hc Hmode Hconf Hss Hset Hbd Hm Hhas Hget (Ha & Hsz & T0 & (t & T1 & Tb) & T2) Hh.
  assert (Hje : jempty p = false) by (unfold jempty; by rewrite Ha, Hsz).
  rewrite (notification_processed now R i _ p u) by done. unfold processNotification.
  run. rewrite Hc, Hmode. names. change (3 =? 3) with true. names. unfold notify2. rewrite Hss, Hset. cbn [negb].
  run. rewrite Hhas. run. rewrite Hget. run. unfold isArray. rewrite Ha, bool_decide_eq_true_2, Hsz by done.
  cbn [Nat.eqb negb orb]. run. rewrite T0. run. rewrite T1. cbn [res_bind]. rewrite Tb. run. rewrite T2. run.
  rewrite h256_plain by done. run. rewrite h256_hex by done. run. unfold new_job. destruct s; reflexivity.
Qed.

(** A further announcement in a transmission that has brought a job. *)
Lemma later_job_ignored (now : Z) (s : Stratum) (u : URI) (R p : J) (i : Z) :
  m_conn s = Some u -> m_stratumMode u <> 3 -> m_stratumModeConfirmed u = true -> m_newjobprocessed s = true ->
  message R i "mining.notify" -> jget R "params" = Ok p -> jempty p = false ->
  processResponse name now R s = (Ok tt, s).
Proof.
  intros Hc Hmode Hconf Hn Hm Hget Hje. rewrite (notification_processed now R i _ p u) by done.
  unfold processNotification. run. rewrite Hc. apply Z.eqb_neq in Hmode. rewrite Hmode. names. unfold notify.
  by rewrite Hn, orb_true_r.
Qed.

(** C15: Which job of a transmission is taken depends on the flavour.  In the flavours below
    CoreStratum/2.0.0 the first one, not the last: once a mining.notify has marked the transmission,
    any further one leaves the state unchanged.  An unmarked one sets the current job to exactly what
    is announced: in the stratum flavour the name, header, seed and boundary, with no block number; in
    CoreStratum/1.0.0 the name, seed and header, with the boundary and the extranonce of the session.
    In CoreStratum/2.0.0 the mark is not looked at: every mining.notify is taken - so the last one of
    a transmission is the one that is dispatched. *)
Theorem first_job_taken (now : Z) (s : Stratum) (u : URI) (ss : Session) (R p : J) (i : Z)
    (jb : string) (hd : hash) :
  m_conn s = Some u -> m_stratumModeConfirmed u = true -> m_session s = Some ss -> subscribed ss = true ->
  message R i "mining.notify" -> jhas R "params" = Ok true -> jget R "params" = Ok p -> jempty p = false ->
  hash_ok 32 hd ->
  let take w := put_newjobprocessed true (put_current_timestamp now (put_current w s)) in
  (m_stratumMode u <> 3 -> m_newjobprocessed s = true -> processResponse name now R s = (Ok tt, s)) /\
  (m_stratumMode u = 0 -> m_newjobprocessed s = false ->
   forall sd bd, job_params p jb hd sd bd -> hash_ok 32 sd -> hash_ok 32 bd ->
     processResponse name now R s =
       (Ok tt, take (set_boundary bd (set_header hd (set_seed sd (set_block (-1) (set_job jb (m_current s)))))))) /\
  (m_stratumMode u = 2 -> m_newjobprocessed s = false ->
   forall sd, core_params p jb sd hd -> hash_ok 32 sd ->
     processResponse name now R s = (Ok tt, take (granted ss jb sd hd (m_current s)))) /\
  (m_stratumMode u = 3 -> firstMiningSet ss = true -> hash_ok 32 (nextWorkBoundary ss) ->
   forall b, core2_params p jb b hd ->
     processResponse name now R s = (Ok tt, take (granted2 ss jb b hd (m_current s)))).
Proof.
  intros Hc Hconf Hss Hsub Hm Hhas Hget Hje Hh take. split_and!.
  - intros Hmode Hn. by apply (later_job_ignored now s u R p i).
  - intros Hmode Hn sd bd Hp Hs Hb.
    rewrite (job_taken now s u ss R p i jb hd sd bd) by done. by rewrite Hn.
  - intros Hmode Hn sd Hp Hs. by apply (core_job_taken now s u ss R p i jb sd hd).
  - intros Hmode Hset Hbd b Hp. by apply (core2_job_taken now s u ss R p i jb b hd).
Qed.

(** ** Submissions *)

Lemma submit_request_ok u w id sol : 0 <= exSizeBytes (work sol) <= 16 ->
  exists j, submit_request u w id sol = Ok j.
Proof.
  intros He. assert (Hs : exists t, short_nonce sol = Ok t).
  { unfold short_nonce, substr. cbn zeta. case_match eqn:E; [|by eexists]. apply Nat.ltb_lt in E. exfalso. revert E.
    unfold toHex_uint64, with_prefix, setw. rewrite string_length_app, sfill_length. lia. }
  destruct Hs as [t Ht]. unfold submit_request. cbn zeta. destruct (protocol_of (m_stratumMode u)) as [[]|];
    rewrite ?Ht; cbn [res_bind]; edestruct params_ok as [ps ->]; cbn [res_bind]; apply object_ok.
Qed.

Lemma submit_writes t s u ss sol :
  ready s -> isConnected s = true -> m_txPending s = false -> m_txQueue s = [] -> m_sendBuffer s = "" ->
  m_conn s = Some u -> m_session s = Some ss -> authorized ss = true ->
  m_response_pleas_count s = 0 -> m_response_plea_times s = [] ->
  0 <= midx sol -> 40 + midx sol < 2 ^ 32 -> 0 <= exSizeBytes (work sol) <= 16 ->
  exists j s1, submitSolution t sol s = (Ok tt, s1) /\
    submit_request u (workerId ss) (40 + midx sol) sol = Ok j /\
    out s1 = out s ++ [EvWrite (line_of j)] /\ m_conn s1 = Some u /\ m_response_pleas_count s1 = 1 /\
    m_response_plea_times s1 = [t] /\ m_response_plea_older s1 = t /\
    m_solution_submitted_max_id s1 = Z.max (m_solution_submitted_max_id s) (40 + midx sol) /\
    ready s1 /\ isConnected s1 = true /\ m_message s1 = m_message s.
Proof.
  intros Hr Hcn Htx Hq Hb Hc Hss Hau Hn Htm Hm0 Hm1 Hex.
  destruct (submit_request_ok u (workerId ss) (40 + midx sol) sol Hex) as (j & Hj). exists j.
  assert (Hid : u32 (40 + midx sol) = 40 + midx sol) by (apply wrap_id; split; lia).
  unfold submitSolution. rewrite Hss, Hau. cbn [negb]. run. rewrite Hc. run. rewrite Hid, Hj. run.
  rewrite Hn, Htm. change (0 =? 0) with true. cbn [app]. unfold send. fields. rewrite Htx, Hq.
  rewrite sendSocketData_writes; [|by apply (ready_same s) | exact Hcn | done]. fields. rewrite Hb. cbn [foldl app].
  eexists. split; [reflexivity|]. fields. split_and!; try done. by apply (ready_same s).
Qed.

Lemma dequeue_one now s t : m_response_plea_times s = [t] -> m_response_pleas_count s = 1 ->
  m_response_plea_older s = t ->
  dequeue_response_plea now s = (Z.quot (now - t) 1000000, put_count 0 (put_older t (put_times [] s))).
Proof. intros Ht Hc Ho. unfold dequeue_response_plea. rewrite Ht, Ho. fields. by rewrite Hc. Qed.

(** The reply to a submission, a boolean. *)
Lemma verdict_reported t s u t1 i (R r : J) b :
  m_conn s = Some u -> 0 <= m_stratumMode u < 3 -> m_response_pleas_count s = 1 ->
  m_response_plea_times s = [t1] -> m_response_plea_older s = t1 ->
  40 <= i < 2 ^ 32 -> i <= m_solution_submitted_max_id s ->
  message R i "" -> jget_or R "result" jnull = Ok r -> view r = VBool b ->
  processResponse name t R s = (Ok tt, put_out (out s ++
    [if b then EvAccepted (Z.quot (t - t1) 1000000) (i - 40) false
     else EvRejected (Z.quot (t - t1) 1000000) (i - 40)]) (put_count 0 (put_older t1 (put_times [] s)))).
Proof.
  intros Hc Hmode Hn Ht Ho Hi Hmax HR Hres Hv. pose proof (message_header R _ _ HR) as Hh.
  assert (E : forall k, k < 40 -> i =? k = false) by (intros; apply Z.eqb_neq; lia).
  unfold processResponse. run. rewrite Hh. unfold invalid_message, h_notification.
  cbn [h_method h_id h_rpc2 h_success]. names. rewrite !(E 0) by lia. cbn [orb andb]. run.
  unfold processReply, first_reply, solution_reply, stop, go. run. rewrite Hres. rewrite (E 1), (E 2), (E 3) by lia. run.
  assert ((40 <=? i) && (i <=? m_solution_submitted_max_id s) = true) as ->
    by (apply andb_true_iff; rewrite !Z.leb_le; lia). run. rewrite Hc. run.
  rewrite (dequeue_one t s t1) by done. fields.
  assert (m_stratumMode u =? 3 = false) as -> by (apply Z.eqb_neq; lia). cbn [negb].
  unfold bool_result, isBool, asBool. rewrite Hv. cbn [andb]. run. unfold report_solution. run.
  assert (u32 (i - 40) = i - 40) as -> by (apply wrap_id; split; lia). done.
Qed.

(** The pool's verdict reaches the miner that found the solution: on an idle authorised client of
    any flavour below CoreStratum/2.0.0 a solution is written to the pool at once, and the reply to
    it (a boolean result) reports exactly one acceptance or rejection, with the index of that miner
    and the time since the submission in milliseconds; no request is left waiting for an answer. *)
Theorem verdict_reaches_miner (t1 t2 : Z) (s : Stratum) (u : URI) (ss : Session) (sol : Solution)
    (R r : J) (b : bool) :
  ready s -> isConnected s = true -> m_txPending s = false -> m_txQueue s = [] -> m_sendBuffer s = "" ->
  m_conn s = Some u -> 0 <= m_stratumMode u < 3 -> m_session s = Some ss -> authorized ss = true ->
  m_response_pleas_count s = 0 -> m_response_plea_times s = [] ->
  0 <= midx sol -> 40 + midx sol < 2 ^ 32 -> 0 <= exSizeBytes (work sol) <= 16 ->
  message R (40 + midx sol) "" -> jget_or R "result" jnull = Ok r -> view r = VBool b ->
  let '(r1, s1) := submitSolution t1 sol s in
  let '(r2, s2) := processResponse name t2 R s1 in
  r1 = Ok tt /\ r2 = Ok tt /\
  (exists j, submit_request u (workerId ss) (40 + midx sol) sol = Ok j /\
     out s1 = out s ++ [EvWrite (line_of j)]) /\
  out s2 = out s1 ++ [if b then EvAccepted (Z.quot (t2 - t1) 1000000) (midx sol) false
                      else EvRejected (Z.quot (t2 - t1) 1000000) (midx sol)] /\
  m_response_pleas_count s2 = 0.
Proof.
  intros Hr Hcn Htx Hq Hb Hc Hmode Hss Hau Hn Htm Hm0 Hm1 Hex HR Hres Hv.
  destruct (submit_writes t1 s u ss sol) as (j & s1 & -> & Hj & Hout & Hc1 & Hn1 & Ht1 & Ho1 & Hmax & _); try done.
  rewrite (verdict_reported t2 s1 u t1 (40 + midx sol) R r b) by (done || lia). fields.
  split_and!; try done; [by exists j|]. by replace (40 + midx sol - 40) with (midx sol) by lia.
Qed.

End protocol.

(** ** Witnesses *)

#[local] Existing Instance JsonModel.json.
#[local] Existing Instance BigIntegerModel.instance.
#[local] Existing Instance DoubleTextModel.instance.

(** A connection by scheme, with the given mode. *)
Definition obj (l : list (string * JsonModel.jv)) : @J JsonModel.json := JsonModel.JObj l.
Definition str (s : string) : JsonModel.jv := JsonModel.JStr s.
Definition arr (l : list JsonModel.jv) : JsonModel.jv := JsonModel.JArr l.

Ltac message_ok :=
  unfold message; split_and!;
    [ reflexivity | reflexivity | eexists; split; reflexivity | eexists; split; reflexivity | reflexivity ].

Definition example_nonce_solution : Solution :=
  {| nonce := 0xaf4c000000000007; mixHash := h_zero 32;
     work := set_exSizeBytes 4 WorkPackage_default; tstamp := 0; midx := 3 |}.
Definition example_extranonce : @J JsonModel.json :=
  obj [("method", str "mining.set_extranonce"); ("params", arr [str "af4c"])].

Lemma extranonce_roundtrip_witness :
  short_nonce example_nonce_solution = Ok "000000000007".
Proof.
  pose proof (extranonce_roundtrip example_extranonce (arr [str "af4c"])
    (put_session (Some (Session_new 0)) example_client) (Session_new 0) 4 0xaf4c 7 example_nonce_solution
    eq_refl eq_refl eq_refl eq_refl ltac:(lia) ltac:(by_evaluation) ltac:(by_evaluation) eq_refl eq_refl) as H.
  destruct (set_extranonce _ _) as [r s']. destruct H as (_ & _ & H & _). exact H.
Defined.

Lemma response_delays_witness :
  fst (dequeue_all [9000000; 12000000] (enqueue_all [5000000; 8000000] (clear_response_pleas 0 example_client)))
  = [4; 7].
Proof.
  pose proof (response_delays 0 5000000 [8000000] [9000000; 12000000] example_client ltac:(cbn; lia)) as [H _].
  exact H.
Defined.

Definition example_connecting : Stratum :=
  put_connecting true (put_nonsecuresocket (Some true) (put_socket (Some SockPlain)
    (put_conn (Some (example_target "stratum" 999 false)) (enqueue_response_plea 0 example_client)))).

Lemma attempt_closed_early_witness :
  m_nonsecuresocket (snd (workloop_timer_elapsed 1000000000 false example_connecting)) = Some false.
Proof.
  pose proof (attempt_closed_early 1000000000 example_connecting (example_target "stratum" 999 false) true
    eq_refl eq_refl eq_refl ltac:(discriminate) eq_refl eq_refl) as H.
  destruct (workloop_timer_elapsed _ _ _) as [r s']. destruct H as (_ & H & _). exact H.
Defined.

Lemma requests_in_order_witness :
  m_txQueue (snd (onSendSocketDataCompleted 0 EcOk (send_all [JsonModel.JInt 2; JsonModel.JInt 3]
    (snd (send (JsonModel.JInt 1) (example_idle (example_target "stratum" 0 true))))))) = [].
Proof.
  pose proof (requests_in_order 0 (example_idle (example_target "stratum" 0 true)) (JsonModel.JInt 1)
    [JsonModel.JInt 2; JsonModel.JInt 3] (example_idle_ready (example_target "stratum" 0 true) eq_refl) eq_refl eq_refl eq_refl eq_refl) as H.
  cbn zeta in H. destruct (onSendSocketDataCompleted _ _ _) as [r s']. destruct H as (_ & _ & _ & H & _). exact H.
Defined.

Lemma notification_before_login_witness :
  fst (process_line "cm" 1 (JsonModel.write example_extranonce)
    (snd (connect_handler "cm" 0 EcOk true (example_open (example_target "stratum2+tcp" 999 false)))))
  = Throw (UndefinedBehaviour "null m_session").
Proof.
  pose proof (notification_before_login "cm" 0 1 (example_open (example_target "stratum2+tcp" 999 false))
    (example_target "stratum2+tcp" 999 false) (JsonModel.write example_extranonce) "af4c" example_extranonce
    (arr [str "af4c"]) 0 ltac:(by split_and!) eq_refl eq_refl eq_refl eq_refl ltac:(discriminate)
    (JsonModel.parse_write _) ltac:(message_ok) eq_refl eq_refl eq_refl eq_refl eq_refl ltac:(discriminate)) as H.
  destruct (connect_handler _ _ _ _ _) as [r s1]. destruct H as [_ H]. cbn [snd]. rewrite H. reflexivity.
Defined.

Definition example_proxy_job : @J JsonModel.json :=
  obj [("id", JsonModel.JInt 0); ("result", arr [str "0x01"; str "0x02"; str "0x03"; str "0x9660181"])].

Lemma oversized_block_witness :
  fst (process_line "cm" 1 (JsonModel.write example_proxy_job)
    (put_session (Some (set_subscribed true (Session_new 0))) (example_idle (example_target "stratum1+tcp" 1 true))))
  = Throw ThrownPointer.
Proof.
  apply (oversized_block "cm" 1 _ (example_target "stratum1+tcp" 1 true) (set_subscribed true (Session_new 0))
    _ "0x01" "0x02" "0x03" "0x9660181" example_proxy_job
    (arr [str "0x01"; str "0x02"; str "0x03"; str "0x9660181"]) 0x9660181);
    first [ reflexivity | discriminate | apply JsonModel.parse_write | message_ok | lia ].
Defined.

Definition example_invalid : @J JsonModel.json := obj [("method", str "mining.notify")].
Definition example_invalid_header : header_ :=
  {| h_rpc2 := false; h_id := 0; h_success := true; h_method := "mining.notify" |}.

Lemma double_disconnect_witness :
  let s1 := snd (processResponse "cm" 0 example_invalid (example_open (example_target "stratum+tcp" 0 true))) in
  let s2 := snd (processResponse "cm" 0 example_invalid s1) in
  fst (run_posted "cm" 1 (snd (run_posted "cm" 1 s2))) = Throw (UndefinedBehaviour "null m_conn").
Proof.
  pose proof (double_disconnect "cm" 0 1 (example_open (example_target "stratum+tcp" 0 true))
    (example_target "stratum+tcp" 0 true) example_invalid example_invalid example_invalid_header
    example_invalid_header ltac:(by split_and!) eq_refl eq_refl eq_refl ltac:(discriminate) eq_refl
    eq_refl ltac:(discriminate) eq_refl) as H. cbn zeta.
  destruct (processResponse _ _ _ (example_open _)) as [r1 s1]. cbn [snd].
  destruct (processResponse _ _ _ s1) as [r2 s2]. cbn [snd]. destruct (run_posted _ _ s2) as [r3 s3]. cbn [snd].
  destruct H as (_ & _ & _ & _ & _ & H). exact H.
Defined.

Definition example_refusal : @J JsonModel.json :=
  obj [("id", JsonModel.JInt 1); ("result", JsonModel.JNull); ("error", str "no")].
Definition example_probing : Stratum :=
  put_posted [TStartConnect] (put_endpoints ["1.2.3.4:8008"] (put_conn (Some (example_target "stratum" 999 false))
    example_client)).

Lemma flavour_detection_witness :
  m_conn (login_attempt "cm" 4 example_refusal (login_attempt "cm" 3 example_refusal
    (login_attempt "cm" 2 example_refusal (login_attempt "cm" 1 example_refusal example_probing)))) = None.
Proof.
  assert (Hp : probing (example_target "stratum" 999 false) "1.2.3.4:8008" example_probing)
    by (unfold probing; split_and!; first [reflexivity | by eexists]).
  assert (Hr : refusal example_refusal) by (split; reflexivity).
  destruct (flavour_detection "cm" (example_target "stratum" 999 false) "1.2.3.4:8008" example_probing 1 2 3 4
    example_refusal example_refusal example_refusal example_refusal Hp eq_refl Hr Hr Hr Hr)
    as (j3 & j2 & j1 & j0 & _ & _ & _ & _ & H).
  cbn zeta in H. destruct H as (_ & H & _). exact H.
Defined.

Definition example_stratum_job : @J JsonModel.json := obj [("method", str "mining.notify");
  ("params", arr [str "bf0488aa"; str (hash_hex (replicate 32 1) Add); str (hash_hex (replicate 32 2) Add);
                  str (hash_hex (replicate 32 3) Add)])].
Definition example_subscribed : Stratum :=
  put_session (Some (set_subscribed true (Session_new 0))) (example_idle (example_target "stratum+tcp" 0 true)).

Definition example_core2_job : @J JsonModel.json :=
  obj [("method", str "mining.notify");
       ("params", arr [str "bf0488aa"; str "6526d5"; str (hash_hex (replicate 32 1) DontAdd); str "0"])].
Definition example_set_session : Session := set_firstMiningSet true (set_subscribed true (Session_new 0)).
(** The transmission has brought a job already. *)
Definition example_marked : Stratum :=
  put_newjobprocessed true (put_session (Some example_set_session) (example_idle (example_target "stratum3+tcp" 3 true))).

(** The first job of a transmission in the stratum flavour, the second one in CoreStratum/2.0.0. *)
Lemma first_job_taken_witness :
  (exists s', processResponse "cm" 0 example_stratum_job example_subscribed = (Ok tt, s') /\
     job (m_current s') = "bf0488aa" /\ boundary (m_current s') = replicate 32 3) /\
  (exists s', processResponse "cm" 0 example_core2_job example_marked = (Ok tt, s') /\
     job (m_current s') = "bf0488aa" /\ header (m_current s') = replicate 32 1).
Proof.
  split.
  - pose proof (first_job_taken "cm" 0 example_subscribed (example_target "stratum+tcp" 0 true)
      (set_subscribed true (Session_new 0)) example_stratum_job
      (arr [str "bf0488aa"; str (hash_hex (replicate 32 1) Add); str (hash_hex (replicate 32 2) Add);
            str (hash_hex (replicate 32 3) Add)]) 0 "bf0488aa" (replicate 32 1)) as H.
    edestruct H as (_ & H0 & _); [reflexivity|reflexivity|reflexivity|reflexivity|message_ok|reflexivity|reflexivity|reflexivity|by_evaluation|].
    specialize (H0 eq_refl eq_refl (replicate 32 2) (replicate 32 3) ltac:(by unfold job_params; split_and!) ltac:(by_evaluation) ltac:(by_evaluation)).
    eexists. split; [exact H0|]. by split.
  - pose proof (first_job_taken "cm" 0 example_marked (example_target "stratum3+tcp" 3 true)
      example_set_session example_core2_job
      (arr [str "bf0488aa"; str "6526d5"; str (hash_hex (replicate 32 1) DontAdd); str "0"]) 0 "bf0488aa" (replicate 32 1)) as H.
    edestruct H as (_ & _ & _ & H3); [reflexivity|reflexivity|reflexivity|reflexivity|message_ok|reflexivity|reflexivity|reflexivity|by_evaluation|].
    specialize (H3 eq_refl eq_refl ltac:(by_evaluation) 0x6526d5
      ltac:(unfold core2_params; split_and!; [reflexivity..|by eexists|reflexivity])).
    eexists. split; [exact H3|]. by split.
Defined.

Definition example_authorized : Stratum :=
  put_session (Some (set_authorized true (Session_new 0))) (example_idle (example_target "stratum+tcp" 0 true)).
Definition example_verdict : @J JsonModel.json :=
  obj [("id", JsonModel.JInt 43); ("result", JsonModel.JBool true)].

Lemma verdict_reaches_miner_witness :
  m_response_pleas_count (snd (processResponse "cm" 5000000 example_verdict
    (snd (submitSolution 1000000 example_nonce_solution example_authorized)))) = 0.
Proof.
  pose proof (verdict_reaches_miner "cm" 1000000 5000000 example_authorized (example_target "stratum+tcp" 0 true)
    (set_authorized true (Session_new 0)) example_nonce_solution example_verdict (JsonModel.JBool true) true) as H.
  specialize (H (plain_ready (example_target "stratum+tcp" 0 true) true example_authorized eq_refl eq_refl eq_refl) eq_refl eq_refl eq_refl eq_refl eq_refl
    ltac:(cbn; lia) eq_refl eq_refl eq_refl eq_refl ltac:(cbn; lia) ltac:(cbn; lia) ltac:(cbn; lia)
    ltac:(message_ok) eq_refl eq_refl).
  destruct (submitSolution _ _ _) as [r1 s1]. cbn [snd]. destruct (processResponse _ _ _ s1) as [r2 s2].
  destruct H as (_ & _ & _ & _ & H). exact H.
Defined.
