(* ===== verification/PoolClient.v ===== *)
(** * libpoolprotocols: the interface of a pool client

    The abstract class [PoolClient] of src/libpoolprotocols/PoolClient.h as a type class: what the
    manager may call and what the client reports through the handlers, with the promise the clients
    make about their verdicts.  The clients of the three protocols (Stratum, Getwork, Simulate) are
    instances, and so is the choice between two clients, so that the object behind [p_client] may
    be any of them.  What System proves about the composition is proved for every instance. *)

From S2P Require Import Prelude CppString CommonData FixedHash Worker Float Difficulty.
From S2P Require Import Types Miner CpuMiner Farm PoolURI Json.
From S2P Require PoolManager Getwork Simulate Stratum.

(** ** The interface *)

(** The calls of the handlers the manager installs ([m_onConnected], ...). *)
Inductive report :=
  | Connected | Disconnected
  | WorkReceived (wp : WorkPackage)
  | SolutionAccepted (delay minerIdx : Z) (stale : bool)
  | SolutionRejected (delay minerIdx : Z).

(** The end of an operation: the result, the client, the handlers called on the way. *)
Definition outcome (S : Type) : Type := res unit * S * list report.

(** A verdict concerns a miner up to the [n]-th. *)
Definition promised (n : Z) (r : report) : Prop :=
  match r with
  | SolutionAccepted _ i _ | SolutionRejected _ i => 0 <= i <= n
  | _ => True
  end.

Definition keeps_promise {S} (ok : Z -> S -> Prop) (n : Z) (o : outcome S) : Prop :=
  ok n (snd (fst o)) /\ Forall (promised n) (snd o).

(** [call] is everything that happens to a client apart from a submission: the other virtual
    functions and the completions of its asynchronous operations, each at a time.  [client_ok n]
    holds of a client to which no solution of a miner beyond the [n]-th was submitted; [made] of
    what the constructor makes.  The laws: whatever happens, no verdict is ever reported for a miner
    beyond those. *)
Class PoolClient := {
  Client : Type;
  call : Type;
  perform : Z -> call -> Client -> outcome Client;
  submitSolution : Z -> Solution -> Client -> outcome Client;
  isConnected : Client -> bool;
  made : Client -> Prop;
  client_ok : Z -> Client -> Prop;
  made_ok c : made c -> client_ok (-1) c;
  ok_mono n n' c : n <= n' -> client_ok n c -> client_ok n' c;
  perform_ok n now o c : -1 <= n -> client_ok n c -> keeps_promise client_ok n (perform now o c);
  submit_ok n now sol c : 0 <= midx sol <= n -> client_ok n c ->
    keeps_promise client_ok n (submitSolution now sol c) }.

(** ** The stratum client *)

Section stratum.
Context {Jsn : Json} {Big : BigInteger} {Dbl : DoubleText}.
Context (name : string).

Definition stratum_report (e : Stratum.event) : option report :=
  match e with
  | Stratum.EvConnected => Some Connected
  | Stratum.EvDisconnected => Some Disconnected
  | Stratum.EvWork wp => Some (WorkReceived wp)
  | Stratum.EvAccepted d i st => Some (SolutionAccepted d i st)
  | Stratum.EvRejected d i => Some (SolutionRejected d i)
  | _ => None
  end.

Definition stratum_outcome (m : SE Stratum.Stratum unit) (c : Stratum.Stratum) : outcome Stratum.Stratum :=
  let '(r, c) := m (Stratum.put_out [] c) in (r, c, omap stratum_report (Stratum.out c)).
Lemma outcome_of (m : SE Stratum.Stratum unit) c r c' : m (Stratum.put_out [] c) = (r, c') ->
  stratum_outcome m c = (r, c', omap stratum_report (Stratum.out c')).
Proof. unfold stratum_outcome. by intros ->. Qed.

(** The operations of Stratum but the submission. *)
Definition is_submission (o : Stratum.operation) : bool :=
  match o with Stratum.OSolution _ => true | _ => false end.
Definition stratum_call : Type := { o : Stratum.operation | is_submission o = false }.
Definition received (data : string) : stratum_call := exist _ (Stratum.OReceived Stratum.EcOk data) eq_refl.

Lemma stratum_reports n s : Stratum.stratum_inv (40 + n) s ->
  Forall (promised n) (omap stratum_report (Stratum.out s)).
Proof.
  intros (_&_&_&_&He&_). rewrite Forall_forall in He. apply Forall_forall.
  intros r (e & Hi & Er)%list_elem_of_omap. specialize (He e Hi).
  destruct e; cbn in *; simplify_eq; cbn; first [done | destruct He as [[]]; lia].
Qed.

Lemma stratum_inv_weaken B B' s : B <= B' -> Stratum.stratum_inv B s -> Stratum.stratum_inv B' s.
Proof.
  intros HB (?&?&?&?&He&?). split_and!; try done; [|lia]. eapply Forall_impl; [done|].
  intros [] Hev; cbn in *; first [done | destruct Hev; split; [done | lia]].
Qed.
Lemma stratum_inv_out B s : Stratum.stratum_inv B s -> Stratum.stratum_inv B (Stratum.put_out [] s).
Proof. intros (?&?&?&?&_&?). by split_and!. Qed.

Lemma stratum_keeps n now o c : -1 <= n -> Stratum.op_bounded (40 + n) o ->
  Stratum.stratum_inv (40 + n) c ->
  keeps_promise (fun n => Stratum.stratum_inv (40 + n)) n (stratum_outcome (Stratum.apply_op name now o) c).
Proof.
  intros Hn Ho Hc.
  pose proof (Stratum.inv_apply_op name (40 + n) ltac:(lia) now o Ho _ (stratum_inv_out _ _ Hc)) as Hc'.
  unfold stratum_outcome. destruct (Stratum.apply_op name now o _) as [r c']. split; [done|].
  by apply stratum_reports.
Qed.

#[refine] Definition stratum_client : PoolClient := {|
  Client := Stratum.Stratum;
  call := stratum_call;
  perform now o := stratum_outcome (Stratum.apply_op name now (proj1_sig o));
  submitSolution now sol := stratum_outcome (Stratum.apply_op name now (Stratum.OSolution sol));
  isConnected := Stratum.isConnected;
  made c := exists wt rt now max_id, max_id <= 39 /\ c = Stratum.Stratum_new wt rt now max_id;
  client_ok n := Stratum.stratum_inv (40 + n) |}.
Proof.
  - intros c (wt & rt & now & max_id & Hm & ->). apply Stratum.inv_new. lia.
  - intros n n' c Hn. apply stratum_inv_weaken. lia.
  - intros n now [o Ho] c Hn Hc. apply stratum_keeps; [done | by destruct o | done].
  - intros n now sol c Hm Hc. apply stratum_keeps; [lia | | done].
    cbn. pose proof (Z.mod_le (40 + midx sol) (2 ^ 32)). unfold wrap. lia.
Defined.

End stratum.

(** ** The getwork client *)

Section getwork.
Context {Jsn : Json} {Bst : BoostUri}.
Import Getwork.

Definition getwork_report (e : event) : option report :=
  match e with
  | EvConnected => Some Connected
  | EvDisconnected => Some Disconnected
  | EvWork wp => Some (WorkReceived wp)
  | EvAccepted d i => Some (SolutionAccepted d i false)
  | EvRejected d i => Some (SolutionRejected d i)
  | _ => None
  end.

Inductive getwork_call :=
  | GSetConnection (u : URI)
  | GConnect (ip_endpoint : string -> Z -> string)
  | GDisconnect
  | GResolved (result : option (list string))
  | GConnected (ec : completion)
  | GWritten (ec : completion)
  | GRead (ec : completion) (rx_message : string)
  | GTimer (ec : completion)
  | GHashrate (rate : Z) (id : string).

Definition getwork_apply (now : Z) (o : getwork_call) : SE Getwork unit :=
  match o with
  | GSetConnection u => se_modify (gput_conn (Some (set_Responds false u)))
  | GConnect ip => connect now ip
  | GDisconnect => disconnect now
  | GResolved r => handle_resolve now r
  | GConnected ec => handle_connect now ec
  | GWritten ec => handle_write now ec
  | GRead ec rx => handle_read now ec rx
  | GTimer ec => getwork_timer_elapsed now ec
  | GHashrate rate id => submitHashrate now rate id
  end.

Definition getwork_outcome (m : SE Getwork unit) (c : Getwork) : outcome Getwork :=
  let '(r, c) := m (gput_out [] c) in (r, c, omap getwork_report (g_out c)).

(** The largest id submitted is within the bound, and so is every verdict reported. *)
Definition event_promised (n : Z) (e : event) : Prop :=
  match e with EvAccepted _ i | EvRejected _ i => 0 <= i <= n | _ => True end.
Definition getwork_inv (n : Z) (s : Getwork) : Prop :=
  m_solution_submitted_max_id s <= 40 + n /\ Forall (event_promised n) (g_out s).

Context (n : Z).

Lemma gemit_ok e s : event_promised n e -> getwork_inv n s -> getwork_inv n (gemit e s).
Proof. intros He [? ?]. split; [done|]. cbn. apply Forall_app. by repeat constructor. Qed.

(** Assignments to the other members change nothing the invariant speaks of: it holds after them by
    conversion. *)
Lemma with_conn_ok {A} (k : URI -> SE Getwork A) s : getwork_inv n s ->
  (forall u, getwork_inv n (snd (k u s))) -> getwork_inv n (snd (with_conn k s)).
Proof. intros. unfold with_conn. by case_match. Qed.
Lemma disconnect_ok now s : getwork_inv n s -> getwork_inv n (snd (disconnect now s)).
Proof.
  intros H. unfold disconnect. cbv zeta. case_match; [|done]. cbn [snd].
  change (getwork_inv n (gemit EvDisconnected s)). by apply gemit_ok.
Qed.
Lemma logged_disconnect_ok now s : getwork_inv n s -> getwork_inv n (snd (logged (disconnect now) s)).
Proof. intros. apply with_conn_ok; [done|]. intros _. by apply disconnect_ok. Qed.
Lemma begin_connect_ok now s : getwork_inv n s -> getwork_inv n (snd (begin_connect now s)).
Proof. intros H. unfold begin_connect. case_match; [by apply logged_disconnect_ok | by apply gemit_ok]. Qed.
Lemma send_ok now l s : getwork_inv n s -> getwork_inv n (snd (send now l s)).
Proof. intros H. unfold send. cbv zeta. case_match; [done|]. by apply begin_connect_ok. Qed.
Lemma next_endpoint_ok now s : getwork_inv n s ->
  getwork_inv n (snd (logged (pop_endpoint (begin_connect now)) s)).
Proof. intros. apply with_conn_ok; [done|]. intros _. unfold pop_endpoint. case_match; [done|]. by apply begin_connect_ok. Qed.

Lemma connect_ok now ip s : getwork_inv n s -> getwork_inv n (snd (connect now ip s)).
Proof.
  intros H. unfold connect. case_match; [done|]. cbv zeta. apply with_conn_ok; [done|]. intros u.
  case_match; [by apply gemit_ok | by apply send_ok].
Qed.
Lemma resolve_ok now r s : getwork_inv n s -> getwork_inv n (snd (handle_resolve now r s)).
Proof. intros H. unfold handle_resolve. destruct r; [by apply send_ok | by apply logged_disconnect_ok]. Qed.
Lemma handle_connect_ok now ec s : getwork_inv n s -> getwork_inv n (snd (handle_connect now ec s)).
Proof.
  intros H. unfold handle_connect. destruct ec; [|done|by apply next_endpoint_ok]. cbv zeta.
  set (s1 := if m_connecting s then _ else s).
  assert (H1 : getwork_inv n s1) by (unfold s1; destruct (m_connecting s); [by apply gemit_ok | done]).
  clearbody s1. destruct (m_txQueue s1); [done|]. destruct (pop_request _) as [[line|] q]; [|done].
  apply with_conn_ok; [by case_match|]. intros u. apply gemit_ok; [done|]. by case_match.
Qed.
Lemma handle_write_ok now ec s : getwork_inv n s -> getwork_inv n (snd (handle_write now ec s)).
Proof. intros H. destruct ec; [by apply gemit_ok | done | by apply next_endpoint_ok]. Qed.

(** A verdict is reported only for an id that was submitted. *)
Lemma processResponse_ok now j s : getwork_inv n s -> getwork_inv n (snd (processResponse now j s)).
Proof.
  intros H. unfold processResponse. case_match; [|done]. case_match; [|by apply with_conn_ok].
  cbv zeta. case_match; [|done]. case_match. case_match.
  - case_match; [by apply with_conn_ok|]. case_match; [|done]. case_match; [|by apply with_conn_ok].
    case_match; [|done]. cbn [snd].
    match goal with |- context [if ?b then s else ?t] =>
      assert (Hw : getwork_inv n (if b then s else t)) by (destruct b; [done | by apply gemit_ok]) end.
    exact Hw.
  - case_match; [done|]. case_match; [|done]. bool_to_prop. case_match; [|done]. cbn [snd].
    destruct H as [Hm Hf]. apply gemit_ok; [|by split].
    match goal with |- event_promised n (if ?b then _ else _) => destruct b end; cbn; lia.
Qed.
Lemma read_loop_ok now : forall fuel rx ln h s, getwork_inv n s -> getwork_inv n (snd (read_loop fuel now rx ln h s)).
Proof.
  induction fuel as [|fuel IH]; intros rx ln h s H; [done|]. cbn [read_loop]. case_match; [|done]. cbv zeta.
  assert (Hj : forall line rx ln h, getwork_inv n (snd (match json_parse line with
    | Some jRes => match processResponse now jRes s with
                   | (Throw e, s) => (Throw e, s)
                   | (Ok _, s) => read_loop fuel now rx ln h s
                   end
    | None => read_loop fuel now rx ln h s
    end))).
  { intros line rx' ln' h'. destruct (json_parse line) as [jRes|]; [|by apply IH].
    pose proof (processResponse_ok now jRes s H) as Hp. by destruct (processResponse now jRes s) as [[] ?]; [apply IH|]. }
  case_match; [by apply IH|]. case_match; [|destruct (if String.eqb _ _ then _ else _); [by apply IH | apply Hj]].
  pose proof (logged_disconnect_ok now s H) as Hd. by destruct (logged (disconnect now) s).
Qed.
Lemma handle_read_ok now ec rx s : getwork_inv n s -> getwork_inv n (snd (handle_read now ec rx s)).
Proof.
  intros H. destruct ec; [|done|by apply logged_disconnect_ok]. cbn [handle_read].
  case_match; [by apply logged_disconnect_ok|].
  pose proof (read_loop_ok now (S (String.length rx)) rx 0 true s H) as Hr.
  destruct (read_loop _ _ _ _ _ s) as [[[]|] s1]; [done | | done]. cbn [snd] in Hr.
  destruct (m_txQueue s1); [done | by apply begin_connect_ok].
Qed.
Lemma hashrate_ok now rate id s : getwork_inv n s -> getwork_inv n (snd (submitHashrate now rate id s)).
Proof. intros H. unfold submitHashrate. case_match; [|done]. case_match; [by apply send_ok | done]. Qed.
Lemma timer_ok now ec s : getwork_inv n s -> getwork_inv n (snd (getwork_timer_elapsed now ec s)).
Proof.
  intros H. destruct ec; [|done..]. cbn [getwork_timer_elapsed]. cbv zeta.
  case_match; [unfold pop_endpoint; case_match; [done|by apply disconnect_ok] | by apply send_ok].
Qed.
Lemma solution_ok now sol s : 0 <= midx sol <= n -> getwork_inv n s ->
  getwork_inv n (snd (submitSolution now sol s)).
Proof.
  intros Hm [H1 H2]. unfold submitSolution. case_match; [|done]. cbv zeta.
  set (s1 := gput_max_id _ s). assert (Hs : getwork_inv n s1).
  { split; [|done]. cbn. pose proof (Z.mod_le (40 + midx sol) (2 ^ 32)). unfold wrap. lia. }
  clearbody s1. case_match; [by apply send_ok | done].
Qed.

Lemma getwork_apply_ok now o s : getwork_inv n s -> getwork_inv n (snd (getwork_apply now o s)).
Proof.
  destruct o; cbn [getwork_apply]; auto using connect_ok, disconnect_ok, resolve_ok, handle_connect_ok,
    handle_write_ok, handle_read_ok, timer_ok, hashrate_ok.
Qed.

Lemma getwork_keeps (m : SE Getwork unit) c : (forall s, getwork_inv n s -> getwork_inv n (snd (m s))) ->
  getwork_inv n c -> keeps_promise getwork_inv n (getwork_outcome m c).
Proof.
  intros Hm [H1 _]. unfold getwork_outcome. specialize (Hm (gput_out [] c) (conj H1 (Forall_nil_2 _))).
  destruct (m _) as [r c']. split; [done|]. destruct Hm as [_ He]. rewrite Forall_forall in He.
  apply Forall_forall. intros x (e & Hi & Er)%list_elem_of_omap. specialize (He e Hi).
  destruct e; cbn in *; by simplify_eq.
Qed.

End getwork.

(** [m_solution_submitted_max_id] has no initialiser: the instance takes a client for which it is
    below the ids of submissions. *)
#[refine] Definition getwork_client {Jsn : Json} {Bst : BoostUri} : PoolClient := {|
  Client := Getwork.Getwork;
  call := getwork_call;
  perform now o := getwork_outcome (getwork_apply now o);
  submitSolution now sol := getwork_outcome (Getwork.submitSolution now sol);
  isConnected := Getwork.g_connected;
  made c := exists wt rp now max_id, max_id <= 39 /\ Getwork.Getwork_new wt rp now max_id = Ok c;
  client_ok := getwork_inv |}.
Proof.
  - intros c (wt & rp & now & max_id & Hm & E). unfold Getwork.Getwork_new, res_bind in E.
    case_match; simplify_eq. split; cbn; [lia | done].
  - intros n n' c Hn [H1 H2]. split; [lia|]. eapply Forall_impl; [done|]. intros [] He; cbn in *; lia.
  - intros n now o c _ Hc. apply getwork_keeps; [|done]. intros s. apply getwork_apply_ok.
  - intros n now sol c Hm Hc. apply getwork_keeps; [|done]. intros s. by apply solution_ok.
Defined.

(** ** The simulation client *)

Section simulation.
Context {Eth : Ethash} {Big : BigInteger} {Dbl : DoubleText}.
Import Simulate.

Inductive simulate_call :=
  | MSetConnection (u : URI)
  | MConnect | MDisconnect
  | MHashrate (rate : Z) (id : string)
  | MJob (seed_ header_ : hash)               (* [workLoop] up to its loop *)
  | MSample (hr : spec_float).                (* one turn of the loop *)

Definition sim_put_out (l : list Getwork.event) (s : Simulate) : Simulate := {|
  m_block := m_block s; sim_conn := sim_conn s; sim_connected := sim_connected s;
  sim_session := sim_session s; hr_max := hr_max s; hr_mean := hr_mean s; sim_worker := sim_worker s;
  sim_out := l |}.
Definition sim_setConnection (u : URI) (s : Simulate) : Simulate := {|
  m_block := m_block s; sim_conn := Some (set_Responds false u); sim_connected := sim_connected s;
  sim_session := sim_session s; hr_max := hr_max s; hr_mean := hr_mean s; sim_worker := sim_worker s;
  sim_out := sim_out s |}.

Definition simulate_apply (now : Z) (o : simulate_call) : SE Simulate unit :=
  match o with
  | MSetConnection u => se_modify (sim_setConnection u)
  | MConnect => se_modify (connect now)
  | MDisconnect => disconnect now
  | MHashrate rate id => se_modify (submitHashrate rate id)
  | MJob seed_ header_ => workLoop seed_ header_ []
  | MSample hr => se_modify (sample hr)
  end.

Definition simulate_outcome (m : SE Simulate unit) (c : Simulate) : outcome Simulate :=
  let '(r, c) := m (sim_put_out [] c) in (r, c, omap getwork_report (sim_out c)).

(** Nothing but a submission is answered by a verdict. *)
Lemma simulate_reports now o c n : Forall (promised n) (snd (simulate_outcome (simulate_apply now o) c)).
Proof.
  unfold simulate_outcome. destruct o; cbn [simulate_apply se_modify]; try by repeat constructor.
  - unfold disconnect. repeat case_match; simplify_eq; by repeat constructor.
  - unfold workLoop. repeat case_match; simplify_eq; by repeat constructor.
Qed.

End simulation.

(** [eval_time]: how long the evaluation of a solution takes. *)
#[refine] Definition simulate_client {Eth : Ethash} {Big : BigInteger} {Dbl : DoubleText}
    (eval_time : Z -> Solution -> Z) : PoolClient := {|
  Client := Simulate.Simulate;
  call := simulate_call;
  perform now o := simulate_outcome (simulate_apply now o);
  submitSolution now sol := simulate_outcome (se_modify (Simulate.submitSolution (eval_time now sol) sol));
  isConnected := Simulate.sim_connected;
  made c := exists block, c = Simulate.Simulate_new block;
  client_ok _ _ := True |}.
Proof.
  - done.
  - done.
  - intros n now o c _ _. split; [done | apply simulate_reports].
  - intros n now sol c Hm _. split; [done|]. unfold simulate_outcome, se_modify, Simulate.submitSolution. cbn.
    destruct (hash_le _ _); by apply Forall_singleton.
Defined.

(** ** Any of the clients

    The object behind [p_client] is of one class or another; a call meant for an object of another
    class than the one that lives does not happen. *)

Definition map_outcome {A B} (f : A -> B) (o : outcome A) : outcome B := (fst (fst o), f (snd (fst o)), snd o).

Definition other_client : exn := UndefinedBehaviour "a call of another client".

Lemma map_keeps {A B} (ok : Z -> A -> Prop) (ok' : Z -> B -> Prop) (f : A -> B) n o :
  (forall a, ok n a -> ok' n (f a)) -> keeps_promise ok n o -> keeps_promise ok' n (map_outcome f o).
Proof. intros Hf [H1 H2]. split; [by apply Hf | done]. Qed.

#[refine] Definition either_client (P Q : PoolClient) : PoolClient := {|
  Client := @Client P + @Client Q;
  call := @call P + @call Q;
  perform now o c :=
    match o, c with
    | inl o, inl c => map_outcome inl (perform now o c)
    | inr o, inr c => map_outcome inr (perform now o c)
    | _, _ => (Throw other_client, c, [])
    end;
  submitSolution now sol c :=
    match c with
    | inl c => map_outcome inl (submitSolution now sol c)
    | inr c => map_outcome inr (submitSolution now sol c)
    end;
  isConnected c := match c with inl c => isConnected c | inr c => isConnected c end;
  made c := match c with inl c => made c | inr c => made c end;
  client_ok n c := match c with inl c => client_ok n c | inr c => client_ok n c end |}.
Proof.
  - intros [c|c]; apply made_ok.
  - intros n n' [c|c] Hn; by apply ok_mono.
  - intros n now [o|o] [c|c] Hn Hc; try by split.
    + by eapply (map_keeps client_ok), perform_ok.
    + by eapply (map_keeps client_ok), perform_ok.
  - intros n now sol [c|c] Hm Hc.
    + by eapply (map_keeps client_ok), submit_ok.
    + by eapply (map_keeps client_ok), submit_ok.
Defined.

(** The clients of the program: [PoolManager::rotateConnect] makes one of the three. *)
Definition any_client {Eth : Ethash} {Jsn : Json} {Bst : BoostUri} {Big : BigInteger} {Dbl : DoubleText}
    (name : string) (eval_time : Z -> Solution -> Z) : PoolClient :=
  either_client (stratum_client name) (either_client getwork_client (simulate_client eval_time)).
