(* ===== verification/System.v ===== *)
(** * The composed system: miners, farm, pool manager and pool client

    How the components call one another, for any client of the interface PoolClient: the handlers
    [PoolManager::setClientHandlers] installs in the client (src/libpoolprotocols/PoolManager.cpp)
    receive what the client reports, [Farm::submitProof] (src/libethcore/Farm.cpp) posts the
    solutions of the search threads for the farm's strand (in no promised order), and what passes the farm's verification
    goes through [PoolManager]'s solution handler to the client.  The theorems are about whole runs
    of this composition: every share and every verdict is accounted for, once, with the miner it
    belongs to. *)

From S2P Require Import Prelude CppString CommonData FixedHash Worker Float Difficulty.
From S2P Require Stratum Getwork Simulate.
From S2P Require Import Types Miner CpuMiner Farm PoolURI Json PoolManager PoolClient.

(** What an observer of the system sees: a share handed to the client, a verdict on a share. *)
Inductive label :=
  | Claimed (minerIdx : Z)
  | Judged (minerIdx : Z) (verdict : SolutionAccountingEnum).

Section system.
Context {Eth : Ethash} {Big : BigInteger} {Bst : BoostUri} {Jsn : Json} {Dbl : DoubleText}.
Context {Cli : PoolClient}.                               (* the protocol of the pool *)
Context (find_epoch_number : hash -> Z).                  (* ethash *)
Context (iequals : string -> string -> bool).             (* boost *)
Context (randomx_calculate_hash : bytes -> hash).         (* RandomY *)

(** ** The state *)

Record System := {
  cl : Client;                  (* the object of p_client *)
  mgr : PoolManager;            (* with the farm *)
  proofs : list Solution }.     (* the calls of submitProofAsync posted on the farm's strand *)

(** ** Calls between the components *)

(** The handler of the manager a report of the client runs.  [ep] is [ActiveEndPoint()], [rnd] the draw of [shuffle]. *)
Definition deliver (now rnd : Z) (ep : string) (e : report) : SE PoolManager unit :=
  match e with
  | Connected => onConnected ep now rnd
  | Disconnected => se_modify onDisconnected
  | WorkReceived wp => onWorkReceived find_epoch_number wp rnd
  | SolutionAccepted _ minerIdx _ => onSolutionAccepted now minerIdx
  | SolutionRejected _ minerIdx => onSolutionRejected now minerIdx
  end.

Fixpoint deliver_all (now rnd : Z) (ep : string) (l : list report) : SE PoolManager unit :=
  match l with
  | [] => se_ret tt
  | e :: l' => (exec deliver now rnd ep e; deliver_all now rnd ep l')%se
  end.

(** An operation of the client, with the handlers its reports run: none of them calls the
    client, so they run as if after it. *)
Definition client_call (now rnd : Z) (ep : string) (m : Client -> outcome Client) : SE System (list report) := fun y =>
  let '(r, c, l) := m (cl y) in
  let '(r', s) := deliver_all now rnd ep l (mgr y) in
  let y := {| cl := c; mgr := s; proofs := proofs y |} in
  match r', r with
  | Ok _, Ok _ => (Ok l, y)
  | Throw e, _ | _, Throw e => (Throw e, y)
  end.

(** The verdicts among the client's reports. *)
Definition verdict_of (e : report) : list label :=
  match e with
  | SolutionAccepted _ i _ => [Judged i Accepted]
  | SolutionRejected _ i => [Judged i Rejected]
  | _ => []
  end.

(** [Farm::submitProof], called by the search of a miner. *)
Definition submitProof (sol : Solution) (y : System) : System :=
  {| cl := cl y; mgr := mgr y; proofs := proofs y ++ [sol] |}.

(** The manager sees the state of the connection through [p_client]. *)
Definition view_client (y : System) : PoolManager :=
  PoolManager.set_connected (isConnected (cl y)) (mgr y).

(** The calls of the client in the manager's trace. *)
Fixpoint serve (now rnd : Z) (ep : string) (l : list action) : SE System (list label) :=
  match l with
  | [] => se_ret []
  | ASubmitSolution sol :: l' =>
      (do evs <- client_call now rnd ep (submitSolution now sol);
       do ls <- serve now rnd ep l';
       se_ret (Claimed (midx sol) :: flat_map verdict_of evs ++ ls))%se
  | _ :: l' => serve now rnd ep l'
  end.

(** The next posted [submitProofAsync]: the farm verifies the solution and the manager passes it
    on to a connected client. *)
Definition run_proof (now rnd : Z) (ep : string) : SE System (list label) := fun y =>
  match proofs y with
  | [] => (Ok [], y)
  | sol :: l =>
      let '(r, f) := submitProofAsync now sol (pm_farm (mgr y)) in
      let y := {| cl := cl y; mgr := put_farm f (mgr y); proofs := l |} in
      match r with
      | Throw e => (Throw e, y)
      | Ok None => (Ok [Judged (midx sol) Failed], y)
      | Ok (Some sol') =>
          let s := onSolutionFound sol' (put_trace [] (view_client y)) in
          serve now rnd ep (trace s) {| cl := cl y; mgr := s; proofs := l |}
      end
  end.

(** ** The steps of the system *)

(** Calls of the farm and of its miners that account for no solution. *)
Inductive farm_call : Farm -> Farm -> Prop :=
  | FcSetWork rnd wp f f' : Farm.setWork rnd wp f = Ok f' -> farm_call f f'
  | FcStart now f : farm_call f (snd (Farm.start now f))
  | FcStop f : farm_call f (fst (Farm.stop f))
  | FcPause f : farm_call f (f_pause f)
  | FcResume f : farm_call f (f_resume f)
  | FcCollect e f : farm_call f (snd (collectData e f))
  | FcMiner i o f :
      farm_call f (with_miners (alter (on_miner (fun m => Miner.apply_op m o)) i (m_miners f)) f)
  | FcThread i x w f : m_miners f !! i = Some x -> Worker.step (thr x) w ->
      farm_call f (with_miners (<[i := on_thread (fun _ => w) x]> (m_miners f)) f)
  | FcScrambler n f : farm_call f (set_nonce_scrambler n f)
  | FcWidth n f : farm_call f (set_nonce_segment_width n f).

(** The manager's own operations. *)
Inductive manager_op :=
  | MAdd (c : string) | MRemove (i : Z) | MActive (i : Z) | MActiveStr (c : string)
  | MStart | MStop | MStopped | MRotate
  | MFailover (cancelled : bool) | MHashrate (cancelled : bool) | MReconnect (cancelled : bool)
  | MUri (a : nat) (g : URI -> URI).

Definition manager_call (o : manager_op) : SE PoolManager unit :=
  match o with
  | MAdd c => addConnection c
  | MRemove i => removeConnection i
  | MActive i => setActiveConnection i
  | MActiveStr c => setActiveConnection_str iequals c
  | MStart => se_modify PoolManager.start
  | MStop => se_modify PoolManager.stop
  | MStopped => se_modify (fun s => default s (stop_returns s))
  | MRotate => rotateConnect
  | MFailover ec => failovertimer_elapsed ec
  | MHashrate ec => submithrtimer_elapsed ec
  | MReconnect ec => se_modify (reconnecttimer_elapsed ec)
  | MUri a g => se_modify (update_uri a g)
  end.

(** A submission is only ever made by [run_proof]; the manager's other requests of its client
    (connect, disconnect, hash rate), the completions, and the marks the client leaves on the shared
    connection object may come at any time.  The posted proofs run in any order ([SyReorder]). *)
Inductive sys_step : System -> list label -> System -> Prop :=
  | SyClient now rnd ep o y evs y' :
      client_call now rnd ep (perform now o) y = (Ok evs, y') -> sys_step y (flat_map verdict_of evs) y'
  | SyNewClient c y : made c -> sys_step y [] {| cl := c; mgr := mgr y; proofs := proofs y |}
  | SyManager o s r y : manager_call o (view_client y) = (r, s) ->
      sys_step y [] {| cl := cl y; mgr := s; proofs := proofs y |}
  | SyFarm f y : farm_call (pm_farm (mgr y)) f ->
      sys_step y [] {| cl := cl y; mgr := put_farm f (mgr y); proofs := proofs y |}
  | SyReorder l y : l ≡ₚ proofs y -> sys_step y [] {| cl := cl y; mgr := mgr y; proofs := l |}
  | SyFound i x has_vm w env sol y : m_miners (pm_farm (mgr y)) !! i = Some x ->
      sol ∈ s_found (search randomx_calculate_hash has_vm w env (fm x)) ->
      sys_step y [] (submitProof sol y)
  | SyProof now rnd ep ls y y' : run_proof now rnd ep y = (Ok ls, y') -> sys_step y ls y'.

Inductive sys_run : System -> list label -> System -> Prop :=
  | sys_run_refl y : sys_run y [] y
  | sys_run_step y ls y1 h y2 : sys_step y ls y1 -> sys_run y1 h y2 -> sys_run y (ls ++ h) y2.

(** ** The specification: a ledger of shares and verdicts

    The ledger knows how many miners were ever started and what was observed.  A share is claimed
    by a known miner; the farm fails a share of a known miner; the pool judges a miner only after
    a share was claimed by that miner or one after it. *)

Record ledger := { size : nat; history : list label }.

Definition record (l : label) (L : ledger) : ledger := {| size := size L; history := history L ++ [l] |}.

Inductive ledger_step : ledger -> list label -> ledger -> Prop :=
  | LGrow n L : (size L <= n)%nat -> ledger_step L [] {| size := n; history := history L |}
  | LClaim i L : 0 <= i < Z.of_nat (size L) -> ledger_step L [Claimed i] (record (Claimed i) L)
  | LFail i L : 0 <= i < Z.of_nat (size L) -> ledger_step L [Judged i Failed] (record (Judged i Failed) L)
  | LVerdict i j k L : k = Accepted \/ k = Rejected -> Claimed j ∈ history L -> 0 <= i <= j ->
      ledger_step L [Judged i k] (record (Judged i k) L).

Inductive ledger_run : ledger -> list label -> ledger -> Prop :=
  | ledger_run_refl L : ledger_run L [] L
  | ledger_run_step L ls L1 h L2 : ledger_step L ls L1 -> ledger_run L1 h L2 -> ledger_run L (ls ++ h) L2.

End system.

#[export] Instance label_eq_dec : EqDecision label.
Proof. solve_decision. Defined.

Definition judges (k : SolutionAccountingEnum) (l : label) : bool :=
  match l with Judged _ k' => bool_decide (k = k') | Claimed _ => false end.

(** The number of verdicts, for one miner and over all miners. *)
Definition verdicts_for (i : Z) (k : SolutionAccountingEnum) (h : list label) : Z :=
  Z.of_nat (length (filter (fun l => l = Judged i k) h)).
Definition verdicts (k : SolutionAccountingEnum) (h : list label) : Z :=
  Z.of_nat (length (filter (fun l => judges k l = true) h)).

(** The farm's telemetry shows the ledger: the accounts are those of the known miners, and all
    counters are the numbers of verdicts, in 32-bit arithmetic. *)
Definition shows (L : ledger) (f : Farm) : Prop :=
  length (accounts f) = size L /\
  (forall k, counter k (getSolutions f) = u32 (verdicts k (history L))) /\
  (forall i a k, accounts f !! i = Some a -> counter k a = u32 (verdicts_for (Z.of_nat i) k (history L))).

(** * Proofs *)

Section system_theorems.
Context {Eth : Ethash} {Big : BigInteger} {Bst : BoostUri} {Jsn : Json} {Dbl : DoubleText}.
Context {Cli : PoolClient} (find_epoch_number : hash -> Z) (iequals : string -> string -> bool).
Context (randomx : bytes -> hash).

(** ** Farm calls only add accounts *)

Definition grows (f f' : Farm) : Prop :=
  exists l, accounts f' = accounts f ++ l /\ Forall (fun a => forall k, counter k a = 0) l /\
    getSolutions f' = getSolutions f.

Lemma keeps_grows f f' : keeps f f' -> grows f f'.
Proof. intros (_ & Ha & _ & Hs). exists []. by rewrite app_nil_r. Qed.

Lemma grows_trans f g h : grows f g -> grows g h -> grows f h.
Proof.
  intros (l1 & H1 & F1 & S1) (l2 & H2 & F2 & S2). exists (l1 ++ l2).
  rewrite H2, H1, app_assoc, S2. split_and!; [done | by apply Forall_app | done].
Qed.

Lemma grows_same f f' : accounts f' = accounts f -> getSolutions f' = getSolutions f -> grows f f'.
Proof. intros Ha Hs. exists []. by rewrite app_nil_r. Qed.

Lemma start_device_grows now f it : grows f (start_device now f it).
Proof.
  unfold start_device. destruct (bool_decide _); [|by apply grows_same].
  exists [SolutionAccount_new now]. unfold accounts. cbn. rewrite fmap_app.
  split_and!; [done | | done]. constructor; [by intros [] | done].
Qed.

Lemma start_grows now f : grows f (snd (Farm.start now f)).
Proof.
  unfold Farm.start. destruct (m_isMining f); [by apply grows_same|].
  destruct (m_miners f); [|by apply grows_same]. cbn [snd].
  apply grows_trans with (fold_left (start_device now) (m_DevicesCollection f) f); [|by apply grows_same].
  generalize (m_DevicesCollection f). intros l. revert f.
  induction l as [|it l IH]; intros f; [by apply grows_same|].
  cbn [fold_left]. eapply grows_trans; [apply start_device_grows | apply IH].
Qed.

Lemma farm_call_step f f' : farm_call f f' -> farm_step f f'.
Proof. destruct 1; by econstructor. Qed.

Lemma farm_call_grows f f' : farm_inv f -> farm_call f f' -> grows f f'.
Proof.
  intros Hf. destruct 1.
  - eapply keeps_grows, setWork_keeps. done.
  - apply start_grows.
  - apply grows_same; unfold Farm.stop; by destruct (m_isMining f).
  - by apply grows_same.
  - by apply grows_same.
  - by apply keeps_grows, collectData_keeps.
  - by apply grows_same.
  - by apply grows_same.
  - by apply grows_same.
  - apply grows_same; unfold set_nonce_segment_width; by destruct (_ =? 0).
Qed.

Lemma farm_calls_inv f f' : star farm_call f f' -> farm_inv f -> farm_inv f' /\ grows f f'.
Proof.
  induction 1 as [f|f g h Hs _ IH]; intros Hf; [split; [done | by apply grows_same]|].
  destruct (IH (farm_step_inv _ _ (farm_call_step _ _ Hs) Hf)) as [Hi Hg]. split; [done|].
  eapply grows_trans; [by apply farm_call_grows | done].
Qed.

Lemma star_one {A} (R : A -> A -> Prop) a b : R a b -> star R a b.
Proof. intros Hab. eapply star_step; [done | apply star_refl]. Qed.

(** ** The manager only ever calls the farm *)

Create HintDb calls discriminated.
#[local] Hint Resolve star_refl star_one FcSetWork FcStart FcStop FcPause FcResume FcScrambler : calls.

Ltac calls := repeat case_match; cbn in *; simplify_eq; cbn; eauto with calls.

Lemma stop_if_mining_calls f s : pm_farm s = f -> star farm_call f (pm_farm (farm_stop_if_mining s)).
Proof. intros <-. unfold farm_stop_if_mining. calls. Qed.
Lemma rotate_select_farm s : pm_farm (snd (rotate_select s)) = pm_farm s.
Proof. unfold rotate_select. by repeat case_match. Qed.
Lemma rotate_connect_farm a s : pm_farm (rotate_connect a s) = pm_farm s.
Proof. unfold rotate_connect, PoolManager.setConnection, update_uri. cbn. by repeat case_match. Qed.

Lemma manager_call_farm o s : star farm_call (pm_farm s) (pm_farm (snd (manager_call iequals o s))).
Proof.
  destruct o; cbn [manager_call snd se_modify].
  - unfold addConnection. calls.
  - unfold removeConnection. calls.
  - unfold setActiveConnection, setActiveConnectionCommon, client_disconnect. calls.
  - unfold setActiveConnection_str, setActiveConnectionCommon, client_disconnect. calls.
  - apply star_refl.
  - unfold PoolManager.stop. repeat case_match; try apply star_refl. by apply stop_if_mining_calls.
  - unfold stop_returns. calls.
  - unfold rotateConnect. destruct (PoolManager.isConnected s); [apply star_refl|].
    pose proof (rotate_select_farm s) as E. destruct (rotate_select s) as [[] s1]; cbn [snd] in E;
      rewrite <- E; [|apply star_refl].
    pose proof (stop_if_mining_calls _ s1 eq_refl). repeat case_match; cbn; rewrite ?rotate_connect_farm; auto with calls.
  - unfold failovertimer_elapsed, client_disconnect. calls.
  - unfold submithrtimer_elapsed. calls.
  - unfold reconnecttimer_elapsed. calls.
  - apply star_refl.
Qed.

Lemma deliver_farm now rnd ep e s : verdict_of e = [] ->
  star farm_call (pm_farm s) (pm_farm (snd (deliver find_epoch_number now rnd ep e s))).
Proof.
  destruct e; cbn [deliver verdict_of snd se_modify se_ret]; intros Hv; try done; try apply star_refl.
  - unfold onConnected. destruct (p_client s ≫= _); [|apply star_refl]. cbn zeta.
    set (s1 := put_wp _ _). assert (H1 : pm_farm s1 = pm_farm s) by (unfold s1; by destruct (_ && _)).
    clearbody s1. set (s2 := if ergodicity _ =? 1 then _ else _).
    assert (H2 : star farm_call (pm_farm s) (pm_farm s2)) by
      (rewrite <- H1; unfold s2, shuffle; calls).
    clearbody s2. set (s3 := if _ && _ then _ else _).
    assert (H3 : pm_farm s3 = pm_farm s2) by (unfold s3; by destruct (_ && _)). clearbody s3.
    rewrite <- H3 in H2. clear s1 H1 H3.
    assert (H4 : forall f, farm_call (pm_farm s3) f -> star farm_call (pm_farm s) f).
    { intros f Hf. revert H2. generalize (pm_farm s). induction 1; eauto using star_step, star_one. }
    calls.
  - unfold onDisconnected, farm_stop_if_mining. calls.
  - unfold onWorkReceived. calls.
Qed.

(** ** Counting verdicts *)

Lemma verdicts_for_app i k h h' : verdicts_for i k (h ++ h') = verdicts_for i k h + verdicts_for i k h'.
Proof. unfold verdicts_for. rewrite filter_app, length_app. lia. Qed.
Lemma verdicts_app k h h' : verdicts k (h ++ h') = verdicts k h + verdicts k h'.
Proof. unfold verdicts. rewrite filter_app, length_app. lia. Qed.
Lemma verdicts_for_one i k i' k' :
  verdicts_for i k [Judged i' k'] = if decide (i' = i /\ k' = k) then 1 else 0.
Proof.
  unfold verdicts_for. rewrite filter_cons, filter_nil. repeat case_decide; naive_solver.
Qed.
Lemma verdicts_one k i' k' : verdicts k [Judged i' k'] = if decide (k' = k) then 1 else 0.
Proof.
  unfold verdicts. rewrite filter_cons, filter_nil. cbn [judges].
  repeat case_decide; bool_to_prop; by simplify_eq.
Qed.
Lemma verdicts_claim k j : verdicts k [Claimed j] = 0.
Proof. done. Qed.
Lemma verdicts_for_claim i k j : verdicts_for i k [Claimed j] = 0.
Proof. done. Qed.
Lemma verdicts_for_none i k h : (forall i' k', Judged i' k' ∈ h -> i' <> i) -> verdicts_for i k h = 0.
Proof.
  intros Hh. unfold verdicts_for. destruct (filter _ h) as [|l ls] eqn:E; [done|]. exfalso.
  assert (Hl : l ∈ filter (fun l => l = Judged i k) h) by (rewrite E; left).
  apply list_elem_of_filter in Hl as [-> Hl]. by eapply Hh.
Qed.

(** ** The simulation relation *)

(** The largest index of the claims. *)
Definition bound (h : list label) : Z :=
  foldr (fun l b => match l with Claimed j => Z.max j b | Judged _ _ => b end) (-1) h.

Lemma bound_min h : -1 <= bound h.
Proof. unfold bound. induction h as [|[] h IH]; cbn; lia. Qed.
Lemma bound_app h h' : bound (h ++ h') = Z.max (bound h) (bound h').
Proof.
  pose proof (bound_min h'). unfold bound in *. induction h as [|[] h IH]; cbn; lia.
Qed.
Lemma bound_claimed h : 0 <= bound h -> exists j, Claimed j ∈ h /\ bound h = j.
Proof.
  induction h as [|[j|i k] h IH]; [cbn; lia | |]; cbn; fold (bound h); intros H.
  - destruct (Z.max_spec j (bound h)) as [[H1 E]|[H1 E]]; rewrite E in *.
    + destruct IH as (j' & Hj & Eb); [lia|]. exists j'. split; [by right | done].
    + exists j. split; [left | done].
  - destruct (IH H) as (j & Hj & Eb). exists j. split; [by right | done].
Qed.

(** Every miner named in the ledger is known to it. *)
Definition legal (L : ledger) : Prop :=
  forall l, l ∈ history L ->
    match l with Claimed i | Judged i _ => 0 <= i < Z.of_nat (size L) end.

Definition farm_rep (L : ledger) (f : Farm) : Prop := farm_inv f /\ shows L f /\ legal L.

Record represents (L : ledger) (y : System) : Prop := {
  rep_farm : farm_rep L (pm_farm (mgr y));
  rep_client : client_ok (bound (history L)) (cl y);
  rep_proofs : Forall (fun s => 0 <= midx s < Z.of_nat (size L)) (proofs y) }.

(** One ledger extends another by the given observations. *)
Definition extends (L : ledger) (ls : list label) (L' : ledger) : Prop :=
  ledger_run L ls L' /\ history L' = history L ++ ls /\ (size L <= size L')%nat.

Lemma ledger_run_trans L ls L1 h L2 : ledger_run L ls L1 -> ledger_run L1 h L2 -> ledger_run L (ls ++ h) L2.
Proof. induction 1; intros H2; [done|]. rewrite <- app_assoc. econstructor; eauto. Qed.
Lemma extends_refl L : extends L [] L.
Proof. split_and!; [constructor | by rewrite app_nil_r | done]. Qed.
Lemma extends_trans L ls L1 h L2 : extends L ls L1 -> extends L1 h L2 -> extends L (ls ++ h) L2.
Proof.
  intros (R1 & H1 & S1) (R2 & H2 & S2). split_and!; [by eapply ledger_run_trans | | lia].
  by rewrite H2, H1, app_assoc.
Qed.
Lemma extends_step L ls L' : ledger_step L ls L' -> extends L ls L'.
Proof.
  intros H. split_and!.
  - rewrite <- (app_nil_r ls). econstructor; [done | constructor].
  - destruct H; cbn; by rewrite ?app_nil_r.
  - by destruct H.
Qed.

Lemma legal_record L l : legal L -> match l with Claimed i | Judged i _ => 0 <= i < Z.of_nat (size L) end ->
  legal (record l L).
Proof. intros HL Hl l' Hl'. cbn in *. apply elem_of_app in Hl' as [?|?%list_elem_of_singleton]; [by apply HL | by subst]. Qed.

(** Farm calls: only the number of known miners may grow. *)
Lemma rep_calls L f f' : star farm_call f f' -> farm_rep L f ->
  farm_rep {| size := length (accounts f'); history := history L |} f' /\
  extends L [] {| size := length (accounts f'); history := history L |}.
Proof.
  intros Hs (Hi & (Hl & Ht & Ha) & HL). destruct (farm_calls_inv f f' Hs Hi) as (Hi' & l & El & Fl & Sl).
  assert (Hn : (size L <= length (accounts f'))%nat) by (rewrite El, length_app; lia).
  split; [|by apply extends_step, LGrow]. split_and!; [done | split_and!; cbn; [done | by rewrite Sl |] |].
  - intros i a k Hk. rewrite El in Hk. apply lookup_app_Some in Hk as [Hk|[Hge Hk]]; [by eapply Ha|].
    rewrite Forall_lookup in Fl. rewrite (Fl _ _ Hk k), verdicts_for_none; [done|].
    intros i' k' Hj. pose proof (HL _ Hj) as Hr. cbn in Hr. lia.
  - intros x Hx. cbn in *. pose proof (HL _ Hx). destruct x; lia.
Qed.

(** Accounting: one verdict more, for the farm and for one miner. *)
Lemma rep_account L f now i k : farm_rep L f -> 0 <= i < Z.of_nat (size L) ->
  exists f', accountSolution now i k f = (Ok tt, f') /\ farm_rep (record (Judged i k) L) f'.
Proof.
  intros (Hi & (Hl & Ht & Ha) & HL) Hr. rewrite <- Hl in Hr.
  destruct (accountSolution_in_range now i k f Hr) as (a & f' & E & Ea & Hacc & Hg & _).
  pose proof (accountSolution_inv now i k f Hr Hi) as [_ Hi']. rewrite E in Hi'. cbn [snd] in Hi'.
  assert (Hbump : forall k' b, counter k' (bump k now b) = u32 (counter k' b + if decide (k = k') then 1 else 0)
    \/ k <> k' /\ counter k' (bump k now b) = counter k' b).
  { intros k' b. destruct (decide (k = k')) as [<-|Hk]; [left; by destruct k | right; split; [done|]].
    by destruct k, k'. }
  exists f'. split; [done|]. split_and!; [done | split_and!; cbn | rewrite Hl in Hr; by apply legal_record].
  - by rewrite Hacc, length_insert.
  - intros k'. rewrite Hg, verdicts_app, verdicts_one, <- (wrap_add_l 32), <- Ht.
    destruct (Hbump k' (getSolutions f)) as [->|[Hk ->]]; [done|]. rewrite decide_False by done.
    by rewrite Z.add_0_r, Ht, wrap_wrap.
  - intros j b k' Hb. rewrite Hacc in Hb. rewrite verdicts_for_app, verdicts_for_one, <- (wrap_add_l 32).
    destruct (decide (j = Z.to_nat i)) as [->|Hj].
    + rewrite list_lookup_insert_eq in Hb by lia. injection Hb as <-. rewrite <- (Ha _ _ _ Ea).
      destruct (Hbump k' a) as [->|[Hk ->]].
      * f_equal. f_equal. rewrite Z2Nat.id by lia. repeat case_decide; naive_solver.
      * rewrite decide_False by naive_solver. by rewrite Z.add_0_r, (Ha _ _ _ Ea), wrap_wrap.
    + rewrite list_lookup_insert_ne in Hb by lia. rewrite decide_False by lia.
      by rewrite Z.add_0_r, wrap_wrap, (Ha _ _ _ Hb).
Qed.

(** ** The simulation *)

Lemma verdict_labels e : verdict_of e = [] \/
  exists i k, verdict_of e = [Judged i k] /\ (k = Accepted \/ k = Rejected) /\
    (forall n, promised n e -> 0 <= i <= n) /\
    (forall now rnd ep, deliver find_epoch_number now rnd ep e = onSolution k now i).
Proof.
  destruct e; try (by left); right; cbn; [exists minerIdx, Accepted | exists minerIdx, Rejected];
    split_and!; try done; by auto.
Qed.

(** A verdict the client may report belongs to a known miner. *)
Lemma verdict_known L i : legal L -> 0 <= i <= bound (history L) ->
  exists j, Claimed j ∈ history L /\ 0 <= i <= j /\ i < Z.of_nat (size L).
Proof.
  intros HL [H0 Hb]. destruct (bound_claimed (history L)) as (j & Hj & E); [lia|]. exists j.
  pose proof (HL _ Hj) as Hr. cbn in Hr. split_and!; [done | lia | lia | lia].
Qed.

Lemma bound_verdicts h e : bound (h ++ verdict_of e) = bound h.
Proof.
  rewrite bound_app. pose proof (bound_min h).
  destruct (verdict_labels e) as [->|(i & k & -> & _)]; cbn; lia.
Qed.

Lemma deliver_sim now rnd ep e s s' L : farm_rep L (pm_farm s) -> promised (bound (history L)) e ->
  deliver find_epoch_number now rnd ep e s = (Ok tt, s') ->
  exists L', extends L (verdict_of e) L' /\ farm_rep L' (pm_farm s').
Proof.
  intros HR He E. destruct (verdict_labels e) as [Hv|(i & k & Hv & Hk & Hok & Hd)].
  - pose proof (deliver_farm now rnd ep e s Hv) as Hc. rewrite E in Hc. cbn [snd] in Hc.
    destruct (rep_calls L _ _ Hc HR) as [HR' Hx]. rewrite Hv. eauto.
  - rewrite Hd in E. destruct (verdict_known L i) as (j & Hj & Hij & Hn);
      [apply HR | by apply Hok |].
    destruct (rep_account L (pm_farm s) now i k HR) as (f' & Ha & HR'); [lia|].
    unfold onSolution in E. rewrite Ha in E. injection E as <-.
    exists (record (Judged i k) L). rewrite Hv. split; [|exact HR']. by apply extends_step, LVerdict with j.
Qed.

Lemma deliver_all_sim now rnd ep evs : forall s s' L, farm_rep L (pm_farm s) ->
  Forall (promised (bound (history L))) evs ->
  deliver_all find_epoch_number now rnd ep evs s = (Ok tt, s') ->
  exists L', extends L (flat_map verdict_of evs) L' /\ farm_rep L' (pm_farm s') /\
    bound (history L') = bound (history L).
Proof.
  induction evs as [|e evs IH]; intros s s' L HR He E.
  - injection E as <-. exists L. split_and!; [apply extends_refl | done | done].
  - cbn [deliver_all] in E. apply Forall_cons in He as [He Hes]. unfold se_bind in E.
    destruct (deliver find_epoch_number now rnd ep e s) as [[[]|] s1] eqn:E1; [|done].
    destruct (deliver_sim _ _ _ _ _ _ _ HR He E1) as (L1 & X1 & HR1).
    assert (Hb : bound (history L1) = bound (history L)).
    { destruct X1 as (_ & -> & _). apply bound_verdicts. }
    rewrite <- Hb in Hes. destruct (IH s1 s' L1 HR1 Hes E) as (L2 & X2 & HR2 & Hb2). exists L2.
    split_and!; [cbn [flat_map]; by eapply extends_trans | done | congruence].
Qed.

Lemma proofs_weaken (L L' : ledger) (l : list Solution) : (size L <= size L')%nat ->
  Forall (fun s => 0 <= midx s < Z.of_nat (size L)) l -> Forall (fun s => 0 <= midx s < Z.of_nat (size L')) l.
Proof. intros H Hl. eapply Forall_impl; [done|]. cbn. lia. Qed.

Lemma client_call_sim now rnd ep m y evs y' L : represents L y ->
  keeps_promise client_ok (bound (history L)) (m (cl y)) ->
  client_call find_epoch_number now rnd ep m y = (Ok evs, y') ->
  exists L', extends L (flat_map verdict_of evs) L' /\ represents L' y'.
Proof.
  intros [HR _ Hp] [Hc Hl] E. unfold client_call in E. destruct (m (cl y)) as [[r c] l]. cbn in Hc, Hl.
  destruct (deliver_all _ now rnd ep l (mgr y)) as [[[]|] s] eqn:Ed; [|by destruct r].
  destruct r; [|done]. injection E as <- <-.
  destruct (deliver_all_sim _ _ _ _ _ _ L HR Hl Ed) as (L' & X & HR' & Hb).
  exists L'. split; [done|]. split; cbn; [done | by rewrite Hb |].
  eapply proofs_weaken; [apply X | done].
Qed.

Lemma serve_sim now rnd ep sol y ls y' L : represents L y -> 0 <= midx sol < Z.of_nat (size L) ->
  serve find_epoch_number now rnd ep [ASubmitSolution sol] y = (Ok ls, y') ->
  exists L', extends L ls L' /\ represents L' y'.
Proof.
  intros [HR Hc Hp] Hm E. cbn [serve] in E. set (L1 := record (Claimed (midx sol)) L).
  assert (X1 : extends L [Claimed (midx sol)] L1) by by apply extends_step, LClaim.
  assert (Hr1 : represents L1 y).
  { destruct HR as (Hi & (Hl & Ht & Ha) & HL). split; cbn; [split_and!; [done | split_and!; cbn | by apply legal_record] | | done].
    - done.
    - intros k. rewrite verdicts_app, Ht. by rewrite verdicts_claim, Z.add_0_r.
    - intros i a k Hk. rewrite verdicts_for_app, (Ha _ _ _ Hk). by rewrite verdicts_for_claim, Z.add_0_r.
    - eapply ok_mono; [|done]. rewrite bound_app. lia. }
  unfold se_bind in E.
  destruct (client_call find_epoch_number now rnd ep (submitSolution now sol) y) as [[evs|] y1] eqn:Ec; [|done].
  cbn in E. injection E as <- <-. rewrite app_nil_r.
  assert (Ho : keeps_promise client_ok (bound (history L1)) (submitSolution now sol (cl y))).
  { apply submit_ok; [|apply Hr1]. cbn. rewrite bound_app. cbn. lia. }
  destruct (client_call_sim _ _ _ _ _ _ _ L1 Hr1 Ho Ec) as (L2 & X2 & Hr2).
  exists L2. split; [|done]. change (Claimed (midx sol) :: flat_map verdict_of evs)
    with ([Claimed (midx sol)] ++ flat_map verdict_of evs). by eapply extends_trans.
Qed.

Lemma submitProofAsync_result now sol f : 
  submitProofAsync now sol f = (exec accountSolution now (midx sol) Failed; se_ret None)%se f \/
  exists sol', submitProofAsync now sol f = (Ok (Some sol'), f) /\ midx sol' = midx sol.
Proof. unfold submitProofAsync. repeat case_match; [by left | right; eexists; by split ..]. Qed.

Lemma run_proof_sim now rnd ep y ls y' L : represents L y ->
  run_proof find_epoch_number now rnd ep y = (Ok ls, y') ->
  exists L', extends L ls L' /\ represents L' y'.
Proof.
  intros [HR Hc Hp] E. unfold run_proof in E. destruct (proofs y) as [|sol l] eqn:Epr.
  { injection E as <- <-. exists L. split; [apply extends_refl | split; by rewrite ?Epr]. }
  apply Forall_cons in Hp as [Hm Hp].
  destruct (submitProofAsync_result now sol (pm_farm (mgr y))) as [Es|(sol' & Es & Em)]; rewrite Es in E.
  - destruct (rep_account L (pm_farm (mgr y)) now (midx sol) Failed HR Hm) as (f' & Ha & HR').
    unfold se_bind in E. rewrite Ha in E. cbn in E. injection E as <- <-.
    exists (record (Judged (midx sol) Failed) L). split; [by apply extends_step, LFail|].
    split; cbn; [done | | done]. by rewrite bound_app, Z.max_l by (pose proof (bound_min (history L)); cbn; lia).
  - cbn zeta in E. unfold onSolutionFound in E.
    set (s0 := put_trace [] _) in E.
    assert (Hf : pm_farm s0 = pm_farm (mgr y)).
    { unfold s0, view_client, PoolManager.set_connected. cbn. by destruct (p_client _). }
    destruct (PoolManager.isConnected s0).
    + cbn [trace PoolManager.emit put_trace s0 app] in E. rewrite <- Em in Hm.
      eapply serve_sim; [| exact Hm | exact E]. split; [change (farm_rep L (pm_farm s0)); by rewrite Hf | done | done].
    + cbn in E. injection E as <- <-. exists L. split; [apply extends_refl|].
      split; [change (farm_rep L (pm_farm s0)); by rewrite Hf | done | done].
Qed.

(** The search of a miner reports solutions under the miner's own index. *)
Lemma search_loop_index w idx env : forall s, m_index (s_miner s) = idx ->
  Forall (fun sol => midx sol = idx) (s_found s) ->
  Forall (fun sol => midx sol = idx) (s_found (search_loop randomx w env s)).
Proof.
  induction env as [|t env IH]; intros s Hi Hs; cbn [search_loop]; [done|].
  set (m := if kicked t then _ else _). assert (Hm : m_index m = idx) by (rewrite <- Hi; unfold m; by destruct (kicked t)).
  destruct (m_new_work m); [done|]. destruct (asked_to_stop t); [done|].
  apply IH; cbn [s_found s_miner]; [by rewrite (proj1 (updateHashRate_keeps _ _ _ _))|].
  apply Forall_app. split; [done|]. apply Forall_forall. intros sol Hsol. unfold search_block in Hsol.
  apply list_elem_of_omap in Hsol as (n & _ & Ht). unfold try_nonce in Ht. case_match; by simplify_eq.
Qed.
Lemma search_index has_vm w env m sol : sol ∈ s_found (search randomx has_vm w env m) -> midx sol = m_index m.
Proof.
  unfold search. destruct has_vm; [|by intros ?%elem_of_nil]. intros H.
  pose proof (search_loop_index w (m_index m) env {| s_miner := m; s_nonce := startNonce w; s_found := []; s_running := true |}
    eq_refl ltac:(constructor)) as Hf. rewrite Forall_forall in Hf. by apply Hf.
Qed.

Lemma sys_step_sim y ls y' L : represents L y ->
  sys_step find_epoch_number iequals randomx y ls y' -> exists L', extends L ls L' /\ represents L' y'.
Proof.
  intros Hr Hs. destruct Hs as [now rnd ep o y evs y' E|c y Hx|o s r y E|f y Hf|l y Hl|i x vm w env sol y Hi Hf|now rnd ep ls y y' E].
  - eapply client_call_sim; [done | | done]. apply perform_ok; [apply bound_min | apply Hr].
  - exists L. split; [apply extends_refl|]. destruct Hr. split; cbn; [done | | done].
    eapply ok_mono; [apply bound_min | by apply made_ok].
  - destruct Hr as [HR Hc Hp]. pose proof (manager_call_farm o (view_client y)) as Hm. rewrite E in Hm.
    assert (Hv : pm_farm (view_client y) = pm_farm (mgr y)).
    { unfold view_client, PoolManager.set_connected. by destruct (p_client _). }
    cbn [snd] in Hm. rewrite Hv in Hm. destruct (rep_calls L _ _ Hm HR) as [HR' X].
    eexists. split; [exact X|]. split; [exact HR' | exact Hc | eapply proofs_weaken; [apply X | exact Hp]].
  - destruct Hr as [HR Hc Hp]. destruct (rep_calls L _ _ (star_one _ _ _ Hf) HR) as [HR' X].
    eexists. split; [exact X|]. split; [exact HR' | exact Hc | eapply proofs_weaken; [apply X | exact Hp]].
  - exists L. split; [apply extends_refl|]. destruct Hr as [HR Hc Hp]. split; cbn; [done | done |]. by rewrite Hl.
  - exists L. split; [apply extends_refl|]. destruct Hr as [HR Hc Hp]. split; cbn; [done | done |].
    apply Forall_app. split; [done|]. constructor; [|done]. rewrite (search_index _ _ _ _ _ Hf).
    destruct HR as (Hfi & (Hl & _) & _). rewrite <- Hl. apply index_range; [done|]. by eapply list_elem_of_lookup_2.
  - by eapply run_proof_sim.
Qed.

(** The system before anything happened: a fresh farm, manager and client. *)
Definition System_new (ps : PoolSettings) (store : list URI) (conns : list nat) (devs : devices)
    (settings : FarmSettings) (c : Client) (now rnd : Z) : System := {|
  cl := c;
  mgr := PoolManager_new ps store conns (Farm_new devs settings now rnd);
  proofs := [] |}.

Definition empty_ledger : ledger := {| size := 0; history := [] |}.

(** C3: The composed system implements the ledger of shares and verdicts, with any client of the
    interface PoolClient (stratum, getwork, simulation, or now one and now another).  Whatever the
    pool sends, however the connection is lost and restored, in whatever order the posted proofs run, and
    however the threads of the miners, the farm, the manager and the client interleave, what an observer sees is a run of the ledger (the pool's
    verdicts always concern a miner that was known when some share was claimed, by it or by a later
    one), and at every moment the counters of the farm's telemetry, per miner and in total, are
    exactly the numbers of accepted, rejected and failed shares in the ledger (modulo 2^32): no
    verdict is lost, counted twice or credited to another miner. *)
Theorem system_implements_ledger (ps : PoolSettings) (store : list URI) (conns : list nat) (devs : devices)
    (settings : FarmSettings) (c : Client) (now rnd : Z) (h : list label) (y : System) :
  made c -> sys_run find_epoch_number iequals randomx (System_new ps store conns devs settings c now rnd) h y ->
  exists L, ledger_run empty_ledger h L /\ history L = h /\ shows L (pm_farm (mgr y)).
Proof.
  intros Hm Hrun.
  assert (H0 : represents empty_ledger (System_new ps store conns devs settings c now rnd)).
  { split; cbn; [split_and!| by apply made_ok | done].
    - apply farm_reachable_inv. do 4 eexists. apply star_refl.
    - split_and!; [done | by intros [] | done].
    - by intros l ?%elem_of_nil. }
  assert (Hgen : exists L, extends empty_ledger h L /\ represents L y).
  { revert H0. generalize empty_ledger. induction Hrun as [y|y ls y1 h y2 Hs _ IH]; intros L0 H0.
    - exists L0. split; [apply extends_refl | done].
    - destruct (sys_step_sim _ _ _ _ H0 Hs) as (L1 & X1 & H1). destruct (IH _ H1) as (L2 & X2 & H2).
      exists L2. split; [by eapply extends_trans | done]. }
  destruct Hgen as (L & (R & Hh & _) & HR). exists L. split_and!; [done | done | apply HR].
Qed.

(** ** Executable schedules *)

Inductive command :=
  | CClient (now rnd : Z) (ep : string) (o : call)
  | CNewClient (c : { c | made c })
  | CManager (o : manager_op)
  | CMiner (i : nat) (o : Miner.miner_op)
  | CFound (i : nat) (w : WorkPackage) (env : list turn) (n : nat)
  | CProof (now rnd : Z) (ep : string).

Definition run_command (c : command) (y : System) : option (list label * System) :=
  match c with
  | CClient now rnd ep o =>
      match client_call find_epoch_number now rnd ep (perform now o) y with
      | (Ok evs, y') => Some (flat_map verdict_of evs, y')
      | _ => None
      end
  | CNewClient c => Some ([], {| cl := proj1_sig c; mgr := mgr y; proofs := proofs y |})
  | CManager o => Some ([], {| cl := cl y; mgr := snd (manager_call iequals o (view_client y)); proofs := proofs y |})
  | CMiner i o =>
      let f := with_miners (alter (on_miner (fun m => Miner.apply_op m o)) i (m_miners (pm_farm (mgr y)))) (pm_farm (mgr y)) in
      Some ([], {| cl := cl y; mgr := put_farm f (mgr y); proofs := proofs y |})
  | CFound i w env n =>
      match m_miners (pm_farm (mgr y)) !! i with
      | Some x => match s_found (search randomx true w env (fm x)) !! n with
                  | Some sol => Some ([], submitProof sol y)
                  | None => None
                  end
      | None => None
      end
  | CProof now rnd ep =>
      match run_proof find_epoch_number now rnd ep y with (Ok ls, y') => Some (ls, y') | _ => None end
  end.

Fixpoint run_script (cs : list command) (y : System) : option (list label * System) :=
  match cs with
  | [] => Some ([], y)
  | c :: cs' => match run_command c y with
                | Some (ls, y1) => match run_script cs' y1 with
                                   | Some (h, y2) => Some (ls ++ h, y2)
                                   | None => None
                                   end
                | None => None
                end
  end.

Lemma run_command_sound c y ls y' : run_command c y = Some (ls, y') ->
  sys_step find_epoch_number iequals randomx y ls y'.
Proof.
  destruct c; cbn [run_command]; intros E.
  - destruct (client_call find_epoch_number now rnd ep (perform now o) y) as [[evs|] y1] eqn:Ec; [|done].
    injection E as <- <-. by eapply SyClient.
  - injection E as <- <-. apply SyNewClient, (proj2_sig c).
  - injection E as <- <-. destruct (manager_call iequals o (view_client y)) as [r s] eqn:Em.
    by eapply SyManager.
  - injection E as <- <-. apply SyFarm, FcMiner.
  - destruct (m_miners (pm_farm (mgr y)) !! i) as [x|] eqn:Ex; [|done].
    destruct (s_found (search randomx true w env (fm x)) !! n) as [sol|] eqn:Es; [|done].
    injection E as <- <-. eapply SyFound; [done | by eapply list_elem_of_lookup_2].
  - destruct (run_proof find_epoch_number now rnd ep y) as [[ls'|] y1] eqn:Ep; [|done].
    injection E as <- <-. by eapply SyProof.
Qed.

Lemma run_script_sound cs : forall y h y', run_script cs y = Some (h, y') ->
  sys_run find_epoch_number iequals randomx y h y'.
Proof.
  induction cs as [|c cs IH]; cbn [run_script]; intros y h y' E; [injection E as <- <-; constructor|].
  destruct (run_command c y) as [[ls y1]|] eqn:Ec; [|done].
  destruct (run_script cs y1) as [[h1 y2]|] eqn:Es; [|done]. injection E as <- <-.
  eapply sys_run_step; [by eapply run_command_sound | by apply IH].
Qed.

End system_theorems.

(** * A mining session

    Three miners.  With the stratum client: login, a job, two shares, one accepted and one rejected;
    then the manager turns to the simulation, which accepts a share. *)

Import Stratum Simulate.

#[local] Existing Instance Farm.zero_ethash.
#[local] Existing Instance BoostModel.boost.
#[local] Existing Instance JsonModel.json.
#[local] Existing Instance BigIntegerModel.instance.
#[local] Existing Instance DoubleTextModel.instance.

Definition example_clients : PoolClient := any_client "cm" (fun _ _ => 3).
#[local] Existing Instance example_clients.

Lemma stratum_made wt rt now : @made (stratum_client "cm") (Stratum_new wt rt now 0).
Proof. exists wt, rt, now, 0. split; [lia | done]. Qed.
Lemma simulate_made block : @made (simulate_client (fun _ _ => 3)) (Simulate_new block).
Proof. by exists block. Qed.
Definition new_stratum : { c | made c } := exist _ (inl (Stratum_new 180 2 0 0)) (stratum_made 180 2 0).
Definition new_simulation : { c | made c } := exist _ (inr (inr (Simulate_new 0))) (simulate_made 0).

Definition example_system : System :=
  System_new example_pool_settings [example_uri "stratum1+tcp://a@1.2.3.4:1"] [0%nat] example_devices
    {| dagLoadMode := 0; noEval := true; ergodicity := 0 |} (proj1_sig new_stratum) 0 77.

Definition jobject_of (l : list (string * JsonModel.jv)) : JsonModel.jv := JsonModel.JObj l.
Definition line (l : list (string * JsonModel.jv)) : string :=
  JsonModel.write (jobject_of l) +:+ String (chr 10) "".
Definition jhash (b : Z) : JsonModel.jv := JsonModel.JStr (hash_hex (replicate 32 b) Add).
Definition example_notify : string := line [("method", JsonModel.JStr "mining.notify");
  ("params", JsonModel.JArr [JsonModel.JStr "job1"; jhash 1; jhash 2; jhash 255])].
Definition example_reply (id : Z) (ok : bool) : string :=
  line [("id", JsonModel.JInt id); ("result", JsonModel.JBool ok)].

Definition quiet_turn : turn := {| kicked := false; asked_to_stop := false; at_time := 7 |}.
Definition on_stratum (o : operation) (H : is_submission o = false) : command :=
  CClient (Cli := example_clients) 5 0 "" (inl (exist _ o H)).
Definition on_simulation (o : simulate_call) : command :=
  CClient (Cli := example_clients) 5 0 "" (inr (inr o)).

Definition example_session : list command := [
  CManager MStart; CManager MRotate; CNewClient new_stratum;
  on_stratum (OSetConnection (example_uri "stratum1+tcp://a@1.2.3.4:1")) eq_refl;
  on_stratum (OConnect (fun h _ => Ok h)) eq_refl; on_stratum (OResolved (Some ["1.2.3.4:1"])) eq_refl;
  on_stratum OPosted eq_refl; on_stratum (OConnected EcOk true) eq_refl; on_stratum (OSent EcOk) eq_refl;
  on_stratum (OReceived EcOk (example_reply 1 true)) eq_refl; on_stratum (OSent EcOk) eq_refl;
  on_stratum (OReceived EcOk (example_reply 3 true)) eq_refl;
  on_stratum (OReceived EcOk example_notify) eq_refl;
  CMiner 1 OpConsumeNewWork; CMiner 2 OpConsumeNewWork;
  CFound 1 example_work [quiet_turn] 4; CFound 2 example_work [quiet_turn] 0;
  CProof 6 0 ""; on_stratum (OSent EcOk) eq_refl; CProof 6 0 ""; on_stratum (OSent EcOk) eq_refl;
  on_stratum (OReceived EcOk (example_reply 42 true)) eq_refl;
  on_stratum (OReceived EcOk (example_reply 41 false)) eq_refl;
  CNewClient new_simulation;
  on_simulation (MSetConnection (example_uri "simulation://h:1")); on_simulation MConnect;
  CFound 1 example_work [quiet_turn] 5; CProof 9 0 ""].

(** What is observed, and the accepted and rejected counters of the miners. *)
Definition observed (r : list label * System) : list label * list (Z * Z) :=
  (fst r, map (fun a => (accepted a, rejected a)) (accounts (pm_farm (mgr (snd r))))).

Definition example_history : list label := [Claimed 1; Claimed 2; Judged 2 Accepted; Judged 1 Rejected;
  Claimed 1; Judged 1 Accepted].

Lemma session_observed :
  observed <$> run_script (fun _ => 0) String.eqb (fun _ => h_zero 32) example_session example_system =
  Some (example_history, [(0, 0); (1, 1); (1, 0)]).
Proof. vm_compute. reflexivity. Qed.

Lemma observed_result (o : option (list label * System)) h l : observed <$> o = Some (h, l) ->
  exists y, o = Some (h, y).
Proof. destruct o as [[h' y]|]; [|done]. cbn. intros [= -> _]. by exists y. Qed.

Lemma session_runs : exists y, sys_run (fun _ => 0) String.eqb (fun _ => h_zero 32) example_system
  example_history y.
Proof.
  destruct (observed_result _ _ _ session_observed) as [y E]. exists y. exact (run_script_sound _ _ _ _ _ _ _ E).
Qed.

Lemma system_implements_ledger_witness : exists L, ledger_run empty_ledger example_history L.
Proof.
  destruct session_runs as [y Hy].
  destruct (system_implements_ledger (fun _ => 0) String.eqb (fun _ => h_zero 32) _ _ _ _ _ _ _ _ _ y
    (proj2_sig new_stratum) Hy) as (L & HL & _). by exists L.
Defined.
