(* ===== verification/Shares.v ===== *)
(** * Jobs and shares, from the pool to the miners and back

    The way of a job through the components (src/libpoolprotocols/stratum/XcbStratumClient.cpp,
    src/libpoolprotocols/PoolManager.cpp, src/libethcore/Farm.cpp, src/libethash-cpu/CPUMiner.cpp):
    a line of the pool becomes the work of every miner, each in its own part of the nonces the pool
    granted; the shares the miners find are distinct and carry the pool's extranonce; a share is
    written to the pool, and the reply to it is counted for its miner. *)

From S2P Require Import Prelude CppString Lines CommonData FixedHash Worker Float Difficulty.
From S2P Require Import Types Miner CpuMiner Farm PoolURI Json PoolManager Stratum StratumStream StratumProtocol.
From S2P Require PoolClient.
From S2P Require Import System.

Section shares.
Context {Eth : Ethash} {Big : BigInteger} {Bst : BoostUri} {Jsn : Json} {Dbl : DoubleText}.
Context (name : string) (find_epoch_number : hash -> Z) (iequals : string -> string -> bool).
Context (randomx : bytes -> hash).

(** The system with the stratum client, and the arrival of bytes at its socket. *)
#[local] Instance protocol : PoolClient.PoolClient := PoolClient.stratum_client name.
Definition receive (now : Z) (data : string) : Stratum -> PoolClient.outcome Stratum :=
  PoolClient.perform (PoolClient := protocol) now (PoolClient.received data).

(** ** A client at rest *)

(** A line of the pool, and the message it is. *)
Definition is_line (line : string) (R : J) : Prop :=
  find_char (chr 10) line = None /\ trim line <> "" /\ json_parse (trim line) = Some R.

(** A client that is connected to [u], with no part of a line received. *)
Record listening (s : Stratum) (u : URI) : Prop := {
  l_ready : ready s;
  l_connected : Stratum.isConnected s = true;
  l_message : m_message s = "";
  l_conn : Stratum.m_conn s = Some u }.

(** Nothing is being sent and no answer is awaited. *)
Record at_rest (s : Stratum) : Prop := {
  r_txPending : m_txPending s = false;
  r_txQueue : m_txQueue s = [];
  r_sendBuffer : m_sendBuffer s = "";
  r_count : m_response_pleas_count s = 0;
  r_times : m_response_plea_times s = [] }.

(** ** The shares of a job *)

(** What an uninterrupted search submits. *)
Lemma search_shares w env m : Forall quiet env -> m_new_work m = false ->
  0 <= startNonce w -> startNonce w + 30 * Z.of_nat (length env) < 2 ^ 64 ->
  let found := s_found (search randomx true w env m) in
  NoDup (nonce <$> found) /\
  forall s, s ∈ found -> work s = w /\ midx s = m_index m /\ mixHash s = pow_hash randomx w (nonce s) /\
    startNonce w <= nonce s < startNonce w + 30 * Z.of_nat (length env) /\
    is_less_or_equal (mixHash s) (boundary w) = true.
Proof.
  intros Hq Hw H0 Hn found. unfold search in found.
  destruct (search_loop_quiet randomx w env Hq {| s_miner := m; s_nonce := startNonce w; s_found := [];
    s_running := true |}) as (_ & _ & E); auto. cbn [s_found s_nonce s_miner fmap list_fmap app] in E.
  fold found in E. change blocksize with 30 in E. set (ns := filter _ _) in E. clearbody found. split.
  - apply (f_equal (fmap (fun x => fst (fst (fst x))))) in E. rewrite <- !list_fmap_compose in E.
    change (nonce <$> found = (fun n => n) <$> ns) in E. rewrite E, list_fmap_id. subst ns. apply NoDup_filter, NoDup_seqZ.
  - intros s Hs. apply (list_elem_of_fmap_2 (fun x => (nonce x, mixHash x, work x, midx x))) in Hs.
    rewrite E in Hs. apply list_elem_of_fmap in Hs as (n & En & Hs). injection En as -> -> -> ->.
    apply list_elem_of_filter in Hs as [Hle Hr]. apply elem_of_seqZ in Hr. unfold is_true in *. split_and!; (done || lia).
Qed.

(** The search of a farm miner for the work it was given, once it has noticed the new work. *)
Definition searched (env : list turn) (x : FarmMiner) : list Solution :=
  s_found (search randomx true (m_work (fm x)) env (set_new_work false (fm x))).

(** The work a miner was given, up to the start of its segment. *)
Definition same_job (w wp : WorkPackage) : Prop := w = set_startNonce (startNonce w) wp.

(** An extranonce of [n] digits leaves the rest of the 16 to the miners: every miner that is not paused
    gets a segment of its own inside them. *)
Lemma extranonce_segments rnd wp f n v :
  exSizeBytes wp = Z.of_nat n -> (1 <= n <= 15)%nat -> 0 <= v < 16 ^ Z.of_nat n ->
  startNonce wp = v * 16 ^ Z.of_nat (16 - n) ->
  0 < Z.of_nat (length (m_miners f)) <= 16 ^ Z.of_nat (16 - n) -> Z.of_nat (length (m_miners f)) < 2 ^ 32 ->
  exists f' w, Farm.setWork rnd wp f = Ok f' /\ m_nonce_segment_with f' = w /\ 0 <= w /\
    length (m_miners f') = length (m_miners f) /\
    Z.of_nat (length (m_miners f)) * 2 ^ w <= 16 ^ Z.of_nat (16 - n) /\
    0 <= startNonce wp /\ startNonce wp + 16 ^ Z.of_nat (16 - n) <= 2 ^ 64 /\
    forall p x', m_miners f' !! p = Some x' -> Miner.paused (fm x') = false ->
      (p < length (m_miners f))%nat /\ m_work (fm x') = set_startNonce (startNonce wp + Z.of_nat p * 2 ^ w) wp.
Proof.
  intros Hex Hn Hv Hst Hm Hm32.
  assert (Hpow : 2 ^ (64 - exSizeBytes wp * 4) = 16 ^ Z.of_nat (16 - n)).
  { rewrite Hex. change (16 ^ Z.of_nat (16 - n)) with ((2 ^ 4) ^ Z.of_nat (16 - n)). rewrite <- Z.pow_mul_r by lia. f_equal. lia. }
  assert (H64 : 16 ^ Z.of_nat n * 16 ^ Z.of_nat (16 - n) = 2 ^ 64).
  { rewrite <- Z.pow_add_r by lia. by replace (Z.of_nat n + Z.of_nat (16 - n)) with 16 by lia. }
  assert (Hp : 0 < 16 ^ Z.of_nat (16 - n)) by (apply Z.pow_pos_nonneg; lia).
  destruct (setWork_segments rnd wp f) as (f' & w & Hf' & Hw' & Hw & Hlen & Hfit & Hbase & Hx);
    rewrite ?Hpow in *; try (lia || done); [split; nia | rewrite Hst; by apply Z_mod_mult |].
  exists f', w. split_and!; try done. rewrite Hst. apply Z.mul_nonneg_nonneg; lia.
Qed.

(** C5: The shares of a job, and when two of them collide.  After [setWork] with an extranonce of [n]
    hexadecimal digits, let every miner that is not paused search for any number of turns that keeps
    its nonces below 2^64.  A miner starts at its own segment and finds no nonce twice; every share
    is for the pool's job, under the finder's index, hashes to at most the job's boundary, and - while
    its nonce is in the range the pool granted - its 16 digits are the pool's extranonce followed by
    exactly the digits a submission carries.  The search does not look at the end of the segment, so
    two miners can find the same nonce; but only when the one with the lower index has left its
    segment.  As long as every miner stays in its segment all shares are distinct. *)
Theorem shares_distinct (rnd : Z) (wp : WorkPackage) (f : Farm) (n : nat) (v : Z) (env : nat -> list turn) :
  exSizeBytes wp = Z.of_nat n -> (1 <= n <= 15)%nat -> 0 <= v < 16 ^ Z.of_nat n ->
  startNonce wp = v * 16 ^ Z.of_nat (16 - n) ->
  0 < Z.of_nat (length (m_miners f)) <= 16 ^ Z.of_nat (16 - n) -> Z.of_nat (length (m_miners f)) < 2 ^ 32 ->
  (forall i, Forall quiet (env i)) ->
  exists f', Farm.setWork rnd wp f = Ok f' /\
    let width := 2 ^ m_nonce_segment_with f' in
    let first x := startNonce (m_work (fm x)) in
    let granted_end := startNonce wp + 16 ^ Z.of_nat (16 - n) in
    let mines i x := m_miners f' !! i = Some x /\ Miner.paused (fm x) = false /\
                     first x + 30 * Z.of_nat (length (env i)) < 2 ^ 64 in
    (forall i x, mines i x ->
       first x = startNonce wp + Z.of_nat i * width /\ first x + width <= granted_end /\
       NoDup (nonce <$> searched (env i) x) /\
       forall s, s ∈ searched (env i) x ->
         same_job (work s) wp /\ midx s = m_index (fm x) /\
         mixHash s = pow_hash randomx wp (nonce s) /\ is_less_or_equal (mixHash s) (boundary wp) = true /\
         first x <= nonce s < first x + 30 * Z.of_nat (length (env i)) /\
         (nonce s < granted_end ->
          exists t, short_nonce s = Ok t /\ toHex_uint64 (nonce s) DontAdd 16 = hex_fixed n v +:+ t)) /\
    (forall i j xi xj si sj, mines i xi -> mines j xj -> si ∈ searched (env i) xi -> sj ∈ searched (env j) xj ->
       nonce si = nonce sj -> (i < j)%nat -> first xi + width <= nonce si) /\
    (forall i j xi xj si sj, mines i xi -> mines j xj -> si ∈ searched (env i) xi -> sj ∈ searched (env j) xj ->
       nonce si < first xi + width -> nonce sj < first xj + width -> nonce si = nonce sj -> i = j).
Proof.
  intros Hex Hn Hv Hst Hm Hm32 Hq.
  destruct (extranonce_segments rnd wp f n v Hex Hn Hv Hst Hm Hm32)
    as (f' & w & Hf' & Hw' & Hw & Hlen & Hfit & Hst0 & Hbase & Hx).
  exists f'. split; [done|]. rewrite Hw'. intros width first granted_end mines.
  assert (Hwidth : 0 < width) by (apply Z.pow_pos_nonneg; lia).
  assert (Hmine : forall i x, mines i x -> first x = startNonce wp + Z.of_nat i * width /\ first x + width <= granted_end /\
    m_work (fm x) = set_startNonce (first x) wp /\ NoDup (nonce <$> searched (env i) x) /\
    forall s, s ∈ searched (env i) x ->
      work s = m_work (fm x) /\ midx s = m_index (fm x) /\ mixHash s = pow_hash randomx (m_work (fm x)) (nonce s) /\
      first x <= nonce s < first x + 30 * Z.of_nat (length (env i)) /\
      is_less_or_equal (mixHash s) (boundary (m_work (fm x))) = true).
  { intros i x (Hi & Hpa & He). destruct (Hx i x Hi Hpa) as [Hil Ew].
    destruct (segment_step i (length (m_miners f)) w Hw Hil) as [Hb0 Hb1].
    assert (Hsn : first x = startNonce wp + Z.of_nat i * width) by (unfold first; by rewrite Ew).
    destruct (search_shares (m_work (fm x)) (env i) (set_new_work false (fm x))) as [Hnd Hall];
      [done | done | fold (first x); lia | exact He |].
    split_and!; try done; [unfold granted_end, width in *; lia | by rewrite Hsn]. }
  split_and!.
  - intros i x Hi. destruct (Hmine i x Hi) as (Eb & Hb1 & Ew & Hnd & Hall). split_and!; try done.
    intros s Hs. destruct (Hall s Hs) as (Hwk & Hid & Hmix & Hr & Hle). rewrite Ew in Hwk, Hmix, Hle.
    split_and!; try (done || lia); [by rewrite Hwk|]. intros Hg.
    destruct (extranonce_text n v (nonce s - startNonce wp) s) as [Hsh Htx]; [unfold granted_end in *; lia..| rewrite Hwk; exact Hex |].
    by eexists.
  - intros i j xi xj si sj Hi Hj Hsi Hsj E Hlt.
    destruct (Hmine i xi Hi) as (Ei & _ & _ & _ & Hai), (Hmine j xj Hj) as (Ej & _ & _ & _ & Haj).
    destruct (Hai si Hsi) as (_&_&_&Hri&_), (Haj sj Hsj) as (_&_&_&Hrj&_). nia.
  - intros i j xi xj si sj Hi Hj Hsi Hsj Hii Hjj E.
    destruct (Hmine i xi Hi) as (Ei & _ & _ & _ & Hai), (Hmine j xj Hj) as (Ej & _ & _ & _ & Haj).
    destruct (Hai si Hsi) as (_&_&_&Hri&_), (Haj sj Hsj) as (_&_&_&Hrj&_). apply Nat2Z.inj. nia.
Qed.

(** ** A share and its verdict *)

Lemma split_one_line s : find_char (chr 10) s = None -> split_lines (s +:+ LF) = ([s], "").
Proof.
  intros Hs. rewrite split_lines_app. pose proof (split_lines_find s) as H. rewrite Hs in H. rewrite H.
  clear H. induction s as [|c s IH]; [done|]. cbn [find_char] in Hs. destruct (Ascii.eqb (chr 10) c) eqn:E; [done|].
  destruct (find_char (chr 10) s); [done|]. rewrite string_app_cons. cbn [split_lines].
  specialize (IH eq_refl). destruct (split_lines (s +:+ LF)) as [l r]. cbn in IH. injection IH as -> ->. by rewrite E.
Qed.

(** A transmission that is one line. *)
Lemma line_received now s line R s' : m_message s = "" -> find_char (chr 10) line = None ->
  trim line <> "" -> json_parse (trim line) = Some R ->
  processResponse name now R (put_newjobprocessed false (put_message "" s)) = (Ok tt, s') ->
  onRecvSocketDataCompleted name now EcOk (line +:+ LF) s = after_transmission (put_message "" s').
Proof.
  intros Hm Hl Ht Hj Hr. pose proof (transmission_processed name now s (line +:+ LF)) as H.
  rewrite Hm in H. change ("" +:+ (line +:+ LF)) with (line +:+ LF) in H. rewrite split_one_line in H by done.
  cbn [process_all] in H. unfold se_bind, process_line in H. apply String.eqb_neq in Ht.
  rewrite Ht, Hj, Hr in H. by apply H.
Qed.

(** The report of a verdict, and what it counts as. *)
Definition verdict_report (delay i : Z) (b : bool) : PoolClient.report :=
  if b then PoolClient.SolutionAccepted delay i false else PoolClient.SolutionRejected delay i.
Definition verdict_kind (b : bool) : SolutionAccountingEnum := if b then Accepted else Rejected.

(** The client's side of an answer: with one request pending, a reply line is one verdict. *)
Lemma answer_reported t1 t2 s u i line R r b :
  listening s u -> 0 <= m_stratumMode u < 3 ->
  m_response_pleas_count s = 1 -> m_response_plea_times s = [t1] -> m_response_plea_older s = t1 ->
  0 <= i -> 40 + i < 2 ^ 32 -> 40 + i <= m_solution_submitted_max_id s ->
  is_line line R -> message R (40 + i) "" -> jget_or R "result" jnull = Ok r -> view r = VBool b ->
  exists s', receive t2 (line +:+ LF) s = (Ok tt, s', [verdict_report (Z.quot (t2 - t1) 1000000) i b]).
Proof.
  intros [Hr Hcn Hmsg Hc] Hmode Hn Ht1 Ho Hi H32 Hmax (Hl & Ht & Hj) HR Hres Hv.
  set (s0 := put_newjobprocessed false (put_message "" (put_out [] s))).
  pose proof (verdict_reported name t2 s0 u t1 (40 + i) R r b Hc Hmode Hn Ht1 Ho ltac:(lia) Hmax HR Hres Hv) as Hrep.
  replace (40 + i - 40) with i in Hrep by lia.
  set (ev := if b then EvAccepted _ _ _ else _) in Hrep. set (s2 := put_out (out s0 ++ [ev]) _) in Hrep.
  exists (put_out [ev; EvRead] (put_message "" s2)).
  assert (Hrecv : apply_op name t2 (OReceived EcOk (line +:+ LF)) (put_out [] s) =
    (Ok tt, put_out [ev; EvRead] (put_message "" s2))).
  { cbn [apply_op]. rewrite (line_received t2 _ line R s2); try done. unfold after_transmission.
    cbn [m_newjobprocessed put_message s2 s0 put_out put_count put_older put_times put_newjobprocessed].
    change (Stratum.isConnected (put_message "" s2)) with (Stratum.isConnected s). rewrite Hcn.
    rewrite reads_on by by apply (ready_same s). done. }
  unfold receive. cbn [PoolClient.perform protocol PoolClient.stratum_client PoolClient.received proj1_sig].
  rewrite (PoolClient.outcome_of _ _ _ _ Hrecv). unfold ev, verdict_report. by destruct b.
Qed.

(** The farm's and the manager's side of a submission: a verified solution goes to the client. *)
Lemma proof_claimed t1 rnd ep (y : System) c sol sol' l s1 :
  proofs y = sol :: l -> submitProofAsync t1 sol (pm_farm (mgr y)) = (Ok (Some sol'), pm_farm (mgr y)) ->
  p_client (mgr y) = Some c -> Stratum.isConnected (cl y) = true ->
  submitSolution t1 sol' (put_out [] (cl y)) = (Ok tt, s1) -> omap PoolClient.stratum_report (out s1) = [] ->
  exists m1, run_proof find_epoch_number t1 rnd ep y = (Ok [Claimed (midx sol')], Build_System (Cli := protocol) s1 m1 l) /\
    pm_farm m1 = pm_farm (mgr y).
Proof.
  intros Hpr Hev Hp Hcn Es Hout.
  pose proof (PoolClient.outcome_of (submitSolution t1 sol') (cl y) _ _ Es) as Hsub. rewrite Hout in Hsub.
  set (m0 := put_trace [] (PoolManager.set_connected true (put_farm (pm_farm (mgr y)) (mgr y)))).
  exists (PoolManager.emit (ASubmitSolution sol') m0). split.
  - unfold run_proof. rewrite Hpr, Hev. unfold view_client, onSolutionFound. cbn [cl mgr].
    change (PoolClient.isConnected (cl y)) with (Stratum.isConnected (cl y)). rewrite Hcn. fold m0.
    assert (PoolManager.isConnected m0 = true) as ->.
    { unfold m0, PoolManager.isConnected, PoolManager.set_connected. cbn. by rewrite Hp. }
    change (trace (PoolManager.emit (ASubmitSolution sol') m0)) with [ASubmitSolution sol']. cbn [serve].
    unfold se_bind, client_call at 1. cbn [cl].
    change (PoolClient.submitSolution t1 sol' (cl y)) with (PoolClient.stratum_outcome (submitSolution t1 sol') (cl y)).
    rewrite Hsub. reflexivity.
  - unfold m0, PoolManager.set_connected. cbn. by rewrite Hp.
Qed.

(** The manager's side of a verdict: one counter of the miner, and the farm's. *)
Lemma verdict_counted t2 rnd ep m d i b a : 0 <= i -> accounts (pm_farm m) !! Z.to_nat i = Some a ->
  exists m', deliver_all find_epoch_number t2 rnd ep [verdict_report d i b] m = (Ok tt, m') /\
    accounts (pm_farm m') = <[Z.to_nat i := bump (verdict_kind b) t2 a]> (accounts (pm_farm m)) /\
    getSolutions (pm_farm m') = bump (verdict_kind b) t2 (getSolutions (pm_farm m)).
Proof.
  intros Hi0 Ha. assert (Hi : 0 <= i < Z.of_nat (length (accounts (pm_farm m)))) by (apply lookup_lt_Some in Ha; lia).
  destruct (accountSolution_in_range t2 i (verdict_kind b) (pm_farm m) Hi) as (a' & f' & Hacc & Ha' & Eacc & Etot & _).
  rewrite Ha in Ha'. injection Ha' as <-. exists (put_farm f' m). split; [|done]. cbn [deliver_all].
  assert (deliver find_epoch_number t2 rnd ep (verdict_report d i b) = onSolution (verdict_kind b) t2 i) as -> by by destruct b.
  assert (onSolution (verdict_kind b) t2 i m = (Ok tt, put_farm f' m)) as E by (unfold onSolution; by rewrite Hacc).
  by rewrite (run_ok _ _ _ _ _ E).
Qed.

(** C6: A share makes the round trip: a solution that passed the farm's verification is, when its turn
    comes on the farm's strand and the pool's client is connected, authorised and idle, written to the
    pool as exactly one request, which names the miner in its id; and when the pool's answer arrives as
    a line, the client reports one verdict, and of all the telemetry exactly that miner's counter and
    the farm's are increased by one. *)
Theorem share_round_trip (t1 t2 rnd : Z) (ep : string) (y : System) (c : client) (u : URI) (ss : Session)
    (sol sol' : Solution) (l : list Solution) (a : SolutionAccountType) (line : string) (R r : J) (b : bool) :
  proofs y = sol :: l -> submitProofAsync t1 sol (pm_farm (mgr y)) = (Ok (Some sol'), pm_farm (mgr y)) ->
  accounts (pm_farm (mgr y)) !! Z.to_nat (midx sol') = Some a -> p_client (mgr y) = Some c ->
  listening (cl y) u -> at_rest (cl y) -> 0 <= m_stratumMode u < 3 ->
  m_session (cl y) = Some ss -> authorized ss = true ->
  0 <= midx sol' -> 40 + midx sol' < 2 ^ 32 -> 0 <= exSizeBytes (work sol') <= 16 ->
  is_line line R -> message R (40 + midx sol') "" -> jget_or R "result" jnull = Ok r -> view r = VBool b ->
  let k := if b then Accepted else Rejected in
  exists j y1 y2 evs,
    run_proof find_epoch_number t1 rnd ep y = (Ok [Claimed (midx sol')], y1) /\
    submit_request u (workerId ss) (40 + midx sol') sol' = Ok j /\
    out (cl y1) = [EvWrite (line_of j)] /\ proofs y1 = l /\
    client_call find_epoch_number t2 rnd ep (receive t2 (line +:+ LF)) y1 = (Ok evs, y2) /\
    flat_map verdict_of evs = [Judged (midx sol') k] /\
    accounts (pm_farm (mgr y2)) = <[Z.to_nat (midx sol') := bump k t2 a]> (accounts (pm_farm (mgr y))) /\
    getSolutions (pm_farm (mgr y2)) = bump k t2 (getSolutions (pm_farm (mgr y))).
Proof.
  intros Hpr Hev Ha Hp [Hr Hcn Hmsg Hc] [Htx Hq Hb Hn Htm] Hmode Hss Hau Hm0 Hm1 Hex Hl HR Hres Hv k.
  destruct (submit_writes t1 (put_out [] (cl y)) u ss sol') as
    (j & s1 & Es & Ej & Hout & Hc1 & Hn1 & Ht1 & Ho1 & Hmax & Hr1 & Hcn1 & Hm1'); try done;
    [by apply (ready_same (cl y))|].
  destruct (answer_reported t1 t2 s1 u (midx sol') line R r b) as (s2 & Hrecv); try done;
    [split; try done; by rewrite Hm1' | rewrite Hmax; lia |].
  destruct (proof_claimed t1 rnd ep y c sol sol' l s1) as (m1 & Hrun & Hf1); try done; [by rewrite Hout|].
  rewrite <- Hf1 in Ha. destruct (verdict_counted t2 rnd ep m1 (Z.quot (t2 - t1) 1000000) (midx sol') b a Hm0 Ha)
    as (m2 & Hd & Ea & Eg). rewrite Hf1 in Ea, Eg.
  exists j, (Build_System (Cli := protocol) s1 m1 l), (Build_System (Cli := protocol) s2 m2 l), [verdict_report (Z.quot (t2 - t1) 1000000) (midx sol') b].
  split_and!; try done.
  - unfold client_call. cbn [cl]. rewrite Hrecv. cbn [mgr]. by rewrite Hd.
  - unfold k, verdict_report. by destruct b.
Qed.

(** ** A job and the miners *)

(** The manager's difficulty line can be printed: the suffix table is long enough (see Float). *)
Definition printable (bd : hash) : Prop :=
  exists d t, getHashesToTarget (hash_hex bd Add) = Ok d /\ getFormattedHashes d WithSuffix 2 = Ok t.

Lemma next_work_epoch mode wp cur : exists e, fst (next_work find_epoch_number mode wp cur) = set_epoch e wp.
Proof.
  unfold next_work. destruct (if epoch cur =? -1 then _ else _); [|by eexists].
  destruct (epoch wp =? -1); [by eexists|]. exists (epoch wp). by destruct wp.
Qed.

(** A received job: the manager keeps it, up to its epoch, and the farm distributes it. *)
Lemma work_distributed wp rnd s a : wp_bool wp = true -> p_client s ≫= PoolManager.m_conn = Some a ->
  printable (boundary wp) ->
  (forall e, exists f', Farm.setWork rnd (set_epoch e wp) (pm_farm s) = Ok f') ->
  exists e f' s', onWorkReceived find_epoch_number wp rnd s = (Ok tt, s') /\ pm_farm s' = f' /\
    pm_currentWp s' = set_epoch e wp /\ Farm.setWork rnd (set_epoch e wp) (pm_farm s) = Ok f'.
Proof.
  intros Hw Hc (d & t & Hd & Ht) Hf. unfold onWorkReceived. rewrite Hw, Hc. cbn [negb]. cbv zeta.
  destruct (next_work_epoch (m_stratumMode (deref a s)) wp (pm_currentWp s)) as [e He].
  destruct (next_work _ _ _ _) as [w ne]. cbn [fst] in He. subst w. destruct (Hf e) as [f' Ef].
  exists e, f'. set (s1 := if ne then _ else _).
  assert (H1 : pm_currentWp s1 = set_epoch e wp /\ pm_farm s1 = pm_farm s) by (unfold s1; by destruct ne).
  clearbody s1. destruct H1 as [Hcur Hfarm].
  assert (Hshow : exists t, showMiningAt s1 = Ok t).
  { unfold showMiningAt. rewrite Hcur. change (wp_bool (set_epoch e wp)) with (wp_bool wp). rewrite Hw.
    change (boundary (set_epoch e wp)) with (boundary wp). rewrite Hd. cbn [res_bind]. by exists t. }
  destruct Hshow as [t' Hshow]. rewrite Hshow, Hfarm, Ef.
  eexists. split; [by destruct (_ || _)|]. by split_and!.
Qed.

(** The client's side of a job: the line is one report, and the client goes on reading. *)
Lemma job_reported now s u ss line R p i jb sd hd :
  listening s u -> m_stratumMode u = 2 -> m_stratumModeConfirmed u = true ->
  m_session s = Some ss -> subscribed ss = true ->
  is_line line R -> message R i "mining.notify" -> jhas R "params" = Ok true -> jget R "params" = Ok p ->
  core_params p jb sd hd -> hash_ok 32 sd -> hash_ok 32 hd ->
  let wp := granted ss jb sd hd (m_current s) in
  exists s', receive now (line +:+ LF) s = (Ok tt, s', [PoolClient.WorkReceived wp]) /\ out s' = [EvWork wp; EvRead].
Proof.
  intros [Hr Hcn Hmsg Hc] Hmode Hconf Hss Hsub (Hl & Ht & Hj) HR Hhas Hget Hp Hsd Hhd wp.
  set (s0 := put_newjobprocessed false (put_message "" (put_out [] s))).
  pose proof (core_job_taken name now s0 u ss R p i jb sd hd Hc Hmode Hconf Hss Hsub eq_refl HR Hhas Hget Hp Hsd Hhd) as Hjob.
  set (s1 := put_newjobprocessed true _) in Hjob. exists (put_out [EvWork wp; EvRead] (put_message "" s1)).
  assert (Hrecv : apply_op name now (OReceived EcOk (line +:+ LF)) (put_out [] s) =
    (Ok tt, put_out [EvWork wp; EvRead] (put_message "" s1))).
  { cbn [apply_op]. rewrite (line_received now _ line R s1); try done.
    unfold after_transmission. cbn [m_newjobprocessed put_message s1 put_newjobprocessed].
    match goal with |- context [Stratum.isConnected ?z] => change (Stratum.isConnected z) with (Stratum.isConnected s) end.
    rewrite Hcn. rewrite reads_on by by apply (ready_same s). done. }
  unfold receive. cbn [PoolClient.perform protocol PoolClient.stratum_client PoolClient.received proj1_sig].
  by rewrite (PoolClient.outcome_of _ _ _ _ Hrecv).
Qed.

(** C4: A job reaches every miner: on a connected client of the CoreStratum flavour whose session has
    an extranonce of [n] hexadecimal digits, the line of a job announcement makes the manager give
    every miner that is not paused exactly the announced job - its name, header and seed, with the
    boundary of the session - in the same step in which the line is received, each miner with a nonce
    segment of its own inside the range the extranonce leaves; and the client goes on reading. *)
Theorem job_reaches_miners (now rnd : Z) (ep : string) (y : System) (u : URI) (ss : Session)
    (line : string) (R p : J) (i : Z) (jb : string) (sd hd : hash) (a n : nat) (v : Z) :
  listening (cl y) u -> m_stratumMode u = 2 -> m_stratumModeConfirmed u = true ->
  m_session (cl y) = Some ss -> subscribed ss = true ->
  is_line line R -> message R i "mining.notify" -> jhas R "params" = Ok true -> jget R "params" = Ok p ->
  core_params p jb sd hd -> hash_ok 32 sd -> hash_ok 32 hd -> hash_eq hd (h_zero 32) = false ->
  (1 <= n <= 15)%nat -> extraNonceSizeBytes ss = Z.of_nat n -> 0 <= v < 16 ^ Z.of_nat n ->
  extraNonce ss = v * 16 ^ Z.of_nat (16 - n) -> printable (nextWorkBoundary ss) ->
  p_client (mgr y) ≫= PoolManager.m_conn = Some a ->
  0 < Z.of_nat (length (m_miners (pm_farm (mgr y)))) <= 16 ^ Z.of_nat (16 - n) ->
  Z.of_nat (length (m_miners (pm_farm (mgr y)))) < 2 ^ 32 ->
  exists wp y', client_call find_epoch_number now rnd ep (receive now (line +:+ LF)) y =
      (Ok [PoolClient.WorkReceived wp], y') /\ out (cl y') = [EvWork wp; EvRead] /\
    forall q x, m_miners (pm_farm (mgr y')) !! q = Some x -> Miner.paused (fm x) = false ->
      let w := m_work (fm x) in let width := 2 ^ m_nonce_segment_with (pm_farm (mgr y')) in
      job w = jb /\ header w = hd /\ seed w = sd /\ boundary w = nextWorkBoundary ss /\
      exSizeBytes w = Z.of_nat n /\ startNonce w = extraNonce ss + Z.of_nat q * width /\
      startNonce w + width <= extraNonce ss + 16 ^ Z.of_nat (16 - n).
Proof.
  intros Hls Hmode Hconf Hss Hsub Hl HR Hhas Hget Hp Hsd Hhd Hnz Hn Hen Hv Hst Hpr Hcl Hm Hm32.
  destruct (job_reported now (cl y) u ss line R p i jb sd hd) as (s1 & Hrecv & Hout); try done.
  set (wp := granted ss jb sd hd (m_current (cl y))) in Hrecv, Hout.
  assert (Hex : exSizeBytes wp = Z.of_nat n).
  { unfold wp, granted. cbn. rewrite Hen. apply wrap_id. split; lia. }
  pose proof (fun e => extranonce_segments rnd (set_epoch e wp) (pm_farm (mgr y)) n v Hex Hn Hv Hst Hm Hm32) as Hseg.
  destruct (work_distributed wp rnd (mgr y) a) as (e & f' & m' & Hwork & Hf & _ & Hset); try done.
  { unfold wp_bool. change (header wp) with hd. by rewrite Hnz. }
  { intros e. destruct (Hseg e) as (f' & w & Hf & _). by exists f'. }
  destruct (Hseg e) as (f2 & w & Hset' & Hwd & Hw0 & _ & Hfit & _ & _ & Hx). rewrite Hset in Hset'. injection Hset' as <-.
  exists wp, (Build_System (Cli := protocol) s1 m' (proofs y)). split_and!; [| done |].
  - unfold client_call. rewrite Hrecv. cbn [deliver_all].
    assert (Hd : deliver find_epoch_number now rnd ep (PoolClient.WorkReceived wp) (mgr y) = (Ok tt, m')) by exact Hwork.
    rewrite (run_ok _ _ _ _ _ Hd). reflexivity.
  - cbn [mgr]. rewrite Hf, Hwd. intros q x Hq Hpa. destruct (Hx q x Hq Hpa) as [Hlt ->].
    destruct (segment_step q (length (m_miners (pm_farm (mgr y)))) w Hw0 Hlt).
    split_and!; try done. change (startNonce (set_epoch e wp)) with (extraNonce ss). cbn [startNonce set_startNonce]. lia.
Qed.

End shares.

(** ** Witnesses *)

#[local] Existing Instance Farm.zero_ethash.
#[local] Existing Instance BoostModel.boost.
#[local] Existing Instance JsonModel.json.
#[local] Existing Instance BigIntegerModel.instance.
#[local] Existing Instance DoubleTextModel.instance.

(** The second of the miners, after one turn in which every nonce passes. *)
Lemma shares_distinct_witness : exists f' x, Farm.setWork 0 example_work example_farm = Ok f' /\
  m_miners f' !! 1%nat = Some x /\ length (searched (fun _ => h_zero 32) [quiet_turn] x) = 30%nat /\
  NoDup (nonce <$> searched (fun _ => h_zero 32) [quiet_turn] x).
Proof.
  destruct (shares_distinct (fun _ => h_zero 32) 0 example_work example_farm 4 0xabcd (fun _ => [quiet_turn]))
    as (f' & Hf & Hall & _); [reflexivity | lia | lia | reflexivity | by_evaluation | by_evaluation |
      intros _; by repeat constructor |].
  assert (Hx : exists x, m_miners f' !! 1%nat = Some x /\ Miner.paused (fm x) = false /\
    startNonce (m_work (fm x)) + 30 < 2 ^ 64 /\ length (searched (fun _ => h_zero 32) [quiet_turn] x) = 30%nat).
  { clear Hall. assert (E : match Farm.setWork 0 example_work example_farm with Ok g => Some g | Throw _ => None end = Some f')
      by by rewrite Hf. clear Hf. vm_compute in E. injection E as <-.
    eexists. split; [reflexivity|]. split_and!; vm_compute; reflexivity. }
  destruct Hx as (x & Hx & Hp & Hs & Hl). exists f', x. split_and!; [done..|].
  apply (Hall 1%nat x). by split_and!.
Defined.

(** The end of the segment is not looked at: with fifteen digits of extranonce each of three miners has
    four nonces; the first two then find the same nonce in their first block, the first outside its
    segment. *)
Theorem segments_overrun : exists f' x0 x1 s0 s1,
  Farm.setWork 0 (set_exSizeBytes 15 (set_startNonce 0xabcdef0123456780 example_work)) example_farm = Ok f' /\
  m_nonce_segment_with f' = 2 /\ m_miners f' !! 0%nat = Some x0 /\ m_miners f' !! 1%nat = Some x1 /\
  s0 ∈ searched (fun _ => h_zero 32) [quiet_turn] x0 /\ s1 ∈ searched (fun _ => h_zero 32) [quiet_turn] x1 /\
  nonce s0 = nonce s1 /\ midx s0 <> midx s1 /\ startNonce (m_work (fm x0)) + 2 ^ 2 <= nonce s0.
Proof.
  eexists _, _, _, _, _. split; [vm_compute; reflexivity|]. split; [vm_compute; reflexivity|].
  split; [reflexivity|]. split; [reflexivity|].
  split; [apply (list_elem_of_lookup_2 _ 4); vm_compute; reflexivity|].
  split; [apply (list_elem_of_lookup_2 _ 0); vm_compute; reflexivity|].
  split; [reflexivity|]. split; [vm_compute; discriminate | vm_compute; discriminate].
Qed.

(** Three miners, a manager with a client for its only connection. *)
Definition example_manager : PoolManager :=
  put_client (Some {| c_family := PF_STRATUM; PoolManager.m_connected := true; PoolManager.m_conn := Some 0%nat |})
    (PoolManager_new example_pool_settings [example_uri "stratum1+tcp://a@1.2.3.4:1"] [0%nat]
      (snd (Farm.start 0 (Farm_new example_devices {| dagLoadMode := 0; noEval := true; ergodicity := 0 |} 0 77)))).
Definition example_started (c : Stratum) (l : list Solution) : System (Cli := protocol "cm") :=
  Build_System (Cli := protocol "cm") c example_manager l.

Definition example_pool (mode : Z) : URI := example_target "stratum+tcp" mode true.
Definition example_share : Solution :=
  {| nonce := 7; mixHash := h_zero 32; work := WorkPackage_default; tstamp := 0; midx := 2 |}.
Definition example_answer : @J JsonModel.json :=
  obj [("id", JsonModel.JInt 42); ("result", JsonModel.JBool true)].
Definition example_round_trip : System (Cli := protocol "cm") := example_started example_authorized [example_share].

Lemma unverified now sol f : noEval (m_Settings f) = true -> submitProofAsync now sol f = (Ok (Some sol), f).
Proof. intros E. unfold submitProofAsync. by rewrite E. Qed.

(** The text form of a message, as a line. *)
Lemma answer_line : trim (JsonModel.write example_answer) = JsonModel.write example_answer.
Proof. vm_compute. reflexivity. Qed.
Lemma answer_is_line : is_line (JsonModel.write example_answer) example_answer.
Proof.
  split_and!; [vm_compute; reflexivity | rewrite answer_line; vm_compute; discriminate |].
  rewrite answer_line. apply JsonModel.parse_write.
Qed.

Lemma share_round_trip_witness : exists y1, run_proof (Cli := protocol "cm") (fun _ => 0) 1000000 0 "" example_round_trip = (Ok [Claimed 2], y1).
Proof.
  pose proof (share_round_trip "cm" (fun _ => 0) 1000000 5000000 0 "" example_round_trip
    {| c_family := PF_STRATUM; PoolManager.m_connected := true; PoolManager.m_conn := Some 0%nat |}
    (example_pool 0) (set_authorized true (Session_new 0)) example_share example_share []
    (SolutionAccount_new 0) (JsonModel.write example_answer) example_answer (JsonModel.JBool true) true) as H.
  specialize (H eq_refl
    (unverified 1000000 example_share (pm_farm (mgr example_round_trip)) ltac:(vm_compute; reflexivity))
    ltac:(vm_compute; reflexivity) eq_refl
    ltac:(split; [apply (plain_ready (example_pool 0) true); reflexivity | reflexivity ..]) ltac:(split; reflexivity) ltac:(cbn; lia) eq_refl eq_refl
    ltac:(cbn; lia) ltac:(cbn; lia) ltac:(cbn; lia)
    answer_is_line
    ltac:(message_ok) eq_refl eq_refl).
  destruct H as (j & y1 & y2 & evs & H & _). exists y1. exact H.
Defined.

Definition example_core_job : @J JsonModel.json := obj [("method", str "mining.notify");
  ("params", arr [str "job7"; str (hash_hex (replicate 32 2) Add); str (hash_hex (replicate 32 1) Add)])].
Definition example_core_session : Session :=
  set_extraNonce 0xabcd000000000000 (set_extraNonceSizeBytes 4 (set_subscribed true (Session_new 0))).
Definition example_waiting : System (Cli := protocol "cm") :=
  example_started (put_session (Some example_core_session) (example_idle (example_pool 2))) [].

Lemma core_job_line : trim (JsonModel.write example_core_job) = JsonModel.write example_core_job.
Proof. vm_compute. reflexivity. Qed.
Lemma core_job_is_line : is_line (JsonModel.write example_core_job) example_core_job.
Proof.
  split_and!; [vm_compute; reflexivity | rewrite core_job_line; vm_compute; discriminate |].
  rewrite core_job_line. apply JsonModel.parse_write.
Qed.
Lemma example_printable : printable (nextWorkBoundary example_core_session).
Proof. eexists _, _. split; [vm_compute; reflexivity | vm_compute; reflexivity]. Qed.
Lemma example_miners : length (m_miners (pm_farm (mgr example_waiting))) = 3%nat.
Proof. vm_compute. reflexivity. Qed.

Lemma job_reaches_miners_witness : exists wp y',
  client_call (Cli := protocol "cm") (fun _ => 0) 5 0 "" (receive "cm" 5 (JsonModel.write example_core_job +:+ LF))
    example_waiting = (Ok [PoolClient.WorkReceived wp], y').
Proof.
  destruct (job_reaches_miners "cm" (fun _ => 0) 5 0 "" example_waiting (example_pool 2) example_core_session
    (JsonModel.write example_core_job) example_core_job
    (arr [str "job7"; str (hash_hex (replicate 32 2) Add); str (hash_hex (replicate 32 1) Add)]) 0 "job7"
    (replicate 32 2) (replicate 32 1) 0 4 0xabcd
    ltac:(split; [apply (plain_ready (example_pool 2) true); reflexivity | reflexivity ..])
    eq_refl eq_refl eq_refl eq_refl
    core_job_is_line ltac:(message_ok)
    eq_refl eq_refl ltac:(split_and!; [reflexivity | cbn; lia | reflexivity ..]) ltac:(by_evaluation) ltac:(by_evaluation)
    ltac:(vm_compute; reflexivity) ltac:(lia) eq_refl ltac:(by_evaluation) eq_refl example_printable eq_refl
    ltac:(rewrite example_miners; by_evaluation) ltac:(rewrite example_miners; by_evaluation)) as (wp & y' & H & _).
  exists wp, y'. exact H.
Defined.
